(* ===== verification/_CoqProject ===== *)
-Q . S2P
Prelude.v
GoFloat.v
GoNet.v
ByteCount.v
IpHosts.v
Wire.v
FlowKey.v
Network.v
Ring.v
World.v
Json.v
Logging.v
Cli.v
Session.v
Client.v
ClientLoops.v
ClientSpec.v
ClientDisconnect.v
ClientConnect.v
ClientInv.v
Demo.v
ClientProps.v
ClientTraffic.v
Server.v
ServerSpec.v
ServerInv.v
DemoServer.v
ServerProps.v
ServerTraffic.v
SessionProps.v
Netlink.v
Status.v
KeepAlive.v
Loops.v
Aggregator.v
AggregatorProps.v
Main.v
Delivery.v
System.v
Chan.v
Async.v
ExpWorld.v
ExpClient.v
ExpServer.v
ExpSpec.v
ExpConnect.v
ExpServerSpec.v
ExpInv.v
ExpServerInv.v
ExpSched.v
ExpTraffic.v
ExpDemo.v
ExpProps.v
