(* ===== verification/Prelude.v ===== *)
(** * Verification of ratbond

    Ratbond bonds several WAN links into one tunnel.  A client reads IP packets
    from a tun interface and sends each over one of its KCP connections, one per
    WAN link, to a server, which writes them to its own tun interface; replies
    take the same way back.  This library is a model of the Go program under
    [src/] and the proofs of what it does.

    ** The program and how its parts interact

    [main] (main.go) parses the command line into the globals, sets kernel
    buffers and runs one of three modes.  The client ([run_client]) listens to
    netlink: a default route that appears connects its interface
    ([client_connect_server]), an interface or route that goes takes its links
    down ([client_disconnect_session_by_ifname], [_by_src]).  Every connection
    has a reader goroutine ([client_handle_kcp]), every tunnel one reader of its
    tun interface ([client_handle_tun]), and the main loop sends keep-alives,
    expires silent connections and keeps the default route.  The server
    ([run_server]) accepts KCP connections ([server_accept_conn]), each with a
    reader, and mirrors the rest.  The ends talk over KCP alone: packets,
    keep-alives, and the client's LINKDOWN message that names a connection which
    went.  The third mode ([run_aggregator]) obtains a command line from an MQTT
    broker and starts the client with it.

    ** Files

    - [Prelude]: machine integers, record update, the state and error monad [M]
      with outcomes [Ret], [Panic], [Exit], [Deadlock], and its reasoning: [wp]
      (returns, in a state of the postcondition), [wlp] (if it returns),
      [preserves] (an invariant, also across panics), [respects] (a relation of
      start and end state), each with a tactic and a hint database.
    - [GoFloat], [GoNet], [Json]: what the program uses of the Go standard library:
      floats and durations, package net with netip, decoding of string arrays.
    - [ByteCount], [IpHosts] (p_utils.go), [Network] (p_network.go), [Logging]
      (p_logging.go), [Status] (p_utils.go, r_http.go), [Cli] ([parse_cli]).
    - [Wire], [FlowKey] (main.go): control messages and their tests; the keys of
      the packet scheduler.
    - [Ring]: the interface of the consistent hash, with an implementation.
    - [World]: the data of main.go, the state of the process, the outside.
    - [Session] (r_tunnel.go and the session set-up of main.go).
    - [Client], [ClientLoops] (main.go): the functions [client_*], in source order.
      [ClientSpec], [ClientDisconnect], [ClientConnect]: abstract state and
      refinement; [ClientInv]: step relation; [ClientProps], [ClientTraffic]:
      theorems; [Demo]: a concrete run.
    - [Server] (main.go): the functions [server_*]; [ServerSpec], [ServerInv],
      [ServerProps], [ServerTraffic], [DemoServer] as for the client.
    - [SessionProps]: the KCP parameters of both ends.
    - [Netlink] (p_netlink.go); [KeepAlive]: what a pass of keep-alives does;
      [Loops] ([run_client], [run_server]).
    - [Aggregator], [AggregatorProps] (p_aggregator.go, p_mqtt.go); [Main] ([main]).
    - [Delivery]: what the readers of an end make of any reads; [System]: the two
      ends composed.
    - [Chan]: buffered channels; [Async] ([runthing_async], p_runthings.go).
    - The channel experiment (src/t/main_withchannels.go), an earlier form of the
      program with its own [main]: [ExpWorld] (data, heaps, effects), [ExpClient]
      and [ExpServer] (its functions, in source order); [ExpSpec], [ExpConnect],
      [ExpServerSpec]: abstract state and refinement; [ExpInv], [ExpServerInv]: step
      relations; [ExpSched], [ExpTraffic]: choice of connections, packets in
      buffers and channels; [ExpDemo]: concrete runs; [ExpProps]: theorems.

    ** How state and operations correspond

    A Go function is a definition of the same name.  A function of the running
    program is in [W], the monad on [world], which holds the globals
    [g_server_list] and [g_client_list], the heaps of the connection records
    (the maps of a tunnel hold pointers, [loc], as in Go: a goroutine can hold a
    record that left the map), a counter of outside calls and the trace of
    effects.  The globals that are only set at start are the record [config].
    [RatSession], [serverConnection], [clientConnection], [serverType] and
    [clientType] are the structs of the source; a nil map or pointer is [None], and
    dereferencing it is [Panic].  A [sync.Mutex] is a flag: taking a taken one is
    [Deadlock].  [os.Exit] and [l.Fatal] are [Exit].  [aggregator] adds the
    globals of the MQTT files to the world and the flags.

    An endless loop is given by one turn, with its local variables as
    argument and result, and by its iteration.  A [range] over a map visits the
    keys in an order the outside chooses and re-reads the map at every key.

    ** Parameters and their laws

    [Env]: clock, map order, commands, devices, sockets, host look-up, KCP, each
    a function of the counter of calls, so that a statement for all
    environments is one for all answers ([EnvLaws]: a [range] visits each key
    once; an [int] has 32 or 64 bits).  [Consistent]: the hash ring
    (stathat.com/c/consistent; [ConsistentCanonical]: its choice is a function of
    the members).  [HeaderParser]: [ipv4.ParseHeader].  [Kong]: the
    flag parser.  [Startup]: the syslog daemon and the version.  [Logrus]: the
    dispatch of log entries.  [Mqtt]: the broker
    library.  [StatusEnv]: what the status text reads of pointers, counters and
    times.  [KcpLaws] (channel experiment): NewConn3 gives a session of the id asked
    for.  Each law is an instance for a concrete parameter in the witnesses.

    ** Theorems

    The abstract state of a client's tunnel is its map of links ([links]: id to
    interface and source address), that of a server's tunnel its map of peers
    ([peers]: id to KCP session).  [client_ok] and [server_ok] are the
    well-formedness of the records behind them.

    - The invariants in every state the goroutines reach, and refinement: C1 to
      C3, C10 to C12; a connect returns: C15.
    - The two ends together: when they list the same connections again after an
      interface went down (C4), how packets cross, unchanged, in both directions
      (C6), a reply takes the connection of its flow (C7, C16).
    - The scheduler: C23 to C25.  Messages: C17, C18.
    - Keep-alives, expiry and readers: C26, C28 to C31; netlink: C32.
    - Start: command line C13; [main] C33; the aggregator reaches the running
      client (C5) and never starts another argv (C14).
    - The channel experiment: the goroutines of both ends keep tunnels, channels
      and buffers well-formed (C8, C9); connects and peers (C19, C21); the ends
      agree (C20); how a packet crosses buffer, channel and session (C22); the choice
      of a connection ends (C27); what goes wrong with waiting packets (C36).
    - Diagnostics: C39, C40.
    - What the code does at its limits: C34, C35, C37, C38.

    Theorems that no number names are lemmas of the library with a meaning of
    their own, such as [linkdown_removes_peer], [merged_report_lost], [default_route_follows], [receive_forwards],
    [slot_search_ends], [tunnel_block], [IpHosts_block] and [ByteCountBinary_spec].

    ** Fuel and bounds

    [find_slot] gets [12 + size] turns and provably ends within them.  A byte
    count takes at most six turns of eight.  [IpHosts] takes its fuel as an
    argument: [IpHosts_block] gives enough for a prefix, [parse_cli] uses 5, enough for the
    only block it accepts (/30), and [IpHosts_zero_diverges] shows that on /0 no
    fuel is.  The JSON decoder has the length of its text.  The endless loops run
    for [turns] turns; their theorems are about one turn, or about every number
    of turns.  Tunnel ids [tid] in the theorems on connecting satisfy [0 < tid]
    and [tid + 11 < 2^32]; ids are ports, so at most [2^16].  [client_pick] ends
    when its fuel exceeds the number of connections (C27).

    ** Not modelled

    The operations of the step relations are atomic: goroutines interleave
    between them, at the granularity of one turn or one call, and not inside,
    where the source is not free of races.  A step that panics ends the process,
    so reachability follows normal returns; that operations return is stated
    separately.  In particular [client_connect_server] is one step, although the
    source takes and releases the mutex of the tunnel between its search for a
    slot and the insertion: two connects at the same moment are not covered.

    KCP between the ends is not modelled: it carries no message boundaries in
    stream mode, which the program sets, and nothing is assumed of it.  The
    theorems on both ends (C4, C6, C22) say what an end writes, and what the other
    end makes of any reads at all; that a write comes out as a read of its own is
    never a hypothesis, and where it does not [merged_report_lost] and
    [stream_loses_packets] show what follows.

    The start of the log and its first entry are in [parse_cli] ([start_logging]),
    where a lost syslog daemon panics.  Where that entry was written no later one
    fails ([log_returns]): the other log calls have no effect on the state and
    are left out, except those of the periodic housekeeping, whose arguments
    dereference: they are in [Status], and section [harmless] shows when they do nothing
    else.  The reorder buffer is
    left out, as no code fills it; [WritePacket] only traces;
    [reverse] and [ratbond_something] have no caller; the redirection of the
    MQTT library's loggers is configuration.  The netlink subscriptions are
    lists of the updates they deliver.

    In the channel experiment log calls are left out with their arguments, the
    tables it prints and the ping goroutines included, which run a third-party
    pinger for the log; the netlink functions it calls are in no file beside it,
    so the route poll is a parameter and the subscriptions are started
    goroutines.  [fill] takes what a Read of the tun interface returned, which in
    Go is never longer than the buffer it was given, and so does not cut it.  The two ends run as two processes: each has a step relation
    and a state of its own. *)
From stdpp Require Import base gmap sets list strings pretty.
From Stdlib Require Import ZArith Lia Ascii.

Declare Scope ratbond_scope.
Delimit Scope ratbond_scope with rb.
#[global] Open Scope Z_scope.

(** ** Machine integers of Go, as [Z] with the wrap-around written out *)

Definition u8 (z : Z) : Z := z mod 2 ^ 8.
Definition u16 (z : Z) : Z := z mod 2 ^ 16.
Definition u32 (z : Z) : Z := z mod 2 ^ 32.
Definition u64 (z : Z) : Z := z mod 2 ^ 64.

(** [wrap_int n z]: the two's complement value of [z] on [n] bits. *)
Definition wrap_int (n z : Z) : Z :=
  (z + 2 ^ (n - 1)) mod 2 ^ n - 2 ^ (n - 1).

(** ** Field update of records

    [r <| f := v |>] is the Go assignment [r.f = v].  A record type declares
    its eta expansion as an instance of [Settable]; the setter of a field is
    computed from it. *)

Class Settable (R : Type) := mkT : R → R.
Class Setter {R T : Type} (proj : R → T) := setf : (T → T) → R → R.
#[global] Arguments setf {R T} proj {_} f r.
#[global] Arguments mkT {R _} r /.

Ltac solve_setter :=
  match goal with
  | |- @Setter ?R ?T ?proj =>
      let mk := constr:(_ : Settable R) in
      let f := fresh "f" in
      let r := fresh "r" in
      intros f r;
      let b := eval hnf in (mk r) in
      let p := eval pattern (proj r) in b in
      match p with
      | ?F _ =>
          let t := eval cbv beta in (F (f (proj r))) in
          exact t
      end
  end.

#[global] Hint Extern 1 (Setter _) => solve_setter : typeclass_instances.

Notation "r <| f := v |>" := (setf f (fun _ => v) r)
  (at level 1, f at next level, left associativity, format "r <| f  :=  v |>").
Notation "r <| f ::= g |>" := (setf f g r)
  (at level 1, f at next level, left associativity, format "r <| f  ::=  g |>").

(** ** Results of a Go call

    [Ret]: the call returns; [Panic]: a run-time panic (nil dereference, index
    out of range, [l.Panicf]); [Exit]: [os.Exit]; [Deadlock]: the goroutine
    locks a mutex it already holds and never continues. *)

Inductive outcome (A : Type) : Type :=
| Ret (a : A)
| Panic (msg : string)
| Exit (code : Z)
| Deadlock.

#[global] Arguments Ret {A} a.
#[global] Arguments Panic {A} msg.
#[global] Arguments Exit {A} code.
#[global] Arguments Deadlock {A}.

(** State and abnormal termination; the state reached is kept in every case. *)
Definition M (S A : Type) : Type := S → outcome A * S.

#[export] Instance M_ret (S : Type) : MRet (M S) := fun A a s => (Ret a, s).
#[export] Instance M_bind (S : Type) : MBind (M S) := fun A B k m s =>
  match m s with
  | (Ret a, s') => k a s'
  | (Panic msg, s') => (Panic msg, s')
  | (Exit c, s') => (Exit c, s')
  | (Deadlock, s') => (Deadlock, s')
  end.

Definition getS {S : Type} : M S S := fun s => (Ret s, s).
Definition gets {S A : Type} (f : S → A) : M S A := fun s => (Ret (f s), s).
Definition modify {S : Type} (f : S → S) : M S unit := fun s => (Ret tt, f s).
Definition panic {S A : Type} (msg : string) : M S A := fun s => (Panic msg, s).
Definition exit {S A : Type} (code : Z) : M S A := fun s => (Exit code, s).
Definition deadlock {S A : Type} : M S A := fun s => (Deadlock, s).
Definition whenM {S : Type} (b : bool) (m : M S unit) : M S unit :=
  if b then m else mret tt.

(** A [for] loop over the elements of a list, without a result. *)
Fixpoint for_each {S K : Type} (l : list K) (body : K → M S unit) : M S unit :=
  match l with
  | [] => mret tt
  | k :: l' => body k ;; for_each l' body
  end.

(** Dereference of a possibly nil pointer. *)
Definition deref {S A : Type} (what : string) (p : option A) : M S A :=
  match p with Some a => mret a | None => panic what end.

(** The result of a pure function that may panic. *)
Definition lift {S A : Type} (o : outcome A) : M S A := fun s => (o, s).

(** ** Pre and postconditions: [Q] holds of a normal return, [E] of the state
    of an abnormal one. *)

Definition hoare {S A : Type} (P : S → Prop) (m : M S A)
    (Q : A → S → Prop) (E : S → Prop) : Prop :=
  ∀ s, P s → match m s with (Ret a, s') => Q a s' | (_, s') => E s' end.

(** [I] is kept by [m], however [m] ends. *)
Definition preserves {S A : Type} (I : S → Prop) (m : M S A) : Prop :=
  ∀ s, I s → I (m s).2.

(** From [s], [m] returns normally with a result and a state of [Q]. *)
Definition wp {S A : Type} (m : M S A) (Q : A → S → Prop) (s : S) : Prop :=
  ∃ a s', m s = (Ret a, s') ∧ Q a s'.

(** If [m] returns normally from [s], the result and state are in [Q]. *)
Definition wlp {S A : Type} (m : M S A) (Q : A → S → Prop) (s : S) : Prop :=
  ∀ a s', m s = (Ret a, s') → Q a s'.

(** ** Strings of Go *)

(** [strings.HasPrefix]. *)
Fixpoint has_prefix (p s : string) : bool :=
  match p, s with
  | EmptyString, _ => true
  | String a p', String b s' => bool_decide (a = b) && has_prefix p' s'
  | String _ _, EmptyString => false
  end.

(** [strings.Contains s sub]. *)
Fixpoint contains (s sub : string) : bool :=
  has_prefix sub s ||
  match s with EmptyString => false | String _ s' => contains s' sub end.

Definition digit_val (c : ascii) : option Z :=
  let n := Z.of_N (N_of_ascii c) in
  if bool_decide (48 <= n <= 57) then Some (n - 48) else None.

(** Value of a string of decimal digits; [None] when another byte occurs. *)
Fixpoint dec_value (s : string) (acc : Z) : option Z :=
  match s with
  | EmptyString => Some acc
  | String c s' =>
      match digit_val c with
      | Some d => dec_value s' (acc * 10 + d)
      | None => None
      end
  end.

(** [strconv.Atoi] for an [int] of [n] bits: value and error. *)
Definition Atoi (n : Z) (s : string) : Z * option string :=
  let '(neg, digits) :=
    match s with
    | String "-"%char s' => (true, s')
    | String "+"%char s' => (false, s')
    | _ => (false, s)
    end in
  match digits with
  | EmptyString => (0, Some "invalid syntax")
  | _ =>
      match dec_value digits 0 with
      | None => (0, Some "invalid syntax")
      | Some v =>
          let z := if (neg : bool) then - v else v in
          if bool_decide (z < - 2 ^ (n - 1)) then (- 2 ^ (n - 1), Some "value out of range")
          else if bool_decide (2 ^ (n - 1) <= z) then (2 ^ (n - 1) - 1, Some "value out of range")
          else (z, None)
      end
  end.

(** [fmt.Sprintf("%d", z)]. *)
Definition fmt_d (z : Z) : string := pretty z.

Definition hex_digit (n : Z) : ascii :=
  ascii_of_N (Z.to_N (if bool_decide (n < 10) then 48 + n else 87 + n)).

(** [fmt.Sprintf("%x", b)] for a byte [b]: no leading zero. *)
Definition fmt_x (b : Z) : string :=
  if bool_decide (b < 16) then String (hex_digit b) EmptyString
  else String (hex_digit (b / 16)) (String (hex_digit (b mod 16)) EmptyString).

(** ** Generic lemmas *)

Lemma string_app_assoc (a b c : string) : (a +:+ b) +:+ c = a +:+ (b +:+ c).
Proof.
  induction a as [|x a IH]; [done|].
  change (String x ((a +:+ b) +:+ c) = String x (a +:+ b +:+ c)). by rewrite IH.
Qed.

Section monad.
Context {S : Type}.

Lemma bind_ret {A B : Type} (m : M S A) (k : A → M S B) s a s' :
  m s = (Ret a, s') → (m ≫= k) s = k a s'.
Proof. intros H. unfold mbind, M_bind. by rewrite H. Qed.

Lemma bind_assoc {A B C : Type} (m : M S A) (k : A → M S B) (h : B → M S C) s :
  ((m ≫= k) ≫= h) s = (m ≫= (fun a => k a ≫= h)) s.
Proof. unfold mbind, M_bind. by destruct (m s) as [[] ?]. Qed.

Lemma preserves_bind {A B : Type} I (m : M S A) (k : A → M S B) :
  preserves I m → (∀ a, preserves I (k a)) → preserves I (m ≫= k).
Proof.
  intros Hm Hk s Hs. unfold mbind, M_bind. specialize (Hm s Hs).
  destruct (m s) as [[] s'] eqn:E; simpl in *; eauto. by apply Hk.
Qed.
Lemma preserves_ret {A : Type} I (a : A) : preserves I (mret a : M S A).
Proof. intros s Hs. exact Hs. Qed.
Lemma preserves_gets {A : Type} I (f : S → A) : preserves I (gets f).
Proof. intros s Hs. exact Hs. Qed.
Lemma preserves_panic {A : Type} I msg : preserves I (panic msg : M S A).
Proof. intros s Hs. exact Hs. Qed.
Lemma preserves_exit {A : Type} I c : preserves I (exit c : M S A).
Proof. intros s Hs. exact Hs. Qed.
Lemma preserves_deadlock {A : Type} I : preserves I (deadlock : M S A).
Proof. intros s Hs. exact Hs. Qed.
Lemma preserves_modify I (f : S → S) : (∀ s, I s → I (f s)) → preserves I (modify f).
Proof. intros H s Hs. by apply H. Qed.
Lemma preserves_whenM I b (m : M S unit) : preserves I m → preserves I (whenM b m).
Proof. intros H. destruct b; [done|apply preserves_ret]. Qed.
Lemma preserves_deref {A : Type} I what (p : option A) :
  preserves I (deref what p : M S A).
Proof. destruct p; [apply preserves_ret|apply preserves_panic]. Qed.
Lemma preserves_lift {A : Type} I (o : outcome A) : preserves I (lift o : M S A).
Proof. intros s Hs. exact Hs. Qed.
Lemma preserves_getS I : preserves I (getS : M S S).
Proof. intros s Hs. exact Hs. Qed.
Lemma preserves_for_each {K : Type} I (l : list K) (body : K → M S unit) :
  (∀ k, k ∈ l → preserves I (body k)) → preserves I (for_each l body).
Proof.
  induction l as [|k l IH]; intros H; simpl; [apply preserves_ret|].
  apply preserves_bind; [apply H; set_solver|]. intros _. apply IH. set_solver.
Qed.
Lemma preserves_weaken {A : Type} (I J : S → Prop) (m : M S A) :
  (∀ s, I s ↔ J s) → preserves I m → preserves J m.
Proof. intros H Hm s Hs. apply H, Hm, H, Hs. Qed.

Lemma hoare_bind {A B : Type} P (m : M S A) (k : A → M S B) R Q E :
  hoare P m R E → (∀ a, hoare (R a) (k a) Q E) → hoare P (m ≫= k) Q E.
Proof.
  intros Hm Hk s Hs. specialize (Hm s Hs). unfold mbind, M_bind.
  destruct (m s) as [[] s']; simpl in *; eauto. by apply Hk.
Qed.

Lemma wp_bind {A B : Type} (m : M S A) (k : A → M S B) Q s :
  wp m (λ a, wp (k a) Q) s → wp (m ≫= k) Q s.
Proof.
  intros (a & s' & Hm & b & s'' & Hk & HQ). exists b, s''. split; [|done].
  by rewrite (bind_ret _ _ _ _ _ Hm).
Qed.
Lemma wp_ret {A : Type} (a : A) (Q : A → S → Prop) s : Q a s → wp (mret a) Q s.
Proof. intros H. by exists a, s. Qed.
Lemma wp_getS (Q : S → S → Prop) s : Q s s → wp getS Q s.
Proof. intros H. by exists s, s. Qed.
Lemma wp_modify f (Q : unit → S → Prop) s : Q tt (f s) → wp (modify f) Q s.
Proof. intros H. by exists tt, (f s). Qed.
Lemma wp_deref {A : Type} what (p : option A) a (Q : A → S → Prop) s :
  p = Some a → Q a s → wp (deref what p) Q s.
Proof. intros -> H. by apply wp_ret. Qed.
Lemma wp_lift {A : Type} (o : outcome A) a (Q : A → S → Prop) s :
  o = Ret a → Q a s → wp (lift o) Q s.
Proof. intros -> H. by exists a, s. Qed.
Lemma wp_mono {A : Type} (m : M S A) (Q R : A → S → Prop) s :
  wp m Q s → (∀ a s', Q a s' → R a s') → wp m R s.
Proof. intros (a & s' & Hm & HQ) H. exists a, s'. auto. Qed.
Lemma wp_whenM b (m : M S unit) Q s :
  (b = true → wp m Q s) → (b = false → Q tt s) → wp (whenM b m) Q s.
Proof. intros H1 H2. destruct b; [by apply H1|]. by apply wp_ret, H2. Qed.
Lemma wp_preserves {A : Type} I (m : M S A) Q s :
  wp m Q s → preserves I m → I s → wp m (λ a s', Q a s' ∧ I s') s.
Proof.
  intros (a & s' & Hm & HQ) HI Hs. exists a, s'. split; [done|]. split; [done|].
  specialize (HI s Hs). by rewrite Hm in HI.
Qed.
(** Loop rule: [J] of the keys that are left. *)
Lemma wp_for_each {K : Type} (l : list K) (body : K → M S unit) (J : list K → S → Prop) s :
  (∀ k l' s, J (k :: l') s → wp (body k) (λ _, J l') s) →
  J l s → wp (for_each l body) (λ _, J []) s.
Proof.
  intros Hbody. revert s. induction l as [|k l IH]; intros s HJ; simpl; [by apply wp_ret|].
  apply wp_bind. eapply wp_mono; [by apply Hbody|]. intros [] s' Hs'. by apply IH.
Qed.

Lemma wlp_bind {A B : Type} (m : M S A) (k : A → M S B) Q s :
  wlp m (λ a, wlp (k a) Q) s → wlp (m ≫= k) Q s.
Proof.
  intros H b s'. unfold mbind, M_bind. destruct (m s) as [[] s1] eqn:E; try done.
  by apply H.
Qed.
Lemma wlp_ret {A : Type} (a : A) (Q : A → S → Prop) s : Q a s → wlp (mret a) Q s.
Proof. intros H b s' [=]. by subst. Qed.
Lemma wlp_getS (Q : S → S → Prop) s : Q s s → wlp getS Q s.
Proof. intros H b s' [=]. by subst. Qed.
Lemma wlp_modify f (Q : unit → S → Prop) s : Q tt (f s) → wlp (modify f) Q s.
Proof. intros H b s' [=]. by subst. Qed.
Lemma wlp_deref {A : Type} what (p : option A) (Q : A → S → Prop) s :
  (∀ a, p = Some a → Q a s) → wlp (deref what p) Q s.
Proof. intros H. destruct p; [by apply wlp_ret, H|]. by intros b s'. Qed.
Lemma wlp_panic {A : Type} msg (Q : A → S → Prop) s : wlp (panic msg) Q s.
Proof. by intros b s'. Qed.
Lemma wlp_exit {A : Type} c (Q : A → S → Prop) s : wlp (exit c) Q s.
Proof. by intros b s'. Qed.
Lemma wlp_lift {A : Type} (o : outcome A) (Q : A → S → Prop) s :
  (∀ a, o = Ret a → Q a s) → wlp (lift o) Q s.
Proof. intros H a s' [= -> ->]. by apply H. Qed.
Lemma wlp_deadlock {A : Type} (Q : A → S → Prop) s : wlp deadlock Q s.
Proof. by intros b s'. Qed.
Lemma wlp_mono {A : Type} (m : M S A) (Q R : A → S → Prop) s :
  wlp m Q s → (∀ a s', Q a s' → R a s') → wlp m R s.
Proof. intros H HQR a s' Hm. by apply HQR, H. Qed.
Lemma wlp_true {A : Type} (m : M S A) s : wlp m (λ _ _, True) s.
Proof. by intros a s'. Qed.
Lemma wlp_and {A : Type} (m : M S A) (Q R : A → S → Prop) s :
  wlp m Q s → wlp m R s → wlp m (λ a s', Q a s' ∧ R a s') s.
Proof. intros HQ HR a s' H. split; [by apply HQ|by apply HR]. Qed.
Lemma wlp_skip {A B : Type} (m : M S A) (k : A → M S B) Q s :
  (∀ a s', wlp (k a) Q s') → wlp (m ≫= k) Q s.
Proof. intros H. apply wlp_bind. intros a s' _. apply H. Qed.
(** Loop rule: [I] is kept, and what [body k] establishes, [D k], lasts. *)
Lemma wlp_for_each_all {K : Type} (l : list K) (body : K → M S unit) (I : S → Prop)
    (D : K → S → Prop) s :
  (∀ k s, I s → wlp (body k) (λ _ s', I s' ∧ D k s' ∧ ∀ k', D k' s → D k' s') s) →
  I s → wlp (for_each l body) (λ _ s', I s' ∧ ∀ k, k ∈ l → D k s') s.
Proof.
  intros Hbody.
  assert (∀ l' s, I s → wlp (for_each l' body) (λ _ s', I s' ∧ (∀ k, k ∈ l' → D k s') ∧
    ∀ k, D k s → D k s') s) as Hall.
  { clear l s. induction l' as [|k l' IH]; intros s Hs; simpl.
    - apply wlp_ret. split; [done|]. split; [by intros k ?%elem_of_nil|done].
    - apply wlp_bind. eapply wlp_mono; [by apply Hbody|]. intros [] s1 (Hs1 & Hd & Hkeep).
      eapply wlp_mono; [by apply IH|]. intros [] s2 (Hs2 & Hd2 & Hkeep2).
      split; [done|]. split; [|by auto]. intros k' [->|?]%elem_of_cons; auto. }
  intros Hs. eapply wlp_mono; [by apply Hall|]. intros [] s' (? & ? & _). done.
Qed.
(** A total run that satisfies a partial postcondition. *)
Lemma wp_wlp {A : Type} (m : M S A) (Q R : A → S → Prop) s :
  wp m Q s → wlp m R s → wp m (λ a s', Q a s' ∧ R a s') s.
Proof. intros (a & s' & Hm & HQ) HR. exists a, s'. split; [done|]. split; [done|by apply HR]. Qed.
Lemma wlp_preserves {A : Type} I (m : M S A) s :
  preserves I m → I s → wlp m (λ _ s', I s') s.
Proof. intros Hm Hs a s' H. specialize (Hm s Hs). by rewrite H in Hm. Qed.

(** Every normal return of [m] is related by [R] to the state before. *)
Definition respects {A : Type} (R : relation S) (m : M S A) : Prop :=
  ∀ s, wlp m (λ _ s', R s s') s.

Section respects.
Context (R : relation S) {HR : PreOrder R}.

Lemma respects_bind {A B : Type} (m : M S A) (k : A → M S B) :
  respects R m → (∀ a, respects R (k a)) → respects R (m ≫= k).
Proof.
  intros Hm Hk s. apply wlp_bind. eapply wlp_mono; [apply Hm|]. intros a s1 H1.
  eapply wlp_mono; [apply Hk|]. intros b s2 H2. by transitivity s1.
Qed.
Lemma respects_ret {A : Type} (a : A) : respects R (mret a : M S A).
Proof. intros s. by apply wlp_ret. Qed.
Lemma respects_getS : respects R (getS : M S S).
Proof. intros s. by apply wlp_getS. Qed.
Lemma respects_panic {A : Type} msg : respects R (panic msg : M S A).
Proof. intros s. apply wlp_panic. Qed.
Lemma respects_exit {A : Type} c : respects R (exit c : M S A).
Proof. intros s. apply wlp_exit. Qed.
Lemma respects_modify f : (∀ s, R s (f s)) → respects R (modify f).
Proof. intros H s. apply wlp_modify, H. Qed.
Lemma respects_deadlock {A : Type} : respects R (deadlock : M S A).
Proof. intros s. apply wlp_deadlock. Qed.
Lemma respects_deref {A : Type} what (p : option A) : respects R (deref what p : M S A).
Proof. intros s. by apply wlp_deref. Qed.
Lemma respects_lift {A : Type} (o : outcome A) : respects R (lift o : M S A).
Proof. intros s a s' H. unfold lift in H. injection H as _ <-. done. Qed.
Lemma respects_whenM b (m : M S unit) : respects R m → respects R (whenM b m).
Proof. intros H. destruct b; [done|apply respects_ret]. Qed.
Lemma respects_for_each {K : Type} (l : list K) (body : K → M S unit) :
  (∀ k, respects R (body k)) → respects R (for_each l body).
Proof.
  intros H. induction l as [|k l IH]; simpl; [apply respects_ret|].
  apply respects_bind; [apply H|]. by intros _.
Qed.
Lemma respects_preserves {A : Type} (I : S → S → Prop) (m : M S A) :
  (∀ s, I s s) → (∀ s s', I s s' → R s s') → (∀ s, preserves (I s) m) → respects R m.
Proof.
  intros Hrefl HI Hm s. eapply wlp_mono; [apply wlp_preserves; [apply Hm|apply Hrefl]|].
  intros a s'. apply HI.
Qed.
End respects.

Lemma for_each_app {K : Type} (l1 l2 : list K) (body : K → M S unit) s :
  for_each (l1 ++ l2) body s = (for_each l1 body ;; for_each l2 body) s.
Proof.
  revert s. induction l1 as [|k l1 IH]; intros s; simpl; [done|].
  unfold mbind, M_bind in *. destruct (body k s) as [[] s']; [|done..]. apply IH.
Qed.
End monad.

Create HintDb preserves discriminated.
#[export] Hint Resolve preserves_ret preserves_gets preserves_panic preserves_exit
  preserves_deadlock preserves_deref preserves_whenM preserves_lift preserves_getS
  : preserves.

(** Split a monadic term along its binds and case distinctions, and close the
    parts the [preserves] hints know. *)
Ltac preserve_step :=
  match goal with
  | |- preserves _ (_ ≫= _) => apply preserves_bind; [|intros ?]
  | |- preserves _ (whenM _ _) => apply preserves_whenM
  | |- preserves _ (for_each _ _) => apply preserves_for_each; intros ? ?
  | |- preserves _ (match ?x with _ => _ end) => destruct x eqn:?
  | |- preserves _ (let '_ := ?x in _) => destruct x eqn:?
  | |- preserves _ _ => solve [eauto with preserves]
  end.
Ltac preserve := repeat preserve_step.

Create HintDb respects discriminated.
#[export] Hint Resolve respects_ret respects_getS respects_panic respects_deadlock respects_exit
  respects_deref respects_lift : respects.

(** The same for [respects]. *)
Ltac respect_step :=
  match goal with
  | |- respects _ (_ ≫= _) => apply respects_bind; [exact _| |intros ?]
  | |- respects _ (whenM _ _) => apply respects_whenM; [exact _|]
  | |- respects _ (for_each _ _) => apply respects_for_each; [exact _|intros ?]
  | |- respects _ (match ?x with _ => _ end) => destruct x eqn:?
  | |- respects _ (let '_ := ?x in _) => destruct x eqn:?
  | |- respects _ _ => solve [eauto with respects typeclass_instances]
  end.
Ltac respect := repeat respect_step.

Lemma u32_small z : 0 <= z < 2 ^ 32 → u32 z = z.
Proof. intros. unfold u32. by apply Z.mod_small. Qed.
Lemma u32_range z : 0 <= u32 z < 2 ^ 32.
Proof. unfold u32. apply Z.mod_pos_bound. lia. Qed.
Lemma u16_range z : 0 <= u16 z < 2 ^ 16.
Proof. unfold u16. apply Z.mod_pos_bound. lia. Qed.
Lemma u8_range z : 0 <= u8 z < 2 ^ 8.
Proof. unfold u8. apply Z.mod_pos_bound. lia. Qed.
#[export] Hint Resolve u32_range u16_range u8_range : core.

(** *** Decimal printing and parsing *)

Lemma digit_val_pretty (d : N) :
  (d < 10)%N → digit_val (pretty_N_char d) = Some (Z.of_N d).
Proof.
  intros H.
  assert (d = 0 ∨ d = 1 ∨ d = 2 ∨ d = 3 ∨ d = 4 ∨ d = 5 ∨ d = 6 ∨ d = 7 ∨ d = 8 ∨ d = 9)%N
    as Hd by lia.
  by destruct Hd as [->|[->|[->|[->|[->|[->|[->|[->|[->| ->]]]]]]]]].
Qed.

(** Reading back what [pretty_N_go] puts in front of [s]: the accumulator is
    shifted by the number of digits written, [p] being that power of ten. *)
Lemma dec_value_pretty_N_go (x : N) (s : string) :
  ∃ p, 0 < p ∧ ∀ acc, dec_value (pretty_N_go x s) acc = dec_value s (acc * p + Z.of_N x).
Proof.
  revert s. induction (N.lt_wf_0 x) as [x _ IH]; intros s.
  destruct (decide (x = 0)%N) as [->|Hx].
  { exists 1. split; [lia|]. intros acc. rewrite pretty_N_go_0. f_equal. lia. }
  rewrite pretty_N_go_step by lia.
  destruct (IH (x `div` 10)%N ltac:(apply N.div_lt; lia)
    (String (pretty_N_char (x `mod` 10)) s)) as (p & Hp & H).
  exists (p * 10). split; [lia|]. intros acc. rewrite H. simpl.
  rewrite digit_val_pretty by (apply N.mod_lt; lia). f_equal.
  rewrite N2Z.inj_mod, N2Z.inj_div. pose proof (Z.div_mod (Z.of_N x) 10). lia.
Qed.

Lemma dec_value_pretty (x : N) : dec_value (pretty x) 0 = Some (Z.of_N x).
Proof.
  unfold pretty, pretty_N. case_decide as Hx; [by subst|].
  destruct (dec_value_pretty_N_go x "") as (p & Hp & H). by rewrite H.
Qed.

Lemma pretty_N_go_cons (x : N) c s : pretty_N_go x (String c s) ≠ "".
Proof.
  revert c s. induction (N.lt_wf_0 x) as [x _ IH]; intros c s.
  destruct (decide (x = 0)%N) as [->|Hx]; [by rewrite pretty_N_go_0|].
  rewrite pretty_N_go_step by lia. apply IH, N.div_lt; lia.
Qed.

(** The first byte of a printed natural number is a digit. *)
Lemma pretty_N_first (x : N) :
  ∃ c s, pretty x = String c s ∧ is_Some (digit_val c).
Proof.
  pose proof (dec_value_pretty x) as H.
  destruct (pretty x) as [|c s] eqn:E.
  - exfalso. revert E. unfold pretty, pretty_N. case_decide as Hx; [done|].
    rewrite pretty_N_go_step by lia. apply pretty_N_go_cons.
  - exists c, s. split; [done|]. simpl in H.
    destruct (digit_val c); [by eexists|done].
Qed.

(** What [Atoi] makes of a printed natural number: the number when it fits an
    [int] of [n] bits, a range error otherwise. *)
Lemma Atoi_printed n z :
  0 <= z → 0 < n →
  Atoi n (fmt_d z) =
    if bool_decide (2 ^ (n - 1) <= z)
    then (2 ^ (n - 1) - 1, Some "value out of range") else (z, None).
Proof.
  intros Hz Hn.
  assert (fmt_d z = pretty (Z.to_N z)) as Hp by (unfold fmt_d; by destruct z).
  pose proof (dec_value_pretty (Z.to_N z)) as Hv.
  destruct (pretty_N_first (Z.to_N z)) as (c & s & Hs & [d Hd]).
  rewrite Hp, Hs. rewrite Hs in Hv. rewrite Z2N.id in Hv by lia.
  assert (match String c s with
    | String "-"%char s' => (true, s')
    | String "+"%char s' => (false, s')
    | _ => (false, String c s)
    end = (false, String c s)) as Hsign.
  { destruct c as [[] [] [] [] [] [] [] []]; by vm_compute in Hd. }
  unfold Atoi. rewrite Hsign, Hv. pose proof (Z.pow_pos_nonneg 2 (n - 1)).
  by rewrite (bool_decide_eq_false_2 (z < _)) by lia.
Qed.

Lemma Atoi_fmt_d n z : 0 <= z < 2 ^ (n - 1) → 0 < n → Atoi n (fmt_d z) = (z, None).
Proof. intros. rewrite Atoi_printed by lia. by rewrite bool_decide_eq_false_2 by lia. Qed.

#[export] Instance fmt_d_inj : Inj (=) (=) fmt_d.
Proof. unfold fmt_d. apply _. Qed.
