(* ===== verification/GoFloat.v ===== *)
(** * Floating point numbers and durations of Go

    [float64] and [float32] as the binary formats of the Standard Library's
    [SpecFloat] (53 bits of precision with maximal exponent 1024, 24 bits with
    128), their conversions from integers, [time.Duration.Seconds],
    [time.Time.Sub] and the formatting verb [%.1f]. *)
From stdpp Require Import base list strings pretty.
From Stdlib Require Import ZArith Lia Ascii SpecFloat.
From S2P Require Import Prelude.
#[local] Open Scope Z_scope.

Abbreviation float := spec_float.

Definition float64_of_Z (z : Z) : float := binary_normalize 53 1024 z 0 false.
Definition float32_of_Z (z : Z) : float := binary_normalize 24 128 z 0 false.

Definition float64_add : float → float → float := SFadd 53 1024.
Definition float64_div : float → float → float := SFdiv 53 1024.
Definition float32_mul : float → float → float := SFmul 24 128.
Definition float32_div : float → float → float := SFdiv 24 128.

(** The conversion [float32(x)] of a [float64]. *)
Definition float32_of_float64 (x : float) : float :=
  match x with
  | S754_finite s m e => binary_normalize 24 128 (if s then Zneg m else Zpos m) e s
  | _ => x
  end.

(** [x > y]. *)
Definition float_gt (x y : float) : bool := SFltb y x.

Definition max_duration : Z := 2 ^ 63 - 1.
Definition min_duration : Z := - 2 ^ 63.

(** [t.Sub(u)]: nanoseconds, saturated at the bounds of [time.Duration]. *)
Definition time_sub (t u : Z) : Z := Z.max min_duration (Z.min max_duration (t - u)).

(** [d.Seconds()]: [float64(d / Second) + float64(d % Second) / 1e9]. *)
Definition Seconds (d : Z) : float :=
  float64_add (float64_of_Z (Z.quot d 1000000000))
    (float64_div (float64_of_Z (Z.rem d 1000000000)) (float64_of_Z 1000000000)).

(** Nearest integer to [a / b] for [0 <= a], [0 < b]; ties go to the even one. *)
Definition div_half_even (a b : Z) : Z :=
  let q := a / b in
  let r := a mod b in
  if bool_decide (2 * r < b) then q
  else if bool_decide (b < 2 * r) then q + 1
  else if Z.even q then q else q + 1.

(** [fmt.Sprintf("%.1f", x)]: the exact binary value rounded to one decimal. *)
Definition fmt_f1 (x : float) : string :=
  match x with
  | S754_zero s => if s then "-0.0" else "0.0"
  | S754_infinity s => if s then "-Inf" else "+Inf"
  | S754_nan => "NaN"
  | S754_finite s m e =>
      let tenths :=
        if bool_decide (0 <= e) then 10 * Zpos m * 2 ^ e
        else div_half_even (10 * Zpos m) (2 ^ (- e)) in
      (if s then "-" else "") +:+ fmt_d (tenths / 10) +:+ "." +:+ fmt_d (tenths mod 10)
  end.

(** The bandwidth estimate of the ping loops,
    [(float32(bytes) * (8 / 1000.0 / 1000.0)) / float32(seconds)]: the constant
    is the [float32] nearest to [8 / 10^6]. *)
Definition mbit_factor : float :=
  float32_div (float32_of_Z 8) (float32_of_Z 1000000).

Lemma div_half_even_error a b :
  0 <= a → 0 < b → 2 * Z.abs (a - div_half_even a b * b) <= b.
Proof.
  intros Ha Hb. unfold div_half_even.
  pose proof (Z.div_mod a b ltac:(lia)). pose proof (Z.mod_pos_bound a b Hb).
  repeat case_bool_decide; [nia|nia|]. destruct (Z.even _); nia.
Qed.

Lemma div_half_even_nonneg a b : 0 <= a → 0 < b → 0 <= div_half_even a b.
Proof.
  intros Ha Hb. unfold div_half_even. pose proof (Z.div_pos a b Ha Hb).
  repeat case_bool_decide; [done|lia|]. destruct (Z.even _); lia.
Qed.

Lemma time_sub_exact t u : - 2 ^ 63 <= t - u < 2 ^ 63 → time_sub t u = t - u.
Proof. unfold time_sub, min_duration, max_duration. lia. Qed.
