(* ===== verification/GoNet.v ===== *)
(** * Internet addresses of the Go standard library (packages net and net/netip)

    The parsers [netip.ParseAddr], [netip.ParseAddrPort], [net.ParseIP] and
    [net.ParseCIDR], the operations on [net.IP] byte slices and their textual
    form.  A byte slice is a list of integers below 256; [None] is the error
    result of a parser, or the [nil] slice. *)
From stdpp Require Import base list strings pretty.
From Stdlib Require Import ZArith Lia Ascii.
From S2P Require Import Prelude.
#[local] Open Scope Z_scope.

(** ** Strings *)

Definition code (c : ascii) : Z := Z.of_N (N_of_ascii c).

Fixpoint slen (s : string) : Z :=
  match s with EmptyString => 0 | String _ s' => 1 + slen s' end.

(** Split at the first occurrence of [c]: what is before and what is after. *)
Fixpoint cut (c : ascii) (s : string) : option (string * string) :=
  match s with
  | EmptyString => None
  | String a s' =>
      if bool_decide (a = c) then Some (EmptyString, s')
      else match cut c s' with
           | Some (l, r) => Some (String a l, r)
           | None => None
           end
  end.

(** Split at the last occurrence of [c]. *)
Fixpoint cut_last (c : ascii) (s : string) : option (string * string) :=
  match s with
  | EmptyString => None
  | String a s' =>
      match cut_last c s' with
      | Some (l, r) => Some (String a l, r)
      | None => if bool_decide (a = c) then Some (EmptyString, s') else None
      end
  end.

(** All but the last byte, and the last byte. *)
Fixpoint split_last (s : string) : option (string * ascii) :=
  match s with
  | EmptyString => None
  | String a EmptyString => Some (EmptyString, a)
  | String a s' =>
      match split_last s' with
      | Some (l, b) => Some (String a l, b)
      | None => None
      end
  end.

(** All bytes of [s] are in the class [P]. *)
Fixpoint all_bytes (P : ascii → bool) (s : string) : bool :=
  match s with EmptyString => true | String c s' => P c && all_bytes P s' end.

Definition is_digit (c : ascii) : bool := bool_decide (is_Some (digit_val c)).

(** ** netip.ParseAddr *)

Inductive Addr :=
| Addr4 (ip : list Z)
| Addr6 (ip : list Z) (zone : string).

(** [parseIPv4Fields]: [val] and [digLen] describe the current octet, [fields]
    the octets read, [pos] of them. *)
Fixpoint parseIPv4Fields (s : string) (val digLen pos : Z) (fields : list Z)
    : option (list Z) :=
  match s with
  | EmptyString => if bool_decide (pos < 3) then None else Some (fields ++ [val])
  | String c s' =>
      match digit_val c with
      | Some d =>
          if bool_decide (digLen = 1 ∧ val = 0) then None
          else if bool_decide (255 < val * 10 + d) then None
          else parseIPv4Fields s' (val * 10 + d) (digLen + 1) pos fields
      | None =>
          if bool_decide (c = "."%char) then
            if bool_decide (digLen = 0) || bool_decide (s' = "") then None
            else if bool_decide (pos = 3) then None
            else parseIPv4Fields s' 0 0 (pos + 1) (fields ++ [val])
          else None
      end
  end.

Definition parseIPv4 (s : string) : option Addr :=
  Addr4 <$> parseIPv4Fields s 0 0 0 [].

Definition hex_val (c : ascii) : option Z :=
  let n := code c in
  if bool_decide (48 <= n <= 57) then Some (n - 48)
  else if bool_decide (97 <= n <= 102) then Some (n - 87)
  else if bool_decide (65 <= n <= 70) then Some (n - 55)
  else None.

(** The hex digits at the head of [s]: number of digits, value and rest;
    [None] for more than four digits. *)
Fixpoint parse_group (s : string) (off acc : Z) : option (Z * Z * string) :=
  match s with
  | EmptyString => Some (off, acc, s)
  | String c s' =>
      match hex_val c with
      | None => Some (off, acc, s)
      | Some d =>
          if bool_decide (3 < off) then None
          else if bool_decide (65535 < acc * 16 + d) then None
          else parse_group s' (off + 1) (acc * 16 + d)
      end
  end.

(** The loop of [parseIPv6]: [ip] holds the bytes read so far and [ellipsis]
    the position of "::" among them; the result adds the rest of the string. *)
Fixpoint parse_groups (fuel : nat) (s : string) (ip : list Z) (ellipsis : option nat)
    : option (string * list Z * option nat) :=
  match fuel with
  | O => Some (s, ip, ellipsis)
  | S fuel' =>
      match parse_group s 0 0 with
      | None => None
      | Some (off, acc, rest) =>
          if bool_decide (off = 0) then None
          else
          match rest with
          | String "."%char _ =>
              if bool_decide (ellipsis = None) && negb (bool_decide (length ip = 12%nat))
              then None
              else if bool_decide (16 < length ip + 4)%nat then None
              else match parseIPv4Fields s 0 0 0 [] with
                   | None => None
                   | Some v4 => Some (EmptyString, ip ++ v4, ellipsis)
                   end
          | _ =>
              let ip' := ip ++ [acc / 256; acc mod 256] in
              match rest with
              | EmptyString => Some (EmptyString, ip', ellipsis)
              | String ":"%char EmptyString => None
              | String ":"%char (String ":"%char rest2) =>
                  if bool_decide (ellipsis = None) then
                    if bool_decide (rest2 = "") then Some (EmptyString, ip', Some (length ip'))
                    else parse_groups fuel' rest2 ip' (Some (length ip'))
                  else None
              | String ":"%char rest1 => parse_groups fuel' rest1 ip' ellipsis
              | _ => None
              end
          end
      end
  end.

Definition parseIPv6_body (s : string) (ellipsis : option nat) : option (list Z) :=
  match parse_groups 8 s [] ellipsis with
  | None => None
  | Some (rest, ip, ellipsis) =>
      if negb (bool_decide (rest = "")) then None
      else if bool_decide (length ip < 16)%nat then
        match ellipsis with
        | None => None
        | Some e => Some (take e ip ++ replicate (16 - length ip) 0 ++ drop e ip)
        end
      else match ellipsis with
           | Some _ => None
           | None => Some ip
           end
  end.

Definition parseIPv6 (s : string) : option Addr :=
  match match cut "%"%char s with
        | None => Some (s, EmptyString)
        | Some (s', zone) => if bool_decide (zone = "") then None else Some (s', zone)
        end with
  | None => None
  | Some (s', zone) =>
      match s' with
      | String ":"%char (String ":"%char EmptyString) => Some (Addr6 (replicate 16 0) zone)
      | String ":"%char (String ":"%char s'') =>
          (fun ip => Addr6 ip zone) <$> parseIPv6_body s'' (Some O)
      | _ => (fun ip => Addr6 ip zone) <$> parseIPv6_body s' None
      end
  end.

(** The first of '.', ':' and '%' in the string decides how it is parsed. *)
Fixpoint ParseAddr_scan (s whole : string) : option Addr :=
  match s with
  | EmptyString => None
  | String c s' =>
      if bool_decide (c = "."%char) then parseIPv4 whole
      else if bool_decide (c = ":"%char) then parseIPv6 whole
      else if bool_decide (c = "%"%char) then None
      else ParseAddr_scan s' whole
  end.

Definition ParseAddr (s : string) : option Addr := ParseAddr_scan s s.

Definition zone_of (a : Addr) : string :=
  match a with Addr4 _ => "" | Addr6 _ z => z end.

Definition v4InV6Prefix : list Z := [0;0;0;0;0;0;0;0;0;0;255;255].

(** [Addr.As16]. *)
Definition As16 (a : Addr) : list Z :=
  match a with Addr4 ip => v4InV6Prefix ++ ip | Addr6 ip _ => ip end.

Definition BitLen (a : Addr) : Z := match a with Addr4 _ => 32 | Addr6 _ _ => 128 end.

(** [net.ParseIP]. *)
Definition ParseIP (s : string) : option (list Z) :=
  match ParseAddr s with
  | Some a => if bool_decide (zone_of a = "") then Some (As16 a) else None
  | None => None
  end.

(** [strconv.ParseUint(s, 10, 16)]. *)
Definition ParseUint16 (s : string) : option Z :=
  match s with
  | EmptyString => None
  | _ => match dec_value s 0 with
         | Some v => if bool_decide (v < 65536) then Some v else None
         | None => None
         end
  end.

(** [netip.ParseAddrPort]. *)
Definition ParseAddrPort (s : string) : option (Addr * Z) :=
  match cut_last ":"%char s with
  | None => None
  | Some (ip, port) =>
      if bool_decide (ip = "") || bool_decide (port = "") then None
      else
      match match ip with
            | String "["%char rest =>
                match split_last rest with
                | Some (inner, "]"%char) => Some (inner, true)
                | _ => None
                end
            | _ => Some (ip, false)
            end with
      | None => None
      | Some (ip', v6) =>
          match ParseUint16 port, ParseAddr ip' with
          | Some p, Some (Addr4 _ as a) => if v6 : bool then None else Some (a, p)
          | Some p, Some (Addr6 _ _ as a) => if v6 : bool then Some (a, p) else None
          | _, _ => None
          end
      end
  end.

(** ** net.IP *)

(** [IP.To4]: [None] is [nil]. *)
Definition To4 (ip : list Z) : option (list Z) :=
  if bool_decide (length ip = 4%nat) then Some ip
  else if bool_decide (length ip = 16%nat ∧ take 12 ip = v4InV6Prefix)
  then Some (drop 12 ip) else None.

(** [IP.IsPrivate]; the nil address is the empty list. *)
Definition IsPrivate (ip : list Z) : bool :=
  match To4 ip with
  | Some ip4 =>
      let b i := nth i ip4 0 in
      bool_decide (b 0%nat = 10) ||
      (bool_decide (b 0%nat = 172) && bool_decide (Z.land (b 1%nat) 240 = 16)) ||
      (bool_decide (b 0%nat = 192) && bool_decide (b 1%nat = 168))
  | None => bool_decide (length ip = 16%nat) && bool_decide (Z.land (nth 0 ip 0) 254 = 252)
  end.

(** [CIDRMask(ones, 8 * l)]. *)
Fixpoint CIDRMask (ones : Z) (l : nat) : list Z :=
  match l with
  | O => []
  | S l' =>
      if bool_decide (8 <= ones) then 255 :: CIDRMask (ones - 8) l'
      else (255 - Z.shiftr 255 ones) :: CIDRMask 0 l'
  end.

Definition allFF (b : list Z) : bool := forallb (fun x => bool_decide (x = 255)) b.

Definition and_bytes (a b : list Z) : list Z := zip_with Z.land a b.

(** [IP.Mask]; [None] is [nil]. *)
Definition Mask (ip mask : list Z) : option (list Z) :=
  let mask := if bool_decide (length mask = 16%nat ∧ length ip = 4%nat) &&
                 allFF (take 12 mask) then drop 12 mask else mask in
  let ip := if bool_decide (length mask = 4%nat ∧ length ip = 16%nat ∧
                            take 12 ip = v4InV6Prefix) then drop 12 ip else ip in
  if bool_decide (length ip = length mask) then Some (and_bytes ip mask) else None.

Record IPNet := mkIPNet { net_IP : list Z; net_Mask : list Z }.

(** [networkNumberAndMask]. *)
Definition networkNumberAndMask (n : IPNet) : list Z * list Z :=
  match match To4 n.(net_IP) with
        | Some ip => Some ip
        | None => if bool_decide (length n.(net_IP) = 16%nat) then Some n.(net_IP) else None
        end with
  | None => ([], [])
  | Some ip =>
      let m := n.(net_Mask) in
      if bool_decide (length m = 4%nat) then
        if bool_decide (length ip = 4%nat) then (ip, m) else ([], [])
      else if bool_decide (length m = 16%nat) then
        if bool_decide (length ip = 4%nat) then (ip, drop 12 m) else (ip, m)
      else ([], [])
  end.

(** [IPNet.Contains]. *)
Definition Contains (n : IPNet) (ip : list Z) : bool :=
  let '(nn, m) := networkNumberAndMask n in
  let ip := default ip (To4 ip) in
  bool_decide (length ip = length nn) &&
  bool_decide (and_bytes nn m = and_bytes ip m).

(** Decimal prefix length, as [dtoi] reads all of [s]. *)
Definition dtoi (s : string) : option Z :=
  match s with
  | EmptyString => None
  | _ => match dec_value s 0 with
         | Some v => if bool_decide (v < 16777215) then Some v else None
         | None => None
         end
  end.

(** [net.ParseCIDR]. *)
Definition ParseCIDR (s : string) : option (list Z * IPNet) :=
  match cut "/"%char s with
  | None => None
  | Some (addr, mask) =>
      match ParseAddr addr with
      | None => None
      | Some a =>
          if negb (bool_decide (zone_of a = "")) then None else
          match dtoi mask with
          | None => None
          | Some n =>
              if bool_decide (BitLen a < n) then None else
              let m := CIDRMask n (Z.to_nat (BitLen a / 8)) in
              Some (As16 a, mkIPNet (default [] (Mask (As16 a) m)) m)
          end
      end
  end.

(** ** Textual form *)

Definition hex2 (b : Z) : string :=
  String (hex_digit (b / 16)) (String (hex_digit (b mod 16)) EmptyString).

(** [IPMask.String]: lower case hexadecimal without separators. *)
Definition mask_string (m : list Z) : string :=
  match m with [] => "<nil>" | _ => foldr (fun b s => hex2 b +:+ s) "" m end.

Fixpoint join (sep : string) (l : list string) : string :=
  match l with
  | [] => ""
  | [x] => x
  | x :: l' => x +:+ sep +:+ join sep l'
  end.

Definition ip4_string (ip : list Z) : string := join "." (fmt_d <$> ip).

(** The 16-bit groups of an IPv6 address. *)
Fixpoint groups (ip : list Z) : list Z :=
  match ip with
  | a :: b :: ip' => (a * 256 + b) :: groups ip'
  | _ => []
  end.

Fixpoint zero_run (l : list Z) : nat :=
  match l with
  | 0 :: l' => S (zero_run l')
  | _ => O
  end.

(** Start and length of the first longest run of at least two zero groups. *)
Fixpoint best_run (i : nat) (l : list Z) (best : nat * nat) : nat * nat :=
  match l with
  | [] => best
  | _ :: l' =>
      let n := zero_run l in
      best_run (S i) l' (if bool_decide (2 <= n ∧ best.2 < n)%nat then (i, n) else best)
  end.

(** ["%x"] of a 16-bit group. *)
Definition fmt_x16 (g : Z) : string :=
  if bool_decide (g < 256) then fmt_x g else fmt_x (g / 256) +:+ hex2 (g mod 256).

Definition ip6_string (ip : list Z) : string :=
  let g := groups ip in
  let '(start, n) := best_run 0 g (O, O) in
  if bool_decide (n = O) then join ":" (fmt_x16 <$> g)
  else join ":" (fmt_x16 <$> take start g) +:+ "::" +:+ join ":" (fmt_x16 <$> drop (start + n) g).

(** [IP.String]; the nil address is the empty list. *)
Definition ip_string (ip : list Z) : string :=
  match ip with
  | [] => "<nil>"
  | _ =>
      match To4 ip with
      | Some ip4 => ip4_string ip4
      | None =>
          if bool_decide (length ip = 16%nat) then ip6_string ip
          else "?" +:+ foldr (fun b s => hex2 b +:+ s) "" ip
      end
  end.

(** [UDPAddr.String]: host and port joined as by [net.JoinHostPort]. *)
Definition udp_addr_string (ip : list Z) (zone : string) (port : Z) : string :=
  let host := match ip with [] => "" | _ => ip_string ip end in
  let host := if bool_decide (zone = "") then host else host +:+ "%" +:+ zone in
  if contains host ":" then "[" +:+ host +:+ "]:" +:+ fmt_d port
  else host +:+ ":" +:+ fmt_d port.

(** ** Resolving "host:port" *)

(** [net.SplitHostPort]. *)
Definition SplitHostPort (s : string) : option (string * string) :=
  match cut_last ":"%char s with
  | None => None
  | Some (hp, port) =>
      match s with
      | String "["%char s' =>
          match cut "]"%char s' with
          | Some (host, rest) =>
              if bool_decide (rest = ":" +:+ port) && negb (contains host "[") &&
                 negb (contains rest "[") && negb (contains rest "]")
              then Some (host, port) else None
          | None => None
          end
      | _ =>
          if contains hp ":" || contains s "[" || contains s "]" then None
          else Some (hp, port)
      end
  end.

(** The port of an address: decimal digits only (service names are not
    resolved here), at most 65535; the empty port is 0. *)
Definition parse_port (s : string) : option Z :=
  match dec_value s 0 with
  | Some v => if bool_decide (v <= 65535) then Some v else None
  | None => None
  end.

(** [net.ResolveUDPAddr("udp", s)]: the IP slice and the port; [lookup] resolves
    a host that is not a literal address. *)
Definition ResolveUDPAddr (lookup : string → option (list Z)) (s : string)
    : option (list Z * Z) :=
  match SplitHostPort s with
  | None => None
  | Some (host, port) =>
      match parse_port port with
      | None => None
      | Some p =>
          if bool_decide (host = "") then Some ([], p)
          else match ParseAddr host with
               | Some a => Some (As16 a, p)
               | None => match lookup host with Some ip => Some (ip, p) | None => None end
               end
      end
  end.

(** ** Lemmas on the parsers *)

Example parse_v4 : ParseIP "192.168.1.20" = Some (v4InV6Prefix ++ [192;168;1;20]).
Proof. reflexivity. Qed.
Example parse_v4_zero : ParseIP "192.168.01.20" = None.
Proof. reflexivity. Qed.
Example parse_v6 :
  ParseIP "2001:db8::ff:1.2.3.4" = Some [32;1;13;184;0;0;0;0;0;0;0;255;1;2;3;4].
Proof. reflexivity. Qed.
Example parse_v6_bad : ParseIP "2001:db8::1::2" = None.
Proof. reflexivity. Qed.
Example string_v6 : ip_string [32;1;13;184;0;0;0;0;0;0;0;255;1;2;3;4] = "2001:db8::ff:102:304".
Proof. reflexivity. Qed.
Example string_v6_lo : ip_string (replicate 15 0 ++ [1]) = "::1".
Proof. reflexivity. Qed.
Example cidr_30 : ParseCIDR "10.10.10.41/30" =
  Some (v4InV6Prefix ++ [10;10;10;41], mkIPNet [10;10;10;40] [255;255;255;252]).
Proof. reflexivity. Qed.
Example mask_30 : mask_string (CIDRMask 30 4) = "fffffffc".
Proof. reflexivity. Qed.
Example addrport_v4 : ParseAddrPort "0.0.0.0:8091" = Some (Addr4 [0;0;0;0], 8091).
Proof. reflexivity. Qed.
Example addrport_v6 : ParseAddrPort "[::1]:80" = Some (Addr6 (replicate 15 0 ++ [1]) "", 80).
Proof. reflexivity. Qed.
Example addrport_name : ParseAddrPort "example.com:80" = None.
Proof. reflexivity. Qed.

(** *** Strings made of bytes of one class *)

Lemma all_bytes_app P s t : all_bytes P (s +:+ t) = all_bytes P s && all_bytes P t.
Proof.
  induction s as [|c s IH]; [done|]. simpl. unfold String.app. simpl.
  rewrite <-andb_assoc. by f_equal.
Qed.

Lemma dec_value_digits s acc v : dec_value s acc = Some v → all_bytes is_digit s = true.
Proof.
  revert acc. induction s as [|c s IH]; intros acc; simpl; [done|].
  unfold is_digit at 1. destruct (digit_val c) as [d|]; [|done].
  intros H. by rewrite (IH _ H).
Qed.

Lemma fmt_d_digits z : 0 <= z → all_bytes is_digit (fmt_d z) = true.
Proof.
  intros Hz. apply (dec_value_digits _ 0 (Z.of_N (Z.to_N z))).
  rewrite <-(dec_value_pretty (Z.to_N z)). unfold fmt_d. by destruct z.
Qed.

Lemma fmt_d_first z : 0 <= z → ∃ c s, fmt_d z = String c s ∧ is_digit c = true.
Proof.
  intros Hz. destruct (pretty_N_first (Z.to_N z)) as (c & s & Hs & Hd).
  exists c, s. split; [|by apply bool_decide_eq_true].
  rewrite <-Hs. unfold fmt_d. by destruct z.
Qed.

(** *** Which strings the address parsers accept *)

(** A dotted address has digits and dots only. *)
Lemma parseIPv4Fields_bytes s v d p f r :
  parseIPv4Fields s v d p f = Some r →
  all_bytes (fun c => is_digit c || bool_decide (c = "."%char)) s = true.
Proof.
  revert v d p f. induction s as [|c s IH]; intros v d p f; simpl; [done|].
  unfold is_digit at 1. destruct (digit_val c) as [n|].
  - do 2 (case_bool_decide; [done|]). intros Hr. by rewrite (IH _ _ _ _ Hr).
  - case_bool_decide as Hc; [|done]. destruct (_ || _); [done|].
    case_bool_decide; [done|]. intros Hr. by rewrite (IH _ _ _ _ Hr).
Qed.

Lemma parseIPv4_no_colon s t : parseIPv4 (s +:+ ":" +:+ t) = None.
Proof.
  unfold parseIPv4. destruct (parseIPv4Fields _ _ _ _ _) eqn:E; [|done].
  apply parseIPv4Fields_bytes in E. rewrite !all_bytes_app in E.
  apply andb_true_iff in E as [_ E]. by vm_compute in E.
Qed.

(** An IPv6 address starts with a hex digit or with "::". *)
Lemma parse_groups_first c s ip e fuel :
  hex_val c = None → parse_groups (S fuel) (String c s) ip e = None.
Proof. intros H. simpl. by rewrite H. Qed.

Lemma parseIPv6_first c s : hex_val c = None → c ≠ ":"%char → parseIPv6 (String c s) = None.
Proof.
  intros Hc Hne. unfold parseIPv6.
  assert (∀ s' zone, (fun ip => Addr6 ip zone) <$> parseIPv6_body (String c s') None
    = None) as Hbody.
  { intros s' zone. unfold parseIPv6_body. by rewrite parse_groups_first. }
  simpl. case_bool_decide as Hp.
  - subst c. by destruct (bool_decide _).
  - assert (∀ s' zone, match String c s' with
      | String ":"%char (String ":"%char EmptyString) => Some (Addr6 (replicate 16 0) zone)
      | String ":"%char (String ":"%char s'') =>
          (fun ip => Addr6 ip zone) <$> parseIPv6_body s'' (Some O)
      | _ => (fun ip => Addr6 ip zone) <$> parseIPv6_body (String c s') None
      end = None) as Hm.
    { intros s' zone. rewrite <-(Hbody s' zone).
      by destruct c as [[] [] [] [] [] [] [] []]. }
    destruct (cut _ s) as [[l r]|]; [case_bool_decide; [done|]|]; apply Hm.
Qed.

Lemma contains_colon a b : contains (a +:+ ":" +:+ b) ":" = true.
Proof.
  induction a as [|c a IH]; [done|].
  change (String c a +:+ ":" +:+ b) with (String c (a +:+ ":" +:+ b)).
  simpl. rewrite IH. apply orb_true_r.
Qed.

Lemma ParseAddr_scan_cases s whole :
  parseIPv4 whole = None → parseIPv6 whole = None → ParseAddr_scan s whole = None.
Proof.
  intros H4 H6. induction s as [|c s IH]; simpl; [done|].
  by repeat case_bool_decide.
Qed.

Lemma ParseAddr_scan_digits s t whole :
  all_bytes is_digit s = true → ParseAddr_scan (s +:+ t) whole = ParseAddr_scan t whole.
Proof.
  induction s as [|c s IH]; [done|].
  change (String c s +:+ t) with (String c (s +:+ t)). simpl.
  intros [Hc Hs]%andb_true_iff.
  rewrite !bool_decide_eq_false_2 by (intros ->; by vm_compute in Hc). by apply IH.
Qed.

Lemma ParseAddr_bracket s t : ParseAddr ("[" +:+ s +:+ "]:" +:+ t) = None.
Proof.
  apply ParseAddr_scan_cases; [|by apply parseIPv6_first].
  pose proof (parseIPv4_no_colon ("[" +:+ s +:+ "]") t) as H.
  by rewrite !string_app_assoc in H.
Qed.

(** A string that starts with a number and a dot is parsed as dotted decimal. *)
Lemma ParseAddr_dotted a s :
  0 <= a → ParseAddr (fmt_d a +:+ "." +:+ s) = parseIPv4 (fmt_d a +:+ "." +:+ s).
Proof.
  intros Ha. unfold ParseAddr. by rewrite ParseAddr_scan_digits by by apply fmt_d_digits.
Qed.

Lemma ParseAddr_v4_port a b l z t :
  0 <= a → ParseAddr ((ip4_string (a :: b :: l) +:+ z) +:+ ":" +:+ t) = None.
Proof.
  intros Ha.
  assert (ip4_string (a :: b :: l) = fmt_d a +:+ "." +:+ ip4_string (b :: l)) as -> by done.
  rewrite !string_app_assoc, ParseAddr_dotted by done.
  pose proof (parseIPv4_no_colon (fmt_d a +:+ "." +:+ ip4_string (b :: l) +:+ z) t) as H.
  by rewrite !string_app_assoc in H.
Qed.

(** ":port" alone. *)
Lemma ParseAddr_port_only port : 0 <= port → ParseAddr (":" +:+ fmt_d port) = None.
Proof.
  intros Hp. apply ParseAddr_scan_cases; [apply (parseIPv4_no_colon "")|].
  destruct (fmt_d_first port Hp) as (c & s & -> & Hc).
  unfold parseIPv6.
  assert (∀ s', parseIPv6_body (String ":"%char s') None = None) as Hbody by done.
  change (":" +:+ String c s) with (String ":"%char (String c s)).
  assert (cut "%"%char (String ":"%char (String c s)) = None ∨
    ∃ l r, cut "%"%char (String ":"%char (String c s))
      = Some (String ":"%char (String c l), r)) as [->|(l & r & ->)].
  { simpl. rewrite (bool_decide_eq_false_2 (c = _)) by (intros ->; by vm_compute in Hc).
    destruct (cut _ s) as [[l r]|]; [right; by exists l, r|by left]. }
  - destruct c as [[] [] [] [] [] [] [] []]; try done; by vm_compute in Hc.
  - case_bool_decide; [done|].
    destruct c as [[] [] [] [] [] [] [] []]; try done; by vm_compute in Hc.
Qed.

Lemma ip6_string_colon ip : length ip = 16%nat → contains (ip6_string ip) ":" = true.
Proof.
  intros Hlen. unfold ip6_string. destruct (best_run _ _ _) as [start n].
  case_bool_decide.
  - do 16 (destruct ip as [|? ip]; [done|]). destruct ip; [|done]. simpl.
    apply contains_colon.
  - apply contains_colon.
Qed.

Lemma contains_app_l a b sub : contains a ":" = true → sub = ":" → contains (a +:+ b) sub = true.
Proof.
  intros Ha ->. induction a as [|c a IH]; [done|].
  change (String c a +:+ b) with (String c (a +:+ b)).
  simpl in *. apply orb_true_iff in Ha as [->|Ha]; [done|].
  rewrite (IH Ha). apply orb_true_r.
Qed.

(** The text of a socket address, "host:port" or "[host]:port", is never the
    text of an address. *)
Lemma ParseIP_udp_addr ip zone port :
  (length ip = 0 ∨ length ip = 4 ∨ length ip = 16)%nat → Forall (λ b, 0 <= b) ip →
  0 <= port →
  ParseIP (udp_addr_string ip zone port) = None.
Proof.
  intros Hlen Hip Hport. unfold ParseIP.
  enough (ParseAddr (udp_addr_string ip zone port) = None) as -> by done.
  unfold udp_addr_string. destruct (contains _ ":") eqn:Hc; [apply ParseAddr_bracket|].
  set (z := if bool_decide (zone = "") then "" else "%" +:+ zone).
  assert (∀ h, (if bool_decide (zone = "") then h else h +:+ "%" +:+ zone) = h +:+ z) as Hz.
  { intros h. unfold z. case_bool_decide; [|done].
    induction h as [|c h IH]; [done|]. unfold String.app in *. simpl. by rewrite <-IH. }
  rewrite Hz in *. destruct (To4 ip) as [ip4|] eqn:H4.
  - assert (length ip4 = 4%nat ∧ Forall (λ b, 0 <= b) ip4) as [Hl4 Hip4].
    { unfold To4 in H4. destruct (bool_decide_reflect (length ip = 4%nat)); [by simplify_eq|].
      case_match eqn:Hb; [|done]. apply bool_decide_eq_true in Hb. simplify_eq.
      rewrite length_drop. destruct_and!. split; [lia|]. by apply Forall_drop. }
    destruct ip4 as [|a [|b l]]; [done|done|]. inversion Hip4; subst.
    assert (match ip with [] => "" | _ => ip_string ip end = ip4_string (a :: b :: l)) as ->.
    { unfold ip_string. rewrite H4. by destruct ip. }
    by apply ParseAddr_v4_port.
  - destruct ip as [|i ip'].
    + unfold z. case_bool_decide; [by apply ParseAddr_port_only|done].
    + assert (length (i :: ip') = 16%nat) as H16.
      { destruct Hlen as [H|[H|H]]; [done| |done].
        unfold To4 in H4. by rewrite bool_decide_eq_true_2 in H4. }
      exfalso. apply not_true_iff_false in Hc. apply Hc. apply contains_app_l; [|done].
      unfold ip_string. rewrite H4, bool_decide_eq_true_2 by done.
      by apply ip6_string_colon.
Qed.

Lemma IsPrivate_nil : IsPrivate [] = false.
Proof. reflexivity. Qed.

(** *** The port of "host:port" *)

Lemma cut_last_none c s :
  all_bytes (λ x, negb (bool_decide (x = c))) s = true → cut_last c s = None.
Proof.
  induction s as [|x s IH]; [done|]. simpl. intros [Hx Hs]%andb_true_iff.
  rewrite (IH Hs), bool_decide_eq_false_2; [done|].
  intros ->. by rewrite bool_decide_eq_true_2 in Hx.
Qed.

Lemma cut_last_app c s t :
  all_bytes (λ x, negb (bool_decide (x = c))) t = true →
  cut_last c (s +:+ String c t) = Some (s, t).
Proof.
  intros Ht. induction s as [|x s IH].
  - change ("" +:+ String c t) with (String c t). simpl.
    by rewrite cut_last_none, bool_decide_eq_true_2.
  - change (String x s +:+ String c t) with (String x (s +:+ String c t)). simpl. by rewrite IH.
Qed.

Lemma fmt_d_no_byte c z :
  0 <= z → is_digit c = false → all_bytes (λ x, negb (bool_decide (x = c))) (fmt_d z) = true.
Proof.
  intros Hz Hc. pose proof (fmt_d_digits z Hz) as H. induction (fmt_d z) as [|x s IH]; [done|].
  simpl in *. apply andb_true_iff in H as [Hx Hs]. rewrite (IH Hs), andb_true_r.
  rewrite bool_decide_eq_false_2; [done|]. intros ->. congruence.
Qed.

Lemma SplitHostPort_port s z host port :
  0 <= z → SplitHostPort (s +:+ ":" +:+ fmt_d z) = Some (host, port) → port = fmt_d z.
Proof.
  intros Hz. unfold SplitHostPort.
  change (":" +:+ fmt_d z) with (String ":"%char (fmt_d z)).
  rewrite cut_last_app by by apply fmt_d_no_byte.
  generalize (s +:+ String ":" (fmt_d z)). intros whole.
  assert (∀ b : bool, (if b then None else Some (s, fmt_d z)) = Some (host, port) →
    port = fmt_d z) as Hplain by by intros []; intros; simplify_eq.
  assert (∀ (b : bool) h, (if b then Some (h, fmt_d z) else None) = Some (host, port) →
    port = fmt_d z) as Hbr by by intros []; intros; simplify_eq.
  destruct whole as [|[[] [] [] [] [] [] [] []] w]; try apply Hplain.
  destruct (cut "]" w) as [[h rest]|]; [apply Hbr|done].
Qed.

(** A socket address with a port above 65535 does not resolve. *)
Lemma ResolveUDPAddr_port lookup s z ip p :
  0 <= z → ResolveUDPAddr lookup (s +:+ ":" +:+ fmt_d z) = Some (ip, p) → p = z ∧ z <= 65535.
Proof.
  intros Hz. unfold ResolveUDPAddr.
  destruct (SplitHostPort _) as [[host port]|] eqn:Hsplit; [|done].
  apply SplitHostPort_port in Hsplit as ->; [|done].
  assert (parse_port (fmt_d z) = if bool_decide (z <= 65535) then Some z else None) as ->.
  { unfold parse_port. pose proof (dec_value_pretty (Z.to_N z)) as Hp.
    rewrite Z2N.id in Hp by lia.
    assert (fmt_d z = pretty (Z.to_N z)) as -> by (unfold fmt_d; by destruct z). by rewrite Hp. }
  case_bool_decide; [|by repeat case_match]. intros Hres. split; [|done].
  repeat case_match; by simplify_eq.
Qed.

(** Splitting a host without separators from a decimal port. *)
Definition plain_host_char (c : ascii) : bool :=
  negb (bool_decide (c = ":"%char)) && negb (bool_decide (c = "["%char)) &&
  negb (bool_decide (c = "]"%char)).

Lemma contains_byte_none c s :
  all_bytes (λ x, negb (bool_decide (x = c))) s = true → contains s (String c "") = false.
Proof.
  induction s as [|x s IH]; [done|]. simpl. intros [Hx Hs]%andb_true_iff.
  rewrite (IH Hs), orb_false_r. rewrite bool_decide_eq_false_2; [done|].
  intros <-. by rewrite bool_decide_eq_true_2 in Hx.
Qed.

Lemma all_bytes_impl (f g : ascii → bool) s :
  (∀ c, f c = true → g c = true) → all_bytes f s = true → all_bytes g s = true.
Proof.
  intros Hfg. induction s as [|x s IH]; [done|]. simpl. rewrite !andb_true_iff.
  intros [Hx Hs]. split; [by apply Hfg|by apply IH].
Qed.

Lemma digit_plain c : is_digit c = true → plain_host_char c = true.
Proof. intros H. destruct c as [[] [] [] [] [] [] [] []]; done. Qed.

Lemma SplitHostPort_plain host z :
  0 <= z → host ≠ "" → all_bytes plain_host_char host = true →
  SplitHostPort (host +:+ ":" +:+ fmt_d z) = Some (host, fmt_d z).
Proof.
  intros Hz Hne Hp. unfold SplitHostPort.
  change (":" +:+ fmt_d z) with (String ":"%char (fmt_d z)).
  rewrite cut_last_app by by apply fmt_d_no_byte.
  assert (∀ c, c = "["%char ∨ c = "]"%char →
    contains (host +:+ String ":" (fmt_d z)) (String c "") = false) as Hbr.
  { intros c Hc. apply contains_byte_none. rewrite all_bytes_app. apply andb_true_iff. split.
    - eapply all_bytes_impl; [|exact Hp]. unfold plain_host_char. intros x.
      rewrite !andb_true_iff. by destruct Hc as [-> | ->]; intros [[??]?].
    - simpl. rewrite bool_decide_eq_false_2 by by destruct Hc as [-> | ->].
      eapply all_bytes_impl; [|by apply fmt_d_digits]. intros x Hx%digit_plain.
      unfold plain_host_char in Hx. rewrite !andb_true_iff in Hx. by destruct Hc as [-> | ->]; destruct Hx as [[??]?]. }
  rewrite !Hbr by auto.
  rewrite contains_byte_none; [|eapply all_bytes_impl; [|exact Hp]; unfold plain_host_char;
    intros x; rewrite !andb_true_iff; by intros [[??]?]].
  destruct host as [|c host]; [done|]. simpl in Hp. apply andb_true_iff in Hp as [Hc _].
  change (String c host +:+ String ":" (fmt_d z)) with (String c (host +:+ String ":" (fmt_d z))).
  destruct c as [[] [] [] [] [] [] [] []]; simpl; done.
Qed.

Lemma ResolveUDPAddr_plain lookup host z a :
  0 <= z <= 65535 → host ≠ "" → all_bytes plain_host_char host = true → ParseAddr host = Some a →
  ResolveUDPAddr lookup (host +:+ ":" +:+ fmt_d z) = Some (As16 a, z).
Proof.
  intros Hz Hne Hp Ha. unfold ResolveUDPAddr. rewrite SplitHostPort_plain by (done || lia).
  assert (parse_port (fmt_d z) = Some z) as ->.
  { unfold parse_port. pose proof (dec_value_pretty (Z.to_N z)) as Hv.
    rewrite Z2N.id in Hv by lia.
    assert (fmt_d z = pretty (Z.to_N z)) as -> by (unfold fmt_d; by destruct z).
    rewrite Hv. by rewrite bool_decide_eq_true_2 by lia. }
  rewrite bool_decide_eq_false_2 by done. by rewrite Ha.
Qed.
