(* ===== verification/ByteCount.v ===== *)
(** * Human readable byte counts ([src/p_utils.go])

    [ByteCountDecimal] and [ByteCountBinary]: the scaling loop on [int64], the
    suffix table and the formatted result.  A panic is an index out of the
    suffix table. *)
From stdpp Require Import base list strings pretty.
From Stdlib Require Import ZArith Lia Ascii.
From S2P Require Import Prelude GoFloat.
#[local] Open Scope Z_scope.

(** [for n := b / unit; n >= unit; n /= unit { div *= unit; exp++ }]; [None]
    when [fuel] iterations are not enough. *)
Fixpoint unit_loop (unit : Z) (fuel : nat) (n div exp : Z) : option (Z * Z) :=
  match fuel with
  | O => None
  | S fuel' =>
      if bool_decide (unit <= n)
      then unit_loop unit fuel' (Z.quot n unit) (wrap_int 64 (div * unit)) (exp + 1)
      else Some (div, exp)
  end.

(** The loop runs at most six times on an [int64]; the fuel exceeds that. *)
Definition unit_fuel : nat := 8.

(** The byte at index [i] of a string constant. *)
Definition string_index (s : string) (i : Z) : option ascii :=
  if bool_decide (i < 0) then None else String.get (Z.to_nat i) s.

Definition byte_count (unit : Z) (suffixes tail : string) (b : Z) : outcome string :=
  if bool_decide (b < unit) then Ret (fmt_d b +:+ " B")
  else match unit_loop unit unit_fuel (Z.quot b unit) unit 0 with
  | None => Deadlock
  | Some (div, exp) =>
      match string_index suffixes exp with
      | None => Panic "index out of range"
      | Some c =>
          Ret (fmt_f1 (float64_div (float64_of_Z b) (float64_of_Z div))
               +:+ " " +:+ String c tail)
      end
  end.

Definition ByteCountDecimal (b : Z) : outcome string := byte_count 1000 "kMGTPE" "B" b.

Definition ByteCountBinary (b : Z) : outcome string := byte_count 1024 "KMGTPE" "iB" b.

(** What a byte count is, for a scale [unit] and six suffixes. *)
Definition scaled (unit : Z) (suffixes tail : string) (b : Z) (r : outcome string) : Prop :=
  (b < unit ∧ r = Ret (fmt_d b +:+ " B")) ∨
  ∃ e c, 0 <= e <= 5 ∧ unit ^ (e + 1) <= b < unit ^ (e + 2) ∧
    string_index suffixes e = Some c ∧
    r = Ret (fmt_f1 (float64_div (float64_of_Z b) (float64_of_Z (unit ^ (e + 1))))
             +:+ " " +:+ String c tail).

Section loop.
Context (unit : Z) (Hunit : 1000 <= unit <= 1024).

Lemma pow7_large : 2 ^ 63 <= unit ^ 7.
Proof. assert (1000 ^ 7 <= unit ^ 7) by (apply Z.pow_le_mono_l; lia). lia. Qed.

Lemma pow6_no_wrap k : 0 <= k <= 6 → 0 < unit ^ k < 2 ^ 63.
Proof.
  intros Hk. split; [apply Z.pow_pos_nonneg; lia|].
  apply Z.le_lt_trans with (1024 ^ 6); [|lia].
  transitivity (unit ^ 6); [apply Z.pow_le_mono_r; lia|apply Z.pow_le_mono_l; lia].
Qed.

Lemma wrap_int_small z : - 2 ^ 63 <= z < 2 ^ 63 → wrap_int 64 z = z.
Proof. intros. unfold wrap_int. rewrite Z.mod_small by lia. lia. Qed.

(** The loop invariant: [n = b / unit^(k+1)] and [div = unit^(k+1)]. *)
Lemma unit_loop_spec b (fuel : nat) k :
  0 <= k → unit ^ (k + 1) <= b < 2 ^ 63 → 7 <= Z.of_nat fuel + k →
  ∃ e, k <= e <= 5 ∧ unit ^ (e + 1) <= b < unit ^ (e + 2) ∧
    unit_loop unit fuel (b / unit ^ (k + 1)) (unit ^ (k + 1)) k
    = Some (unit ^ (e + 1), e).
Proof.
  revert k. induction fuel as [|fuel IH]; intros k Hk Hb Hf.
  { exfalso. pose proof pow7_large.
    assert (unit ^ 7 <= unit ^ (k + 1)) by (apply Z.pow_le_mono_r; lia). lia. }
  assert (k <= 5) as Hk5.
  { destruct (Z.le_gt_cases k 5); [done|]. pose proof pow7_large.
    assert (unit ^ 7 <= unit ^ (k + 1)) by (apply Z.pow_le_mono_r; lia). lia. }
  assert (0 < unit ^ (k + 1)) as Hpos by (apply Z.pow_pos_nonneg; lia).
  assert (unit ^ (k + 2) = unit ^ (k + 1) * unit) as Hpow.
  { replace (k + 2) with (k + 1 + 1) by lia. rewrite Z.pow_add_r by lia. lia. }
  simpl. case_bool_decide as Hn.
  - assert (unit ^ (k + 2) <= b) as Hb2.
    { rewrite Hpow. transitivity (unit ^ (k + 1) * (b / unit ^ (k + 1))); [nia|].
      apply Z.mul_div_le. lia. }
    assert (k < 5) as Hk4.
    { destruct (Z.le_gt_cases 5 k); [|lia]. pose proof pow7_large.
      assert (k = 5) by lia. subst k. lia. }
    rewrite Z.quot_div_nonneg by lia. rewrite Z.div_div by lia.
    rewrite <-Hpow.
    rewrite wrap_int_small by (pose proof (pow6_no_wrap (k + 2)); lia).
    destruct (IH (k + 1)) as (e & He & Hbe & Heq); [lia| |lia|].
    { replace (k + 1 + 1) with (k + 2) by lia. lia. }
    replace (k + 1 + 1) with (k + 2) in Heq by lia.
    exists e. split_and!; [lia..|]. done.
  - exists k. split_and!; [lia..| |done]. rewrite Hpow.
    pose proof (Z.mul_succ_div_gt b (unit ^ (k + 1)) ltac:(lia)). nia.
Qed.

Lemma unit_loop_start b :
  unit <= b < 2 ^ 63 →
  ∃ e, 0 <= e <= 5 ∧ unit ^ (e + 1) <= b < unit ^ (e + 2) ∧
    unit_loop unit unit_fuel (Z.quot b unit) unit 0 = Some (unit ^ (e + 1), e).
Proof.
  intros Hb. rewrite Z.quot_div_nonneg by lia.
  pose proof (unit_loop_spec b unit_fuel 0) as H.
  replace (unit ^ (0 + 1)) with unit in H by (rewrite Z.add_0_l; lia).
  apply H; [lia|lia|]. unfold unit_fuel. lia.
Qed.
End loop.

Lemma get_lt (n : nat) (s : string) : (n < String.length s)%nat → is_Some (String.get n s).
Proof.
  revert n. induction s as [|c s IH]; intros n Hn; simpl in *; [lia|].
  destruct n as [|n]; [by eexists|]. apply IH. lia.
Qed.

Lemma string_index_some (s : string) i :
  0 <= i < Z.of_nat (String.length s) → is_Some (string_index s i).
Proof.
  intros Hi. unfold string_index. rewrite bool_decide_eq_false_2 by lia.
  apply get_lt. lia.
Qed.

Lemma byte_count_scaled unit suffixes tail b :
  1000 <= unit <= 1024 → String.length suffixes = 6%nat → b < 2 ^ 63 →
  scaled unit suffixes tail b (byte_count unit suffixes tail b).
Proof.
  intros Hu Hs Hb. unfold scaled, byte_count. case_bool_decide; [by left|right].
  destruct (unit_loop_start unit Hu b ltac:(lia)) as (e & He & Hbe & ->).
  destruct (string_index_some suffixes e) as [c Hc]; [lia|].
  exists e, c. by rewrite Hc.
Qed.

(** [ByteCountDecimal] on every [int64]: below 1000 (negative counts
    included) the exact number of bytes; from 1000 on, the quotient by the
    power [1000^(e+1)] with [1000^(e+1) <= b < 1000^(e+2)] and the matching
    prefix of ["kMGTPE"].  The scale never overflows an [int64], the prefix is
    always in the table and the loop always ends. *)
Theorem ByteCountDecimal_spec (b : Z) (Hb : - 2 ^ 63 <= b < 2 ^ 63) :
  scaled 1000 "kMGTPE" "B" b (ByteCountDecimal b).
Proof. apply byte_count_scaled; [lia|done|lia]. Qed.

Lemma ByteCountDecimal_spec_witness :
  ByteCountDecimal 1499999 = Ret "1.5 MB" ∧
  ByteCountDecimal 9223372036854775807 = Ret "9.2 EB" ∧
  scaled 1000 "kMGTPE" "B" 9223372036854775807 (ByteCountDecimal 9223372036854775807).
Proof.
  split_and!; [vm_compute; reflexivity..|].
  apply (ByteCountDecimal_spec 9223372036854775807). lia.
Defined.

(** [ByteCountBinary] on every [int64]: the same with the powers of 1024 and
    ["KMGTPE"]. *)
Theorem ByteCountBinary_spec (b : Z) (Hb : - 2 ^ 63 <= b < 2 ^ 63) :
  scaled 1024 "KMGTPE" "iB" b (ByteCountBinary b).
Proof. apply byte_count_scaled; [lia|done|lia]. Qed.

Lemma ByteCountBinary_spec_witness :
  ByteCountBinary 1536 = Ret "1.5 KiB" ∧
  scaled 1024 "KMGTPE" "iB" 1536 (ByteCountBinary 1536).
Proof.
  split; [vm_compute; reflexivity|]. apply (ByteCountBinary_spec 1536). lia.
Defined.
