(* ===== verification/IpHosts.v ===== *)
(** * The host addresses of a CIDR block ([src/p_utils.go])

    [IpHosts] enumerates a block with [ipinc] and drops its first and last
    address.  The loop ends only when an increment leaves the block; it runs
    here on [fuel], and [Deadlock] stands for a loop still running when the
    fuel is spent. *)
From stdpp Require Import base list strings pretty.
From Stdlib Require Import ZArith Lia Ascii.
From S2P Require Import Prelude GoNet.
#[local] Open Scope Z_scope.

(** [ipinc], from the last byte to the first: the bytes after the increment and
    whether the loop goes on (the byte wrapped to zero). *)
Fixpoint ipinc_go (ip : list Z) : list Z * bool :=
  match ip with
  | [] => ([], true)
  | b :: ip' =>
      let '(rest, carry) := ipinc_go ip' in
      if carry then
        let b' := u8 (b + 1) in
        (b' :: rest, negb (bool_decide (0 < b')))
      else (b :: rest, false)
  end.

Definition ipinc (ip : list Z) : list Z := (ipinc_go ip).1.

(** [for ip := ...; ipnet.Contains(ip); ipinc(ip) { ips = append(ips, ip.String()) }] *)
Fixpoint hosts_loop (fuel : nat) (n : IPNet) (ip : list Z) (ips : list string)
    : option (list string) :=
  match fuel with
  | O => None
  | S fuel' =>
      if Contains n ip then hosts_loop fuel' n (ipinc ip) (ips ++ [ip_string ip])
      else Some ips
  end.

(** [ips[1 : len(ips)-1]]. *)
Definition strip_ends (ips : list string) : list string :=
  drop 1 (take (length ips - 1) ips).

(** [IpHosts]: the hosts and the error of [net.ParseCIDR]. *)
Definition IpHosts (fuel : nat) (cidr : string) : outcome (list string * option string) :=
  match ParseCIDR cidr with
  | None => Ret ([], Some "invalid CIDR address")
  | Some (ip, ipnet) =>
      match hosts_loop fuel ipnet (default [] (Mask ip ipnet.(net_Mask))) [] with
      | None => Deadlock
      | Some ips =>
          if bool_decide (length ips < 2)%nat then Ret (ips, None)
          else Ret (strip_ends ips, None)
      end
  end.

(** ** The value of an address *)

(** Big-endian value. *)
Fixpoint be (ip : list Z) : Z :=
  match ip with
  | [] => 0
  | b :: ip' => b * 256 ^ Z.of_nat (length ip') + be ip'
  end.

(** The [l] bytes of the value [v]. *)
Fixpoint of_be (l : nat) (v : Z) : list Z :=
  match l with
  | O => []
  | S l' => (v / 256 ^ Z.of_nat l') mod 256 :: of_be l' (v mod 256 ^ Z.of_nat l')
  end.

Definition bytes (ip : list Z) : Prop := Forall (λ b, 0 <= b < 256) ip.

(** Dotted form of the IPv4 address of value [v]. *)
Definition ip4_of (v : Z) : string := ip_string (of_be 4 v).

Lemma pow256_pos n : 0 < 256 ^ Z.of_nat n.
Proof. apply Z.pow_pos_nonneg; lia. Qed.
#[local] Hint Resolve pow256_pos : core.

Lemma pow256_S n : 256 ^ Z.of_nat (S n) = 256 * 256 ^ Z.of_nat n.
Proof. rewrite Nat2Z.inj_succ, Z.pow_succ_r by lia. done. Qed.

Lemma be_range ip : bytes ip → 0 <= be ip < 256 ^ Z.of_nat (length ip).
Proof.
  induction 1 as [|b ip Hb Hip IH]; simpl be; [lia|].
  change (length (b :: ip)) with (S (length ip)). rewrite pow256_S.
  pose proof (pow256_pos (length ip)). nia.
Qed.

Lemma of_be_length l v : length (of_be l v) = l.
Proof. revert v. induction l as [|l IH]; intros v; simpl; [done|]. by rewrite IH. Qed.

Lemma of_be_bytes l v : bytes (of_be l v).
Proof.
  revert v. induction l as [|l IH]; intros v; simpl; constructor; [|apply IH].
  apply Z.mod_pos_bound. lia.
Qed.

Lemma of_be_be ip : bytes ip → of_be (length ip) (be ip) = ip.
Proof.
  induction 1 as [|b ip Hb Hip IH]; [done|]. simpl.
  pose proof (be_range ip Hip) as Hr.
  rewrite Z.div_add_l by (pose proof (pow256_pos (length ip)); lia).
  rewrite (Z.div_small (be ip)) by done. rewrite Z.add_0_r, Z.mod_small by done.
  f_equal. rewrite Z.add_comm, Z.mod_add by (pose proof (pow256_pos (length ip)); lia).
  by rewrite Z.mod_small.
Qed.

Lemma be_inj ip1 ip2 :
  bytes ip1 → bytes ip2 → length ip1 = length ip2 → be ip1 = be ip2 → ip1 = ip2.
Proof. intros H1 H2 Hl Hb. rewrite <-(of_be_be ip1), <-(of_be_be ip2); congruence. Qed.

Lemma be_of_be l v : be (of_be l v) = v mod 256 ^ Z.of_nat l.
Proof.
  revert v. induction l as [|l IH]; intros v; simpl be; [by rewrite Z.mod_1_r|].
  rewrite IH, of_be_length, pow256_S. rewrite Z.mod_mod by (pose proof (pow256_pos l); lia).
  pose proof (pow256_pos l).
  rewrite (Z.mul_comm 256), Z.rem_mul_r by lia. lia.
Qed.

(** ** [ipinc] adds one modulo the size of the address space *)

Lemma ipinc_go_spec ip :
  bytes ip →
  bytes (ipinc_go ip).1 ∧ length (ipinc_go ip).1 = length ip ∧
  be (ipinc_go ip).1 = (be ip + 1) mod 256 ^ Z.of_nat (length ip) ∧
  ((ipinc_go ip).2 = true ↔ be ip + 1 = 256 ^ Z.of_nat (length ip)).
Proof.
  induction 1 as [|b ip Hb Hip IH]; [by split_and!; [constructor|..]|].
  simpl ipinc_go. destruct (ipinc_go ip) as [rest carry] eqn:E. simpl in IH.
  destruct IH as (Hr & Hl & Hv & Hc). change (length (b :: ip)) with (S (length ip)).
  rewrite pow256_S. simpl be. pose proof (be_range ip Hip) as Hrange.
  pose proof (be_range rest Hr) as Hrrange. rewrite Hl in *.
  set (p := 256 ^ Z.of_nat (length ip)) in *.
  destruct carry; simpl.
  - assert (be ip + 1 = p) as Hp by by apply Hc.
    assert (be rest = 0) as Hz by (rewrite Hv, Hp; apply Z.mod_same; lia).
    rewrite Hl, Hz. fold p. unfold u8. change (2 ^ 8) with 256.
    pose proof (Z.mod_pos_bound (b + 1) 256 ltac:(lia)).
    split_and!; [by constructor|done| |].
    + replace (b * p + be ip + 1) with ((b + 1) * p) by lia.
      rewrite Z.mul_mod_distr_r by lia. lia.
    + rewrite negb_true_iff, bool_decide_eq_false.
      destruct (decide (b = 255)) as [->|]; [split; intros; [nia|done]|].
      rewrite Z.mod_small by lia. split; intros; nia.
  - assert (be ip + 1 ≠ p) as Hp by (intros Hp; by apply Hc in Hp).
    rewrite Z.mod_small in Hv by lia. rewrite Hl, Hv. fold p.
    split_and!; [by constructor|done| |].
    + rewrite Z.mod_small; [lia|nia].
    + split; [done|nia].
Qed.

Lemma ipinc_spec ip :
  bytes ip →
  bytes (ipinc ip) ∧ length (ipinc ip) = length ip ∧
  be (ipinc ip) = (be ip + 1) mod 256 ^ Z.of_nat (length ip).
Proof. intros H. destruct (ipinc_go_spec ip H) as (? & ? & ? & ?). done. Qed.

(** ** Masks *)

Lemma land_mask_byte b k :
  0 <= b < 256 → 0 <= k < 8 →
  Z.land b (255 - Z.shiftr 255 k) = b / 2 ^ (8 - k) * 2 ^ (8 - k).
Proof.
  intros Hb Hk.
  assert (forallb (fun b => forallb (fun k =>
    Z.land b (255 - Z.shiftr 255 k) =? b / 2 ^ (8 - k) * 2 ^ (8 - k))
    (seqZ 0 8)) (seqZ 0 256) = true) as H by (vm_compute; reflexivity).
  rewrite forallb_forall in H.
  specialize (H b ltac:(apply list_elem_of_In, elem_of_seqZ; lia)).
  rewrite forallb_forall in H.
  apply Z.eqb_eq, H, list_elem_of_In, elem_of_seqZ. lia.
Qed.

Lemma land_255 b : 0 <= b < 256 → Z.land b 255 = b.
Proof. intros Hb. change 255 with (Z.ones 8). rewrite Z.land_ones by lia. by apply Z.mod_small. Qed.

Lemma CIDRMask_length n l : length (CIDRMask n l) = l.
Proof. revert n. induction l as [|l IH]; intros n; simpl; [done|]. case_bool_decide; simpl; by rewrite IH. Qed.

Lemma and_bytes_length a b : length a = length b → length (and_bytes a b) = length b.
Proof. intros H. unfold and_bytes. rewrite length_zip_with. lia. Qed.

(** Masking keeps the high [n] bits. *)
Lemma be_and_mask ip n :
  bytes ip → 0 <= n <= 8 * Z.of_nat (length ip) →
  be (and_bytes ip (CIDRMask n (length ip))) =
    be ip / 2 ^ (8 * Z.of_nat (length ip) - n) * 2 ^ (8 * Z.of_nat (length ip) - n).
Proof.
  intros Hip. revert n. induction Hip as [|b ip Hb Hip IH]; intros n Hn; [done|].
  change (length (b :: ip)) with (S (length ip)) in *. rewrite Nat2Z.inj_succ in *.
  pose proof (be_range ip Hip) as Hr.
  assert (256 ^ Z.of_nat (length ip) = 2 ^ (8 * Z.of_nat (length ip))) as H256.
  { change 256 with (2 ^ 8). rewrite <-Z.pow_mul_r by lia. done. }
  rewrite H256 in Hr. set (w := 8 * Z.of_nat (length ip)) in *.
  simpl CIDRMask. case_bool_decide as H8.
  - simpl. fold (and_bytes ip (CIDRMask (n - 8) (length ip))).
    rewrite IH, and_bytes_length, CIDRMask_length, land_255 by
      (rewrite ?CIDRMask_length; lia || done).
    rewrite H256. fold w. replace (8 * Z.succ (Z.of_nat (length ip)) - n) with (w - (n - 8)) by lia.
    assert (2 ^ w = 2 ^ (n - 8) * 2 ^ (w - (n - 8))) as ->.
    { rewrite <-Z.pow_add_r by lia. f_equal. lia. }
    pose proof (Z.pow_pos_nonneg 2 (w - (n - 8)) ltac:(lia) ltac:(lia)).
    rewrite Z.mul_assoc, Z.div_add_l by lia. lia.
  - simpl. fold (and_bytes ip (CIDRMask 0 (length ip))).
    rewrite IH, and_bytes_length, CIDRMask_length, land_mask_byte by
      (rewrite ?CIDRMask_length; lia || done).
    rewrite H256. fold w. rewrite (Z.sub_0_r w), (Z.div_small (be ip)) by lia.
    replace (8 * Z.succ (Z.of_nat (length ip)) - n) with (w + (8 - n)) by lia.
    rewrite Z.pow_add_r, <-Z.div_div by
      (try apply Z.pow_nonzero; try apply Z.pow_pos_nonneg; lia).
    pose proof (Z.pow_pos_nonneg 2 w ltac:(lia) ltac:(lia)).
    rewrite Z.div_add_l, (Z.div_small (be ip)) by lia. replace (b + 0) with b by lia. ring.
Qed.

Lemma and_bytes_bytes ip n :
  bytes ip → 0 <= n → bytes (and_bytes ip (CIDRMask n (length ip))).
Proof.
  intros Hip. revert n. induction Hip as [|b ip Hb Hip IH]; intros n Hn; simpl; [constructor|].
  case_bool_decide; (constructor; [|apply IH; lia]).
  - by rewrite land_255.
  - rewrite land_mask_byte by lia.
    pose proof (Z.pow_pos_nonneg 2 (8 - n) ltac:(lia) ltac:(lia)).
    pose proof (Z.mul_div_le b (2 ^ (8 - n))).
    pose proof (Z.div_pos b (2 ^ (8 - n))). nia.
Qed.

(** ** The enumeration of an IPv4 block *)

#[local] Arguments of_be : simpl never.
#[local] Arguments ipinc : simpl never.

Section block.
(** The block of prefix length [n] around the address [a]. *)
Context (a : list Z) (n : Z).
Context (Ha : bytes a) (Hlen : length a = 4%nat) (Hn : 0 <= n <= 32).

Let m := CIDRMask n 4.
Let net := mkIPNet (and_bytes a m) m.

Lemma block_size_pos : 0 < 2 ^ (32 - n).
Proof. apply Z.pow_pos_nonneg; lia. Qed.

(** Value of the network address. *)
Definition block_base : Z := be a / 2 ^ (32 - n) * 2 ^ (32 - n).

Lemma block_base_range : 0 <= block_base <= be a.
Proof.
  pose proof block_size_pos as Hp. pose proof (be_range a Ha) as Hr. unfold block_base.
  pose proof (Z.mul_div_le (be a) (2 ^ (32 - n)) Hp).
  pose proof (Z.div_pos (be a) (2 ^ (32 - n))). nia.
Qed.

Lemma be_masked b :
  bytes b → length b = 4%nat →
  be (and_bytes b m) = be b / 2 ^ (32 - n) * 2 ^ (32 - n).
Proof. intros Hb Hl. unfold m. rewrite <-Hl. rewrite be_and_mask by (rewrite ?Hl; done || lia). by rewrite Hl. Qed.

Lemma masked_bytes b : bytes b → length b = 4%nat →
  bytes (and_bytes b m) ∧ length (and_bytes b m) = 4%nat.
Proof.
  intros Hb Hl. unfold m. split.
  - rewrite <-Hl. apply and_bytes_bytes; [done|lia].
  - rewrite and_bytes_length; by rewrite ?CIDRMask_length.
Qed.

(** An address is in the block when it has the same high bits. *)
Lemma Contains_block b :
  bytes b → length b = 4%nat →
  Contains net b = bool_decide (be b / 2 ^ (32 - n) = be a / 2 ^ (32 - n)).
Proof.
  intros Hb Hl.
  destruct (masked_bytes a Ha Hlen) as [Hma Hla]. destruct (masked_bytes b Hb Hl) as [Hmb Hlb].
  assert (length m = 4%nat) as Hlm by apply CIDRMask_length.
  unfold Contains, networkNumberAndMask, To4. cbn [net_IP net_Mask net].
  rewrite Hlm, Hla, Hl, (bool_decide_eq_true_2 (4 = 4)%nat) by done.
  cbv beta iota. rewrite Hla, (bool_decide_eq_true_2 (4 = 4)%nat) by done.
  cbv beta iota delta [from_option id].
  rewrite Hla, Hl, (bool_decide_eq_true_2 (4 = 4)%nat) by done. cbv beta iota delta [andb].
  apply bool_decide_ext.
  destruct (masked_bytes (and_bytes a m) Hma Hla) as [Hmm Hlmm].
  transitivity (be (and_bytes (and_bytes a m) m) = be (and_bytes b m)).
  - split; [by intros ->|]. intros H. apply be_inj; [done..|congruence|done].
  - rewrite !be_masked by done. pose proof block_size_pos.
    rewrite Z.div_mul by lia. split; [|congruence]. intros Heq.
    apply Z.mul_cancel_r in Heq; lia.
Qed.

(** [c] addresses of the block remain, starting with the one of value [v]. *)
Lemma hosts_loop_spec (c fuel : nat) v ips :
  1 <= n → (c < fuel)%nat →
  block_base <= v → v + Z.of_nat c = block_base + 2 ^ (32 - n) →
  hosts_loop fuel net (of_be 4 (v mod 2 ^ 32)) ips
    = Some (ips ++ (ip4_of <$> seqZ v (Z.of_nat c))).
Proof.
  intros H1. revert fuel v ips. pose proof block_size_pos as Hp.
  pose proof block_base_range as Hbase. pose proof (be_range a Ha) as Har.
  rewrite Hlen in Har. change (256 ^ Z.of_nat 4) with (2 ^ 32) in Har.
  assert (2 ^ 32 = 2 ^ n * 2 ^ (32 - n)) as H32 by (rewrite <-Z.pow_add_r by lia; f_equal; lia).
  assert (be a / 2 ^ (32 - n) < 2 ^ n) as Hq by (apply Z.div_lt_upper_bound; lia).
  assert (2 <= 2 ^ n) as Hn2 by (apply (Z.pow_le_mono_r 2 1 n); lia).
  induction c as [|c IH]; intros fuel v ips Hf Hv Hvc; (destruct fuel as [|fuel]; [lia|]); simpl hosts_loop.
  - (* the address after the last one is outside *)
    rewrite Contains_block by (apply of_be_bytes || apply of_be_length).
    rewrite be_of_be, Z.mod_mod by done. change (256 ^ Z.of_nat 4) with (2 ^ 32).
    assert (v = (be a / 2 ^ (32 - n) + 1) * 2 ^ (32 - n)) as Hv' by (unfold block_base in *; lia).
    rewrite bool_decide_eq_false_2; [by rewrite app_nil_r|].
    destruct (decide (v < 2 ^ 32)) as [Hlt|Hge].
    + rewrite Z.mod_small by lia. rewrite Hv', Z.div_mul by lia. lia.
    + assert (v = 2 ^ 32) as -> by nia. rewrite Z.mod_same, Z.div_0_l by lia.
      assert (be a / 2 ^ (32 - n) + 1 = 2 ^ n) by nia. lia.
  - assert (v < 2 ^ 32) as Hv32 by (unfold block_base in *; nia).
    rewrite Contains_block by (apply of_be_bytes || apply of_be_length).
    rewrite be_of_be. change (256 ^ Z.of_nat 4) with (2 ^ 32).
    rewrite Z.mod_mod, Z.mod_small by lia.
    rewrite bool_decide_eq_true_2; last first.
    { symmetry. apply (Z.div_unique_pos _ _ _ (v - block_base)); unfold block_base in *; lia. }
    destruct (ipinc_spec (of_be 4 v) (of_be_bytes 4 v)) as (Hb & Hl & Hi).
    rewrite of_be_length in Hl, Hi. rewrite be_of_be in Hi. change (256 ^ Z.of_nat 4) with (2 ^ 32) in Hi.
    rewrite Z.add_mod_idemp_l in Hi by lia.
    assert (ipinc (of_be 4 v) = of_be 4 ((v + 1) mod 2 ^ 32)) as ->.
    { pose proof (of_be_be _ Hb) as Hof. by rewrite Hl, Hi in Hof. }
    rewrite IH by lia. rewrite <-app_assoc. f_equal. f_equal.
    rewrite (seqZ_cons v) by lia. rewrite Z.add_1_r.
    replace (Z.pred (Z.of_nat (S c))) with (Z.of_nat c) by lia. done.
Qed.

(** A prefix of length 0 contains every address: the loop never ends. *)
Lemma hosts_loop_diverges fuel b ips :
  n = 0 → bytes b → length b = 4%nat → hosts_loop fuel net b ips = None.
Proof.
  intros Hz. revert b ips. induction fuel as [|fuel IH]; intros b ips Hb Hl; [done|].
  simpl. rewrite Contains_block by done.
  pose proof (be_range b Hb). pose proof (be_range a Ha). rewrite Hl in *. rewrite Hlen in *.
  change (256 ^ Z.of_nat 4) with (2 ^ 32) in *. rewrite Hz. change (32 - 0) with 32.
  rewrite !Z.div_small by lia. rewrite bool_decide_eq_true_2 by done.
  destruct (ipinc_spec b Hb) as (? & ? & ?). apply IH; [done|congruence].
Qed.
End block.

(** ** The text "a.b.c.d/n" *)

Definition cidr_text (a : list Z) (n : Z) : string := ip4_string a +:+ "/" +:+ fmt_d n.

Lemma cut_app c s t : all_bytes (λ x, negb (bool_decide (x = c))) s = true →
  cut c (s +:+ String c t) = Some (s, t).
Proof.
  induction s as [|x s IH]; intros Hs.
  - change ("" +:+ String c t) with (String c t). simpl. by rewrite bool_decide_eq_true_2.
  - change (String x s +:+ String c t) with (String x (s +:+ String c t)).
    simpl in *. apply andb_true_iff in Hs as [Hx Hs].
    rewrite (bool_decide_eq_false_2 (x = c)) by (intros ->; by rewrite bool_decide_eq_true_2 in Hx).
    by rewrite IH.
Qed.

Lemma ip4_string_no_slash a :
  bytes a → all_bytes (λ x, negb (bool_decide (x = "/"%char))) (ip4_string a) = true.
Proof.
  assert (∀ z, 0 <= z → all_bytes (λ x, negb (bool_decide (x = "/"%char))) (fmt_d z) = true) as Hd.
  { intros z Hz. eapply all_bytes_impl; [|by apply fmt_d_digits].
    intros c Hc. rewrite bool_decide_eq_false_2; [done|]. intros ->. by vm_compute in Hc. }
  induction 1 as [|b a Hb Ha IH]; [done|]. unfold ip4_string in *. simpl in *.
  destruct a as [|b' a]; simpl in *; [apply Hd; lia|].
  rewrite !all_bytes_app, IH, Hd by lia. done.
Qed.

(** Reading an octet back. *)
Lemma parse_octet z s pos f :
  0 <= z < 256 →
  ∃ d, 0 < d ∧ parseIPv4Fields (fmt_d z +:+ s) 0 0 pos f = parseIPv4Fields s z d pos f.
Proof.
  intros Hz.
  assert (Forall (λ z, ∃ d, 0 < d ∧
    parseIPv4Fields (fmt_d z +:+ s) 0 0 pos f = parseIPv4Fields s z d pos f)
    (seqZ 0 256)) as H.
  { repeat (constructor; [first
      [ by exists 1; split; [|reflexivity]
      | by exists 2; split; [|reflexivity]
      | by exists 3; split; [|reflexivity] ]|]). constructor. }
  rewrite Forall_forall in H. apply H, elem_of_seqZ. lia.
Qed.

Lemma parse_octet_dot z s pos f :
  0 <= z < 256 → pos ≠ 3 → s ≠ "" →
  parseIPv4Fields (fmt_d z +:+ "." +:+ s) 0 0 pos f
    = parseIPv4Fields s 0 0 (pos + 1) (f ++ [z]).
Proof.
  intros Hz Hpos Hs. destruct (parse_octet z ("." +:+ s) pos f Hz) as (d & Hd & ->).
  change ("." +:+ s) with (String "."%char s). simpl.
  by rewrite !bool_decide_eq_false_2 by (done || lia).
Qed.

Lemma ParseAddr_ip4_string a :
  bytes a → length a = 4%nat → ParseAddr (ip4_string a) = Some (Addr4 a).
Proof.
  intros Ha Hl. destruct a as [|a [|b [|c [|d [|]]]]]; try done.
  unfold bytes in Ha. rewrite !Forall_cons in Ha. destruct Ha as (H1 & H2 & H3 & H4 & _).
  change (ip4_string [a; b; c; d])
    with (fmt_d a +:+ "." +:+ fmt_d b +:+ "." +:+ fmt_d c +:+ "." +:+ fmt_d d).
  assert (∀ z s, 0 <= z → fmt_d z +:+ s ≠ "") as Hne.
  { intros z s Hz. destruct (fmt_d_first z Hz) as (? & ? & -> & _). done. }
  rewrite ParseAddr_dotted by lia. unfold parseIPv4.
  rewrite parse_octet_dot by (try apply Hne; lia).
  rewrite parse_octet_dot by (try apply Hne; lia).
  rewrite parse_octet_dot by (try (intros Hn; destruct (fmt_d_first d ltac:(lia)) as (? & ? & Hd & _);
    by rewrite Hd in Hn); lia).
  destruct (parse_octet d "" 3 [a; b; c] H4) as (n & _ & Hn).
  assert (fmt_d d +:+ "" = fmt_d d) as Happ.
  { generalize (fmt_d d). intros s. induction s as [|x s IH]; [done|].
    unfold String.app in *. simpl. by rewrite IH. }
  rewrite Happ in Hn. change (0 + 1 + 1 + 1) with 3. simpl app. by rewrite Hn.
Qed.

Lemma dtoi_fmt_d n : 0 <= n < 16777215 → dtoi (fmt_d n) = Some n.
Proof.
  intros Hn. destruct (fmt_d_first n ltac:(lia)) as (c & s & Hs & _).
  assert (dec_value (fmt_d n) 0 = Some n) as Hv.
  { pose proof (dec_value_pretty (Z.to_N n)) as Hp. rewrite Z2N.id in Hp by lia.
    rewrite <-Hp. unfold fmt_d. by destruct n. }
  unfold dtoi. rewrite Hs in *. rewrite Hv. by rewrite bool_decide_eq_true_2 by lia.
Qed.

Lemma Mask_v4 a m : length a = 4%nat → length m = 4%nat → Mask (v4InV6Prefix ++ a) m = Some (and_bytes a m).
Proof.
  intros Ha Hm. unfold Mask.
  rewrite (bool_decide_eq_false_2 (length m = 16%nat ∧ _)) by lia. cbv beta iota delta [andb].
  rewrite (bool_decide_eq_true_2 (_ ∧ _ ∧ _)) by (rewrite length_app, Ha; done).
  change (drop 12 (v4InV6Prefix ++ a)) with a. by rewrite bool_decide_eq_true_2 by congruence.
Qed.

Lemma ParseCIDR_text a n :
  bytes a → length a = 4%nat → 0 <= n <= 32 →
  ParseCIDR (cidr_text a n) =
    Some (v4InV6Prefix ++ a, mkIPNet (and_bytes a (CIDRMask n 4)) (CIDRMask n 4)).
Proof.
  intros Ha Hl Hn. unfold ParseCIDR, cidr_text.
  change ("/" +:+ fmt_d n) with (String "/"%char (fmt_d n)).
  rewrite cut_app by by apply ip4_string_no_slash.
  rewrite ParseAddr_ip4_string, dtoi_fmt_d by (done || lia).
  change (zone_of (Addr4 a)) with "". rewrite (bool_decide_eq_true_2 ("" = "")) by done.
  cbv beta iota delta [negb].
  change (BitLen (Addr4 a)) with 32. rewrite bool_decide_eq_false_2 by lia.
  change (Z.to_nat (32 / 8)) with 4%nat. change (As16 (Addr4 a)) with (v4InV6Prefix ++ a).
  rewrite Mask_v4 by (done || by rewrite CIDRMask_length). done.
Qed.

(** ** The properties *)

(** Closes [bytes l] for a concrete list. *)
Ltac by_bytes := unfold bytes; repeat (constructor; [lia|]); constructor.

Lemma strip_ends_map {A} (f : A → string) (x y : A) (l : list A) :
  strip_ends (f <$> x :: l ++ [y]) = f <$> l.
Proof.
  unfold strip_ends. rewrite length_fmap. simpl. rewrite length_app. simpl.
  replace (length l + 1 - 0)%nat with (S (length l)) by lia. simpl.
  rewrite drop_0, fmap_app, take_app_le by (rewrite length_fmap; lia).
  by rewrite take_ge by (rewrite length_fmap; lia).
Qed.

(** Where the enumeration starts. *)
Lemma block_start a n :
  bytes a → length a = 4%nat → 0 <= n <= 32 →
  and_bytes a (CIDRMask n 4) = of_be 4 (block_base a n mod 2 ^ 32).
Proof.
  intros Ha Hl Hn. destruct (masked_bytes a n Hl Hn a Ha Hl) as [Hmb Hml].
  pose proof (of_be_be _ Hmb) as H. rewrite Hml, be_masked in H by done.
  rewrite <-H. f_equal. symmetry. apply Z.mod_small.
  pose proof (block_base_range a n Ha Hl Hn). pose proof (be_range a Ha) as Hr.
  rewrite Hl in Hr. change (256 ^ Z.of_nat 4) with (2 ^ 32) in Hr. unfold block_base in *. lia.
Qed.

Lemma IpHosts_text a n fuel :
  bytes a → length a = 4%nat → 0 <= n <= 32 →
  IpHosts fuel (cidr_text a n) =
    match hosts_loop fuel (mkIPNet (and_bytes a (CIDRMask n 4)) (CIDRMask n 4))
            (and_bytes a (CIDRMask n 4)) [] with
    | None => Deadlock
    | Some ips =>
        if bool_decide (length ips < 2)%nat then Ret (ips, None)
        else Ret (strip_ends ips, None)
    end.
Proof.
  intros Ha Hl Hn. unfold IpHosts. rewrite ParseCIDR_text by done. cbn [net_Mask].
  by rewrite Mask_v4 by (done || by rewrite CIDRMask_length).
Qed.

Lemma IpHosts_enum a n fuel :
  bytes a → length a = 4%nat → 1 <= n <= 31 → 2 ^ (32 - n) < Z.of_nat fuel →
  IpHosts fuel (cidr_text a n) =
    Ret (ip4_of <$> seqZ (block_base a n + 1) (2 ^ (32 - n) - 2), None).
Proof.
  intros Ha Hl Hn Hfuel.
  assert (2 <= 2 ^ (32 - n)) as Hsize by (apply (Z.pow_le_mono_r 2 1 (32 - n)); lia).
  rewrite IpHosts_text by (done || lia). rewrite block_start at 2 by (done || lia).
  rewrite (hosts_loop_spec a n Ha Hl ltac:(lia) (Z.to_nat (2 ^ (32 - n)))) by lia.
  simpl app. rewrite Z2Nat.id by lia.
  rewrite length_fmap, length_seqZ, bool_decide_eq_false_2 by lia.
  rewrite seqZ_cons by lia.
  assert (seqZ (Z.succ (block_base a n)) (Z.pred (2 ^ (32 - n))) =
    seqZ (block_base a n + 1) (2 ^ (32 - n) - 2) ++ [block_base a n + 2 ^ (32 - n) - 1]) as ->.
  { replace (Z.pred (2 ^ (32 - n))) with (2 ^ (32 - n) - 2 + 1) by lia.
    rewrite seqZ_app by lia. f_equal. rewrite seqZ_cons by lia. simpl. f_equal. lia. }
  by rewrite strip_ends_map.
Qed.

(** [IpHosts] of a dotted block of prefix length 1 to 31: with fuel for the
    [2^(32-n)] addresses of the block the loop ends, and the result is the
    addresses strictly between the first and the last one of the block, in
    order (none for a /31). *)
Theorem IpHosts_block (a : list Z) (n : Z) (fuel : nat)
    (Ha : bytes a) (Hl : length a = 4%nat) (Hn : 1 <= n <= 31)
    (Hfuel : 2 ^ (32 - n) < Z.of_nat fuel) :
  IpHosts fuel (cidr_text a n) =
    Ret (ip4_of <$> seqZ (block_base a n + 1) (2 ^ (32 - n) - 2), None).
Proof. by apply IpHosts_enum. Qed.

Lemma IpHosts_block_witness :
  IpHosts 10 "10.10.10.45/29" =
    Ret (["10.10.10.41"; "10.10.10.42"; "10.10.10.43"; "10.10.10.44"; "10.10.10.45";
          "10.10.10.46"], None) ∧
  IpHosts 10 (cidr_text [10;10;10;45] 29) =
    Ret (ip4_of <$> seqZ (block_base [10;10;10;45] 29 + 1) (2 ^ (32 - 29) - 2), None).
Proof.
  split; [vm_compute; reflexivity|].
  apply (IpHosts_block [10;10;10;45] 29 10); [|done|lia|vm_compute; reflexivity].
  by_bytes.
Defined.

(** The point-to-point case of [parse_cli]: a /30 has exactly two hosts, the
    network address plus one and plus two, and five iterations find them. *)
Theorem IpHosts_point_to_point (a : list Z) (Ha : bytes a) (Hl : length a = 4%nat) :
  IpHosts 5 (cidr_text a 30) =
    Ret ([ip4_of (be a / 4 * 4 + 1); ip4_of (be a / 4 * 4 + 2)], None).
Proof.
  rewrite IpHosts_enum by (done || lia).
  change (2 ^ (32 - 30) - 2) with 2. rewrite !seqZ_cons by lia. simpl.
  unfold block_base. change (2 ^ (32 - 30)) with 4. by rewrite <-Z.add_1_r, <-Z.add_assoc.
Qed.

Lemma IpHosts_point_to_point_witness :
  IpHosts 5 (cidr_text [255;255;255;255] 30) = Ret (["255.255.255.253"; "255.255.255.254"], None) ∧
  IpHosts 5 (cidr_text [10;10;10;40] 30) =
    Ret ([ip4_of (be [10;10;10;40] / 4 * 4 + 1); ip4_of (be [10;10;10;40] / 4 * 4 + 2)], None).
Proof.
  split; [vm_compute; reflexivity|].
  apply (IpHosts_point_to_point [10;10;10;40]); [by_bytes|done].
Defined.

(** On a /0 block the enumeration never ends, whatever the fuel: the
    increment of 255.255.255.255 is 0.0.0.0, which the block contains. *)
Theorem IpHosts_zero_diverges (a : list Z) (fuel : nat)
    (Ha : bytes a) (Hl : length a = 4%nat) :
  IpHosts fuel (cidr_text a 0) = Deadlock.
Proof.
  rewrite IpHosts_text by (done || lia).
  destruct (masked_bytes a 0 Hl ltac:(lia) a Ha Hl).
  by rewrite (hosts_loop_diverges a 0 Ha Hl).
Qed.

Lemma IpHosts_zero_diverges_witness : IpHosts 1000 (cidr_text [10;0;0;0] 0) = Deadlock.
Proof. apply (IpHosts_zero_diverges [10;0;0;0] 1000); [by_bytes|done]. Defined.
