(* ===== verification/Wire.v ===== *)
(** * Control messages on a KCP connection ([src/main.go])

    Both ends send keep-alives ([g_hello]) and the client tells the server which
    connection went down (LINKDOWN); everything else read from a connection is a
    packet for the tun interface.  [server_classify] and [client_classify] are
    the tests the two read loops apply to what they read. *)
From stdpp Require Import base list strings.
From Stdlib Require Import ZArith Lia.
From S2P Require Import Prelude.
#[local] Open Scope Z_scope.

(** [g_hello]: forty zero bytes. *)
Definition g_hello : list Z := replicate 40 0.

(** [binary.LittleEndian.PutUint16] and [Uint16]. *)
Definition PutUint16 (v : Z) : list Z := [v mod 256; v / 256 mod 256].
Definition Uint16 (b0 b1 : Z) : Z := b0 + 256 * b1.

(** The message built by [client_send_linkdown_message]. *)
Definition linkdown_message (disc_convid : Z) : list Z := 0 :: PutUint16 (u16 disc_convid).

Inductive message :=
| Hello
| Linkdown (convid : Z)
| Data (packet : list Z).

(** The hello test of both read loops, on the [n] bytes read. *)
Definition is_hello (packet : list Z) : bool :=
  bool_decide (length packet = length g_hello) &&
  (bool_decide (nth 0 packet 0 = 0) && bool_decide (nth 1 packet 0 = 0)).

(** [client_handle_kcp]: hello or data. *)
Definition client_classify (packet : list Z) : message :=
  if is_hello packet then Hello else Data packet.

(** [server_accept_conn]: hello, then LINKDOWN, then data. *)
Definition server_classify (packet : list Z) : message :=
  if is_hello packet then Hello
  else if bool_decide (length packet = 3%nat) && bool_decide (nth 0 packet 0 = 0)
  then Linkdown (Uint16 (nth 1 packet 0) (nth 2 packet 0))
  else Data packet.

(** A packet read from a tun interface: the version nibble is 4 or 6. *)
Definition ip_packet (p : list Z) : Prop :=
  ∃ b p', p = b :: p' ∧ (Z.shiftr b 4 = 4 ∨ Z.shiftr b 4 = 6).

Lemma Uint16_PutUint16 v :
  0 <= v < 2 ^ 16 → Uint16 (nth 0 (PutUint16 v) 0) (nth 1 (PutUint16 v) 0) = v.
Proof.
  intros Hv. unfold Uint16. simpl.
  rewrite (Z.mod_small (v / 256)) by (split; [apply Z.div_pos|apply Z.div_lt_upper_bound]; lia).
  pose proof (Z.div_mod v 256). lia.
Qed.

Lemma server_classify_linkdown c : server_classify (linkdown_message c) = Linkdown (u16 c).
Proof.
  unfold server_classify. simpl.
  pose proof (Uint16_PutUint16 (u16 c) (u16_range c)) as H. simpl in H. by rewrite H.
Qed.

(** C17: what the server makes of a LINKDOWN message, for every conversation id a
    client may send: the id modulo [2^16].  Ids below [2^16] arrive unchanged;
    any larger id arrives as a different one. *)
Theorem linkdown_roundtrip (convid : Z) (H : 0 <= convid < 2 ^ 32) :
  server_classify (linkdown_message convid) = Linkdown (convid mod 2 ^ 16) ∧
  (server_classify (linkdown_message convid) = Linkdown convid ↔ convid < 2 ^ 16).
Proof.
  rewrite server_classify_linkdown. split; [done|]. unfold u16. split.
  - intros [=]. pose proof (Z.mod_pos_bound convid (2 ^ 16) ltac:(lia)). lia.
  - intros Hlt. by rewrite Z.mod_small by lia.
Qed.

Lemma linkdown_roundtrip_witness :
  linkdown_message 663 = [0; 151; 2] ∧
  server_classify (linkdown_message 66196) = Linkdown (66196 mod 2 ^ 16) ∧
  (server_classify (linkdown_message 66196) = Linkdown 66196 ↔ 66196 < 2 ^ 16).
Proof. split; [reflexivity|]. apply (linkdown_roundtrip 66196). lia. Defined.

Lemma packet_classified p : ip_packet p → server_classify p = Data p ∧ client_classify p = Data p.
Proof.
  intros (b & p' & -> & Hb).
  assert (b ≠ 0) as Hb0 by (intros ->; destruct Hb; done).
  unfold server_classify, client_classify, is_hello. simpl nth.
  rewrite (bool_decide_eq_false_2 (b = 0)) by done.
  by rewrite !andb_false_l, !andb_false_r.
Qed.

(** C18: an IP packet forwarded from a tun interface is never taken for a control
    message by either end, while a hello is recognised by both. *)
Theorem control_data_disjoint (p : list Z) (H : ip_packet p) :
  server_classify p = Data p ∧ client_classify p = Data p ∧
  server_classify g_hello = Hello ∧ client_classify g_hello = Hello.
Proof. by destruct (packet_classified p H) as [-> ->]. Qed.

Lemma control_data_disjoint_witness :
  server_classify (69 :: replicate 39 0) = Data (69 :: replicate 39 0) ∧
  client_classify (69 :: replicate 39 0) = Data (69 :: replicate 39 0) ∧
  server_classify g_hello = Hello ∧ client_classify g_hello = Hello.
Proof.
  apply (control_data_disjoint (69 :: replicate 39 0)).
  exists 69, (replicate 39 0). split; [reflexivity|left; reflexivity].
Defined.
