(* ===== verification/FlowKey.v ===== *)
(** * The keys of the consistent packet scheduler ([src/main.go])

    [ExtractSrc] (client) and [ExtractDst] (server) turn a packet read from the
    tun interface into the string that the consistent hash maps to a
    connection.  [ParseHeader] of golang.org/x/net/ipv4 is a parameter. *)
From stdpp Require Import base list strings.
From Stdlib Require Import ZArith Lia.
From S2P Require Import Prelude GoNet.
#[local] Open Scope Z_scope.

(** The fields of [ipv4.Header] that are used; addresses are [net.IP] slices. *)
Record Header := mkHeader { Protocol : Z; Src : list Z; Dst : list Z }.

(** [ipv4.ParseHeader]: the header, [None] for a nil header with an error. *)
Class HeaderParser := ParseHeader : list Z → option Header.

(** What the package documents: the header of a buffer long enough for any IPv4
    header has its fields at the positions of RFC 791, the addresses in the
    16-byte form of [net.IPv4]. *)
Class HeaderParserLaws (P : HeaderParser) := ParseHeader_fields (f : list Z) :
  (60 <= length f)%nat →
  ParseHeader f = Some (mkHeader (nth 9 f 0)
    (v4InV6Prefix ++ take 4 (drop 12 f)) (v4InV6Prefix ++ take 4 (drop 16 f))).

Section extract.
Context {P : HeaderParser}.

(** The four port bytes in the order [i0 i1 : i2 i3], then two addresses; the
    panic is an index out of the buffer. *)
Definition tcp_key (frame : list Z) (i0 i1 i2 i3 : nat) (a b : list Z) : outcome string :=
  match frame !! i0, frame !! i1, frame !! i2, frame !! i3 with
  | Some b0, Some b1, Some b2, Some b3 =>
      Ret (fmt_x b0 +:+ fmt_x b1 +:+ ":" +:+ fmt_x b2 +:+ fmt_x b3 +:+ ":" +:+
           ip_string a +:+ ":" +:+ ip_string b)
  | _, _, _, _ => Panic "index out of range"
  end.

(** [ExtractDst]: the header of a frame that does not parse is nil, and its
    [Protocol] is a nil dereference. *)
Definition ExtractDst (frame : list Z) (frame_len : Z) : outcome string :=
  match ParseHeader frame with
  | None => Panic "nil header"
  | Some header =>
      if bool_decide (header.(Protocol) = 6) && bool_decide (24 <= frame_len)
      then tcp_key frame 22 23 20 21 header.(Src) header.(Dst)
      else Ret (ip_string header.(Src) +:+ ":" +:+ ip_string header.(Dst))
  end.

(** [ExtractSrc]. *)
Definition ExtractSrc (frame : list Z) (frame_len : Z) : outcome string :=
  match ParseHeader frame with
  | None => Panic "nil header"
  | Some header =>
      if bool_decide (header.(Protocol) = 6) && bool_decide (24 <= frame_len)
      then tcp_key frame 20 21 22 23 header.(Dst) header.(Src)
      else Ret (ip_string header.(Dst) +:+ ":" +:+ ip_string header.(Src))
  end.

End extract.

(** The packet buffers of the tun loops. *)
Definition packet_buffer (frame : list Z) : Prop := Z.of_nat (length frame) = 65535.

(** [r] travels in the opposite direction of [p] on the same flow: same
    protocol, addresses and the two 16-bit words after the header swapped. *)
Definition reply (p r : list Z) : Prop :=
  nth 9 r 0 = nth 9 p 0 ∧
  take 4 (drop 12 r) = take 4 (drop 16 p) ∧ take 4 (drop 16 r) = take 4 (drop 12 p) ∧
  r !! 20%nat = p !! 22%nat ∧ r !! 21%nat = p !! 23%nat ∧
  r !! 22%nat = p !! 20%nat ∧ r !! 23%nat = p !! 21%nat.

(** Both lengths are on the same side of the TCP test. *)
Definition same_size_class (n m : Z) : Prop := 24 <= n ↔ 24 <= m.

(** The parser that reads the fields where RFC 791 has them. *)
Definition rfc791_parser : HeaderParser := fun f =>
  if bool_decide (60 <= length f)%nat then
    Some (mkHeader (nth 9 f 0) (v4InV6Prefix ++ take 4 (drop 12 f))
      (v4InV6Prefix ++ take 4 (drop 16 f)))
  else None.

#[export] Instance rfc791_parser_laws : HeaderParserLaws rfc791_parser.
Proof. intros f Hf. unfold ParseHeader, rfc791_parser. by rewrite bool_decide_eq_true_2. Qed.

(** A TCP frame: addresses, ports and a buffer of zeros. *)
Definition tcp_frame (src dst : list Z) (ports : list Z) : list Z :=
  [69;0;0;40;0;0;0;0;64;6;0;0] ++ src ++ dst ++ ports ++ replicate (N.to_nat 65511) 0.

Section properties.
Context {P : HeaderParser} {PL : HeaderParserLaws P}.

(** The two keys of a flow, one per end. *)
Lemma symmetric_keys (p r : list Z) (n m : Z)
    (Hp : packet_buffer p) (Hr : packet_buffer r) (Hpr : reply p r)
    (Hsize : same_size_class n m) :
  ∃ key, ExtractSrc p n = Ret key ∧ ExtractDst r m = Ret key.
Proof.
  destruct Hpr as (H9 & Hs & Hd & H20 & H21 & H22 & H23). unfold packet_buffer in *.
  unfold ExtractSrc, ExtractDst. rewrite !ParseHeader_fields by lia. cbn [Protocol Src Dst].
  rewrite H9, Hs, Hd. rewrite (bool_decide_ext (24 <= m) (24 <= n)) by by symmetry.
  destruct (bool_decide (nth 9 p 0 = 6) && bool_decide (24 <= n)); [|by eexists].
  unfold tcp_key. rewrite H20, H21, H22, H23.
  assert (∀ i : nat, Z.of_nat i < 65535 → is_Some (p !! i)) as Hin.
  { intros i Hi. apply lookup_lt_is_Some. lia. }
  destruct (Hin 20%nat ltac:(lia)) as [? ->], (Hin 21%nat ltac:(lia)) as [? ->],
    (Hin 22%nat ltac:(lia)) as [? ->], (Hin 23%nat ltac:(lia)) as [? ->].
  by eexists.
Qed.

(** C16: on a packet buffer the key extraction never panics, and a packet and its
    reply get the same key on the two ends: the client keys an outgoing packet
    by [ExtractSrc], the server the reply by [ExtractDst].  So both directions
    of a flow are hashed alike. *)
Theorem flow_key_symmetric (p r : list Z) (n m : Z)
    (Hp : packet_buffer p) (Hr : packet_buffer r) (Hpr : reply p r)
    (Hsize : same_size_class n m) :
  ∃ key, ExtractSrc p n = Ret key ∧ ExtractDst r m = Ret key.
Proof. by apply symmetric_keys. Qed.

(** The key of a packet depends on its protocol, addresses and ports only:
    two packets that agree on them get the same key, whatever their payload and
    length, so a flow keeps its connection as long as the ring is unchanged. *)
Lemma flow_key_payload_independent (p q : list Z) (n m : Z)
    (Hp : packet_buffer p) (Hq : packet_buffer q) (Hsize : same_size_class n m)
    (Hproto : nth 9 p 0 = nth 9 q 0) (Haddr : take 12 (drop 12 p) = take 12 (drop 12 q)) :
  ExtractSrc p n = ExtractSrc q m ∧ ExtractDst p n = ExtractDst q m.
Proof.
  unfold packet_buffer in *.
  assert (∀ i, (i < 12)%nat → p !! (12 + i)%nat = q !! (12 + i)%nat) as Hl.
  { intros i Hi. rewrite <-!lookup_drop, <-(lookup_take_lt _ 12), Haddr by done.
    by rewrite lookup_take_lt. }
  assert (take 4 (drop 12 p) = take 4 (drop 12 q)) as H12.
  { apply (f_equal (take 4)) in Haddr. by rewrite !take_take in Haddr. }
  assert (take 4 (drop 16 p) = take 4 (drop 16 q)) as H16.
  { apply (f_equal (fun l => take 4 (drop 4 l))) in Haddr.
    rewrite !skipn_firstn_comm, !take_take, !drop_drop in Haddr. done. }
  unfold ExtractSrc, ExtractDst. rewrite !ParseHeader_fields by lia. cbn [Protocol Src Dst].
  rewrite Hproto, H12, H16. rewrite (bool_decide_ext (24 <= n) (24 <= m)) by done.
  unfold tcp_key.
  pose proof (Hl 8%nat ltac:(lia)) as H20. pose proof (Hl 9%nat ltac:(lia)) as H21.
  pose proof (Hl 10%nat ltac:(lia)) as H22. pose proof (Hl 11%nat ltac:(lia)) as H23.
  simpl in *. by rewrite H20, H21, H22, H23.
Qed.
End properties.

Lemma tcp_frame_buffer src dst ports :
  length src = 4%nat → length dst = 4%nat → length ports = 4%nat →
  packet_buffer (tcp_frame src dst ports).
Proof.
  intros H1 H2 H3. unfold packet_buffer, tcp_frame.
  rewrite !length_app, H1, H2, H3, length_replicate. simpl length. lia.
Qed.

Lemma flow_key_symmetric_witness :
  ∃ key, @ExtractSrc rfc791_parser (tcp_frame [10;0;0;2] [8;8;8;8] [192;1;1;187]) 40 = Ret key ∧
         @ExtractDst rfc791_parser (tcp_frame [8;8;8;8] [10;0;0;2] [1;187;192;1]) 52 = Ret key.
Proof.
  apply (flow_key_symmetric (tcp_frame [10;0;0;2] [8;8;8;8] [192;1;1;187])
    (tcp_frame [8;8;8;8] [10;0;0;2] [1;187;192;1]) 40 52).
  - apply tcp_frame_buffer; reflexivity.
  - apply tcp_frame_buffer; reflexivity.
  - unfold reply. split_and!; reflexivity.
  - unfold same_size_class. lia.
Defined.
