(* ===== verification/Network.v ===== *)
(** * Host interfaces ([src/p_network.go])

    The look-ups over [net.Interfaces()].  The list of interfaces ([None] when
    the call fails) is an argument; the globals [g_mac] and [g_lan_ip] are
    passed and returned. *)
From stdpp Require Import base sets list strings.
From Stdlib Require Import ZArith Lia Ascii.
From S2P Require Import Prelude GoNet.
#[local] Open Scope Z_scope.

(** The dynamic types of a [net.Addr]. *)
Inductive NetAddr :=
| AIPNet (ip : list Z)
| AIPAddr (ip : list Z)
| AOther.

(** [net.Interface]: name, index, [HardwareAddr.String()] and the result of
    [Addrs()] ([None]: error). *)
Record Interface := mkInterface {
  ifa_Name : string;
  ifa_Index : Z;
  ifa_HardwareAddr : string;
  ifa_Addrs : option (list NetAddr)
}.

(** The type switch on an address: its IP, [None] for the default case. *)
Definition addr_ip (a : NetAddr) : option (list Z) :=
  match a with AIPNet ip | AIPAddr ip => Some ip | AOther => None end.

Fixpoint getMacAddr_loop (ifas : list Interface) (name : string) (acc : list string)
    : list string :=
  match ifas with
  | [] => acc
  | ifa :: ifas' =>
      let a := ifa.(ifa_HardwareAddr) in
      getMacAddr_loop ifas' name
        (if negb (bool_decide (a = "")) then
           if bool_decide (ifa.(ifa_Name) = name) then acc ++ [a] else acc
         else acc)
  end.

Definition network_getMacAddr (ifas : option (list Interface)) (name : string)
    : list string * option string :=
  match ifas with
  | None => ([], Some "interfaces")
  | Some l => (getMacAddr_loop l name [], None)
  end.

Fixpoint interfaceExists_loop (ifas : list Interface) (name : string) : bool :=
  match ifas with
  | [] => false
  | ifa :: ifas' =>
      let n := ifa.(ifa_Name) in
      if negb (bool_decide (n = "")) && bool_decide (n = name) then true
      else interfaceExists_loop ifas' name
  end.

Definition network_interfaceExists (ifas : option (list Interface)) (name : string) : bool :=
  match ifas with
  | None => false
  | Some l => interfaceExists_loop l name
  end.

(** The inner loop of [network_getIpAddr]: [Some r] is the [return r] in it. *)
Fixpoint getIpAddr_addrs (addrs : list NetAddr) (acc : list string) : option (list string) :=
  match addrs with
  | [] => None
  | addr :: addrs' =>
      match addr_ip addr with
      | None => getIpAddr_addrs addrs' acc
      | Some ip =>
          match To4 ip with
          | Some ipv4 => Some (acc ++ [ip_string ipv4])
          | None => Some acc
          end
      end
  end.

Fixpoint getIpAddr_loop (ifas : list Interface) (name : string) (acc : list string)
    : list string :=
  match ifas with
  | [] => acc
  | ifa :: ifas' =>
      let n := ifa.(ifa_Name) in
      if negb (bool_decide (n = "")) && bool_decide (n = name) then
        match ifa.(ifa_Addrs) with
        | None => getIpAddr_loop ifas' name acc
        | Some addrs =>
            match getIpAddr_addrs addrs acc with
            | Some r => r
            | None => getIpAddr_loop ifas' name acc
            end
        end
      else getIpAddr_loop ifas' name acc
  end.

Definition network_getIpAddr (ifas : option (list Interface)) (name : string)
    : list string * option string :=
  match ifas with
  | None => ([], Some "interfaces")
  | Some l => (getIpAddr_loop l name [], None)
  end.

(** The inner loop of [network_ifAddrExists]; a nil [To4] prints as "<nil>". *)
Fixpoint ifAddrExists_addrs (addrs : list NetAddr) (find_addr : string) : bool :=
  match addrs with
  | [] => false
  | addr :: addrs' =>
      match addr_ip addr with
      | None => ifAddrExists_addrs addrs' find_addr
      | Some ip =>
          if bool_decide (ip_string (default [] (To4 ip)) = find_addr) then true
          else ifAddrExists_addrs addrs' find_addr
      end
  end.

Fixpoint ifAddrExists_loop (ifas : list Interface) (name find_addr : string) : bool :=
  match ifas with
  | [] => false
  | ifa :: ifas' =>
      let n := ifa.(ifa_Name) in
      if negb (bool_decide (n = "")) && bool_decide (n = name) then
        match ifa.(ifa_Addrs) with
        | None => ifAddrExists_loop ifas' name find_addr
        | Some addrs =>
            if ifAddrExists_addrs addrs find_addr then true
            else ifAddrExists_loop ifas' name find_addr
        end
      else ifAddrExists_loop ifas' name find_addr
  end.

Definition network_ifAddrExists (ifas : option (list Interface)) (name find_addr : string)
    : bool :=
  match ifas with
  | None => false
  | Some l => ifAddrExists_loop l name find_addr
  end.

(** [for _, x := range l { g = x }]. *)
Definition assign_each (l : list string) (g : string) : string := foldl (fun _ x => x) g l.

(** [network_get_lan_ip]: the new [g_lan_ip]; [l.Fatal] exits with status 1. *)
Definition network_get_lan_ip (ifas : option (list Interface)) : outcome string :=
  match network_getIpAddr ifas "br1" with
  | (_, Some _) => Exit 1
  | (ips, None) =>
      let g := assign_each ips "" in
      if negb (bool_decide (g = "")) then Ret g
      else match network_getIpAddr ifas "br-lan" with
           | (_, Some _) => Exit 1
           | (ips, None) => Ret (assign_each ips g)
           end
  end.

(** [strings.ToUpper] on ASCII text. *)
Definition upper_char (c : ascii) : ascii :=
  if bool_decide (97 <= code c <= 122) then ascii_of_N (N_of_ascii c - 32) else c.
Fixpoint ToUpper (s : string) : string :=
  match s with EmptyString => EmptyString | String c s' => String (upper_char c) (ToUpper s') end.

(** [network_get_mac]: the new [g_mac] and the result. *)
Definition network_get_mac (ifas : option (list Interface)) (g_mac : string)
    : outcome (string * string) :=
  match network_getMacAddr ifas "eth0" with
  | (_, Some _) => Exit 1
  | (macs, None) => let g := assign_each macs g_mac in Ret (g, ToUpper g)
  end.

(** ** Declarative specification *)

(** The interfaces called [name]; an empty name matches none. *)
Definition named (name : string) (ifas : list Interface) : list Interface :=
  filter (λ i, i.(ifa_Name) = name ∧ name ≠ "") ifas.

(** Their usable addresses, in order. *)
Definition usable (ifas : list Interface) : list (list Z) :=
  ifas ≫= (λ i, omap addr_ip (default [] i.(ifa_Addrs))).

Lemma named_cons name i l :
  named name (i :: l) =
    if negb (bool_decide (i.(ifa_Name) = "")) && bool_decide (i.(ifa_Name) = name)
    then i :: named name l else named name l.
Proof.
  unfold named. rewrite filter_cons.
  destruct (decide (ifa_Name i = name)) as [->|Hne].
  - rewrite (bool_decide_eq_true_2 (name = name)) by done. rewrite andb_true_r.
    case_bool_decide; case_decide; simpl; tauto || done.
  - rewrite (bool_decide_eq_false_2 (ifa_Name i = name)), andb_false_r by done.
    by rewrite decide_False by tauto.
Qed.

Lemma getIpAddr_addrs_spec addrs acc :
  getIpAddr_addrs addrs acc =
    (λ ip, acc ++ option_list (ip_string <$> To4 ip)) <$> head (omap addr_ip addrs).
Proof.
  induction addrs as [|a addrs IH]; simpl; [done|].
  destruct (addr_ip a) as [ip|]; [|done]. simpl.
  destruct (To4 ip); simpl; [done|]. by rewrite app_nil_r.
Qed.

Lemma getIpAddr_loop_spec ifas name :
  getIpAddr_loop ifas name [] =
    from_option (λ ip, option_list (ip_string <$> To4 ip)) [] (head (usable (named name ifas))).
Proof.
  induction ifas as [|i l IH]; [done|]. rewrite named_cons. simpl.
  destruct (negb _ && _); [|done].
  unfold usable in *. rewrite bind_cons. destruct (ifa_Addrs i) as [addrs|]; [|done]. simpl.
  rewrite getIpAddr_addrs_spec. destruct (omap addr_ip addrs); [done|]. done.
Qed.

(** [network_getIpAddr] reports at most one address: the first usable
    address of the first interface of that name, if it is an IPv4 address.  When
    that first address is IPv6, or there is none, the result is empty with a nil
    error. *)
Theorem network_getIpAddr_spec (ifas : list Interface) (name : string) :
  network_getIpAddr (Some ifas) name =
    (match head (usable (named name ifas)) with
     | Some ip => match To4 ip with Some ip4 => [ip_string ip4] | None => [] end
     | None => []
     end, None).
Proof.
  unfold network_getIpAddr. rewrite getIpAddr_loop_spec.
  destruct (head _) as [ip|]; [|done]. simpl. by destruct (To4 ip).
Qed.

Lemma ifAddrExists_addrs_spec addrs find :
  ifAddrExists_addrs addrs find = true ↔
  ∃ ip, ip ∈ omap addr_ip addrs ∧ ip_string (default [] (To4 ip)) = find.
Proof.
  induction addrs as [|a addrs IH]; simpl; [set_solver|].
  destruct (addr_ip a) as [ip|]; [|done]. case_bool_decide; set_solver.
Qed.

(** [network_ifAddrExists] decides whether some usable address of an
    interface of that name prints, in its IPv4 form, as the text looked for. *)
Theorem network_ifAddrExists_spec (ifas : list Interface) (name find_addr : string) :
  network_ifAddrExists (Some ifas) name find_addr = true ↔
  ∃ ip, ip ∈ usable (named name ifas) ∧ ip_string (default [] (To4 ip)) = find_addr.
Proof.
  unfold network_ifAddrExists.
  induction ifas as [|i l IH]; [set_solver|]. rewrite named_cons. simpl.
  destruct (negb _ && _); [|done].
  unfold usable in *. rewrite bind_cons.
  destruct (ifa_Addrs i) as [addrs|]; [|set_solver]. simpl.
  destruct (ifAddrExists_addrs addrs find_addr) eqn:E.
  - apply ifAddrExists_addrs_spec in E as (ip & Hip & Heq). set_solver.
  - rewrite IH. assert (∀ ip, ip ∈ omap addr_ip addrs →
      ip_string (default [] (To4 ip)) ≠ find_addr) as Hno.
    { intros ip Hip Heq. apply not_true_iff_false in E. apply E.
      apply ifAddrExists_addrs_spec. eauto. }
    set_solver.
Qed.

Lemma getMacAddr_loop_spec ifas name acc :
  getMacAddr_loop ifas name acc =
    acc ++ (ifa_HardwareAddr <$>
      filter (λ i, i.(ifa_HardwareAddr) ≠ "" ∧ i.(ifa_Name) = name) ifas).
Proof.
  revert acc. induction ifas as [|i l IH]; intros acc; simpl; [by rewrite app_nil_r|].
  rewrite IH, filter_cons.
  repeat case_bool_decide; simpl; case_decide; try naive_solver; simpl.
  by rewrite <-app_assoc.
Qed.
