(* ===== verification/Ring.v ===== *)
(** * The consistent hash of a tunnel (interface)

    [stathat.com/c/consistent] is third-party code: the class states the
    operations ratbond calls and the laws it relies on.  The clients of the
    class are the schedulers of both ends; [set_ring] is an implementation, the
    set of members itself. *)
From stdpp Require Import base gmap sets list strings.
From Stdlib Require Import ZArith Lia.
From S2P Require Import Prelude.
#[local] Open Scope Z_scope.

(** [New], [Add], [Remove], [Get] ([None]: the error of an empty circle) and
    [Members] of a [consistent.Consistent]. *)
Class Consistent := {
  ring : Type;
  ring_New : ring;
  ring_Add : string → ring → ring;
  ring_Remove : string → ring → ring;
  ring_Get : ring → string → option string;
  ring_Members : ring → gset string
}.

Class ConsistentLaws (C : Consistent) := {
  Members_New : ring_Members ring_New = ∅;
  Members_Add e r : ring_Members (ring_Add e r) = {[e]} ∪ ring_Members r;
  Members_Remove e r : ring_Members (ring_Remove e r) = ring_Members r ∖ {[e]};
  Get_member r k e : ring_Get r k = Some e → e ∈ ring_Members r;
  Get_None r k : ring_Get r k = None ↔ ring_Members r = ∅
}.

(** What consistent hashing is for: the choice is a function of the members,
    whatever the order in which they came and went.  The library keeps this as
    long as the hash positions of the members' replicas are distinct. *)
Class ConsistentCanonical (C : Consistent) := {
  Get_members r r' k : ring_Members r = ring_Members r' → ring_Get r k = ring_Get r' k
}.

(** A key goes to the member whose position in the list of members is the
    length of the key modulo their number. *)
Definition set_ring : Consistent := {|
  ring := gset string;
  ring_New := ∅;
  ring_Add e r := {[e]} ∪ r;
  ring_Remove e r := r ∖ {[e]};
  ring_Get r k := elements r !! (String.length k `mod` length (elements r))%nat;
  ring_Members r := r
|}.

#[export] Instance set_ring_laws : ConsistentLaws set_ring.
Proof.
  split; simpl; try done.
  - intros r k e H. apply elem_of_elements. by eapply list_elem_of_lookup_2.
  - intros r k. rewrite lookup_ge_None. split.
    + intros Hle. apply leibniz_equiv, elements_empty_iff.
      destruct (elements r) as [|x l] eqn:E; [done|]. exfalso.
      pose proof (Nat.mod_upper_bound (String.length k) (length (x :: l))). simpl in *. lia.
    + intros ->. rewrite elements_empty. simpl. lia.
Qed.

#[export] Instance set_ring_canonical : ConsistentCanonical set_ring.
Proof. split. simpl. by intros r r' k ->. Qed.

(** The members of the ring of a set of conversations: their ids in decimal. *)
Definition ids (s : gset Z) : gset string := set_map fmt_d s.

Lemma elem_of_ids s e : e ∈ ids s ↔ ∃ z, e = fmt_d z ∧ z ∈ s.
Proof. unfold ids. rewrite elem_of_map. naive_solver. Qed.

Lemma ids_empty : ids ∅ = ∅.
Proof. unfold ids. by rewrite set_map_empty. Qed.

Lemma ids_insert z s : ids ({[z]} ∪ s) = {[fmt_d z]} ∪ ids s.
Proof. unfold ids. by rewrite set_map_union_L, set_map_singleton_L. Qed.

Lemma ids_delete z s : ids (s ∖ {[z]}) = ids s ∖ {[fmt_d z]}.
Proof.
  apply set_eq. intros e. rewrite elem_of_difference, elem_of_singleton, !elem_of_ids. split.
  - intros (y & -> & Hy). split; [set_solver|]. intros H%(inj fmt_d). set_solver.
  - intros [(y & -> & Hy) Hne]. exists y. split; [done|]. set_solver.
Qed.

Lemma ids_empty_iff s : ids s = ∅ ↔ s = ∅.
Proof.
  split; [|intros ->; apply ids_empty]. intros H. apply set_eq. intros z. split; [|set_solver].
  intros Hz. assert (fmt_d z ∈ ids s) as Hin by (apply elem_of_ids; eauto).
  rewrite H in Hin. set_solver.
Qed.

(** What the ring of a set of conversations answers: one of them, or nothing
    when there is none. *)
Lemma ring_choice {C : Consistent} {CL : ConsistentLaws C} {A} (conns : gmap Z A) key r :
  ring_Members r = ids (dom conns) →
  match ring_Get r key with
  | None => conns = ∅
  | Some owner => ∃ k, is_Some (conns !! k) ∧ owner = fmt_d k
  end.
Proof.
  intros Hm. destruct (ring_Get r key) as [owner|] eqn:Hg.
  - apply Get_member in Hg. rewrite Hm in Hg. apply elem_of_ids in Hg as (k & -> & Hk).
    apply elem_of_dom in Hk. by exists k.
  - apply Get_None in Hg. rewrite Hm in Hg. apply ids_empty_iff in Hg. by apply dom_empty_inv_L in Hg.
Qed.
