(* ===== verification/World.v ===== *)
(** * Data and effects of the running program ([src/main.go])

    The global configuration, the connection and tunnel records of both ends,
    the state of the process ([world]) and the calls that leave the program.

    The outside is an [Env]: every call that may answer differently each time
    (the clock, the order of a [range] over a map, a command, the tun device,
    the sockets, KCP) is a function of a counter of calls, so that a statement
    for all environments is a statement for all answers.  The calls that act on
    the outside are recorded, in order, in the trace of the world. *)
From stdpp Require Import base gmap sets list strings.
From Stdlib Require Import ZArith Lia.
From S2P Require Import Prelude GoFloat GoNet Network Ring.
#[local] Open Scope Z_scope.

(** ** Configuration *)

Record config := mkConfig {
  g_use_syslog : bool;
  g_debug : bool;
  g_trace : bool;
  g_use_consistent_hashing : bool;
  g_connect_addr : string;
  g_listen_addr : string;
  g_mqtt_broker_addr : string;
  g_mqtt_username : string;
  g_mqtt_password : string;
  g_tunnel_id : Z;
  g_tunnel_name : string;
  g_server_tun_ip : string;
  g_client_tun_ip : string;
  g_http_listen_addr : string;
  g_secret : string;
  g_use_aes : bool;
  g_mux_max : Z
}.

#[export] Instance config_settable : Settable config := fun c =>
  mkConfig c.(g_use_syslog) c.(g_debug) c.(g_trace) c.(g_use_consistent_hashing)
    c.(g_connect_addr) c.(g_listen_addr) c.(g_mqtt_broker_addr) c.(g_mqtt_username)
    c.(g_mqtt_password) c.(g_tunnel_id) c.(g_tunnel_name) c.(g_server_tun_ip)
    c.(g_client_tun_ip) c.(g_http_listen_addr) c.(g_secret) c.(g_use_aes) c.(g_mux_max).

(** The initial values of the globals. *)
Definition default_config : config := {|
  g_use_syslog := true;
  g_debug := false;
  g_trace := false;
  g_use_consistent_hashing := true;
  g_connect_addr := "";
  g_listen_addr := "0.0.0.0:12345";
  g_mqtt_broker_addr := "";
  g_mqtt_username := "";
  g_mqtt_password := "";
  g_tunnel_id := 0;
  g_tunnel_name := "";
  g_server_tun_ip := "10.10.10.2";
  g_client_tun_ip := "10.10.10.1";
  g_http_listen_addr := "0.0.0.0:8091";
  g_secret := "ratbond";
  g_use_aes := false;
  g_mux_max := 1
|}.

Definition g_write_deadline : Z := 2000.
Definition g_client_max_rxtimeouts : Z := 20.
Definition g_max_hello : Z := 5.
Definition g_kcp_mtu : Z := 1360.
Definition g_tunnel_mtu : Z := g_kcp_mtu - 24.

(** Nanoseconds in a millisecond, [time.Millisecond]. *)
Definition Millisecond : Z := 1000000.

(** ** Sessions and connections *)

(** Handles of objects of other packages: sockets, KCP sessions, tun devices. *)
Abbreviation handle := Z.

Record RatSession := mkRatSession {
  s_convid : Z;
  s_udp_conn : option handle;
  s_remote : option string;
  s_kcp : option handle
}.

Record serverConnection := mkServerConnection {
  sc_convid : Z;
  sc_session : option RatSession;
  sc_ifname : string;
  sc_rxloss : Z;
  sc_txloss : Z;
  sc_txcounter : Z;
  sc_txbytes : Z;
  sc_rxcounter : Z;
  sc_rxbytes : Z;
  sc_rxtimeouts : Z;
  sc_txtimeouts : Z;
  sc_priority : Z;
  sc_last_bw_update : Z;
  sc_txbandwidth : float;
  sc_rxbandwidth : float;
  sc_last_hello : Z;
  sc_up_since : Z;
  sc_alive : bool;
  sc_src_address : string;
  sc_wan_ip : string
}.

#[export] Instance serverConnection_settable : Settable serverConnection := fun c =>
  mkServerConnection c.(sc_convid) c.(sc_session) c.(sc_ifname) c.(sc_rxloss) c.(sc_txloss)
    c.(sc_txcounter) c.(sc_txbytes) c.(sc_rxcounter) c.(sc_rxbytes) c.(sc_rxtimeouts)
    c.(sc_txtimeouts) c.(sc_priority) c.(sc_last_bw_update) c.(sc_txbandwidth)
    c.(sc_rxbandwidth) c.(sc_last_hello) c.(sc_up_since) c.(sc_alive) c.(sc_src_address)
    c.(sc_wan_ip).

Record clientConnection := mkClientConnection {
  cc_convid : Z;
  cc_session : option RatSession;
  cc_rxloss : Z;
  cc_txloss : Z;
  cc_txcounter : Z;
  cc_txbytes : Z;
  cc_rxcounter : Z;
  cc_rxbytes : Z;
  cc_rxtimeouts : Z;
  cc_txtimeouts : Z;
  cc_priority : Z;
  cc_last_bw_update : Z;
  cc_txbandwidth : float;
  cc_rxbandwidth : float;
  cc_last_hello : Z;
  cc_up_since : Z;
  cc_alive : bool;
  cc_src_address : string
}.

#[export] Instance clientConnection_settable : Settable clientConnection := fun c =>
  mkClientConnection c.(cc_convid) c.(cc_session) c.(cc_rxloss) c.(cc_txloss)
    c.(cc_txcounter) c.(cc_txbytes) c.(cc_rxcounter) c.(cc_rxbytes) c.(cc_rxtimeouts)
    c.(cc_txtimeouts) c.(cc_priority) c.(cc_last_bw_update) c.(cc_txbandwidth)
    c.(cc_rxbandwidth) c.(cc_last_hello) c.(cc_up_since) c.(cc_alive) c.(cc_src_address).

(** ** Tunnels: one type for each end *)

(** Pointers to connection records.  The map of a tunnel and the goroutines of
    a connection share the record through such a pointer. *)
Abbreviation loc := nat.

Section types.
Context {C : Consistent}.

(** [serverType]; [sv_locked] is the state of [mu], the nil map and the nil
    ring are [None]. *)
Record serverType := mkServerType {
  sv_locked : bool;
  sv_connections : option (gmap Z loc);
  sv_consistent : option ring;
  sv_iface : option handle;
  sv_base_convid : Z;
  sv_last_convid : Z;
  sv_ifname : string;
  sv_my_tun_ip : string;
  sv_remote_tun_ip : string
}.

#[global] Instance serverType_settable : Settable serverType := fun s =>
  mkServerType s.(sv_locked) s.(sv_connections) s.(sv_consistent) s.(sv_iface)
    s.(sv_base_convid) s.(sv_last_convid) s.(sv_ifname) s.(sv_my_tun_ip) s.(sv_remote_tun_ip).

(** [new(serverType)] with a fresh mutex. *)
Definition new_serverType : serverType :=
  mkServerType false None None None 0 0 "" "" "".

Record clientType := mkClientType {
  cl_locked : bool;
  cl_connections : option (gmap Z loc);
  cl_consistent : option ring;
  cl_iface : option handle;
  cl_base_convid : Z;
  cl_last_convid : Z;
  cl_ifname : string;
  cl_my_tun_ip : string;
  cl_remote_tun_ip : string
}.

#[global] Instance clientType_settable : Settable clientType := fun s =>
  mkClientType s.(cl_locked) s.(cl_connections) s.(cl_consistent) s.(cl_iface)
    s.(cl_base_convid) s.(cl_last_convid) s.(cl_ifname) s.(cl_my_tun_ip) s.(cl_remote_tun_ip).

Definition new_clientType : clientType :=
  mkClientType false None None None 0 0 "" "" "".

(** ** Actions on the outside *)

Inductive BlockCrypt := AESBlockCrypt (key : string) | NoneBlockCrypt (key : string).

(** The KCP parameters the program sets on a session. *)
Inductive KcpOption :=
| OptStreamMode (b : bool)
| OptWriteDelay (b : bool)
| OptNoDelay (nodelay interval resend nc : Z)
| OptMtu (mtu : Z)
| OptWindowSize (snd rcv : Z)
| OptACKNoDelay (b : bool)
| OptDeadlink (n : Z).

Inductive goroutine :=
| GoClientHandleKcp (tunnelid : Z) (conn : loc)
| GoClientHandleTun (tunnelid : Z)
| GoClientSendHello (conn : loc) (base_convid : Z)
| GoServerHandleTun (tunnelid : Z)
| GoServerSendHello (conn : loc)
| GoServerAcceptConn (tunnelid convid : Z) (kcp : handle)
| GoServerListener (tunnelid : Z)
| GoHttpServe
| GoNetlinkIfaces (tunnelid : Z)
| GoNetlinkRoutes (tunnelid : Z)
| GoNetlinkGetRoutes (tunnelid : Z).

Inductive event :=
| EvCommand (prog : string) (args : list string)
| EvKcpWrite (kcp : handle) (data : list Z)
| EvKcpClose (kcp : handle)
| EvUdpClose (conn : handle)
| EvKcpWriteDeadline (kcp : handle) (t : Z)
| EvKcpReadDeadline (kcp : handle) (t : Z)
| EvKcpOption (kcp : handle) (opt : KcpOption)
| EvKcpReadBuffer (kcp : handle) (bytes : Z)
| EvKcpWriteBuffer (kcp : handle) (bytes : Z)
| EvTunWrite (tun : handle) (data : list Z)
| EvSleep (ms : Z)
| EvGo (g : goroutine).

(** ** State *)

Record world := mkWorld {
  w_tick : nat;
  w_next : loc;
  g_server_list : gmap Z serverType;
  w_sconns : gmap loc serverConnection;
  g_client_list : gmap Z clientType;
  w_cconns : gmap loc clientConnection;
  w_trace : list event
}.

#[global] Instance world_settable : Settable world := fun w =>
  mkWorld w.(w_tick) w.(w_next) w.(g_server_list) w.(w_sconns) w.(g_client_list)
    w.(w_cconns) w.(w_trace).

Definition init_world : world := mkWorld 0 0 ∅ ∅ ∅ ∅ [].

(** ** The outside *)

Class Env := {
  (** Width of [int] on the target. *)
  env_int_bits : Z;
  (** [time.Now()] in nanoseconds. *)
  env_now : nat → Z;
  (** The order in which [range] visits the given keys of a map. *)
  env_range : nat → list Z → list Z;
  (** [CombinedOutput] of a command, [None] for an error. *)
  env_exec : nat → string → list string → option string;
  (** [water.New] and [Interface.Name] ([None]: panic on a nil receiver). *)
  env_tun_New : nat → string → option handle;
  env_tun_Name : option handle → option string;
  env_tun_Write : nat → handle → list Z → option string;
  env_tun_Read : nat → handle → list Z + string;
  (** [net.Interfaces()], the name of an interface by its index, host look-up, [ListenUDP], the HTTP request. *)
  env_Interfaces : nat → option (list Interface);
  env_InterfaceByIndex : nat → Z → option string;
  env_lookup : nat → string → option (list Z);
  env_ResolveTCP : nat → string → bool;
  env_ListenUDP : nat → list Z → option handle;
  env_http_get : nat → string → option string;
  (** Key derivation and KCP. *)
  env_pbkdf2 : string → string → Z → Z → string;
  env_kcp_NewConn : nat → Z → list Z * Z → BlockCrypt → Z → Z → handle → option handle;
  env_kcp_Listen : nat → string → BlockCrypt → Z → Z → option handle;
  env_kcp_Accept : nat → handle → option handle;
  env_kcp_GetConv : handle → Z;
  env_kcp_RemoteAddr : handle → list Z * string * Z;
  env_kcp_GetState : nat → handle → Z;
  env_kcp_Write : nat → handle → list Z → option string;
  env_kcp_Read : nat → handle → list Z + string
}.

(** [range] visits every key once; an [int] has 32 or 64 bits. *)
Class EnvLaws (E : Env) := {
  range_perm t l : Permutation (env_range t l) l;
  int_bits_cases : env_int_bits = 32 ∨ env_int_bits = 64
}.

Context {E : Env}.

(** The tun device opens. *)
Definition tun_opens : Prop :=
  ∀ t name, ∃ h, env_tun_New t name = Some h ∧ is_Some (env_tun_Name (Some h)).

Abbreviation W := (M world).

(** A call outside: its counter. *)
Definition tick : W nat := fun w => (Ret w.(w_tick), w <| w_tick ::= S |>).

Definition emit (e : event) : W unit := modify (fun w => w <| w_trace ::= (fun l => l ++ [e]) |>).

Definition time_Now : W Z := t ← tick; mret (env_now t).

(** The keys of a map in the order of one [range] statement. *)
Definition range_keys {A : Type} (m : gmap Z A) : W (list Z) :=
  t ← tick; mret (env_range t (map_to_list m).*1).

Definition sleep_ms (ms : Z) : W unit := emit (EvSleep ms).

Definition go (g : goroutine) : W unit := emit (EvGo g).

(** [runthing]: the output, or "error". *)
Definition runthing (thing : string) (arg : list string) : W string :=
  emit (EvCommand thing arg) ;;
  t ← tick;
  mret (match env_exec t thing arg with None => "error" | Some out => out end).

(** ** Access through pointers *)

(** The fields of the tunnel [tunnelid]; a nil [*serverType] panics.  A tunnel
    record is only ever reached under its own key of [g_server_list] and the key
    is never rebound, so the key stands for the pointer. *)
Definition get_server (tunnelid : Z) : W serverType :=
  w ← getS; deref "nil *serverType" (w.(g_server_list) !! tunnelid).

Definition upd_server (tunnelid : Z) (f : serverType → serverType) : W unit :=
  s ← get_server tunnelid;
  modify (fun w => w <| g_server_list ::= insert tunnelid (f s) |>).

(** [server.mu.Lock()] and [Unlock()]. *)
Definition lock_server (tunnelid : Z) : W unit :=
  s ← get_server tunnelid;
  if s.(sv_locked) then deadlock else upd_server tunnelid (setf sv_locked (fun _ => true)).
Definition unlock_server (tunnelid : Z) : W unit :=
  upd_server tunnelid (setf sv_locked (fun _ => false)).

Definition get_sconn (l : loc) : W serverConnection :=
  w ← getS; deref "nil *serverConnection" (w.(w_sconns) !! l).
Definition upd_sconn (l : loc) (f : serverConnection → serverConnection) : W unit :=
  c ← get_sconn l; modify (fun w => w <| w_sconns ::= insert l (f c) |>).
Definition new_sconn (c : serverConnection) : W loc :=
  fun w => (Ret w.(w_next), w <| w_next ::= S |> <| w_sconns ::= insert w.(w_next) c |>).

Definition get_client (tunnelid : Z) : W clientType :=
  w ← getS; deref "nil *clientType" (w.(g_client_list) !! tunnelid).
Definition upd_client (tunnelid : Z) (f : clientType → clientType) : W unit :=
  s ← get_client tunnelid;
  modify (fun w => w <| g_client_list ::= insert tunnelid (f s) |>).
Definition lock_client (tunnelid : Z) : W unit :=
  s ← get_client tunnelid;
  if s.(cl_locked) then deadlock else upd_client tunnelid (setf cl_locked (fun _ => true)).
Definition unlock_client (tunnelid : Z) : W unit :=
  upd_client tunnelid (setf cl_locked (fun _ => false)).
Definition get_cconn (l : loc) : W clientConnection :=
  w ← getS; deref "nil *clientConnection" (w.(w_cconns) !! l).
Definition upd_cconn (l : loc) (f : clientConnection → clientConnection) : W unit :=
  c ← get_cconn l; modify (fun w => w <| w_cconns ::= insert l (f c) |>).
Definition new_cconn (c : clientConnection) : W loc :=
  fun w => (Ret w.(w_next), w <| w_next ::= S |> <| w_cconns ::= insert w.(w_next) c |>).

End types.

Abbreviation W := (M world).

(** Reading a map field: the nil map has no entry. *)
Definition sv_conns `{C : Consistent} (s : serverType) : gmap Z loc := default ∅ s.(sv_connections).
Definition cl_conns `{C : Consistent} (s : clientType) : gmap Z loc := default ∅ s.(cl_connections).

(** ** Stepping through the primitives *)

Section steps.
Context {C : Consistent} {E : Env}.

Lemma wp_tick (Q : nat → world → Prop) w :
  Q w.(w_tick) (w <| w_tick ::= S |>) → wp tick Q w.
Proof. intros H. by eexists _, _. Qed.
Lemma wp_emit e (Q : unit → world → Prop) w :
  Q tt (w <| w_trace ::= (fun l => l ++ [e]) |>) → wp (emit e) Q w.
Proof. apply wp_modify. Qed.
Lemma wp_time_Now (Q : Z → world → Prop) w :
  Q (env_now w.(w_tick)) (w <| w_tick ::= S |>) → wp time_Now Q w.
Proof. intros H. by eexists _, _. Qed.
Lemma wp_range_keys {A} (m : gmap Z A) (Q : list Z → world → Prop) w :
  Q (env_range w.(w_tick) (map_to_list m).*1) (w <| w_tick ::= S |>) → wp (range_keys m) Q w.
Proof. intros H. by eexists _, _. Qed.
Lemma wp_get_server tid s (Q : serverType → world → Prop) w :
  w.(g_server_list) !! tid = Some s → Q s w → wp (get_server tid) Q w.
Proof. intros Hs HQ. exists s, w. unfold get_server, getS, mbind, M_bind. by rewrite Hs. Qed.
Lemma wp_upd_server tid s f (Q : unit → world → Prop) w :
  w.(g_server_list) !! tid = Some s →
  Q tt (w <| g_server_list ::= insert tid (f s) |>) → wp (upd_server tid f) Q w.
Proof.
  intros Hs HQ. apply wp_bind. eapply wp_get_server; [done|]. by apply wp_modify.
Qed.
Lemma wp_get_sconn l c (Q : serverConnection → world → Prop) w :
  w.(w_sconns) !! l = Some c → Q c w → wp (get_sconn l) Q w.
Proof. intros Hs HQ. exists c, w. unfold get_sconn, getS, mbind, M_bind. by rewrite Hs. Qed.
Lemma wp_upd_sconn l c f (Q : unit → world → Prop) w :
  w.(w_sconns) !! l = Some c →
  Q tt (w <| w_sconns ::= insert l (f c) |>) → wp (upd_sconn l f) Q w.
Proof.
  intros Hs HQ. apply wp_bind. eapply wp_get_sconn; [done|]. by apply wp_modify.
Qed.
Lemma wp_lock_server tid s (Q : unit → world → Prop) w :
  w.(g_server_list) !! tid = Some s → s.(sv_locked) = false →
  Q tt (w <| g_server_list ::= insert tid (s <| sv_locked := true |>) |>) →
  wp (lock_server tid) Q w.
Proof.
  intros Hs Hl HQ. apply wp_bind. eapply wp_get_server; [done|]. rewrite Hl.
  by eapply wp_upd_server.
Qed.
Lemma wp_unlock_server tid s (Q : unit → world → Prop) w :
  w.(g_server_list) !! tid = Some s →
  Q tt (w <| g_server_list ::= insert tid (s <| sv_locked := false |>) |>) →
  wp (unlock_server tid) Q w.
Proof. intros Hs HQ. by eapply wp_upd_server. Qed.
Lemma wp_get_client tid s (Q : clientType → world → Prop) w :
  w.(g_client_list) !! tid = Some s → Q s w → wp (get_client tid) Q w.
Proof. intros Hs HQ. exists s, w. unfold get_client, getS, mbind, M_bind. by rewrite Hs. Qed.
Lemma wp_upd_client tid s f (Q : unit → world → Prop) w :
  w.(g_client_list) !! tid = Some s →
  Q tt (w <| g_client_list ::= insert tid (f s) |>) → wp (upd_client tid f) Q w.
Proof.
  intros Hs HQ. apply wp_bind. eapply wp_get_client; [done|]. by apply wp_modify.
Qed.
Lemma wp_get_cconn l c (Q : clientConnection → world → Prop) w :
  w.(w_cconns) !! l = Some c → Q c w → wp (get_cconn l) Q w.
Proof. intros Hs HQ. exists c, w. unfold get_cconn, getS, mbind, M_bind. by rewrite Hs. Qed.
Lemma wp_upd_cconn l c f (Q : unit → world → Prop) w :
  w.(w_cconns) !! l = Some c →
  Q tt (w <| w_cconns ::= insert l (f c) |>) → wp (upd_cconn l f) Q w.
Proof.
  intros Hs HQ. apply wp_bind. eapply wp_get_cconn; [done|]. by apply wp_modify.
Qed.
Lemma wp_lock_client tid s (Q : unit → world → Prop) w :
  w.(g_client_list) !! tid = Some s → s.(cl_locked) = false →
  Q tt (w <| g_client_list ::= insert tid (s <| cl_locked := true |>) |>) →
  wp (lock_client tid) Q w.
Proof.
  intros Hs Hl HQ. apply wp_bind. eapply wp_get_client; [done|]. rewrite Hl.
  by eapply wp_upd_client.
Qed.
Lemma wp_unlock_client tid s (Q : unit → world → Prop) w :
  w.(g_client_list) !! tid = Some s →
  Q tt (w <| g_client_list ::= insert tid (s <| cl_locked := false |>) |>) →
  wp (unlock_client tid) Q w.
Proof. intros Hs HQ. by eapply wp_upd_client. Qed.
Lemma wp_runthing thing arg (Q : string → world → Prop) w :
  Q (match env_exec w.(w_tick) thing arg with None => "error" | Some out => out end)
    (w <| w_trace ::= (fun l => l ++ [EvCommand thing arg]) |> <| w_tick ::= S |>) →
  wp (runthing thing arg) Q w.
Proof. intros HQ. by eexists _, _. Qed.

Lemma wlp_tick (Q : nat → world → Prop) w :
  Q w.(w_tick) (w <| w_tick ::= S |>) → wlp tick Q w.
Proof. intros H ? ? [=]. by subst. Qed.
Lemma wlp_time_Now (Q : Z → world → Prop) w :
  Q (env_now w.(w_tick)) (w <| w_tick ::= S |>) → wlp time_Now Q w.
Proof. intros H ? ? [=]. by subst. Qed.
Lemma wlp_get_server tid (Q : serverType → world → Prop) w :
  (∀ s, w.(g_server_list) !! tid = Some s → Q s w) → wlp (get_server tid) Q w.
Proof. intros H. apply wlp_bind, wlp_getS, wlp_deref, H. Qed.
Lemma wlp_get_server_eq tid s (Q : serverType → world → Prop) w :
  w.(g_server_list) !! tid = Some s → Q s w → wlp (get_server tid) Q w.
Proof. intros Hs HQ. apply wlp_get_server. intros s' Hs'. by simplify_eq. Qed.
Lemma wlp_upd_server_eq tid s f (Q : unit → world → Prop) w :
  w.(g_server_list) !! tid = Some s →
  Q tt (w <| g_server_list ::= insert tid (f s) |>) → wlp (upd_server tid f) Q w.
Proof. intros Hs HQ. apply wlp_bind. eapply wlp_get_server_eq; [done|]. by apply wlp_modify. Qed.
Lemma wlp_upd_server tid f (Q : unit → world → Prop) w :
  (∀ s, w.(g_server_list) !! tid = Some s →
    Q tt (w <| g_server_list ::= insert tid (f s) |>)) → wlp (upd_server tid f) Q w.
Proof. intros H. apply wlp_bind, wlp_get_server. intros s Hs. by apply wlp_modify, H. Qed.
Lemma wlp_get_sconn l (Q : serverConnection → world → Prop) w :
  (∀ c, w.(w_sconns) !! l = Some c → Q c w) → wlp (get_sconn l) Q w.
Proof. intros H. apply wlp_bind, wlp_getS, wlp_deref, H. Qed.
Lemma wlp_upd_sconn l f (Q : unit → world → Prop) w :
  (∀ c, w.(w_sconns) !! l = Some c → Q tt (w <| w_sconns ::= insert l (f c) |>)) →
  wlp (upd_sconn l f) Q w.
Proof. intros H. apply wlp_bind, wlp_get_sconn. intros s Hs. by apply wlp_modify, H. Qed.
Lemma wlp_lock_server tid (Q : unit → world → Prop) w :
  (∀ s, w.(g_server_list) !! tid = Some s → s.(sv_locked) = false →
    Q tt (w <| g_server_list ::= insert tid (s <| sv_locked := true |>) |>)) →
  wlp (lock_server tid) Q w.
Proof.
  intros H. apply wlp_bind, wlp_get_server. intros s Hs.
  destruct (sv_locked s) eqn:Hl; [apply wlp_deadlock|].
  apply wlp_upd_server. intros s' Hs'. simplify_eq. by apply H.
Qed.
Lemma wlp_new_sconn c (Q : loc → world → Prop) w :
  Q w.(w_next) (w <| w_next ::= S |> <| w_sconns ::= insert w.(w_next) c |>) →
  wlp (new_sconn c) Q w.
Proof. intros H ? ? [=]. by subst. Qed.

Lemma wlp_get_client tid (Q : clientType → world → Prop) w :
  (∀ s, w.(g_client_list) !! tid = Some s → Q s w) → wlp (get_client tid) Q w.
Proof. intros H. apply wlp_bind, wlp_getS, wlp_deref, H. Qed.
Lemma wlp_get_client_eq tid s (Q : clientType → world → Prop) w :
  w.(g_client_list) !! tid = Some s → Q s w → wlp (get_client tid) Q w.
Proof. intros Hs HQ. apply wlp_get_client. intros s' Hs'. by simplify_eq. Qed.
Lemma wlp_upd_client_eq tid s f (Q : unit → world → Prop) w :
  w.(g_client_list) !! tid = Some s →
  Q tt (w <| g_client_list ::= insert tid (f s) |>) → wlp (upd_client tid f) Q w.
Proof. intros Hs HQ. apply wlp_bind. eapply wlp_get_client_eq; [done|]. by apply wlp_modify. Qed.
Lemma wlp_upd_client tid f (Q : unit → world → Prop) w :
  (∀ s, w.(g_client_list) !! tid = Some s →
    Q tt (w <| g_client_list ::= insert tid (f s) |>)) → wlp (upd_client tid f) Q w.
Proof. intros H. apply wlp_bind, wlp_get_client. intros s Hs. by apply wlp_modify, H. Qed.
Lemma wlp_get_cconn l (Q : clientConnection → world → Prop) w :
  (∀ c, w.(w_cconns) !! l = Some c → Q c w) → wlp (get_cconn l) Q w.
Proof. intros H. apply wlp_bind, wlp_getS, wlp_deref, H. Qed.
Lemma wlp_upd_cconn l f (Q : unit → world → Prop) w :
  (∀ c, w.(w_cconns) !! l = Some c → Q tt (w <| w_cconns ::= insert l (f c) |>)) →
  wlp (upd_cconn l f) Q w.
Proof. intros H. apply wlp_bind, wlp_get_cconn. intros s Hs. by apply wlp_modify, H. Qed.
Lemma wlp_lock_client tid (Q : unit → world → Prop) w :
  (∀ s, w.(g_client_list) !! tid = Some s → s.(cl_locked) = false →
    Q tt (w <| g_client_list ::= insert tid (s <| cl_locked := true |>) |>)) →
  wlp (lock_client tid) Q w.
Proof.
  intros H. apply wlp_bind, wlp_get_client. intros s Hs.
  destruct (cl_locked s) eqn:Hl; [apply wlp_deadlock|].
  apply wlp_upd_client. intros s' Hs'. simplify_eq. by apply H.
Qed.
Lemma wlp_new_cconn c (Q : loc → world → Prop) w :
  Q w.(w_next) (w <| w_next ::= S |> <| w_cconns ::= insert w.(w_next) c |>) →
  wlp (new_cconn c) Q w.
Proof. intros H ? ? [=]. by subst. Qed.

Lemma range_keys_elem {L : EnvLaws E} {A} t (m : gmap Z A) k :
  k ∈ env_range t (map_to_list m).*1 ↔ is_Some (m !! k).
Proof.
  rewrite (range_perm t). rewrite list_elem_of_fmap. split.
  - intros ([k' x] & -> & Hx). apply elem_of_map_to_list in Hx. by eexists.
  - intros [x Hx]. exists (k, x). split; [done|]. by apply elem_of_map_to_list.
Qed.

Lemma range_keys_NoDup {L : EnvLaws E} {A} t (m : gmap Z A) :
  NoDup (env_range t (map_to_list m).*1).
Proof. rewrite (range_perm t). apply NoDup_fst_map_to_list. Qed.
End steps.

(** ** What a trace shows of one kind of event

    [seen view w]: the events of the trace that [view] picks, in order.  Most
    operations emit none of them. *)
Section views.
Context {C : Consistent} {E : Env} {B : Type} (view : event → option B).

Definition seen (w : world) : list B := omap view w.(w_trace).
Definition sees (bs : list B) (w : world) : Prop := seen w = bs.

Lemma seen_trace w w' evs :
  w'.(w_trace) = w.(w_trace) ++ evs → seen w' = seen w ++ omap view evs.
Proof. intros H. unfold seen. by rewrite H, omap_app. Qed.

Lemma sees_emit bs e : view e = None → preserves (sees bs) (emit e).
Proof.
  intros He. apply preserves_modify. intros w <-. unfold sees. rewrite (seen_trace w _ [e]) by done.
  simpl. rewrite He. by rewrite app_nil_r.
Qed.
Lemma sees_tick bs : preserves (sees bs) tick.
Proof. by intros w <-. Qed.
Lemma sees_time_Now bs : preserves (sees bs) time_Now.
Proof. by intros w <-. Qed.
Lemma sees_range_keys {A} bs (m : gmap Z A) : preserves (sees bs) (range_keys m).
Proof. by intros w <-. Qed.
Lemma sees_get_server bs tid : preserves (sees bs) (get_server tid).
Proof. unfold get_server. preserve. Qed.
Lemma sees_upd_server bs tid f : preserves (sees bs) (upd_server tid f).
Proof. unfold upd_server, get_server. preserve. Qed.
Lemma sees_get_sconn bs l : preserves (sees bs) (get_sconn l).
Proof. unfold get_sconn. preserve. Qed.
Lemma sees_upd_sconn bs l f : preserves (sees bs) (upd_sconn l f).
Proof. unfold upd_sconn, get_sconn. preserve. Qed.
Lemma sees_get_client bs tid : preserves (sees bs) (get_client tid).
Proof. unfold get_client. preserve. Qed.
Lemma sees_upd_client bs tid f : preserves (sees bs) (upd_client tid f).
Proof. unfold upd_client, get_client. preserve. Qed.
Lemma sees_get_cconn bs l : preserves (sees bs) (get_cconn l).
Proof. unfold get_cconn. preserve. Qed.
Lemma sees_upd_cconn bs l f : preserves (sees bs) (upd_cconn l f).
Proof. unfold upd_cconn, get_cconn. preserve. Qed.
End views.

#[export] Hint Resolve sees_tick sees_time_Now sees_range_keys sees_get_server sees_upd_server
  sees_get_sconn sees_upd_sconn sees_get_client sees_upd_client sees_get_cconn sees_upd_cconn
  : preserves.
#[export] Hint Extern 1 (preserves (sees _ _) (emit _)) =>
  apply sees_emit; reflexivity : preserves.

(** Symbolic execution of the primitives whose result is known. *)
Ltac wp_step :=
  lazymatch goal with
  | |- wp (_ ≫= _) _ _ => apply wp_bind
  | |- wp (mret _) _ _ => apply wp_ret
  | |- wp getS _ _ => apply wp_getS
  | |- wp (modify _) _ _ => apply wp_modify
  | |- wp (deref _ (Some _)) _ _ => eapply wp_deref; [reflexivity|]
  | |- wp tick _ _ => apply wp_tick
  | |- wp (emit _) _ _ => apply wp_emit
  | |- wp (go _) _ _ => apply wp_emit
  | |- wp (sleep_ms _) _ _ => apply wp_emit
  | |- wp time_Now _ _ => apply wp_time_Now
  | |- wp (range_keys _) _ _ => apply wp_range_keys
  | |- wp (runthing _ _) _ _ => apply wp_runthing
  | |- wp (get_server _) _ _ => eapply wp_get_server; [simpl; by simplify_map_eq|]
  | |- wp (upd_server _ _) _ _ => eapply wp_upd_server; [simpl; by simplify_map_eq|]
  | |- wp (unlock_server _) _ _ => eapply wp_unlock_server; [simpl; by simplify_map_eq|]
  | |- wp (get_sconn _) _ _ => eapply wp_get_sconn; [simpl; by simplify_map_eq|]
  | |- wp (upd_sconn _ _) _ _ => eapply wp_upd_sconn; [simpl; by simplify_map_eq|]
  | |- wp (get_client _) _ _ => eapply wp_get_client; [simpl; by simplify_map_eq|]
  | |- wp (upd_client _ _) _ _ => eapply wp_upd_client; [simpl; by simplify_map_eq|]
  | |- wp (unlock_client _) _ _ => eapply wp_unlock_client; [simpl; by simplify_map_eq|]
  | |- wp (get_cconn _) _ _ => eapply wp_get_cconn; [simpl; by simplify_map_eq|]
  | |- wp (upd_cconn _ _) _ _ => eapply wp_upd_cconn; [simpl; by simplify_map_eq|]
  end.
Ltac wp_steps := repeat wp_step.

(** The same for [wlp]; look-ups introduce the record found. *)
Ltac wlp_step :=
  match goal with
  | |- wlp (_ ≫= _) _ _ => apply wlp_bind
  | |- wlp (mret _) _ _ => apply wlp_ret
  | |- wlp getS _ _ => apply wlp_getS
  | |- wlp (modify _) _ _ => apply wlp_modify
  | |- wlp (panic _) _ _ => apply wlp_panic
  | |- wlp deadlock _ _ => apply wlp_deadlock
  | |- wlp (deref _ _) _ _ => apply wlp_deref; intros ? ?
  | |- wlp tick _ _ => apply wlp_tick
  | |- wlp time_Now _ _ => apply wlp_time_Now
  | |- wlp (emit _) _ _ => apply wlp_modify
  | |- wlp (go _) _ _ => apply wlp_modify
  | H : _ !! ?tid = Some _ |- wlp (get_server ?tid) _ _ => apply (wlp_get_server_eq _ _ _ _ H)
  | H : _ !! ?tid = Some _ |- wlp (upd_server ?tid _) _ _ => apply (wlp_upd_server_eq _ _ _ _ _ H)
  | |- wlp (get_server _) _ _ => apply wlp_get_server; intros ? ?
  | |- wlp (upd_server _ _) _ _ => apply wlp_upd_server; intros ? ?
  | |- wlp (unlock_server _) _ _ => apply wlp_upd_server; intros ? ?
  | |- wlp (lock_server _) _ _ => apply wlp_lock_server; intros ? ? ?
  | |- wlp (get_sconn _) _ _ => apply wlp_get_sconn; intros ? ?
  | |- wlp (upd_sconn _ _) _ _ => apply wlp_upd_sconn; intros ? ?
  | |- wlp (new_sconn _) _ _ => apply wlp_new_sconn
  | H : _ !! ?tid = Some _ |- wlp (get_client ?tid) _ _ => apply (wlp_get_client_eq _ _ _ _ H)
  | H : _ !! ?tid = Some _ |- wlp (upd_client ?tid _) _ _ => apply (wlp_upd_client_eq _ _ _ _ _ H)
  | |- wlp (get_client _) _ _ => apply wlp_get_client; intros ? ?
  | |- wlp (upd_client _ _) _ _ => apply wlp_upd_client; intros ? ?
  | |- wlp (unlock_client _) _ _ => apply wlp_upd_client; intros ? ?
  | |- wlp (lock_client _) _ _ => apply wlp_lock_client; intros ? ? ?
  | |- wlp (get_cconn _) _ _ => apply wlp_get_cconn; intros ? ?
  | |- wlp (upd_cconn _ _) _ _ => apply wlp_upd_cconn; intros ? ?
  | |- wlp (new_cconn _) _ _ => apply wlp_new_cconn
  end.
Ltac wlp_steps := repeat wlp_step.
