(* ===== verification/Json.v ===== *)
(** * JSON arrays of strings ([json.Unmarshal] into a [[]string])

    The part of Go's encoding/json that [do_mqtt_requests] uses: decoding a text
    into a nil slice of strings.  [None] is an error, of syntax or of type: any
    JSON value other than null or an array of strings and nulls is one. *)
From stdpp Require Import base list strings.
From Stdlib Require Import ZArith Lia Ascii.
From S2P Require Import Prelude GoNet.
#[local] Open Scope Z_scope.

(** ** Runes *)

Definition chr (z : Z) : ascii := ascii_of_N (Z.to_N z).

(** The bytes of a string from their values. *)
Definition bytes_string (l : list Z) : string := foldr (λ b s, String (chr b) s) "" l.

(** [utf8.EncodeRune] of a valid code point. *)
Definition utf8_encode (r : Z) : string :=
  if bool_decide (r < 128) then bytes_string [r]
  else if bool_decide (r < 2048) then bytes_string [192 + r / 64; 128 + r mod 64]
  else if bool_decide (r < 65536) then
    bytes_string [224 + r / 4096; 128 + r / 64 mod 64; 128 + r mod 64]
  else bytes_string [240 + r / 262144; 128 + r / 4096 mod 64; 128 + r / 64 mod 64; 128 + r mod 64].

(** [unicode.ReplacementChar]. *)
Definition replacement : string := utf8_encode 65533.

Definition in_range (lo hi : Z) (c : ascii) : bool := bool_decide (lo <= code c <= hi).

(** Length of the valid UTF-8 sequence at the head of a string whose first byte
    is not ASCII; 0 when there is none. *)
Definition utf8_len (s : string) : nat :=
  match s with
  | String c1 (String c2 s2) =>
      if in_range 194 223 c1 && in_range 128 191 c2 then 2%nat
      else match s2 with
      | String c3 s3 =>
          if in_range 128 191 c3 &&
             ((bool_decide (code c1 = 224) && in_range 160 191 c2) ||
              (bool_decide (code c1 = 237) && in_range 128 159 c2) ||
              ((in_range 225 236 c1 || in_range 238 239 c1) && in_range 128 191 c2)) then 3%nat
          else match s3 with
          | String c4 _ =>
              if in_range 128 191 c3 && in_range 128 191 c4 &&
                 ((bool_decide (code c1 = 240) && in_range 144 191 c2) ||
                  (in_range 241 243 c1 && in_range 128 191 c2) ||
                  (bool_decide (code c1 = 244) && in_range 128 143 c2)) then 4%nat
              else 0%nat
          | EmptyString => 0%nat
          end
      | EmptyString => 0%nat
      end
  | _ => 0%nat
  end.

(** Four hexadecimal digits and the rest. *)
Definition getu4 (s : string) : option (Z * string) :=
  match s with
  | String a (String b (String c (String d s'))) =>
      match hex_val a, hex_val b, hex_val c, hex_val d with
      | Some a, Some b, Some c, Some d => Some (a * 4096 + b * 256 + c * 16 + d, s')
      | _, _, _, _ => None
      end
  | _ => None
  end.

Definition is_surrogate (r : Z) : bool := bool_decide (55296 <= r < 57344).

(** The pair of surrogates as a code point. *)
Definition utf16_decode (r1 r2 : Z) : option Z :=
  if bool_decide (55296 <= r1 < 56320) && bool_decide (56320 <= r2 < 57344)
  then Some ((r1 - 55296) * 1024 + (r2 - 56320) + 65536) else None.

Definition simple_escape (c : ascii) : option Z :=
  if bool_decide (code c = 34) then Some 34
  else if bool_decide (c = "\"%char) then Some 92
  else if bool_decide (c = "/"%char) then Some 47
  else if bool_decide (c = "b"%char) then Some 8
  else if bool_decide (c = "f"%char) then Some 12
  else if bool_decide (c = "n"%char) then Some 10
  else if bool_decide (c = "r"%char) then Some 13
  else if bool_decide (c = "t"%char) then Some 9
  else None.

Definition prepend (s : string) (r : option (string * string)) : option (string * string) :=
  match r with Some (t, rest) => Some (s +:+ t, rest) | None => None end.

Definition skip (n : nat) (s : string) : string := String.substring n (String.length s - n) s.

(** A string literal after its opening quote: its value and the rest. *)
Fixpoint unquote (fuel : nat) (s : string) : option (string * string) :=
  match fuel, s with
  | S fuel', String c s' =>
      if bool_decide (code c = 34) then Some ("", s')
      else if bool_decide (c = "\"%char) then
        match s' with
        | String "u"%char s2 =>
            match getu4 s2 with
            | None => None
            | Some (r, s3) =>
                if is_surrogate r then
                  match s3 with
                  | String "\"%char (String "u"%char s4) =>
                      match getu4 s4 with
                      | Some (r2, s5) =>
                          match utf16_decode r r2 with
                          | Some r' => prepend (utf8_encode r') (unquote fuel' s5)
                          | None => prepend replacement (unquote fuel' s3)
                          end
                      | None => None
                      end
                  | _ => prepend replacement (unquote fuel' s3)
                  end
                else prepend (utf8_encode r) (unquote fuel' s3)
            end
        | String e s2 =>
            match simple_escape e with
            | Some r => prepend (bytes_string [r]) (unquote fuel' s2)
            | None => None
            end
        | EmptyString => None
        end
      else if bool_decide (code c < 32) then None
      else if bool_decide (code c < 128) then prepend (String c "") (unquote fuel' s')
      else
        match utf8_len s with
        | O => prepend replacement (unquote fuel' s')
        | n => prepend (String.substring 0 n s) (unquote fuel' (skip n s))
        end
  | _, _ => None
  end.

(** ** Values *)

Definition is_space (c : ascii) : bool :=
  bool_decide (code c = 32) || bool_decide (code c = 9) || bool_decide (code c = 10) ||
  bool_decide (code c = 13).

Fixpoint skip_space (s : string) : string :=
  match s with
  | String c s' => if is_space c then skip_space s' else s
  | EmptyString => s
  end.

(** An element: a string, or null, which leaves the empty string. *)
Definition element (s : string) : option (string * string) :=
  match s with
  | String c s' =>
      if bool_decide (code c = 34) then unquote (String.length s') s'
      else if has_prefix "null" s then Some ("", skip 4 s) else None
  | EmptyString => None
  end.

(** The elements after the opening bracket, from the first one on. *)
Fixpoint elements_from (fuel : nat) (s : string) : option (list string * string) :=
  match fuel with
  | O => None
  | S fuel' =>
      match element (skip_space s) with
      | None => None
      | Some (x, rest) =>
          match skip_space rest with
          | String "]"%char rest' => Some ([x], rest')
          | String ","%char rest' =>
              match elements_from fuel' rest' with
              | Some (l, rest'') => Some (x :: l, rest'')
              | None => None
              end
          | _ => None
          end
      end
  end.

Definition array (s : string) : option (list string * string) :=
  match skip_space s with
  | String "]"%char rest => Some ([], rest)
  | _ => elements_from (String.length s) s
  end.

(** [json.Unmarshal(s, &arr)] for a nil [arr []string]. *)
Definition Unmarshal (s : string) : option (list string) :=
  match match skip_space s with
        | String "["%char rest => array rest
        | s' => if has_prefix "null" s' then Some ([], skip 4 s') else None
        end with
  | Some (l, rest) => if bool_decide (skip_space rest = "") then Some l else None
  | None => None
  end.

(** A double quote. *)
Definition dq : string := String (chr 34) "".

Example Unmarshal_argv :
  Unmarshal (" [ " +:+ dq +:+ "ratbond" +:+ dq +:+ " , " +:+ dq +:+ "--mux=4" +:+ dq +:+ ",null] ")
    = Some ["ratbond"; "--mux=4"; ""].
Proof. vm_compute. reflexivity. Qed.
Example Unmarshal_escapes :
  Unmarshal ("[" +:+ dq +:+ "a\u0041\u00e9\n\ud83d\ude00\ud800x" +:+ dq +:+ "]")
    = Some ["aA" +:+ bytes_string [195; 169; 10; 240; 159; 152; 128; 239; 191; 189] +:+ "x"].
Proof. vm_compute. reflexivity. Qed.
Example Unmarshal_errors :
  Unmarshal "[1]" = None ∧ Unmarshal "{}" = None ∧ Unmarshal "[" = None ∧ Unmarshal "" = None ∧
  Unmarshal "null" = Some [] ∧ Unmarshal "[]" = Some [] ∧ Unmarshal "[]x" = None.
Proof. vm_compute. done. Qed.

(** ** Reading back a list of plain strings *)

(** A printable ASCII byte other than the quote and the backslash. *)
Definition plain_byte (c : ascii) : bool :=
  bool_decide (32 <= code c < 128) && negb (bool_decide (code c = 34)) && negb (bool_decide (c = "\"%char)).

Definition plain (s : string) : Prop := all_bytes plain_byte s = true.

(** A quoted string, then [rest]. *)
Definition quoted (x rest : string) : string := String (chr 34) (x +:+ String (chr 34) rest).

Fixpoint json_tail (l : list string) : string :=
  match l with [] => "]" | x :: l' => String ","%char (quoted x (json_tail l')) end.

(** The JSON array of the strings of [l]. *)
Definition json_text (l : list string) : string :=
  String "["%char (match l with [] => "]" | x :: l' => quoted x (json_tail l') end).

Lemma unquote_plain fuel x rest :
  plain x → (String.length x < fuel)%nat →
  unquote fuel (x +:+ String (chr 34) rest) = Some (x, rest).
Proof.
  unfold plain. revert fuel. induction x as [|c x IH]; intros fuel Hp Hf;
    (destruct fuel as [|fuel]; [simpl in Hf; lia|]).
  - change ("" +:+ String (chr 34) rest) with (String (chr 34) rest). done.
  - change (String c x +:+ String (chr 34) rest) with (String c (x +:+ String (chr 34) rest)).
    simpl in Hp, Hf |- *. apply andb_true_iff in Hp as [Hc Hp].
    unfold plain_byte in Hc. rewrite !andb_true_iff, !negb_true_iff, bool_decide_eq_true,
      !bool_decide_eq_false in Hc. destruct Hc as [[Hr H34] Hbs].
    rewrite (bool_decide_eq_false_2 (code c = 34)), (bool_decide_eq_false_2 (c = _)),
      (bool_decide_eq_false_2 (code c < 32)), (bool_decide_eq_true_2 (code c < 128)) by (done || lia).
    by rewrite (IH fuel) by (done || lia).
Qed.

Lemma length_app_string (a b : string) :
  String.length (a +:+ b) = (String.length a + String.length b)%nat.
Proof.
  induction a as [|c a IH]; [done|]. change (String c a +:+ b) with (String c (a +:+ b)).
  simpl. by rewrite IH.
Qed.

Lemma element_plain x rest : plain x → element (skip_space (quoted x rest)) = Some (x, rest).
Proof.
  intros Hp. unfold quoted. change (skip_space (String (chr 34) (x +:+ String (chr 34) rest)))
    with (String (chr 34) (x +:+ String (chr 34) rest)).
  unfold element. rewrite bool_decide_eq_true_2 by done.
  apply unquote_plain; [done|]. rewrite length_app_string. simpl. lia.
Qed.

Lemma elements_plain fuel x l :
  Forall plain (x :: l) → (length l < fuel)%nat →
  elements_from fuel (quoted x (json_tail l)) = Some (x :: l, "").
Proof.
  revert fuel x. induction l as [|y l IH]; intros fuel x Hp Hf;
    (destruct fuel as [|fuel]; [simpl in Hf; lia|]); inversion Hp; subst; cbn [elements_from];
    rewrite element_plain by done; [done|].
  cbn [json_tail skip_space]. change (is_space ",") with false. cbv iota. rewrite IH; [done|done|]. simpl in Hf. lia.
Qed.

Lemma length_json_tail l : (length l < String.length (json_tail l))%nat.
Proof.
  induction l as [|x l IH]; simpl; [lia|]. rewrite length_app_string. simpl. lia.
Qed.

(** What is written as an array of plain strings is read back. *)
Lemma Unmarshal_text l : Forall plain l → Unmarshal (json_text l) = Some l.
Proof.
  intros Hp. destruct l as [|x l]; [done|]. unfold Unmarshal, json_text.
  change (skip_space (String "[" (quoted x (json_tail l)))) with (String "[" (quoted x (json_tail l))).
  cbv beta iota. unfold array.
  change (skip_space (quoted x (json_tail l))) with (quoted x (json_tail l)).
  assert (elements_from (String.length (quoted x (json_tail l))) (quoted x (json_tail l)) =
    Some (x :: l, "")) as ->; [|done].
  apply elements_plain; [done|]. pose proof (length_json_tail l). unfold quoted. simpl.
  rewrite length_app_string. simpl. lia.
Qed.
