(* ===== verification/Logging.v ===== *)
(** * Logging ([src/p_logging.go])

    [init_logging] builds a logger from the configuration: its level and its
    hooks.  The hooks, with their levels, formatter settings and [Fire] method,
    are the program's; formatting an entry and dispatching it to the hooks is
    the logging library's, a parameter ([Logrus]) whose law says that an enabled
    entry is given to every hook registered for its level, in order. *)
From stdpp Require Import base list strings.
From Stdlib Require Import ZArith Lia.
From S2P Require Import Prelude GoFloat GoNet Network Ring World.
#[local] Open Scope Z_scope.

(** [logrus.Level], from the most to the least severe. *)
Inductive Level :=
| PanicLevel | FatalLevel | ErrorLevel | WarnLevel | InfoLevel | DebugLevel | TraceLevel.

#[export] Instance Level_eq_dec : EqDecision Level.
Proof. solve_decision. Defined.

Definition level_num (lv : Level) : Z :=
  match lv with
  | PanicLevel => 0 | FatalLevel => 1 | ErrorLevel => 2 | WarnLevel => 3
  | InfoLevel => 4 | DebugLevel => 5 | TraceLevel => 6
  end.

(** The settings of a [logrus.TextFormatter]; [CallerPrettyfier] is a function
    of the name of the calling function. *)
Record TextFormatter := mkTextFormatter {
  CallerPrettyfier : string → string * string;
  ForceColors : bool;
  DisableTimestamp : bool;
  TimestampFormat : string;
  DisableColors : bool;
  QuoteEmptyFields : bool;
  DisableLevelTruncation : bool;
  PadLevelText : bool;
  FullTimestamp : bool;
  FieldMap : list (string * string)
}.

(** [os.Stderr], or the [*syslog.Writer] with the nil pointer as [None]. *)
Inductive Writer := Stderr | SyslogWriter (w : option handle).

Record FormatterHook := mkFormatterHook {
  hook_Writer : Writer;
  hook_LogLevels : list Level;
  hook_Formatter : TextFormatter
}.

Record Logger := mkLogger { lg_Level : Level; lg_Hooks : list FormatterHook }.

Record Entry := mkEntry { en_Level : Level; en_Message : string; en_Function : string }.

(** What has been written, in order. *)
Abbreviation L := (M (list (Writer * string))).

(** [FormatterHook.Levels]. *)
Definition Levels (hook : FormatterHook) : list Level := hook.(hook_LogLevels).

(** The formatter and the dispatch of entries of the logging library. *)
Class Logrus := {
  logrus_Format : TextFormatter → Entry → option string;
  logrus_Fire : (FormatterHook → Entry → L (option string)) → Logger → Entry → L unit
}.

(** [Writer.Write]: the method of a nil [*syslog.Writer] locks its mutex and
    panics. *)
Definition writer_Write (w : Writer) (line : string) : L (option string) :=
  match w with
  | SyslogWriter None => panic "nil *syslog.Writer"
  | _ => modify (fun out => out ++ [(w, line)]) ;; mret None
  end.

Section logging.
Context {LR : Logrus}.

(** [FormatterHook.Fire]. *)
Definition Fire (hook : FormatterHook) (entry : Entry) : L (option string) :=
  match logrus_Format hook.(hook_Formatter) entry with
  | None => mret (Some "format error")
  | Some line => writer_Write hook.(hook_Writer) line
  end.

(** An entry of the logger, as the program's hooks handle it. *)
Definition log_entry (lg : Logger) (entry : Entry) : L unit := logrus_Fire Fire lg entry.
End logging.

Definition stderr_formatter (cfg : config) : TextFormatter := {|
  CallerPrettyfier := fun f =>
    if negb cfg.(g_debug) && negb cfg.(g_trace) then ("", f +:+ ":: ") else (f +:+ ":: ", "");
  ForceColors := true; DisableTimestamp := false; TimestampFormat := "2006-01-02 15:04:05";
  DisableColors := false; QuoteEmptyFields := true; DisableLevelTruncation := true;
  PadLevelText := true; FullTimestamp := true;
  FieldMap := [("time", "@timestamp"); ("level", "severity"); ("msg", "message"); ("func", "caller")]
|}.

Definition syslog_formatter (cfg : config) : TextFormatter := {|
  CallerPrettyfier := fun f =>
    if negb cfg.(g_debug) && negb cfg.(g_trace) then ("", "") else (f +:+ "()", "");
  ForceColors := false; DisableTimestamp := true; TimestampFormat := "";
  DisableColors := true; QuoteEmptyFields := true; DisableLevelTruncation := false;
  PadLevelText := false; FullTimestamp := false;
  FieldMap := [("level", "severity"); ("msg", "message"); ("func", "caller")]
|}.

(** [init_logging]; [syslog] is the writer [syslog.New] returns, nil when the
    daemon cannot be reached (its error is dropped). *)
Definition init_logging (cfg : config) (syslog : option handle) : Logger :=
  let level := if cfg.(g_trace) then TraceLevel
               else if cfg.(g_debug) then DebugLevel else InfoLevel in
  let stderr_hook := mkFormatterHook Stderr
    [DebugLevel; TraceLevel; PanicLevel; FatalLevel; ErrorLevel; WarnLevel; InfoLevel]
    (stderr_formatter cfg) in
  let syslog_hook := mkFormatterHook (SyslogWriter syslog)
    [PanicLevel; FatalLevel; ErrorLevel; WarnLevel; InfoLevel] (syslog_formatter cfg) in
  mkLogger level ([stderr_hook] ++ (if cfg.(g_use_syslog) then [syslog_hook] else [])).

(** ** Properties *)

(** An entry reaches the hooks of its level when the level is enabled. *)
Fixpoint fire_hooks (fire : FormatterHook → Entry → L (option string))
    (hooks : list FormatterHook) (entry : Entry) : L unit :=
  match hooks with
  | [] => mret tt
  | hook :: hooks' =>
      if bool_decide (entry.(en_Level) ∈ Levels hook) then
        err ← fire hook entry;
        match err with
        | Some _ => mret tt
        | None => fire_hooks fire hooks' entry
        end
      else fire_hooks fire hooks' entry
  end.

(** Documented behaviour of the library: levels up to the logger's are enabled,
    the hooks of the level fire in the order they were added, and the text
    formatter does not fail. *)
Class LogrusLaws (LR : Logrus) := {
  Fire_spec fire lg entry out :
    logrus_Fire fire lg entry out =
      (if bool_decide (level_num entry.(en_Level) <= level_num lg.(lg_Level))
       then fire_hooks fire lg.(lg_Hooks) entry else mret tt) out;
  Format_total f entry : is_Some (logrus_Format f entry)
}.

(** The level is enabled by the flags. *)
Definition enabled (cfg : config) (lv : Level) : bool :=
  match lv with
  | TraceLevel => cfg.(g_trace)
  | DebugLevel => cfg.(g_debug) || cfg.(g_trace)
  | _ => true
  end.

Section properties.
Context {LR : Logrus} {LL : LogrusLaws LR}.

(** One entry, on every configuration. *)
Lemma log_entry_eq (cfg : config) (syslog : option handle) (entry : Entry)
    (out : list (Writer * string)) :
  ∃ line1 line2,
    logrus_Format (stderr_formatter cfg) entry = Some line1 ∧
    logrus_Format (syslog_formatter cfg) entry = Some line2 ∧
    log_entry (init_logging cfg syslog) entry out =
      if enabled cfg entry.(en_Level) then
        if cfg.(g_use_syslog) && enabled (cfg <| g_debug := false |> <| g_trace := false |>) entry.(en_Level)
        then
          match syslog with
          | Some _ => (Ret tt, out ++ [(Stderr, line1); (SyslogWriter syslog, line2)])
          | None => (Panic "nil *syslog.Writer", out ++ [(Stderr, line1)])
          end
        else (Ret tt, out ++ [(Stderr, line1)])
      else (Ret tt, out).
Proof.
  destruct (Format_total (stderr_formatter cfg) entry) as [line1 H1].
  destruct (Format_total (syslog_formatter cfg) entry) as [line2 H2].
  exists line1, line2. split_and!; [done..|]. unfold log_entry. rewrite Fire_spec.
  destruct (en_Level entry) eqn:Hlv; unfold init_logging; simpl;
    destruct (g_trace cfg), (g_debug cfg), (g_use_syslog cfg); simpl;
    rewrite ?Hlv; unfold mbind, M_bind, Fire, Levels; simpl; rewrite ?H1, ?H2; simpl; try done;
    destruct syslog; simpl; unfold modify; simpl; by rewrite <-?app_assoc.
Qed.

(** The syslog writer is used but nil. *)
Definition syslog_lost (cfg : config) (syslog : option handle) : bool :=
  cfg.(g_use_syslog) && bool_decide (syslog = None).

(** An entry of level info panics when the writer is lost; otherwise no entry does. *)
Lemma log_info_outcome cfg syslog msg f out :
  (log_entry (init_logging cfg syslog) (mkEntry InfoLevel msg f) out).1 =
    if syslog_lost cfg syslog then Panic "nil *syslog.Writer" else Ret tt.
Proof.
  destruct (log_entry_eq cfg syslog (mkEntry InfoLevel msg f) out) as (? & ? & _ & _ & ->).
  unfold syslog_lost. simpl. destruct (g_use_syslog cfg), syslog; done.
Qed.
Lemma log_returns cfg syslog entry out :
  syslog_lost cfg syslog = false → (log_entry (init_logging cfg syslog) entry out).1 = Ret tt.
Proof.
  intros Hl. destruct (log_entry_eq cfg syslog entry out) as (? & ? & _ & _ & ->).
  unfold syslog_lost in Hl. destruct (enabled _ _), (g_use_syslog cfg), syslog; simpl in *; try done;
    by destruct (enabled _ _).
Qed.

(** C40: where a log entry goes.  A disabled level writes nothing; an enabled one
    is written once to stderr, and once more to syslog when syslog is used and
    the level is not debug or trace; and when syslog is used but its daemon
    could not be reached the first entry that is not debug or trace is a nil
    dereference, right after its line on stderr. *)
Theorem log_entry_written (cfg : config) (syslog : option handle) (entry : Entry)
    (out : list (Writer * string)) :
  ∃ line1 line2,
    logrus_Format (stderr_formatter cfg) entry = Some line1 ∧
    logrus_Format (syslog_formatter cfg) entry = Some line2 ∧
    log_entry (init_logging cfg syslog) entry out =
      if enabled cfg entry.(en_Level) then
        if cfg.(g_use_syslog) && enabled (cfg <| g_debug := false |> <| g_trace := false |>) entry.(en_Level)
        then
          match syslog with
          | Some _ => (Ret tt, out ++ [(Stderr, line1); (SyslogWriter syslog, line2)])
          | None => (Panic "nil *syslog.Writer", out ++ [(Stderr, line1)])
          end
        else (Ret tt, out ++ [(Stderr, line1)])
      else (Ret tt, out).
Proof. apply log_entry_eq. Qed.
End properties.

(** ** A concrete library *)

(** The message alone, dispatched in order. *)
#[export] Instance demo_logrus : Logrus := {
  logrus_Format _ entry := Some entry.(en_Message);
  logrus_Fire fire lg entry :=
    if bool_decide (level_num entry.(en_Level) <= level_num lg.(lg_Level))
    then fire_hooks fire lg.(lg_Hooks) entry else mret tt
}.

#[export] Instance demo_logrus_laws : LogrusLaws demo_logrus.
Proof. split; [done|]. intros f entry. by eexists. Qed.

(** An error with the default flags and no syslog daemon. *)
Lemma log_entry_written_witness :
  ∃ line1 line2,
    logrus_Format (stderr_formatter default_config) (mkEntry ErrorLevel "boom" "main.main") = Some line1 ∧
    logrus_Format (syslog_formatter default_config) (mkEntry ErrorLevel "boom" "main.main") = Some line2 ∧
    log_entry (init_logging default_config None) (mkEntry ErrorLevel "boom" "main.main") [] =
      (Panic "nil *syslog.Writer", [] ++ [(Stderr, line1)]).
Proof. exact (log_entry_written default_config None (mkEntry ErrorLevel "boom" "main.main") []). Defined.
