(* ===== verification/Cli.v ===== *)
(** * The command line ([parse_cli] of [src/main.go])

    The flags as the command-line library leaves them, and what [parse_cli]
    makes of them: checks that end the process and assignments to the globals.
    The specification [apply_flags] gives the new globals at once;
    [parse_flags_spec] shows that the code computes it exactly when the flags
    are valid, and exits otherwise, once its first log entry is written. *)
From stdpp Require Import base list strings.
From Stdlib Require Import ZArith Lia Ascii.
From S2P Require Import Prelude GoFloat GoNet Network Ring World IpHosts Logging.
#[local] Open Scope Z_scope.

(** ** Flags *)

Record CLI_type := mkCLI {
  cli_Debug : bool;
  cli_Trace : bool;
  cli_Nosyslog : bool;
  cli_Secret : string;
  cli_Aes : bool;
  cli_BalanceConsistent : bool;
  cli_BalanceRoundrobin : bool;
  cli_ConnectAddr : string;
  cli_ListenAddr : string;
  cli_MqttBrokerAddr : string;
  cli_MqttUsername : string;
  cli_MqttPassword : string;
  cli_TunnelId : Z;
  cli_TunName : string;
  cli_TunnelIp : string;
  cli_Mux : Z;
  cli_HttpListenAddr : string
}.

#[export] Instance CLI_settable : Settable CLI_type := fun f =>
  mkCLI f.(cli_Debug) f.(cli_Trace) f.(cli_Nosyslog) f.(cli_Secret) f.(cli_Aes)
    f.(cli_BalanceConsistent) f.(cli_BalanceRoundrobin) f.(cli_ConnectAddr) f.(cli_ListenAddr)
    f.(cli_MqttBrokerAddr) f.(cli_MqttUsername) f.(cli_MqttPassword) f.(cli_TunnelId)
    f.(cli_TunName) f.(cli_TunnelIp) f.(cli_Mux) f.(cli_HttpListenAddr).

(** The flags of an empty command line: the [default] tags. *)
Definition CLI_default : CLI_type := {|
  cli_Debug := false; cli_Trace := false; cli_Nosyslog := false; cli_Secret := "";
  cli_Aes := false; cli_BalanceConsistent := true; cli_BalanceRoundrobin := false;
  cli_ConnectAddr := ""; cli_ListenAddr := ""; cli_MqttBrokerAddr := ""; cli_MqttUsername := "";
  cli_MqttPassword := ""; cli_TunnelId := 0; cli_TunName := ""; cli_TunnelIp := "";
  cli_Mux := 1; cli_HttpListenAddr := "" |}.

(** [kong.Parse(&CLI)] on the arguments of the process: the flags and the
    command, or the end of the process. *)
Class Kong := { kong_Parse : list string → CLI_type → outcome (CLI_type * string) }.

(** The start of the process: the writer [syslog.New] returns ([None]: nil, its
    error is dropped), and the version and revision of [versioninfo]. *)
Class Startup := {
  syslog_New : nat → option handle;
  versioninfo : string * string
}.

(** ** [parse_cli] *)

Abbreviation G := (M config).

(** An "address:port" flag: kept, then checked. *)
Definition parse_addr_flag (value : string) (set : string → config → config) : G unit :=
  if negb (bool_decide (value = "")) then
    modify (set value) ;;
    match ParseAddrPort value with
    | None => exit 1
    | Some _ => mret tt
    end
  else mret tt.

(** Iterations for the four addresses of a /30 and the one after. *)
Definition tunnel_ip_fuel : nat := 5.

Definition parse_tunnel_ip (value : string) : G unit :=
  if negb (bool_decide (value = "")) then
    match ParseCIDR value with
    | None => exit 1
    | Some (_, ipnet) =>
        if negb (bool_decide (mask_string ipnet.(net_Mask) = "fffffffc")) then exit 1
        else
          '(hosts, err) ← lift (IpHosts tunnel_ip_fuel value);
          if negb (bool_decide (err = None)) || bool_decide (length hosts < 2)%nat then exit 1
          else
            h0 ← deref "index out of range" (hosts !! 0%nat);
            modify (setf g_client_tun_ip (fun _ => h0)) ;;
            h1 ← deref "index out of range" (hosts !! 1%nat);
            modify (setf g_server_tun_ip (fun _ => h1))
    end
  else mret tt.

Section parse.
Context {LR : Logrus} {SU : Startup}.
(** Width of [int], and the answer of [syslog.New]. *)
Context (int_bits : Z) (syslog : option handle).

(** The first entry of the log. *)
Definition version_entry : Entry :=
  mkEntry InfoLevel ("ratbond version:" +:+ versioninfo.1 +:+ ", revision:" +:+ versioninfo.2)
    "main.parse_cli".

(** [init_logging], and the first call of the new logger.  Once it has returned no
    later call of the logger panics ([log_returns]); those calls are left out. *)
Definition start_logging : G unit :=
  c ← getS;
  lift (log_entry (init_logging c syslog) version_entry []).1.

(** The body of [parse_cli] after the library's parser. *)
Definition parse_flags (f : CLI_type) : G unit :=
  whenM f.(cli_Debug) (modify (setf g_debug (fun _ => true))) ;;
  whenM f.(cli_Trace) (modify (fun c => c <| g_trace := true |> <| g_debug := true |>)) ;;
  whenM f.(cli_Nosyslog) (modify (setf g_use_syslog (fun _ => false))) ;;
  start_logging ;;
  whenM f.(cli_BalanceConsistent) (modify (setf g_use_consistent_hashing (fun _ => true))) ;;
  whenM f.(cli_BalanceRoundrobin) (modify (setf g_use_consistent_hashing (fun _ => false))) ;;
  whenM (negb (bool_decide (f.(cli_Secret) = ""))) (modify (setf g_secret (fun _ => f.(cli_Secret)))) ;;
  whenM (negb (bool_decide (f.(cli_Mux) = 1)))
    (modify (setf g_mux_max (fun _ => wrap_int int_bits f.(cli_Mux)))) ;;
  whenM f.(cli_Aes) (modify (setf g_use_aes (fun _ => true))) ;;
  whenM (negb (bool_decide (f.(cli_TunnelId) = 0)))
    (modify (setf g_tunnel_id (fun _ => u32 f.(cli_TunnelId)))) ;;
  parse_addr_flag f.(cli_ConnectAddr) (fun v => setf g_connect_addr (fun _ => v)) ;;
  parse_addr_flag f.(cli_ListenAddr) (fun v => setf g_listen_addr (fun _ => v)) ;;
  parse_addr_flag f.(cli_MqttBrokerAddr) (fun v => setf g_mqtt_broker_addr (fun _ => v)) ;;
  whenM (negb (bool_decide (f.(cli_MqttUsername) = "")))
    (modify (setf g_mqtt_username (fun _ => f.(cli_MqttUsername)))) ;;
  whenM (negb (bool_decide (f.(cli_MqttPassword) = "")))
    (modify (setf g_mqtt_password (fun _ => f.(cli_MqttPassword)))) ;;
  (if bool_decide (f.(cli_HttpListenAddr) = "disable")
   then modify (setf g_http_listen_addr (fun _ => ""))
   else parse_addr_flag f.(cli_HttpListenAddr) (fun v => setf g_http_listen_addr (fun _ => v))) ;;
  parse_tunnel_ip f.(cli_TunnelIp).

(** The globals and the flags. *)
Record program := mkProgram { p_config : config; p_CLI : CLI_type }.

#[global] Instance program_settable : Settable program := fun p =>
  mkProgram p.(p_config) p.(p_CLI).

(** [parse_cli] on the arguments [args]: the command. *)
Definition parse_cli `{Kong} (args : list string) : M program string :=
  fun p =>
    match kong_Parse args p.(p_CLI) with
    | Ret (f, command) =>
        match parse_flags f p.(p_config) with
        | (Ret tt, c) => (Ret command, mkProgram c f)
        | (Panic msg, c) => (Panic msg, mkProgram c f)
        | (Exit code, c) => (Exit code, mkProgram c f)
        | (Deadlock, c) => (Deadlock, mkProgram c f)
        end
    | Panic msg => (Panic msg, p)
    | Exit code => (Exit code, p)
    | Deadlock => (Deadlock, p)
    end.
End parse.

(** ** What the flags mean *)

(** An absent or valid "address:port". *)
Definition addr_flag_ok (value : string) : bool :=
  bool_decide (value = "") || bool_decide (is_Some (ParseAddrPort value)).

(** The addresses of client and server in a dotted /30 block. *)
Definition tunnel_addresses (value : string) : option (string * string) :=
  match ParseCIDR value with
  | Some (_, ipnet) =>
      if bool_decide (ipnet.(net_Mask) = [255; 255; 255; 252])
      then Some (ip4_of (be ipnet.(net_IP) + 1), ip4_of (be ipnet.(net_IP) + 2)) else None
  | None => None
  end.

Definition valid_flags (f : CLI_type) : bool :=
  addr_flag_ok f.(cli_ConnectAddr) && addr_flag_ok f.(cli_ListenAddr) &&
  addr_flag_ok f.(cli_MqttBrokerAddr) &&
  (bool_decide (f.(cli_HttpListenAddr) = "disable") || addr_flag_ok f.(cli_HttpListenAddr)) &&
  (bool_decide (f.(cli_TunnelIp) = "") || bool_decide (is_Some (tunnel_addresses f.(cli_TunnelIp)))).

(** A string flag that is given replaces the global. *)
Definition given (value old : string) : string := if bool_decide (value = "") then old else value.

Definition apply_flags (int_bits : Z) (f : CLI_type) (c : config) : config := {|
  g_use_syslog := c.(g_use_syslog) && negb f.(cli_Nosyslog);
  g_debug := c.(g_debug) || f.(cli_Debug) || f.(cli_Trace);
  g_trace := c.(g_trace) || f.(cli_Trace);
  g_use_consistent_hashing :=
    (c.(g_use_consistent_hashing) || f.(cli_BalanceConsistent)) && negb f.(cli_BalanceRoundrobin);
  g_connect_addr := given f.(cli_ConnectAddr) c.(g_connect_addr);
  g_listen_addr := given f.(cli_ListenAddr) c.(g_listen_addr);
  g_mqtt_broker_addr := given f.(cli_MqttBrokerAddr) c.(g_mqtt_broker_addr);
  g_mqtt_username := given f.(cli_MqttUsername) c.(g_mqtt_username);
  g_mqtt_password := given f.(cli_MqttPassword) c.(g_mqtt_password);
  g_tunnel_id := if bool_decide (f.(cli_TunnelId) = 0) then c.(g_tunnel_id) else u32 f.(cli_TunnelId);
  g_tunnel_name := c.(g_tunnel_name);
  g_server_tun_ip :=
    match tunnel_addresses f.(cli_TunnelIp) with Some (_, s) => s | None => c.(g_server_tun_ip) end;
  g_client_tun_ip :=
    match tunnel_addresses f.(cli_TunnelIp) with Some (k, _) => k | None => c.(g_client_tun_ip) end;
  g_http_listen_addr :=
    if bool_decide (f.(cli_HttpListenAddr) = "disable") then ""
    else given f.(cli_HttpListenAddr) c.(g_http_listen_addr);
  g_secret := given f.(cli_Secret) c.(g_secret);
  g_use_aes := c.(g_use_aes) || f.(cli_Aes);
  g_mux_max := if bool_decide (f.(cli_Mux) = 1) then c.(g_mux_max) else wrap_int int_bits f.(cli_Mux)
|}.

(** ** What the parsers of addresses return *)

Lemma parseIPv4Fields_values s : ∀ val digLen pos fields a,
  0 <= val < 256 → bytes fields → pos = Z.of_nat (length fields) → pos <= 3 →
  parseIPv4Fields s val digLen pos fields = Some a → bytes a ∧ length a = 4%nat.
Proof.
  induction s as [|c s IH]; intros val digLen pos fields a Hval Hf Hpos H3; simpl.
  - case_bool_decide; [done|]. intros [= <-]. split.
    + apply Forall_app. split; [done|]. apply Forall_singleton. lia.
    + rewrite length_app. simpl. lia.
  - destruct (digit_val c) as [d|] eqn:Hd.
    + assert (0 <= d).
      { unfold digit_val in Hd. case_bool_decide; [|done]. simplify_eq. lia. }
      case_bool_decide; [done|]. case_bool_decide; [done|]. apply IH; [lia|done..].
    + case_bool_decide; [|done]. destruct (_ || _); [done|]. case_bool_decide; [done|].
      apply IH; [lia| |rewrite length_app; simpl; lia|lia].
      apply Forall_app. split; [done|]. apply Forall_singleton. lia.
Qed.

Lemma ParseAddr_v4 s a : ParseAddr s = Some (Addr4 a) → bytes a ∧ length a = 4%nat.
Proof.
  assert (∀ x, parseIPv4 x = Some (Addr4 a) → bytes a ∧ length a = 4%nat) as H4.
  { intros x. unfold parseIPv4. destruct (parseIPv4Fields x 0 0 0 []) eqn:H; [|done].
    intros [= ->]. eapply parseIPv4Fields_values; [|constructor|..|exact H]; [lia|done|lia]. }
  assert (∀ x, parseIPv6 x ≠ Some (Addr4 a)) as H6.
  { intros x. unfold parseIPv6. repeat case_match; try done; unfold fmap, option_fmap, option_map;
      by repeat case_match. }
  unfold ParseAddr. generalize s at 2. revert s.
  induction s as [|c s IH]; intros whole; simpl; [done|].
  case_bool_decide; [apply H4|]. case_bool_decide; [by intros ?%H6|]. case_bool_decide; [done|]. apply IH.
Qed.

Lemma dec_value_nonneg s acc v : 0 <= acc → dec_value s acc = Some v → 0 <= v.
Proof.
  revert acc. induction s as [|c s IH]; intros acc Hacc; simpl; [by intros [= <-]|].
  destruct (digit_val c) as [d|] eqn:Hd; [|done]. apply IH.
  unfold digit_val in Hd. case_bool_decide; [|done]. simplify_eq. lia.
Qed.

(** A parsed block: four bytes and a prefix length up to 32, or a 16-byte mask. *)
Lemma ParseCIDR_cases s ip ipnet :
  ParseCIDR s = Some (ip, ipnet) →
  (∃ a n, bytes a ∧ length a = 4%nat ∧ 0 <= n <= 32 ∧ ip = v4InV6Prefix ++ a ∧
    ipnet = mkIPNet (and_bytes a (CIDRMask n 4)) (CIDRMask n 4)) ∨
  length ipnet.(net_Mask) = 16%nat.
Proof.
  unfold ParseCIDR. destruct (cut "/" s) as [[addr mask]|]; [|done].
  destruct (ParseAddr addr) as [a|] eqn:Ha; [|done]. destruct (negb _); [done|].
  destruct (dtoi mask) as [n|] eqn:Hn; [|done].
  assert (0 <= n) as Hn0.
  { unfold dtoi in Hn. destruct mask; [done|]. destruct (dec_value _ 0) eqn:Hv; [|done].
    apply dec_value_nonneg in Hv; [|done]. case_bool_decide; by simplify_eq. }
  case_bool_decide as Hb; [done|]. intros [= <- <-]. destruct a as [a|a z].
  - apply ParseAddr_v4 in Ha as [Hby Hl]. left. exists a, n. simpl in Hb.
    change (Z.to_nat (BitLen (Addr4 a) / 8)) with 4%nat. change (As16 (Addr4 a)) with (v4InV6Prefix ++ a).
    split_and!; [done..|lia|done|]. by rewrite Mask_v4 by (done || by rewrite CIDRMask_length).
  - right. cbn [net_Mask]. by rewrite CIDRMask_length.
Qed.

(** The text of the mask tells a /30 from every other prefix length. *)
Lemma mask_string_30 n :
  0 <= n <= 32 → bool_decide (mask_string (CIDRMask n 4) = "fffffffc") = bool_decide (n = 30).
Proof.
  intros Hn.
  assert (Forall (λ n, bool_decide (mask_string (CIDRMask n 4) = "fffffffc") = bool_decide (n = 30))
    (seqZ 0 33)) as H by (repeat (constructor; [reflexivity|]); constructor).
  rewrite Forall_forall in H. apply H, elem_of_seqZ. lia.
Qed.

Lemma CIDRMask_30 n : 0 <= n <= 32 → CIDRMask n 4 = [255; 255; 255; 252] → n = 30.
Proof.
  intros Hn H. apply (f_equal mask_string) in H. change (mask_string [255; 255; 255; 252]) with "fffffffc" in H.
  pose proof (mask_string_30 n Hn) as Hs. rewrite (bool_decide_eq_true_2 _ H) in Hs.
  symmetry in Hs. by apply bool_decide_eq_true in Hs.
Qed.

Lemma mask_string_16 m : length m = 16%nat → mask_string m ≠ "fffffffc".
Proof.
  intros H. do 16 (destruct m as [|? m]; [done|]). destruct m; [|done].
  intros Hs. by apply (f_equal slen) in Hs.
Qed.

(** The enumeration of a /30 depends on the parsed block only. *)
Lemma IpHosts_30 s a :
  bytes a → length a = 4%nat →
  ParseCIDR s = Some (v4InV6Prefix ++ a, mkIPNet (and_bytes a (CIDRMask 30 4)) (CIDRMask 30 4)) →
  IpHosts tunnel_ip_fuel s = Ret ([ip4_of (be (and_bytes a (CIDRMask 30 4)) + 1);
    ip4_of (be (and_bytes a (CIDRMask 30 4)) + 2)], None).
Proof.
  intros Ha Hl Hs. unfold tunnel_ip_fuel.
  assert (IpHosts 5 s = IpHosts 5 (cidr_text a 30)) as ->.
  { unfold IpHosts. by rewrite Hs, ParseCIDR_text by (done || lia). }
  rewrite IpHosts_enum, (be_masked 30) by (done || lia).
  change (2 ^ (32 - 30)) with 4. change (4 - 2) with 2. unfold block_base. change (2 ^ (32 - 30)) with 4.
  rewrite !seqZ_cons by lia. simpl. by rewrite <-Z.add_1_r, <-Z.add_assoc.
Qed.

(** ** The code computes the specification *)

Lemma parse_addr_flag_eq value set c :
  parse_addr_flag value set c =
    if addr_flag_ok value then (Ret tt, if bool_decide (value = "") then c else set value c)
    else (Exit 1, set value c).
Proof.
  unfold parse_addr_flag, addr_flag_ok. destruct (bool_decide (value = "")); simpl; [done|].
  unfold mbind, M_bind. simpl. by destruct (ParseAddrPort value).
Qed.

Lemma parse_tunnel_ip_eq value c :
  parse_tunnel_ip value c =
    if bool_decide (value = "") then (Ret tt, c)
    else match tunnel_addresses value with
         | Some (k, s) => (Ret tt, c <| g_client_tun_ip := k |> <| g_server_tun_ip := s |>)
         | None => (Exit 1, c)
         end.
Proof.
  unfold parse_tunnel_ip, tunnel_addresses. destruct (bool_decide (value = "")); simpl; [done|].
  destruct (ParseCIDR value) as [[ip ipnet]|] eqn:Hs; [|done].
  destruct (ParseCIDR_cases _ _ _ Hs) as [(a & n & Ha & Hl & Hn & -> & ->)|H16]; cbn [net_Mask net_IP].
  - rewrite mask_string_30 by done. destruct (decide (n = 30)) as [->|Hne].
    + rewrite !bool_decide_eq_true_2 by done. cbn [negb].
      unfold mbind, M_bind, lift. by rewrite (IpHosts_30 _ a) by done.
    + rewrite (bool_decide_eq_false_2 (n = 30)) by done.
      rewrite bool_decide_eq_false_2; [done|]. intros H. by apply Hne, CIDRMask_30.
  - rewrite (bool_decide_eq_false_2 (mask_string _ = _)) by by apply mask_string_16.
    rewrite bool_decide_eq_false_2; [done|]. by intros H; rewrite H in H16.
Qed.

(** A conditional assignment as an unconditional one. *)
Lemma set_when {R T : Type} (p : R → T) {S : Setter p} (b : bool) g r :
  (∀ r, setf p (λ x, x) r = r) →
  (if b then setf p g r else r) = setf p (λ x, if b then g x else x) r.
Proof. intros H. by destruct b. Qed.
Lemma set_unless {R T : Type} (p : R → T) {S : Setter p} (b : bool) g r :
  (∀ r, setf p (λ x, x) r = r) →
  (if b then r else setf p g r) = setf p (λ x, if b then x else g x) r.
Proof. intros H. by destruct b. Qed.

Lemma whenM_modify {S : Type} b (f : S → S) s :
  whenM b (modify f) s = (Ret tt, if b then f s else s).
Proof. by destruct b. Qed.

(** The assignments of the flags that are not checked, up to the first address. *)
Definition plain_flags (int_bits : Z) (f : CLI_type) (c : config) : config :=
  c <| g_debug ::= (fun b => b || f.(cli_Debug) || f.(cli_Trace)) |>
    <| g_trace ::= (fun b => b || f.(cli_Trace)) |>
    <| g_use_syslog ::= (fun b => b && negb f.(cli_Nosyslog)) |>
    <| g_use_consistent_hashing ::=
         (fun b => (b || f.(cli_BalanceConsistent)) && negb f.(cli_BalanceRoundrobin)) |>
    <| g_secret ::= given f.(cli_Secret) |>
    <| g_mux_max ::= (fun m => if bool_decide (f.(cli_Mux) = 1) then m else wrap_int int_bits f.(cli_Mux)) |>
    <| g_use_aes ::= (fun b => b || f.(cli_Aes)) |>
    <| g_tunnel_id ::=
         (fun t => if bool_decide (f.(cli_TunnelId) = 0) then t else u32 f.(cli_TunnelId)) |>.

Section spec.
Context {LR : Logrus} {LL : LogrusLaws LR} {SU : Startup}.
Context (int_bits : Z) (syslog : option handle).

(** Computes the fields of an updated record. *)
Ltac fields := cbv beta iota delta [setf World.g_use_syslog World.g_debug World.g_trace
  World.g_use_consistent_hashing World.g_connect_addr World.g_listen_addr
  World.g_mqtt_broker_addr World.g_mqtt_username World.g_mqtt_password World.g_tunnel_id
  World.g_tunnel_name World.g_server_tun_ip World.g_client_tun_ip World.g_http_listen_addr
  World.g_secret World.g_use_aes World.g_mux_max].

(** A sequence of assignments, then [k]. *)
Ltac assignments :=
  repeat (erewrite bind_ret by apply whenM_modify).

Lemma start_logging_eq c :
  start_logging syslog c =
    (if syslog_lost c syslog then Panic "nil *syslog.Writer" else Ret tt, c).
Proof. unfold start_logging, version_entry, mbind, M_bind, getS, lift. by rewrite log_info_outcome. Qed.

(** The flags that decide on syslog. *)
Definition logging_lost (f : CLI_type) (c : config) : bool :=
  c.(g_use_syslog) && negb f.(cli_Nosyslog) && bool_decide (syslog = None).

Lemma parse_flags_lost f c :
  logging_lost f c = true → (parse_flags int_bits syslog f c).1 = Panic "nil *syslog.Writer".
Proof.
  intros Hl. unfold parse_flags. assignments. unfold mbind at 1, M_bind at 1.
  rewrite start_logging_eq. unfold logging_lost, syslog_lost in *.
  destruct c, (cli_Debug f), (cli_Trace f), (cli_Nosyslog f); simpl in *;
    by rewrite ?andb_true_r, ?andb_false_r in Hl; rewrite ?Hl.
Qed.

Lemma parse_flags_plain f c :
  logging_lost f c = false →
  parse_flags int_bits syslog f c =
    (parse_addr_flag f.(cli_ConnectAddr) (fun v => setf g_connect_addr (fun _ => v)) ;;
     parse_addr_flag f.(cli_ListenAddr) (fun v => setf g_listen_addr (fun _ => v)) ;;
     parse_addr_flag f.(cli_MqttBrokerAddr) (fun v => setf g_mqtt_broker_addr (fun _ => v)) ;;
     whenM (negb (bool_decide (f.(cli_MqttUsername) = "")))
       (modify (setf g_mqtt_username (fun _ => f.(cli_MqttUsername)))) ;;
     whenM (negb (bool_decide (f.(cli_MqttPassword) = "")))
       (modify (setf g_mqtt_password (fun _ => f.(cli_MqttPassword)))) ;;
     (if bool_decide (f.(cli_HttpListenAddr) = "disable")
      then modify (setf g_http_listen_addr (fun _ => ""))
      else parse_addr_flag f.(cli_HttpListenAddr) (fun v => setf g_http_listen_addr (fun _ => v))) ;;
     parse_tunnel_ip f.(cli_TunnelIp)) (plain_flags int_bits f c).
Proof.
  intros Hl. unfold parse_flags. assignments. erewrite bind_ret.
  2: { rewrite start_logging_eq. unfold logging_lost, syslog_lost in *.
       replace (g_use_syslog _ && _) with false; [reflexivity|]. rewrite <- Hl.
       by destruct c, (cli_Debug f), (cli_Trace f), (cli_Nosyslog f); simpl; rewrite ?andb_true_r, ?andb_false_r. }
  assignments. f_equal. unfold plain_flags.
  destruct (cli_Trace f) eqn:Ht; rewrite !set_when by (by intros []);
    destruct c; fields; rewrite ?Ht; f_equal; unfold given.
  all: repeat case_match; by rewrite ?orb_true_r, ?orb_false_r, ?andb_true_r, ?andb_false_r.
Qed.

(** One checked flag: it stops the parser or is assigned. *)
Lemma addr_flag_step {A : Type} value p {S : Setter p} (k : unit → G A) c :
  (∀ c : config, setf p (λ x, x) c = c) →
  (parse_addr_flag value (fun v => setf p (fun _ => v)) ≫= k) c =
    if addr_flag_ok value then k tt (setf p (given value) c)
    else (Exit 1, setf p (fun _ => value) c).
Proof.
  intros Hid. unfold mbind, M_bind. rewrite parse_addr_flag_eq. destruct (addr_flag_ok value); [|done].
  by rewrite set_unless.
Qed.

Lemma http_flag_step {A : Type} value (k : unit → G A) c :
  ((if bool_decide (value = "disable") then modify (setf g_http_listen_addr (fun _ => ""))
    else parse_addr_flag value (fun v => setf g_http_listen_addr (fun _ => v))) ≫= k) c =
    if bool_decide (value = "disable") || addr_flag_ok value
    then k tt (c <| g_http_listen_addr ::=
      (fun old => if bool_decide (value = "disable") then "" else given value old) |>)
    else (Exit 1, c <| g_http_listen_addr := value |>).
Proof. destruct (bool_decide (value = "disable")); [done|]. by rewrite addr_flag_step by (by intros []). Qed.

(** The remaining assignments, in one step. *)
Lemma apply_flags_split f c :
  apply_flags int_bits f c =
    (plain_flags int_bits f c)
      <| g_connect_addr ::= given f.(cli_ConnectAddr) |>
      <| g_listen_addr ::= given f.(cli_ListenAddr) |>
      <| g_mqtt_broker_addr ::= given f.(cli_MqttBrokerAddr) |>
      <| g_mqtt_username ::= given f.(cli_MqttUsername) |>
      <| g_mqtt_password ::= given f.(cli_MqttPassword) |>
      <| g_http_listen_addr ::= (fun old => if bool_decide (f.(cli_HttpListenAddr) = "disable")
                                 then "" else given f.(cli_HttpListenAddr) old) |>
      <| g_client_tun_ip ::= (fun old =>
           match tunnel_addresses f.(cli_TunnelIp) with Some (k, _) => k | None => old end) |>
      <| g_server_tun_ip ::= (fun old =>
           match tunnel_addresses f.(cli_TunnelIp) with Some (_, s) => s | None => old end) |>.
Proof. destruct c. unfold apply_flags, plain_flags. by fields. Qed.

Lemma refused_flags (c : config) b (Q : Prop) :
  b = false → (Exit 1 : outcome unit, c).1 = (if b then Ret tt else Exit 1) ∧ (b = true → Q).
Proof. by intros ->. Qed.

(** Two updates of a record agree field by field. *)
Ltac same_fields := fields; unfold given; f_equal; first [done|by destruct (bool_decide _)].

Lemma parse_flags_ok f c :
  logging_lost f c = false →
  (parse_flags int_bits syslog f c).1 = (if valid_flags f then Ret tt else Exit 1) ∧
  (valid_flags f = true → (parse_flags int_bits syslog f c).2 = apply_flags int_bits f c).
Proof.
  intros Hl. rewrite parse_flags_plain, apply_flags_split by done. unfold valid_flags.
  do 3 (rewrite addr_flag_step by (by intros []); destruct (addr_flag_ok _); [|by apply refused_flags]).
  assignments. rewrite !set_when by (by intros []).
  rewrite http_flag_step. destruct (_ || addr_flag_ok _); [|by apply refused_flags].
  rewrite parse_tunnel_ip_eq. destruct (bool_decide_reflect (cli_TunnelIp f = "")) as [-> |]; simpl.
  - split; [done|]. intros _. generalize (plain_flags int_bits f c). intros []. same_fields.
  - destruct (tunnel_addresses _) as [[k s]|] eqn:Ht; simpl.
    + split; [done|]. intros _. generalize (plain_flags int_bits f c). intros []. same_fields.
    + split; [reflexivity|]. intros [=].
Qed.

(** C13: [parse_cli] after the library's parser computes its specification.  It
    always ends, in one of three ways: when syslog is to be used and its daemon
    cannot be reached, the first log entry is a nil dereference, before any other
    flag is looked at; otherwise it returns exactly when every address flag parses
    and the tunnel block is a dotted /30, and then the globals are those of
    [apply_flags], the client's address being the first of the block and the
    server's the second; it exits with code 1 in all other cases. *)
Theorem parse_flags_spec (f : CLI_type) (c : config) :
  (parse_flags int_bits syslog f c).1 =
    (if logging_lost f c then Panic "nil *syslog.Writer"
     else if valid_flags f then Ret tt else Exit 1) ∧
  (logging_lost f c = false → valid_flags f = true →
   (parse_flags int_bits syslog f c).2 = apply_flags int_bits f c).
Proof.
  destruct (logging_lost f c) eqn:Hl; [by rewrite parse_flags_lost|].
  destruct (parse_flags_ok f c Hl) as [-> H]. split; [done|]. intros _. exact H.
Qed.
End spec.

(** A machine with a syslog daemon. *)
#[export] Instance demo_startup : Startup := {
  syslog_New _ := Some 9; versioninfo := ("unknown", "unknown")
}.

(** A command line of a client with a block, a broker and four links. *)
Definition demo_flags : CLI_type :=
  CLI_default <| cli_ConnectAddr := "203.0.113.9:12345" |> <| cli_TunnelId := 7 |>
    <| cli_TunnelIp := "10.20.30.45/30" |> <| cli_Mux := 4 |> <| cli_Trace := true |>
    <| cli_HttpListenAddr := "disable" |>.

Lemma parse_flags_spec_witness :
  valid_flags demo_flags = true ∧
  (apply_flags 64 demo_flags default_config).(g_client_tun_ip) = "10.20.30.45" ∧
  (apply_flags 64 demo_flags default_config).(g_server_tun_ip) = "10.20.30.46" ∧
  (parse_flags 64 (Some 9) demo_flags default_config).2 = apply_flags 64 demo_flags default_config ∧
  (parse_flags 64 None demo_flags default_config).1 = Panic "nil *syslog.Writer".
Proof.
  split; [vm_compute; reflexivity|]. split; [vm_compute; reflexivity|].
  split; [vm_compute; reflexivity|].
  split; [|exact (proj1 (parse_flags_spec 64 None demo_flags default_config))].
  apply (parse_flags_spec 64 (Some 9) demo_flags default_config); vm_compute; reflexivity.
Defined.

(** The tunnel block of the command line.  Of a dotted block "a.b.c.d/n" only
    a /30 is accepted, whichever of its four addresses is given; client and
    server then take the two usable addresses of the block, the client the
    lower one.  Every other prefix length, /0 included, ends the process before
    the enumeration starts. *)
Theorem tunnel_block (a : list Z) (n : Z) (c : config)
    (Ha : bytes a) (Hl : length a = 4%nat) (Hn : 0 <= n <= 32) :
  parse_tunnel_ip (cidr_text a n) c =
    if bool_decide (n = 30)
    then (Ret tt, c <| g_client_tun_ip := ip4_of (be a / 4 * 4 + 1) |>
                    <| g_server_tun_ip := ip4_of (be a / 4 * 4 + 2) |>)
    else (Exit 1, c).
Proof.
  assert (cidr_text a n ≠ "") as Hne.
  { intros H. pose proof (ParseCIDR_text a n Ha Hl Hn) as Hp. by rewrite H in Hp. }
  rewrite parse_tunnel_ip_eq, bool_decide_eq_false_2 by done.
  unfold tunnel_addresses. rewrite ParseCIDR_text by done. cbn [net_Mask net_IP].
  case_bool_decide as H30.
  - apply CIDRMask_30 in H30 as ->; [|done]. rewrite bool_decide_eq_true_2, (be_masked 30) by (done || lia).
    done.
  - rewrite bool_decide_eq_false_2; [done|]. by intros ->.
Qed.

Lemma tunnel_block_witness :
  parse_tunnel_ip (cidr_text [10;10;10;1] 30) default_config =
    (Ret tt, default_config <| g_client_tun_ip := ip4_of (be [10;10;10;1] / 4 * 4 + 1) |>
                    <| g_server_tun_ip := ip4_of (be [10;10;10;1] / 4 * 4 + 2) |>) ∧
  (parse_tunnel_ip "10.10.10.1/24" default_config).1 = Exit 1.
Proof.
  split; [|vm_compute; reflexivity].
  apply (tunnel_block [10;10;10;1] 30 default_config); [by_bytes|done|lia].
Defined.

(** The defaults the help text announces are not those of the code, and the
    broker it names is refused: only numeric addresses parse. *)
Lemma host_names_refused :
  addr_flag_ok "things.byteheavy.com:1833" = false ∧
  default_config.(g_mqtt_broker_addr) = "" ∧ default_config.(g_connect_addr) = "".
Proof. split; [vm_compute|]; done. Qed.
