(* ===== verification/Session.v ===== *)
(** * KCP sessions ([src/r_tunnel.go], and the session set-up of [src/main.go])

    [RatSession] methods take a possibly nil receiver.  [NewSession],
    [create_session] and [createListener] open the KCP ends; the option setters
    record what they set in the trace. *)
From stdpp Require Import base gmap sets list strings.
From Stdlib Require Import ZArith Lia.
From S2P Require Import Prelude GoFloat GoNet Network Ring World.
#[local] Open Scope Z_scope.

Definition dataSize : Z := 0.
Definition paritySize : Z := 0.

Section session.
Context {C : Consistent} {E : Env} (cfg : config).

(** ** Option setters *)

Definition set_options (kcp : handle) (opts : list KcpOption) : W unit :=
  for_each opts (fun o => emit (EvKcpOption kcp o)).

(** [setClientConnOptions(conn)]; a nil [*kcp.UDPSession] panics. *)
Definition setClientConnOptions (conn : option handle) : W unit :=
  kcp ← deref "nil *kcp.UDPSession" conn;
  set_options kcp [OptStreamMode true; OptWriteDelay false; OptNoDelay 1 10 2 1;
    OptMtu g_kcp_mtu; OptWindowSize 1024 1024; OptACKNoDelay false].

Definition setServerConnOptions (conn : option handle) : W unit :=
  kcp ← deref "nil *kcp.UDPSession" conn;
  set_options kcp [OptStreamMode true; OptWriteDelay false; OptNoDelay 1 10 2 1;
    OptMtu g_kcp_mtu; OptWindowSize 1024 1024; OptACKNoDelay false].

(** [s.setKCPOptions]. *)
Definition setKCPOptions (s : option RatSession) : W unit :=
  s ← deref "nil *RatSession" s;
  match s.(s_kcp) with
  | None => mret tt
  | Some kcp =>
      set_options kcp [OptStreamMode true; OptWriteDelay false; OptNoDelay 1 10 2 1;
        OptMtu g_kcp_mtu; OptWindowSize 1024 1024; OptACKNoDelay false; OptDeadlink 1000]
  end.

(** ** Methods of a session: errors are [Some message] *)

Definition nil_session : option string := Some "nil session".

Definition rat_Read (s : option RatSession) : W (list Z + string) :=
  match s with
  | None => mret (inr "nil session")
  | Some s =>
      kcp ← deref "nil *kcp.UDPSession" s.(s_kcp);
      t ← tick; mret (env_kcp_Read t kcp)
  end.

Definition rat_Write (s : option RatSession) (b : list Z) : W (option string) :=
  match s with
  | None => mret nil_session
  | Some s =>
      kcp ← deref "nil *kcp.UDPSession" s.(s_kcp);
      emit (EvKcpWrite kcp b) ;;
      t ← tick; mret (env_kcp_Write t kcp b)
  end.

(** The socket first, then the KCP session; the result of the latter's [Close]
    is used by no caller and reported as nil. *)
Definition rat_Close (s : option RatSession) : W (option string) :=
  match s with
  | None => mret nil_session
  | Some s =>
      match s.(s_udp_conn) with
      | Some conn => emit (EvUdpClose conn)
      | None => mret tt
      end ;;
      kcp ← deref "nil *kcp.UDPSession" s.(s_kcp);
      emit (EvKcpClose kcp) ;;
      mret None
  end.

Definition rat_GetState (s : option RatSession) : W Z :=
  match s with
  | None => mret 0
  | Some s =>
      kcp ← deref "nil *kcp.UDPSession" s.(s_kcp);
      t ← tick; mret (env_kcp_GetState t kcp)
  end.

Definition rat_SetReadBuffer (s : option RatSession) (bytes : Z) : W (option string) :=
  match s with
  | None => mret nil_session
  | Some s =>
      kcp ← deref "nil *kcp.UDPSession" s.(s_kcp);
      emit (EvKcpReadBuffer kcp bytes) ;; mret None
  end.

Definition rat_SetWriteBuffer (s : option RatSession) (bytes : Z) : W (option string) :=
  match s with
  | None => mret nil_session
  | Some s =>
      kcp ← deref "nil *kcp.UDPSession" s.(s_kcp);
      emit (EvKcpWriteBuffer kcp bytes) ;; mret None
  end.

Definition rat_SetReadDeadline (s : option RatSession) (t : Z) : W (option string) :=
  match s with
  | None => mret nil_session
  | Some s =>
      kcp ← deref "nil *kcp.UDPSession" s.(s_kcp);
      emit (EvKcpReadDeadline kcp t) ;; mret None
  end.

Definition rat_SetWriteDeadline (s : option RatSession) (t : Z) : W (option string) :=
  match s with
  | None => mret nil_session
  | Some s =>
      kcp ← deref "nil *kcp.UDPSession" s.(s_kcp);
      emit (EvKcpWriteDeadline kcp t) ;; mret None
  end.

Definition rat_RemoteAddr (s : option RatSession) : option string :=
  match s with Some s => s.(s_remote) | None => None end.

Definition rat_GetConv (s : option RatSession) : Z :=
  match s with Some s => s.(s_convid) | None => 0 end.

(** ** Opening the ends *)

Definition g_buffer_size : Z := 2165535.

(** The cipher of [NewSession] and of [createListener]. *)
Definition session_block : BlockCrypt :=
  let key := env_pbkdf2 cfg.(g_secret) "ratbond salt" 1024 32 in
  if cfg.(g_use_aes) then AESBlockCrypt key else NoneBlockCrypt key.

(** [NewSession]: the session (nil on an error) and the error. *)
Definition NewSession (convid : Z) (l_udpaddr : list Z * Z) (l_conn : handle)
    : W (option RatSession * option string) :=
  if bool_decide (convid = 0) then panic "convid = 0 !"
  else
    t ← tick;
    match env_kcp_NewConn t convid l_udpaddr session_block dataSize paritySize l_conn with
    | None => mret (None, Some "NewConn3")
    | Some kcp =>
        let session := mkRatSession convid (Some l_conn) None (Some kcp) in
        setKCPOptions (Some session) ;;
        mret (Some session, None)
    end.

(** [create_session]: the error of [NewSession] is dropped after its session
    has been dereferenced. *)
Definition create_session (convid : Z) (src : string)
    : W (option RatSession * option string) :=
  t ← tick;
  match ResolveUDPAddr (env_lookup t) cfg.(g_connect_addr) with
  | None => mret (None, Some "ResolveUDPAddr")
  | Some l_serveraddr =>
      t ← tick;
      match ResolveUDPAddr (env_lookup t) (src +:+ ":" +:+ fmt_d convid) with
      | None => mret (None, Some "ResolveUDPAddr")
      | Some (l_localip, _) =>
          t ← tick;
          match env_ListenUDP t l_localip with
          | None => mret (None, Some "ListenUDP")
          | Some l_boundconn =>
              '(session, _) ← NewSession convid l_serveraddr l_boundconn;
              s ← deref "nil *RatSession" session;
              setClientConnOptions s.(s_kcp) ;;
              mret (session, None)
          end
      end
  end.

Definition createListener : W (option handle * option string) :=
  t ← tick;
  match env_kcp_Listen t cfg.(g_listen_addr) session_block dataSize paritySize with
  | None => mret (None, Some "listen")
  | Some l => mret (Some l, None)
  end.

(** ** The settings in force after a sequence of option calls *)

Record kcp_settings := mkSettings {
  k_stream : option bool; k_write_delay : option bool; k_no_delay : option (Z * Z * Z * Z);
  k_mtu : option Z; k_window : option (Z * Z); k_ack_no_delay : option bool;
  k_deadlink : option Z
}.

#[global] Instance kcp_settings_settable : Settable kcp_settings := fun k =>
  mkSettings k.(k_stream) k.(k_write_delay) k.(k_no_delay) k.(k_mtu) k.(k_window)
    k.(k_ack_no_delay) k.(k_deadlink).

Definition apply_option (k : kcp_settings) (o : KcpOption) : kcp_settings :=
  match o with
  | OptStreamMode b => k <| k_stream := Some b |>
  | OptWriteDelay b => k <| k_write_delay := Some b |>
  | OptNoDelay a b c d => k <| k_no_delay := Some (a, b, c, d) |>
  | OptMtu m => k <| k_mtu := Some m |>
  | OptWindowSize a b => k <| k_window := Some (a, b) |>
  | OptACKNoDelay b => k <| k_ack_no_delay := Some b |>
  | OptDeadlink n => k <| k_deadlink := Some n |>
  end.

(** The options set on [kcp] in a trace, from the defaults of the library. *)
Definition settings_of (kcp : handle) (defaults : kcp_settings) (tr : list event) : kcp_settings :=
  foldl (fun k e => match e with
    | EvKcpOption h o => if bool_decide (h = kcp) then apply_option k o else k
    | _ => k end) defaults tr.

(** The turbo mode of the source. *)
Definition turbo : kcp_settings :=
  mkSettings (Some true) (Some false) (Some (1, 10, 2, 1)) (Some 1360) (Some (1024, 1024))
    (Some false) (Some 1000).

End session.
