(* ===== verification/Client.v ===== *)
(** * The client ([src/main.go], and [get_wan_ip] of [src/p_utils.go])

    A tunnel of the client holds one KCP connection per WAN link.  The
    definitions follow the functions of the source one by one; a [range] over
    the connections re-reads the map at each key, as Go does when entries are
    deleted during the iteration.  The two endless loops [client_handle_kcp]
    and [client_handle_tun] are given by one turn of the loop and by its
    iteration on fuel. *)
From stdpp Require Import base gmap sets list strings.
From Stdlib Require Import ZArith Lia.
From S2P Require Import Prelude GoFloat GoNet Network Ring World Session Wire FlowKey.
#[local] Open Scope Z_scope.

(** KCP's state of a dead link. *)
Definition kcp_dead : Z := 4294967295.

Section client.
Context {C : Consistent} {E : Env} {P : HeaderParser} (cfg : config).

(** ** Setting up a tunnel *)

(** [get_wan_ip]: [ip[0]] of an empty list is a panic. *)
Definition get_wan_ip (iface : string) : W (string * option string) :=
  t ← tick;
  match network_getIpAddr (env_Interfaces t) iface with
  | (_, Some err) => mret ("", Some err)
  | (ip, None) =>
      ip0 ← deref "index out of range" (ip !! 0%nat);
      let bind_ip := ip0 +:+ ":0" in
      t ← tick;
      if negb (env_ResolveTCP t bind_ip) then mret ("", Some "ResolveTCPAddr")
      else
        t ← tick;
        match env_http_get t bind_ip with
        | None => mret ("", Some "http")
        | Some wan_ip => mret (wan_ip, None)
        end
  end.

Definition createTun (tunnelid : Z) (ip : string) : W (option handle * option string) :=
  let name := if negb (bool_decide (cfg.(g_tunnel_name) = "")) then cfg.(g_tunnel_name)
              else "tun" +:+ fmt_d tunnelid in
  t ← tick;
  match env_tun_New t name with
  | None => mret (None, Some "water.New")
  | Some iface =>
      n ← deref "nil *water.Interface" (env_tun_Name (Some iface));
      runthing "ip" ["addr"; "add"; ip +:+ "/30"; "dev"; n] ;;
      runthing "ip" ["link"; "set"; n; "mtu"; fmt_d g_tunnel_mtu] ;;
      runthing "ip" ["link"; "set"; n; "up"] ;;
      mret (Some iface, None)
  end.

Definition client_num_connections_by_src (src : string) (conns : gmap Z loc)
    (heap : gmap loc serverConnection) : Z :=
  foldr (fun l cnt => match heap !! l with
    | Some c => if bool_decide (c.(sc_src_address) = src) then cnt + 1 else cnt
    | None => cnt
    end) 0 (map_to_list conns).*2.

(** [for avail=tunnelid; avail<=tunnelid+10; avail++] up to the first id that
    is not a key of the map. *)
Fixpoint find_slot (fuel : nat) (conns : gmap Z loc) (limit avail : Z) : option Z :=
  match fuel with
  | O => None
  | S fuel' =>
      if bool_decide (avail <= limit) then
        match conns !! avail with
        | None => Some avail
        | Some _ => find_slot fuel' conns limit (u32 (avail + 1))
        end
      else Some avail
  end.

(** Twelve ids, or all the keys of the map when the bound is the largest
    [uint32]. *)
Definition slot_fuel (conns : gmap Z loc) : nat := 12 + size conns.

(** Interface, map and ring of a tunnel, under the lock; the result is
    [spawn_tun]. *)
Definition client_setup_server (tunnelid : Z) : W bool :=
  s ← get_server tunnelid;
  spawn_tun ←
    (match s.(sv_iface) with
     | Some _ => mret false
     | None =>
         '(iface, _) ← createTun tunnelid cfg.(g_client_tun_ip);
         upd_server tunnelid (fun s => s <| sv_iface := iface |>
           <| sv_my_tun_ip := cfg.(g_client_tun_ip) |>
           <| sv_remote_tun_ip := cfg.(g_server_tun_ip) |>) ;;
         n ← deref "nil *water.Interface" (env_tun_Name iface);
         upd_server tunnelid (fun s => s <| sv_ifname := n |> <| sv_base_convid := tunnelid |>) ;;
         mret true
     end);
  s ← get_server tunnelid;
  match s.(sv_connections) with
  | Some _ => mret spawn_tun
  | None =>
      upd_server tunnelid (fun s => s <| sv_connections := Some ∅ |>
        <| sv_consistent := Some ring_New |>) ;;
      mret spawn_tun
  end.

(** The fields of a new connection before its session is set. *)
Definition fresh_serverConnection (avail : Z) (src ifname wan_ip : string) (t1 t2 t3 : Z)
    : serverConnection := {|
  sc_convid := avail; sc_session := None; sc_ifname := ifname; sc_rxloss := 0; sc_txloss := 0;
  sc_txcounter := 0; sc_txbytes := 0; sc_rxcounter := 0; sc_rxbytes := 0; sc_rxtimeouts := 0;
  sc_txtimeouts := 0; sc_priority := 0; sc_last_bw_update := t1;
  sc_txbandwidth := float32_of_Z 0; sc_rxbandwidth := float32_of_Z 0; sc_last_hello := t2;
  sc_up_since := t3; sc_alive := true; sc_src_address := src; sc_wan_ip := wan_ip |}.

(** The part of [client_connect_server] under its second lock: the new entry of
    the map, its session and its member of the ring. *)
Definition client_add_connection (tunnelid avail : Z) (src ifname wan_ip : string) : W loc :=
  upd_server tunnelid (setf sv_last_convid (fun _ => 0)) ;;
  t1 ← time_Now; t2 ← time_Now; t3 ← time_Now;
  l ← new_sconn (fresh_serverConnection avail src ifname wan_ip t1 t2 t3);
  upd_server tunnelid (setf sv_connections (fmap (insert avail l))) ;;
  '(session, err) ← create_session cfg avail src;
  match err with
  | Some _ => panic "kcp conn create error"
  | None =>
      rat_SetReadBuffer session g_buffer_size ;;
      rat_SetWriteBuffer session g_buffer_size ;;
      upd_sconn l (setf sc_session (fun _ => session)) ;;
      s ← get_server tunnelid;
      r ← deref "nil *consistent.Consistent" s.(sv_consistent);
      upd_server tunnelid (setf sv_consistent (fun _ => Some (ring_Add (fmt_d avail) r))) ;;
      mret l
  end.

(** [client_check_paths]: the default route follows the number of
    connections of the tunnel [g_tunnel_id]. *)
Definition client_check_paths : W unit :=
  w ← getS;
  match w.(g_server_list) !! cfg.(g_tunnel_id) with
  | None => mret tt
  | Some _ =>
      lock_server cfg.(g_tunnel_id) ;;
      server ← get_server cfg.(g_tunnel_id);
      check ← runthing "ip" ["route"; "show"; "match"; "0.0.0.0"];
      (if bool_decide (0 < size (sv_conns server))%nat then
         if contains check server.(sv_remote_tun_ip) then mret tt
         else runthing "ip" ["route"; "add"; "default"; "via"; server.(sv_remote_tun_ip)] ;; mret tt
       else
         if contains check server.(sv_remote_tun_ip) then
           runthing "ip" ["route"; "delete"; "default"; "via"; server.(sv_remote_tun_ip)] ;; mret tt
         else mret tt) ;;
      unlock_server cfg.(g_tunnel_id)
  end.

(** The end of [client_connect_server]: hello, goroutines and route. *)
Definition client_start_connection (tunnelid : Z) (l : loc) (spawn_tun : bool) : W unit :=
  c ← get_sconn l;
  t ← time_Now;
  rat_SetWriteDeadline c.(sc_session) (t + Millisecond * g_write_deadline) ;;
  rat_Write c.(sc_session) g_hello ;;
  go (GoClientHandleKcp tunnelid l) ;;
  whenM spawn_tun (go (GoClientHandleTun tunnelid)) ;;
  client_check_paths.

Definition client_connect_server (tunnelid : Z) (src ifname gw reason : string) : W unit :=
  w ← getS;
  match w.(g_server_list) !! tunnelid with
  | Some _ => mret tt
  | None => modify (fun w => w <| g_server_list ::= insert tunnelid new_serverType |>)
  end ;;
  lock_server tunnelid ;;
  w ← getS;
  server ← get_server tunnelid;
  let num := client_num_connections_by_src src (sv_conns server) w.(w_sconns) in
  if bool_decide (cfg.(g_mux_max) <= num) then unlock_server tunnelid
  else
    spawn_tun ← client_setup_server tunnelid;
    unlock_server tunnelid ;;
    server ← get_server tunnelid;
    match find_slot (slot_fuel (sv_conns server)) (sv_conns server) (u32 (tunnelid + 10)) tunnelid with
    | None => deadlock
    | Some avail =>
        if bool_decide (avail = u32 (tunnelid + 100)) then mret tt
        else
          '(wan_ip, _) ← get_wan_ip ifname;
          lock_server tunnelid ;;
          l ← client_add_connection tunnelid avail src ifname wan_ip;
          unlock_server tunnelid ;;
          client_start_connection tunnelid l spawn_tun
    end.

(** ** Choosing a connection for a packet *)

(** The loop over [server.connections]: the first connection that is not the
    last one used and is alive, else the last one visited. *)
Fixpoint client_round_robin (tunnelid : Z) (keys : list Z) (some_convid : Z) : W Z :=
  match keys with
  | [] => upd_server tunnelid (setf sv_last_convid (fun _ => some_convid)) ;; mret some_convid
  | convid :: keys' =>
      server ← get_server tunnelid;
      l ← deref "nil *serverConnection" (sv_conns server !! convid);
      server_kcp ← get_sconn l;
      if negb (bool_decide (convid = server.(sv_last_convid))) && server_kcp.(sc_alive) then
        upd_server tunnelid (setf sv_last_convid (fun _ => convid)) ;; mret convid
      else client_round_robin tunnelid keys' convid
  end.

(** [client_choose_kcp_conn]: a nil packet is [None]. *)
Definition client_choose_kcp_conn (packet : option (list Z)) (packet_len tunnelid : Z)
    : W (Z * option string) :=
  match packet, cfg.(g_use_consistent_hashing) with
  | Some frame, true =>
      dst ← lift (ExtractSrc frame packet_len);
      server ← get_server tunnelid;
      r ← deref "nil *consistent.Consistent" server.(sv_consistent);
      match ring_Get r dst with
      | None => mret (0, Some "consitent get failed")
      | Some owner => let '(n, err) := Atoi env_int_bits owner in mret (u32 n, err)
      end
  | _, _ =>
      server ← get_server tunnelid;
      if bool_decide (size (sv_conns server) = 0%nat) then
        mret (0, Some "no connections available")
      else
        keys ← range_keys (sv_conns server);
        convid ← client_round_robin tunnelid keys 0;
        mret (convid, None)
  end.

(** ** Taking connections down *)

Definition client_close_connection (tunnelid : Z) (l : loc) (convid : Z) : W unit :=
  c ← get_sconn l;
  rat_Close c.(sc_session) ;;
  upd_sconn l (setf sc_session (fun _ => None)) ;;
  upd_server tunnelid (setf sv_last_convid (fun _ => 0)) ;;
  s ← get_server tunnelid;
  r ← deref "nil *consistent.Consistent" s.(sv_consistent);
  upd_server tunnelid (setf sv_consistent (fun _ => Some (ring_Remove (fmt_d convid) r))) ;;
  upd_server tunnelid (setf sv_connections (fmap (delete convid))).

Definition client_send_linkdown_message (tunnelid disc_convid : Z) : W unit :=
  '(chose_convid, err) ← client_choose_kcp_conn None 0 tunnelid;
  if negb (bool_decide (err = None)) || bool_decide (chose_convid = 0) then mret tt
  else
    server ← get_server tunnelid;
    match sv_conns server !! chose_convid with
    | None => mret tt
    | Some l =>
        connection ← get_sconn l;
        t ← time_Now;
        rat_SetWriteDeadline connection.(sc_session) (t + Millisecond * g_write_deadline) ;;
        err ← rat_Write connection.(sc_session) (linkdown_message disc_convid);
        match err with
        | Some _ => mret tt
        | None =>
            upd_sconn l (fun c => c <| sc_txcounter ::= (fun n => u64 (n + 1)) |>
              <| sc_txbytes ::= (fun n => u64 (n + 2)) |>)
        end
    end.

(** The common loop of the three disconnect functions: close and report every
    connection that satisfies the test. *)
Definition client_disconnect_where (tunnelid : Z) (test : serverConnection → bool) : W unit :=
  server ← get_server tunnelid;
  keys ← range_keys (sv_conns server);
  for_each keys (fun convid =>
    server ← get_server tunnelid;
    match sv_conns server !! convid with
    | None => mret tt
    | Some l =>
        connection ← get_sconn l;
        whenM (test connection)
          (client_close_connection tunnelid l convid ;;
           client_send_linkdown_message tunnelid convid)
    end).

(** A tunnel that does not exist is reported and left. *)
Definition client_disconnect_session_by_ifname (tunnelid : Z) (ifname : string) : W unit :=
  w ← getS;
  match w.(g_server_list) !! tunnelid with
  | None => mret tt
  | Some _ =>
      lock_server tunnelid ;;
      client_disconnect_where tunnelid (fun c => bool_decide (c.(sc_ifname) = ifname)) ;;
      unlock_server tunnelid
  end.

(** A tunnel that does not exist is only logged: the nil pointer is then
    dereferenced. *)
Definition client_disconnect_session_by_src (tunnelid : Z) (src ifname gw : string) : W unit :=
  lock_server tunnelid ;;
  client_disconnect_where tunnelid (fun c => bool_decide (c.(sc_src_address) = src)) ;;
  unlock_server tunnelid.

Definition client_disconnect_session_by_convid (tunnelid disc_convid : Z) : W unit :=
  lock_server tunnelid ;;
  client_disconnect_where tunnelid (fun c => bool_decide (c.(sc_convid) = disc_convid)) ;;
  unlock_server tunnelid.
End client.
