(* ===== verification/ClientLoops.v ===== *)
(** * The goroutines of the client ([src/main.go])

    Keep-alive pings with the expiry of silent connections, the reader of a KCP
    connection and the reader of the tun interface.  A reader is given by one
    turn of its loop ([None]: the goroutine returns) and by the iteration of
    turns on fuel. *)
From stdpp Require Import base gmap sets list strings.
From Stdlib Require Import ZArith Lia.
From S2P Require Import Prelude GoFloat GoNet Network Ring World Session Wire FlowKey Client.
#[local] Open Scope Z_scope.

(** [(float32(bytes) * (8 / 1000.0 / 1000.0)) / float32(bwdiff)]. *)
Definition bandwidth (bytes : Z) (bwdiff : float) : float :=
  float32_div (float32_mul (float32_of_Z bytes) mbit_factor) (float32_of_float64 bwdiff).

(** The age test of both ping loops, [now.Sub(last_hello).Seconds() > g_max_hello]. *)
Definition hello_expired (now last_hello : Z) : bool :=
  float_gt (Seconds (time_sub now last_hello)) (float64_of_Z g_max_hello).

Section client_loops.
Context {C : Consistent} {E : Env} {P : HeaderParser} (cfg : config).

(** ** Keep-alive *)

Definition client_send_hello (l : loc) (base_convid : Z) : W unit :=
  connection ← get_sconn l;
  t ← time_Now;
  rat_SetWriteDeadline connection.(sc_session) (t + Millisecond * 6000) ;;
  err ← rat_Write connection.(sc_session) g_hello;
  match err with
  | None => mret tt
  | Some e =>
      if bool_decide (e = "timeout") then
        rat_GetState connection.(sc_session) ;;
        upd_sconn l (setf sc_txtimeouts (fun n => u64 (n + 1))) ;;
        client_disconnect_session_by_convid cfg base_convid connection.(sc_convid)
      else mret tt
  end.

(** The bandwidth estimate at the end of a ping. *)
Definition client_update_bandwidth (l : loc) (t1 : Z) : W unit :=
  upd_sconn l (fun c =>
    let bwdiff := Seconds (time_sub t1 c.(sc_last_bw_update)) in
    c <| sc_txbandwidth := bandwidth c.(sc_txbytes) bwdiff |> <| sc_txbytes := 0 |>
      <| sc_rxbandwidth := bandwidth c.(sc_rxbytes) bwdiff |> <| sc_rxbytes := 0 |>
      <| sc_last_bw_update := t1 |>).

(** The body of the inner loop of [client_send_server_pings] for one key. *)
Definition client_ping_connection (tunnelid convid : Z) : W unit :=
  server ← get_server tunnelid;
  match sv_conns server !! convid with
  | None => mret tt
  | Some l =>
      connection ← get_sconn l;
      t1 ← time_Now;
      if hello_expired t1 connection.(sc_last_hello) then
        client_disconnect_session_by_convid cfg server.(sv_base_convid) connection.(sc_convid)
      else
        match connection.(sc_session) with
        | Some _ => go (GoClientSendHello l server.(sv_base_convid))
        | None => mret tt
        end ;;
        client_update_bandwidth l t1
  end.

Definition client_send_server_pings : W unit :=
  w ← getS;
  servers ← range_keys w.(g_server_list);
  for_each servers (fun base_convid =>
    server ← get_server base_convid;
    keys ← range_keys (sv_conns server);
    for_each keys (client_ping_connection base_convid)).

(** ** From KCP to the tun interface *)

(** What a read that succeeded does: counters, and the packet unless it is a
    hello. *)
Definition client_receive (tunnelid : Z) (l : loc) (data : list Z) : W unit :=
  t ← time_Now;
  upd_sconn l (fun c => c <| sc_rxcounter ::= (fun n => u64 (n + 1)) |>
    <| sc_rxbytes ::= (fun n => u64 (n + Z.of_nat (length data))) |>
    <| sc_last_hello := t |>) ;;
  match client_classify data with
  | Hello => t ← time_Now; upd_sconn l (setf sc_last_hello (fun _ => t))
  | _ =>
      server ← get_server tunnelid;
      match server.(sv_iface) with
      | Some tun => emit (EvTunWrite tun data) ;; tick ;; mret tt
      | None => mret tt
      end
  end.

(** One turn of [client_handle_kcp] with the value of its local counter. *)
Definition client_handle_kcp_turn (tunnelid : Z) (l : loc) (rxtimeouts : Z) : W (option Z) :=
  connection ← get_sconn l;
  match connection.(sc_session) with
  | None => mret None
  | Some _ =>
      kcpstate ← rat_GetState connection.(sc_session);
      server ← get_server tunnelid;
      if bool_decide (kcpstate = kcp_dead) then
        client_disconnect_session_by_convid cfg server.(sv_base_convid) connection.(sc_convid) ;;
        mret None
      else
        t ← time_Now;
        rat_SetReadDeadline connection.(sc_session) (t + Millisecond * 5000) ;;
        r ← rat_Read connection.(sc_session);
        match r with
        | inr err =>
            if bool_decide (err = "timeout") then
              upd_sconn l (setf sc_rxtimeouts (fun n => u64 (n + 1))) ;;
              connection ← get_sconn l;
              if bool_decide (g_client_max_rxtimeouts < connection.(sc_rxtimeouts)) ||
                 bool_decide (g_client_max_rxtimeouts < rxtimeouts + 1) then
                client_disconnect_session_by_convid cfg server.(sv_base_convid)
                  connection.(sc_convid) ;;
                mret None
              else mret (Some (rxtimeouts + 1))
            else
              client_disconnect_session_by_convid cfg server.(sv_base_convid)
                connection.(sc_convid) ;;
              mret None
        | inl data => client_receive tunnelid l data ;; mret (Some 0)
        end
  end.

(** [Some n]: still running after the turns allowed, with the local counter. *)
Fixpoint client_handle_kcp (turns : nat) (tunnelid : Z) (l : loc) (rxtimeouts : Z)
    : W (option Z) :=
  match turns with
  | O => mret (Some rxtimeouts)
  | S turns' =>
      r ← client_handle_kcp_turn tunnelid l rxtimeouts;
      match r with
      | None => mret None
      | Some rx => client_handle_kcp turns' tunnelid l rx
      end
  end.

(** ** From the tun interface to KCP *)

(** [iface.Read(packet)]: the bytes read overwrite the front of the buffer. *)
Definition read_into (packet data : list Z) : list Z := data ++ drop (length data) packet.

(** Sending a packet on the connection chosen for it. *)
Definition client_transmit (tunnelid : Z) (l : loc) (data : list Z) : W unit :=
  connection ← get_sconn l;
  t ← time_Now;
  rat_SetWriteDeadline connection.(sc_session) (t + Millisecond * g_write_deadline) ;;
  err ← rat_Write connection.(sc_session) data;
  match err with
  | Some e =>
      if bool_decide (e = "timeout") then
        upd_sconn l (setf sc_txtimeouts (fun n => u64 (n + 1)))
      else
        server ← get_server tunnelid;
        client_disconnect_session_by_convid cfg server.(sv_base_convid) connection.(sc_convid)
  | None =>
      upd_sconn l (fun c => c <| sc_txcounter ::= (fun n => u64 (n + 1)) |>
        <| sc_txbytes ::= (fun n => u64 (n + Z.of_nat (length data))) |>)
  end.

(** One turn of [client_handle_tun] with its packet buffer. *)
Definition client_handle_tun_turn (tunnelid : Z) (packet : list Z) : W (option (list Z)) :=
  server ← get_server tunnelid;
  tun ← deref "nil *water.Interface" server.(sv_iface);
  t ← tick;
  match env_tun_Read t tun with
  | inr _ => mret None
  | inl data =>
      let packet := read_into packet data in
      '(chose_convid, err) ←
        client_choose_kcp_conn cfg (Some packet) (Z.of_nat (length data)) tunnelid;
      if negb (bool_decide (err = None)) || bool_decide (chose_convid = 0) then
        sleep_ms 1000 ;; mret (Some packet)
      else
        lock_server tunnelid ;;
        server ← get_server tunnelid;
        unlock_server tunnelid ;;
        match sv_conns server !! chose_convid with
        | None => mret (Some packet)
        | Some l =>
            connection ← get_sconn l;
            match connection.(sc_session) with
            | None => sleep_ms 100 ;; mret (Some packet)
            | Some _ =>
                kcpstate ← rat_GetState connection.(sc_session);
                if bool_decide (kcpstate = kcp_dead) then
                  client_disconnect_session_by_convid cfg server.(sv_base_convid)
                    connection.(sc_convid) ;;
                  mret (Some packet)
                else client_transmit tunnelid l data ;; mret (Some packet)
            end
        end
  end.

Fixpoint client_tun_loop (turns : nat) (tunnelid : Z) (packet : list Z) : W (option (list Z)) :=
  match turns with
  | O => mret (Some packet)
  | S turns' =>
      r ← client_handle_tun_turn tunnelid packet;
      match r with
      | None => mret None
      | Some packet' => client_tun_loop turns' tunnelid packet'
      end
  end.

(** [client_handle_tun]: without an interface the goroutine returns. *)
Definition client_handle_tun (turns : nat) (tunnelid : Z) : W (option (list Z)) :=
  server ← get_server tunnelid;
  match server.(sv_iface) with
  | None => mret None
  | Some _ => client_tun_loop turns tunnelid (replicate (Z.to_nat 65535) 0)
  end.
End client_loops.
