(* ===== verification/ClientSpec.v ===== *)
(** * What the client promises

    The abstract state of a tunnel is the map of its links: conversation id to
    WAN interface and source address ([links]).  [client_ok] is the
    well-formedness of the client's data: every entry of the connection map is a
    live session of that id, the ring has exactly the ids of the map, no
    connection record is shared.  The operations of [Client] refine operations
    on the links: a disconnect filters them, a connect adds one. *)
From stdpp Require Import base gmap sets list strings.
From Stdlib Require Import ZArith Lia SpecFloat.
From S2P Require Import Prelude GoFloat GoNet Network Ring World Session Wire FlowKey Client.
From S2P Require Import ClientLoops.
#[local] Open Scope Z_scope.

(** ** Well-formedness *)

Section ok.
Context {C : Consistent}.

(** The session of a connection is open. *)
Definition open_session (s : option RatSession) : Prop :=
  ∃ ses kcp, s = Some ses ∧ ses.(s_kcp) = Some kcp.

(** The entry [convid ↦ l] of a connection map. *)
Definition conn_ok (heap : gmap loc serverConnection) (convid : Z) (l : loc) : Prop :=
  ∃ c, heap !! l = Some c ∧ c.(sc_convid) = convid ∧ open_session c.(sc_session).

Record tunnel_ok (heap : gmap loc serverConnection) (tid : Z) (s : serverType) : Prop := {
  ok_conn : map_Forall (conn_ok heap) (sv_conns s);
  ok_keys : map_Forall (λ convid _, 0 < convid < 2 ^ 16) (sv_conns s);
  ok_ring : ∀ conns, s.(sv_connections) = Some conns →
    ∃ r, s.(sv_consistent) = Some r ∧ ring_Members r = ids (dom conns);
  ok_base : is_Some s.(sv_connections) ∨ is_Some s.(sv_iface) → s.(sv_base_convid) = tid
}.

(** No record is listed twice, in one tunnel or in two. *)
Definition unshared (servers : gmap Z serverType) : Prop :=
  ∀ t1 s1 k1 t2 s2 k2 l,
    servers !! t1 = Some s1 → sv_conns s1 !! k1 = Some l →
    servers !! t2 = Some s2 → sv_conns s2 !! k2 = Some l → t1 = t2 ∧ k1 = k2.

Record client_ok (w : world) : Prop := {
  ok_tunnels : map_Forall (tunnel_ok w.(w_sconns)) w.(g_server_list);
  ok_unshared : unshared w.(g_server_list);
  ok_fresh : map_Forall (λ l _, (l < w.(w_next))%nat) w.(w_sconns)
}.

(** ** The abstract state *)

Record link := mkLink { l_ifname : string; l_src : string }.

Definition link_of (c : serverConnection) : link := mkLink c.(sc_ifname) c.(sc_src_address).

(** The links of the tunnel [tid]. *)
Definition links (w : world) (tid : Z) : gmap Z link :=
  match w.(g_server_list) !! tid with
  | Some s => omap (λ l, link_of <$> w.(w_sconns) !! l) (sv_conns s)
  | None => ∅
  end.

(** A tunnel that exists and whose mutex is free. *)
Definition unlocked (w : world) (tid : Z) : Prop :=
  ∃ s, w.(g_server_list) !! tid = Some s ∧ s.(sv_locked) = false.

(** Replacing a tunnel by one with the same connections. *)
Lemma set_server_ok tid s s' w (w' := w <| g_server_list ::= insert tid s' |>) :
  client_ok w → w.(g_server_list) !! tid = Some s → tunnel_ok w.(w_sconns) tid s' →
  sv_conns s' = sv_conns s → client_ok w' ∧ ∀ t, links w' t = links w t.
Proof.
  intros Hok Hs Hs' Hc.
  assert (∀ t st, w'.(g_server_list) !! t = Some st → ∃ st0, w.(g_server_list) !! t = Some st0 ∧
    sv_conns st = sv_conns st0) as Hst.
  { intros t st. simpl. rewrite lookup_insert_Some.
    intros [[<- <-]|[_ ?]]; [exists s|exists st]; done. }
  split.
  - split.
    + intros t st. simpl. rewrite lookup_insert_Some.
      intros [[<- <-]|[_ ?]]; [done|]. by apply (ok_tunnels _ Hok).
    + intros t1 s1 k1 t2 s2 k2 l Ht1 Hk1 Ht2 Hk2.
      destruct (Hst t1 s1 Ht1) as (s1' & ? & Hc1). destruct (Hst t2 s2 Ht2) as (s2' & ? & Hc2).
      rewrite Hc1 in Hk1. rewrite Hc2 in Hk2. by eapply (ok_unshared _ Hok).
    + apply (ok_fresh _ Hok).
  - intros t. unfold links, w'. simpl. destruct (decide (t = tid)) as [->|Hne].
    + by rewrite lookup_insert_eq, Hs, Hc.
    + by rewrite lookup_insert_ne.
Qed.

(** ** Quiet steps: only counters, times and the round robin position change *)

(** A connection without its statistics. *)
Definition conn_core (c : serverConnection) : serverConnection :=
  c <| sc_txcounter := 0 |> <| sc_txbytes := 0 |> <| sc_rxcounter := 0 |> <| sc_rxbytes := 0 |>
    <| sc_rxtimeouts := 0 |> <| sc_txtimeouts := 0 |> <| sc_last_bw_update := 0 |>
    <| sc_txbandwidth := S754_nan |> <| sc_rxbandwidth := S754_nan |> <| sc_last_hello := 0 |>.

Definition server_core (s : serverType) : serverType := s <| sv_last_convid := 0 |>.

Definition quiet (w w' : world) : Prop :=
  server_core <$> w'.(g_server_list) = server_core <$> w.(g_server_list) ∧
  conn_core <$> w'.(w_sconns) = conn_core <$> w.(w_sconns) ∧
  w'.(w_next) = w.(w_next) ∧ w'.(g_client_list) = w.(g_client_list) ∧
  w'.(w_cconns) = w.(w_cconns).

#[global] Instance quiet_preorder : PreOrder quiet.
Proof.
  unfold quiet. split; [by intros w; split_and!|].
  intros w1 w2 w3 (?&?&?&?&?) (?&?&?&?&?). split_and!; congruence.
Qed.

Lemma quiet_server w w' tid s' :
  quiet w w' → w'.(g_server_list) !! tid = Some s' →
  ∃ s, w.(g_server_list) !! tid = Some s ∧ server_core s' = server_core s.
Proof.
  intros (Hs & _) Hl. apply (f_equal (lookup tid)) in Hs. rewrite !lookup_fmap, Hl in Hs.
  destruct (g_server_list w !! tid) as [s|]; [|done]. exists s. split; [done|].
  by apply (inj Some) in Hs.
Qed.

Lemma quiet_conn w w' l c' :
  quiet w w' → w'.(w_sconns) !! l = Some c' →
  ∃ c, w.(w_sconns) !! l = Some c ∧ conn_core c' = conn_core c.
Proof.
  intros (_ & Hs & _) Hl. apply (f_equal (lookup l)) in Hs. rewrite !lookup_fmap, Hl in Hs.
  destruct (w_sconns w !! l) as [s|]; [|done]. exists s. split; [done|].
  by apply (inj Some) in Hs.
Qed.

Lemma quiet_sym w w' : quiet w w' → quiet w' w.
Proof. intros (?&?&?&?&?). unfold quiet. by split_and!. Qed.

Lemma server_core_conns s s' :
  server_core s = server_core s' → sv_conns s = sv_conns s' ∧
  s.(sv_connections) = s'.(sv_connections) ∧ s.(sv_consistent) = s'.(sv_consistent) ∧
  s.(sv_base_convid) = s'.(sv_base_convid) ∧ s.(sv_locked) = s'.(sv_locked) ∧
  s.(sv_iface) = s'.(sv_iface).
Proof. destruct s, s'; simpl. intros [=]. subst. done. Qed.

Lemma conn_core_fields c c' :
  conn_core c = conn_core c' → c.(sc_convid) = c'.(sc_convid) ∧
  c.(sc_session) = c'.(sc_session) ∧ link_of c = link_of c' ∧ c.(sc_alive) = c'.(sc_alive).
Proof. destruct c, c'; simpl. intros [=]. subst. done. Qed.

Lemma quiet_tunnel_ok w w' tid s s' :
  quiet w w' → server_core s' = server_core s →
  tunnel_ok w.(w_sconns) tid s → tunnel_ok w'.(w_sconns) tid s'.
Proof.
  intros Hq Hs [H1 H2 H3 H4].
  apply server_core_conns in Hs as (Hc & Hc' & Hr & Hb & _ & Hi).
  split; rewrite ?Hc, ?Hc', ?Hr, ?Hb, ?Hi; try done.
  intros k l Hl. destruct (H1 k l Hl) as (c & Hcl & Hk & Ho).
  destruct (quiet_conn _ _ l c (quiet_sym _ _ Hq) Hcl) as (c' & Hcl' & Heq).
  apply conn_core_fields in Heq as (Hk' & Hs' & _). exists c'.
  split; [done|]. split; congruence.
Qed.

Lemma quiet_ok w w' : quiet w w' → client_ok w → client_ok w'.
Proof.
  intros Hq [H1 H2 H3]. split.
  - intros tid s' Hs'. destruct (quiet_server _ _ _ _ Hq Hs') as (s & Hs & Heq).
    eapply quiet_tunnel_ok; [done..|]. by apply H1.
  - intros t1 s1 k1 t2 s2 k2 l Ht1 Hk1 Ht2 Hk2.
    destruct (quiet_server _ _ _ _ Hq Ht1) as (s1' & Hs1 & Heq1).
    destruct (quiet_server _ _ _ _ Hq Ht2) as (s2' & Hs2 & Heq2).
    apply server_core_conns in Heq1 as [Heq1 _]. apply server_core_conns in Heq2 as [Heq2 _].
    rewrite Heq1 in Hk1. rewrite Heq2 in Hk2. by eapply H2.
  - intros l c Hl. destruct (quiet_conn _ _ _ _ Hq Hl) as (c' & Hc' & _).
    destruct Hq as (_ & _ & -> & _). by apply (H3 l c').
Qed.

Lemma quiet_links w w' tid : quiet w w' → links w' tid = links w tid.
Proof.
  intros Hq. unfold links.
  destruct (g_server_list w' !! tid) as [s'|] eqn:Hs'.
  - destruct (quiet_server _ _ _ _ Hq Hs') as (s & -> & Heq).
    apply server_core_conns in Heq as [-> _]. apply map_eq. intros k.
    rewrite !lookup_omap. destruct (sv_conns s !! k) as [l|]; [|done]. simpl.
    destruct (w_sconns w' !! l) as [c'|] eqn:Hc'.
    + destruct (quiet_conn _ _ _ _ Hq Hc') as (c & -> & Hc).
      apply conn_core_fields in Hc as (_ & _ & Hl & _). simpl. by rewrite Hl.
    + destruct (w_sconns w !! l) as [c|] eqn:Hc; [|done].
      destruct (quiet_conn _ _ _ _ (quiet_sym _ _ Hq) Hc) as (? & ? & _). congruence.
  - destruct (g_server_list w !! tid) as [s|] eqn:Hs; [|done].
    destruct (quiet_server _ _ _ _ (quiet_sym _ _ Hq) Hs) as (? & ? & _). congruence.
Qed.

Lemma quiet_unlocked w w' tid : quiet w w' → unlocked w tid → unlocked w' tid.
Proof.
  intros Hq (s & Hs & Hl).
  destruct (quiet_server _ _ _ _ (quiet_sym _ _ Hq) Hs) as (s' & Hs' & Heq).
  apply server_core_conns in Heq as (_ & _ & _ & _ & Hlk & _). exists s'. split; congruence.
Qed.
End ok.

#[export] Hint Resolve quiet_ok quiet_unlocked : core.

(** ** Round robin as a function of the visiting order *)

(** The first key that is alive and not [last], else the last key visited. *)
Fixpoint rr_pick (last : Z) (alive : Z → bool) (keys : list Z) (some_convid : Z) : Z :=
  match keys with
  | [] => some_convid
  | k :: keys' =>
      if negb (bool_decide (k = last)) && alive k then k else rr_pick last alive keys' k
  end.

Lemma rr_pick_elem last alive keys d :
  rr_pick last alive keys d ∈ d :: keys ∧ (keys ≠ [] → rr_pick last alive keys d ∈ keys).
Proof.
  revert d. induction keys as [|k keys IH]; intros d; simpl; [set_solver|].
  destruct (negb _ && _); [set_solver|]. destruct (IH k) as [H _]. set_solver.
Qed.

(** An alive key other than the last one is found when there is one. *)
Lemma rr_pick_alive last alive keys d k :
  k ∈ keys → k ≠ last → alive k = true →
  rr_pick last alive keys d ≠ last ∧ alive (rr_pick last alive keys d) = true.
Proof.
  intros Hk Hne Ha. revert d. induction keys as [|k' keys IH]; intros d; [set_solver|]. simpl.
  destruct (negb _ && _) eqn:Hb.
  - apply andb_true_iff in Hb as [Hb Hal]. by rewrite negb_true_iff, bool_decide_eq_false in Hb.
  - apply IH. apply elem_of_cons in Hk as [->|]; [|done].
    by rewrite Ha, bool_decide_eq_false_2 in Hb by done.
Qed.

Section client_spec.
Context {C : Consistent} {CL : ConsistentLaws C} {E : Env} {EL : EnvLaws E} {P : HeaderParser}.
Context (cfg : config).

(** *** Quiet operations *)

Lemma quiet_tick w : preserves (quiet w) tick.
Proof. intros w' H. etrans; [done|]. by unfold quiet. Qed.
Lemma quiet_emit w e : preserves (quiet w) (emit e).
Proof. intros w' H. etrans; [done|]. by unfold quiet. Qed.
Lemma quiet_get_server w tid : preserves (quiet w) (get_server tid).
Proof. unfold get_server. preserve. Qed.
Lemma quiet_get_sconn w l : preserves (quiet w) (get_sconn l).
Proof. unfold get_sconn. preserve. Qed.

Lemma quiet_upd_server w tid f :
  (∀ s, server_core (f s) = server_core s) → preserves (quiet w) (upd_server tid f).
Proof.
  intros Hf w' H. unfold upd_server, get_server, getS, mbind, M_bind.
  destruct (g_server_list w' !! tid) as [s|] eqn:Hs; [|done]. simpl.
  etrans; [done|]. unfold quiet. simpl. split_and!; try done.
  rewrite fmap_insert, Hf. apply insert_id. by rewrite lookup_fmap, Hs.
Qed.
Lemma quiet_upd_sconn w l f :
  (∀ c, conn_core (f c) = conn_core c) → preserves (quiet w) (upd_sconn l f).
Proof.
  intros Hf w' H. unfold upd_sconn, get_sconn, getS, mbind, M_bind.
  destruct (w_sconns w' !! l) as [c|] eqn:Hs; [|done]. simpl.
  etrans; [done|]. unfold quiet. simpl. split_and!; try done.
  rewrite fmap_insert, Hf. apply insert_id. by rewrite lookup_fmap, Hs.
Qed.

#[local] Hint Resolve quiet_tick quiet_emit quiet_get_server quiet_get_sconn : preserves.
#[local] Hint Extern 1 (preserves _ (upd_sconn _ _)) =>
  apply quiet_upd_sconn; intros []; reflexivity : preserves.
#[local] Hint Extern 1 (preserves _ (upd_server _ (setf sv_last_convid _))) =>
  apply quiet_upd_server; intros []; reflexivity : preserves.

Lemma quiet_rat_Write w s b : preserves (quiet w) (rat_Write s b).
Proof. unfold rat_Write. preserve. Qed.
Lemma quiet_rat_SetWriteDeadline w s t : preserves (quiet w) (rat_SetWriteDeadline s t).
Proof. unfold rat_SetWriteDeadline. preserve. Qed.
Lemma quiet_time_Now w : preserves (quiet w) time_Now.
Proof. unfold time_Now. preserve. Qed.
Lemma quiet_range_keys {A} w (m : gmap Z A) : preserves (quiet w) (range_keys m).
Proof. unfold range_keys. preserve. Qed.
Lemma quiet_runthing w p args : preserves (quiet w) (runthing p args).
Proof. unfold runthing. preserve. Qed.
Lemma quiet_set_options w kcp opts : preserves (quiet w) (set_options kcp opts).
Proof. unfold set_options. preserve. Qed.
#[local] Hint Resolve quiet_rat_Write quiet_rat_SetWriteDeadline quiet_time_Now
  quiet_range_keys quiet_runthing quiet_set_options : preserves.

Lemma quiet_round_robin w tid keys d : preserves (quiet w) (client_round_robin tid keys d).
Proof.
  revert d. induction keys as [|k keys IH]; intros d; simpl; preserve.
Qed.
#[local] Hint Resolve quiet_round_robin : preserves.

Lemma quiet_choose w packet n tid :
  preserves (quiet w) (client_choose_kcp_conn cfg packet n tid).
Proof. unfold client_choose_kcp_conn. preserve. Qed.
#[local] Hint Resolve quiet_choose : preserves.

Lemma quiet_linkdown w tid k : preserves (quiet w) (client_send_linkdown_message cfg tid k).
Proof. unfold client_send_linkdown_message. preserve. Qed.

Lemma quiet_setKCPOptions w s : preserves (quiet w) (setKCPOptions s).
Proof. unfold setKCPOptions. preserve. Qed.
Lemma quiet_setClientConnOptions w s : preserves (quiet w) (setClientConnOptions s).
Proof. unfold setClientConnOptions. preserve. Qed.
#[local] Hint Resolve quiet_setKCPOptions quiet_setClientConnOptions : preserves.

Lemma quiet_NewSession w convid addr conn :
  preserves (quiet w) (NewSession cfg convid addr conn).
Proof. unfold NewSession. preserve. Qed.
#[local] Hint Resolve quiet_NewSession : preserves.
Lemma quiet_create_session w convid src : preserves (quiet w) (create_session cfg convid src).
Proof. unfold create_session. preserve. Qed.
Lemma quiet_createTun w tid ip : preserves (quiet w) (createTun cfg tid ip).
Proof. unfold createTun. preserve. Qed.
Lemma quiet_get_wan_ip w iface : preserves (quiet w) (get_wan_ip iface).
Proof. unfold get_wan_ip. preserve. Qed.
Lemma quiet_rat_SetReadBuffer w s n : preserves (quiet w) (rat_SetReadBuffer s n).
Proof. unfold rat_SetReadBuffer. preserve. Qed.
Lemma quiet_rat_SetWriteBuffer w s n : preserves (quiet w) (rat_SetWriteBuffer s n).
Proof. unfold rat_SetWriteBuffer. preserve. Qed.

(** *** Sessions of listed connections are open *)

Lemma listed_conn w tid s k l :
  client_ok w → w.(g_server_list) !! tid = Some s → sv_conns s !! k = Some l →
  ∃ c, w.(w_sconns) !! l = Some c ∧ c.(sc_convid) = k ∧ open_session c.(sc_session).
Proof. intros [H _ _] Hs Hk. exact (ok_conn _ _ _ (H _ _ Hs) _ _ Hk). Qed.

Lemma wp_rat_Write s b (Q : option string → world → Prop) w :
  open_session s →
  (∀ err kcp, Q err (w <| w_trace ::= (fun l => l ++ [EvKcpWrite kcp b]) |> <| w_tick ::= S |>)) →
  wp (rat_Write s b) Q w.
Proof. intros (ses & kcp & -> & Hk) HQ. unfold rat_Write. rewrite Hk. wp_steps. apply HQ. Qed.

Lemma wp_rat_SetWriteDeadline s t (Q : option string → world → Prop) w :
  open_session s →
  (∀ kcp, Q None (w <| w_trace ::= (fun l => l ++ [EvKcpWriteDeadline kcp t]) |>)) →
  wp (rat_SetWriteDeadline s t) Q w.
Proof.
  intros (ses & kcp & -> & Hk) HQ. unfold rat_SetWriteDeadline. rewrite Hk. wp_steps. apply HQ.
Qed.

(** *** Round robin on a well-formed tunnel *)

Definition alive_of (w : world) (s : serverType) (k : Z) : bool :=
  match sv_conns s !! k ≫= (λ l, w.(w_sconns) !! l) with
  | Some c => c.(sc_alive)
  | None => false
  end.

Lemma wp_round_robin tid s keys d (Q : Z → world → Prop) w :
  client_ok w → w.(g_server_list) !! tid = Some s →
  (∀ k, k ∈ keys → is_Some (sv_conns s !! k)) →
  (let p := rr_pick s.(sv_last_convid) (alive_of w s) keys d in
   Q p (w <| g_server_list ::= insert tid (s <| sv_last_convid := p |>) |>)) →
  wp (client_round_robin tid keys d) Q w.
Proof.
  intros Hok Hs. revert d. induction keys as [|k keys IH]; intros d Hkeys HQ; simpl in *.
  - wp_steps. done.
  - destruct (Hkeys k) as [l Hl]; [set_solver|].
    destruct (listed_conn w tid s k l Hok Hs Hl) as (c & Hc & _ & _).
    assert (alive_of w s k = sc_alive c) as Ha by (unfold alive_of; rewrite Hl; simpl; by rewrite Hc).
    rewrite Ha in HQ. wp_steps. eapply wp_deref; [done|]. wp_steps.
    destruct (negb _ && _); [wp_steps; done|]. apply IH; [set_solver|done].
Qed.

(** [client_choose_kcp_conn] without a packet. *)
Lemma wp_choose_rr packet n tid s (Q : Z * option string → world → Prop) w :
  packet = None ∨ cfg.(g_use_consistent_hashing) = false →
  client_ok w → w.(g_server_list) !! tid = Some s →
  (sv_conns s = ∅ → Q (0, Some "no connections available") w) →
  (∀ p, is_Some (sv_conns s !! p) →
    p = rr_pick s.(sv_last_convid) (alive_of w s)
          (env_range w.(w_tick) (map_to_list (sv_conns s)).*1) 0 →
    Q (p, None) (w <| w_tick ::= S |> <| g_server_list ::= insert tid (s <| sv_last_convid := p |>) |>)) →
  wp (client_choose_kcp_conn cfg packet n tid) Q w.
Proof.
  intros Hrr Hok Hs Hempty HQ.
  assert (client_choose_kcp_conn cfg packet n tid = client_choose_kcp_conn cfg None n tid) as ->.
  { unfold client_choose_kcp_conn. by destruct Hrr as [->| ->]; [|destruct packet]. }
  unfold client_choose_kcp_conn. wp_steps. case_bool_decide as Hsize.
  - wp_steps. apply Hempty. by apply map_size_empty_inv.
  - wp_steps. eapply wp_round_robin with (s := s); [by apply (quiet_ok w); [unfold quiet; split_and!|]|done| |].
    + intros k Hk. by apply range_keys_elem in Hk.
    + simpl. wp_steps. apply HQ; [|done]. eapply range_keys_elem, rr_pick_elem.
      intros Hnil. apply Hsize. apply map_size_empty_iff.
      apply map_eq. intros k. rewrite lookup_empty.
      destruct (sv_conns s !! k) eqn:Hk; [|done].
      assert (k ∈ env_range (w_tick w) (map_to_list (sv_conns s)).*1) as Hin
        by by apply range_keys_elem.
      rewrite Hnil in Hin. set_solver.
Qed.

(** The link-down message never panics, whatever the tunnel holds. *)
Lemma wp_linkdown tid k s w :
  client_ok w → w.(g_server_list) !! tid = Some s →
  wp (client_send_linkdown_message cfg tid k) (λ _ w', quiet w w') w.
Proof.
  intros Hok Hs.
  assert (wp (client_send_linkdown_message cfg tid k) (λ _ _, True) w) as Hwp.
  { unfold client_send_linkdown_message. wp_steps.
    eapply wp_choose_rr; [by left|done..| |].
    - intros _. simpl. by wp_steps.
    - intros p [l Hp] _. simpl.
      case_bool_decide; [by wp_steps|]. wp_steps.
             assert (sv_conns (s <| sv_last_convid := p |>) = sv_conns s) as -> by by destruct s.
      rewrite Hp. destruct (listed_conn w tid s p l Hok Hs Hp) as (c & Hc & _ & Ho).
      wp_steps. apply wp_rat_SetWriteDeadline; [done|]. intros kcp. wp_steps.
      apply wp_rat_Write; [done|]. intros err kcp'.
      destruct err; wp_steps; done. }
  eapply wp_mono; [apply (wp_preserves (quiet w)); [apply Hwp|apply quiet_linkdown|done]|].
  by intros ? ? [_ ?].
Qed.
End client_spec.

#[export] Hint Resolve quiet_tick quiet_emit quiet_get_server quiet_get_sconn quiet_rat_Write
  quiet_rat_SetWriteDeadline quiet_time_Now quiet_range_keys quiet_runthing quiet_set_options
  quiet_round_robin quiet_choose quiet_linkdown quiet_setKCPOptions quiet_setClientConnOptions
  quiet_NewSession quiet_create_session quiet_createTun quiet_get_wan_ip
  quiet_rat_SetReadBuffer quiet_rat_SetWriteBuffer : preserves.
#[export] Hint Extern 1 (preserves (quiet _) (upd_sconn _ _)) =>
  apply quiet_upd_sconn; intros []; reflexivity : preserves.
#[export] Hint Extern 1 (preserves (quiet _) (upd_server _ (setf sv_last_convid _))) =>
  apply quiet_upd_server; intros []; reflexivity : preserves.
