(* ===== verification/ClientDisconnect.v ===== *)
(** * Taking links down: refinement of the disconnect functions

    A disconnect function closes the sessions that satisfy its test, removes
    them from the map and the ring, and reports each of them over a connection
    that is left.  On the abstract state it is a filter. *)
From stdpp Require Import base gmap sets list strings.
From Stdlib Require Import ZArith Lia.
From S2P Require Import Prelude GoFloat GoNet Network Ring World Session Wire FlowKey Client.
From S2P Require Import ClientLoops ClientSpec.
#[local] Open Scope Z_scope.

Section disconnect.
Context {C : Consistent} {CL : ConsistentLaws C} {E : Env} {EL : EnvLaws E} {P : HeaderParser}.
Context (cfg : config).

(** *** The closes of a trace *)

Definition closing (e : event) : option event :=
  match e with EvKcpClose _ | EvUdpClose _ => Some e | _ => None end.

(** What [rat_Close] closes of a session: its socket, then its KCP end. *)
Definition close_events (ses : option RatSession) : list event :=
  match ses with
  | None => []
  | Some s =>
      match s.(s_udp_conn) with Some conn => [EvUdpClose conn] | None => [] end ++
      match s.(s_kcp) with Some kcp => [EvKcpClose kcp] | None => [] end
  end.

Lemma closing_events ses : omap closing (close_events ses) = close_events ses.
Proof. by destruct ses as [[? [] ? []]|]. Qed.

(** The state after [client_close_connection]: the session of the record is
    closed and nothing else happens outside. *)
Definition closed (tid k : Z) (l : loc) (s : serverType) (c : serverConnection) (w w' : world)
    : Prop :=
  w'.(g_server_list) = <[tid := s <| sv_last_convid := 0 |>
     <| sv_consistent ::= fmap (ring_Remove (fmt_d k)) |>
     <| sv_connections ::= fmap (delete k) |>]> w.(g_server_list) ∧
  w'.(w_sconns) = <[l := c <| sc_session := None |>]> w.(w_sconns) ∧
  w'.(w_next) = w.(w_next) ∧ w'.(g_client_list) = w.(g_client_list) ∧
  w'.(w_cconns) = w.(w_cconns) ∧
  w'.(w_trace) = w.(w_trace) ++ close_events c.(sc_session).

(** [e] closes the session of a connection of [tid] that satisfies [test], one
    of those passed by [done]. *)
Definition closes_one (tid : Z) (s : serverType) (test : Z → link → bool) (done : Z → Prop)
    (w : world) (e : event) : Prop :=
  ∃ k l c, sv_conns s !! k = Some l ∧ w.(w_sconns) !! l = Some c ∧
    test k (link_of c) = true ∧ done k ∧ e ∈ close_events c.(sc_session).

(** [w'] is [w] after the links of [tid] that satisfy [test] were taken down:
    they are gone, their sessions are nil in the records, and what was closed
    outside are exactly the sessions of those links. *)
Definition taken_down (tid : Z) (test : Z → link → bool) (w w' : world) : Prop :=
  client_ok w' ∧ unlocked w' tid ∧
  links w' tid = filter (λ x, test x.1 x.2 = false) (links w tid) ∧
  (∀ t, t ≠ tid → links w' t = links w t) ∧
  (∀ s k l lk, w.(g_server_list) !! tid = Some s → sv_conns s !! k = Some l →
    links w tid !! k = Some lk → test k lk = true →
    ∃ c, w'.(w_sconns) !! l = Some c ∧ c.(sc_session) = None) ∧
  ∀ s, w.(g_server_list) !! tid = Some s →
    ∃ es, seen closing w' = seen closing w ++ es ∧
      ∀ e, e ∈ es ↔ closes_one tid s test (λ _, True) w e.

(** The invariant of the loop over [keys]: the keys that are left are still to
    be tested. *)
Record disconnecting (tid : Z) (s0 : serverType) (test : Z → link → bool) (w0 : world)
    (keys : list Z) (w : world) : Prop := {
  dis_ok : client_ok w;
  dis_nodup : NoDup keys;
  dis_first : w0.(g_server_list) !! tid = Some s0;
  dis_server : ∃ s, w.(g_server_list) !! tid = Some s;
  dis_links : links w tid =
    filter (λ x, test x.1 x.2 = false ∨ x.1 ∈ keys) (links w0 tid);
  dis_other : ∀ t, t ≠ tid → links w t = links w0 t;
  dis_closed : ∀ k l lk, sv_conns s0 !! k = Some l → links w0 tid !! k = Some lk →
    test k lk = true → k ∉ keys → ∃ c, w.(w_sconns) !! l = Some c ∧ c.(sc_session) = None;
  dis_locs : ∀ s k l, w.(g_server_list) !! tid = Some s → sv_conns s !! k = Some l →
    sv_conns s0 !! k = Some l ∧ conn_core <$> w.(w_sconns) !! l = conn_core <$> w0.(w_sconns) !! l;
  dis_events : ∃ es, seen closing w = seen closing w0 ++ es ∧
    ∀ e, e ∈ es ↔ closes_one tid s0 test (.∉ keys) w0 e
}.

Lemma links_lookup w tid s k :
  w.(g_server_list) !! tid = Some s →
  links w tid !! k = sv_conns s !! k ≫= λ l, link_of <$> w.(w_sconns) !! l.
Proof. intros Hs. unfold links. by rewrite Hs, lookup_omap. Qed.

Lemma wp_close tid k l s c w :
  client_ok w → w.(g_server_list) !! tid = Some s → sv_conns s !! k = Some l →
  w.(w_sconns) !! l = Some c →
  wp (client_close_connection tid l k) (λ _ w', closed tid k l s c w w') w.
Proof.
  intros Hok Hs Hk Hc.
  destruct (listed_conn w tid s k l Hok Hs Hk) as (c' & Hc' & _ & ses & kcp & Hses & Hkcp).
  simplify_eq. unfold client_close_connection. wp_steps.
  unfold rat_Close. rewrite Hses. wp_step.
  assert (∃ conns, sv_connections s = Some conns) as [conns Hconns].
  { unfold sv_conns in Hk. destruct (sv_connections s); [by eexists|done]. }
  destruct (ok_ring _ _ _ (ok_tunnels _ Hok _ _ Hs) conns Hconns) as (r & Hr & _).
  destruct (s_udp_conn ses) eqn:Hudp; wp_step; rewrite Hkcp; wp_steps;
    simpl; rewrite Hr; wp_steps; unfold closed; simpl; rewrite !insert_insert_eq, ?Hses;
    (split_and!; [|done..|unfold close_events; by rewrite Hudp, Hkcp, <- ?app_assoc]);
    f_equal; destruct s; simpl in *; subst; done.
Qed.

Section after_close.
Context (tid k : Z) (l : loc) (s : serverType) (c : serverConnection) (w w' : world).
Context (Hok : client_ok w) (Hs : w.(g_server_list) !! tid = Some s).
Context (Hk : sv_conns s !! k = Some l) (Hc : w.(w_sconns) !! l = Some c).
Context (Hcl : closed tid k l s c w w').

Let s' := s <| sv_last_convid := 0 |> <| sv_consistent ::= fmap (ring_Remove (fmt_d k)) |>
 <| sv_connections ::= fmap (delete k) |>.

Lemma closed_conns : sv_conns s' = delete k (sv_conns s).
Proof.
  unfold sv_conns, s'. simpl. destruct (sv_connections s); simpl; [done|].
  by rewrite delete_empty.
Qed.

Lemma closed_server : w'.(g_server_list) !! tid = Some s'.
Proof. destruct Hcl as (-> & _). apply lookup_insert_eq. Qed.

(** Listed connections of [w'] were listed in [w], and are not [l]. *)
Lemma closed_listed t st k' l' :
  w'.(g_server_list) !! t = Some st → sv_conns st !! k' = Some l' →
  ∃ st0, w.(g_server_list) !! t = Some st0 ∧ sv_conns st0 !! k' = Some l' ∧ l' ≠ l ∧
    (t = tid → k' ≠ k).
Proof.
  destruct Hcl as (Hl & _). rewrite Hl. intros Ht Hk'.
  destruct (decide (t = tid)) as [->|Hne].
  - rewrite lookup_insert_eq in Ht. simplify_eq. fold s' in Hk'. rewrite closed_conns in Hk'.
    apply lookup_delete_Some in Hk' as [Hkk Hk']. exists s. split_and!; [done..| |done].
    intros ->. destruct (ok_unshared _ Hok _ _ _ _ _ _ _ Hs Hk Hs Hk'). done.
  - rewrite lookup_insert_ne in Ht by done. exists st. split_and!; [done..| |done].
    intros ->. destruct (ok_unshared _ Hok _ _ _ _ _ _ _ Hs Hk Ht Hk'). done.
Qed.

Lemma closed_heap l' : l' ≠ l → w'.(w_sconns) !! l' = w.(w_sconns) !! l'.
Proof. intros Hne. destruct Hcl as (_ & -> & _). by rewrite lookup_insert_ne. Qed.

Lemma closed_session : ∃ c', w'.(w_sconns) !! l = Some c' ∧ c'.(sc_session) = None.
Proof. destruct Hcl as (_ & -> & _). eexists. by rewrite lookup_insert_eq. Qed.

Lemma closed_ok : client_ok w'.
Proof.
  split.
  - intros t st Ht. split.
    + intros k' l' Hk'. destruct (closed_listed t st k' l' Ht Hk') as (st0 & Ht0 & Hk0 & Hne & _).
      destruct (ok_conn _ _ _ (ok_tunnels _ Hok _ _ Ht0) _ _ Hk0) as (c0 & Hc0 & ?).
      exists c0. by rewrite closed_heap.
    + intros k' l' Hk'. destruct (closed_listed t st k' l' Ht Hk') as (st0 & Ht0 & Hk0 & _).
      by apply (ok_keys _ _ _ (ok_tunnels _ Hok _ _ Ht0) _ _ Hk0).
    + destruct (decide (t = tid)) as [->|Hne].
      * rewrite closed_server in Ht. simplify_eq. simpl. intros conns Hconns.
        destruct (sv_connections s) as [m|] eqn:Hm; [|done]. simpl in Hconns. simplify_eq.
        destruct (ok_ring _ _ _ (ok_tunnels _ Hok _ _ Hs) m Hm) as (r & Hr & Hmem).
        rewrite Hr. simpl. eexists. split; [done|].
        by rewrite Members_Remove, Hmem, dom_delete_L, ids_delete.
      * destruct Hcl as (Hl & _). rewrite Hl, lookup_insert_ne in Ht by done.
        apply (ok_ring _ _ _ (ok_tunnels _ Hok _ _ Ht)).
    + destruct (decide (t = tid)) as [->|Hne].
      * rewrite closed_server in Ht. simplify_eq. simpl. rewrite fmap_is_Some.
        apply (ok_base _ _ _ (ok_tunnels _ Hok _ _ Hs)).
      * destruct Hcl as (Hl & _). rewrite Hl, lookup_insert_ne in Ht by done.
        apply (ok_base _ _ _ (ok_tunnels _ Hok _ _ Ht)).
  - intros t1 s1 k1 t2 s2 k2 l' Ht1 Hk1 Ht2 Hk2.
    destruct (closed_listed _ _ _ _ Ht1 Hk1) as (? & ? & ? & _).
    destruct (closed_listed _ _ _ _ Ht2 Hk2) as (? & ? & ? & _).
    by eapply (ok_unshared _ Hok).
  - destruct Hcl as (_ & -> & -> & _). intros l' c'. rewrite lookup_insert_Some.
    intros [[<- _]|[_ Hl']]; [by apply (ok_fresh _ Hok l c)|by apply (ok_fresh _ Hok l' c')].
Qed.

Lemma closed_links : links w' tid = delete k (links w tid).
Proof.
  apply map_eq. intros k'. rewrite (links_lookup w' tid s') by apply closed_server.
  rewrite closed_conns. destruct (decide (k' = k)) as [->|Hne].
  - by rewrite !lookup_delete_eq.
  - rewrite !lookup_delete_ne, (links_lookup w tid s) by done.
    destruct (sv_conns s !! k') as [l'|] eqn:Hk'; [|done]. simpl.
    rewrite closed_heap; [done|].
    intros ->. by destruct (ok_unshared _ Hok _ _ _ _ _ _ _ Hs Hk Hs Hk').
Qed.

Lemma closed_links_other t : t ≠ tid → links w' t = links w t.
Proof.
  intros Hne. unfold links. destruct Hcl as (Hl & _). rewrite Hl, lookup_insert_ne by done.
  destruct (g_server_list w !! t) as [st|] eqn:Ht; [|done].
  apply map_eq. intros k'. rewrite !lookup_omap.
  destruct (sv_conns st !! k') as [l'|] eqn:Hk'; [|done]. simpl. rewrite closed_heap; [done|].
  intros ->. by destruct (ok_unshared _ Hok _ _ _ _ _ _ _ Hs Hk Ht Hk').
Qed.
End after_close.

(** A listed connection and its link. *)
Lemma listed_link w tid s k l c :
  w.(g_server_list) !! tid = Some s → sv_conns s !! k = Some l → w.(w_sconns) !! l = Some c →
  links w tid !! k = Some (link_of c).
Proof. intros Hs Hk Hc. rewrite (links_lookup w tid s) by done. rewrite Hk. simpl. by rewrite Hc. Qed.

Lemma unlisted_link w tid s k :
  w.(g_server_list) !! tid = Some s → sv_conns s !! k = None → links w tid !! k = None.
Proof. intros Hs Hk. rewrite (links_lookup w tid s) by done. by rewrite Hk. Qed.

Lemma quiet_disconnecting tid s0 test w0 keys w w' :
  quiet w w' → seen closing w' = seen closing w →
  disconnecting tid s0 test w0 keys w → disconnecting tid s0 test w0 keys w'.
Proof.
  intros Hq Hseen [H1 H2 H3 [s Hs] H4 H5 H6 H7 H8]. split.
  - by eapply quiet_ok.
  - done.
  - done.
  - destruct (quiet_server _ _ _ _ (quiet_sym _ _ Hq) Hs) as (s' & ? & _). eauto.
  - by rewrite (quiet_links _ _ _ Hq).
  - intros t Ht. rewrite (quiet_links _ _ _ Hq). by apply H5.
  - intros k l lk Hk Hlk Ht Hnk. destruct (H6 k l lk Hk Hlk Ht Hnk) as (c & Hc & Hses).
    destruct (quiet_conn _ _ _ _ (quiet_sym _ _ Hq) Hc) as (c' & Hc' & Heq).
    apply conn_core_fields in Heq as (_ & Hses' & _). exists c'. split; congruence.
  - intros s' k l Hs' Hk. destruct (quiet_server _ _ _ _ Hq Hs') as (s1 & Hs1 & Heq).
    apply server_core_conns in Heq as [Heq _]. rewrite Heq in Hk.
    destruct (H7 _ _ _ Hs1 Hk) as [? <-]. split; [done|].
    destruct Hq as (_ & Hc & _). apply (f_equal (lookup l)) in Hc. by rewrite !lookup_fmap in Hc.
  - by rewrite Hseen.
Qed.

(** A key that fails the test, or is no longer listed, is passed over. *)
Lemma disconnecting_skip tid s0 test w0 k keys w :
  disconnecting tid s0 test w0 (k :: keys) w →
  (∀ lk, links w tid !! k = Some lk → test k lk = false) →
  disconnecting tid s0 test w0 keys w.
Proof.
  intros [H1 H2 H0 H3 H4 H5 H6 H7 H8] Hk. apply NoDup_cons in H2 as [Hnk Hnd].
  assert (∀ lk, links w0 tid !! k = Some lk → test k lk = false) as Hk0.
  { intros lk Hlk. apply Hk. rewrite H4. apply map_lookup_filter_Some. simpl.
    split; [done|]. right. set_solver. }
  split; try done.
  - rewrite H4. apply map_filter_ext. intros k' lk Hlk. simpl. rewrite elem_of_cons.
    split; [|tauto]. intros [?|[->|?]]; [tauto| |tauto]. left. by apply Hk0.
  - intros k' l lk Hk' Hlk Ht Hnot. eapply H6; [done..|].
    intros [->|?]%elem_of_cons; [|done]. by rewrite (Hk0 lk Hlk) in Ht.
  - destruct H8 as (es & Hes & Hiff). exists es. split; [done|]. intros e. rewrite Hiff.
    split; intros (k' & l & c & Hk' & Hc & Ht & Hnot & He); exists k', l, c; split_and!; try done;
      [set_solver|]. intros [->|?]%elem_of_cons; [|done].
    by rewrite (Hk0 (link_of c)) in Ht by by eapply listed_link.
Qed.

(** The events of closing one more key. *)
Lemma closed_events tid s0 test w0 k keys w w' l s c :
  closed tid k l s c w w' → k ∉ keys → sv_conns s0 !! k = Some l →
  conn_core <$> w.(w_sconns) !! l = conn_core <$> w0.(w_sconns) !! l →
  w.(w_sconns) !! l = Some c → test k (link_of c) = true →
  (∃ es, seen closing w = seen closing w0 ++ es ∧
    ∀ e, e ∈ es ↔ closes_one tid s0 test (.∉ k :: keys) w0 e) →
  ∃ es, seen closing w' = seen closing w0 ++ es ∧
    ∀ e, e ∈ es ↔ closes_one tid s0 test (.∉ keys) w0 e.
Proof.
  intros (_ & _ & _ & _ & _ & Htr) Hnk Hk0 Hcore Hc Ht (es & Hes & Hiff).
  rewrite Hc in Hcore. destruct (w_sconns w0 !! l) as [c0|] eqn:Hc0; [|done].
  apply (inj Some), conn_core_fields in Hcore as (_ & Hses & Hlk & _).
  exists (es ++ close_events c.(sc_session)). split.
  { by rewrite (seen_trace closing w w' _ Htr), closing_events, Hes, app_assoc. }
  intros e. rewrite elem_of_app, Hiff, Hses. split.
  - intros [(k' & l' & c' & Hk' & Hc' & Ht' & Hnot & He)|He].
    + exists k', l', c'. split_and!; [done..|set_solver|done].
    + exists k, l, c0. rewrite <- Hlk. by split_and!.
  - intros (k' & l' & c' & Hk' & Hc' & Ht' & Hnot & He).
    destruct (decide (k' = k)) as [->|Hne]; [right|left; exists k', l', c'; set_solver].
    by assert (c' = c0) as -> by congruence.
Qed.

(** A key that satisfies the test is closed. *)
Lemma disconnecting_close tid s0 test w0 k keys w w' l s c :
  disconnecting tid s0 test w0 (k :: keys) w →
  w.(g_server_list) !! tid = Some s → sv_conns s !! k = Some l → w.(w_sconns) !! l = Some c →
  test k (link_of c) = true → closed tid k l s c w w' →
  disconnecting tid s0 test w0 keys w'.
Proof.
  intros [H1 H2 H0 H3 H4 H5 H6 H7 H8] Hs Hk Hc Ht Hcl. apply NoDup_cons in H2 as [Hnk Hnd].
  split.
  - by eapply closed_ok.
  - done.
  - done.
  - eexists. by eapply closed_server.
  - rewrite (closed_links tid k l s c w w') by done. rewrite H4.
    apply map_eq. intros k'. apply option_eq. intros lk.
    rewrite lookup_delete_Some, !map_lookup_filter_Some. simpl. rewrite elem_of_cons.
    split; [naive_solver|]. intros [Hlk Hor]. split; [|naive_solver].
    intros <-. destruct Hor as [Hf|?]; [|done].
    pose proof (listed_link w tid s k l c Hs Hk Hc) as Hl. rewrite H4 in Hl.
    apply map_lookup_filter_Some in Hl as [Hl _]. congruence.
  - intros t Hne. rewrite (closed_links_other tid k l s c w w') by done. by apply H5.
  - intros k' l' lk Hk' Hlk Ht' Hnot. destruct (decide (l' = l)) as [->|Hne].
    + by eapply closed_session.
    + rewrite (closed_heap tid k l s c w w') by done. eapply H6; [done..|].
      intros [->|?]%elem_of_cons; [|done].
      destruct (H7 s k l Hs Hk) as [? _]. congruence.
  - intros st k' l' Hst Hk'.
    destruct (closed_listed tid k l s c w w' H1 Hs Hk Hcl tid st k' l' Hst Hk')
      as (st0 & Hst0 & Hk0 & Hne & _). destruct (H7 _ _ _ Hst0 Hk0) as [? <-].
    by rewrite (closed_heap tid k l s c w w' Hcl l' Hne).
  - destruct (H7 s k l Hs Hk) as [Hk0 Hcore]. eapply closed_events; eauto.
Qed.

(** The start of the loop. *)
Lemma disconnecting_start tid s test w :
  client_ok w → w.(g_server_list) !! tid = Some s →
  disconnecting tid s test w (env_range w.(w_tick) (map_to_list (sv_conns s)).*1) (w <| w_tick ::= S |>).
Proof.
  intros Hok Hs. apply (quiet_disconnecting _ _ _ _ _ w); [by unfold quiet; split_and!|done|].
  split; try done.
  + apply range_keys_NoDup.
  + eauto.
  + symmetry. apply map_filter_id. intros k lk Hlk. right. simpl.
    apply range_keys_elem. destruct (sv_conns s !! k) eqn:Hk; [by eexists|].
    by rewrite (unlisted_link w tid s k) in Hlk by done.
  + intros k l lk Hk _ _ Hnot. destruct Hnot. apply range_keys_elem. by eexists.
  + intros s' k l Hs' Hk. by simplify_eq.
  + exists []. rewrite app_nil_r. split; [done|]. intros e. split; [by intros ?%elem_of_nil|].
    intros (k & l & c & Hk & _ & _ & Hnot & _). destruct Hnot. apply range_keys_elem. by eexists.
Qed.

(** A report closes nothing. *)
Lemma sees_rat_Write es s b : preserves (sees closing es) (rat_Write s b).
Proof. unfold rat_Write. preserve. Qed.
Lemma sees_rat_SetWriteDeadline es s t : preserves (sees closing es) (rat_SetWriteDeadline s t).
Proof. unfold rat_SetWriteDeadline. preserve. Qed.
Lemma sees_round_robin {B} (view : event → option B) es tid keys d :
  preserves (sees view es) (client_round_robin tid keys d).
Proof. revert d. induction keys as [|k keys IH]; intros d; simpl; preserve. Qed.
#[local] Hint Resolve sees_rat_Write sees_rat_SetWriteDeadline sees_round_robin : preserves.
Lemma sees_linkdown es tid k : preserves (sees closing es) (client_send_linkdown_message cfg tid k).
Proof. unfold client_send_linkdown_message, client_choose_kcp_conn. preserve. Qed.

Lemma wp_linkdown_closes_none tid k s w :
  client_ok w → w.(g_server_list) !! tid = Some s →
  wp (client_send_linkdown_message cfg tid k)
    (λ _ w', quiet w w' ∧ seen closing w' = seen closing w) w.
Proof.
  intros Hok Hs. eapply wp_preserves; [by eapply wp_linkdown|apply sees_linkdown|done].
Qed.

(** The loop. *)
Lemma wp_disconnect_where tid ctest test s w :
  (∀ c, ctest c = test c.(sc_convid) (link_of c)) →
  client_ok w → w.(g_server_list) !! tid = Some s →
  wp (client_disconnect_where cfg tid ctest) (λ _, disconnecting tid s test w []) w.
Proof.
  intros Htest Hok Hs. unfold client_disconnect_where. wp_steps.
  apply (wp_for_each _ _ (disconnecting tid s test w)).
  - clear Hok. intros k keys w1 HJ. pose proof (dis_ok _ _ _ _ _ _ HJ) as Hok1.
    destruct (dis_server _ _ _ _ _ _ HJ) as [s1 Hs1]. wp_steps.
    destruct (sv_conns s1 !! k) as [l|] eqn:Hk.
    + destruct (listed_conn w1 tid s1 k l Hok1 Hs1 Hk) as (c & Hc & Hck & Ho).
      wp_steps. rewrite Htest, Hck. apply wp_whenM; intros Ht.
      * wp_step. eapply wp_mono; [by apply wp_close|]. intros [] w2 Hcl. simpl in Hcl.
        assert (disconnecting tid s test w keys w2) as HJ2 by by eapply disconnecting_close.
        eapply wp_mono; [eapply wp_linkdown_closes_none;
          [exact (dis_ok _ _ _ _ _ _ HJ2)|by eapply closed_server]|].
        intros [] w3 [Hq Hseen]. by eapply quiet_disconnecting.
      * eapply disconnecting_skip; [done|]. intros lk Hlk.
        rewrite (listed_link w1 tid s1 k l c) in Hlk by done. by simplify_eq.
    + wp_steps. eapply disconnecting_skip; [done|].
      intros lk Hlk. by rewrite (unlisted_link w1 tid s1 k) in Hlk by done.
  - by apply disconnecting_start.
Qed.

(** Taking or releasing the mutex changes nothing else. *)
Lemma relock tid s b w (w' := w <| g_server_list ::= insert tid (s <| sv_locked := b |>) |>) :
  client_ok w → w.(g_server_list) !! tid = Some s →
  client_ok w' ∧ ∀ t, links w' t = links w t.
Proof.
  intros Hok Hs. apply (set_server_ok tid s); [done..| |done].
  by destruct (ok_tunnels _ Hok _ _ Hs).
Qed.

(** Lock, loop, unlock. *)
Lemma wp_disconnect tid ctest test w :
  (∀ c, ctest c = test c.(sc_convid) (link_of c)) →
  client_ok w → unlocked w tid →
  wp (lock_server tid ;; client_disconnect_where cfg tid ctest ;; unlock_server tid)
    (λ _ w', taken_down tid test w w') w.
Proof.
  intros Htest Hok (s & Hs & Hl). wp_step. eapply wp_lock_server; [done..|].
  destruct (relock tid s true w Hok Hs) as [Hok1 Hlk1].
  wp_step. eapply wp_mono; [by eapply wp_disconnect_where; [..|simpl; by rewrite lookup_insert_eq]|].
  intros [] w2 [H1 _ _ [s2 Hs2] H4 H5 H6 _ H8].
  eapply wp_unlock_server; [done|].
  destruct (relock tid s2 false w2 H1 Hs2) as [Hok3 Hlk3].
  unfold taken_down. split_and!; [done| | | | |].
  - eexists. simpl. by rewrite lookup_insert_eq.
  - rewrite Hlk3, H4, Hlk1. apply map_filter_ext. intros k lk _. simpl. set_solver.
  - intros t Ht. by rewrite Hlk3, H5, Hlk1 by done.
  - intros s' k l lk Hs' Hk Hlk Ht. simplify_eq. apply (H6 k l lk); [done| |done|set_solver].
    by rewrite Hlk1.
  - intros s' Hs'. assert (s' = s) as -> by congruence.
    destruct H8 as (es & Hes & Hiff). exists es. split; [exact Hes|]. intros e. rewrite Hiff.
    split; intros (k & l & c & Hk & Hc & Ht & _ & He); exists k, l, c; split_and!;
      first [done|set_solver].
Qed.
End disconnect.
