(* ===== verification/ClientConnect.v ===== *)
(** * Bringing a link up: refinement of [client_connect_server]

    A call that returns either finds enough connections from its source address
    and changes nothing, or adds one link on the id it found free; the
    well-formedness of the client's data is kept in both cases. *)
From stdpp Require Import base gmap sets list strings.
From Stdlib Require Import ZArith Lia.
From S2P Require Import Prelude GoFloat GoNet Network Ring World Session Wire FlowKey Client.
From S2P Require Import ClientLoops ClientSpec ClientDisconnect.
#[local] Open Scope Z_scope.

(** Number of links from the source address [src]. *)
Definition links_by_src (src : string) (m : gmap Z link) : Z :=
  Z.of_nat (size (filter (λ x, x.2.(l_src) = src) m)).

(** *** The search for a free conversation id *)

Lemma find_slot_step n conns limit a :
  find_slot (S n) conns limit a =
    if bool_decide (a <= limit) then
      match conns !! a with None => Some a | Some _ => find_slot n conns limit (u32 (a + 1)) end
    else Some a.
Proof. done. Qed.

(** A search that has not ended after [n] steps went through [n] keys. *)
Lemma find_slot_None n conns limit a :
  0 <= a < 2 ^ 32 → find_slot n conns limit a = None →
  ∀ i, 0 <= i < Z.of_nat n → is_Some (conns !! u32 (a + i)).
Proof.
  revert a. induction n as [|n IH]; intros a Ha Hf i Hi; [lia|].
  rewrite find_slot_step in Hf. case_bool_decide; [|done].
  destruct (conns !! a) eqn:Hl; [|done].
  destruct (decide (i = 0)) as [->|Hne].
  - rewrite Z.add_0_r, u32_small by done. by eexists.
  - specialize (IH _ (u32_range _) Hf (i - 1) ltac:(lia)).
    assert (u32 (u32 (a + 1) + (i - 1)) = u32 (a + i)) as <-; [|done].
    unfold u32. rewrite Zplus_mod_idemp_l. f_equal. lia.
Qed.

(** Distinct offsets below 2^32 give distinct ids. *)
Lemma u32_offset_inj a i j :
  0 <= i < 2 ^ 32 → 0 <= j < 2 ^ 32 → u32 (a + i) = u32 (a + j) → i = j.
Proof.
  unfold u32. intros Hi Hj H.
  pose proof (Z.div_mod (a + i) (2 ^ 32)). pose proof (Z.div_mod (a + j) (2 ^ 32)). nia.
Qed.

(** Keys at [n] consecutive ids make a map of at least [n] entries. *)
Lemma consecutive_size {A} (m : gmap Z A) a n :
  Z.of_nat n <= 2 ^ 32 → (∀ i, 0 <= i < Z.of_nat n → is_Some (m !! u32 (a + i))) →
  (n <= size m)%nat.
Proof.
  intros Hn H. set (ks := (λ i : nat, u32 (a + Z.of_nat i)) <$> seq 0 n).
  assert (NoDup ks) as Hnd.
  { apply NoDup_fmap_2_strong; [|apply NoDup_seq].
    intros i j Hi Hj Heq. apply elem_of_seq in Hi, Hj.
    apply u32_offset_inj in Heq; lia. }
  assert (list_to_set ks ⊆@{gset Z} dom m) as Hsub.
  { intros k. unfold ks. rewrite elem_of_list_to_set, list_elem_of_fmap, elem_of_dom.
    intros (i & -> & Hi%elem_of_seq). apply H. lia. }
  apply subseteq_size in Hsub. rewrite size_list_to_set, size_dom in Hsub by done.
  unfold ks in Hsub. by rewrite length_fmap, length_seq in Hsub.
Qed.

Lemma find_slot_total conns limit a n :
  0 <= a < 2 ^ 32 → Z.of_nat (size conns) < 2 ^ 32 → (size conns < n)%nat →
  is_Some (find_slot n conns limit a).
Proof.
  intros Ha Hsize Hn. destruct (find_slot n conns limit a) eqn:Hf; [by eexists|exfalso].
  assert (S (size conns) <= size conns)%nat; [|lia].
  apply (consecutive_size conns a); [lia|]. intros i Hi.
  eapply find_slot_None; [done..|lia].
Qed.

(** Up to the last id of the range, the search returns the first one that is
    free; past the range, the id after it. *)
Lemma find_slot_first n conns limit a :
  0 <= a <= limit + 1 → limit + 1 < 2 ^ 32 → limit + 2 - a <= Z.of_nat n →
  ∃ avail, find_slot n conns limit a = Some avail ∧ a <= avail <= limit + 1 ∧
    (∀ k, a <= k < avail → is_Some (conns !! k)) ∧ (avail <= limit → conns !! avail = None).
Proof.
  revert a. induction n as [|n IH]; intros a Ha Hl Hn; [lia|].
  rewrite find_slot_step. case_bool_decide.
  - destruct (conns !! a) eqn:Hc.
    + rewrite u32_small by lia.
      destruct (IH (a + 1)) as (v & -> & Hv & Hused & Hfree); [lia..|].
      exists v. split_and!; [done|lia|lia| |done]. intros k Hk.
      destruct (decide (k = a)) as [->|]; [by eexists|]. apply Hused. lia.
    + exists a. split_and!; [done|lia|lia|intros; lia|done].
  - exists a. split_and!; [done|lia|lia|intros; lia|intros; lia].
Qed.

Section connect.
Context {C : Consistent} {CL : ConsistentLaws C} {E : Env} {EL : EnvLaws E} {P : HeaderParser}.
Context (cfg : config).

(** [client_num_connections_by_src] counts the links from [src]. *)
Lemma num_connections_links src (conns : gmap Z loc) (heap : gmap loc serverConnection) :
  client_num_connections_by_src src conns heap =
    links_by_src src (omap (λ l, link_of <$> heap !! l) conns).
Proof.
  unfold client_num_connections_by_src, links_by_src.
  induction conns as [|k l conns Hk IH] using map_ind; [done|].
  set (f := λ l cnt, match heap !! l with
    | Some c => if bool_decide (sc_src_address c = src) then cnt + 1 else cnt
    | None => cnt end) in *.
  assert (foldr f 0 (map_to_list (<[k:=l]> conns)).*2 = foldr f 0 (l :: (map_to_list conns).*2)) as ->.
  { apply (foldr_permutation_proper eq f).
    - intros x y ? ->. done.
    - intros x y z. unfold f. repeat case_match; lia.
    - by rewrite map_to_list_insert. }
  simpl. rewrite IH. unfold f at 1. rewrite omap_insert.
  assert (omap (λ l, link_of <$> heap !! l) conns !! k = None) as Hnone
    by by rewrite lookup_omap, Hk.
  destruct (heap !! l) as [c|] eqn:Hl; simpl; [|by rewrite delete_id].
  case_bool_decide as Hsrc.
  - rewrite map_filter_insert_True by done.
    rewrite map_size_insert_None; [lia|]. apply map_lookup_filter_None. left. done.
  - by rewrite map_filter_insert_not' by naive_solver.
Qed.

(** *** Setting a tunnel up *)

Lemma set_set_server tid s1 s2 w :
  w <| g_server_list ::= insert tid s1 |> <| g_server_list ::= insert tid s2 |> =
  w <| g_server_list ::= insert tid s2 |>.
Proof. unfold setf. simpl. by rewrite insert_insert_eq. Qed.

Lemma wlp_quiet {A} (m : W A) w : (∀ w0, preserves (quiet w0) m) → wlp m (λ _ w', quiet w w') w.
Proof. intros H. by apply wlp_preserves. Qed.

(** [w'] has the links of [w], and the connection map of [tid] is not nil. *)
Definition set_up (tid : Z) (s : serverType) (w w' : world) : Prop :=
  client_ok w' ∧ (∀ t, links w' t = links w t) ∧
  ∃ s', w'.(g_server_list) !! tid = Some s' ∧ sv_conns s' = sv_conns s ∧
    s'.(sv_locked) = s.(sv_locked) ∧ is_Some s'.(sv_connections).

Lemma wlp_client_setup_server tid s w :
  client_ok w → w.(g_server_list) !! tid = Some s →
  wlp (client_setup_server cfg tid) (λ _ w', set_up tid s w w') w.
Proof.
  intros Hok Hs. unfold client_setup_server. wlp_step. wlp_step. wlp_step.
  eapply (wlp_mono _ (λ _ w1, client_ok w1 ∧ (∀ t, links w1 t = links w t) ∧
    ∃ s1, w1.(g_server_list) !! tid = Some s1 ∧ s1.(sv_connections) = s.(sv_connections) ∧
      s1.(sv_locked) = s.(sv_locked) ∧ s1.(sv_base_convid) = tid)).
  - destruct (sv_iface s) as [h|] eqn:Hi.
    + wlp_steps. split_and!; [done..|]. exists s. split_and!; [done..|].
      apply (ok_base _ _ _ (ok_tunnels _ Hok _ _ Hs)). rewrite Hi. eauto.
    + wlp_step. eapply wlp_mono; [apply wlp_quiet; eauto with preserves|].
      intros [iface err] w1 Hq. pose proof (quiet_ok _ _ Hq Hok) as Hok1.
      wlp_steps. simpl in *. simplify_map_eq.
      destruct (quiet_server _ _ _ _ Hq ltac:(eassumption)) as (s1 & Hs1 & Hcore).
      apply server_core_conns in Hcore as (Hc & Hc' & Hr & Hb & Hl & _). simplify_eq.
      rewrite set_set_server.
      match goal with |- context [insert tid ?x] => set (s2 := x) end.
      destruct (set_server_ok tid s0 s2 w1 Hok1) as [Hok2 Hlk2];
        [done| |by unfold s2; destruct s0|].
      { by destruct (ok_tunnels _ Hok1 tid s0) as [H1 H2 H3 _]; [|split]. }
      split_and!; [done| |].
      * intros t. rewrite Hlk2. by eapply quiet_links.
      * exists s2. by split_and!.
  - intros spawn w1 (Hok1 & Hlk1 & s1 & Hs1 & Hc1 & Hl1 & Hb1). wlp_steps.
    destruct (sv_connections s1) as [conns|] eqn:Hconns.
    + wlp_steps. split_and!; [done..|]. exists s1. unfold sv_conns. rewrite <- Hc1, Hconns.
      by split_and!.
    + wlp_steps.
      match goal with |- context [insert _ ?x] => set (s2 := x) end.
      destruct (set_server_ok tid s1 s2 w1 Hok1) as [Hok2 Hlk2]; [done| | |].
      { split; [by intros ? ?|by intros ? ?| |done].
        intros conns [= <-]. eexists. split; [done|].
        by rewrite Members_New, dom_empty_L, ids_empty. }
      { unfold sv_conns. by rewrite Hconns. }
      split_and!; [done|intros t; by rewrite Hlk2|].
      exists s2. unfold sv_conns. rewrite <- Hc1. split_and!; [|done..|by eexists].
      simpl. by rewrite lookup_insert_eq.
Qed.

(** *** A new connection *)

Lemma wlp_create_session convid src w :
  0 <= convid →
  wlp (create_session cfg convid src)
    (λ r w', quiet w w' ∧ (r.2 = None → open_session r.1 ∧ convid <= 65535)) w.
Proof.
  intros Hc. eapply wlp_mono.
  - apply (wlp_and _ (λ _ w', quiet w w') (λ r _, r.2 = None → open_session r.1 ∧ convid <= 65535)).
    + apply wlp_quiet. eauto with preserves.
    + unfold create_session. wlp_steps. case_match; [|by wlp_steps]. wlp_steps.
      destruct (ResolveUDPAddr _ (src +:+ _)) as [[ip port]|] eqn:Hr; [|by wlp_steps].
      apply ResolveUDPAddr_port in Hr as [_ Hport]; [|done].
      wlp_steps. destruct (env_ListenUDP _ _) as [conn|]; [|by wlp_steps].
      wlp_step. unfold NewSession. case_bool_decide; [by wlp_steps|]. wlp_steps.
      destruct (env_kcp_NewConn _ _ _ _ _ _ _) as [kcp|]; wlp_steps; [|done].
      eapply wlp_mono; [by apply wlp_true|]. intros [] w1 _. wlp_steps.
      eapply wlp_mono; [by apply wlp_true|]. intros [] w2 _. wlp_steps.
      simplify_eq. intros _. split; [|done]. by eexists _, _.
  - intros r w' [H1 H2]. done.
Qed.

(** [w'] is [w] with a link [lk] on the id [k] of the tunnel [tid]. *)
Definition link_added (tid k : Z) (lk : link) (w w' : world) : Prop :=
  client_ok w' ∧ links w' tid = <[k := lk]> (links w tid) ∧
  (∀ t, t ≠ tid → links w' t = links w t).

Section added.
Context (tid k : Z) (s : serverType) (conns : gmap Z loc) (r : ring) (c : serverConnection).
Context (w : world) (Hok : client_ok w) (Hs : w.(g_server_list) !! tid = Some s).
Context (Hconns : s.(sv_connections) = Some conns) (Hr : s.(sv_consistent) = Some r).
Context (Hk : 0 < k < 2 ^ 16) (Hck : c.(sc_convid) = k) (Hses : open_session c.(sc_session)).

Let s' := s <| sv_last_convid := 0 |> <| sv_connections := Some (<[k := w.(w_next)]> conns) |>
 <| sv_consistent := Some (ring_Add (fmt_d k) r) |>.

Let w' := w <| w_next ::= S |> <| w_sconns ::= insert w.(w_next) c |>
 <| g_server_list ::= insert tid s' |>.

Lemma added_listed t st k' l :
  w'.(g_server_list) !! t = Some st → sv_conns st !! k' = Some l →
  (t = tid ∧ k' = k ∧ l = w.(w_next)) ∨
  ∃ st0, w.(g_server_list) !! t = Some st0 ∧ sv_conns st0 !! k' = Some l ∧ l ≠ w.(w_next).
Proof.
  assert (∀ t0 s0 k0 l0, w.(g_server_list) !! t0 = Some s0 → sv_conns s0 !! k0 = Some l0 →
    l0 ≠ w.(w_next)) as Hold.
  { intros t0 s0 k0 l0 H0 Hk0. destruct (listed_conn w t0 s0 k0 l0 Hok H0 Hk0) as (c0 & Hc0 & _).
    pose proof (ok_fresh _ Hok _ _ Hc0). simpl in *. lia. }
  simpl. rewrite lookup_insert_Some. intros [[<- <-]|[Hne Ht]] Hl.
  - unfold sv_conns, s' in Hl. simpl in Hl. apply lookup_insert_Some in Hl as [[<- <-]|[Hne Hl]].
    + by left.
    + right. exists s. assert (sv_conns s !! k' = Some l) by (unfold sv_conns; by rewrite Hconns).
      split_and!; [done..|]. by eapply Hold.
  - right. exists st. split_and!; [done..|]. by eapply Hold.
Qed.

Lemma added_ok : client_ok w'.
Proof.
  split.
  - intros t st Ht. split.
    + intros k' l Hl. destruct (added_listed t st k' l Ht Hl) as [(-> & -> & ->)|(st0 & H0 & Hk0 & Hne)].
      * exists c. simpl. by rewrite lookup_insert_eq.
      * simpl. destruct (ok_conn _ _ _ (ok_tunnels _ Hok _ _ H0) _ _ Hk0) as (c0 & ? & ?).
        exists c0. by rewrite lookup_insert_ne.
    + intros k' l Hl. destruct (added_listed t st k' l Ht Hl) as [(-> & -> & ->)|(st0 & H0 & Hk0 & Hne)].
      * done.
      * by apply (ok_keys _ _ _ (ok_tunnels _ Hok _ _ H0) _ _ Hk0).
    + simpl in Ht. apply lookup_insert_Some in Ht as [[<- <-]|[_ Ht]].
      * intros m [= <-]. eexists. split; [done|].
        destruct (ok_ring _ _ _ (ok_tunnels _ Hok _ _ Hs) _ Hconns) as (r' & Hr' & Hm).
        simplify_eq. by rewrite Members_Add, Hm, dom_insert_L, ids_insert.
      * apply (ok_ring _ _ _ (ok_tunnels _ Hok _ _ Ht)).
    + simpl in Ht. apply lookup_insert_Some in Ht as [[<- <-]|[_ Ht]].
      * intros _. apply (ok_base _ _ _ (ok_tunnels _ Hok _ _ Hs)). rewrite Hconns. eauto.
      * apply (ok_base _ _ _ (ok_tunnels _ Hok _ _ Ht)).
  - intros t1 s1 k1 t2 s2 k2 l Ht1 Hk1 Ht2 Hk2.
    destruct (added_listed _ _ _ _ Ht1 Hk1) as [(-> & -> & ->)|(st1 & H1 & Hl1 & Hne1)],
      (added_listed _ _ _ _ Ht2 Hk2) as [(-> & -> & ?)|(st2 & H2 & Hl2 & Hne2)]; try done.
    by eapply (ok_unshared _ Hok).
  - intros l c'. simpl. rewrite lookup_insert_Some. intros [[<- _]|[_ Hl]]; [lia|].
    pose proof (ok_fresh _ Hok _ _ Hl). simpl in *. lia.
Qed.

Lemma added_link : link_added tid k (link_of c) w w'.
Proof.
  split; [apply added_ok|]. split.
  - unfold links. simpl. rewrite lookup_insert_eq, Hs. unfold sv_conns. simpl. rewrite Hconns. simpl.
    apply map_eq. intros k'. rewrite lookup_omap. destruct (decide (k' = k)) as [->|Hne].
    + rewrite !lookup_insert_eq. simpl. by rewrite lookup_insert_eq.
    + rewrite !lookup_insert_ne, lookup_omap by done.
      destruct (conns !! k') as [l|] eqn:Hl; [|done]. simpl.
      rewrite lookup_insert_ne; [done|]. intros <-.
      assert (sv_conns s !! k' = Some (w_next w)) as Hl' by (unfold sv_conns; by rewrite Hconns).
      destruct (listed_conn w tid s k' _ Hok Hs Hl') as (c0 & Hc0 & _).
      pose proof (ok_fresh _ Hok _ _ Hc0). simpl in *. lia.
  - intros t Hne. unfold links. simpl. rewrite lookup_insert_ne by done.
    destruct (g_server_list w !! t) as [st|] eqn:Ht; [|done].
    apply map_eq. intros k'. rewrite !lookup_omap.
    destruct (sv_conns st !! k') as [l|] eqn:Hl; [|done]. simpl.
    rewrite lookup_insert_ne; [done|]. intros <-.
    destruct (listed_conn w t st k' _ Hok Ht Hl) as (c0 & Hc0 & _).
    pose proof (ok_fresh _ Hok _ _ Hc0). simpl in *. lia.
Qed.
End added.

Lemma link_added_quiet tid k lk w w' w2 :
  quiet w' w2 → link_added tid k lk w w' → link_added tid k lk w w2.
Proof.
  intros Hq (H1 & H2 & H3). split; [by eapply quiet_ok|].
  split; [by rewrite (quiet_links _ _ _ Hq)|].
  intros t Ht. rewrite (quiet_links _ _ _ Hq). by apply H3.
Qed.

Lemma conn_core_session c c' session :
  conn_core c = conn_core c' →
  conn_core (c <| sc_session := session |>) = conn_core (c' <| sc_session := session |>).
Proof.
  assert (∀ c, conn_core (c <| sc_session := session |>) =
    setf sc_session (λ _, session) (conn_core c)) as H by (intros []; reflexivity).
  rewrite !H. by intros ->.
Qed.
Lemma server_core_consistent s s' r :
  server_core s = server_core s' →
  server_core (s <| sv_consistent := r |>) = server_core (s' <| sv_consistent := r |>).
Proof.
  assert (∀ s, server_core (s <| sv_consistent := r |>) =
    setf sv_consistent (λ _, r) (server_core s)) as H by (intros []; reflexivity).
  rewrite !H. by intros ->.
Qed.

(** What [client_add_connection] leaves, up to statistics. *)
Lemma add_quiet tid avail s conns r l c c' session w w3 s3
    (s1 := s <| sv_last_convid := 0 |> <| sv_connections := Some (<[avail := l]> conns) |>) :
  quiet (w <| w_next ::= S |> <| w_sconns ::= insert l c |>
           <| g_server_list ::= insert tid s1 |>) w3 →
  w3.(w_sconns) !! l = Some c' → w3.(g_server_list) !! tid = Some s3 →
  quiet (w <| w_next ::= S |> <| w_sconns ::= insert l (c <| sc_session := session |>) |>
           <| g_server_list ::= insert tid (s1 <| sv_consistent := Some r |>) |>)
        (w3 <| w_sconns ::= insert l (c' <| sc_session := session |>) |>
            <| g_server_list ::= insert tid (s3 <| sv_consistent := Some r |>) |>).
Proof.
  intros Hq Hc Hs.
  destruct (quiet_conn _ _ _ _ Hq Hc) as (c0 & Hc0 & Hcc). simpl in Hc0.
  rewrite lookup_insert_eq in Hc0. injection Hc0 as <-.
  destruct (quiet_server _ _ _ _ Hq Hs) as (s0 & Hs0 & Hss). simpl in Hs0.
  rewrite lookup_insert_eq in Hs0. injection Hs0 as <-.
  destruct Hq as (H1 & H2 & H3 & H4 & H5). unfold quiet. simpl in *. rewrite !fmap_insert in *.
  split_and!; [| |done..].
  - rewrite H1, insert_insert_eq. f_equal.
    by apply server_core_consistent.
  - rewrite H2, insert_insert_eq. f_equal.
    apply conn_core_session, Hcc.
Qed.

Lemma wlp_client_add_connection tid avail src ifname wan_ip s w :
  client_ok w → w.(g_server_list) !! tid = Some s → is_Some s.(sv_connections) → 0 < avail →
  wlp (client_add_connection cfg tid avail src ifname wan_ip)
    (λ l w', avail < 2 ^ 16 ∧ link_added tid avail (mkLink ifname src) w w' ∧
       (∃ s', w'.(g_server_list) !! tid = Some s' ∧ s'.(sv_locked) = s.(sv_locked) ∧
          sv_conns s' = <[avail := l]> (sv_conns s))) w.
Proof.
  intros Hok Hs [conns Hconns] Ha. unfold client_add_connection. wlp_steps.
  simpl in H. rewrite lookup_insert_eq in H. injection H as <-.
  match goal with |- context [fresh_serverConnection avail src ifname wan_ip ?a ?b ?d] =>
    set (c := fresh_serverConnection avail src ifname wan_ip a b d) end.
  set (s1 := s <| sv_last_convid := 0 |> <| sv_connections := Some (<[avail := w.(w_next)]> conns) |>).
  match goal with |- wlp _ _ ?w1 => assert (quiet
    (w <| w_next ::= S |> <| w_sconns ::= insert w.(w_next) c |> <| g_server_list ::= insert tid s1 |>)
    w1) as Hq0 end.
  { unfold quiet. simpl. rewrite insert_insert_eq. split_and!; try done.
    do 2 f_equal. unfold s1. destruct s. simpl in *. by subst. }
  eapply wlp_mono; [apply wlp_create_session; lia|]. intros [session err] w2 [Hq Hses]. simpl in Hses.
  destruct err; [by wlp_steps|]. destruct Hses as [Hopen Hport]; [done|].
  wlp_step. eapply wlp_mono; [apply wlp_quiet; eauto with preserves|]. intros ? w2' Hq2.
  wlp_step. eapply wlp_mono; [apply wlp_quiet; eauto with preserves|]. intros ? w3 Hq3.
  assert (Hq' := transitivity Hq0 (transitivity Hq (transitivity Hq2 Hq3))).
  clear Hq Hq2 Hq3 Hq0. wlp_steps.
  change (w_sconns w3 !! w_next w = Some c0) in H.
  change (g_server_list w3 !! tid = Some s0) in H0.
  repeat match goal with |- context [w_next (setf ?a ?b ?d)] =>
    change (w_next (setf a b d)) with (w_next w) end.
  destruct (quiet_server _ _ _ _ Hq' H0) as (s1' & Hs1' & Hcore). simpl in Hs1'.
  rewrite lookup_insert_eq in Hs1'. injection Hs1' as <-.
  apply server_core_conns in Hcore as (Hc & _ & Hr & _ & Hl & _).
  rewrite H1 in Hr. split; [lia|]. split.
  - eapply link_added_quiet; [apply (add_quiet tid avail s conns _ (w_next w) c c0 session w w3 s0); done|].
    change (mkLink ifname src) with (link_of (c <| sc_session := session |>)).
    apply (added_link tid avail s conns a1 (c <| sc_session := session |>) w); try done. lia.
  - eexists. simpl. rewrite lookup_insert_eq. split_and!; [done|done|].
    unfold sv_conns at 2. rewrite Hconns. apply Hc.
Qed.

(** *** The route check and the start of the goroutines *)

Lemma lock_unlock_quiet tid s s' w w1 w' :
  w.(g_server_list) !! tid = Some s → s.(sv_locked) = false →
  quiet (w <| g_server_list ::= insert tid (s <| sv_locked := true |>) |>) w1 →
  w1.(g_server_list) !! tid = Some s' →
  w' = w1 <| g_server_list ::= insert tid (s' <| sv_locked := false |>) |> → quiet w w'.
Proof.
  intros Hs Hl Hq Hs1 ->. destruct (quiet_server _ _ _ _ Hq Hs1) as (s0 & Hs0 & Hcore).
  simpl in Hs0. rewrite lookup_insert_eq in Hs0. injection Hs0 as <-.
  destruct Hq as (H1 & H2 & H3 & H4 & H5). unfold quiet. simpl in *.
  split_and!; [|done..]. rewrite fmap_insert, H1, fmap_insert, insert_insert_eq.
  apply insert_id. rewrite lookup_fmap, Hs. simpl. f_equal.
  destruct s, s'. simpl in *. unfold server_core in *. simpl in *. injection Hcore. by intros; subst.
Qed.

Lemma wlp_check_paths w : wlp (client_check_paths cfg) (λ _ w', quiet w w') w.
Proof.
  unfold client_check_paths. wlp_steps.
  destruct (g_server_list w !! g_tunnel_id cfg) as [s|] eqn:Hs; [|by wlp_steps].
  wlp_step. apply wlp_lock_server. intros s' Hs' Hl. assert (s' = s) as -> by congruence.
  set (w1 := w <| g_server_list ::= insert (g_tunnel_id cfg) (s <| sv_locked := true |>) |>).
  wlp_step. apply wlp_get_server. intros s1 _. wlp_step.
  eapply wlp_mono; [apply wlp_quiet; eauto with preserves|]. intros check w2 Hq2. wlp_step.
  eapply (wlp_mono _ (λ _ w3, quiet w2 w3)).
  { apply wlp_quiet. intros w0. preserve. }
  intros [] w3 Hq3. apply wlp_upd_server. intros s3 Hs3.
  eapply (lock_unlock_quiet _ s s3 w w3); try done. by transitivity w2.
Qed.

Lemma wlp_start_connection tid l spawn w :
  wlp (client_start_connection cfg tid l spawn) (λ _ w', quiet w w') w.
Proof.
  unfold client_start_connection. wlp_steps.
  eapply wlp_mono; [apply wlp_quiet; eauto with preserves|]. intros ? w1 Hq1. wlp_steps.
  eapply wlp_mono; [apply wlp_quiet; eauto with preserves|]. intros ? w2 Hq2. wlp_steps.
  eapply (wlp_mono _ (λ _ w3, quiet w2 w3)).
  { apply wlp_preserves; [preserve; apply quiet_emit|done]. }
  intros [] w3 Hq3. eapply wlp_mono; [apply wlp_check_paths|]. intros [] w4 Hq4.
  etrans; [|exact Hq4]. etrans; [|exact Hq3]. etrans; [|exact Hq2]. done.
Qed.

(** *** The whole call *)

(** The ids from [tid] on are taken up to [avail]; [avail] is free unless it is
    past the range of eleven ids. *)
Definition free_slot (tid : Z) (m : gmap Z link) (avail : Z) : Prop :=
  tid <= avail <= tid + 11 ∧ (∀ k, tid <= k < avail → is_Some (m !! k)) ∧
  (avail <= tid + 10 → m !! avail = None).

(** What a call to [client_connect_server] does to the links. *)
Definition connected (tid : Z) (src ifname : string) (w w' : world) : Prop :=
  client_ok w' ∧ unlocked w' tid ∧ (∀ t, t ≠ tid → links w' t = links w t) ∧
  if bool_decide (cfg.(g_mux_max) <= links_by_src src (links w tid)) then
    links w' tid = links w tid
  else
    ∃ avail, free_slot tid (links w tid) avail ∧ avail < 2 ^ 16 ∧
      links w' tid = <[avail := mkLink ifname src]> (links w tid).

Lemma links_is_Some w tid s k :
  client_ok w → w.(g_server_list) !! tid = Some s →
  links w tid !! k = None ↔ sv_conns s !! k = None.
Proof.
  intros Hok Hs. rewrite (links_lookup w tid s) by done.
  destruct (sv_conns s !! k) as [l|] eqn:Hk; [|done].
  destruct (listed_conn w tid s k l Hok Hs Hk) as (c & Hc & _). simpl. by rewrite Hc.
Qed.

Lemma new_tunnel_ok tid w (w' := w <| g_server_list ::= insert tid new_serverType |>) :
  client_ok w → w.(g_server_list) !! tid = None →
  client_ok w' ∧ ∀ t, links w' t = links w t.
Proof.
  intros Hok Hs.
  assert (∀ t st k l, w'.(g_server_list) !! t = Some st → sv_conns st !! k = Some l →
    w.(g_server_list) !! t = Some st) as Hst.
  { intros t st k l. simpl. rewrite lookup_insert_Some. by intros [[<- <-]|[_ ?]]. }
  split.
  - split.
    + intros t st. simpl. rewrite lookup_insert_Some.
      intros [[<- <-]|[_ ?]]; [|by apply (ok_tunnels _ Hok)].
      split; [by intros ? ?|by intros ? ?|done|]. intros [[? H]|[? H]]; discriminate H.
    + intros t1 s1 k1 t2 s2 k2 l Ht1 Hk1 Ht2 Hk2.
      eapply (ok_unshared _ Hok); [eapply Hst|done|eapply Hst|done]; done.
    + apply (ok_fresh _ Hok).
  - intros t. unfold links, w'. simpl. destruct (decide (t = tid)) as [->|Hne].
    + rewrite lookup_insert_eq, Hs. done.
    + by rewrite lookup_insert_ne.
Qed.

(** The call from the point where the tunnel exists. *)
Definition connect_rest (tunnelid : Z) (src ifname : string) : W unit :=
  lock_server tunnelid ;;
  w ← getS;
  server ← get_server tunnelid;
  let num := client_num_connections_by_src src (sv_conns server) w.(w_sconns) in
  if bool_decide (cfg.(g_mux_max) <= num) then unlock_server tunnelid
  else
    spawn_tun ← client_setup_server cfg tunnelid;
    unlock_server tunnelid ;;
    server ← get_server tunnelid;
    match find_slot (slot_fuel (sv_conns server)) (sv_conns server) (u32 (tunnelid + 10)) tunnelid with
    | None => deadlock
    | Some avail =>
        if bool_decide (avail = u32 (tunnelid + 100)) then mret tt
        else
          '(wan_ip, _) ← get_wan_ip ifname;
          lock_server tunnelid ;;
          l ← client_add_connection cfg tunnelid avail src ifname wan_ip;
          unlock_server tunnelid ;;
          client_start_connection cfg tunnelid l spawn_tun
    end.

Lemma connect_split tid src ifname gw reason :
  client_connect_server cfg tid src ifname gw reason =
    (w ← getS;
     match w.(g_server_list) !! tid with
     | Some _ => mret tt
     | None => modify (fun w => w <| g_server_list ::= insert tid new_serverType |>)
     end ;; connect_rest tid src ifname).
Proof. reflexivity. Qed.

(** The second half: the slot, the new connection and its start. *)
Lemma wlp_connect_slot tid src ifname spawn s w :
  0 < tid → tid + 11 < 2 ^ 32 → client_ok w → w.(g_server_list) !! tid = Some s →
  s.(sv_locked) = false → is_Some s.(sv_connections) →
  wlp (match find_slot (slot_fuel (sv_conns s)) (sv_conns s) (u32 (tid + 10)) tid with
    | None => deadlock
    | Some avail =>
        if bool_decide (avail = u32 (tid + 100)) then mret tt
        else
          '(wan_ip, _) ← get_wan_ip ifname;
          lock_server tid ;;
          l ← client_add_connection cfg tid avail src ifname wan_ip;
          unlock_server tid ;;
          client_start_connection cfg tid l spawn
    end)
    (λ _ w', client_ok w' ∧ unlocked w' tid ∧ (∀ t, t ≠ tid → links w' t = links w t) ∧
       ∃ avail, free_slot tid (links w tid) avail ∧ avail < 2 ^ 16 ∧
         links w' tid = <[avail := mkLink ifname src]> (links w tid)) w.
Proof.
  intros Ht0 Ht Hok Hs Hl Hconns. rewrite (u32_small (tid + 10)) by lia.
  destruct (find_slot_first (slot_fuel (sv_conns s)) (sv_conns s) (tid + 10) tid)
    as (avail & -> & Hav & Hused & Hfree); [lia|lia|unfold slot_fuel; lia|].
  rewrite bool_decide_eq_false_2.
  2: { unfold u32. intros ->. pose proof (Z.div_mod (tid + 100) (2 ^ 32)). nia. }
  wlp_step. eapply wlp_mono; [apply wlp_quiet; eauto with preserves|]. intros [wan ?] w1 Hq1.
  pose proof (quiet_ok _ _ Hq1 Hok) as Hok1.
  wlp_step. apply wlp_lock_server. intros s1 Hs1 Hl1.
  destruct (quiet_server _ _ _ _ Hq1 Hs1) as (s0 & Hs0 & Hcore).
  assert (s0 = s) as -> by congruence. apply server_core_conns in Hcore as (_ & Hc1 & _).
  destruct (relock tid s1 true w1 Hok1 Hs1) as [Hok2 Hlk2].
  wlp_step. eapply wlp_mono.
  { eapply wlp_client_add_connection; [done|simpl; by rewrite lookup_insert_eq| |lia].
    simpl. by rewrite Hc1. }
  intros l w3 (Hport & (Hok3 & Hlk3 & Hother3) & s3 & Hs3 & _).
  wlp_step. apply wlp_upd_server. intros s3' Hs3'. assert (s3' = s3) as -> by congruence.
  destruct (relock tid s3 false w3 Hok3 Hs3) as [Hok4 Hlk4].
  eapply wlp_mono; [apply wlp_start_connection|]. intros [] w5 Hq5.
  split_and!.
  - by eapply quiet_ok.
  - eapply quiet_unlocked; [done|]. eexists. simpl. by rewrite lookup_insert_eq.
  - intros t Hne. rewrite (quiet_links _ _ _ Hq5), Hlk4, Hother3, Hlk2 by done.
    by apply quiet_links.
  - exists avail. split_and!; [|done|].
    + split_and!; [lia|lia| |].
      * intros k Hk. apply not_eq_None_Some. rewrite (links_is_Some w tid s) by done.
        apply not_eq_None_Some. apply Hused. lia.
      * intros Hle. apply (links_is_Some w tid s); [done..|]. apply Hfree. lia.
    + rewrite (quiet_links _ _ _ Hq5), Hlk4, Hlk3, Hlk2. f_equal. by apply quiet_links.
Qed.

Lemma wlp_connect_rest tid src ifname w :
  0 < tid → tid + 11 < 2 ^ 32 → client_ok w →
  wlp (connect_rest tid src ifname) (λ _ w', connected tid src ifname w w') w.
Proof.
  intros Ht0 Ht Hok. unfold connect_rest.
  wlp_step. apply wlp_lock_server. intros s Hs Hl.
  destruct (relock tid s true w Hok Hs) as [Hok1 Hlk1].
  set (s1 := s <| sv_locked := true |>) in *.
  set (w1 := w <| g_server_list ::= insert tid s1 |>) in *.
  assert (w1.(g_server_list) !! tid = Some s1) as Hs1 by (simpl; by rewrite lookup_insert_eq).
  wlp_step. wlp_step. wlp_step. wlp_step.
  rewrite num_connections_links.
  assert (omap (λ l, link_of <$> w_sconns w1 !! l) (sv_conns s1) = links w tid) as ->.
  { rewrite <- Hlk1. unfold links at 1. by rewrite Hs1. }
  unfold connected. case_bool_decide as Hmux.
  - apply wlp_upd_server. intros s2 Hs2. assert (s2 = s1) as -> by congruence.
    destruct (relock tid s1 false w1 Hok1 Hs1) as [Hok2 Hlk2].
    split_and!; [done| | |].
    + eexists. simpl. by rewrite lookup_insert_eq.
    + intros t _. by rewrite Hlk2.
    + by rewrite Hlk2.
  - wlp_step. eapply wlp_mono; [by apply wlp_client_setup_server|].
    intros spawn w2 (Hok2 & Hlk2 & s2 & Hs2 & Hc2 & Hl2 & Hconns).
    wlp_step. apply wlp_upd_server. intros s2' Hs2'. assert (s2' = s2) as -> by congruence.
    destruct (relock tid s2 false w2 Hok2 Hs2) as [Hok3 Hlk3].
    wlp_step. eapply wlp_get_server_eq; [simpl; by rewrite lookup_insert_eq|].
    eapply wlp_mono.
    { eapply wlp_connect_slot; [done|done|done|simpl; by rewrite lookup_insert_eq|done|done]. }
    intros [] w4 (Hok4 & Hu4 & Hother & avail & Hfree & Hport & Hlk4).
    split_and!; [done|done| |].
    + intros t Hne. by rewrite Hother, Hlk3, Hlk2, Hlk1.
    + exists avail. rewrite Hlk3, Hlk2, Hlk1 in *. done.
Qed.

Lemma wlp_connect tid src ifname gw reason w :
  0 < tid → tid + 11 < 2 ^ 32 → client_ok w →
  wlp (client_connect_server cfg tid src ifname gw reason)
    (λ _ w', connected tid src ifname w w') w.
Proof.
  intros Ht0 Ht Hok. rewrite connect_split. wlp_steps.
  destruct (g_server_list w !! tid) as [s|] eqn:Hs.
  - wlp_step. by apply wlp_connect_rest.
  - wlp_step. destruct (new_tunnel_ok tid w Hok Hs) as [Hok1 Hlk1].
    eapply wlp_mono; [by apply wlp_connect_rest|].
    intros [] w' (H1 & H2 & H3 & H4). rewrite Hlk1 in H4.
    split_and!; [done|done| |done]. intros t Hne. by rewrite H3, Hlk1.
Qed.

(** The bound on the connections from one source address. *)
Lemma links_by_src_insert src m k lk :
  links_by_src src (<[k := lk]> m) <= links_by_src src m + 1.
Proof.
  unfold links_by_src. destruct (decide (lk.(l_src) = src)) as [Hl|Hl].
  - rewrite map_filter_insert_True by done. rewrite map_size_insert.
    destruct (_ !! k); simpl; lia.
  - rewrite map_filter_insert_False by done.
    assert (size (filter (λ x, l_src x.2 = src) (delete k m)) ≤
      size (filter (λ x, l_src x.2 = src) m))%nat; [|lia].
    rewrite <- !size_dom. apply subseteq_size, subseteq_dom, map_filter_subseteq_mono.
    apply delete_subseteq.
Qed.

Lemma connected_mux_bound tid src ifname w w' :
  links_by_src src (links w tid) <= Z.max 0 cfg.(g_mux_max) →
  connected tid src ifname w w' → links_by_src src (links w' tid) <= Z.max 0 cfg.(g_mux_max).
Proof.
  intros Hb (_ & _ & _ & H). case_bool_decide as Hm.
  - by rewrite H.
  - destruct H as (avail & _ & _ & ->).
    pose proof (links_by_src_insert src (links w tid) avail (mkLink ifname src)). lia.
Qed.

(** *** The call returns when the link is up *)

(** The answers of the outside with which a link comes up: the tun device and
    the sockets open, the server's and the local address resolve, the interface
    has an address (or is reported missing). *)
Record link_up (src ifname : string) : Prop := {
  up_tun t name : ∃ h, env_tun_New t name = Some h ∧ is_Some (env_tun_Name (Some h));
  up_server t : is_Some (ResolveUDPAddr (env_lookup t) cfg.(g_connect_addr));
  up_local t port : 0 <= port <= 65535 →
    is_Some (ResolveUDPAddr (env_lookup t) (src +:+ ":" +:+ fmt_d port));
  up_listen t ip : is_Some (env_ListenUDP t ip);
  up_kcp t convid addr conn :
    is_Some (env_kcp_NewConn t convid addr (session_block cfg) dataSize paritySize conn);
  up_iface t : (network_getIpAddr (env_Interfaces t) ifname).2 = None →
    is_Some ((network_getIpAddr (env_Interfaces t) ifname).1 !! 0%nat)
}.

(** A tunnel whose mutex is not held. *)
Definition free_lock (w : world) (tid : Z) : Prop :=
  ∀ s, w.(g_server_list) !! tid = Some s → s.(sv_locked) = false.

Lemma quiet_free_lock w w' tid : quiet w w' → free_lock w tid → free_lock w' tid.
Proof.
  intros Hq H s' Hs'. destruct (quiet_server _ _ _ _ Hq Hs') as (s & Hs & Hcore).
  apply server_core_conns in Hcore as (_ & _ & _ & _ & Hl & _). rewrite Hl. by apply H.
Qed.

Lemma wp_upgrade {A} (m : W A) Q w : wp m (λ _ _, True) w → wlp m Q w → wp m Q w.
Proof. intros H1 H2. eapply wp_mono; [by eapply wp_wlp|]. by intros a w' [_ ?]. Qed.

Section returns.
Context (src ifname : string) (Hup : link_up src ifname).

Lemma wp_set_options kcp opts w : wp (set_options kcp opts) (λ _ _, True) w.
Proof.
  unfold set_options. apply (wp_for_each _ _ (λ _ _, True)); [|done]. intros. by wp_steps.
Qed.

Lemma wp_create_session convid w :
  0 < convid <= 65535 →
  wp (create_session cfg convid src) (λ r _, r.2 = None ∧ open_session r.1) w.
Proof.
  intros Hc. unfold create_session. wp_steps.
  destruct (up_server _ _ Hup (w_tick w)) as [addr ->]. wp_steps.
  destruct (up_local _ _ Hup (w_tick (w <| w_tick ::= S |>)) convid) as [[ip port] ->]; [lia|]. wp_steps.
  destruct (up_listen _ _ Hup (w_tick (w <| w_tick ::= S |> <| w_tick ::= S |>)) ip) as [conn ->].
  unfold NewSession. rewrite bool_decide_eq_false_2 by lia. wp_steps.
  destruct (up_kcp _ _ Hup (w_tick (w <| w_tick ::= S |> <| w_tick ::= S |> <| w_tick ::= S |>))
    convid addr conn) as [kcp ->].
  unfold setKCPOptions, setClientConnOptions. wp_steps. simpl.
  eapply wp_mono; [apply wp_set_options|]. intros [] w1 _. wp_steps. simpl. wp_steps.
  eapply wp_mono; [apply wp_set_options|]. intros [] w2 _. wp_steps.
  split; [done|]. by eexists _, _.
Qed.

Lemma wp_get_wan_ip w : wp (get_wan_ip ifname) (λ _ _, True) w.
Proof.
  unfold get_wan_ip. wp_steps. pose proof (up_iface _ _ Hup (w_tick w)) as Hi.
  destruct (network_getIpAddr _ _) as [ip [err|]]; [by wp_steps|].
  destruct Hi as [ip0 Hip]; [done|]. simpl in Hip. wp_step. eapply wp_deref; [done|].
  wp_steps. destruct (negb _); [by wp_steps|]. wp_steps. by destruct (env_http_get _ _); wp_steps.
Qed.

Lemma wp_client_setup_server tid s w :
  w.(g_server_list) !! tid = Some s → wp (client_setup_server cfg tid) (λ _ _, True) w.
Proof.
  intros Hs. unfold client_setup_server. wp_steps.
  eapply (wp_mono _ (λ _ w1, is_Some (w1.(g_server_list) !! tid))).
  - destruct (sv_iface s); [wp_steps; eauto|]. unfold createTun. wp_steps.
    match goal with |- context [env_tun_New ?t ?n] =>
      destruct (up_tun _ _ Hup t n) as (h & -> & name & Hname) end.
    wp_steps. eapply wp_deref; [done|]. wp_steps. eapply wp_deref; [done|]. wp_steps.
    simpl. rewrite lookup_insert_eq. eauto.
  - intros spawn w1 [s1 Hs1]. wp_steps. by destruct (sv_connections s1); wp_steps.
Qed.

Lemma wp_check_paths w :
  free_lock w cfg.(g_tunnel_id) → wp (client_check_paths cfg) (λ _ _, True) w.
Proof.
  intros Hfree. unfold client_check_paths. wp_steps.
  destruct (g_server_list w !! g_tunnel_id cfg) as [s|] eqn:Hs; [|by wp_steps].
  wp_step. eapply wp_lock_server; [done|by apply Hfree|]. wp_steps.
  by destruct (bool_decide _), (contains _ _); wp_steps.
Qed.

Lemma wp_quiet_step {A} (m : W A) (Q : A → world → Prop) w :
  (∀ w0, preserves (quiet w0) m) → wp m Q w → wp m (λ a w', Q a w' ∧ quiet w w') w.
Proof. intros Hp Hm. apply wp_preserves; [done|apply Hp|done]. Qed.

Lemma wp_add_session l c tid avail (session : option RatSession) s r w :
  w.(w_sconns) !! l = Some c → w.(g_server_list) !! tid = Some s →
  s.(sv_consistent) = Some r → open_session session →
  wp (rat_SetReadBuffer session g_buffer_size ;;
      rat_SetWriteBuffer session g_buffer_size ;;
      upd_sconn l (setf sc_session (fun _ => session)) ;;
      s ← get_server tid;
      r ← deref "nil *consistent.Consistent" s.(sv_consistent);
      upd_server tid (setf sv_consistent (fun _ => Some (ring_Add (fmt_d avail) r))) ;;
      mret l) (λ _ _, True) w.
Proof.
  intros Hc Hs Hr (ses & kcp & -> & Hk). unfold rat_SetReadBuffer, rat_SetWriteBuffer.
  rewrite Hk. wp_steps. rewrite Hr. by wp_steps.
Qed.

Lemma wp_client_add_connection tid avail wan_ip s w :
  client_ok w → w.(g_server_list) !! tid = Some s → is_Some s.(sv_connections) →
  0 < avail <= 65535 →
  wp (client_add_connection cfg tid avail src ifname wan_ip) (λ _ _, True) w.
Proof.
  intros Hok Hs [conns Hconns] Ha.
  destruct (ok_ring _ _ _ (ok_tunnels _ Hok _ _ Hs) _ Hconns) as (r & Hr & _).
  unfold client_add_connection. wp_steps.
  match goal with |- context [new_sconn ?c] => set (c0 := c) end.
  eexists _, _. split; [reflexivity|]. wp_steps.
  eapply wp_mono; [apply wp_quiet_step; [eauto with preserves|by apply wp_create_session]|].
  intros [session err] w2 [[Herr Hopen] Hq]. simpl in Herr, Hopen. subst err.
  apply quiet_sym in Hq.
  match type of Hq with quiet _ ?w1 =>
    destruct (g_server_list w1 !! tid) as [s1|] eqn:Hs1;
      [|simpl in Hs1; by rewrite lookup_insert_eq in Hs1];
    destruct (w_sconns w1 !! w_next w) as [c1|] eqn:Hc1;
      [|simpl in Hc1; by rewrite lookup_insert_eq in Hc1]
  end.
  destruct (quiet_server _ _ _ _ Hq Hs1) as (s2 & Hs2 & Hcore).
  destruct (quiet_conn _ _ _ _ Hq Hc1) as (c2 & Hc2 & _).
  apply server_core_conns in Hcore as (_ & _ & Hr2 & _).
  simpl in Hs1. rewrite lookup_insert_eq in Hs1. injection Hs1 as <-.
  eapply wp_add_session; [exact Hc2|exact Hs2|by rewrite <- Hr2|done].
Qed.

Lemma wp_start_connection tid l c spawn w :
  w.(w_sconns) !! l = Some c → open_session c.(sc_session) → free_lock w cfg.(g_tunnel_id) →
  wp (client_start_connection cfg tid l spawn) (λ _ _, True) w.
Proof.
  intros Hc Ho Hf. unfold client_start_connection. wp_steps.
  apply wp_rat_SetWriteDeadline; [done|]. intros kcp. wp_steps.
  apply wp_rat_Write; [done|]. intros err kcp'. wp_steps.
  apply wp_whenM; intros _; wp_steps; by apply wp_check_paths.
Qed.

(** The state of all the mutexes. *)
Definition locks (L : gmap Z bool) (w : world) : Prop := sv_locked <$> w.(g_server_list) = L.

Lemma locks_quiet {A} L (m : W A) : (∀ w0, preserves (quiet w0) m) → preserves (locks L) m.
Proof.
  intros Hp w Hw. specialize (Hp w w ltac:(done)). unfold locks in *. rewrite <- Hw.
  destruct Hp as (Hs & _). apply map_eq. intros k. apply (f_equal (lookup k)) in Hs.
  rewrite !lookup_fmap in *. destruct (g_server_list _ !! k), (g_server_list w !! k); try done.
  simpl in *. injection Hs. intros. congruence.
Qed.
Lemma locks_upd_server L tid f :
  (∀ s, sv_locked (f s) = sv_locked s) → preserves (locks L) (upd_server tid f).
Proof.
  intros Hf w Hw. unfold upd_server, get_server, getS, mbind, M_bind.
  destruct (g_server_list w !! tid) as [s|] eqn:Hs; [|done]. unfold locks in *. simpl.
  rewrite fmap_insert, Hf, Hw. apply insert_id. rewrite <- Hw. by rewrite lookup_fmap, Hs.
Qed.
Lemma locks_new_sconn L c : preserves (locks L) (new_sconn c).
Proof. by intros w Hw. Qed.
Lemma locks_upd_sconn L l f : preserves (locks L) (upd_sconn l f).
Proof. intros w Hw. unfold upd_sconn, get_sconn. by destruct (w_sconns w !! l) eqn:Hl; unfold mbind, M_bind, getS; simpl; rewrite Hl. Qed.

#[local] Hint Resolve locks_new_sconn locks_upd_sconn : preserves.
#[local] Hint Extern 1 (preserves (locks _) (upd_server _ _)) =>
  apply locks_upd_server; reflexivity : preserves.
#[local] Hint Extern 2 (preserves (locks _) _) =>
  apply locks_quiet; intros ?; solve [eauto with preserves] : preserves.

Lemma locks_setup L tid : preserves (locks L) (client_setup_server cfg tid).
Proof. unfold client_setup_server. preserve. Qed.
Lemma locks_add L tid avail ifname' wan : preserves (locks L) (client_add_connection cfg tid avail src ifname' wan).
Proof. unfold client_add_connection. preserve. Qed.

Lemma locks_free L w t : locks L w → (free_lock w t ↔ L !! t ≠ Some true).
Proof.
  unfold locks. intros <-. rewrite lookup_fmap. unfold free_lock.
  destruct (g_server_list w !! t) as [s|]; simpl; [|naive_solver].
  destruct (sv_locked s) eqn:Hl; naive_solver congruence.
Qed.

(** The part under the second lock and after it. *)
Lemma wp_connect_slot tid spawn s w :
  0 < tid → tid + 11 < 2 ^ 16 → client_ok w → w.(g_server_list) !! tid = Some s →
  free_lock w tid → free_lock w cfg.(g_tunnel_id) → is_Some s.(sv_connections) →
  wp (match find_slot (slot_fuel (sv_conns s)) (sv_conns s) (u32 (tid + 10)) tid with
    | None => deadlock
    | Some avail =>
        if bool_decide (avail = u32 (tid + 100)) then mret tt
        else
          '(wan_ip, _) ← get_wan_ip ifname;
          lock_server tid ;;
          l ← client_add_connection cfg tid avail src ifname wan_ip;
          unlock_server tid ;;
          client_start_connection cfg tid l spawn
    end) (λ _ _, True) w.
Proof.
  intros Ht0 Ht Hok Hs Hf1 Hf2 Hconns. rewrite (u32_small (tid + 10)) by lia.
  destruct (find_slot_first (slot_fuel (sv_conns s)) (sv_conns s) (tid + 10) tid)
    as (avail & -> & Hav & _); [lia|lia|unfold slot_fuel; lia|].
  case_bool_decide; [by wp_steps|].
  wp_step. eapply wp_mono; [apply wp_quiet_step; [eauto with preserves|apply wp_get_wan_ip]|].
  intros [wan ?] w1 [_ Hq1]. pose proof (quiet_ok _ _ Hq1 Hok) as Hok1.
  destruct (quiet_server _ _ _ _ (quiet_sym _ _ Hq1) Hs) as (s1 & Hs1 & Hcore).
  apply server_core_conns in Hcore as (_ & Hc1 & _).
  wp_step. eapply wp_lock_server; [done|by apply (quiet_free_lock _ _ _ Hq1 Hf1)|].
  destruct (relock tid s1 true w1 Hok1 Hs1) as [Hok2 _].
  set (w2 := w1 <| g_server_list ::= _ |>) in *.
  assert (w2.(g_server_list) !! tid = Some (s1 <| sv_locked := true |>)) as Hs2
    by (simpl; by rewrite lookup_insert_eq).
  assert (is_Some (sv_connections (s1 <| sv_locked := true |>))) as Hc2 by (destruct Hconns as [x Hx]; exists x; simpl; congruence).
  wp_step. eapply wp_mono.
  { eapply (wp_preserves (locks (sv_locked <$> w2.(g_server_list)))); [|apply locks_add|done].
    eapply wp_wlp; [eapply wp_client_add_connection; [done|done|done|lia]|].
    eapply wlp_client_add_connection; [done|done|done|lia]. }
  intros l w3 [(_ & _ & (Hok3 & _) & s3 & Hs3 & _ & Hc3) HL].
  wp_step. eapply wp_unlock_server; [done|].
  destruct (listed_conn w3 tid s3 avail l Hok3 Hs3) as (c & Hc & _ & Ho).
  { rewrite Hc3. by rewrite lookup_insert_eq. }
  eapply wp_start_connection; [exact Hc|done|].
  intros st. simpl. rewrite lookup_insert_Some. intros [[_ <-]|[Hne Hst]]; [done|].
  revert st Hst. change (free_lock w3 (g_tunnel_id cfg)). rewrite (locks_free _ _ _ HL).
  simpl. rewrite fmap_insert, lookup_insert_ne by done.
  rewrite <- (locks_free (sv_locked <$> g_server_list w1) w1) by done.
  by eapply quiet_free_lock.
Qed.

Lemma wp_connect_rest tid s w :
  0 < tid → tid + 11 < 2 ^ 16 → client_ok w → w.(g_server_list) !! tid = Some s →
  free_lock w tid → free_lock w cfg.(g_tunnel_id) →
  wp (connect_rest tid src ifname) (λ _ _, True) w.
Proof.
  intros Ht0 Ht Hok Hs Hf1 Hf2. unfold connect_rest.
  wp_step. eapply wp_lock_server; [done|by apply Hf1|].
  destruct (relock tid s true w Hok Hs) as [Hok1 _].
  set (w1 := w <| g_server_list ::= _ |>) in *.
  assert (w1.(g_server_list) !! tid = Some (s <| sv_locked := true |>)) as Hs1
    by (simpl; by rewrite lookup_insert_eq).
  wp_step. wp_step. wp_step. eapply wp_get_server; [done|].
  case_bool_decide; [by wp_steps|].
  wp_step. eapply wp_mono.
  { eapply (wp_preserves (locks (sv_locked <$> w1.(g_server_list)))); [|apply locks_setup|done].
    eapply wp_wlp; [by eapply wp_client_setup_server|by eapply wlp_client_setup_server]. }
  intros spawn w2 [(_ & Hok2 & _ & s2 & Hs2 & _ & _ & Hc2) HL].
  wp_step. eapply wp_unlock_server; [done|].
  destruct (relock tid s2 false w2 Hok2 Hs2) as [Hok3 _].
  wp_step. eapply wp_get_server; [simpl; by rewrite lookup_insert_eq|].
  eapply wp_connect_slot; [done|done|done|simpl; by rewrite lookup_insert_eq| | |done].
  - intros st. simpl. rewrite lookup_insert_eq. by intros [= <-].
  - intros st. simpl. rewrite lookup_insert_Some. intros [[_ <-]|[Hne Hst]]; [done|].
    revert st Hst. change (free_lock w2 (g_tunnel_id cfg)). rewrite (locks_free _ _ _ HL).
    simpl. rewrite fmap_insert, lookup_insert_ne by done.
    by rewrite <- (locks_free (sv_locked <$> g_server_list w) w).
Qed.

(** Every call returns, on a tunnel whose ids are ports. *)
Lemma wp_connect tid gw reason w :
  0 < tid → tid + 11 < 2 ^ 16 → client_ok w → free_lock w tid → free_lock w cfg.(g_tunnel_id) →
  wp (client_connect_server cfg tid src ifname gw reason)
    (λ _ w', connected tid src ifname w w') w.
Proof.
  intros Ht0 Ht Hok Hf1 Hf2. apply wp_upgrade; [|apply wlp_connect; [lia..|done]].
  rewrite connect_split. wp_steps. destruct (g_server_list w !! tid) as [s|] eqn:Hs; wp_step.
  - by eapply wp_connect_rest.
  - destruct (new_tunnel_ok tid w Hok Hs) as [Hok1 _].
    eapply wp_connect_rest; [done|done|done|simpl; by rewrite lookup_insert_eq| |].
    + intros st. simpl. rewrite lookup_insert_eq. by intros [= <-].
    + intros st. simpl. rewrite lookup_insert_Some. intros [[_ <-]|[_ Hst]]; [done|by apply Hf2].
Qed.
End returns.
End connect.
