(* ===== verification/Demo.v ===== *)
(** * A concrete configuration, outside and run

    The instances that the witnesses of the properties evaluate: the clock
    advances one millisecond per call, maps are visited in the order of their
    representation, every device and socket opens.  [demo1] and [demo2] are the
    states of a client after one and two links came up. *)
From stdpp Require Import base gmap sets list strings.
From Stdlib Require Import ZArith Lia.
From S2P Require Import Prelude GoFloat GoNet Network Ring World Session Wire FlowKey Client.
From S2P Require Import ClientLoops ClientSpec ClientDisconnect ClientConnect.
#[local] Open Scope Z_scope.

Definition demo_ifaces : list Interface := [
  mkInterface "lo" 1 "" (Some [AIPNet [127;0;0;1]]);
  mkInterface "eth0" 2 "02:42:ac:11:00:02" (Some [AIPNet [192;168;1;20]]);
  mkInterface "ppp0" 3 "" (Some [AIPNet [100;64;0;7]])].

(** [read_err]: what a read from KCP answers. *)
Definition demo_env_with (read_err : string) : Env := {|
  env_int_bits := 64;
  env_now t := 1600000000000000000 + 1000000 * Z.of_nat t;
  env_range _ l := l;
  env_exec _ _ _ := Some "";
  env_tun_New _ _ := Some 7;
  env_tun_Name h := match h with Some _ => Some "tun100" | None => None end;
  env_tun_Write _ _ _ := None;
  env_tun_Read _ _ := inl (69 :: replicate 39 0);
  env_Interfaces _ := Some demo_ifaces;
  env_InterfaceByIndex _ i := if bool_decide (i = 2) then Some "eth0" else None;
  env_lookup _ _ := None;
  env_ResolveTCP _ _ := true;
  env_ListenUDP _ _ := Some 5;
  env_http_get _ _ := Some "198.51.100.1";
  env_pbkdf2 pass _ _ _ := pass;
  env_kcp_NewConn t _ _ _ _ _ _ := Some (1000 + Z.of_nat t);
  env_kcp_Listen _ _ _ _ _ := Some 3;
  env_kcp_Accept _ _ := Some 100;
  env_kcp_GetConv h := h mod 1000;
  env_kcp_RemoteAddr h := ([198;51;100;1], "", 100);
  env_kcp_GetState _ _ := 0;
  env_kcp_Write _ _ _ := None;
  env_kcp_Read _ _ := inr read_err |}.

Definition demo_env : Env := demo_env_with "timeout".

#[export] Instance demo_laws : EnvLaws demo_env.
Proof. split; [done|by right]. Qed.

#[export] Existing Instances set_ring rfc791_parser demo_env.

Definition demo_cfg : config :=
  default_config <| g_connect_addr := "203.0.113.9:12345" |> <| g_tunnel_id := 100 |>.

(** The outcome of a run, and the state it ends in. *)
Definition demo1 : world :=
  (client_connect_server demo_cfg 100 "192.168.1.20" "eth0" "" "start" init_world).2.
Definition demo2 : world :=
  (client_connect_server demo_cfg 100 "100.64.0.7" "ppp0" "" "start" demo1).2.

Lemma init_ok : client_ok init_world.
Proof. split; by intros ? ?. Qed.

Lemma run_connected cfg tid src ifname w :
  0 < tid → tid + 11 < 2 ^ 32 → client_ok w →
  (client_connect_server cfg tid src ifname "" "start" w).1 = Ret tt →
  connected cfg tid src ifname w (client_connect_server cfg tid src ifname "" "start" w).2.
Proof.
  intros ?? Hok Hrun. apply (wlp_connect cfg tid src ifname "" "start" w) with tt; [done..|].
  rewrite <- Hrun. by destruct (client_connect_server _ _ _ _ _ _ _).
Qed.

(** A run whose outcome is known. *)
Lemma run_eq {A} (m : W A) w a : (m w).1 = Ret a → m w = (Ret a, (m w).2).
Proof. intros <-. by destruct (m w). Qed.

Lemma demo1_run :
  client_connect_server demo_cfg 100 "192.168.1.20" "eth0" "" "start" init_world = (Ret tt, demo1).
Proof.
  unfold demo1.
  apply (run_eq (client_connect_server demo_cfg 100 "192.168.1.20" "eth0" "" "start")).
  vm_compute. reflexivity.
Qed.
Lemma demo2_run :
  client_connect_server demo_cfg 100 "100.64.0.7" "ppp0" "" "start" demo1 = (Ret tt, demo2).
Proof.
  unfold demo2.
  apply (run_eq (client_connect_server demo_cfg 100 "100.64.0.7" "ppp0" "" "start")).
  vm_compute. reflexivity.
Qed.

Lemma demo1_connected : connected demo_cfg 100 "192.168.1.20" "eth0" init_world demo1.
Proof. apply run_connected; [lia|lia|apply init_ok|vm_compute; reflexivity]. Qed.
Lemma demo1_ok : client_ok demo1.
Proof. apply demo1_connected. Qed.
Lemma demo2_connected : connected demo_cfg 100 "100.64.0.7" "ppp0" demo1 demo2.
Proof. apply run_connected; [lia|lia|apply demo1_ok|vm_compute; reflexivity]. Qed.
Lemma demo2_ok : client_ok demo2.
Proof. apply demo2_connected. Qed.

Lemma demo1_links : links demo1 100 = {[100 := mkLink "eth0" "192.168.1.20"]}.
Proof. vm_compute. reflexivity. Qed.
Lemma demo2_links :
  links demo2 100 = {[100 := mkLink "eth0" "192.168.1.20"; 101 := mkLink "ppp0" "100.64.0.7"]}.
Proof. vm_compute. reflexivity. Qed.

(** The tunnel of [demo2], its two connections and their records. *)
Definition demo_tunnel : serverType := default new_serverType (demo2.(g_server_list) !! 100).
Definition demo_conn (l : loc) : serverConnection :=
  default (fresh_serverConnection 0 "" "" "" 0 0 0) (demo2.(w_sconns) !! l).

Lemma default_lookup {K A} `{Countable K} (m : gmap K A) (k : K) (d : A) :
  bool_decide (is_Some (m !! k)) = true → m !! k = Some (default d (m !! k)).
Proof. intros [x Hx]%bool_decide_eq_true. by rewrite Hx. Qed.

Lemma unlocked_free w tid : unlocked w tid → free_lock w tid.
Proof. intros (s & Hs & Hl) s' Hs'. by simplify_eq. Qed.

Lemma demo_tunnel_lookup : demo2.(g_server_list) !! 100 = Some demo_tunnel.
Proof. apply default_lookup. vm_compute. reflexivity. Qed.
Lemma demo_conn_lookup0 : demo2.(w_sconns) !! 0%nat = Some (demo_conn 0).
Proof. apply default_lookup. vm_compute. reflexivity. Qed.
Lemma demo_conn_lookup1 : demo2.(w_sconns) !! 1%nat = Some (demo_conn 1).
Proof. apply default_lookup. vm_compute. reflexivity. Qed.
Lemma demo_tunnel_unlocked : demo_tunnel.(sv_locked) = false.
Proof. vm_compute. reflexivity. Qed.
Lemma demo_tunnel_iface : demo_tunnel.(sv_iface) = Some 7.
Proof. vm_compute. reflexivity. Qed.
Lemma demo_tunnel_conns : sv_conns demo_tunnel = {[100 := 0%nat; 101 := 1%nat]}.
Proof. vm_compute. reflexivity. Qed.
Lemma demo2_unlocked : unlocked demo2 100.
Proof. exists demo_tunnel. split; [apply demo_tunnel_lookup|apply demo_tunnel_unlocked]. Qed.
Lemma demo2_free : free_lock demo2 100.
Proof. apply unlocked_free, demo2_unlocked. Qed.

(** A buffer of the tun loop. *)
Definition demo_buffer : list Z := tcp_frame [10;0;0;2] [8;8;8;8] [192;1;1;187].
Lemma demo_buffer_ok : packet_buffer demo_buffer.
Proof. apply tcp_frame_buffer; reflexivity. Qed.

(** Every link of the demo can come up. *)
Lemma demo_up src ifname a :
  ParseAddr src = Some a → src ≠ "" → all_bytes plain_host_char src = true →
  ((network_getIpAddr (Some demo_ifaces) ifname).2 = None →
    is_Some ((network_getIpAddr (Some demo_ifaces) ifname).1 !! 0%nat)) →
  link_up demo_cfg src ifname.
Proof.
  intros Ha Hne Hp Hi. split.
  - intros t name. exists 7. split; [done|by eexists].
  - intros t. vm_compute. by eexists.
  - intros t port Hport. rewrite (ResolveUDPAddr_plain _ src port a) by done. by eexists.
  - intros t ip. by eexists.
  - intros. by eexists.
  - intros t. exact Hi.
Qed.

Lemma demo_up_eth0 : link_up demo_cfg "192.168.1.20" "eth0".
Proof.
  apply (demo_up _ _ (Addr4 [192;168;1;20])); [reflexivity|done|reflexivity|].
  intros _. vm_compute. by eexists.
Qed.

Lemma init_free tid : free_lock init_world tid.
Proof. by intros s Hs. Qed.

(** A tunnel with all its ids in use. *)
Definition demo_cfg20 : config := demo_cfg <| g_mux_max := 20 |>.
Definition demo_connect : W unit :=
  client_connect_server demo_cfg20 100 "192.168.1.20" "eth0" "" "start".

Fixpoint demo_runs (n : nat) (w : world) : option world :=
  match n with
  | O => Some w
  | S n' => match demo_connect w with (Ret tt, w') => demo_runs n' w' | _ => None end
  end.

Lemma demo_runs_ok n w w' : client_ok w → demo_runs n w = Some w' → client_ok w'.
Proof.
  revert w. induction n as [|n IH]; intros w Hok; simpl; [by intros [= <-]|].
  destruct (demo_connect w) as [[[]|?|?|] w1] eqn:Hrun; try done. apply IH.
  apply (wlp_connect demo_cfg20 100 "192.168.1.20" "eth0" "" "start" w) in Hrun; [|lia|lia|done].
  apply Hrun.
Qed.

Definition demo_full : world := default init_world (demo_runs 12 init_world).
Definition demo_full' : world := (demo_connect demo_full).2.

Lemma demo_full_ok : client_ok demo_full.
Proof.
  destruct (demo_runs 12 init_world) as [w|] eqn:Hrun.
  - unfold demo_full. rewrite Hrun. eapply demo_runs_ok; [apply init_ok|exact Hrun].
  - unfold demo_full. rewrite Hrun. apply init_ok.
Qed.
Lemma demo_full_run : demo_connect demo_full = (Ret tt, demo_full').
Proof. unfold demo_full'. apply (run_eq demo_connect). vm_compute. reflexivity. Qed.
Lemma demo_full_links :
  bool_decide (dom (links demo_full 100) =
    list_to_set [100; 101; 102; 103; 104; 105; 106; 107; 108; 109; 110; 111]) = true.
Proof. vm_compute. reflexivity. Qed.
Lemma dom_list {A} (m : gmap Z A) (l : list Z) k :
  bool_decide (dom m = list_to_set l) = true → k ∈ l → is_Some (m !! k).
Proof. intros H%bool_decide_eq_true Hk. apply elem_of_dom. rewrite H. by apply elem_of_list_to_set. Qed.

#[global] Opaque demo1 demo2 demo_full demo_full'.
