(* ===== verification/ClientProps.v ===== *)
(** * Properties of the client

    The theorems about bringing links up and down, each with a witness on the
    runs of [Demo]. *)
From stdpp Require Import base gmap sets list strings.
From Stdlib Require Import ZArith Lia.
From S2P Require Import Prelude GoFloat GoNet Network Ring World Session Wire FlowKey Client.
From S2P Require Import ClientLoops ClientSpec ClientDisconnect ClientConnect ClientInv Demo.
#[local] Open Scope Z_scope.

Section properties.
Context {C : Consistent} {CL : ConsistentLaws C} {E : Env} {EL : EnvLaws E} {P : HeaderParser}.
Context (cfg : config).

(** C1: the client's invariant, by induction on its steps: in every state its
    goroutines reach, each entry of a connection map is an open session of that
    id, the ring has exactly the ids of the map, no connection record is shared,
    and no source address has more links than [g_mux_max]. *)
Theorem client_invariant (w : world) (H : client_reachable cfg w) :
  client_ok w ∧ mux_bounded cfg w.
Proof.
  refine (rtc_ind_r (λ w, client_ok w ∧ mux_bounded cfg w) _ _ _ w H).
  - split; [by split; intros ? ?|]. intros tid src. unfold links. simpl. rewrite lookup_empty.
    unfold links_by_src. rewrite map_filter_empty, map_size_empty. lia.
  - intros w1 w2 _ Hstep [Hok Hb].
    destruct (client_step_cases cfg w1 w2 Hstep) as [(tid & src & ifname & Hc)|Hs].
    + specialize (Hc Hok). split; [apply Hc|by eapply connected_bounded].
    + split; [by apply Hs|by eapply shrinks_bounded].
Qed.

(** C2: [client_connect_server] refines the addition of a link.  A call that
    returns leaves the links as they are when the source address already has
    [g_mux_max] of them; otherwise it adds exactly one, on the first id from
    [tunnelid] that is free (the id after the range of eleven when none is),
    with the interface and source of the call.  Other tunnels keep their links,
    the invariant holds and the tunnel's mutex is free again. *)
Theorem client_connect_refines (tid : Z) (src ifname gw reason : string) (w w' : world)
    (Hpos : 0 < tid) (Hmax : tid + 11 < 2 ^ 32) (Hok : client_ok w)
    (Hrun : client_connect_server cfg tid src ifname gw reason w = (Ret tt, w')) :
  client_ok w' ∧ unlocked w' tid ∧ (∀ t, t ≠ tid → links w' t = links w t) ∧
  if bool_decide (cfg.(g_mux_max) <= links_by_src src (links w tid)) then
    links w' tid = links w tid
  else
    ∃ avail, free_slot tid (links w tid) avail ∧ avail < 2 ^ 16 ∧
      links w' tid = <[avail := mkLink ifname src]> (links w tid).
Proof. by apply (wlp_connect cfg tid src ifname gw reason w Hpos Hmax Hok tt). Qed.

(** C15: [client_connect_server] returns, with the link up, whenever the device
    and the sockets open and the addresses resolve: no panic, no deadlock, no
    endless search for an id. *)
Theorem client_connect_returns (tid : Z) (src ifname gw reason : string) (w : world)
    (Hup : link_up cfg src ifname) (Hpos : 0 < tid) (Hmax : tid + 11 < 2 ^ 16)
    (Hok : client_ok w) (Hlock : free_lock w tid) (Hlock' : free_lock w cfg.(g_tunnel_id)) :
  ∃ w', client_connect_server cfg tid src ifname gw reason w = (Ret tt, w') ∧
    connected cfg tid src ifname w w'.
Proof.
  destruct (wp_connect cfg src ifname Hup tid gw reason w Hpos Hmax Hok Hlock Hlock')
    as ([] & w' & Hrun & Hc). by exists w'.
Qed.

(** C37: with all twelve ids from [tunnelid] on in use, a further connection takes
    the last one from the link that has it, which is no longer listed: the number
    of links does not grow.  The guard meant for
    this case compares with [tunnelid+100] and never fires. *)
Theorem twelfth_connection_replaces (tid : Z) (src ifname gw reason : string) (w w' : world)
    (Hpos : 0 < tid) (Hmax : tid + 11 < 2 ^ 32) (Hok : client_ok w)
    (Hfull : ∀ k, tid <= k <= tid + 11 → is_Some (links w tid !! k))
    (Hmux : links_by_src src (links w tid) < cfg.(g_mux_max))
    (Hrun : client_connect_server cfg tid src ifname gw reason w = (Ret tt, w')) :
  links w' tid = <[tid + 11 := mkLink ifname src]> (links w tid) ∧
  size (links w' tid) = size (links w tid).
Proof.
  pose proof (wlp_connect cfg tid src ifname gw reason w Hpos Hmax Hok tt w' Hrun)
    as (_ & _ & _ & H).
  rewrite bool_decide_eq_false_2 in H by lia.
  destruct H as (avail & (Hav & Hused & Hfree) & _ & Hl).
  assert (avail = tid + 11) as ->.
  { destruct (decide (avail = tid + 11)); [done|].
    destruct (Hfull avail ltac:(lia)) as [lk Hlk]. by rewrite Hfree in Hlk by lia. }
  split; [done|]. rewrite Hl, map_size_insert.
  destruct (Hfull (tid + 11) ltac:(lia)) as [lk ->]. done.
Qed.

(** The search for an id ends for every tunnel id and every map that a
    [uint32] can key, wrap-around included. *)
Theorem slot_search_ends (conns : gmap Z loc) (tid : Z)
    (Htid : 0 <= tid < 2 ^ 32) (Hsize : Z.of_nat (size conns) < 2 ^ 32) :
  is_Some (find_slot (slot_fuel conns) conns (u32 (tid + 10)) tid).
Proof. apply find_slot_total; [done|done|]. unfold slot_fuel. lia. Qed.

(** C10: the netlink handler's disconnect returns and takes down exactly the links
    of one interface: they leave the map and the ring, and the sockets and KCP
    sessions closed outside are exactly theirs; every other link of every tunnel
    stays.  On a tunnel that does not exist it changes nothing. *)
Theorem disconnect_by_ifname (tid : Z) (ifname : string) (w : world)
    (Hok : client_ok w) (Hlock : free_lock w tid) :
  ∃ w', client_disconnect_session_by_ifname cfg tid ifname w = (Ret tt, w') ∧
    if bool_decide (is_Some (w.(g_server_list) !! tid))
    then taken_down tid (λ _ lk, bool_decide (lk.(l_ifname) = ifname)) w w'
    else w' = w.
Proof.
  assert (wp (client_disconnect_session_by_ifname cfg tid ifname) (λ _ w',
    if bool_decide (is_Some (w.(g_server_list) !! tid))
    then taken_down tid (λ _ lk, bool_decide (lk.(l_ifname) = ifname)) w w'
    else w' = w) w) as ([] & w' & Hrun & Hw'); [|by exists w'].
  unfold client_disconnect_session_by_ifname. wp_steps.
  destruct (g_server_list w !! tid) as [s|] eqn:Hs.
  - rewrite bool_decide_eq_true_2 by eauto. apply wp_disconnect; [done|done|].
    exists s. split; [done|]. by apply Hlock.
  - rewrite bool_decide_eq_false_2 by by intros [? ?]. by wp_steps.
Qed.

(** A disconnect by source address or by conversation id takes down exactly
    the links that match, on a tunnel that exists. *)
Theorem disconnect_by_src_convid (tid : Z) (src ifname gw : string) (convid : Z) (w : world)
    (Hok : client_ok w) (Hlock : unlocked w tid) :
  (∃ w', client_disconnect_session_by_src cfg tid src ifname gw w = (Ret tt, w') ∧
     taken_down tid (λ _ lk, bool_decide (lk.(l_src) = src)) w w') ∧
  (∃ w', client_disconnect_session_by_convid cfg tid convid w = (Ret tt, w') ∧
     taken_down tid (λ k _, bool_decide (k = convid)) w w').
Proof.
  split.
  - destruct (wp_disconnect cfg tid (λ c, bool_decide (c.(sc_src_address) = src))
      (λ _ lk, bool_decide (lk.(l_src) = src)) w) as ([] & w' & Hrun & Hd); [done..|by exists w'].
  - destruct (wp_disconnect cfg tid (λ c, bool_decide (c.(sc_convid) = convid))
      (λ k _, bool_decide (k = convid)) w) as ([] & w' & Hrun & Hd); [done..|by exists w'].
Qed.

(** On a tunnel that does not exist the two functions that only log it
    dereference the nil pointer. *)
Theorem disconnect_missing_tunnel (tid : Z) (src ifname gw : string) (convid : Z) (w : world)
    (Hmiss : w.(g_server_list) !! tid = None) :
  client_disconnect_session_by_src cfg tid src ifname gw w = (Panic "nil *serverType", w) ∧
  client_disconnect_session_by_convid cfg tid convid w = (Panic "nil *serverType", w) ∧
  client_disconnect_session_by_ifname cfg tid ifname w = (Ret tt, w).
Proof.
  unfold client_disconnect_session_by_src, client_disconnect_session_by_convid,
    client_disconnect_session_by_ifname, lock_server, get_server, getS, mbind, M_bind.
  simpl. by rewrite Hmiss.
Qed.

(** C31: a goroutine that reads from a connection ends at its next turn once the
    connection is taken down, and touches nothing. *)
Theorem reader_ends_after_disconnect (tid : Z) (convid : Z) (s : serverType) (l : loc)
    (rxtimeouts : Z) (w w' : world) (Hok : client_ok w)
    (Hs : w.(g_server_list) !! tid = Some s) (Hl : sv_conns s !! convid = Some l)
    (Hrun : client_disconnect_session_by_convid cfg tid convid w = (Ret tt, w')) :
  client_handle_kcp_turn cfg tid l rxtimeouts w' = (Ret None, w').
Proof.
  pose proof (wlp_disconnect cfg tid (λ c, bool_decide (c.(sc_convid) = convid))
    (λ k _, bool_decide (k = convid)) w ltac:(done) Hok tt w' Hrun) as (_ & _ & _ & _ & Hclosed & _).
  destruct (listed_conn w tid s convid l Hok Hs Hl) as (c & Hc & _ & _).
  destruct (Hclosed s convid l (link_of c) Hs Hl) as (c' & Hc' & Hses).
  - by eapply listed_link.
  - by apply bool_decide_eq_true_2.
  - unfold client_handle_kcp_turn, get_sconn, getS, mbind, M_bind. simpl. rewrite Hc'. simpl.
    by rewrite Hses.
Qed.
End properties.

(** ** Witnesses *)

Lemma client_invariant_witness :
  client_reachable demo_cfg demo2 ∧ client_ok demo2 ∧ mux_bounded demo_cfg demo2.
Proof.
  assert (client_reachable demo_cfg demo2) as H.
  { eapply rtc_l; [eapply (step_connect demo_cfg 100), demo1_run; lia|].
    apply rtc_once. eapply (step_connect demo_cfg 100), demo2_run; lia. }
  split; [exact H|]. apply (client_invariant demo_cfg demo2 H).
Defined.

Lemma client_connect_refines_witness :
  links demo2 100 = {[100 := mkLink "eth0" "192.168.1.20"; 101 := mkLink "ppp0" "100.64.0.7"]} ∧
  ∃ avail, free_slot 100 (links demo1 100) avail ∧ avail < 2 ^ 16 ∧
    links demo2 100 = <[avail := mkLink "ppp0" "100.64.0.7"]> (links demo1 100).
Proof.
  split; [apply demo2_links|].
  destruct (client_connect_refines demo_cfg 100 "100.64.0.7" "ppp0" "" "start" demo1 demo2
    ltac:(lia) ltac:(lia) demo1_ok demo2_run) as (_ & _ & _ & H).
  rewrite bool_decide_eq_false_2 in H; [exact H|].
  rewrite demo1_links. vm_compute. intros Hle. by apply Hle.
Defined.

Lemma client_connect_returns_witness :
  ∃ w', client_connect_server demo_cfg 100 "192.168.1.20" "eth0" "" "start" init_world =
      (Ret tt, w') ∧ connected demo_cfg 100 "192.168.1.20" "eth0" init_world w'.
Proof.
  apply (client_connect_returns demo_cfg 100 "192.168.1.20" "eth0" "" "start" init_world
    demo_up_eth0 ltac:(lia) ltac:(lia) init_ok (init_free 100) (init_free _)).
Defined.

Lemma twelfth_connection_replaces_witness :
  links demo_full' 100 = <[111 := mkLink "eth0" "192.168.1.20"]> (links demo_full 100) ∧
  size (links demo_full' 100) = size (links demo_full 100).
Proof.
  apply (twelfth_connection_replaces demo_cfg20 100 "192.168.1.20" "eth0" "" "start"
    demo_full demo_full' ltac:(lia) ltac:(lia) demo_full_ok); [| |exact demo_full_run].
  - intros k Hk. apply (dom_list _ _ k demo_full_links). rewrite !elem_of_cons. lia.
  - vm_compute. reflexivity.
Defined.

Lemma slot_search_ends_witness :
  is_Some (find_slot (slot_fuel {[4294967290 := 0%nat]}) {[4294967290 := 0%nat]}
    (u32 (4294967290 + 10)) 4294967290).
Proof.
  apply (slot_search_ends {[4294967290 := 0%nat]} 4294967290); [lia|].
  rewrite map_size_singleton. lia.
Defined.

Lemma disconnect_by_ifname_witness :
  ∃ w', client_disconnect_session_by_ifname demo_cfg 100 "eth0" demo2 = (Ret tt, w') ∧
    taken_down 100 (λ _ lk, bool_decide (lk.(l_ifname) = "eth0")) demo2 w' ∧
    filter (λ x, bool_decide (x.2.(l_ifname) = "eth0") = false) (links demo2 100) =
      {[101 := mkLink "ppp0" "100.64.0.7"]}.
Proof.
  destruct (disconnect_by_ifname demo_cfg 100 "eth0" demo2 demo2_ok demo2_free) as (w' & Hrun & Hd).
  rewrite bool_decide_eq_true_2 in Hd by (rewrite demo_tunnel_lookup; by eexists).
  exists w'. split; [exact Hrun|]. split; [exact Hd|]. rewrite demo2_links. vm_compute. reflexivity.
Defined.

Lemma disconnect_by_src_convid_witness :
  (∃ w', client_disconnect_session_by_src demo_cfg 100 "100.64.0.7" "ppp0" "" demo2 = (Ret tt, w') ∧
     taken_down 100 (λ _ lk, bool_decide (lk.(l_src) = "100.64.0.7")) demo2 w') ∧
  (∃ w', client_disconnect_session_by_convid demo_cfg 100 101 demo2 = (Ret tt, w') ∧
     taken_down 100 (λ k _, bool_decide (k = 101)) demo2 w').
Proof.
  apply (disconnect_by_src_convid demo_cfg 100 "100.64.0.7" "ppp0" "" 101 demo2
    demo2_ok demo2_unlocked).
Defined.

Lemma disconnect_missing_tunnel_witness :
  client_disconnect_session_by_src demo_cfg 7 "" "" "" init_world =
    (Panic "nil *serverType", init_world) ∧
  client_disconnect_session_by_convid demo_cfg 7 1 init_world =
    (Panic "nil *serverType", init_world) ∧
  client_disconnect_session_by_ifname demo_cfg 7 "" init_world = (Ret tt, init_world).
Proof. apply (disconnect_missing_tunnel demo_cfg 7 "" "" "" 1 init_world eq_refl). Defined.

Lemma reader_ends_after_disconnect_witness :
  ∃ w', client_disconnect_session_by_convid demo_cfg 100 101 demo2 = (Ret tt, w') ∧
    client_handle_kcp_turn demo_cfg 100 1 0 w' = (Ret None, w').
Proof.
  destruct (wp_disconnect demo_cfg 100 (λ c, bool_decide (c.(sc_convid) = 101))
    (λ k _, bool_decide (k = 101)) demo2) as ([] & w' & Hrun & _);
    [reflexivity|apply demo2_ok|apply demo2_unlocked|].
  exists w'. split; [exact Hrun|].
  apply (reader_ends_after_disconnect demo_cfg 100 101 demo_tunnel 1 0 demo2 w'
    demo2_ok demo_tunnel_lookup); [|exact Hrun].
  rewrite demo_tunnel_conns. reflexivity.
Defined.
