(* ===== verification/ClientTraffic.v ===== *)
(** * Properties of the client's scheduler and goroutines

    Which connection carries a packet, what a link-down message and a ping do,
    and how the reader of a connection reacts to what it reads. *)
From stdpp Require Import base gmap sets list strings.
From Stdlib Require Import ZArith Lia.
From S2P Require Import Prelude GoFloat GoNet Network Ring World Session Wire FlowKey Client.
From S2P Require Import ClientLoops ClientSpec ClientDisconnect ClientConnect ClientInv Demo.
#[local] Open Scope Z_scope.

Section traffic.
Context {C : Consistent} {CL : ConsistentLaws C} {E : Env} {EL : EnvLaws E}.
Context {P : HeaderParser} {PL : HeaderParserLaws P}.
Context (cfg : config).

(** A key is computed for every packet buffer. *)
Lemma ExtractSrc_ret p n : packet_buffer p → ∃ key, ExtractSrc p n = Ret key.
Proof.
  unfold packet_buffer. intros Hp. unfold ExtractSrc. rewrite ParseHeader_fields by lia.
  destruct (_ && _); [|by eexists]. unfold tcp_key.
  assert (∀ i : nat, Z.of_nat i < 65535 → is_Some (p !! i)) as Hin.
  { intros i Hi. apply lookup_lt_is_Some. lia. }
  destruct (Hin 20%nat ltac:(lia)) as [? ->], (Hin 21%nat ltac:(lia)) as [? ->],
    (Hin 22%nat ltac:(lia)) as [? ->], (Hin 23%nat ltac:(lia)) as [? ->]. by eexists.
Qed.

Lemma wp_consistent_choice tid packet n s w :
  cfg.(g_use_consistent_hashing) = true → client_ok w → w.(g_server_list) !! tid = Some s →
  is_Some s.(sv_connections) → packet_buffer packet →
  wp (client_choose_kcp_conn cfg (Some packet) n tid) (λ r w', w' = w ∧
    (sv_conns s = ∅ → r.2 = Some "consitent get failed") ∧
    (sv_conns s ≠ ∅ → r.2 = None ∧ 0 < r.1 ∧ is_Some (sv_conns s !! r.1))) w.
Proof.
  intros Hcfg Hok Hs [conns Hconns] Hp.
  destruct (ok_tunnels _ Hok _ _ Hs) as [_ Hkeys Hring _].
  destruct (Hring conns Hconns) as (r & Hr & Hm).
  assert (sv_conns s = conns) as Hsc by (unfold sv_conns; by rewrite Hconns).
  rewrite Hsc in *. destruct (ExtractSrc_ret packet n Hp) as [key Hkey].
  unfold client_choose_kcp_conn. rewrite Hcfg. wp_step. eapply wp_lift; [done|]. wp_steps.
  rewrite Hr. wp_steps. pose proof (ring_choice conns key r Hm) as Hch.
  destruct (ring_Get r key) as [owner|]; [|by wp_steps].
  destruct Hch as (k & [l Hk] & ->). pose proof (Hkeys k l Hk) as Hrange. simpl in Hrange.
  assert (2 ^ 16 <= 2 ^ (env_int_bits - 1)) as Hb.
  { apply Z.pow_le_mono_r; [lia|]. destruct int_bits_cases; lia. }
  rewrite Atoi_fmt_d by (destruct int_bits_cases; lia). wp_steps.
  rewrite u32_small by lia. split; [done|]. split; [intros ->; done|]. intros _.
  split; [done|]. split; [simpl; lia|by eexists].
Qed.

(** C23: with consistent hashing, the connection chosen for a packet is one of the
    tunnel, whenever it has any, and the choice changes nothing; without
    connections the packet is refused.  The decimal id in the ring is read back
    as the id itself on 32-bit and 64-bit targets. *)
Theorem consistent_choice (tid : Z) (packet : list Z) (n : Z) (s : serverType) (w : world)
    (Hcfg : cfg.(g_use_consistent_hashing) = true) (Hok : client_ok w)
    (Hs : w.(g_server_list) !! tid = Some s) (Hconns : is_Some s.(sv_connections))
    (Hp : packet_buffer packet) :
  ∃ k err, client_choose_kcp_conn cfg (Some packet) n tid w = (Ret (k, err), w) ∧
    (sv_conns s = ∅ → err = Some "consitent get failed") ∧
    (sv_conns s ≠ ∅ → err = None ∧ 0 < k ∧ is_Some (sv_conns s !! k)).
Proof.
  destruct (wp_consistent_choice tid packet n s w Hcfg Hok Hs Hconns Hp)
    as ([k err] & w' & Hrun & -> & H). by exists k, err.
Qed.


(** C25: without consistent hashing (and for a link-down message) the choice is
    a connection of the tunnel, alive and not the one used last whenever there
    is such a connection; it becomes the last one used.  A tunnel without
    connections gives an error, and nothing else changes. *)
Theorem round_robin_choice (tid : Z) (packet : option (list Z)) (n : Z) (s : serverType) (w : world)
    (Hrr : packet = None ∨ cfg.(g_use_consistent_hashing) = false) (Hok : client_ok w)
    (Hs : w.(g_server_list) !! tid = Some s) :
  ∃ k err w', client_choose_kcp_conn cfg packet n tid w = (Ret (k, err), w') ∧ quiet w w' ∧
    (sv_conns s = ∅ → err = Some "no connections available") ∧
    (sv_conns s ≠ ∅ → err = None ∧ is_Some (sv_conns s !! k) ∧
       w'.(g_server_list) !! tid = Some (s <| sv_last_convid := k |>) ∧
       ((∃ k', is_Some (sv_conns s !! k') ∧ k' ≠ s.(sv_last_convid) ∧ alive_of w s k' = true) →
         k ≠ s.(sv_last_convid) ∧ alive_of w s k = true)).
Proof.
  assert (wp (client_choose_kcp_conn cfg packet n tid) (λ r w', (sv_conns s = ∅ → r.2 = Some "no connections available") ∧
    (sv_conns s ≠ ∅ → r.2 = None ∧ is_Some (sv_conns s !! r.1) ∧
       w'.(g_server_list) !! tid = Some (s <| sv_last_convid := r.1 |>) ∧
       ((∃ k', is_Some (sv_conns s !! k') ∧ k' ≠ s.(sv_last_convid) ∧ alive_of w s k' = true) →
         r.1 ≠ s.(sv_last_convid) ∧ alive_of w s r.1 = true))) w) as Hwp.
  { eapply wp_choose_rr; [done|done|done|by intros ->|].
    intros p Hp Hpick. split; [intros He; rewrite He in Hp; by destruct Hp|].
    intros _. split; [done|]. split; [done|]. split; [simpl; by rewrite lookup_insert_eq|].
    intros (k' & Hk' & Hne & Ha). simpl. rewrite Hpick.
    eapply rr_pick_alive; [|done|done]. by apply range_keys_elem. }
  destruct (wp_quiet_step _ _ w (λ w0, quiet_choose cfg w0 packet n tid) Hwp)
    as ([k err] & w' & Hrun & H & Hq). by exists k, err, w'.
Qed.

(** [kcp] is the KCP session of the connection at [l]. *)
Definition kcp_of (w : world) (l : loc) (kcp : handle) : Prop :=
  ∃ c ses, w.(w_sconns) !! l = Some c ∧ c.(sc_session) = Some ses ∧ ses.(s_kcp) = Some kcp.

Lemma listed_kcp w tid s k l :
  client_ok w → w.(g_server_list) !! tid = Some s → sv_conns s !! k = Some l →
  ∃ kcp, kcp_of w l kcp.
Proof.
  intros Hok Hs Hl. destruct (listed_conn w tid s k l Hok Hs Hl) as (c & Hc & _ & ses & kcp & Hses & Hkcp).
  by exists kcp, c, ses.
Qed.

(** A link-down message names the connection that went and is sent once,
    over a connection the tunnel still has; with none left nothing is sent. *)
Theorem linkdown_sent (tid convid : Z) (s : serverType) (w : world) (Hok : client_ok w)
    (Hs : w.(g_server_list) !! tid = Some s) :
  ∃ w', client_send_linkdown_message cfg tid convid w = (Ret tt, w') ∧
    (sv_conns s = ∅ → w' = w) ∧
    (sv_conns s ≠ ∅ → ∃ k l kcp t, sv_conns s !! k = Some l ∧ kcp_of w l kcp ∧
       w'.(w_trace) = w.(w_trace) ++
         [EvKcpWriteDeadline kcp t; EvKcpWrite kcp (linkdown_message convid)]).
Proof.
  assert (wp (client_send_linkdown_message cfg tid convid) (λ _ w', (sv_conns s = ∅ → w' = w) ∧
    (sv_conns s ≠ ∅ → ∃ k l kcp t, sv_conns s !! k = Some l ∧ kcp_of w l kcp ∧
       w'.(w_trace) = w.(w_trace) ++
         [EvKcpWriteDeadline kcp t; EvKcpWrite kcp (linkdown_message convid)])) w)
    as ([] & w' & Hrun & H); [|by exists w'].
  unfold client_send_linkdown_message. wp_step.
  eapply wp_choose_rr; [by left|done|done| |].
  - intros He. simpl. by wp_steps.
  - intros p [l Hp] _. simpl.
    assert (sv_conns s ≠ ∅) as Hne by (intros He; by rewrite He in Hp).
    assert (0 < p) as Hpos by by apply (ok_keys _ _ _ (ok_tunnels _ Hok _ _ Hs) p l).
    rewrite (bool_decide_eq_false_2 (p = 0)) by lia. wp_steps.
    change (sv_conns (s <| sv_last_convid := p |>)) with (sv_conns s). rewrite Hp.
    destruct (listed_conn w tid s p l Hok Hs Hp) as (c & Hc & _ & ses & kcp & Hses & Hkcp).
    wp_steps. unfold rat_SetWriteDeadline, rat_Write. rewrite Hses. simpl. rewrite Hkcp. wp_steps.
    destruct (env_kcp_Write _ _ _); wp_steps; (split; [done|]); intros _;
      eexists p, l, kcp, _; (split_and!; [done|by exists c, ses|]);
      simpl; by rewrite <- app_assoc.
Qed.

Lemma closes_one_quiet tid s s2 test passed w w2 e :
  quiet w w2 → sv_conns s2 = sv_conns s →
  closes_one tid s2 test passed w2 e → closes_one tid s test passed w e.
Proof.
  intros Hq Hconns (k & l & c & Hk & Hc & Ht & Hd & He).
  destruct (quiet_conn _ _ _ _ Hq Hc) as (c0 & Hc0 & Hcore).
  apply conn_core_fields in Hcore as (_ & Hses & Hlk & _).
  exists k, l, c0. rewrite <- Hconns, <- Hlk, <- Hses. by split_and!.
Qed.

Lemma taken_down_quiet tid test w w2 w' :
  quiet w w2 → seen closing w2 = seen closing w →
  taken_down tid test w2 w' → taken_down tid test w w'.
Proof.
  intros Hq Hseen (H1 & H2 & H3 & H4 & H5 & H6). split_and!; [done|done| | | |].
  - by rewrite H3, (quiet_links _ _ _ Hq).
  - intros t Ht. rewrite H4 by done. by apply quiet_links.
  - intros s k l lk Hs Hk Hlk Ht.
    destruct (quiet_server _ _ _ _ (quiet_sym _ _ Hq) Hs) as (s2 & Hs2 & Hcore).
    apply server_core_conns in Hcore as [Hc _].
    apply (H5 s2 k l lk); [done|by rewrite <- Hc|by rewrite (quiet_links _ _ _ Hq)|done].
  - intros s Hs. destruct (quiet_server _ _ _ _ (quiet_sym _ _ Hq) Hs) as (s2 & Hs2 & Hcore).
    apply server_core_conns in Hcore as [Hc _]. destruct (H6 s2 Hs2) as (es & Hes & Hiff).
    exists es. rewrite Hes, Hseen. split; [done|]. intros e. rewrite Hiff.
    split; eapply closes_one_quiet; eauto using quiet_sym.
Qed.

(** C28: one connection of the keep-alive pass.  A connection whose last hello is
    too old is disconnected; any other gets a hello and its byte counters are
    reset for the next bandwidth estimate. *)
Theorem ping_connection (tid k : Z) (s : serverType) (l : loc) (c : serverConnection) (w : world)
    (Hok : client_ok w) (Hs : w.(g_server_list) !! tid = Some s)
    (Hlock : s.(sv_locked) = false) (Hl : sv_conns s !! k = Some l)
    (Hc : w.(w_sconns) !! l = Some c) :
  ∃ w', client_ping_connection cfg tid k w = (Ret tt, w') ∧
    if hello_expired (env_now w.(w_tick)) c.(sc_last_hello)
    then taken_down tid (λ k' _, bool_decide (k' = k)) w w'
    else quiet w w' ∧ w'.(w_trace) = w.(w_trace) ++ [EvGo (GoClientSendHello l tid)] ∧
      ∃ c', w'.(w_sconns) !! l = Some c' ∧ c'.(sc_txbytes) = 0 ∧ c'.(sc_rxbytes) = 0 ∧
        c'.(sc_last_bw_update) = env_now w.(w_tick).
Proof.
  assert (wp (client_ping_connection cfg tid k) (λ _ w',
    if hello_expired (env_now w.(w_tick)) c.(sc_last_hello)
    then taken_down tid (λ k' _, bool_decide (k' = k)) w w'
    else quiet w w' ∧ w'.(w_trace) = w.(w_trace) ++ [EvGo (GoClientSendHello l tid)] ∧
      ∃ c', w'.(w_sconns) !! l = Some c' ∧ c'.(sc_txbytes) = 0 ∧ c'.(sc_rxbytes) = 0 ∧
        c'.(sc_last_bw_update) = env_now w.(w_tick)) w) as ([] & w' & Hrun & H); [|by exists w'].
  destruct (listed_conn w tid s k l Hok Hs Hl) as (c0 & Hc0 & Hck & Ho).
  assert (c0 = c) as -> by congruence.
  assert (s.(sv_base_convid) = tid) as Hb.
  { apply (ok_base _ _ _ (ok_tunnels _ Hok _ _ Hs)). left. unfold sv_conns in Hl.
    destruct (sv_connections s); [by eexists|done]. }
  unfold client_ping_connection. wp_steps. rewrite Hl. wp_steps. rewrite Hb.
  destruct (hello_expired _ _).
  - assert (quiet w (w <| w_tick ::= S |>)) as Hq by (by unfold quiet).
    eapply wp_mono; [eapply (wp_disconnect cfg tid _ (λ k' _, bool_decide (k' = k)))|].
    + intros c'. by rewrite Hck.
    + by eapply quiet_ok.
    + by exists s.
    + intros [] w' H. by apply (taken_down_quiet _ _ w (w <| w_tick ::= S |>)).
  - destruct Ho as (ses & kcp & Hses & _). rewrite Hses. wp_steps.
    unfold client_update_bandwidth. wp_steps. split_and!; [|done|].
    + unfold quiet. simpl. split_and!; try done.
      rewrite fmap_insert. apply insert_id. rewrite lookup_fmap, Hc. simpl. f_equal.
    + eexists. simpl. rewrite lookup_insert_eq. by split_and!.
Qed.

(** *** The reader of a connection *)

(** Disconnecting a listed connection by its id. *)
Lemma wp_by_convid tid k w w0 :
  quiet w0 w → seen closing w = seen closing w0 → client_ok w → unlocked w tid →
  wp (client_disconnect_session_by_convid cfg tid k)
    (λ _ w', taken_down tid (λ k' _, bool_decide (k' = k)) w0 w') w.
Proof.
  intros Hq Hseen Hok Hu. eapply wp_mono.
  - by apply (wp_disconnect cfg tid _ (λ k' _, bool_decide (k' = k))).
  - intros [] w' H. by eapply taken_down_quiet.
Qed.

(** C30: a read that times out.  Up to 20 time-outs are only counted; the 21st
    takes the connection down and ends the goroutine.  What decides is the
    counter of the connection, which is never reset: the local counter
    [rxtimeouts], set back to 0 by every successful read, makes no difference. *)
Theorem reader_timeout (tid k : Z) (s : serverType) (l : loc) (c : serverConnection)
    (ses : RatSession) (kcp : handle) (rxtimeouts : Z) (w : world)
    (Hok : client_ok w) (Hs : w.(g_server_list) !! tid = Some s) (Hlock : s.(sv_locked) = false)
    (Hl : sv_conns s !! k = Some l) (Hc : w.(w_sconns) !! l = Some c)
    (Hses : c.(sc_session) = Some ses) (Hkcp : ses.(s_kcp) = Some kcp)
    (Hstate : env_kcp_GetState w.(w_tick) kcp ≠ kcp_dead)
    (Hread : env_kcp_Read (S (S w.(w_tick))) kcp = inr "timeout")
    (Hrx : 0 <= rxtimeouts <= c.(sc_rxtimeouts)) (Hbig : c.(sc_rxtimeouts) + 1 < 2 ^ 64) :
  ∃ r w', client_handle_kcp_turn cfg tid l rxtimeouts w = (Ret r, w') ∧
    if bool_decide (20 <= c.(sc_rxtimeouts))
    then r = None ∧ taken_down tid (λ k' _, bool_decide (k' = k)) w w'
    else r = Some (rxtimeouts + 1) ∧ quiet w w' ∧
      ∃ c', w'.(w_sconns) !! l = Some c' ∧ c'.(sc_rxtimeouts) = c.(sc_rxtimeouts) + 1.
Proof.
  destruct (listed_conn w tid s k l Hok Hs Hl) as (c0 & Hc0 & Hck & _).
  assert (c0 = c) as -> by congruence.
  assert (s.(sv_base_convid) = tid) as Hb.
  { apply (ok_base _ _ _ (ok_tunnels _ Hok _ _ Hs)). left. unfold sv_conns in Hl.
    destruct (sv_connections s); [by eexists|done]. }
  assert (wp (client_handle_kcp_turn cfg tid l rxtimeouts) (λ r w',
    if bool_decide (20 <= c.(sc_rxtimeouts))
    then r = None ∧ taken_down tid (λ k' _, bool_decide (k' = k)) w w'
    else r = Some (rxtimeouts + 1) ∧ quiet w w' ∧
      ∃ c', w'.(w_sconns) !! l = Some c' ∧ c'.(sc_rxtimeouts) = c.(sc_rxtimeouts) + 1) w)
    as (r & w' & Hrun & H); [|by exists r, w'].
  unfold client_handle_kcp_turn. wp_steps. rewrite Hses. unfold rat_GetState. wp_step. simpl.
  rewrite Hkcp. wp_steps. rewrite bool_decide_eq_false_2 by done. wp_steps.
  simpl w_tick. rewrite Hread.
  rewrite bool_decide_eq_true_2 by done. wp_steps.
  assert (u64 (sc_rxtimeouts c + 1) = sc_rxtimeouts c + 1) as Hu.
  { unfold u64. apply Z.mod_small. lia. }
  change (sc_rxtimeouts (c <| sc_rxtimeouts ::= λ n, u64 (n + 1) |>)) with (u64 (sc_rxtimeouts c + 1)).
  change (sc_convid (c <| sc_rxtimeouts ::= λ n, u64 (n + 1) |>)) with (sc_convid c).
  match goal with |- wp _ _ ?w2 => assert (quiet w w2) as Hq end.
  { unfold quiet. simpl. split_and!; try done.
    rewrite fmap_insert. apply insert_id. rewrite lookup_fmap, Hc. simpl. by f_equal. }
  rewrite Hu. unfold g_client_max_rxtimeouts.
  rewrite (bool_decide_ext (20 < sc_rxtimeouts c + 1) (20 <= sc_rxtimeouts c)) by lia.
  case_bool_decide as H20; rewrite ?orb_true_l.
  - rewrite Hck, Hb. wp_step. eapply wp_mono.
    + apply (wp_by_convid tid k _ w Hq); [|exact (quiet_ok _ _ Hq Hok)|by exists s].
      etrans; [by eapply seen_trace|]. simpl. by rewrite app_nil_r.
    + intros [] w' Htd. wp_steps. done.
  - rewrite orb_false_l, bool_decide_eq_false_2 by lia. wp_steps.
    split; [done|]. split; [exact Hq|].
    eexists. simpl. rewrite lookup_insert_eq. split; [done|]. simpl. done.
Qed.

(** What was read from a connection goes to the tun interface unchanged,
    unless it is a hello; both count and refresh the time of the last hello. *)
Theorem receive_forwards (tid : Z) (l : loc) (data : list Z) (s : serverType) (tun : handle)
    (c : serverConnection) (w : world) (Hs : w.(g_server_list) !! tid = Some s)
    (Htun : s.(sv_iface) = Some tun) (Hc : w.(w_sconns) !! l = Some c) :
  ∃ w' c' t, client_receive tid l data w = (Ret tt, w') ∧ quiet w w' ∧
    w'.(w_trace) = w.(w_trace) ++
      (if is_hello data then [] else [EvTunWrite tun data]) ∧
    w'.(w_sconns) !! l = Some c' ∧ c'.(sc_last_hello) = env_now t ∧
    c'.(sc_rxcounter) = u64 (c.(sc_rxcounter) + 1) ∧
    c'.(sc_rxbytes) = u64 (c.(sc_rxbytes) + Z.of_nat (length data)).
Proof.
  assert (wp (client_receive tid l data) (λ _ w', ∃ c' t,
    w'.(w_trace) = w.(w_trace) ++ (if is_hello data then [] else [EvTunWrite tun data]) ∧
    w'.(w_sconns) !! l = Some c' ∧ c'.(sc_last_hello) = env_now t ∧
    c'.(sc_rxcounter) = u64 (c.(sc_rxcounter) + 1) ∧
    c'.(sc_rxbytes) = u64 (c.(sc_rxbytes) + Z.of_nat (length data))) w) as Hwp.
  { unfold client_receive, client_classify. wp_steps. destruct (is_hello data).
    - wp_steps. eexists _, (S (w_tick w)). rewrite app_nil_r. split; [done|]. simpl.
      rewrite lookup_insert_eq. by split_and!.
    - wp_steps. rewrite Htun. wp_steps. eexists _, (w_tick w). split; [done|]. simpl.
      rewrite lookup_insert_eq. by split_and!. }
  destruct (wp_quiet_step _ _ w (λ w0, quiet_receive w0 tid l data) Hwp)
    as ([] & w' & Hrun & (c' & t & H) & Hq). by exists w', c', t.
Qed.

Lemma read_into_buffer packet data :
  packet_buffer packet → Z.of_nat (length data) <= 65535 → packet_buffer (read_into packet data).
Proof.
  unfold packet_buffer, read_into. intros. rewrite length_app, length_drop. lia.
Qed.

(** A packet from the tun interface is written, unchanged, by one [Write] to
    a connection of the tunnel, whenever the tunnel has connections and KCP
    accepts it; the buffer is ready for the next packet. *)
Theorem tun_packet_forwarded (tid : Z) (packet data : list Z) (s : serverType) (tun : handle)
    (w : world) (Hcfg : cfg.(g_use_consistent_hashing) = true) (Hok : client_ok w)
    (Hs : w.(g_server_list) !! tid = Some s) (Hlock : s.(sv_locked) = false)
    (Htun : s.(sv_iface) = Some tun) (Hconns : sv_conns s ≠ ∅) (Hp : packet_buffer packet)
    (Hread : env_tun_Read w.(w_tick) tun = inl data) (Hlen : Z.of_nat (length data) <= 65535)
    (Halive : ∀ t kcp, env_kcp_GetState t kcp ≠ kcp_dead)
    (Hwrite : ∀ t kcp d, env_kcp_Write t kcp d = None) :
  ∃ w' k l kcp t, client_handle_tun_turn cfg tid packet w =
      (Ret (Some (read_into packet data)), w') ∧
    packet_buffer (read_into packet data) ∧ quiet w w' ∧
    sv_conns s !! k = Some l ∧ kcp_of w l kcp ∧
    w'.(w_trace) = w.(w_trace) ++ [EvKcpWriteDeadline kcp t; EvKcpWrite kcp data].
Proof.
  assert (packet_buffer (read_into packet data)) as Hp' by by apply read_into_buffer.
  assert (is_Some s.(sv_connections)) as Hsome.
  { unfold sv_conns in Hconns. destruct (sv_connections s); [by eexists|done]. }
  assert (wp (client_handle_tun_turn cfg tid packet) (λ r w', r = Some (read_into packet data) ∧
    quiet w w' ∧ ∃ k l kcp t, sv_conns s !! k = Some l ∧ kcp_of w l kcp ∧
    w'.(w_trace) = w.(w_trace) ++ [EvKcpWriteDeadline kcp t; EvKcpWrite kcp data]) w)
    as (r & w' & Hrun & -> & Hq & k & l & kcp & t & H); [|by exists w', k, l, kcp, t].
  unfold client_handle_tun_turn. wp_steps. rewrite Htun. wp_steps. rewrite Hread.
  set (w1 := w <| w_tick ::= S |>).
  assert (quiet w w1) as Hq1 by by unfold quiet.
  wp_step. eapply wp_mono.
  { apply (wp_consistent_choice tid _ _ s w1); [done|by eapply quiet_ok|done|done|done]. }
  intros [k err] w' (-> & _ & Hne). destruct (Hne Hconns) as (Herr & Hk & l & Hl).
  simpl in Herr, Hk, Hl. subst err.
  rewrite bool_decide_eq_true_2 by done. rewrite bool_decide_eq_false_2 by lia. simpl orb.
  destruct (listed_conn w tid s k l Hok Hs Hl) as (c & Hc & _ & ses & kcp & Hses & Hkcp).
  cbn iota. wp_step. eapply wp_lock_server; [done|done|].
  wp_step. eapply wp_get_server; [simpl; by rewrite lookup_insert_eq|].
  wp_step. eapply wp_unlock_server; [simpl; by rewrite lookup_insert_eq|].
  change (sv_conns (s <| sv_locked := true |>)) with (sv_conns s). rewrite Hl.
  wp_steps. rewrite Hses. unfold rat_GetState. wp_step. rewrite Hkcp. wp_steps.
  rewrite bool_decide_eq_false_2 by done. unfold client_transmit. wp_steps.
  unfold rat_SetWriteDeadline, rat_Write. rewrite Hses. simpl. rewrite Hkcp. wp_steps.
  rewrite Hwrite. wp_steps. split; [done|]. split.
  - unfold quiet. simpl. rewrite insert_insert_eq. split_and!; try done.
    + rewrite fmap_insert. apply insert_id. rewrite lookup_fmap, Hs. simpl. f_equal.
      destruct s. simpl in *. by subst.
    + rewrite fmap_insert. apply insert_id. rewrite lookup_fmap, Hc. simpl. by f_equal.
  - eexists k, l, kcp, _. split; [done|]. split; [by exists c, ses|].
    simpl. by rewrite <- app_assoc.
Qed.

(** The command that [client_check_paths] runs after looking at the routes. *)
Definition route_action (has_conns default_via : bool) (remote : string) : list event :=
  match has_conns, default_via with
  | true, false => [EvCommand "ip" ["route"; "add"; "default"; "via"; remote]]
  | false, true => [EvCommand "ip" ["route"; "delete"; "default"; "via"; remote]]
  | _, _ => []
  end.

(** The default route follows the connections: it is added when the tunnel
    has one and the route is not there, deleted when the tunnel has none and the
    route is there, and left alone otherwise. *)
Theorem default_route_follows (s : serverType) (w : world)
    (Hs : w.(g_server_list) !! cfg.(g_tunnel_id) = Some s) (Hlock : s.(sv_locked) = false) :
  let show := ["route"; "show"; "match"; "0.0.0.0"] in
  let out := match env_exec w.(w_tick) "ip" show with None => "error" | Some o => o end in
  ∃ w', client_check_paths cfg w = (Ret tt, w') ∧ quiet w w' ∧
    w'.(w_trace) = w.(w_trace) ++ EvCommand "ip" show ::
      route_action (bool_decide (sv_conns s ≠ ∅)) (contains out s.(sv_remote_tun_ip))
        s.(sv_remote_tun_ip).
Proof.
  intros show out.
  assert (wp (client_check_paths cfg) (λ _ w', w'.(w_trace) = w.(w_trace) ++ EvCommand "ip" show ::
      route_action (bool_decide (sv_conns s ≠ ∅)) (contains out s.(sv_remote_tun_ip))
        s.(sv_remote_tun_ip)) w) as Hwp.
  { unfold client_check_paths. wp_steps. rewrite Hs. wp_step. eapply wp_lock_server; [done..|].
    wp_step. eapply wp_get_server; [simpl; by rewrite lookup_insert_eq|]. wp_steps.
    change (sv_conns (s <| sv_locked := true |>)) with (sv_conns s).
    rewrite (bool_decide_ext (0 < size (sv_conns s))%nat (sv_conns s ≠ ∅))
      by (rewrite <- map_size_empty_iff; lia).
    simpl w_tick. fold show out. simpl sv_remote_tun_ip.
    destruct (bool_decide _), (contains out _); wp_steps; simpl; by rewrite <- ?app_assoc. }
  destruct (wp_wlp _ _ _ w Hwp (wlp_check_paths cfg w)) as ([] & w' & Hrun & Htr & Hq).
  by exists w'.
Qed.
End traffic.

(** ** Witnesses *)

Lemma demo_conns_nonempty : sv_conns demo_tunnel ≠ ∅.
Proof. rewrite demo_tunnel_conns. done. Qed.
Lemma demo_connections_some : is_Some demo_tunnel.(sv_connections).
Proof.
  pose proof demo_conns_nonempty as H. unfold sv_conns in H.
  destruct (sv_connections demo_tunnel); [by eexists|done].
Qed.

Lemma consistent_choice_witness :
  ∃ k err, client_choose_kcp_conn demo_cfg (Some demo_buffer) 40 100 demo2 = (Ret (k, err), demo2) ∧
    (sv_conns demo_tunnel = ∅ → err = Some "consitent get failed") ∧
    (sv_conns demo_tunnel ≠ ∅ → err = None ∧ 0 < k ∧ is_Some (sv_conns demo_tunnel !! k)).
Proof.
  apply (consistent_choice demo_cfg 100 demo_buffer 40 demo_tunnel demo2 eq_refl demo2_ok
    demo_tunnel_lookup demo_connections_some demo_buffer_ok).
Defined.


Lemma round_robin_choice_witness :
  ∃ k err w', client_choose_kcp_conn demo_cfg None 0 100 demo2 = (Ret (k, err), w') ∧
    quiet demo2 w' ∧
    (sv_conns demo_tunnel = ∅ → err = Some "no connections available") ∧
    (sv_conns demo_tunnel ≠ ∅ → err = None ∧ is_Some (sv_conns demo_tunnel !! k) ∧
       w'.(g_server_list) !! 100 = Some (demo_tunnel <| sv_last_convid := k |>) ∧
       ((∃ k', is_Some (sv_conns demo_tunnel !! k') ∧ k' ≠ demo_tunnel.(sv_last_convid) ∧
          alive_of demo2 demo_tunnel k' = true) →
         k ≠ demo_tunnel.(sv_last_convid) ∧ alive_of demo2 demo_tunnel k = true)).
Proof.
  apply (round_robin_choice demo_cfg 100 None 0 demo_tunnel demo2 (or_introl eq_refl) demo2_ok
    demo_tunnel_lookup).
Defined.

Lemma linkdown_sent_witness :
  ∃ w', client_send_linkdown_message demo_cfg 100 105 demo2 = (Ret tt, w') ∧
    (sv_conns demo_tunnel = ∅ → w' = demo2) ∧
    (sv_conns demo_tunnel ≠ ∅ → ∃ k l kcp t, sv_conns demo_tunnel !! k = Some l ∧
       kcp_of demo2 l kcp ∧
       w'.(w_trace) = demo2.(w_trace) ++
         [EvKcpWriteDeadline kcp t; EvKcpWrite kcp (linkdown_message 105)]).
Proof.
  exact (linkdown_sent demo_cfg 100 105 demo_tunnel demo2 demo2_ok demo_tunnel_lookup).
Defined.

Lemma ping_connection_witness :
  ∃ w', client_ping_connection demo_cfg 100 101 demo2 = (Ret tt, w') ∧
    if hello_expired (env_now demo2.(w_tick)) (demo_conn 1).(sc_last_hello)
    then taken_down 100 (λ k' _, bool_decide (k' = 101)) demo2 w'
    else quiet demo2 w' ∧
      w'.(w_trace) = demo2.(w_trace) ++ [EvGo (GoClientSendHello 1 100)] ∧
      ∃ c', w'.(w_sconns) !! 1%nat = Some c' ∧ c'.(sc_txbytes) = 0 ∧ c'.(sc_rxbytes) = 0 ∧
        c'.(sc_last_bw_update) = env_now demo2.(w_tick).
Proof.
  apply (ping_connection demo_cfg 100 101 demo_tunnel 1 (demo_conn 1) demo2 demo2_ok
    demo_tunnel_lookup demo_tunnel_unlocked); [|exact demo_conn_lookup1].
  rewrite demo_tunnel_conns. reflexivity.
Defined.

Lemma reader_timeout_witness :
  ∃ r w', client_handle_kcp_turn demo_cfg 100 1 0 demo2 = (Ret r, w') ∧
    if bool_decide (20 <= (demo_conn 1).(sc_rxtimeouts))
    then r = None ∧ taken_down 100 (λ k' _, bool_decide (k' = 101)) demo2 w'
    else r = Some (0 + 1) ∧ quiet demo2 w' ∧
      ∃ c', w'.(w_sconns) !! 1%nat = Some c' ∧
        c'.(sc_rxtimeouts) = (demo_conn 1).(sc_rxtimeouts) + 1.
Proof.
  assert (sv_conns demo_tunnel !! 101 = Some 1%nat) as Hl
    by (rewrite demo_tunnel_conns; reflexivity).
  destruct (listed_conn demo2 100 demo_tunnel 101 1 demo2_ok demo_tunnel_lookup Hl)
    as (c & Hc & _ & ses & kcp & Hses & Hkcp).
  rewrite demo_conn_lookup1 in Hc. apply (inj Some) in Hc. rewrite <- Hc in Hses.
  apply (reader_timeout demo_cfg 100 101 demo_tunnel 1 (demo_conn 1) ses kcp 0 demo2 demo2_ok
    demo_tunnel_lookup demo_tunnel_unlocked Hl demo_conn_lookup1 Hses Hkcp);
    [done|done| |]; assert (sc_rxtimeouts (demo_conn 1) = 0) as -> by (vm_compute; reflexivity); lia.
Defined.

Lemma receive_forwards_witness :
  ∃ w' c' t, client_receive 100 1 [69; 0; 0; 20] demo2 = (Ret tt, w') ∧ quiet demo2 w' ∧
    w'.(w_trace) = demo2.(w_trace) ++
      (if is_hello [69; 0; 0; 20] then [] else [EvTunWrite 7 [69; 0; 0; 20]]) ∧
    w'.(w_sconns) !! 1%nat = Some c' ∧ c'.(sc_last_hello) = env_now t ∧
    c'.(sc_rxcounter) = u64 ((demo_conn 1).(sc_rxcounter) + 1) ∧
    c'.(sc_rxbytes) = u64 ((demo_conn 1).(sc_rxbytes) + Z.of_nat (length [69; 0; 0; 20])).
Proof.
  apply (receive_forwards 100 1 [69; 0; 0; 20] demo_tunnel 7 (demo_conn 1) demo2
    demo_tunnel_lookup demo_tunnel_iface demo_conn_lookup1).
Defined.

Lemma tun_packet_forwarded_witness :
  let data := 69 :: replicate 39 0 in
  ∃ w' k l kcp t, client_handle_tun_turn demo_cfg 100 demo_buffer demo2 =
      (Ret (Some (read_into demo_buffer data)), w') ∧
    packet_buffer (read_into demo_buffer data) ∧ quiet demo2 w' ∧
    sv_conns demo_tunnel !! k = Some l ∧ kcp_of demo2 l kcp ∧
    w'.(w_trace) = demo2.(w_trace) ++ [EvKcpWriteDeadline kcp t; EvKcpWrite kcp data].
Proof.
  apply (tun_packet_forwarded demo_cfg 100 demo_buffer (69 :: replicate 39 0) demo_tunnel 7 demo2
    eq_refl demo2_ok demo_tunnel_lookup demo_tunnel_unlocked demo_tunnel_iface demo_conns_nonempty
    demo_buffer_ok); [reflexivity|simpl; lia|done|done].
Defined.

Lemma default_route_follows_witness :
  let show := ["route"; "show"; "match"; "0.0.0.0"] in
  let out := match env_exec demo2.(w_tick) "ip" show with None => "error" | Some o => o end in
  ∃ w', client_check_paths demo_cfg demo2 = (Ret tt, w') ∧ quiet demo2 w' ∧
    w'.(w_trace) = demo2.(w_trace) ++ EvCommand "ip" show ::
      route_action (bool_decide (sv_conns demo_tunnel ≠ ∅))
        (contains out demo_tunnel.(sv_remote_tun_ip)) demo_tunnel.(sv_remote_tun_ip).
Proof.
  assert (g_server_list demo2 !! g_tunnel_id demo_cfg = Some demo_tunnel) as H.
  { assert (g_tunnel_id demo_cfg = 100) as -> by reflexivity. exact demo_tunnel_lookup. }
  exact (default_route_follows demo_cfg demo_tunnel demo2 H demo_tunnel_unlocked).
Defined.
