(* ===== verification/Server.v ===== *)
(** * The server ([src/main.go])

    A tunnel of the server holds the KCP connections its client has opened.
    [server_accept_conn] is given by its parts: the registration under the
    mutex ([server_register]), one turn of its read loop ([server_read_turn])
    and the iteration of turns on fuel; so is [server_handle_tun]. *)
From stdpp Require Import base gmap sets list strings.
From Stdlib Require Import ZArith Lia.
From S2P Require Import Prelude GoFloat GoNet Network Ring World Session Wire FlowKey Client.
From S2P Require Import ClientLoops.
#[local] Open Scope Z_scope.

Section server.
Context {C : Consistent} {E : Env} {P : HeaderParser} (cfg : config).

(** ** Taking connections down *)

(** The session is closed and stays in the record. *)
Definition server_close_connection (tunnelid : Z) (l : loc) (convid : Z) : W unit :=
  upd_client tunnelid (setf cl_last_convid (fun _ => 0)) ;;
  c ← get_cconn l;
  rat_Close c.(cc_session) ;;
  mret tt.

Definition server_disconnect_session_by_convid (tunnelid disc_convid : Z) : W unit :=
  w ← getS;
  match w.(g_client_list) !! tunnelid with
  | None => mret tt
  | Some _ =>
      lock_client tunnelid ;;
      client ← get_client tunnelid;
      keys ← range_keys (cl_conns client);
      for_each keys (fun convid =>
        client ← get_client tunnelid;
        match cl_conns client !! convid with
        | None => mret tt
        | Some l =>
            client_kcp ← get_cconn l;
            whenM (bool_decide (client_kcp.(cc_convid) = disc_convid))
              (r ← deref "nil *consistent.Consistent" client.(cl_consistent);
               upd_client tunnelid (setf cl_consistent (fun _ => Some (ring_Remove (fmt_d convid) r))) ;;
               server_close_connection tunnelid l convid ;;
               upd_client tunnelid (setf cl_connections (fmap (delete convid))))
        end) ;;
      unlock_client tunnelid
  end.

(** ** Accepting a connection *)

(** The fields of a new connection. *)
Definition fresh_clientConnection (convid : Z) (session : RatSession) (src : string) (t1 t2 t3 : Z)
    : clientConnection := {|
  cc_convid := convid; cc_session := Some session; cc_rxloss := 0; cc_txloss := 0;
  cc_txcounter := 0; cc_txbytes := 0; cc_rxcounter := 0; cc_rxbytes := 0; cc_rxtimeouts := 0;
  cc_txtimeouts := 0; cc_priority := 0; cc_last_bw_update := t1;
  cc_txbandwidth := float32_of_Z 0; cc_rxbandwidth := float32_of_Z 0; cc_last_hello := t2;
  cc_up_since := t3; cc_alive := true; cc_src_address := src |}.

(** The interface of the tunnel; the result is [spawn_tun]. *)
Definition server_setup_client (tunnelid : Z) : W bool :=
  client ← get_client tunnelid;
  match client.(cl_iface) with
  | Some _ => mret false
  | None =>
      '(iface, _) ← createTun cfg tunnelid cfg.(g_server_tun_ip);
      upd_client tunnelid (fun s => s <| cl_iface := iface |>
        <| cl_my_tun_ip := cfg.(g_server_tun_ip) |>
        <| cl_remote_tun_ip := cfg.(g_client_tun_ip) |>) ;;
      n ← deref "nil *water.Interface" (env_tun_Name iface);
      upd_client tunnelid (fun s => s <| cl_ifname := n |> <| cl_base_convid := tunnelid |>) ;;
      mret true
  end.

(** [fmt.Sprintf("%s", kcp_conn.RemoteAddr())]. *)
Definition remote_string (kcp : handle) : string :=
  let '(ip, zone, port) := env_kcp_RemoteAddr kcp in udp_addr_string ip zone port.

(** The test meant to refuse private addresses: [net.ParseIP] of the address
    with its port. *)
Definition refuses (src : string) : bool :=
  match ParseIP src with Some ip => IsPrivate ip | None => IsPrivate [] end.

(** Map and ring of the tunnel, created with its first connection, and the new
    entry in both. *)
Definition server_add_connection (tunnelid conv : Z) (l : loc) (session : RatSession) : W unit :=
  client ← get_client tunnelid;
  match client.(cl_connections) with
  | Some _ => mret tt
  | None => upd_client tunnelid (fun s => s <| cl_connections := Some ∅ |>
              <| cl_consistent := Some ring_New |>)
  end ;;
  upd_client tunnelid (setf cl_connections (fmap (insert conv l))) ;;
  setKCPOptions (Some session) ;;
  client ← get_client tunnelid;
  r ← deref "nil *consistent.Consistent" client.(cl_consistent);
  upd_client tunnelid (setf cl_consistent (fun _ => Some (ring_Add (fmt_d conv) r))).

(** [server_accept_conn] up to its read loop; [None]: the connection was
    refused. *)
Definition server_register (tunnelid convid : Z) (kcp_conn : handle) : W (option loc) :=
  setServerConnOptions (Some kcp_conn) ;;
  w ← getS;
  match w.(g_client_list) !! tunnelid with
  | Some _ => mret tt
  | None => modify (fun w => w <| g_client_list ::= insert tunnelid new_clientType |>)
  end ;;
  lock_client tunnelid ;;
  spawn_tun ← server_setup_client tunnelid;
  upd_client tunnelid (setf cl_last_convid (fun _ => 0)) ;;
  let conv := env_kcp_GetConv kcp_conn in
  let session := mkRatSession conv None None (Some kcp_conn) in
  t1 ← time_Now; t2 ← time_Now; t3 ← time_Now;
  let src := remote_string kcp_conn in
  l ← new_cconn (fresh_clientConnection convid session src t1 t2 t3);
  if refuses src then unlock_client tunnelid ;; mret None
  else
    server_add_connection tunnelid conv l session ;;
    unlock_client tunnelid ;;
    whenM spawn_tun (go (GoServerHandleTun tunnelid)) ;;
    mret (Some l).

(** ** From KCP to the tun interface *)

(** A message that was read; [false]: the goroutine returns. *)
Definition server_receive (tunnelid convid : Z) (l : loc) (data : list Z) : W bool :=
  t ← time_Now;
  upd_cconn l (fun c => c <| cc_rxcounter ::= (fun n => u64 (n + 1)) |>
    <| cc_rxbytes ::= (fun n => u64 (n + Z.of_nat (length data))) |>
    <| cc_last_hello := t |>) ;;
  match server_classify data with
  | Hello => t ← time_Now; upd_cconn l (setf cc_last_hello (fun _ => t)) ;; mret true
  | Linkdown linkdown => server_disconnect_session_by_convid tunnelid linkdown ;; mret true
  | Data packet =>
      client ← get_client tunnelid;
      match client.(cl_iface) with
      | None => mret true
      | Some tun =>
          emit (EvTunWrite tun packet) ;;
          t ← tick;
          match env_tun_Write t tun packet with
          | Some _ => server_disconnect_session_by_convid tunnelid convid ;; mret false
          | None => mret true
          end
      end
  end.

(** One turn of the read loop of [server_accept_conn]. *)
Definition server_read_turn (tunnelid convid : Z) (kcp_conn : handle) (l : loc) : W bool :=
  t ← tick;
  if bool_decide (env_kcp_GetState t kcp_conn = kcp_dead) then
    client ← get_client tunnelid;
    server_disconnect_session_by_convid client.(cl_base_convid) convid ;; mret false
  else
    t ← time_Now;
    emit (EvKcpReadDeadline kcp_conn (t + Millisecond * 5000)) ;;
    t ← tick;
    match env_kcp_Read t kcp_conn with
    | inr err =>
        if bool_decide (err = "timeout") then
          upd_cconn l (setf cc_rxtimeouts (fun n => u64 (n + 1))) ;; mret true
        else server_disconnect_session_by_convid tunnelid convid ;; mret false
    | inl data => server_receive tunnelid convid l data
    end.

Fixpoint server_read_loop (turns : nat) (tunnelid convid : Z) (kcp_conn : handle) (l : loc)
    : W unit :=
  match turns with
  | O => mret tt
  | S turns' =>
      continue ← server_read_turn tunnelid convid kcp_conn l;
      if (continue : bool) then server_read_loop turns' tunnelid convid kcp_conn l else mret tt
  end.

Definition server_accept_conn (turns : nat) (tunnelid convid : Z) (kcp_conn : handle) : W unit :=
  r ← server_register tunnelid convid kcp_conn;
  match r with
  | None => mret tt
  | Some l => server_read_loop turns tunnelid convid kcp_conn l
  end.

(** The accept loop: a goroutine per connection; an error ends it. *)
Fixpoint server_handle_kcp_listener (turns : nat) (listener : handle) (tunnelid : Z) : W unit :=
  match turns with
  | O => mret tt
  | S turns' =>
      t ← tick;
      match env_kcp_Accept t listener with
      | None => mret tt
      | Some conn =>
          go (GoServerAcceptConn tunnelid (env_kcp_GetConv conn) conn) ;;
          server_handle_kcp_listener turns' listener tunnelid
      end
  end.

(** ** Keep-alive *)

Definition server_send_hello (l : loc) : W unit :=
  connection ← get_cconn l;
  t ← time_Now;
  rat_SetWriteDeadline connection.(cc_session) (t + Millisecond * 3000) ;;
  err ← rat_Write connection.(cc_session) g_hello;
  match err with
  | None => mret tt
  | Some e =>
      if bool_decide (e = "timeout") then
        rat_GetState connection.(cc_session) ;;
        upd_cconn l (setf cc_txtimeouts (fun n => u64 (n + 1)))
      else mret tt
  end.

Definition server_update_bandwidth (l : loc) (t1 : Z) : W unit :=
  upd_cconn l (fun c =>
    let bwdiff := Seconds (time_sub t1 c.(cc_last_bw_update)) in
    c <| cc_txbandwidth := bandwidth c.(cc_txbytes) bwdiff |> <| cc_txbytes := 0 |>
      <| cc_rxbandwidth := bandwidth c.(cc_rxbytes) bwdiff |> <| cc_rxbytes := 0 |>
      <| cc_last_bw_update := t1 |>).

(** The body of the inner loop of [server_send_client_pings] for one key. *)
Definition server_ping_connection (tunnelid convid : Z) : W unit :=
  client ← get_client tunnelid;
  match cl_conns client !! convid with
  | None => mret tt
  | Some l =>
      connection ← get_cconn l;
      t1 ← time_Now;
      if hello_expired t1 connection.(cc_last_hello) then
        server_disconnect_session_by_convid client.(cl_base_convid) connection.(cc_convid)
      else
        match connection.(cc_session) with
        | Some _ => go (GoServerSendHello l)
        | None => mret tt
        end ;;
        server_update_bandwidth l t1
  end.

Definition server_send_client_pings : W unit :=
  w ← getS;
  clients ← range_keys w.(g_client_list);
  for_each clients (fun base_convid =>
    client ← get_client base_convid;
    keys ← range_keys (cl_conns client);
    for_each keys (server_ping_connection base_convid)).

(** ** Choosing a connection for a packet *)

Fixpoint server_round_robin (tunnelid : Z) (keys : list Z) (some_convid : Z) : W Z :=
  match keys with
  | [] => upd_client tunnelid (setf cl_last_convid (fun _ => some_convid)) ;; mret some_convid
  | convid :: keys' =>
      client ← get_client tunnelid;
      l ← deref "nil *clientConnection" (cl_conns client !! convid);
      client_kcp ← get_cconn l;
      if negb (bool_decide (convid = client.(cl_last_convid))) && client_kcp.(cc_alive) then
        upd_client tunnelid (setf cl_last_convid (fun _ => convid)) ;; mret convid
      else server_round_robin tunnelid keys' convid
  end.

(** Without connections the round robin gives id 0 and no error. *)
Definition server_choose_kcp_conn (packet : option (list Z)) (packet_len tunnelid : Z)
    : W (Z * option string) :=
  match packet, cfg.(g_use_consistent_hashing) with
  | Some frame, true =>
      dst ← lift (ExtractDst frame packet_len);
      client ← get_client tunnelid;
      r ← deref "nil *consistent.Consistent" client.(cl_consistent);
      match ring_Get r dst with
      | None => mret (0, Some "empty circle")
      | Some owner => let '(n, err) := Atoi env_int_bits owner in mret (u32 n, err)
      end
  | _, _ =>
      client ← get_client tunnelid;
      keys ← range_keys (cl_conns client);
      convid ← server_round_robin tunnelid keys 0;
      mret (convid, None)
  end.

(** ** From the tun interface to KCP *)

Definition server_transmit (tunnelid : Z) (l : loc) (data : list Z) : W unit :=
  connection ← get_cconn l;
  t ← time_Now;
  rat_SetWriteDeadline connection.(cc_session) (t + Millisecond * g_write_deadline) ;;
  err ← rat_Write connection.(cc_session) data;
  match err with
  | Some e =>
      if bool_decide (e = "timeout") then
        upd_cconn l (setf cc_txtimeouts (fun n => u64 (n + 1)))
      else
        client ← get_client tunnelid;
        server_disconnect_session_by_convid client.(cl_base_convid) connection.(cc_convid)
  | None =>
      upd_cconn l (fun c => c <| cc_txcounter ::= (fun n => u64 (n + 1)) |>
        <| cc_txbytes ::= (fun n => u64 (n + Z.of_nat (length data))) |>)
  end.

(** One turn of [server_handle_tun] with its packet buffer; a read error is a
    panic. *)
Definition server_handle_tun_turn (tunnelid : Z) (packet : list Z) : W (list Z) :=
  client ← get_client tunnelid;
  tun ← deref "nil *water.Interface" client.(cl_iface);
  t ← tick;
  match env_tun_Read t tun with
  | inr _ => panic "tun iface read error"
  | inl data =>
      let packet := read_into packet data in
      '(chose_convid, err) ←
        server_choose_kcp_conn (Some packet) (Z.of_nat (length data)) tunnelid;
      if negb (bool_decide (err = None)) then sleep_ms 10 ;; mret packet
      else
        lock_client tunnelid ;;
        client ← get_client tunnelid;
        unlock_client tunnelid ;;
        match cl_conns client !! chose_convid with
        | None => sleep_ms 10 ;; mret packet
        | Some l =>
            connection ← get_cconn l;
            match connection.(cc_session) with
            | None => sleep_ms 10 ;; mret packet
            | Some _ =>
                kcpstate ← rat_GetState connection.(cc_session);
                if bool_decide (kcpstate = kcp_dead) then
                  server_disconnect_session_by_convid client.(cl_base_convid)
                    connection.(cc_convid) ;;
                  mret packet
                else server_transmit tunnelid l data ;; mret packet
            end
        end
  end.

Fixpoint server_tun_loop (turns : nat) (tunnelid : Z) (packet : list Z) : W (list Z) :=
  match turns with
  | O => mret packet
  | S turns' => packet' ← server_handle_tun_turn tunnelid packet; server_tun_loop turns' tunnelid packet'
  end.

Definition server_handle_tun (turns : nat) (tunnelid : Z) : W unit :=
  client ← get_client tunnelid;
  match client.(cl_iface) with
  | None => mret tt
  | Some _ => server_tun_loop turns tunnelid (replicate (Z.to_nat 65535) 0) ;; mret tt
  end.
End server.
