(* ===== verification/ServerSpec.v ===== *)
(** * What the server promises

    The abstract state of a tunnel is the map of its peers: conversation id to
    KCP session ([peers]).  [server_ok] is the well-formedness of the server's
    data.  Accepting a connection sets its id in the map; a disconnect, for
    whatever reason it is asked, deletes its id. *)
From stdpp Require Import base gmap sets list strings.
From Stdlib Require Import ZArith Lia SpecFloat.
From S2P Require Import Prelude GoFloat GoNet Network Ring World Session Wire FlowKey Client.
From S2P Require Import ClientLoops ClientSpec ClientConnect Server.
#[local] Open Scope Z_scope.

Section ok.
Context {C : Consistent}.

(** The session of an accepted connection: it owns no socket. *)
Definition peer_session (kcp : handle) (s : option RatSession) : Prop :=
  ∃ ses, s = Some ses ∧ ses.(s_kcp) = Some kcp ∧ ses.(s_udp_conn) = None.

Definition peer_ok (heap : gmap loc clientConnection) (convid : Z) (l : loc) : Prop :=
  ∃ c kcp, heap !! l = Some c ∧ c.(cc_convid) = convid ∧ peer_session kcp c.(cc_session).

Record stunnel_ok (heap : gmap loc clientConnection) (tid : Z) (s : clientType) : Prop := {
  sok_conn : map_Forall (peer_ok heap) (cl_conns s);
  sok_ring : ∀ conns, s.(cl_connections) = Some conns →
    ∃ r, s.(cl_consistent) = Some r ∧ ring_Members r = ids (dom conns);
  sok_base : is_Some s.(cl_connections) ∨ is_Some s.(cl_iface) → s.(cl_base_convid) = tid
}.

Record server_ok (w : world) : Prop := {
  sok_tunnels : map_Forall (stunnel_ok w.(w_cconns)) w.(g_client_list);
  sok_fresh : map_Forall (λ l _, (l < w.(w_next))%nat) w.(w_cconns)
}.

Definition kcp_of_conn (c : clientConnection) : option handle := c.(cc_session) ≫= s_kcp.

(** The peers of the tunnel [tid]. *)
Definition peers (w : world) (tid : Z) : gmap Z handle :=
  match w.(g_client_list) !! tid with
  | Some s => omap (λ l, w.(w_cconns) !! l ≫= kcp_of_conn) (cl_conns s)
  | None => ∅
  end.

Definition sunlocked (w : world) (tid : Z) : Prop :=
  ∃ s, w.(g_client_list) !! tid = Some s ∧ s.(cl_locked) = false.

Lemma peers_lookup w tid s k :
  w.(g_client_list) !! tid = Some s →
  peers w tid !! k = cl_conns s !! k ≫= λ l, w.(w_cconns) !! l ≫= kcp_of_conn.
Proof. intros Hs. unfold peers. by rewrite Hs, lookup_omap. Qed.

Lemma listed_peer w tid s k l :
  server_ok w → w.(g_client_list) !! tid = Some s → cl_conns s !! k = Some l →
  ∃ c kcp, w.(w_cconns) !! l = Some c ∧ c.(cc_convid) = k ∧ peer_session kcp c.(cc_session) ∧
    peers w tid !! k = Some kcp.
Proof.
  intros Hok Hs Hl. destruct (sok_conn _ _ _ (sok_tunnels _ Hok _ _ Hs) _ _ Hl)
    as (c & kcp & Hc & Hck & ses & Hses & Hkcp & Hudp).
  exists c, kcp. split_and!; [done|done|by exists ses|].
  rewrite (peers_lookup w tid s) by done. rewrite Hl. simpl. rewrite Hc. simpl.
  unfold kcp_of_conn. by rewrite Hses.
Qed.

Lemma peers_None w tid s k :
  server_ok w → w.(g_client_list) !! tid = Some s →
  peers w tid !! k = None ↔ cl_conns s !! k = None.
Proof.
  intros Hok Hs. rewrite (peers_lookup w tid s) by done.
  destruct (cl_conns s !! k) as [l|] eqn:Hl; [|done].
  destruct (listed_peer w tid s k l Hok Hs Hl) as (c & kcp & Hc & _ & (ses & Hses & Hkcp & _) & _).
  simpl. rewrite Hc. simpl. unfold kcp_of_conn. rewrite Hses. simpl. by rewrite Hkcp.
Qed.

(** ** Replacing the record of a tunnel *)

Lemma set_client_ok tid s' w (w' := w <| g_client_list ::= insert tid s' |>) :
  server_ok w → stunnel_ok w.(w_cconns) tid s' → server_ok w'.
Proof.
  intros [H1 H2] Hs'. split; [|done]. intros t st. simpl. rewrite lookup_insert_Some.
  intros [[<- <-]|[_ ?]]; [done|by apply H1].
Qed.

Lemma set_client_peers tid s' t w :
  t ≠ tid → peers (w <| g_client_list ::= insert tid s' |>) t = peers w t.
Proof. intros Hne. unfold peers. simpl. by rewrite lookup_insert_ne. Qed.

(** Everything but the clock, the trace and the list of tunnels. *)
Definition same_heap (w w' : world) : Prop :=
  w'.(w_cconns) = w.(w_cconns) ∧ w'.(w_next) = w.(w_next) ∧
  w'.(g_server_list) = w.(g_server_list) ∧ w'.(w_sconns) = w.(w_sconns).
End ok.

Section disconnect.
Context {C : Consistent} {CL : ConsistentLaws C} {E : Env} {EL : EnvLaws E} {P : HeaderParser}.

(** The tunnel without its connection [k]. *)
Definition without (k : Z) (s : clientType) : clientType :=
  s <| cl_consistent ::= fmap (ring_Remove (fmt_d k)) |> <| cl_last_convid := 0 |>
    <| cl_connections ::= fmap (delete k) |>.

(** The result of a disconnect of [k], [b] being the state of the mutex. *)
Definition after_disconnect (tid k : Z) (b : bool) (s : clientType) (w w' : world) : Prop :=
  same_heap w w' ∧
  match peers w tid !! k with
  | Some kcp =>
      w'.(g_client_list) = <[tid := without k s <| cl_locked := b |>]> w.(g_client_list) ∧
      w'.(w_trace) = w.(w_trace) ++ [EvKcpClose kcp]
  | None =>
      w'.(g_client_list) = <[tid := s <| cl_locked := b |>]> w.(g_client_list) ∧
      w'.(w_trace) = w.(w_trace)
  end.

(** The loop over [keys]: [k] is still there as long as it is to be visited. *)
Definition sdisconnecting (tid k : Z) (s : clientType) (w : world) (keys : list Z) (w1 : world)
    : Prop :=
  NoDup keys ∧ same_heap w w1 ∧
  if bool_decide (k ∈ keys) then
    w1.(g_client_list) = <[tid := s <| cl_locked := true |>]> w.(g_client_list) ∧
    w1.(w_trace) = w.(w_trace)
  else after_disconnect tid k true s w w1.

Lemma without_conns k s : cl_conns (without k s) = delete k (cl_conns s).
Proof.
  unfold cl_conns, without. simpl. destruct (cl_connections s); simpl; [done|].
  by rewrite delete_empty.
Qed.

Lemma sdisconnecting_client tid k s w keys w1 :
  sdisconnecting tid k s w keys w1 →
  ∃ s1, w1.(g_client_list) !! tid = Some s1 ∧
    ∀ k' l, k' ≠ k → cl_conns s1 !! k' = Some l → cl_conns s !! k' = Some l.
Proof.
  intros (_ & _ & H). case_bool_decide.
  - destruct H as [-> _]. eexists. rewrite lookup_insert_eq. split; [done|]. done.
  - destruct H as [_ H]. destruct (peers w tid !! k); destruct H as [-> _];
      (eexists; rewrite lookup_insert_eq; split; [done|]); [|done].
    intros k' l Hne. change (cl_conns (without k s <| cl_locked := true |>)) with (cl_conns (without k s)).
    rewrite without_conns, lookup_delete_ne by done. done.
Qed.

Lemma sdisconnecting_skip tid k s w k' keys w1 :
  k' ≠ k → sdisconnecting tid k s w (k' :: keys) w1 → sdisconnecting tid k s w keys w1.
Proof.
  intros Hne (Hnd & Hh & H). apply NoDup_cons in Hnd as [_ Hnd]. split; [done|]. split; [done|].
  rewrite (bool_decide_ext (k ∈ keys) (k ∈ k' :: keys)); [done|].
  rewrite elem_of_cons. naive_solver.
Qed.

(** Closing the connection [k] when its turn comes. *)
Lemma wp_disconnect_hit tid k s w keys w1 l :
  server_ok w → w.(g_client_list) !! tid = Some s → cl_conns s !! k = Some l →
  sdisconnecting tid k s w (k :: keys) w1 →
  wp (client ← get_client tid;
      match cl_conns client !! k with
      | None => mret tt
      | Some l =>
          client_kcp ← get_cconn l;
          whenM (bool_decide (client_kcp.(cc_convid) = k))
            (r ← deref "nil *consistent.Consistent" client.(cl_consistent);
             upd_client tid (setf cl_consistent (fun _ => Some (ring_Remove (fmt_d k) r))) ;;
             server_close_connection tid l k ;;
             upd_client tid (setf cl_connections (fmap (delete k))))
      end) (λ _, sdisconnecting tid k s w keys) w1.
Proof.
  intros Hok Hs Hl (Hnd & Hh & H). apply NoDup_cons in Hnd as [Hnk Hnd].
  rewrite bool_decide_eq_true_2 in H by set_solver. destruct H as [Hcl Htr].
  destruct (listed_peer w tid s k l Hok Hs Hl)
    as (c & kcp & Hc & Hck & (ses & Hses & Hkcp & Hudp) & Hp).
  destruct (cl_connections s) as [conns|] eqn:Hconns;
    [|unfold cl_conns in Hl; by rewrite Hconns in Hl].
  destruct (sok_ring _ _ _ (sok_tunnels _ Hok _ _ Hs) conns Hconns) as (r & Hr & _).
  destruct Hh as (Hh1 & Hh2 & Hh3 & Hh4).
  assert (w1.(g_client_list) !! tid = Some (s <| cl_locked := true |>)) as Hs1
    by by rewrite Hcl, lookup_insert_eq.
  rewrite <- Hh1 in Hc. wp_steps.
  change (cl_conns (s <| cl_locked := true |>)) with (cl_conns s). rewrite Hl. wp_steps.
  rewrite bool_decide_eq_true_2 by done. simpl whenM.
  change (cl_consistent (s <| cl_locked := true |>)) with (cl_consistent s). rewrite Hr. wp_steps.
  unfold server_close_connection. wp_steps. unfold rat_Close. rewrite Hses. rewrite Hudp.
  wp_steps. rewrite Hkcp. wp_steps.
  split; [done|]. split; [done|]. rewrite bool_decide_eq_false_2 by done.
  split; [done|]. rewrite Hp. assert (s_kcp ses = Some kcp) as Hkcp' by done.
  simpl. rewrite !insert_insert_eq, Hcl, insert_insert_eq, Htr. split; [|done].
  f_equal. unfold without. destruct s; simpl in *; subst; done.
Qed.

Lemma wp_server_disconnect tid k s w :
  server_ok w → w.(g_client_list) !! tid = Some s → s.(cl_locked) = false →
  wp (server_disconnect_session_by_convid tid k)
    (λ _ w', after_disconnect tid k false s w w') w.
Proof.
  intros Hok Hs Hlock. unfold server_disconnect_session_by_convid. wp_steps. rewrite Hs.
  wp_step. eapply wp_lock_client; [done..|]. wp_steps.
  change (cl_conns (s <| cl_locked := true |>)) with (cl_conns s).
  match goal with |- wp (for_each ?keys _) _ ?w1 => set (w0 := w1); set (ks := keys) end.
  assert (∀ k', k' ∈ ks ↔ is_Some (cl_conns s !! k')) as Hks.
  { intros k'. unfold ks. apply range_keys_elem. }
  eapply wp_mono; [apply (wp_for_each ks _ (λ keys w1, sdisconnecting tid k s w keys w1 ∧ keys ⊆ ks))|].
  - intros k' keys w1 [HJ Hsub]. destruct (decide (k' = k)) as [->|Hne].
    + destruct (proj1 (Hks k)) as [l Hl]; [set_solver|].
      eapply wp_mono; [by apply (wp_disconnect_hit tid k s w keys w1 l)|].
      intros [] w2 H2. split; [done|set_solver].
    + assert (sdisconnecting tid k s w keys w1 ∧ keys ⊆ ks) as HJ'
        by (split; [by eapply sdisconnecting_skip|set_solver]).
      destruct (sdisconnecting_client _ _ _ _ _ _ HJ) as (s1 & Hs1 & Hold). wp_steps.
      destruct (cl_conns s1 !! k') as [l|] eqn:Hl; [|by wp_steps].
      destruct (listed_peer w tid s k' l Hok Hs (Hold _ _ Hne Hl)) as (c & kcp & Hc & Hck & _).
      destruct HJ as (_ & (Hh1 & _) & _). rewrite <- Hh1 in Hc. wp_steps.
      rewrite bool_decide_eq_false_2 by congruence. simpl whenM. by wp_steps.
  - split; [|done]. split; [apply range_keys_NoDup|]. split; [done|].
    case_bool_decide as Hk; [done|]. split; [done|].
    assert (peers w tid !! k = None) as ->; [|done].
    apply (peers_None w tid s); [done..|]. destruct (cl_conns s !! k) eqn:Hl; [|done].
    destruct Hk. apply Hks. by eexists.
  - intros [] w2 [(_ & Hh & H) _]. rewrite bool_decide_eq_false_2 in H by set_solver.
    destruct H as [_ H]. unfold after_disconnect.
    destruct (peers w tid !! k) as [kcp|]; destruct H as [Hcl Htr];
      (eapply wp_unlock_client; [by rewrite Hcl, lookup_insert_eq|]);
      (split; [done|]); simpl; rewrite Hcl, insert_insert_eq; done.
Qed.

Lemma without_ok tid k s b w :
  server_ok w → w.(g_client_list) !! tid = Some s →
  stunnel_ok w.(w_cconns) tid (without k s <| cl_locked := b |>).
Proof.
  intros Hok Hs. destruct (sok_tunnels _ Hok _ _ Hs) as [H1 H2 H3]. split.
  - change (cl_conns (without k s <| cl_locked := b |>)) with (cl_conns (without k s)).
    rewrite without_conns. by apply map_Forall_delete.
  - simpl. intros conns Hconns. destruct (cl_connections s) as [m|]; [|done].
    simpl in Hconns. injection Hconns as <-. destruct (H2 m eq_refl) as (r & Hr & Hm).
    rewrite Hr. simpl. eexists. split; [done|].
    by rewrite Members_Remove, Hm, dom_delete_L, ids_delete.
  - simpl. rewrite fmap_is_Some. exact H3.
Qed.

Lemma relock_ok tid s b w :
  server_ok w → w.(g_client_list) !! tid = Some s →
  stunnel_ok w.(w_cconns) tid (s <| cl_locked := b |>).
Proof. intros Hok Hs. by destruct (sok_tunnels _ Hok _ _ Hs). Qed.

(** [w'] is [w] without the peer [k] of the tunnel [tid]; only a session that
    was listed is closed. *)
Definition peer_removed (tid k : Z) (w w' : world) : Prop :=
  server_ok w' ∧ sunlocked w' tid ∧ peers w' tid = delete k (peers w tid) ∧
  (∀ t, t ≠ tid → peers w' t = peers w t) ∧ same_heap w w' ∧
  w'.(w_trace) = w.(w_trace) ++
    match peers w tid !! k with Some kcp => [EvKcpClose kcp] | None => [] end.

Lemma after_disconnect_removed tid k s w w' :
  server_ok w → w.(g_client_list) !! tid = Some s →
  after_disconnect tid k false s w w' → peer_removed tid k w w'.
Proof.
  intros Hok Hs [Hh H]. pose proof Hh as (Hh1 & Hh2 & _).
  assert (∀ s', w'.(g_client_list) = <[tid := s']> w.(g_client_list) →
    s'.(cl_locked) = false → stunnel_ok w.(w_cconns) tid s' →
    cl_conns s' = delete k (cl_conns s) →
    server_ok w' ∧ sunlocked w' tid ∧ peers w' tid = delete k (peers w tid) ∧
    (∀ t, t ≠ tid → peers w' t = peers w t)) as Hgen.
  { intros s' Hcl Hl Hst Hconns. split_and!.
    - destruct Hok as [H1 H2]. split; rewrite ?Hcl, ?Hh1, ?Hh2; [|done].
      intros t st. rewrite lookup_insert_Some. intros [[<- <-]|[_ ?]]; [done|by apply H1].
    - exists s'. by rewrite Hcl, lookup_insert_eq.
    - apply map_eq. intros k'. unfold peers. rewrite Hcl, lookup_insert_eq, Hs, Hconns, Hh1.
      destruct (decide (k' = k)) as [->|Hne].
      + by rewrite lookup_omap, !lookup_delete_eq.
      + by rewrite lookup_omap, !lookup_delete_ne, lookup_omap.
    - intros t Hne. unfold peers. by rewrite Hcl, lookup_insert_ne, Hh1 by done. }
  unfold peer_removed. destruct (peers w tid !! k) as [kcp|] eqn:Hp; destruct H as [Hcl Htr].
  - destruct (Hgen _ Hcl) as (?&?&?&?); [done|by apply without_ok|exact (without_conns k s)|].
    by split_and!.
  - destruct (Hgen _ Hcl) as (?&?&?&?); [done|by apply relock_ok| |].
    { change (cl_conns (s <| cl_locked := false |>)) with (cl_conns s).
      rewrite delete_id; [done|]. by apply (peers_None w tid s). }
    rewrite app_nil_r. by split_and!.
Qed.
End disconnect.

(** ** Accepting a connection *)

(** A socket address as the standard library reports it: no IP, an IPv4 or an
    IPv6 address of bytes, and a port. *)
Definition socket_address (a : list Z * string * Z) : Prop :=
  let '(ip, zone, port) := a in
  (length ip = 0 ∨ length ip = 4 ∨ length ip = 16)%nat ∧ Forall (λ b, 0 <= b) ip ∧ 0 <= port.

Definition starting (e : event) : option goroutine :=
  match e with EvGo g => Some g | _ => None end.

Section accept.
Context {C : Consistent} {CL : ConsistentLaws C} {E : Env} {EL : EnvLaws E} {P : HeaderParser}.
Context (cfg : config).

(** The remote address of a session is an IP address with a port. *)
Definition remote_valid (kcp : handle) : Prop := refuses (remote_string kcp) = false.

(** [w'] is [w] with the peer [kcp] on the id [k] of the tunnel [tid]. *)
Definition peer_added (tid k : Z) (kcp : handle) (w w' : world) : Prop :=
  server_ok w' ∧ sunlocked w' tid ∧ peers w' tid = <[k := kcp]> (peers w tid) ∧
  (∀ t, t ≠ tid → peers w' t = peers w t).

Lemma quiet_server_state w w' :
  quiet w w' → w'.(g_client_list) = w.(g_client_list) ∧ w'.(w_cconns) = w.(w_cconns) ∧
    w'.(w_next) = w.(w_next).
Proof. by intros (_ & _ & ? & ? & ?). Qed.

Lemma wp_createTun tid ip w :
  tun_opens →
  wp (createTun cfg tid ip) (λ r w', is_Some (env_tun_Name r.1) ∧ is_Some r.1 ∧ quiet w w') w.
Proof.
  intros Htun. eapply wp_mono; [apply (wp_preserves (quiet w) _
    (λ r _, is_Some (env_tun_Name r.1) ∧ is_Some r.1)); [|apply quiet_createTun|done]|].
  - unfold createTun. wp_steps.
    match goal with |- context [env_tun_New ?t ?n] =>
      destruct (Htun t n) as (h & -> & name & Hname) end.
    wp_steps. eapply wp_deref; [done|]. wp_steps. simpl. eauto.
  - by intros r w' [[? ?] ?].
Qed.

(** The tunnel changed in place; records of connections are the same. *)
Definition tunnel_set (tid : Z) (s' : clientType) (w w' : world) : Prop :=
  w'.(g_client_list) = <[tid := s']> w.(g_client_list) ∧ w'.(w_cconns) = w.(w_cconns) ∧
  w'.(w_next) = w.(w_next).

Lemma wp_server_setup_client tid s w :
  tun_opens → w.(g_client_list) !! tid = Some s →
  (is_Some s.(cl_connections) ∨ is_Some s.(cl_iface) → s.(cl_base_convid) = tid) →
  wp (server_setup_client cfg tid) (λ _ w', ∃ s', tunnel_set tid s' w w' ∧
    s'.(cl_connections) = s.(cl_connections) ∧ s'.(cl_consistent) = s.(cl_consistent) ∧
    s'.(cl_base_convid) = tid) w.
Proof.
  intros Htun Hs Hb. unfold server_setup_client. wp_steps. destruct (cl_iface s) as [h|] eqn:Hi.
  - wp_steps. exists s. unfold tunnel_set. rewrite insert_id by done. split_and!; try done.
    apply Hb. eauto.
  - wp_step. eapply wp_mono; [by apply wp_createTun|]. intros [iface err] w1 ([n Hn] & _ & Hq).
    destruct (quiet_server_state _ _ Hq) as (H1 & H2 & H3). simpl in Hn.
    assert (w1.(g_client_list) !! tid = Some s) as Hs1 by by rewrite H1.
    wp_steps. eapply wp_deref; [done|]. wp_steps. eexists. unfold tunnel_set. simpl.
    rewrite insert_insert_eq, H1, H2, H3. by split_and!.
Qed.

Lemma wp_set_kcp_options (s : option RatSession) kcp w :
  peer_session kcp s → wp (setKCPOptions s) (λ _ w', quiet w w') w.
Proof.
  intros (ses & -> & Hkcp & _). eapply wp_mono.
  - apply wp_quiet_step; [eauto with preserves|]. unfold setKCPOptions. wp_steps. rewrite Hkcp.
    apply wp_set_options.
  - by intros [] w' [_ ?].
Qed.

Lemma wp_server_add_connection tid conv l kcp ses s w :
  w.(g_client_list) !! tid = Some s → peer_session kcp (Some ses) →
  (∀ conns, s.(cl_connections) = Some conns →
    ∃ r, s.(cl_consistent) = Some r ∧ ring_Members r = ids (dom conns)) →
  wp (server_add_connection tid conv l ses) (λ _ w', ∃ s' r, tunnel_set tid s' w w' ∧
    s'.(cl_connections) = Some (<[conv := l]> (cl_conns s)) ∧ s'.(cl_consistent) = Some r ∧
    ring_Members r = ids (dom (<[conv := l]> (cl_conns s))) ∧
    s'.(cl_base_convid) = s.(cl_base_convid)) w.
Proof.
  intros Hs Hses Hring. unfold server_add_connection. wp_steps.
  eapply (wp_mono _ (λ _ w1, ∃ s1 r1, tunnel_set tid s1 w w1 ∧
    s1.(cl_connections) = Some (cl_conns s) ∧ s1.(cl_consistent) = Some r1 ∧
    ring_Members r1 = ids (dom (cl_conns s)) ∧ s1.(cl_base_convid) = s.(cl_base_convid))).
  - unfold cl_conns. destruct (cl_connections s) as [conns|] eqn:Hconns.
    + destruct (Hring conns eq_refl) as (r & Hr & Hm). wp_steps. exists s, r.
      unfold tunnel_set. rewrite insert_id by done. by split_and!.
    + wp_steps. eexists _, ring_New. split; [done|]. split; [done|]. split; [done|].
      split; [|done]. simpl. by rewrite Members_New, dom_empty_L, ids_empty.
  - intros [] w1 (s1 & r1 & (Hw1 & Hh1 & Hn1) & Hc1 & Hr1 & Hm1 & Hb1).
    assert (w1.(g_client_list) !! tid = Some s1) as Hs1 by by rewrite Hw1, lookup_insert_eq.
    wp_step. eapply wp_upd_client; [done|]. wp_step.
    eapply wp_mono; [by eapply wp_set_kcp_options|]. intros [] w2 Hq.
    destruct (quiet_server_state _ _ Hq) as (H1 & H2 & H3). simpl in H1, H2, H3.
    assert (w2.(g_client_list) !! tid = Some (s1 <| cl_connections ::= fmap <[conv:=l]> |>)) as Hs2
      by by rewrite H1, lookup_insert_eq.
    wp_steps. simpl. rewrite Hr1. wp_steps. eexists _, (ring_Add (fmt_d conv) r1).
    unfold tunnel_set. simpl. rewrite H1, H2, H3, !insert_insert_eq, Hw1, insert_insert_eq.
    split; [by split_and!|]. split; [simpl; by rewrite Hc1|]. split; [done|]. split; [|done].
    by rewrite Members_Add, Hm1, dom_insert_L, ids_insert.
Qed.

(** The final state of an accept, from the state [w] with the tunnel [s]. *)
Lemma accepted_ok tid conv l kcp c s s' r w w' :
  server_ok w → peers w tid = omap (λ l, w.(w_cconns) !! l ≫= kcp_of_conn) (cl_conns s) →
  map_Forall (peer_ok w.(w_cconns)) (cl_conns s) →
  l = w.(w_next) → c.(cc_convid) = conv → peer_session kcp c.(cc_session) →
  w'.(g_client_list) = <[tid := s']> w.(g_client_list) →
  w'.(w_cconns) = <[l := c]> w.(w_cconns) → w'.(w_next) = S w.(w_next) →
  s'.(cl_connections) = Some (<[conv := l]> (cl_conns s)) → s'.(cl_consistent) = Some r →
  ring_Members r = ids (dom (<[conv := l]> (cl_conns s))) → s'.(cl_base_convid) = tid →
  s'.(cl_locked) = false → peer_added tid conv kcp w w'.
Proof.
  intros [Hok1 Hok2] Hpeers Hconn -> Hck Hses Hcl Hh Hn Hc Hr Hm Hb Hlock.
  assert (∀ m : gmap Z loc, map_Forall (peer_ok w.(w_cconns)) m → ∀ k l, m !! k = Some l → l ≠ w.(w_next)) as Hne.
  { intros m Hmap k l Hl. destruct (Hmap k l Hl) as (c0 & kcp0 & Hc0 & _).
    pose proof (Hok2 _ _ Hc0). simpl in *. lia. }
  assert (cl_conns s' = <[conv := w.(w_next)]> (cl_conns s)) as Hconns
    by (unfold cl_conns at 1; by rewrite Hc).
  assert (∀ m : gmap Z loc, map_Forall (peer_ok w.(w_cconns)) m → map_Forall (peer_ok w'.(w_cconns)) m) as Hmono.
  { intros m Hmap k l Hl. destruct (Hmap k l Hl) as (c0 & kcp0 & Hc0 & ?). exists c0, kcp0.
    rewrite Hh, lookup_insert_ne by (intros He; by apply (Hne m Hmap k l)). done. }
  split_and!.
  - split.
    + intros t st. rewrite Hcl, lookup_insert_Some. intros [[<- <-]|[_ Ht]].
      * split; [|intros conns Hcs; rewrite Hc in Hcs; injection Hcs as <-; by exists r|by intros _].
        rewrite Hconns. apply map_Forall_insert_2; [|by apply Hmono].
        exists c, kcp. by rewrite Hh, lookup_insert_eq.
      * destruct (Hok1 _ _ Ht) as [H1 H2 H3]. split; [by apply Hmono|done|done].
    + intros l' c'. rewrite Hh, Hn, lookup_insert_Some. intros [[<- _]|[_ Hl]]; [lia|].
      pose proof (Hok2 _ _ Hl). simpl in *. lia.
  - exists s'. by rewrite Hcl, lookup_insert_eq.
  - rewrite Hpeers. unfold peers. rewrite Hcl, lookup_insert_eq, Hconns, Hh.
    apply map_eq. intros k. rewrite lookup_omap. destruct (decide (k = conv)) as [->|Hk].
    + rewrite !lookup_insert_eq. simpl. rewrite lookup_insert_eq. simpl.
      destruct Hses as (ses & Hs & Hkcp & _). unfold kcp_of_conn. by rewrite Hs.
    + rewrite !lookup_insert_ne, lookup_omap by done.
      destruct (cl_conns s !! k) as [l|] eqn:Hl; [|done]. simpl.
      rewrite lookup_insert_ne; [done|]. intros He. by apply (Hne _ Hconn k l).
  - intros t Ht. unfold peers. rewrite Hcl, lookup_insert_ne, Hh by done.
    destruct (g_client_list w !! t) as [st|] eqn:Hst; [|done].
    apply map_eq. intros k. rewrite !lookup_omap. destruct (cl_conns st !! k) as [l|] eqn:Hl; [|done].
    simpl. rewrite lookup_insert_ne; [done|]. intros He.
    destruct (Hok1 _ _ Hst) as [H1 _ _]. by apply (Hne _ H1 k l).
Qed.

(** The tunnel of an accept: the one listed, or a new one. *)
Definition tunnel_or_new (w : world) (tid : Z) : clientType :=
  default new_clientType (w.(g_client_list) !! tid).

Lemma tunnel_or_new_ok w tid :
  server_ok w → stunnel_ok w.(w_cconns) tid (tunnel_or_new w tid) ∧
    peers w tid = omap (λ l, w.(w_cconns) !! l ≫= kcp_of_conn) (cl_conns (tunnel_or_new w tid)).
Proof.
  intros Hok. unfold tunnel_or_new, peers.
  destruct (g_client_list w !! tid) as [s|] eqn:Hs; simpl.
  - split; [by apply (sok_tunnels _ Hok)|done].
  - split; [|done]. split; [by intros ? ?|done|]. intros [[? H]|[? H]]; discriminate H.
Qed.

Lemma wp_server_register tid kcp w :
  tun_opens → server_ok w → (tunnel_or_new w tid).(cl_locked) = false → remote_valid kcp →
  wp (server_register cfg tid (env_kcp_GetConv kcp) kcp)
    (λ r w', ∃ l, r = Some l ∧ peer_added tid (env_kcp_GetConv kcp) kcp w w') w.
Proof.
  intros Htun Hok Hlock Hrem. destruct (tunnel_or_new_ok w tid Hok) as [[Hconn Hring Hbase] Hpeers].
  set (s := tunnel_or_new w tid) in *. unfold server_register. wp_step.
  eapply (wp_mono _ (λ _ w1, quiet w w1)).
  { eapply wp_mono; [apply wp_quiet_step; [intros; unfold setServerConnOptions; preserve|]|].
    - unfold setServerConnOptions. wp_steps. apply wp_set_options.
    - by intros [] w1 [_ ?]. }
  intros [] w1 Hq. destruct (quiet_server_state _ _ Hq) as (H1 & H2 & H3). wp_steps.
  eapply (wp_mono _ (λ _ w2, w2.(g_client_list) = <[tid := s]> w.(g_client_list) ∧
    w2.(w_cconns) = w.(w_cconns) ∧ w2.(w_next) = w.(w_next))).
  { unfold s, tunnel_or_new. rewrite H1. destruct (g_client_list w !! tid) as [s0|] eqn:Hs; wp_steps.
    - simpl. by rewrite insert_id.
    - simpl. by rewrite H1. }
  intros [] w2 (H4 & H5 & H6).
  assert (w2.(g_client_list) !! tid = Some s) as Hs2 by by rewrite H4, lookup_insert_eq.
  wp_step. eapply wp_lock_client; [done|done|]. wp_step.
  eapply wp_mono; [eapply (wp_server_setup_client tid (s <| cl_locked := true |>)); [done| |exact Hbase]|].
  { simpl. by rewrite lookup_insert_eq. }
  intros spawn w3 (s3 & (Hw3 & Hh3 & Hn3) & Hc3 & Hr3 & Hb3). simpl in Hw3, Hh3, Hn3, Hc3, Hr3.
  assert (w3.(g_client_list) !! tid = Some s3) as Hs3 by by rewrite Hw3, lookup_insert_eq.
  wp_step. eapply wp_upd_client; [done|]. wp_steps. eexists _, _. split; [reflexivity|].
  rewrite Hrem. wp_step.
  eapply wp_mono; [eapply wp_server_add_connection with (kcp := kcp);
    [simpl; by rewrite lookup_insert_eq|by eexists|]|].
  { simpl. rewrite Hc3, Hr3. exact Hring. }
  intros [] w4 (s4 & r & (Hw4 & Hh4 & Hn4) & Hc4 & Hr4 & Hm4 & Hb4). simpl in Hw4, Hh4, Hn4.
  change (cl_conns (s3 <| cl_last_convid := 0 |>)) with (cl_conns s3) in *.
  assert (cl_conns s3 = cl_conns s) as Hcs by (unfold cl_conns; by rewrite Hc3).
  rewrite Hcs in *. simpl in Hb4.
  wp_step. eapply wp_unlock_client; [by rewrite Hw4, lookup_insert_eq|].
  wp_step. apply wp_whenM; intros _; wp_steps; eexists; (split; [reflexivity|]).
  all: simpl in Hc4, Hm4; rewrite Hn3, H6 in Hc4, Hm4.
  all: eapply (accepted_ok tid _ _ kcp _ s (s4 <| cl_locked := false |>) r); try done;
    try reflexivity; try (by eexists); simpl;
    rewrite ?Hw4, ?Hh4, ?Hn4, ?Hw3, ?Hh3, ?Hn3, ?H4, ?H5, ?H6, ?insert_insert_eq; try done;
    try congruence.
  all: first [reflexivity|by eexists].
Qed.

(** *** The goroutines an accept starts *)

(** Calls that start nothing and keep the interface of the tunnel. *)
Definition settled (tid : Z) (gs : list goroutine) (w : world) : Prop :=
  sees starting gs w ∧
  ∃ s, w.(g_client_list) !! tid = Some s ∧ is_Some s.(cl_iface).

Lemma settled_outside {A} tid gs (m : W A) :
  (∀ w, preserves (quiet w) m) → preserves (sees starting gs) m → preserves (settled tid gs) m.
Proof.
  intros Hq Hs w [H1 H2]. split; [by apply Hs|].
  destruct (quiet_server_state w (m w).2 (Hq w w ltac:(done))) as (-> & _). exact H2.
Qed.
Lemma settled_upd_client tid gs f :
  (∀ s, cl_iface (f s) = cl_iface s) → preserves (settled tid gs) (upd_client tid f).
Proof.
  intros Hf w [H1 (s & Hs & Hi)]. split; [by apply sees_upd_client|].
  unfold upd_client, get_client, getS, mbind, M_bind. rewrite Hs. simpl.
  exists (f s). by rewrite lookup_insert_eq, Hf.
Qed.
Lemma settled_new_cconn tid gs c : preserves (settled tid gs) (new_cconn c).
Proof. by intros w H. Qed.
Lemma settled_get_client tid gs t : preserves (settled tid gs) (get_client t).
Proof. unfold get_client. preserve. Qed.
Lemma settled_time_Now tid gs : preserves (settled tid gs) time_Now.
Proof. by intros w H. Qed.
Lemma sees_set_options gs kcp opts : preserves (sees starting gs) (set_options kcp opts).
Proof. unfold set_options. preserve. Qed.
#[local] Hint Resolve sees_set_options : preserves.
Lemma settled_setKCPOptions tid gs s : preserves (settled tid gs) (setKCPOptions s).
Proof. apply settled_outside; [eauto with preserves|unfold setKCPOptions; preserve]. Qed.
#[local] Hint Resolve settled_new_cconn settled_get_client settled_time_Now
  settled_setKCPOptions : preserves.
#[local] Hint Extern 1 (preserves (settled _ _) (upd_client _ _)) =>
  apply settled_upd_client; by intros [] : preserves.
Lemma settled_add_connection tid gs conv l session :
  preserves (settled tid gs) (server_add_connection tid conv l session).
Proof. unfold server_add_connection. preserve. Qed.
#[local] Hint Resolve settled_add_connection : preserves.

Lemma wlp_settled {A B} tid gs (m : W A) (k : A → W B) Q w :
  preserves (settled tid gs) m → settled tid gs w →
  (∀ a w', settled tid gs w' → wlp (k a) Q w') → wlp (m ≫= k) Q w.
Proof.
  intros Hm Hw Hk. apply wlp_bind. eapply wlp_mono; [by apply (wlp_preserves _ _ _ Hm)|].
  intros a w' Hw'. by apply Hk.
Qed.

(** The set-up opens the tun device when the tunnel has none, and says so. *)
Lemma wlp_server_setup_client tid s gs w :
  tun_opens → w.(g_client_list) !! tid = Some s → sees starting gs w →
  wlp (server_setup_client cfg tid)
    (λ b w', b = bool_decide (s.(cl_iface) = None) ∧ settled tid gs w') w.
Proof.
  intros Htun Hs Hgs. unfold server_setup_client. apply wlp_bind.
  apply (wlp_get_client_eq _ _ _ _ Hs). destruct (cl_iface s) as [h|] eqn:Hi.
  - apply wlp_ret. rewrite bool_decide_eq_false_2 by done. split; [done|]. split; [done|].
    exists s. by rewrite Hi.
  - rewrite bool_decide_eq_true_2 by done. apply wlp_bind.
    destruct (wp_createTun tid cfg.(g_server_tun_ip) w Htun) as ([iface err] & w1 & Hrun & _ & Hif & Hq).
    intros r w' Hrun'. rewrite Hrun in Hrun'. injection Hrun' as <- <-.
    destruct (quiet_server_state _ _ Hq) as (H1 & _ & _).
    assert (sees starting gs w1) as Hgs1.
    { assert (preserves (sees starting gs) (createTun cfg tid cfg.(g_server_tun_ip))) as Hp
        by (unfold createTun, runthing; preserve).
      specialize (Hp w Hgs). by rewrite Hrun in Hp. }
    apply wlp_bind, wlp_upd_client. intros s1 Hs1.
    eapply (wlp_settled tid gs); [eauto with preserves| |].
    { split; [exact Hgs1|]. eexists. simpl. rewrite lookup_insert_eq. by split. }
    intros n w2 Hw2. eapply (wlp_settled tid gs); [eauto with preserves|done|].
    intros [] w3 Hw3. by apply wlp_ret.
Qed.

Lemma wlp_register_starts tid convid kcp w :
  tun_opens →
  wlp (server_register cfg tid convid kcp) (λ r w', is_Some r →
    settled tid (seen starting w ++ if bool_decide ((tunnel_or_new w tid).(cl_iface) = None)
      then [GoServerHandleTun tid] else []) w') w.
Proof.
  intros Htun. set (gs := seen starting w). unfold server_register. apply wlp_bind.
  eapply (wlp_mono _ (λ _ w1, quiet w w1 ∧ sees starting gs w1)).
  { apply wlp_and; apply wlp_preserves; unfold setServerConnOptions; try preserve; done. }
  intros [] w1 [Hq Hgs1]. destruct (quiet_server_state _ _ Hq) as (H1 & _ & _). wlp_step. wlp_step.
  apply wlp_bind. eapply (wlp_mono _ (λ _ w2, w2.(g_client_list) !! tid = Some (tunnel_or_new w tid) ∧
    sees starting gs w2)).
  { unfold tunnel_or_new. rewrite H1. destruct (g_client_list w !! tid) as [s0|] eqn:Hs;
      [apply wlp_ret|apply wlp_modify]; simpl; [by rewrite H1|by rewrite lookup_insert_eq]. }
  intros [] w2 [Hs2 Hgs2]. wlp_step. apply wlp_lock_client. intros s Hs _.
  assert (s = tunnel_or_new w tid) as -> by congruence. wlp_step.
  eapply wlp_mono; [apply (wlp_server_setup_client tid ((tunnel_or_new w tid) <| cl_locked := true |>) gs);
    [done|simpl; by rewrite lookup_insert_eq|done]|].
  intros spawn w3 [-> Hw3].
  repeat (eapply (wlp_settled tid gs); [eauto with preserves|done|intros ? ? ?]).
  destruct (refuses _).
  { apply wlp_skip. intros ? ?. apply wlp_ret. by intros [? [=]]. }
  do 2 (eapply (wlp_settled tid gs); [unfold unlock_client; eauto with preserves|done|intros ? ? ?]).
  apply wlp_bind. change (cl_iface ((tunnel_or_new w tid) <| cl_locked := true |>))
    with (cl_iface (tunnel_or_new w tid)).
  case_bool_decide; simpl; [apply wlp_modify|apply wlp_ret]; apply wlp_ret; intros _;
    [|by rewrite app_nil_r].
  match goal with H : settled tid gs ?w5 |- _ => destruct H as [Hgs Ht];
    split; [|done]; unfold sees; rewrite <- Hgs;
    apply (seen_trace starting w5 _ [EvGo (GoServerHandleTun tid)]); reflexivity end.
Qed.

Lemma socket_remote_valid kcp : socket_address (env_kcp_RemoteAddr kcp) → remote_valid kcp.
Proof.
  unfold remote_valid, refuses, remote_string.
  destruct (env_kcp_RemoteAddr kcp) as [[ip zone] port]. intros (H1 & H2 & H3).
  by rewrite ParseIP_udp_addr.
Qed.
End accept.
