(* ===== verification/ServerInv.v ===== *)
(** * The goroutines of the server keep its invariant

    [server_step] is the step relation of the server, up to the normal return of
    the operations of its goroutines.  [server_ok] holds in every state reached
    from the start; only an accept adds a peer. *)
From stdpp Require Import base gmap sets list strings.
From Stdlib Require Import ZArith Lia.
From S2P Require Import Prelude GoFloat GoNet Network Ring World Session Wire FlowKey Client.
From S2P Require Import ClientLoops ClientSpec ClientConnect ClientInv Server ServerSpec.
#[local] Open Scope Z_scope.

Section inv.
Context {C : Consistent} {CL : ConsistentLaws C} {E : Env} {EL : EnvLaws E} {P : HeaderParser}.
Context (cfg : config).

Definition sshrinks (w w' : world) : Prop :=
  server_ok w → server_ok w' ∧ ∀ tid, peers w' tid ⊆ peers w tid.

#[local] Instance sshrinks_preorder : PreOrder sshrinks.
Proof.
  split; [intros w Hw; split; [done|by intros tid]|]. intros w1 w2 w3 H1 H2 Hw.
  destruct (H1 Hw) as [Hw2 Hl2]. destruct (H2 Hw2) as [Hw3 Hl3].
  split; [done|]. intros tid. by transitivity (peers w2 tid).
Qed.

(** Operations that leave the server's records alone. *)
Definition frame (w w' : world) : Prop :=
  w'.(g_client_list) = w.(g_client_list) ∧ w'.(w_cconns) = w.(w_cconns) ∧
  w'.(w_next) = w.(w_next).

Lemma frame_sshrinks w w' : frame w w' → sshrinks w w'.
Proof.
  intros (H1 & H2 & H3) [Ho1 Ho2]. split.
  - split; by rewrite ?H1, ?H2, ?H3.
  - intros tid. unfold peers. by rewrite H1, H2.
Qed.

Lemma sshrinks_quiet {A} (m : W A) : (∀ w, preserves (quiet w) m) → respects sshrinks m.
Proof.
  apply respects_preserves; [done|]. intros w w' Hq. by apply frame_sshrinks, quiet_server_state.
Qed.
#[local] Hint Extern 2 (respects sshrinks _) =>
  apply sshrinks_quiet; intros ?; solve [eauto with preserves] : respects.

(** A record of a connection changed without its id and session. *)
Lemma upd_cconn_ok l c c' w (w' := w <| w_cconns ::= insert l c' |>) :
  server_ok w → w.(w_cconns) !! l = Some c →
  c'.(cc_convid) = c.(cc_convid) → c'.(cc_session) = c.(cc_session) →
  server_ok w' ∧ ∀ tid, peers w' tid = peers w tid.
Proof.
  intros [Ho1 Ho2] Hc Hf1 Hf2. split.
  - split.
    + intros t st Ht. destruct (Ho1 t st Ht) as [H1 H2 H3]. split; [|done|done].
      intros k l' Hl. destruct (H1 k l' Hl) as (c0 & kcp & Hc0 & Hk & Hses). simpl.
      destruct (decide (l' = l)) as [->|Hne].
      * exists c', kcp. rewrite lookup_insert_eq. assert (c0 = c) as -> by congruence.
        by rewrite Hf1, Hf2.
      * exists c0, kcp. by rewrite lookup_insert_ne.
    + intros l' c0. simpl. rewrite lookup_insert_Some. intros [[<- _]|[_ Hl]].
      * by apply (Ho2 l c).
      * by apply (Ho2 l' c0).
  - intros tid. unfold peers. simpl. destruct (g_client_list w !! tid) as [st|]; [|done].
    apply map_eq. intros k. rewrite !lookup_omap.
    destruct (cl_conns st !! k) as [l'|]; [|done]. simpl.
    destruct (decide (l' = l)) as [->|Hne].
    + rewrite lookup_insert_eq, Hc. simpl. unfold kcp_of_conn. by rewrite Hf2.
    + by rewrite lookup_insert_ne.
Qed.

Lemma sshrinks_upd_cconn l f :
  (∀ c, (f c).(cc_convid) = c.(cc_convid) ∧ (f c).(cc_session) = c.(cc_session)) →
  respects sshrinks (upd_cconn l f).
Proof.
  intros Hf w. apply wlp_upd_cconn. intros c Hc Hok. destruct (Hf c) as [Hf1 Hf2].
  destruct (upd_cconn_ok l c (f c) w Hok Hc Hf1 Hf2) as [Hok' Hp].
  split; [done|]. intros tid. by rewrite Hp.
Qed.
#[local] Hint Extern 1 (respects sshrinks (upd_cconn _ _)) =>
  apply sshrinks_upd_cconn; intros []; split; reflexivity : respects.

(** A tunnel changed without its connections, ring and base id. *)
Lemma sshrinks_upd_client tid f :
  (∀ s, (f s).(cl_connections) = s.(cl_connections) ∧ (f s).(cl_consistent) = s.(cl_consistent) ∧
     (f s).(cl_base_convid) = s.(cl_base_convid) ∧ (f s).(cl_iface) = s.(cl_iface)) →
  respects sshrinks (upd_client tid f).
Proof.
  intros Hf w. apply wlp_upd_client. intros s Hs Hok. destruct (Hf s) as (F1 & F2 & F3 & F4).
  assert (cl_conns (f s) = cl_conns s) as Hc by (unfold cl_conns; by rewrite F1).
  split.
  - apply set_client_ok; [done|]. destruct (sok_tunnels _ Hok _ _ Hs) as [H1 H2 H3].
    split; rewrite ?Hc, ?F1, ?F2, ?F3, ?F4; done.
  - intros t. destruct (decide (t = tid)) as [->|Hne]; [|by rewrite set_client_peers].
    unfold peers. simpl. by rewrite lookup_insert_eq, Hs, Hc.
Qed.
#[local] Hint Extern 1 (respects sshrinks (upd_client _ _)) =>
  apply sshrinks_upd_client; intros []; split_and!; reflexivity : respects.

Lemma sshrinks_get_client tid : respects sshrinks (get_client tid).
Proof. unfold get_client. respect. Qed.
Lemma sshrinks_get_cconn l : respects sshrinks (get_cconn l).
Proof. unfold get_cconn. respect. Qed.
#[local] Hint Resolve sshrinks_get_client sshrinks_get_cconn : respects.
Lemma sshrinks_lock tid : respects sshrinks (lock_client tid).
Proof. unfold lock_client. respect. Qed.
Lemma sshrinks_unlock tid : respects sshrinks (unlock_client tid).
Proof. unfold unlock_client. respect. Qed.
#[local] Hint Resolve sshrinks_lock sshrinks_unlock : respects.

(** A disconnect that returns removed a peer, or found no tunnel. *)
Lemma wlp_server_disconnect tid k w :
  server_ok w →
  wlp (server_disconnect_session_by_convid tid k)
    (λ _ w', if bool_decide (is_Some (w.(g_client_list) !! tid)) then peer_removed tid k w w'
             else w' = w) w.
Proof.
  intros Hok [] w' Hrun. destruct (g_client_list w !! tid) as [s|] eqn:Hs.
  - rewrite bool_decide_eq_true_2 by eauto. destruct (cl_locked s) eqn:Hl.
    + exfalso. revert Hrun. unfold server_disconnect_session_by_convid, lock_client, get_client, getS, mbind, M_bind.
      rewrite Hs. simpl. rewrite Hs. simpl. by rewrite Hl.
    + destruct (wp_server_disconnect tid k s w Hok Hs Hl) as (a & w2 & Hrun2 & Hd).
      rewrite Hrun in Hrun2. injection Hrun2 as _ ->. by eapply after_disconnect_removed.
  - rewrite bool_decide_eq_false_2 by by intros [? ?].
    revert Hrun. unfold server_disconnect_session_by_convid, getS, mbind, M_bind. rewrite Hs.
    by intros [= <-].
Qed.

Lemma sshrinks_disconnect tid k : respects sshrinks (server_disconnect_session_by_convid tid k).
Proof.
  intros w a w' Hrun Hok. pose proof (wlp_server_disconnect tid k w Hok a w' Hrun) as H.
  case_bool_decide; [|subst; by split; [|intros ?]].
  destruct H as (Hok' & _ & Hp & Hother & _). split; [done|]. intros t.
  destruct (decide (t = tid)) as [->|Hne]; [|by rewrite Hother].
  rewrite Hp. apply delete_subseteq.
Qed.
#[local] Hint Resolve sshrinks_disconnect : respects.

Lemma sshrinks_time_Now : respects sshrinks time_Now.
Proof. respect. Qed.
Lemma sshrinks_GetState s : respects sshrinks (rat_GetState s).
Proof. apply sshrinks_quiet. intros w. unfold rat_GetState. preserve. Qed.
#[local] Hint Resolve sshrinks_GetState : respects.

Lemma sshrinks_receive tid convid l data : respects sshrinks (server_receive tid convid l data).
Proof. unfold server_receive. respect. Qed.
#[local] Hint Resolve sshrinks_receive : respects.
Lemma sshrinks_read_turn tid convid kcp l : respects sshrinks (server_read_turn tid convid kcp l).
Proof. unfold server_read_turn. respect. Qed.
Lemma sshrinks_send_hello l : respects sshrinks (server_send_hello l).
Proof. unfold server_send_hello. respect. Qed.
Lemma sshrinks_ping_connection tid k : respects sshrinks (server_ping_connection tid k).
Proof. unfold server_ping_connection, server_update_bandwidth, go. respect. Qed.
#[local] Hint Resolve sshrinks_ping_connection : respects.
Lemma sshrinks_pings : respects sshrinks server_send_client_pings.
Proof. unfold server_send_client_pings. respect. Qed.
Lemma sshrinks_round_robin tid keys d : respects sshrinks (server_round_robin tid keys d).
Proof. revert d. induction keys as [|k keys IH]; intros d; simpl; respect; apply IH. Qed.
#[local] Hint Resolve sshrinks_round_robin : respects.
Lemma sshrinks_choose packet n tid : respects sshrinks (server_choose_kcp_conn cfg packet n tid).
Proof. unfold server_choose_kcp_conn. respect. Qed.
Lemma sshrinks_transmit tid l data : respects sshrinks (server_transmit tid l data).
Proof. unfold server_transmit. respect. Qed.
#[local] Hint Resolve sshrinks_choose sshrinks_transmit : respects.
Lemma sshrinks_tun_turn tid packet : respects sshrinks (server_handle_tun_turn cfg tid packet).
Proof. unfold server_handle_tun_turn, sleep_ms. respect. Qed.

(** ** The step relation *)

Inductive server_step : relation world :=
| step_accept tid kcp r w w' :
    server_register cfg tid (env_kcp_GetConv kcp) kcp w = (Ret r, w') → server_step w w'
| step_read tid convid kcp l r w w' :
    server_read_turn tid convid kcp l w = (Ret r, w') → server_step w w'
| step_client_pings w w' : server_send_client_pings w = (Ret tt, w') → server_step w w'
| step_server_hello l w w' : server_send_hello l w = (Ret tt, w') → server_step w w'
| step_server_tun tid packet r w w' :
    server_handle_tun_turn cfg tid packet w = (Ret r, w') → server_step w w'.

(** An accept that returns found the mutex free. *)
Lemma register_unlocked tid convid kcp r w w' :
  server_register cfg tid convid kcp w = (Ret r, w') → (tunnel_or_new w tid).(cl_locked) = false.
Proof.
  assert (wlp (server_register cfg tid convid kcp)
    (λ _ _, (tunnel_or_new w tid).(cl_locked) = false) w) as H; [|apply H].
  unfold server_register. wlp_step.
  eapply wlp_mono; [apply wlp_quiet; intros; unfold setServerConnOptions; preserve|].
  intros [] w1 Hq. destruct (quiet_server_state _ _ Hq) as (H1 & _ & _). wlp_step. wlp_step. wlp_step.
  unfold tunnel_or_new.
  eapply (wlp_mono _ (λ _ w2, w2.(g_client_list) !! tid =
    Some (default new_clientType (w.(g_client_list) !! tid)))).
  - rewrite <- H1. destruct (g_client_list w1 !! tid) as [s|] eqn:Hs; wlp_steps; [done|].
    simpl. by rewrite lookup_insert_eq.
  - intros [] w2 H2. wlp_step. apply wlp_lock_client. intros s Hs Hl.
    rewrite H2 in Hs. injection Hs as <-. by eapply wlp_mono; [apply wlp_true|].
Qed.

Lemma server_step_cases w w' :
  tun_opens → (∀ kcp, remote_valid kcp) → server_step w w' →
  (∃ tid kcp, server_ok w → peer_added tid (env_kcp_GetConv kcp) kcp w w') ∨ sshrinks w w'.
Proof.
  intros H1 H2 Hstep. destruct Hstep as [tid kcp r w w' Hrun|tid convid kcp l r w w' Hrun
    |w w' Hrun|l w w' Hrun|tid packet r w w' Hrun].
  - left. exists tid, kcp. intros Hok. pose proof (register_unlocked _ _ _ _ _ _ Hrun) as Hl.
    destruct (wp_server_register cfg tid kcp w H1 Hok Hl (H2 kcp)) as (r' & w2 & Hrun2 & l & _ & Hadd).
    rewrite Hrun in Hrun2. by injection Hrun2 as _ ->.
  - right. by eapply sshrinks_read_turn.
  - right. by eapply sshrinks_pings.
  - right. by eapply sshrinks_send_hello.
  - right. by eapply sshrinks_tun_turn.
Qed.

Definition server_reachable (w : world) : Prop := rtc server_step init_world w.
End inv.
