(* ===== verification/DemoServer.v ===== *)
(** * A concrete run of the server

    Three connections are accepted on the tunnel 100; the third has the
    conversation id of the first and takes its place. *)
From stdpp Require Import base gmap sets list strings.
From Stdlib Require Import ZArith Lia.
From S2P Require Import Prelude GoFloat GoNet Network Ring World Session Wire FlowKey Client.
From S2P Require Import ClientSpec Demo Server ServerSpec ServerInv.
#[local] Open Scope Z_scope.

Definition demo_accept (kcp : handle) (w : world) : world :=
  (server_register demo_cfg 100 (env_kcp_GetConv kcp) kcp w).2.

Definition demo_srv1 : world := demo_accept 100 init_world.
Definition demo_srv2 : world := demo_accept 101 demo_srv1.
Definition demo_srv : world := demo_accept 1100 demo_srv2.

Lemma demo_tun_opens : tun_opens.
Proof. intros t name. exists 7. split; [done|by eexists]. Qed.
Lemma demo_address kcp : socket_address (env_kcp_RemoteAddr kcp).
Proof. split; [by right; left|]. split; [repeat constructor; lia|lia]. Qed.
Lemma sinit_ok : server_ok init_world.
Proof. by split; intros ? ?. Qed.

Lemma demo_accepted kcp w :
  server_ok w → (tunnel_or_new w 100).(cl_locked) = false →
  ∃ l, server_register demo_cfg 100 (env_kcp_GetConv kcp) kcp w = (Ret (Some l), demo_accept kcp w) ∧
    peer_added 100 (env_kcp_GetConv kcp) kcp w (demo_accept kcp w).
Proof.
  intros Hok Hl.
  destruct (wp_server_register demo_cfg 100 kcp w demo_tun_opens Hok Hl
    (socket_remote_valid kcp (demo_address kcp))) as (r & w' & Hrun & l & -> & Ha).
  exists l. unfold demo_accept. by rewrite Hrun.
Qed.

Lemma added_unlocked w w' tid k kcp : peer_added tid k kcp w w' → (tunnel_or_new w' tid).(cl_locked) = false.
Proof. intros (_ & (s & Hs & Hl) & _). unfold tunnel_or_new. by rewrite Hs. Qed.

Lemma demo_srv1_added : peer_added 100 100 100 init_world demo_srv1.
Proof. destruct (demo_accepted 100 init_world sinit_ok eq_refl) as (l & _ & H). exact H. Qed.
Lemma demo_srv2_added : peer_added 100 101 101 demo_srv1 demo_srv2.
Proof.
  destruct (demo_accepted 101 demo_srv1) as (l & _ & H); [apply demo_srv1_added| |exact H].
  by eapply added_unlocked, demo_srv1_added.
Qed.
Lemma demo_srv_added : peer_added 100 100 1100 demo_srv2 demo_srv.
Proof.
  destruct (demo_accepted 1100 demo_srv2) as (l & _ & H); [apply demo_srv2_added| |exact H].
  by eapply added_unlocked, demo_srv2_added.
Qed.

Lemma demo_srv_ok : server_ok demo_srv.
Proof. apply demo_srv_added. Qed.
Lemma demo_srv_peers : peers demo_srv 100 = {[100 := 1100; 101 := 101]}.
Proof.
  destruct demo_srv_added as (_ & _ & -> & _). destruct demo_srv2_added as (_ & _ & -> & _).
  destruct demo_srv1_added as (_ & _ & -> & _). reflexivity.
Qed.

Definition demo_client : clientType := default new_clientType (demo_srv.(g_client_list) !! 100).
Lemma demo_client_lookup : demo_srv.(g_client_list) !! 100 = Some demo_client.
Proof.
  destruct demo_srv_added as (_ & (s & Hs & _) & _). unfold demo_client. by rewrite Hs.
Qed.
Lemma demo_client_unlocked : demo_client.(cl_locked) = false.
Proof.
  destruct demo_srv_added as (_ & (s & Hs & Hl) & _). unfold demo_client. by rewrite Hs.
Qed.
Definition demo_cconn : clientConnection :=
  default (fresh_clientConnection 0 (mkRatSession 0 None None None) "" 0 0 0) (demo_srv.(w_cconns) !! 1%nat).
Lemma demo_cconn_lookup : demo_srv.(w_cconns) !! 1%nat = Some demo_cconn.
Proof. apply default_lookup. vm_compute. reflexivity. Qed.
Lemma demo_client_conns : cl_conns demo_client = {[100 := 2%nat; 101 := 1%nat]}.
Proof. vm_compute. reflexivity. Qed.
Lemma demo_client_iface : demo_client.(cl_iface) = Some 7.
Proof. vm_compute. reflexivity. Qed.
Lemma conns_some (s : clientType) : cl_conns s ≠ ∅ → is_Some s.(cl_connections).
Proof. unfold cl_conns. destruct (cl_connections s); [by eexists|done]. Qed.
Lemma demo_client_nonempty : cl_conns demo_client ≠ ∅.
Proof. rewrite demo_client_conns. done. Qed.
Lemma demo_client_some : is_Some demo_client.(cl_connections).
Proof. apply conns_some, demo_client_nonempty. Qed.

#[global] Opaque demo_srv1 demo_srv2 demo_srv.
