(* ===== verification/ServerProps.v ===== *)
(** * Properties of the server

    Accepting and losing connections, the link-down message end to end, the
    scheduler's reply path. *)
From stdpp Require Import base gmap sets list strings.
From Stdlib Require Import ZArith Lia.
From S2P Require Import Prelude GoFloat GoNet Network Ring World Session Wire FlowKey Client.
From S2P Require Import ClientLoops ClientSpec ClientConnect ClientInv Server ServerSpec ServerInv Demo DemoServer.
#[local] Open Scope Z_scope.

Section properties.
Context {C : Consistent} {CL : ConsistentLaws C} {E : Env} {EL : EnvLaws E}.
Context {P : HeaderParser} {PL : HeaderParserLaws P}.
Context (cfg : config).

(** C3: the server's invariant, by induction on its steps: every entry of a
    connection map is a connection of that id with its KCP session, and the ring
    has exactly the ids of the map. *)
Theorem server_invariant (w : world) (Htun : tun_opens)
    (Hrem : ∀ kcp, socket_address (env_kcp_RemoteAddr kcp)) (H : server_reachable cfg w) :
  server_ok w.
Proof.
  refine (rtc_ind_r server_ok _ _ _ w H); [by split; intros ? ?|].
  intros w1 w2 _ Hstep Hok.
  destruct (server_step_cases cfg w1 w2 Htun (λ kcp, socket_remote_valid kcp (Hrem kcp)) Hstep)
    as [(tid & kcp & Ha)|Hs]; [by apply Ha|by apply Hs].
Qed.

(** C12: a connection is accepted, whatever its address: it is registered under
    its conversation id in map and ring, in place of an older connection of that
    id, the tunnel has its tun interface and its mutex is free again.  The first
    connection of a tunnel starts the reader of that interface, a later one
    starts nothing; the goroutine then goes on with the read loop of the new
    connection. *)
Theorem accept_registers (tid : Z) (kcp : handle) (w : world) (Htun : tun_opens)
    (Hok : server_ok w) (Hlock : (tunnel_or_new w tid).(cl_locked) = false)
    (Hrem : socket_address (env_kcp_RemoteAddr kcp)) :
  ∃ l w', server_register cfg tid (env_kcp_GetConv kcp) kcp w = (Ret (Some l), w') ∧
    server_ok w' ∧ sunlocked w' tid ∧
    peers w' tid = <[env_kcp_GetConv kcp := kcp]> (peers w tid) ∧
    (∀ t, t ≠ tid → peers w' t = peers w t) ∧
    (∃ s, w'.(g_client_list) !! tid = Some s ∧ is_Some s.(cl_iface)) ∧
    seen starting w' = seen starting w ++
      (if bool_decide ((tunnel_or_new w tid).(cl_iface) = None) then [GoServerHandleTun tid] else []) ∧
    ∀ turns, server_accept_conn cfg turns tid (env_kcp_GetConv kcp) kcp w =
      server_read_loop turns tid (env_kcp_GetConv kcp) kcp l w'.
Proof.
  destruct (wp_server_register cfg tid kcp w Htun Hok Hlock (socket_remote_valid kcp Hrem))
    as (r & w' & Hrun & l & -> & H1 & H2 & H3 & H4).
  destruct (wlp_register_starts cfg tid (env_kcp_GetConv kcp) kcp w Htun _ w' Hrun) as [Hgs Htn];
    [by eexists|].
  exists l, w'. split_and!; try done. intros turns.
  unfold server_accept_conn. by rewrite (bind_ret _ _ _ _ _ Hrun).
Qed.

(** C35: the guard against private peers never fires: the address given to
    [net.ParseIP] ends in a port, so it never parses and [IsPrivate] is asked
    about the nil address.  Any private address is accepted. *)
Theorem private_guard_never_fires (ip : list Z) (zone : string) (port : Z)
    (H : socket_address (ip, zone, port)) :
  refuses (udp_addr_string ip zone port) = false.
Proof. destruct H as (H1 & H2 & H3). unfold refuses. by rewrite ParseIP_udp_addr. Qed.

(** C11: a disconnect of an id returns; it removes exactly that peer from map and
    ring and closes its session, and does nothing when the id or the tunnel does
    not exist. *)
Theorem server_disconnect_refines (tid k : Z) (w : world) (Hok : server_ok w)
    (Hlock : ∀ s, w.(g_client_list) !! tid = Some s → s.(cl_locked) = false) :
  ∃ w', server_disconnect_session_by_convid tid k w = (Ret tt, w') ∧
    if bool_decide (is_Some (w.(g_client_list) !! tid)) then peer_removed tid k w w' else w' = w.
Proof.
  destruct (g_client_list w !! tid) as [s|] eqn:Hs.
  - rewrite bool_decide_eq_true_2 by eauto.
    destruct (wp_server_disconnect tid k s w Hok Hs (Hlock s eq_refl)) as ([] & w' & Hrun & H).
    exists w'. split; [done|]. by eapply after_disconnect_removed.
  - rewrite bool_decide_eq_false_2 by by intros [? ?]. exists w.
    unfold server_disconnect_session_by_convid, getS, mbind, M_bind. by rewrite Hs.
Qed.

(** The link-down message end to end: what the client writes when the link
    [k] goes makes the server drop exactly the peer [k], for every id that is a
    port number, and the reader goes on. *)
Theorem linkdown_removes_peer (tid k convid : Z) (l : loc) (c : clientConnection)
    (s : clientType) (w : world) (Hok : server_ok w) (Hs : w.(g_client_list) !! tid = Some s)
    (Hlock : s.(cl_locked) = false) (Hc : w.(w_cconns) !! l = Some c) (Hk : 0 <= k < 2 ^ 16) :
  ∃ w', server_receive tid convid l (linkdown_message k) w = (Ret true, w') ∧
    server_ok w' ∧ sunlocked w' tid ∧ peers w' tid = delete k (peers w tid) ∧
    (∀ t, t ≠ tid → peers w' t = peers w t) ∧ dom w'.(w_cconns) = dom w.(w_cconns).
Proof.
  assert (wp (server_receive tid convid l (linkdown_message k)) (λ r w', r = true ∧ server_ok w' ∧
    sunlocked w' tid ∧ peers w' tid = delete k (peers w tid) ∧
    (∀ t, t ≠ tid → peers w' t = peers w t) ∧ dom w'.(w_cconns) = dom w.(w_cconns)) w)
    as (r & w' & Hrun & -> & H); [|by exists w'].
  unfold server_receive. rewrite server_classify_linkdown.
  assert (u16 k = k) as -> by (unfold u16; by apply Z.mod_small).
  wp_step. wp_step. wp_step.
  set (w1 := w <| w_tick ::= S |>).
  eapply (wp_upd_cconn _ c); [exact Hc|].
  match goal with |- wp _ _ (w1 <| w_cconns ::= insert l ?x |>) => set (c' := x) end.
  assert (server_ok w1) as Hok1 by (by destruct Hok).
  destruct (upd_cconn_ok l c c' w1 Hok1 Hc eq_refl eq_refl) as [Hok2 Hp2].
  wp_step. eapply wp_mono; [by apply (wp_server_disconnect tid k s)|].
  intros [] w3 Hd. wp_step.
  destruct (after_disconnect_removed tid k s _ w3 Hok2 Hs Hd) as (Hok3 & Hu3 & Hp3 & Ho3 & (Hh3 & _) & _).
  split_and!; [done|done|done| | |].
  - rewrite Hp3. f_equal. exact (Hp2 tid).
  - intros t Ht. rewrite Ho3 by done. exact (Hp2 t).
  - rewrite Hh3. simpl. apply dom_insert_lookup_L. by eexists.
Qed.

(** C34: a reader outlives its connection.  When a new connection has taken the
    conversation id, the failing read of the old goroutine takes down the new
    one: it closes a session that is not its own. *)
Theorem stale_reader_closes_successor (tid convid : Z) (kcp kcp' : handle) (l : loc)
    (s : clientType) (err : string) (w : world) (Hok : server_ok w)
    (Hs : w.(g_client_list) !! tid = Some s) (Hlock : s.(cl_locked) = false)
    (Hnew : peers w tid !! convid = Some kcp') (Hold : kcp' ≠ kcp)
    (Hstate : env_kcp_GetState w.(w_tick) kcp ≠ kcp_dead)
    (Hread : env_kcp_Read (S (S w.(w_tick))) kcp = inr err) (Herr : err ≠ "timeout") :
  ∃ w', server_read_turn tid convid kcp l w = (Ret false, w') ∧
    peers w' tid = delete convid (peers w tid) ∧ EvKcpClose kcp' ∈ w'.(w_trace).
Proof.
  assert (wp (server_read_turn tid convid kcp l) (λ r w', r = false ∧
    peers w' tid = delete convid (peers w tid) ∧ EvKcpClose kcp' ∈ w'.(w_trace)) w)
    as (r & w' & Hrun & -> & H); [|by exists w'].
  unfold server_read_turn. wp_steps. rewrite bool_decide_eq_false_2 by done. wp_steps.
  simpl w_tick. rewrite Hread, bool_decide_eq_false_2 by done. wp_step.
  match goal with |- wp _ _ ?w1 => set (w2 := w1) end.
  assert (server_ok w2) as Hok2 by (by destruct Hok).
  eapply wp_mono; [by apply (wp_server_disconnect tid convid s w2)|].
  intros [] w3 Hd. wp_step.
  destruct (after_disconnect_removed tid convid s w2 w3 Hok2 Hs Hd) as (_ & _ & Hp & _ & _ & Htr).
  split; [done|]. split; [exact Hp|].
  assert (peers w2 tid !! convid = Some kcp') as Hnew2 by exact Hnew.
  rewrite Htr, Hnew2. set_solver.
Qed.
End properties.

(** ** Witnesses *)

Lemma server_invariant_witness : server_reachable demo_cfg demo_srv1 ∧ server_ok demo_srv1.
Proof.
  assert (server_reachable demo_cfg demo_srv1) as H.
  { destruct (demo_accepted 100 init_world sinit_ok eq_refl) as (l & Hrun & _).
    apply rtc_once. exact (step_accept demo_cfg 100 100 (Some l) init_world _ Hrun). }
  split; [exact H|]. exact (server_invariant demo_cfg demo_srv1 demo_tun_opens demo_address H).
Defined.

Lemma accept_registers_witness :
  ∃ l w', server_register demo_cfg 100 (env_kcp_GetConv 2101) 2101 demo_srv = (Ret (Some l), w') ∧
    server_ok w' ∧ sunlocked w' 100 ∧
    peers w' 100 = <[env_kcp_GetConv 2101 := 2101]> (peers demo_srv 100) ∧
    (∀ t, t ≠ 100 → peers w' t = peers demo_srv t) ∧
    (∃ s, w'.(g_client_list) !! 100 = Some s ∧ is_Some s.(cl_iface)) ∧
    seen starting w' = seen starting demo_srv ∧
    ∀ turns, server_accept_conn demo_cfg turns 100 (env_kcp_GetConv 2101) 2101 demo_srv =
      server_read_loop turns 100 (env_kcp_GetConv 2101) 2101 l w'.
Proof.
  destruct (accept_registers demo_cfg 100 2101 demo_srv demo_tun_opens demo_srv_ok
    (added_unlocked _ _ _ _ _ demo_srv_added) (demo_address 2101))
    as (l & w' & H1 & H2 & H3 & H4 & H5 & H6 & H7 & H8).
  exists l, w'. by split_and!.
Defined.

Lemma private_guard_never_fires_witness :
  IsPrivate [192; 168; 1; 20] = true ∧
  refuses (udp_addr_string [192; 168; 1; 20] "" 40000) = false.
Proof.
  split; [reflexivity|]. apply (private_guard_never_fires [192; 168; 1; 20] "" 40000).
  split; [by right; left|]. split; [repeat constructor; lia|lia].
Defined.

Lemma server_disconnect_refines_witness :
  ∃ w', server_disconnect_session_by_convid 100 101 demo_srv = (Ret tt, w') ∧
    peer_removed 100 101 demo_srv w' ∧ delete 101 (peers demo_srv 100) = {[100 := 1100]}.
Proof.
  destruct (server_disconnect_refines 100 101 demo_srv demo_srv_ok) as (w' & Hrun & H).
  - intros s Hs. rewrite demo_client_lookup in Hs. apply (inj Some) in Hs. rewrite <- Hs.
    exact demo_client_unlocked.
  - rewrite bool_decide_eq_true_2 in H by (rewrite demo_client_lookup; by eexists).
    exists w'. split; [exact Hrun|]. split; [exact H|]. rewrite demo_srv_peers. reflexivity.
Defined.

Lemma linkdown_removes_peer_witness :
  ∃ w', server_receive 100 101 1 (linkdown_message 100) demo_srv = (Ret true, w') ∧
    server_ok w' ∧ sunlocked w' 100 ∧ peers w' 100 = delete 100 (peers demo_srv 100) ∧
    (∀ t, t ≠ 100 → peers w' t = peers demo_srv t) ∧ dom w'.(w_cconns) = dom demo_srv.(w_cconns).
Proof.
  apply (linkdown_removes_peer 100 100 101 1 demo_cconn demo_client demo_srv demo_srv_ok
    demo_client_lookup demo_client_unlocked demo_cconn_lookup). lia.
Defined.

Lemma stale_reader_closes_successor_witness :
  ∃ w', @server_read_turn _ (demo_env_with "closed pipe") 100 100 100 0 demo_srv = (Ret false, w') ∧
    peers w' 100 = delete 100 (peers demo_srv 100) ∧ EvKcpClose 1100 ∈ w'.(w_trace).
Proof.
  assert (EnvLaws (demo_env_with "closed pipe")) as HL by (split; [done|by right]).
  apply (stale_reader_closes_successor (E := demo_env_with "closed pipe") (EL := HL) 100 100 100 1100 0
    demo_client "closed pipe" demo_srv demo_srv_ok demo_client_lookup demo_client_unlocked);
    [rewrite demo_srv_peers; reflexivity|done|done|done|done].
Defined.
