(* ===== verification/ServerTraffic.v ===== *)
(** * Properties of the server's scheduler

    The reply path: which connection carries a packet of the server's tun
    interface, and how it relates to the client's choice for the same flow. *)
From stdpp Require Import base gmap sets list strings.
From Stdlib Require Import ZArith Lia.
From S2P Require Import Prelude GoFloat GoNet Network Ring World Session Wire FlowKey Client.
From S2P Require Import ClientLoops ClientSpec ClientConnect ClientInv Demo ClientTraffic.
From S2P Require Import Server ServerSpec ServerInv DemoServer.
#[local] Open Scope Z_scope.

Section traffic.
Context {C : Consistent} {CL : ConsistentLaws C} {E : Env} {EL : EnvLaws E}.
Context {P : HeaderParser} {PL : HeaderParserLaws P}.
Context (cfg : config).

Lemma ExtractDst_ret p n : packet_buffer p → ∃ key, ExtractDst p n = Ret key.
Proof.
  unfold packet_buffer. intros Hp. unfold ExtractDst. rewrite ParseHeader_fields by lia.
  destruct (_ && _); [|by eexists]. unfold tcp_key.
  assert (∀ i : nat, Z.of_nat i < 65535 → is_Some (p !! i)) as Hin.
  { intros i Hi. apply lookup_lt_is_Some. lia. }
  destruct (Hin 20%nat ltac:(lia)) as [? ->], (Hin 21%nat ltac:(lia)) as [? ->],
    (Hin 22%nat ltac:(lia)) as [? ->], (Hin 23%nat ltac:(lia)) as [? ->]. by eexists.
Qed.

(** Ids that fit a signed 32-bit integer: those [strconv.Atoi] reads on every
    target. *)
Definition small_ids (s : clientType) : Prop := map_Forall (λ k _, 0 <= k < 2 ^ 31) (cl_conns s).

Lemma wp_server_choice tid packet n s w :
  cfg.(g_use_consistent_hashing) = true → server_ok w → w.(g_client_list) !! tid = Some s →
  is_Some s.(cl_connections) → small_ids s → packet_buffer packet →
  wp (server_choose_kcp_conn cfg (Some packet) n tid) (λ r w', w' = w ∧
    (cl_conns s = ∅ → is_Some r.2) ∧
    (cl_conns s ≠ ∅ → r.2 = None ∧ is_Some (cl_conns s !! r.1))) w.
Proof.
  intros Hcfg Hok Hs [conns Hconns] Hids Hp.
  destruct (sok_tunnels _ Hok _ _ Hs) as [_ Hring _].
  destruct (Hring conns Hconns) as (r & Hr & Hm).
  assert (cl_conns s = conns) as Hsc by (unfold cl_conns; by rewrite Hconns).
  unfold small_ids in Hids. rewrite Hsc in *. destruct (ExtractDst_ret packet n Hp) as [key Hkey].
  unfold server_choose_kcp_conn. rewrite Hcfg. wp_step. eapply wp_lift; [done|]. wp_steps.
  rewrite Hr. wp_steps. pose proof (ring_choice conns key r Hm) as Hch.
  destruct (ring_Get r key) as [owner|]; [|wp_steps; split; [done|]; split; [by eexists|done]].
  destruct Hch as (k & [l Hk] & ->). pose proof (Hids k l Hk) as Hrange. simpl in Hrange.
  assert (2 ^ 31 <= 2 ^ (env_int_bits - 1)) as Hb.
  { apply Z.pow_le_mono_r; [lia|]. destruct int_bits_cases; lia. }
  rewrite Atoi_fmt_d by (destruct int_bits_cases; lia). wp_steps.
  rewrite u32_small by lia. split; [done|]. split; [intros ->; done|]. intros _.
  split; [done|by eexists].
Qed.

(** C7: both directions of a flow use the same conversation.  When the two ends
    list the same connections, at least one, and the consistent hash is a function
    of its members, the client's choice for a packet and the server's choice for
    its reply succeed, with the same id, which both ends list. *)
Theorem reply_same_connection {CC : ConsistentCanonical C} (tid tid' : Z) (p q : list Z) (n m : Z)
    (s : serverType) (c : clientType) (w v : world) (Hcfg : cfg.(g_use_consistent_hashing) = true)
    (Hw : client_ok w) (Hv : server_ok v)
    (Hs : w.(g_server_list) !! tid = Some s) (Hc : v.(g_client_list) !! tid' = Some c)
    (Hsame : dom (sv_conns s) = dom (cl_conns c)) (Hne : sv_conns s ≠ ∅)
    (Hp : packet_buffer p) (Hq : packet_buffer q) (Hpq : reply p q) (Hsize : same_size_class n m) :
  ∃ k, client_choose_kcp_conn cfg (Some p) n tid w = (Ret (k, None), w) ∧
    server_choose_kcp_conn cfg (Some q) m tid' v = (Ret (k, None), v) ∧
    is_Some (sv_conns s !! k) ∧ is_Some (cl_conns c !! k).
Proof.
  assert (cl_conns c ≠ ∅) as Hne'.
  { intros He. rewrite He, dom_empty_L in Hsame. by apply dom_empty_inv_L in Hsame. }
  unfold sv_conns in *. unfold cl_conns in *.
  destruct (sv_connections s) as [sconns|] eqn:Hsc; [|done].
  destruct (cl_connections c) as [cconns|] eqn:Hcc; [|done]. simpl in *.
  destruct (ok_tunnels _ Hw _ _ Hs) as [_ Hkeys Hring _].
  destruct (Hring sconns Hsc) as (r & Hr & Hm).
  destruct (sok_ring _ _ _ (sok_tunnels _ Hv _ _ Hc) cconns Hcc) as (r' & Hr' & Hm').
  destruct (symmetric_keys p q n m Hp Hq Hpq Hsize) as (key & Hk1 & Hk2).
  assert (ring_Get r' key = ring_Get r key) as Hget by (apply Get_members; congruence).
  pose proof (ring_choice sconns key r Hm) as Hch.
  destruct (ring_Get r key) as [owner|] eqn:Howner; [|done]. destruct Hch as (k & Hk & ->).
  assert (0 < k < 2 ^ 16) as Hrange.
  { destruct Hk as [l Hl]. unfold sv_conns in Hkeys. rewrite Hsc in Hkeys. by apply (Hkeys k l). }
  assert (2 ^ 16 <= 2 ^ (env_int_bits - 1)) as Hbits.
  { apply Z.pow_le_mono_r; [lia|]. destruct int_bits_cases; lia. }
  exists k. split_and!.
  - unfold client_choose_kcp_conn, lift, get_server, getS, mbind, M_bind, mret, M_ret.
    rewrite Hcfg, Hk1, Hs. simpl. unfold mret, M_ret. rewrite Hr. simpl. rewrite Howner, Atoi_fmt_d by (destruct int_bits_cases; lia).
    by rewrite u32_small by lia.
  - unfold server_choose_kcp_conn, lift, get_client, getS, mbind, M_bind, mret, M_ret.
    rewrite Hcfg, Hk2, Hc. simpl. unfold mret, M_ret. rewrite Hr'. simpl. rewrite Hget, Atoi_fmt_d by (destruct int_bits_cases; lia).
    by rewrite u32_small by lia.
  - done.
  - apply elem_of_dom. rewrite <- Hsame. by apply elem_of_dom.
Qed.

(** A packet of the server's tun interface is written, unchanged, as one
    message to a connection of the tunnel, whenever the tunnel has connections
    and KCP accepts it; without any it is dropped and the loop waits. *)
Theorem server_packet_forwarded (tid : Z) (packet data : list Z) (s : clientType) (tun : handle)
    (w : world) (Hcfg : cfg.(g_use_consistent_hashing) = true) (Hok : server_ok w)
    (Hs : w.(g_client_list) !! tid = Some s) (Hlock : s.(cl_locked) = false)
    (Htun : s.(cl_iface) = Some tun) (Hsome : is_Some s.(cl_connections)) (Hids : small_ids s)
    (Hp : packet_buffer packet) (Hread : env_tun_Read w.(w_tick) tun = inl data)
    (Hlen : Z.of_nat (length data) <= 65535)
    (Halive : ∀ t kcp, env_kcp_GetState t kcp ≠ kcp_dead)
    (Hwrite : ∀ t kcp d, env_kcp_Write t kcp d = None) :
  ∃ w', server_handle_tun_turn cfg tid packet w = (Ret (read_into packet data), w') ∧
    packet_buffer (read_into packet data) ∧
    (cl_conns s = ∅ → w'.(w_trace) = w.(w_trace) ++ [EvSleep 10]) ∧
    (cl_conns s ≠ ∅ → ∃ k kcp t, peers w tid !! k = Some kcp ∧
       w'.(w_trace) = w.(w_trace) ++ [EvKcpWriteDeadline kcp t; EvKcpWrite kcp data]).
Proof.
  assert (packet_buffer (read_into packet data)) as Hp' by by apply read_into_buffer.
  assert (wp (server_handle_tun_turn cfg tid packet) (λ r w', r = read_into packet data ∧
    (cl_conns s = ∅ → w'.(w_trace) = w.(w_trace) ++ [EvSleep 10]) ∧
    (cl_conns s ≠ ∅ → ∃ k kcp t, peers w tid !! k = Some kcp ∧
       w'.(w_trace) = w.(w_trace) ++ [EvKcpWriteDeadline kcp t; EvKcpWrite kcp data])) w)
    as (r & w' & Hrun & -> & H); [|by exists w'].
  unfold server_handle_tun_turn. wp_steps. rewrite Htun. wp_steps. rewrite Hread.
  set (w1 := w <| w_tick ::= S |>). assert (server_ok w1) as Hok1 by (by destruct Hok).
  wp_step. eapply wp_mono; [by apply (wp_server_choice tid _ _ s w1)|].
  intros [k err] w' (-> & He & Hne). simpl in He, Hne.
  destruct (decide (cl_conns s = ∅)) as [Hemp|Hemp].
  { destruct (He Hemp) as [e ->]. rewrite bool_decide_eq_false_2 by done. cbn [negb]. wp_steps. by split_and!. }
  destruct (Hne Hemp) as (-> & l & Hl). rewrite bool_decide_eq_true_2 by done. cbn [negb].
  destruct (listed_peer w tid s k l Hok Hs Hl)
    as (c & kcp & Hc & Hck & (ses & Hses & Hkcp & _) & Hpeer).
  wp_step. eapply wp_lock_client; [done|done|].
  wp_step. eapply wp_get_client; [simpl; by rewrite lookup_insert_eq|].
  wp_step. eapply wp_unlock_client; [simpl; by rewrite lookup_insert_eq|].
  change (cl_conns (s <| cl_locked := true |>)) with (cl_conns s). rewrite Hl.
  wp_steps. rewrite Hses. unfold rat_GetState. wp_step. rewrite Hkcp. wp_steps.
  rewrite bool_decide_eq_false_2 by done. unfold server_transmit. wp_steps.
  unfold rat_SetWriteDeadline, rat_Write. rewrite Hses. simpl. rewrite Hkcp. wp_steps.
  rewrite Hwrite. wp_steps. split; [done|]. split; [done|]. intros _.
  eexists k, kcp, _. split; [done|]. simpl. by rewrite <- app_assoc.
Qed.
(** C29: one connection of the server's keep-alive pass.  A peer whose last hello
    is too old is removed and its session closed, also when no link-down message
    has named it; any other peer is sent a hello and its byte counters start
    again for the next bandwidth estimate. *)
Theorem silent_peer_expires (tid k : Z) (s : clientType) (l : loc) (c : clientConnection)
    (kcp : handle) (w : world) (Hok : server_ok w) (Hs : w.(g_client_list) !! tid = Some s)
    (Hlock : s.(cl_locked) = false) (Hl : cl_conns s !! k = Some l)
    (Hc : w.(w_cconns) !! l = Some c) (Hp : peers w tid !! k = Some kcp) :
  ∃ w', server_ping_connection tid k w = (Ret tt, w') ∧ server_ok w' ∧
    if hello_expired (env_now w.(w_tick)) c.(cc_last_hello)
    then peers w' tid = delete k (peers w tid) ∧ w'.(w_trace) = w.(w_trace) ++ [EvKcpClose kcp]
    else (∀ t, peers w' t = peers w t) ∧
      w'.(w_trace) = w.(w_trace) ++ [EvGo (GoServerSendHello l)] ∧
      ∃ c', w'.(w_cconns) !! l = Some c' ∧ c'.(cc_txbytes) = 0 ∧ c'.(cc_rxbytes) = 0 ∧
        c'.(cc_last_bw_update) = env_now w.(w_tick).
Proof.
  assert (wp (server_ping_connection tid k) (λ _ w', server_ok w' ∧
    if hello_expired (env_now w.(w_tick)) c.(cc_last_hello)
    then peers w' tid = delete k (peers w tid) ∧ w'.(w_trace) = w.(w_trace) ++ [EvKcpClose kcp]
    else (∀ t, peers w' t = peers w t) ∧
      w'.(w_trace) = w.(w_trace) ++ [EvGo (GoServerSendHello l)] ∧
      ∃ c', w'.(w_cconns) !! l = Some c' ∧ c'.(cc_txbytes) = 0 ∧ c'.(cc_rxbytes) = 0 ∧
        c'.(cc_last_bw_update) = env_now w.(w_tick)) w) as ([] & w' & Hrun & H); [|by exists w'].
  destruct (listed_peer w tid s k l Hok Hs Hl) as (c0 & kcp0 & Hc0 & Hck & (ses & Hses & _) & _).
  assert (c0 = c) as -> by congruence.
  assert (s.(cl_base_convid) = tid) as Hb.
  { apply (sok_base _ _ _ (sok_tunnels _ Hok _ _ Hs)). left. unfold cl_conns in Hl.
    destruct (cl_connections s); [by eexists|done]. }
  unfold server_ping_connection. wp_steps. rewrite Hl. wp_steps. rewrite Hb, Hck.
  destruct (hello_expired _ _).
  - set (w1 := w <| w_tick ::= S |>). assert (server_ok w1) as Hok1 by (by destruct Hok).
    eapply wp_mono; [by apply (wp_server_disconnect tid k s w1)|]. intros [] w' Hd.
    destruct (after_disconnect_removed tid k s w1 w' Hok1 Hs Hd) as (Hok' & _ & Hp' & _ & _ & Htr).
    split; [done|]. split; [exact Hp'|]. rewrite Htr.
    assert (peers w1 tid !! k = Some kcp) as -> by exact Hp. done.
  - rewrite Hses. wp_steps. unfold server_update_bandwidth.
    match goal with |- wp _ _ ?x => set (w1 := x) end.
    assert (server_ok w1) as Hok1 by (by destruct Hok).
    eapply (wp_upd_cconn _ c); [exact Hc|].
    match goal with |- context [insert l ?x] => set (c' := x) end.
    destruct (upd_cconn_ok l c c' w1 Hok1 Hc eq_refl eq_refl) as [Hok2 Hp2].
    split; [done|]. split; [exact Hp2|]. split; [done|].
    exists c'. simpl. rewrite lookup_insert_eq. by split_and!.
Qed.
End traffic.

(** ** Witnesses *)

Definition demo_reply : list Z := tcp_frame [8;8;8;8] [10;0;0;2] [1;187;192;1].

(** The client and the server of the examples, both with connections 100 and 101. *)
Lemma reply_same_connection_witness :
  ∃ k, client_choose_kcp_conn demo_cfg (Some demo_buffer) 40 100 demo2 = (Ret (k, None), demo2) ∧
    server_choose_kcp_conn demo_cfg (Some demo_reply) 1400 100 demo_srv = (Ret (k, None), demo_srv) ∧
    is_Some (sv_conns demo_tunnel !! k) ∧ is_Some (cl_conns demo_client !! k).
Proof.
  apply (reply_same_connection demo_cfg 100 100 demo_buffer demo_reply 40 1400 demo_tunnel demo_client
    demo2 demo_srv eq_refl demo2_ok demo_srv_ok demo_tunnel_lookup demo_client_lookup).
  - rewrite demo_client_conns. vm_compute. reflexivity.
  - exact demo_conns_nonempty.
  - apply demo_buffer_ok.
  - apply tcp_frame_buffer; reflexivity.
  - unfold reply; split_and!; reflexivity.
  - unfold same_size_class; lia.
Defined.

Lemma server_packet_forwarded_witness :
  let data := 69 :: replicate 39 0 in
  ∃ w', server_handle_tun_turn demo_cfg 100 demo_buffer demo_srv =
      (Ret (read_into demo_buffer data), w') ∧
    packet_buffer (read_into demo_buffer data) ∧
    (cl_conns demo_client = ∅ → w'.(w_trace) = demo_srv.(w_trace) ++ [EvSleep 10]) ∧
    (cl_conns demo_client ≠ ∅ → ∃ k kcp t, peers demo_srv 100 !! k = Some kcp ∧
       w'.(w_trace) = demo_srv.(w_trace) ++ [EvKcpWriteDeadline kcp t; EvKcpWrite kcp data]).
Proof.
  apply (server_packet_forwarded demo_cfg 100 demo_buffer (69 :: replicate 39 0) demo_client 7
    demo_srv eq_refl demo_srv_ok demo_client_lookup demo_client_unlocked demo_client_iface
    demo_client_some); [|apply demo_buffer_ok|reflexivity|simpl; lia|done|done].
  intros k l Hl. rewrite demo_client_conns in Hl.
  apply lookup_insert_Some in Hl as [[<- _]|[_ Hl]]; [lia|].
  apply lookup_singleton_Some in Hl as [<- _]. lia.
Defined.

Lemma silent_peer_expires_witness :
  ∃ w', server_ping_connection 100 101 demo_srv = (Ret tt, w') ∧ server_ok w' ∧
    if hello_expired (env_now demo_srv.(w_tick)) demo_cconn.(cc_last_hello)
    then peers w' 100 = delete 101 (peers demo_srv 100) ∧
      w'.(w_trace) = demo_srv.(w_trace) ++ [EvKcpClose 101]
    else (∀ t, peers w' t = peers demo_srv t) ∧
      w'.(w_trace) = demo_srv.(w_trace) ++ [EvGo (GoServerSendHello 1)] ∧
      ∃ c', w'.(w_cconns) !! 1%nat = Some c' ∧ c'.(cc_txbytes) = 0 ∧ c'.(cc_rxbytes) = 0 ∧
        c'.(cc_last_bw_update) = env_now demo_srv.(w_tick).
Proof.
  apply (silent_peer_expires 100 101 demo_client 1 demo_cconn 101 demo_srv demo_srv_ok
    demo_client_lookup demo_client_unlocked); [|exact demo_cconn_lookup|].
  - rewrite demo_client_conns. reflexivity.
  - rewrite demo_srv_peers. reflexivity.
Defined.
