(* ===== verification/SessionProps.v ===== *)
(** * Properties of the sessions of both ends

    Whatever a session was before, when the client has created it or the server
    has registered it, it runs in the turbo mode of the source: both ends agree
    on every KCP parameter. *)
From stdpp Require Import base gmap sets list strings.
From Stdlib Require Import ZArith Lia.
From S2P Require Import Prelude GoFloat GoNet Network Ring World Session Wire FlowKey Client.
From S2P Require Import ClientLoops ClientSpec ClientConnect Demo Server ServerSpec ServerInv DemoServer.
#[local] Open Scope Z_scope.

Section session_props.
Context {C : Consistent} {E : Env} {P : HeaderParser} (cfg : config).

(** [kcp] runs in turbo mode. *)
Definition in_turbo (kcp : handle) (w : world) : Prop :=
  ∀ defaults, settings_of kcp defaults w.(w_trace) = turbo.

Definition apply_event (kcp : handle) (k : kcp_settings) (e : event) : kcp_settings :=
  match e with
  | EvKcpOption h o => if bool_decide (h = kcp) then apply_option k o else k
  | _ => k
  end.

Lemma settings_of_app kcp d l1 l2 : settings_of kcp d (l1 ++ l2) = settings_of kcp (settings_of kcp d l1) l2.
Proof. unfold settings_of. apply foldl_app. Qed.

(** Events other than options keep the mode. *)
Lemma turbo_emit kcp e : (∀ k, apply_event kcp k e = k) → preserves (in_turbo kcp) (emit e).
Proof.
  intros He w Hw d. simpl. rewrite settings_of_app, Hw.
  change (apply_event kcp turbo e = turbo). apply He.
Qed.
Lemma turbo_tick kcp : preserves (in_turbo kcp) tick.
Proof. by intros w Hw. Qed.
Lemma turbo_get_client kcp tid : preserves (in_turbo kcp) (get_client tid).
Proof. unfold get_client. preserve. Qed.
Lemma turbo_upd_client kcp tid f : preserves (in_turbo kcp) (upd_client tid f).
Proof. unfold upd_client, get_client. preserve. Qed.
#[local] Hint Resolve turbo_get_client turbo_upd_client turbo_tick : preserves.
#[local] Hint Extern 1 (preserves (in_turbo _) (emit _)) => apply turbo_emit; reflexivity : preserves.

(** Setting all seven parameters. *)
Lemma set_options_trace kcp opts w a w' :
  set_options kcp opts w = (Ret a, w') → w'.(w_trace) = w.(w_trace) ++ (EvKcpOption kcp <$> opts).
Proof.
  unfold set_options. revert w. induction opts as [|o opts IH]; intros w; simpl.
  - intros [= _ <-]. by rewrite app_nil_r.
  - intros H. apply IH in H. rewrite H. simpl. by rewrite <- app_assoc.
Qed.

Lemma wlp_set_turbo kcp s w :
  s_kcp s = Some kcp → wlp (setKCPOptions (Some s)) (λ _ w', in_turbo kcp w') w.
Proof.
  intros Hk. unfold setKCPOptions. wlp_steps. simplify_eq. rewrite Hk. intros [] w' H d.
  apply set_options_trace in H. rewrite H, settings_of_app. unfold settings_of at 1. simpl.
  by rewrite bool_decide_eq_true_2.
Qed.

Lemma turbo_again kcp w :
  in_turbo kcp w → wlp (setClientConnOptions (Some kcp)) (λ _ w', in_turbo kcp w') w.
Proof.
  intros Hw. unfold setClientConnOptions. wlp_steps. simplify_eq. intros [] w' H d.
  apply set_options_trace in H. rewrite H, settings_of_app, Hw. unfold settings_of. simpl.
  by rewrite bool_decide_eq_true_2.
Qed.

(** The session [create_session] returns carries the conversation id, the
    socket bound to the source address, a KCP session opened with the
    configured cipher to the resolved server, and runs in turbo mode. *)
Theorem create_session_opens (convid : Z) (src : string) (s : option RatSession) (w w' : world)
    (Hrun : create_session cfg convid src w = (Ret (s, None), w')) :
  convid ≠ 0 ∧ ∃ ses kcp conn addr t, s = Some ses ∧ ses.(s_convid) = convid ∧
    ses.(s_kcp) = Some kcp ∧ ses.(s_udp_conn) = Some conn ∧
    env_kcp_NewConn t convid addr (session_block cfg) dataSize paritySize conn = Some kcp ∧
    in_turbo kcp w'.
Proof.
  assert (wlp (create_session cfg convid src) (λ r w', r.2 = None → convid ≠ 0 ∧
    ∃ ses kcp conn addr t, r.1 = Some ses ∧ ses.(s_convid) = convid ∧
    ses.(s_kcp) = Some kcp ∧ ses.(s_udp_conn) = Some conn ∧
    env_kcp_NewConn t convid addr (session_block cfg) dataSize paritySize conn = Some kcp ∧
    in_turbo kcp w') w) as H; [|by apply (H (s, None) w' Hrun)].
  unfold create_session. wlp_steps. case_match; [|by wlp_steps]. wlp_steps.
  case_match; [|by wlp_steps]. case_match. wlp_steps. case_match; [|by wlp_steps].
  wlp_step. unfold NewSession. case_bool_decide as Hc; [by wlp_steps|]. wlp_step. wlp_step.
  destruct (env_kcp_NewConn _ _ _ _ _ _ _) as [kcp|] eqn:Hkcp; wlp_steps; [|done].
  eapply wlp_mono; [by apply wlp_set_turbo|]. intros [] w1 Ht. wlp_steps.
  injection H3 as <-.
  eapply wlp_mono; [by apply turbo_again|]. intros [] w2 Ht2. wlp_steps. intros _.
  split; [done|]. eexists _, kcp, _, _, _. split; [done|]. by split_and!.
Qed.

(** A connection the server has registered runs in turbo mode too. *)
Theorem accepted_in_turbo (tid convid : Z) (kcp : handle) (l : loc) (w w' : world)
    (Hrun : server_register cfg tid convid kcp w = (Ret (Some l), w')) : in_turbo kcp w'.
Proof.
  assert (wlp (server_register cfg tid convid kcp) (λ r w', r = Some l → in_turbo kcp w') w) as H;
    [|by apply (H _ w' Hrun)].
  unfold server_register. do 10 (apply wlp_skip; intros ? ?).
  destruct (refuses _); [apply wlp_skip; intros ? ?; by wlp_steps|].
  eapply wlp_bind, (wlp_mono _ (λ _ w1, in_turbo kcp w1)).
  - unfold server_add_connection. do 3 (apply wlp_skip; intros ? ?).
    apply wlp_bind. eapply wlp_mono; [by apply wlp_set_turbo|]. intros [] w1 Ht.
    apply wlp_preserves; [preserve|done].
  - intros [] w1 Ht. eapply wlp_mono; [eapply (wlp_preserves (in_turbo kcp)); [|exact Ht]|by intros].
    unfold unlock_client, go. preserve.
Qed.
End session_props.

(** ** Witnesses *)

Lemma create_session_opens_witness :
  ∃ s w', create_session demo_cfg 100 "192.168.1.20" init_world = (Ret (s, None), w') ∧
  (100 ≠ 0 ∧ ∃ ses kcp conn addr t, s = Some ses ∧ ses.(s_convid) = 100 ∧
    ses.(s_kcp) = Some kcp ∧ ses.(s_udp_conn) = Some conn ∧
    env_kcp_NewConn t 100 addr (session_block demo_cfg) dataSize paritySize conn = Some kcp ∧
    in_turbo kcp w').
Proof.
  destruct (wp_create_session demo_cfg "192.168.1.20" "eth0" demo_up_eth0 100 init_world)
    as ([s err] & w' & Hrun & Herr & _); [lia|]. simpl in Herr. rewrite Herr in Hrun.
  exists s, w'. split; [exact Hrun|].
  exact (create_session_opens demo_cfg 100 "192.168.1.20" s init_world w' Hrun).
Defined.

Lemma accepted_in_turbo_witness : in_turbo 1100 demo_srv.
Proof.
  destruct (demo_accepted 1100 demo_srv2) as (l & Hrun & _);
    [apply demo_srv2_added|by eapply added_unlocked, demo_srv2_added|].
  exact (accepted_in_turbo demo_cfg 100 (env_kcp_GetConv 1100) 1100 l demo_srv2 _ Hrun).
Defined.
