(* ===== verification/Netlink.v ===== *)
(** * Netlink updates ([src/p_netlink.go])

    What the client does with one update of the kernel's interfaces or routes,
    and the three goroutines as loops over the updates they receive. *)
From stdpp Require Import base gmap sets list strings.
From Stdlib Require Import ZArith Lia.
From S2P Require Import Prelude GoFloat GoNet Network Ring World Session Wire FlowKey Client.
From S2P Require Import ClientSpec ClientDisconnect ClientConnect ClientInv Demo.
#[local] Open Scope Z_scope.

Definition RTM_NEWROUTE : Z := 24.
Definition RTM_DELROUTE : Z := 25.

(** The fields of a [netlink.RouteUpdate] that are used; [ru_Dst] and [ru_Gw]
    are the texts their [String] methods give, [ru_Src] is [None] for nil. *)
Record RouteUpdate := mkRouteUpdate {
  ru_Type : Z;
  ru_LinkIndex : Z;
  ru_Dst : string;
  ru_Src : option string;
  ru_Gw : string;
  ru_Table : Z
}.

(** The name and the text of the state of a [netlink.LinkUpdate]. *)
Record LinkUpdate := mkLinkUpdate { lu_Name : string; lu_OperState : string }.

Section netlink.
Context {C : Consistent} {E : Env} {P : HeaderParser} (cfg : config).

(** One update of [netlink_subscribe_ifaces]. *)
Definition handle_link_update (update : LinkUpdate) (tunnelid : Z) : W unit :=
  if contains update.(lu_Name) "tun" then mret tt
  else if bool_decide (update.(lu_OperState) = "down") then
    client_disconnect_session_by_ifname cfg tunnelid update.(lu_Name)
  else mret tt.

(** [rif.Name] after [net.InterfaceByIndex]: on its error [rif] is nil. *)
Definition interface_name (index : Z) : W string :=
  t ← tick; deref "nil *net.Interface" (env_InterfaceByIndex t index).

Definition handle_route_update (update : RouteUpdate) (tunnelid : Z) : W unit :=
  let default_dst := bool_decide (update.(ru_Dst) = "0.0.0.0/0") in
  if bool_decide (update.(ru_Type) = RTM_NEWROUTE) && default_dst then
    if bool_decide (update.(ru_Table) = 254) then mret tt
    else match update.(ru_Src) with
      | None => mret tt
      | Some src =>
          name ← interface_name update.(ru_LinkIndex);
          client_connect_server cfg tunnelid src name update.(ru_Gw) "NEW DEFAULT ROUTE DETECTED"
      end
  else if bool_decide (update.(ru_Type) = RTM_DELROUTE) && default_dst then
    if bool_decide (update.(ru_Table) = 254) then mret tt
    else match update.(ru_Src) with
      | None => mret tt
      | Some src =>
          name ← interface_name update.(ru_LinkIndex);
          client_disconnect_session_by_src cfg tunnelid src name update.(ru_Gw)
      end
  else mret tt.

(** The goroutines, on the updates they receive. *)
Definition netlink_subscribe_ifaces (tunnelid : Z) (updates : list LinkUpdate) : W unit :=
  for_each updates (fun u => handle_link_update u tunnelid).
Definition netlink_subscribe_routes (tunnelid : Z) (updates : list RouteUpdate) : W unit :=
  for_each updates (fun u => handle_route_update u tunnelid).
Definition netlink_get_routes (tunnelid : Z) (updates : list RouteUpdate) : W unit :=
  for_each updates (fun u => handle_route_update u tunnelid).
End netlink.

(** ** Properties *)

Section properties.
Context {C : Consistent} {CL : ConsistentLaws C} {E : Env} {EL : EnvLaws E} {P : HeaderParser}.
Context (cfg : config).

(** A default route outside the main table, with a source address. *)
Definition usable_route (u : RouteUpdate) : option string :=
  if bool_decide (u.(ru_Dst) = "0.0.0.0/0") && negb (bool_decide (u.(ru_Table) = 254))
  then u.(ru_Src) else None.

(** C32: the effect of a route update on the links, for every update whose
    handling returns.  A new usable default route is a connect from its source
    address on the interface of its index; the removal of one takes down the
    links of its source address; every other update leaves the links alone. *)
Theorem route_update_links (u : RouteUpdate) (tid : Z) (w w' : world)
    (Hpos : 0 < tid) (Hmax : tid + 11 < 2 ^ 32) (Hok : client_ok w)
    (Hrun : handle_route_update cfg u tid w = (Ret tt, w')) :
  client_ok w' ∧
  match usable_route u with
  | Some src =>
      if bool_decide (u.(ru_Type) = RTM_NEWROUTE) then
        ∃ name t, env_InterfaceByIndex t u.(ru_LinkIndex) = Some name ∧
          connected cfg tid src name w w'
      else if bool_decide (u.(ru_Type) = RTM_DELROUTE) then
        taken_down tid (λ _ lk, bool_decide (lk.(l_src) = src)) w w'
      else w' = w
  | None => w' = w
  end.
Proof.
  assert (wlp (handle_route_update cfg u tid) (λ _ w', client_ok w' ∧
  match usable_route u with
  | Some src =>
      if bool_decide (u.(ru_Type) = RTM_NEWROUTE) then
        ∃ name t, env_InterfaceByIndex t u.(ru_LinkIndex) = Some name ∧
          connected cfg tid src name w w'
      else if bool_decide (u.(ru_Type) = RTM_DELROUTE) then
        taken_down tid (λ _ lk, bool_decide (lk.(l_src) = src)) w w'
      else w' = w
  | None => w' = w
  end) w) as H; [|by apply (H tt w')].
  assert (client_ok (w <| w_tick ::= S |>)) as Hok1 by by eapply quiet_ok; [|exact Hok].
  unfold handle_route_update, usable_route, interface_name.
  destruct (bool_decide (ru_Dst u = "0.0.0.0/0")); rewrite ?andb_true_r, ?andb_false_r; simpl;
    [|by wlp_steps].
  destruct (bool_decide (ru_Type u = RTM_NEWROUTE)) eqn:Hnew;
    [|destruct (bool_decide (ru_Type u = RTM_DELROUTE)) eqn:Hdel];
    (destruct (bool_decide (ru_Table u = 254)); simpl; [by wlp_steps|]);
    (destruct (ru_Src u) as [src|]; [|by wlp_steps]); wlp_steps; try done.
  - eapply wlp_mono; [by apply wlp_connect|]. intros [] w2 Hc. split; [apply Hc|]. by eexists _, _.
  - eapply wlp_mono; [by apply (wlp_disconnect cfg tid _ (λ _ lk, bool_decide (lk.(l_src) = src)))|].
    intros [] w2 Hd. split; [apply Hd|exact Hd].
Qed.

(** A default route whose interface is gone by the time it is looked up
    stops the client: the error is logged and the nil interface dereferenced. *)
Theorem route_of_vanished_interface (u : RouteUpdate) (tid : Z) (src : string) (w : world)
    (Hroute : usable_route u = Some src)
    (Htype : u.(ru_Type) = RTM_NEWROUTE ∨ u.(ru_Type) = RTM_DELROUTE)
    (Hgone : env_InterfaceByIndex w.(w_tick) u.(ru_LinkIndex) = None) :
  (handle_route_update cfg u tid w).1 = Panic "nil *net.Interface".
Proof.
  unfold usable_route in Hroute. unfold handle_route_update, interface_name.
  destruct (bool_decide (ru_Dst u = "0.0.0.0/0")); [|done]. simpl in Hroute.
  destruct (bool_decide (ru_Table u = 254)); [done|]. simpl in Hroute. rewrite Hroute.
  unfold mbind, M_bind. destruct Htype as [-> | ->]; simpl; by rewrite Hgone.
Qed.

(** An interface going down takes its links down; the tun interfaces, and
    every other change of state, are ignored. *)
Theorem link_update_links (u : LinkUpdate) (tid : Z) (w : world)
    (Hok : client_ok w) (Hlock : free_lock w tid) :
  ∃ w', handle_link_update cfg u tid w = (Ret tt, w') ∧
    if negb (contains u.(lu_Name) "tun") && bool_decide (u.(lu_OperState) = "down") &&
       bool_decide (is_Some (w.(g_server_list) !! tid))
    then taken_down tid (λ _ lk, bool_decide (lk.(l_ifname) = u.(lu_Name))) w w'
    else w' = w.
Proof.
  unfold handle_link_update. destruct (contains _ "tun"); [by exists w|].
  destruct (bool_decide (lu_OperState u = "down")); [|by exists w]. simpl.
  destruct (g_server_list w !! tid) as [s|] eqn:Hs.
  - rewrite bool_decide_eq_true_2 by eauto.
    destruct (wp_disconnect cfg tid (λ c, bool_decide (c.(sc_ifname) = u.(lu_Name)))
      (λ _ lk, bool_decide (lk.(l_ifname) = u.(lu_Name))) w) as ([] & w' & Hrun & H);
      [done|done|by exists s; split; [|apply Hlock]|].
    exists w'. split; [|done]. unfold client_disconnect_session_by_ifname, getS, mbind, M_bind.
    rewrite Hs. exact Hrun.
  - rewrite bool_decide_eq_false_2 by by intros [? ?]. exists w.
    unfold client_disconnect_session_by_ifname, getS, mbind, M_bind. by rewrite Hs.
Qed.
End properties.

(** ** Witnesses *)

Definition demo_route : RouteUpdate :=
  mkRouteUpdate RTM_NEWROUTE 2 "0.0.0.0/0" (Some "192.168.1.20") "192.168.1.1" 100.

Lemma route_update_links_witness :
  ∃ w', handle_route_update demo_cfg demo_route 100 init_world = (Ret tt, w') ∧
    client_ok w' ∧ ∃ name t, env_InterfaceByIndex t 2 = Some name ∧
      connected demo_cfg 100 "192.168.1.20" name init_world w'.
Proof.
  exists (handle_route_update demo_cfg demo_route 100 init_world).2.
  assert (handle_route_update demo_cfg demo_route 100 init_world =
    (Ret tt, (handle_route_update demo_cfg demo_route 100 init_world).2)) as Hrun.
  { apply (run_eq (handle_route_update demo_cfg demo_route 100)). vm_compute. reflexivity. }
  split; [exact Hrun|].
  exact (route_update_links demo_cfg demo_route 100 init_world _ ltac:(lia) ltac:(lia) init_ok Hrun).
Defined.

Lemma route_of_vanished_interface_witness :
  (handle_route_update demo_cfg (mkRouteUpdate RTM_DELROUTE 9 "0.0.0.0/0" (Some "192.168.1.20") "" 100)
    100 init_world).1 = Panic "nil *net.Interface".
Proof.
  apply (route_of_vanished_interface demo_cfg
    (mkRouteUpdate RTM_DELROUTE 9 "0.0.0.0/0" (Some "192.168.1.20") "" 100) 100 "192.168.1.20" init_world);
    [reflexivity|by right|reflexivity].
Defined.

Lemma link_update_links_witness :
  ∃ w', handle_link_update demo_cfg (mkLinkUpdate "ppp0" "down") 100 demo2 = (Ret tt, w') ∧
    taken_down 100 (λ _ lk, bool_decide (lk.(l_ifname) = "ppp0")) demo2 w'.
Proof.
  destruct (link_update_links demo_cfg (mkLinkUpdate "ppp0" "down") 100 demo2 demo2_ok demo2_free)
    as (w' & Hrun & H).
  rewrite (bool_decide_eq_true_2 (is_Some _)) in H by (rewrite demo_tunnel_lookup; by eexists).
  exists w'. split; [exact Hrun|exact H].
Defined.
