(* ===== verification/Status.v ===== *)
(** * Status text ([src/p_utils.go], [src/r_http.go])

    The text of the tunnels and their connections, for the logs, the status page
    and the reports to the broker.  It is computed even when the log level is
    disabled, so its dereferences matter: the theorems show when it is harmless
    and when it ends the process. *)
From stdpp Require Import base gmap sets list sorting strings.
From Stdlib Require Import ZArith Lia SpecFloat.
From S2P Require Import Prelude GoFloat GoNet Network Ring World Session Wire FlowKey Client.
From S2P Require Import ClientLoops ClientSpec ClientConnect Server ServerSpec Demo.
#[local] Open Scope Z_scope.

(** What is read only for the text: pointers as "%p" prints them, the
    retransmission time-out and the counters of KCP, the members of a ring in
    the order of its map, times in the zone of the process. *)
Class StatusEnv := {
  se_pointer : option handle → string;
  se_GetRTO : nat → handle → Z;
  se_Snmp : nat → handle → list string * list string;
  se_Members : nat → gset string → list string;
  se_Format : Z → string
}.

(** [fmt.Sprintf("%.2f", x)]. *)
Definition fmt_f2 (x : float) : string :=
  match x with
  | S754_zero s => if s then "-0.00" else "0.00"
  | S754_infinity s => if s then "-Inf" else "+Inf"
  | S754_nan => "NaN"
  | S754_finite s m e =>
      let hundredths :=
        if bool_decide (0 <= e) then 100 * Zpos m * 2 ^ e
        else div_half_even (100 * Zpos m) (2 ^ (- e)) in
      let cents := hundredths mod 100 in
      (if s then "-" else "") +:+ fmt_d (hundredths / 100) +:+ "." +:+
        (if bool_decide (cents < 10) then "0" else "") +:+ fmt_d cents
  end.

(** [fmt.Sprintf("%t", b)]. *)
Definition fmt_t (b : bool) : string := if b then "true" else "false".

(** A line feed and a tab. *)
Definition nl : string := String (Ascii.ascii_of_N 10) EmptyString.
Definition tab : string := String (Ascii.ascii_of_N 9) EmptyString.

Section status.
Context {C : Consistent} {E : Env} {SE : StatusEnv}.

(** The lines "name=value" of [printSnmp]; a missing value is a panic. *)
Fixpoint snmp_lines (names values : list string) : outcome string :=
  match names, values with
  | [], _ => Ret ""
  | name :: names', value :: values' =>
      match snmp_lines names' values' with
      | Ret s => Ret (name +:+ "=" +:+ value +:+ nl +:+ s)
      | o => o
      end
  | _ :: _, [] => Panic "index out of range"
  end.

Definition printSnmp (kcp : handle) : W string :=
  t ← tick;
  let '(names, values) := se_Snmp t kcp in
  s ← lift (snmp_lines names values);
  mret ("snmp: { " +:+ nl +:+ s +:+ "}" +:+ nl).

(** Both ages of a connection. *)
Definition print_ages (up_since last_hello : Z) : W (string * string) :=
  ut ← time_Now; t1 ← time_Now;
  mret (fmt_f2 (Seconds (time_sub ut up_since)), fmt_f2 (Seconds (time_sub t1 last_hello))).

Definition printServerConnection (k : serverConnection) : W string :=
  match k.(sc_session) with
  | None => mret "session=NIL!!!"
  | Some session =>
      kcp ← deref "nil *kcp.UDPSession" session.(s_kcp);
      t ← tick; let state := env_kcp_GetState t kcp in
      t ← tick; let rto := se_GetRTO t kcp in
      '(uptime, hello_age) ← print_ages k.(sc_up_since) k.(sc_last_hello);
      snmp ← printSnmp kcp;
      mret ("{ convid=" +:+ fmt_d k.(sc_convid) +:+ ", kcp=" +:+ se_pointer (Some kcp) +:+
        ", kcpstate=" +:+ fmt_d state +:+ ", kcp_rto=" +:+ fmt_d rto +:+
        ", udp_conn=" +:+ se_pointer session.(s_udp_conn) +:+ ", ifname=" +:+ k.(sc_ifname) +:+
        ", txcounter=" +:+ fmt_d k.(sc_txcounter) +:+ ", rxcounter=" +:+ fmt_d k.(sc_rxcounter) +:+
        ", rxtimeouts=" +:+ fmt_d k.(sc_rxtimeouts) +:+ ", txtimeouts=" +:+ fmt_d k.(sc_txtimeouts) +:+
        ", priority=" +:+ fmt_d k.(sc_priority) +:+ ", txbandwidth=" +:+ fmt_f2 k.(sc_txbandwidth) +:+
        ", rxbandwidth=" +:+ fmt_f2 k.(sc_rxbandwidth) +:+ ", uptime=" +:+ uptime +:+
        ", hello_age=" +:+ hello_age +:+ ", alive=" +:+ fmt_t k.(sc_alive) +:+
        ", src_address=" +:+ k.(sc_src_address) +:+ ", wan_ip=" +:+ k.(sc_wan_ip) +:+
        ", up_since=" +:+ se_Format k.(sc_up_since) +:+ ", last_hello=" +:+
        se_Format k.(sc_last_hello) +:+ " }" +:+ snmp)
  end.

(** Without a session the pointer is dereferenced all the same. *)
Definition printClientConnection (k : clientConnection) : W string :=
  session ← deref "nil *RatSession" k.(cc_session);
  kcp ← deref "nil *kcp.UDPSession" session.(s_kcp);
  t ← tick; let state := env_kcp_GetState t kcp in
  t ← tick; let rto := se_GetRTO t kcp in
  '(uptime, hello_age) ← print_ages k.(cc_up_since) k.(cc_last_hello);
  snmp ← printSnmp kcp;
  mret ("{ convid=" +:+ fmt_d k.(cc_convid) +:+ ", kcp=" +:+ se_pointer (Some kcp) +:+
    ", kcpstate=" +:+ fmt_d state +:+ ", kcp_rto=" +:+ fmt_d rto +:+
    ", txcounter=" +:+ fmt_d k.(cc_txcounter) +:+ ", rxcounter=" +:+ fmt_d k.(cc_rxcounter) +:+
    ", rxtimeouts=" +:+ fmt_d k.(cc_rxtimeouts) +:+ ", txtimeouts=" +:+ fmt_d k.(cc_txtimeouts) +:+
    ", priority=" +:+ fmt_d k.(cc_priority) +:+ ", txbandwidth=" +:+ fmt_f2 k.(cc_txbandwidth) +:+
    ", rxbandwidth=" +:+ fmt_f2 k.(cc_rxbandwidth) +:+ ", alive=" +:+ fmt_t k.(cc_alive) +:+
    ", uptime=" +:+ uptime +:+ ", hello_age=" +:+ hello_age +:+
    ", alive=" +:+ fmt_t k.(cc_alive) +:+ ", src_address=" +:+ k.(cc_src_address) +:+
    ", up_since=" +:+ se_Format k.(cc_up_since) +:+ ", last_hello=" +:+
    se_Format k.(cc_last_hello) +:+ "  }" +:+ snmp).

(** The keys of a connection map as [int]s, in ascending order
    ([sort.Ints]). *)
Definition sorted_keys (conns : gmap Z loc) : W (list Z) :=
  keys ← range_keys conns;
  mret (merge_sort Z.le (wrap_int env_int_bits <$> keys)).

(** The part of [printServer] and [printClient] between the braces. *)
Fixpoint print_connections (print : loc → W string) (conns : gmap Z loc) (keys : list Z) : W string :=
  match keys with
  | [] => mret ""
  | convid :: keys' =>
      l ← deref "nil connection" (conns !! u32 convid);
      k ← print l;
      s ← print_connections print conns keys';
      mret (tab +:+ "convid=" +:+ fmt_d convid +:+ " " +:+ k +:+ "  " +:+ nl +:+ s)
  end.

Definition printServer (tunnelid : Z) : W string :=
  srv ← get_server tunnelid;
  keys ← sorted_keys (sv_conns srv);
  s ← print_connections (fun l => k ← get_sconn l; printServerConnection k) (sv_conns srv) keys;
  mret ("server:" +:+ fmt_d tunnelid +:+ " { base_convid=" +:+ fmt_d srv.(sv_base_convid) +:+
    ", last_convid=" +:+ fmt_d srv.(sv_last_convid) +:+ ", ifname=" +:+ srv.(sv_ifname) +:+
    ", iface=" +:+ se_pointer srv.(sv_iface) +:+ ", my_tun_ip=" +:+ srv.(sv_my_tun_ip) +:+
    ", remote_tun_ip=" +:+ srv.(sv_remote_tun_ip) +:+ ", " +:+ nl +:+ " connections={ " +:+ nl +:+
    s +:+ "}" +:+ nl).

Definition printClient (tunnelid : Z) : W string :=
  cl ← get_client tunnelid;
  keys ← sorted_keys (cl_conns cl);
  s ← print_connections (fun l => k ← get_cconn l; printClientConnection k) (cl_conns cl) keys;
  mret ("client:" +:+ fmt_d tunnelid +:+ " { base_convid=" +:+ fmt_d cl.(cl_base_convid) +:+
    ", last_convid=" +:+ fmt_d cl.(cl_last_convid) +:+ ", ifname=" +:+ cl.(cl_ifname) +:+
    ", iface=" +:+ se_pointer cl.(cl_iface) +:+ ", my_tun_ip=" +:+ cl.(cl_my_tun_ip) +:+
    ", remote_tun_ip=" +:+ cl.(cl_remote_tun_ip) +:+ ", " +:+ nl +:+ " connections={ " +:+ nl +:+
    s +:+ "}" +:+ nl).

(** The texts of the keys of one [range], in its order. *)
Fixpoint print_each (print : Z → W string) (keys : list Z) : W string :=
  match keys with
  | [] => mret ""
  | k :: keys' => s1 ← print k; s2 ← print_each print keys'; mret (s1 +:+ s2)
  end.

Definition printServerList : W string :=
  w ← getS; keys ← range_keys w.(g_server_list); print_each printServer keys.
Definition printClientList : W string :=
  w ← getS; keys ← range_keys w.(g_client_list); print_each printClient keys.

(** "%+v" of the members of a ring; a nil ring panics. *)
Definition print_members (id : Z) (r : option ring) : W string :=
  r ← deref "nil *consistent.Consistent" r;
  t ← tick;
  mret ("members:" +:+ fmt_d id +:+ " { [" +:+ join " " (se_Members t (ring_Members r)) +:+ "] }").

Definition printServerLoads : W string :=
  w ← getS; keys ← range_keys w.(g_server_list);
  print_each (fun id => server ← get_server id; print_members id server.(sv_consistent)) keys.
Definition printClientLoads : W string :=
  w ← getS; keys ← range_keys w.(g_client_list);
  print_each (fun id => client ← get_client id; print_members id client.(cl_consistent)) keys.

(** The body of the status page. *)
Definition http_status (g_run_client g_run_server : bool) : W string :=
  s1 ← (if g_run_client
        then s ← printServerList; mret ("g_server_list: " +:+ nl +:+ s) else mret "");
  s2 ← (if g_run_server
        then s ← printClientList; mret ("client_list: " +:+ nl +:+ s) else mret "");
  mret (s1 +:+ s2).
End status.

(** The library's counters come with their names. *)
Class StatusLaws (SE : StatusEnv) :=
  snmp_values t h : (length (se_Snmp t h).1 <= length (se_Snmp t h).2)%nat.

(** ** Reading the state *)

Section harmless.
Context {C : Consistent} {E : Env}.

(** From the state [w], whatever the clock, [m] returns a result of [Q] and
    changes nothing but the counter of calls outside. *)
Definition harmless {A : Type} (w : world) (m : W A) (Q : A → Prop) : Prop :=
  ∀ t, wp m (λ a w', Q a ∧ ∃ t', w' = w <| w_tick := t' |>) (w <| w_tick := t |>).

Lemma harmless_bind {A B : Type} w (m : W A) (k : A → W B) Q R :
  harmless w m Q → (∀ a, Q a → harmless w (k a) R) → harmless w (m ≫= k) R.
Proof.
  intros Hm Hk t. apply wp_bind. eapply wp_mono; [apply Hm|].
  intros a w' [HQ [t' ->]]. by apply Hk.
Qed.
Lemma harmless_ret {A : Type} w (a : A) (Q : A → Prop) : Q a → harmless w (mret a) Q.
Proof. intros HQ t. apply wp_ret. split; [done|]. by exists t. Qed.
Lemma harmless_tick w (Q : nat → Prop) : (∀ t, Q t) → harmless w tick Q.
Proof. intros HQ t. apply wp_tick. split; [apply HQ|]. by exists (S t). Qed.
Lemma harmless_time_Now w : harmless w time_Now (λ _, True).
Proof. intros t. apply wp_time_Now. split; [done|]. by exists (S t). Qed.
Lemma harmless_deref {A : Type} w what (p : option A) a (Q : A → Prop) :
  p = Some a → Q a → harmless w (deref what p) Q.
Proof. intros -> HQ t. by apply harmless_ret. Qed.
Lemma harmless_range {A : Type} w (m : gmap Z A) :
  harmless w (range_keys m) (λ keys, ∃ t, keys = env_range t (map_to_list m).*1).
Proof. intros t. apply wp_range_keys. split; [by eexists|]. by exists (S t). Qed.
Lemma harmless_get_server w tid s (Q : serverType → Prop) :
  w.(g_server_list) !! tid = Some s → Q s → harmless w (get_server tid) Q.
Proof. intros Hs HQ t. eapply wp_get_server; [done|]. split; [done|]. by exists t. Qed.
Lemma harmless_get_client w tid s (Q : clientType → Prop) :
  w.(g_client_list) !! tid = Some s → Q s → harmless w (get_client tid) Q.
Proof. intros Hs HQ t. eapply wp_get_client; [done|]. split; [done|]. by exists t. Qed.
Lemma harmless_get_sconn w l c (Q : serverConnection → Prop) :
  w.(w_sconns) !! l = Some c → Q c → harmless w (get_sconn l) Q.
Proof. intros Hs HQ t. eapply wp_get_sconn; [done|]. split; [done|]. by exists t. Qed.
Lemma harmless_get_cconn w l c (Q : clientConnection → Prop) :
  w.(w_cconns) !! l = Some c → Q c → harmless w (get_cconn l) Q.
Proof. intros Hs HQ t. eapply wp_get_cconn; [done|]. split; [done|]. by exists t. Qed.
(** The state read at the start is the present one. *)
Lemma harmless_getS {A : Type} w (k : world → W A) Q :
  (∀ t, harmless w (k (w <| w_tick := t |>)) Q) → harmless w (getS ≫= k) Q.
Proof. intros H t. apply wp_bind, wp_getS, H. Qed.
End harmless.

(** Splits a reading computation and closes the known parts. *)
Ltac harmless_step :=
  match goal with
  | |- harmless _ (tick ≫= _) _ =>
      eapply harmless_bind; [by apply (harmless_tick _ (λ _, True))|intros ? _]
  | |- harmless _ (time_Now ≫= _) _ => eapply harmless_bind; [apply harmless_time_Now|intros ? _]
  | |- harmless _ (mret _) _ => apply harmless_ret
  | |- harmless _ (match ?x with (_, _) => _ end) _ => destruct x eqn:?
  end.
Ltac reading := repeat harmless_step.

(** A machine integer and back. *)
Lemma u32_wrap_int `{C : Consistent} {E : Env} `{!EnvLaws E} k :
  0 <= k < 2 ^ 32 → u32 (wrap_int env_int_bits k) = k.
Proof.
  intros Hk. unfold u32, wrap_int.
  destruct int_bits_cases as [-> | ->].
  - change (2 ^ (32 - 1)) with 2147483648. change (2 ^ 32) with 4294967296 in *.
    rewrite Zminus_mod_idemp_l. rewrite Z.add_simpl_r. by apply Z.mod_small.
  - change (2 ^ (64 - 1)) with 9223372036854775808.
    rewrite (Z.mod_small (k + _)) by lia. rewrite Z.add_simpl_r. by apply Z.mod_small.
Qed.

Section lemmas.
Context {C : Consistent} {E : Env} {EL : EnvLaws E} {SE : StatusEnv} {SL : StatusLaws SE}.

Lemma snmp_lines_total names values :
  (length names <= length values)%nat → ∃ s, snmp_lines names values = Ret s.
Proof.
  revert values. induction names as [|n names IH]; intros values Hl; [by eexists|].
  destruct values as [|v values]; simpl in *; [lia|].
  destruct (IH values) as [s ->]; [lia|]. by eexists.
Qed.

Lemma harmless_snmp w kcp : harmless w (printSnmp kcp) (λ _, True).
Proof.
  unfold printSnmp. eapply harmless_bind; [by apply (harmless_tick _ (λ _, True))|intros t _].
  pose proof (snmp_values t kcp) as Hl. destruct (se_Snmp t kcp) as [names values].
  destruct (snmp_lines_total names values Hl) as [s ->].
  apply harmless_bind with (Q := λ _, True); [intros t'; by apply wp_ret; eauto|].
  intros ? _. by reading.
Qed.

Lemma harmless_ages w u h : harmless w (print_ages u h) (λ _, True).
Proof. unfold print_ages. by reading. Qed.

Lemma harmless_server_connection w k :
  (∀ ses, k.(sc_session) = Some ses → is_Some ses.(s_kcp)) →
  harmless w (printServerConnection k) (λ _, True).
Proof.
  intros Hk. unfold printServerConnection. destruct (sc_session k) as [ses|]; [|by reading].
  destruct (Hk ses eq_refl) as [kcp Hkcp].
  eapply harmless_bind; [by eapply harmless_deref with (Q := λ _, True)|intros ? _].
  reading. eapply harmless_bind; [apply harmless_ages|intros [] _].
  eapply harmless_bind; [apply harmless_snmp|intros ? _]. by reading.
Qed.

Lemma harmless_client_connection w k ses kcp :
  k.(cc_session) = Some ses → ses.(s_kcp) = Some kcp →
  harmless w (printClientConnection k) (λ _, True).
Proof.
  intros Hses Hkcp. unfold printClientConnection.
  eapply harmless_bind; [by eapply (harmless_deref _ _ _ _ (λ s, s = ses))|intros ? ->].
  eapply harmless_bind; [by eapply harmless_deref with (Q := λ _, True)|intros ? _].
  reading. eapply harmless_bind; [apply harmless_ages|intros [] _].
  eapply harmless_bind; [apply harmless_snmp|intros ? _]. by reading.
Qed.

(** The sorted keys lead back to the entries of the map. *)
Lemma harmless_sorted_keys w conns :
  map_Forall (λ k _, 0 <= k < 2 ^ 32) conns →
  harmless w (sorted_keys conns) (Forall (λ k, is_Some (conns !! u32 k))).
Proof.
  intros Hr. unfold sorted_keys. eapply harmless_bind; [apply harmless_range|intros keys [t ->]].
  reading. rewrite merge_sort_Permutation. apply Forall_fmap, Forall_forall.
  intros k Hk. apply range_keys_elem in Hk as [l Hl]. simpl.
  rewrite u32_wrap_int by by apply (Hr k l). by exists l.
Qed.

Lemma harmless_print_connections w print conns keys :
  (∀ k l, conns !! k = Some l → harmless w (print l) (λ _, True)) →
  Forall (λ k, is_Some (conns !! u32 k)) keys →
  harmless w (print_connections print conns keys) (λ _, True).
Proof.
  intros Hprint. induction 1 as [|k keys [l Hl] Hkeys IH]; simpl; [by reading|].
  eapply harmless_bind; [by eapply (harmless_deref _ _ _ _ (λ l', l' = l))|intros ? ->].
  eapply harmless_bind; [by eapply Hprint|intros ? _].
  eapply harmless_bind; [exact IH|intros ? _]. by reading.
Qed.

Lemma harmless_print_each w print keys :
  (∀ k, k ∈ keys → harmless w (print k) (λ _, True)) →
  harmless w (print_each print keys) (λ _, True).
Proof.
  induction keys as [|k keys IH]; intros H; simpl; [by reading|].
  eapply harmless_bind; [apply H; set_solver|intros ? _].
  eapply harmless_bind; [apply IH; set_solver|intros ? _]. by reading.
Qed.

Lemma harmless_server w tid :
  client_ok w → is_Some (w.(g_server_list) !! tid) → harmless w (printServer tid) (λ _, True).
Proof.
  intros Hok [srv Hs]. unfold printServer. pose proof (ok_tunnels _ Hok _ _ Hs) as Ht.
  eapply harmless_bind; [by eapply (harmless_get_server _ _ _ (λ s, s = srv))|intros ? ->].
  eapply harmless_bind; [apply harmless_sorted_keys|intros keys Hkeys].
  { intros k l Hl. pose proof (ok_keys _ _ _ Ht k l Hl). simpl in *. lia. }
  eapply harmless_bind; [|intros ? _; by reading].
  apply harmless_print_connections; [|done]. intros k l Hl.
  destruct (ok_conn _ _ _ Ht k l Hl) as (c & Hc & _ & ses & kcp & Hses & Hkcp).
  eapply harmless_bind; [by eapply (harmless_get_sconn _ _ _ (λ x, x = c))|intros ? ->].
  apply harmless_server_connection. intros ses' Hses'. exists kcp. congruence.
Qed.

(** The ids of the server's connections are 32-bit. *)
Definition ids_32bit (w : world) : Prop :=
  map_Forall (λ _ s, map_Forall (λ k _, 0 <= k < 2 ^ 32) (cl_conns s)) w.(g_client_list).

Lemma harmless_client w tid :
  server_ok w → ids_32bit w → is_Some (w.(g_client_list) !! tid) →
  harmless w (printClient tid) (λ _, True).
Proof.
  intros Hok Hids [cl Hs]. unfold printClient.
  eapply harmless_bind; [by eapply (harmless_get_client _ _ _ (λ s, s = cl))|intros ? ->].
  eapply harmless_bind; [apply harmless_sorted_keys, (Hids _ _ Hs)|intros keys Hkeys].
  eapply harmless_bind; [|intros ? _; by reading].
  apply harmless_print_connections; [|done]. intros k l Hl.
  destruct (listed_peer _ _ _ _ _ Hok Hs Hl) as (c & kcp & Hc & _ & (ses & Hses & Hkcp & _) & _).
  eapply harmless_bind; [by eapply (harmless_get_cconn _ _ _ (λ x, x = c))|intros ? ->].
  by eapply harmless_client_connection.
Qed.

Lemma harmless_server_list w : client_ok w → harmless w printServerList (λ _, True).
Proof.
  intros Hok. unfold printServerList. apply harmless_getS. intros t.
  eapply harmless_bind; [apply harmless_range|intros keys [t' ->]].
  apply harmless_print_each. intros k Hk%range_keys_elem. by apply harmless_server.
Qed.

Lemma harmless_client_list w :
  server_ok w → ids_32bit w → harmless w printClientList (λ _, True).
Proof.
  intros Hok Hids. unfold printClientList. apply harmless_getS. intros t.
  eapply harmless_bind; [apply harmless_range|intros keys [t' ->]].
  apply harmless_print_each. intros k Hk%range_keys_elem. by apply harmless_client.
Qed.
End lemmas.

(** C39: the status page, and with it the text every log message about the
    tunnels computes, is harmless in a well-formed state: it is produced without
    a panic, whatever KCP answers, and changes nothing but the clock. *)
Theorem status_page_harmless {C : Consistent} {E : Env} {EL : EnvLaws E} {SE : StatusEnv}
    {SL : StatusLaws SE} (run_client run_server : bool) (w : world)
    (Hclient : run_client = true → client_ok w)
    (Hserver : run_server = true → server_ok w ∧ ids_32bit w) :
  ∃ s t, http_status run_client run_server w = (Ret s, w <| w_tick := t |>).
Proof.
  assert (harmless w (http_status run_client run_server) (λ _, True)) as H.
  { unfold http_status. eapply harmless_bind with (Q := λ _, True).
    { destruct run_client; [|by reading].
      eapply harmless_bind; [by apply harmless_server_list, Hclient|intros ? _; by reading]. }
    intros s1 _. eapply harmless_bind with (Q := λ _, True); [|intros ? _; by reading].
    destruct run_server; [|by reading]. destruct Hserver as [Hok Hids]; [done|].
    eapply harmless_bind; [by apply harmless_client_list|intros ? _; by reading]. }
  destruct (H w.(w_tick)) as (s & w' & Hrun & _ & t & ->). exists s, t.
  by destruct w.
Qed.

(** ** A concrete environment for the text *)

#[export] Instance demo_status : StatusEnv := {
  se_pointer p := match p with Some h => "0xc" +:+ fmt_d h | None => "0x0" end;
  se_GetRTO _ _ := 200;
  se_Snmp _ _ := (["BytesSent"; "BytesReceived"], ["1024"; "2048"]);
  se_Members _ s := elements s;
  se_Format t := fmt_d t
}.

#[export] Instance demo_status_laws : StatusLaws demo_status.
Proof. by intros t h. Qed.

Lemma status_page_harmless_witness :
  ∃ s t, @http_status set_ring demo_env demo_status true false demo2 =
    (Ret s, demo2 <| w_tick := t |>).
Proof. exact (status_page_harmless true false demo2 (λ _, demo2_ok) (λ H, ltac:(discriminate))). Defined.
