(* ===== verification/KeepAlive.v ===== *)
(** * The keep-alive of both ends

    One run of [client_send_server_pings] or of [server_send_client_pings] deals
    with every connection listed when it starts: a hello is started on it, or it
    is taken down.  The hellos started are read off the trace. *)
From stdpp Require Import base gmap sets list strings.
From Stdlib Require Import ZArith Lia.
From S2P Require Import Prelude GoFloat GoNet Network Ring World Session Wire FlowKey Client.
From S2P Require Import ClientLoops ClientSpec ClientDisconnect ClientConnect ClientInv Server ServerSpec ServerInv.
#[local] Open Scope Z_scope.

(** The connection a hello is started on. *)
Definition greeting (e : event) : option loc :=
  match e with
  | EvGo (GoClientSendHello l _) => Some l
  | EvGo (GoServerSendHello l) => Some l
  | _ => None
  end.

Section greetings.
Context {C : Consistent} {CL : ConsistentLaws C} {E : Env} {EL : EnvLaws E} {P : HeaderParser}.
Context (cfg : config).

(** ** Hellos are only added, and no connection is listed anew *)

Record grown (w w' : world) : Prop := {
  grown_servers : ∀ tid s' k l, w'.(g_server_list) !! tid = Some s' → sv_conns s' !! k = Some l →
    ∃ s, w.(g_server_list) !! tid = Some s ∧ sv_conns s !! k = Some l;
  grown_clients : ∀ tid s' k l, w'.(g_client_list) !! tid = Some s' → cl_conns s' !! k = Some l →
    ∃ s, w.(g_client_list) !! tid = Some s ∧ cl_conns s !! k = Some l;
  grown_greetings : seen greeting w `prefix_of` seen greeting w'
}.

#[local] Instance grown_preorder : PreOrder grown.
Proof.
  split; [intros w; split; eauto|]. intros w1 w2 w3 [A1 B1 D1] [A2 B2 D2]. split.
  - intros tid s' k l Hs Hk. destruct (A2 _ _ _ _ Hs Hk) as (s2 & Hs2 & Hk2). eauto.
  - intros tid s' k l Hs Hk. destruct (B2 _ _ _ _ Hs Hk) as (s2 & Hs2 & Hk2). eauto.
  - by transitivity (seen greeting w2).
Qed.

Lemma grown_tick : respects grown tick.
Proof. intros w. apply wlp_tick. split; eauto. Qed.
Lemma grown_emit e : respects grown (emit e).
Proof.
  apply respects_modify. intros w. split; eauto.
  exists (omap greeting [e]). by apply seen_trace.
Qed.
Lemma grown_upd_server tid f :
  (∀ s, sv_conns (f s) ⊆ sv_conns s) → respects grown (upd_server tid f).
Proof.
  intros Hf w. apply wlp_upd_server. intros s Hs. split; [|by eauto|done].
  intros t s' k l. simpl. rewrite lookup_insert_Some. intros [[<- <-]|[_ Ht]] Hk; [|eauto].
  exists s. split; [done|]. by apply (lookup_weaken _ _ _ _ Hk).
Qed.
Lemma grown_upd_client tid f :
  (∀ s, cl_conns (f s) ⊆ cl_conns s) → respects grown (upd_client tid f).
Proof.
  intros Hf w. apply wlp_upd_client. intros s Hs. split; [by eauto| |done].
  intros t s' k l. simpl. rewrite lookup_insert_Some. intros [[<- <-]|[_ Ht]] Hk; [|eauto].
  exists s. split; [done|]. by apply (lookup_weaken _ _ _ _ Hk).
Qed.
Lemma grown_upd_sconn l f : respects grown (upd_sconn l f).
Proof. intros w. apply wlp_upd_sconn. intros c _. split; eauto. Qed.
Lemma grown_upd_cconn l f : respects grown (upd_cconn l f).
Proof. intros w. apply wlp_upd_cconn. intros c _. split; eauto. Qed.
Lemma server_delete_conns k (s : serverType) :
  sv_conns (s <| sv_connections ::= fmap (delete k) |>) ⊆ sv_conns s.
Proof. unfold sv_conns. simpl. destruct (sv_connections s); simpl; [apply delete_subseteq|done]. Qed.
Lemma client_delete_conns k (s : clientType) :
  cl_conns (s <| cl_connections ::= fmap (delete k) |>) ⊆ cl_conns s.
Proof. unfold cl_conns. simpl. destruct (cl_connections s); simpl; [apply delete_subseteq|done]. Qed.

#[local] Hint Resolve grown_tick grown_emit grown_upd_sconn grown_upd_cconn : respects.
#[local] Hint Extern 1 (respects grown (upd_server _ _)) =>
  apply grown_upd_server; first [by intros []|apply server_delete_conns] : respects.
#[local] Hint Extern 1 (respects grown (upd_client _ _)) =>
  apply grown_upd_client; first [by intros []|apply client_delete_conns] : respects.

Lemma grown_time_Now : respects grown time_Now.
Proof. unfold time_Now. respect. Qed.
Lemma grown_range_keys {A} (m : gmap Z A) : respects grown (range_keys m).
Proof. unfold range_keys. respect. Qed.
Lemma grown_get_server tid : respects grown (get_server tid).
Proof. unfold get_server. respect. Qed.
Lemma grown_get_sconn l : respects grown (get_sconn l).
Proof. unfold get_sconn. respect. Qed.
Lemma grown_get_client tid : respects grown (get_client tid).
Proof. unfold get_client. respect. Qed.
Lemma grown_get_cconn l : respects grown (get_cconn l).
Proof. unfold get_cconn. respect. Qed.
Lemma grown_rat_Close s : respects grown (rat_Close s).
Proof. unfold rat_Close. respect. Qed.
Lemma grown_rat_Write s b : respects grown (rat_Write s b).
Proof. unfold rat_Write. respect. Qed.
Lemma grown_rat_SetWriteDeadline s t : respects grown (rat_SetWriteDeadline s t).
Proof. unfold rat_SetWriteDeadline. respect. Qed.
#[local] Hint Resolve grown_time_Now grown_range_keys grown_get_server grown_get_sconn
  grown_get_client grown_get_cconn grown_rat_Close grown_rat_Write grown_rat_SetWriteDeadline
  : respects.

Lemma grown_round_robin tid keys d : respects grown (client_round_robin tid keys d).
Proof. revert d. induction keys as [|k keys IH]; intros d; simpl; respect; apply IH. Qed.
#[local] Hint Resolve grown_round_robin : respects.
Lemma grown_linkdown tid k : respects grown (client_send_linkdown_message cfg tid k).
Proof. unfold client_send_linkdown_message, client_choose_kcp_conn. respect. Qed.
Lemma grown_close tid l k : respects grown (client_close_connection tid l k).
Proof. unfold client_close_connection. respect. Qed.
#[local] Hint Resolve grown_linkdown grown_close : respects.
Lemma grown_ping tid k : respects grown (client_ping_connection cfg tid k).
Proof.
  unfold client_ping_connection, client_disconnect_session_by_convid, client_disconnect_where,
    lock_server, unlock_server, client_update_bandwidth, go. respect.
Qed.
Lemma grown_server_ping tid k : respects grown (server_ping_connection tid k).
Proof.
  unfold server_ping_connection, server_disconnect_session_by_convid, server_close_connection,
    lock_client, unlock_client, server_update_bandwidth, go. respect.
Qed.

(** ** Every listed connection is dealt with *)

(** The connection [k] of [tid] listed with the record [l] was greeted since
    [w0], or is gone at the client (at the server). *)
Definition greeted (w0 : world) (l : loc) (w : world) : Prop :=
  ∃ ls, seen greeting w = seen greeting w0 ++ ls ∧ l ∈ ls.
Definition client_settled (w0 : world) (tid k : Z) (w : world) : Prop :=
  ∀ s l, w0.(g_server_list) !! tid = Some s → sv_conns s !! k = Some l →
    greeted w0 l w ∨ links w tid !! k = None.
Definition server_settled (w0 : world) (tid k : Z) (w : world) : Prop :=
  ∀ s l, w0.(g_client_list) !! tid = Some s → cl_conns s !! k = Some l →
    greeted w0 l w ∨ peers w tid !! k = None.

Lemma greeted_grown w0 l w w' : grown w w' → greeted w0 l w → greeted w0 l w'.
Proof.
  intros [_ _ [ls' Hls]] (ls & Hw & Hl). exists (ls ++ ls'). rewrite Hls, Hw, app_assoc.
  split; [done|]. set_solver.
Qed.
Lemma greeted_since w0 w1 l w : grown w0 w1 → greeted w1 l w → greeted w0 l w.
Proof.
  intros [_ _ [ls' Hls]] (ls & Hw & Hl). exists (ls' ++ ls). rewrite Hw, Hls, app_assoc.
  split; [done|]. set_solver.
Qed.

(** *** The client *)

Lemma quiet_ticked w : quiet w (w <| w_tick ::= S |>).
Proof. unfold quiet. by split_and!. Qed.

Definition client_from (w0 w : world) : Prop := client_ok w ∧ grown w0 w ∧ shrinks w0 w.

Lemma client_from_step w0 w w' : client_from w0 w → shrinks w w' → grown w w' → client_from w0 w'.
Proof.
  intros (H1 & H2 & H3) Hs Hg. split; [by apply Hs|]. split; [by transitivity w|].
  intros H0. destruct (H3 H0) as [_ L1]. destruct (Hs H1) as [? L2]. split; [done|].
  intros t. by transitivity (links w t).
Qed.

Lemma client_settled_step w0 tid k w w' :
  client_ok w → shrinks w w' → grown w w' → client_settled w0 tid k w → client_settled w0 tid k w'.
Proof.
  intros Hok Hs Hg H s l Hs0 Hk. destruct (H s l Hs0 Hk) as [Hgr|Hn].
  - left. by eapply greeted_grown.
  - right. destruct (Hs Hok) as [_ Hl]. by eapply lookup_weaken_None.
Qed.

Lemma wlp_ping_greets tid k w :
  client_ok w → wlp (client_ping_connection cfg tid k) (λ _ w', client_settled w tid k w') w.
Proof.
  intros Hok. unfold client_ping_connection. apply wlp_bind, wlp_get_server. intros s Hs.
  destruct (sv_conns s !! k) as [l|] eqn:Hk.
  2: { apply wlp_ret. intros s' l Hs' Hl. congruence. }
  destruct (listed_conn w tid s k l Hok Hs Hk) as (c & Hc & Hck & ses & kcp & Hses & _).
  assert (s.(sv_base_convid) = tid) as Hb.
  { apply (ok_base _ _ _ (ok_tunnels _ Hok _ _ Hs)). left. unfold sv_conns in Hk.
    destruct (sv_connections s); [by eexists|done]. }
  apply wlp_bind, wlp_get_sconn. intros c' Hc'. assert (c' = c) as -> by congruence.
  wlp_step. wlp_step. rewrite Hb, Hck, Hses. destruct (hello_expired _ _).
  - set (w1 := w <| w_tick ::= S |>).
    assert (client_ok w1) as Hok1 by by (apply (quiet_ok w); [apply quiet_ticked|]).
    eapply wlp_mono; [apply (wlp_disconnect cfg tid _ (λ k' _, bool_decide (k' = k)) w1); [done|exact Hok1]|].
    intros [] w' (_ & _ & Hl & _) s' l' _ _. right. rewrite Hl. apply map_lookup_filter_None_2.
    right. intros lk _. simpl. by rewrite bool_decide_eq_true_2.
  - unfold go. wlp_steps. apply wlp_upd_sconn. intros c1 _ s' l' Hs' Hl'.
    left. exists [l]. split; [|set_solver].
    apply (seen_trace greeting w _ [EvGo (GoClientSendHello l tid)]). reflexivity.
Qed.

(** One ping, seen from an earlier state. *)
Lemma wlp_ping_from w0 tid k w :
  client_from w0 w →
  wlp (client_ping_connection cfg tid k) (λ _ w', client_from w0 w' ∧ client_settled w0 tid k w' ∧
    ∀ t k', client_settled w0 t k' w → client_settled w0 t k' w') w.
Proof.
  intros Hf. pose proof Hf as (Hok & Hg0 & Hs0).
  eapply wlp_mono; [apply wlp_and; [by apply wlp_ping_greets|apply wlp_and;
    [apply (shrinks_ping_connection cfg tid k w)|apply (grown_ping tid k w)]]|].
  intros [] w' (Hset & Hs & Hg). split; [by eapply client_from_step|].
  split; [|intros t k'; by apply client_settled_step].
  intros s0 l Hw0 Hk0. destruct (g_server_list w !! tid) as [s|] eqn:Hw.
  2: { right. assert (links w tid !! k = None) as Hn by (unfold links; by rewrite Hw).
       destruct (Hs Hok) as [_ Hl]. by eapply lookup_weaken_None. }
  destruct (sv_conns s !! k) as [l'|] eqn:Hk.
  - destruct (grown_servers _ _ Hg0 tid s k l' Hw Hk) as (s1 & Hs1 & Hk1).
    assert (l' = l) as -> by congruence.
    destruct (Hset s l Hw Hk) as [Hgr|Hn]; [left|by right]. by eapply greeted_since.
  - right. pose proof (unlisted_link w tid s k Hw Hk) as Hn.
    destruct (Hs Hok) as [_ Hl]. by eapply lookup_weaken_None.
Qed.

(** Every connection listed at the start is greeted or gone at the end. *)
Definition client_pinged (w w' : world) : Prop :=
  ∃ ls, seen greeting w' = seen greeting w ++ ls ∧
    ∀ tid s k l, w.(g_server_list) !! tid = Some s → sv_conns s !! k = Some l →
      l ∈ ls ∨ links w' tid !! k = None.

Lemma client_from_refl w : client_ok w → client_from w w.
Proof. intros Hok. split; [done|]. split; [done|]. intros _. split; [done|]. by intros t. Qed.

Lemma wlp_client_pings w :
  client_ok w → wlp (client_send_server_pings cfg) (λ _ w', client_ok w' ∧ client_pinged w w') w.
Proof.
  intros Hok. unfold client_send_server_pings. wlp_step. wlp_step.
  apply wlp_bind. intros servers w1 Hrun1. unfold range_keys, tick, mbind, M_bind in Hrun1.
  injection Hrun1 as <- <-. set (w1 := w <| w_tick ::= S |>).
  assert (client_from w w1) as Hf1.
  { split; [|split; [by split; eauto|]].
    - by apply (quiet_ok w); [apply quiet_ticked|].
    - apply quiet_shrinks, quiet_ticked. }
  eapply wlp_mono; [apply (wlp_for_each_all _ _ (client_from w)
    (λ tid w', ∀ k, client_settled w tid k w'))|]; [|exact Hf1|].
  - clear w1 Hf1. intros tid w1 Hf. apply wlp_bind, wlp_get_server. intros s Hs.
    apply wlp_bind. intros keys w2 Hrun. unfold range_keys, tick, mbind, M_bind in Hrun.
    injection Hrun as <- <-. set (w2 := w1 <| w_tick ::= S |>).
    assert (client_from w w2) as Hf2.
    { eapply client_from_step; [exact Hf|apply quiet_shrinks, quiet_ticked|].
      split; eauto. }
    eapply wlp_mono; [apply (wlp_for_each_all _ _ (λ w', client_from w w' ∧
      (∀ t k, client_settled w t k w2 → client_settled w t k w')) (λ k w', client_settled w tid k w'))|].
    + intros k w3 [Hf3 Hkeep]. eapply wlp_mono; [by apply wlp_ping_from|].
      intros [] w4 (? & ? & Hk4). split; [|by auto]. split; [done|]. by auto.
    + split; [exact Hf2|by auto].
    + intros [] w3 [[Hf3 Hkeep] Hall]. split; [done|]. split; [|intros t H k; exact (Hkeep t k (H k))].
      intros k s0 l Hs0 Hk0. destruct (sv_conns s !! k) as [l'|] eqn:Hk.
      * refine (Hall k _ s0 l Hs0 Hk0). apply range_keys_elem. rewrite Hk. by eexists.
      * refine (Hkeep tid k _ s0 l Hs0 Hk0). intros s' l'' _ _. right.
        by apply (unlisted_link w2 tid s k).
  - intros [] w2 [(Hok2 & [Hgs _ [ls Hls]] & _) Hall]. split; [done|]. exists ls. split; [done|].
    intros tid s k l Hs Hk. refine ((λ H, _) (Hall tid _ k s l Hs Hk));
      [|apply range_keys_elem; rewrite Hs; by eexists].
    destruct H as [(ls' & Hls' & Hin)|Hn]; [left|by right]. rewrite Hls in Hls'. by apply app_inv_head in Hls' as ->.
Qed.

(** *** The server *)

Definition server_from (w0 w : world) : Prop := server_ok w ∧ grown w0 w ∧ sshrinks w0 w.

Lemma server_from_step w0 w w' : server_from w0 w → sshrinks w w' → grown w w' → server_from w0 w'.
Proof.
  intros (H1 & H2 & H3) Hs Hg. split; [by apply Hs|]. split; [by transitivity w|].
  intros H0. destruct (H3 H0) as [_ L1]. destruct (Hs H1) as [? L2]. split; [done|].
  intros t. by transitivity (peers w t).
Qed.

Lemma server_settled_step w0 tid k w w' :
  server_ok w → sshrinks w w' → grown w w' → server_settled w0 tid k w → server_settled w0 tid k w'.
Proof.
  intros Hok Hs Hg H s l Hs0 Hk. destruct (H s l Hs0 Hk) as [Hgr|Hn].
  - left. by eapply greeted_grown.
  - right. destruct (Hs Hok) as [_ Hl]. by eapply lookup_weaken_None.
Qed.

Lemma wlp_server_ping_greets tid k w :
  server_ok w → wlp (server_ping_connection tid k) (λ _ w', server_settled w tid k w') w.
Proof.
  intros Hok. unfold server_ping_connection. apply wlp_bind, wlp_get_client. intros s Hs.
  destruct (cl_conns s !! k) as [l|] eqn:Hk.
  2: { apply wlp_ret. intros s' l Hs' Hl. congruence. }
  destruct (listed_peer w tid s k l Hok Hs Hk) as (c & kcp & Hc & Hck & (ses & Hses & _) & _).
  assert (s.(cl_base_convid) = tid) as Hb.
  { apply (sok_base _ _ _ (sok_tunnels _ Hok _ _ Hs)). left. unfold cl_conns in Hk.
    destruct (cl_connections s); [by eexists|done]. }
  apply wlp_bind, wlp_get_cconn. intros c' Hc'. assert (c' = c) as -> by congruence.
  wlp_step. wlp_step. rewrite Hb, Hck, Hses. destruct (hello_expired _ _).
  - set (w1 := w <| w_tick ::= S |>). assert (server_ok w1) as Hok1 by by destruct Hok.
    eapply wlp_mono; [by apply (wlp_server_disconnect tid k w1)|].
    intros [] w' H s' l' _ _. right. rewrite bool_decide_eq_true_2 in H by (simpl; rewrite Hs; by eexists).
    destruct H as (_ & _ & Hp & _). rewrite Hp. apply lookup_delete_eq.
  - unfold go. wlp_steps. apply wlp_upd_cconn. intros c1 _ s' l' Hs' Hl'.
    left. exists [l]. split; [|set_solver].
    apply (seen_trace greeting w _ [EvGo (GoServerSendHello l)]). reflexivity.
Qed.

Lemma wlp_server_ping_from w0 tid k w :
  server_from w0 w →
  wlp (server_ping_connection tid k) (λ _ w', server_from w0 w' ∧ server_settled w0 tid k w' ∧
    ∀ t k', server_settled w0 t k' w → server_settled w0 t k' w') w.
Proof.
  intros Hf. pose proof Hf as (Hok & Hg0 & Hs0).
  eapply wlp_mono; [apply wlp_and; [by apply wlp_server_ping_greets|apply wlp_and;
    [apply (sshrinks_ping_connection tid k w)|apply (grown_server_ping tid k w)]]|].
  intros [] w' (Hset & Hs & Hg). split; [by eapply server_from_step|].
  split; [|intros t k'; by apply server_settled_step].
  intros s0 l Hw0 Hk0. destruct (g_client_list w !! tid) as [s|] eqn:Hw.
  2: { right. assert (peers w tid !! k = None) as Hn by (unfold peers; by rewrite Hw).
       destruct (Hs Hok) as [_ Hl]. by eapply lookup_weaken_None. }
  destruct (cl_conns s !! k) as [l'|] eqn:Hk.
  - destruct (grown_clients _ _ Hg0 tid s k l' Hw Hk) as (s1 & Hs1 & Hk1).
    assert (l' = l) as -> by congruence.
    destruct (Hset s l Hw Hk) as [Hgr|Hn]; [left|by right]. by eapply greeted_since.
  - right. pose proof (proj2 (peers_None w tid s k Hok Hw) Hk) as Hn.
    destruct (Hs Hok) as [_ Hl]. by eapply lookup_weaken_None.
Qed.

Definition server_pinged (w w' : world) : Prop :=
  ∃ ls, seen greeting w' = seen greeting w ++ ls ∧
    ∀ tid s k l, w.(g_client_list) !! tid = Some s → cl_conns s !! k = Some l →
      l ∈ ls ∨ peers w' tid !! k = None.

Lemma server_from_ticked w0 w : server_from w0 w → server_from w0 (w <| w_tick ::= S |>).
Proof.
  intros H. eapply server_from_step; [exact H| |by split; eauto].
  apply frame_sshrinks. by unfold frame.
Qed.

Lemma wlp_server_pings w :
  server_ok w → wlp server_send_client_pings (λ _ w', server_ok w' ∧ server_pinged w w') w.
Proof.
  intros Hok. unfold server_send_client_pings. wlp_step. wlp_step.
  apply wlp_bind. intros clients w1 Hrun1. unfold range_keys, tick, mbind, M_bind in Hrun1.
  injection Hrun1 as <- <-. set (w1 := w <| w_tick ::= S |>).
  assert (server_from w w1) as Hf1.
  { apply server_from_ticked. split; [done|]. split; [done|]. intros _. split; [done|]. by intros t. }
  eapply wlp_mono; [apply (wlp_for_each_all _ _ (server_from w)
    (λ tid w', ∀ k, server_settled w tid k w'))|]; [|exact Hf1|].
  - clear w1 Hf1. intros tid w1 Hf. apply wlp_bind, wlp_get_client. intros s Hs.
    apply wlp_bind. intros keys w2 Hrun. unfold range_keys, tick, mbind, M_bind in Hrun.
    injection Hrun as <- <-. set (w2 := w1 <| w_tick ::= S |>).
    pose proof (server_from_ticked w w1 Hf) as Hf2.
    eapply wlp_mono; [apply (wlp_for_each_all _ _ (λ w', server_from w w' ∧
      (∀ t k, server_settled w t k w2 → server_settled w t k w')) (λ k w', server_settled w tid k w'))|].
    + intros k w3 [Hf3 Hkeep]. eapply wlp_mono; [by apply wlp_server_ping_from|].
      intros [] w4 (? & ? & Hk4). split; [|by auto]. split; [done|]. by auto.
    + split; [exact Hf2|by auto].
    + intros [] w3 [[Hf3 Hkeep] Hall]. split; [done|].
      split; [|intros t H k; exact (Hkeep t k (H k))].
      intros k s0 l Hs0 Hk0. destruct (cl_conns s !! k) as [l'|] eqn:Hk.
      * refine (Hall k _ s0 l Hs0 Hk0). apply range_keys_elem. rewrite Hk. by eexists.
      * refine (Hkeep tid k _ s0 l Hs0 Hk0). intros s' l'' _ _. right.
        destruct Hf2 as [Hok2 _]. by apply (peers_None w2 tid s k).
  - intros [] w2 [(Hok2 & [_ Hgs [ls Hls]] & _) Hall]. split; [done|]. exists ls. split; [done|].
    intros tid s k l Hs Hk. refine ((λ H, _) (Hall tid _ k s l Hs Hk));
      [|apply range_keys_elem; rewrite Hs; by eexists].
    destruct H as [(ls' & Hls' & Hin)|Hn]; [left|by right].
    rewrite Hls in Hls'. by apply app_inv_head in Hls' as ->.
Qed.
End greetings.
