(* ===== verification/Loops.v ===== *)
(** * The main loops ([run_client], [run_server] of [src/main.go])

    Both loops wake every 10 ms and count to 1500; what is done in a turn is a
    function of the count.  The keep-alive period follows from the count and
    from what the turns do: sleep, and ping the connections. *)
From stdpp Require Import base gmap sets list strings.
From Stdlib Require Import ZArith Lia.
From S2P Require Import Prelude GoFloat GoNet Network Ring World Session Wire FlowKey Client.
From S2P Require Import ClientLoops ClientSpec ClientDisconnect ClientConnect ClientInv Server Demo.
From S2P Require Import ServerSpec ServerInv DemoServer Status KeepAlive.
#[local] Open Scope Z_scope.

(** [loopcount%n == 0]. *)
Definition every (n loopcount : Z) : bool := bool_decide (loopcount mod n = 0).

Section loops.
Context {C : Consistent} {E : Env} {P : HeaderParser} {SE : StatusEnv} (cfg : config).

(** One turn of the loop of [run_client]; the result is the next [loopcount]. *)
Definition client_loop_turn (loopcount : Z) : W Z :=
  sleep_ms 10 ;;
  let loopcount := loopcount + 1 in
  whenM (every 500 loopcount) (client_check_paths cfg) ;;
  whenM (every 200 loopcount) (client_send_server_pings cfg) ;;
  if every 1500 loopcount then
    printServerList ;; printServerLoads ;;
    go (GoNetlinkGetRoutes cfg.(g_tunnel_id)) ;; mret 1
  else mret loopcount.

Definition server_loop_turn (loopcount : Z) : W Z :=
  sleep_ms 10 ;;
  let loopcount := loopcount + 1 in
  whenM (every 200 loopcount) server_send_client_pings ;;
  if every 1500 loopcount then printClientList ;; printClientLoads ;; mret 1
  else mret loopcount.

(** The endless loop, cut after [turns] turns. *)
Fixpoint main_loop (turn : Z → W Z) (turns : nat) (loopcount : Z) : W Z :=
  match turns with
  | O => mret loopcount
  | S turns' => lc ← turn loopcount; main_loop turn turns' lc
  end.
End loops.

Section run.
Context {C : Consistent} {E : Env} {P : HeaderParser} {SE : StatusEnv}.

(** [tun_name] is [CLI.TunName]. *)
Definition run_client (cfg : config) (tun_name : string) (turns : nat) : W Z :=
  if bool_decide (cfg.(g_connect_addr) = "") then exit 1
  else if bool_decide (cfg.(g_tunnel_id) = 0) then exit 1
  else
    let cfg := if bool_decide (tun_name = "") then cfg else cfg <| g_tunnel_name := tun_name |> in
    go GoHttpServe ;;
    runthing "ip" ["-br"; "address"] ;;
    go (GoNetlinkIfaces cfg.(g_tunnel_id)) ;;
    go (GoNetlinkRoutes cfg.(g_tunnel_id)) ;;
    main_loop (client_loop_turn cfg) turns 1.

(** A listener that does not open ends the function. *)
Definition run_server (cfg : config) (turns : nat) : W (option Z) :=
  if bool_decide (cfg.(g_tunnel_id) = 0) then exit 1
  else
    go GoHttpServe ;;
    '(listener, err) ← createListener cfg;
    match err with
    | Some _ => mret None
    | None =>
        l ← deref "nil *kcp.Listener" listener;
        emit (EvKcpReadBuffer l g_buffer_size) ;;
        emit (EvKcpWriteBuffer l g_buffer_size) ;;
        go (GoServerListener cfg.(g_tunnel_id)) ;;
        runthing "ip" ["-br"; "address"] ;;
        lc ← main_loop server_loop_turn turns 1; mret (Some lc)
    end.
End run.

(** ** The schedule *)

(** The count after [n] turns. *)
Definition count_after (n : nat) : Z := 1 + Z.of_nat n mod 1499.

(** The next count. *)
Definition next_count (lc : Z) : Z := if every 1500 (lc + 1) then 1 else lc + 1.

Lemma next_count_after n : next_count (count_after n) = count_after (S n).
Proof.
  unfold next_count, every, count_after. pose proof (Z.mod_pos_bound (Z.of_nat n) 1499 ltac:(lia)).
  rewrite Nat2Z.inj_succ, <- Z.add_1_r. rewrite (Z.add_mod (Z.of_nat n) 1 1499) by lia. change (1 mod 1499) with 1.
  revert H. generalize (Z.of_nat n mod 1499). intros r H. case_bool_decide as Hb.
  - assert (r = 1498) as ->; [|reflexivity].
    pose proof (Z.div_mod (1 + r + 1) 1500 ltac:(lia)). nia.
  - assert (r <> 1498) by (intros ->; by apply Hb). rewrite (Z.mod_small (r + 1)) by lia. lia.
Qed.

(** Turn number [i], from 1, sends keep-alives. *)
Definition pings_at (i : nat) : bool := every 200 (count_after (i - 1) + 1).

Lemma pings_at_spec i :
  (1 <= i)%nat → pings_at i = every 200 ((Z.of_nat i - 1) mod 1499 + 2).
Proof. intros Hi. unfold pings_at, count_after. f_equal. rewrite Nat2Z.inj_sub by done. lia. Qed.

(** The offsets of a cycle at which a ping is due within 299 turns: all of them. *)
Lemma ping_within (r : Z) :
  0 <= r < 1499 → ∃ j, 1 <= j <= 299 ∧ every 200 ((r + j - 1) mod 1499 + 2) = true.
Proof.
  intros Hr. unfold every.
  destruct (decide (r < 1399)) as [H1|H1].
  - exists (198 + 200 * ((r + 1) / 200) + 1 - r).
    pose proof (Z.div_mod (r + 1) 200 ltac:(lia)). pose proof (Z.mod_pos_bound (r + 1) 200 ltac:(lia)).
    split; [lia|]. apply bool_decide_eq_true_2.
    replace (r + (198 + 200 * ((r + 1) / 200) + 1 - r) - 1) with (198 + 200 * ((r + 1) / 200)) by lia.
    rewrite (Z.mod_small _ 1499) by lia.
    replace (198 + 200 * ((r + 1) / 200) + 2) with (((r + 1) / 200 + 1) * 200) by lia.
    by apply Z.mod_mul.
  - exists (1499 + 199 - r). split; [lia|]. apply bool_decide_eq_true_2.
    replace (r + (1499 + 199 - r) - 1) with (198 + 1 * 1499) by lia.
    by rewrite Z_mod_plus_full.
Qed.

Section schedule.
Context {C : Consistent} {CL : ConsistentLaws C} {E : Env} {EL : EnvLaws E} {P : HeaderParser}.
Context {SE : StatusEnv} (cfg : config).

Lemma wlp_client_turn lc w :
  wlp (client_loop_turn cfg lc) (λ lc' _, lc' = next_count lc) w.
Proof.
  unfold client_loop_turn, next_count. do 3 (apply wlp_skip; intros ? ?).
  destruct (every 1500 _); [do 2 (apply wlp_skip; intros ? ?)|]; by wlp_steps.
Qed.
Lemma wlp_server_turn lc w : wlp (server_loop_turn lc) (λ lc' _, lc' = next_count lc) w.
Proof.
  unfold server_loop_turn, next_count. do 2 (apply wlp_skip; intros ? ?).
  destruct (every 1500 _); [do 2 (apply wlp_skip; intros ? ?)|]; by wlp_steps.
Qed.

Lemma wlp_main_loop turn n m w :
  (∀ lc w, wlp (turn lc) (λ lc' _, lc' = next_count lc) w) →
  wlp (main_loop turn n (count_after m)) (λ lc _, lc = count_after (m + n)) w.
Proof.
  intros Hturn. revert m w. induction n as [|n IH]; intros m w; simpl.
  - wlp_steps. by rewrite Nat.add_0_r.
  - wlp_step. eapply wlp_mono; [apply Hturn|]. intros lc w1 ->. rewrite next_count_after.
    eapply wlp_mono; [apply IH|]. intros lc w2 ->. f_equal. lia.
Qed.


(** *** What a turn does *)

Definition sleeping (e : event) : option Z := match e with EvSleep ms => Some ms | _ => None end.

(** The texts for the log only read the state: they keep whatever does not
    depend on the counter of calls. *)
Section reading.
Context (I : world → Prop) (HI : ∀ w, I w → I (w <| w_tick ::= S |>)).

Lemma reads_tick : preserves I tick.
Proof. intros w Hw. by apply HI. Qed.
Lemma reads_get_server tid : preserves I (get_server tid).
Proof. unfold get_server. preserve. Qed.
Lemma reads_get_client tid : preserves I (get_client tid).
Proof. unfold get_client. preserve. Qed.
Lemma reads_get_sconn l : preserves I (get_sconn l).
Proof. unfold get_sconn. preserve. Qed.
Lemma reads_get_cconn l : preserves I (get_cconn l).
Proof. unfold get_cconn. preserve. Qed.
#[local] Hint Resolve reads_tick reads_get_server reads_get_client reads_get_sconn reads_get_cconn
  : preserves.
Lemma reads_range_keys {A} (m : gmap Z A) : preserves I (range_keys m).
Proof. unfold range_keys. preserve. Qed.
#[local] Hint Resolve reads_range_keys : preserves.
Lemma reads_print_each print keys :
  (∀ k, preserves I (print k)) → preserves I (print_each print keys).
Proof.
  intros H. induction keys as [|k keys IH]; simpl; [apply preserves_ret|].
  apply preserves_bind; [apply H|]. intros ?. apply preserves_bind; [apply IH|]. intros ?.
  apply preserves_ret.
Qed.
Lemma reads_print_connections print conns keys :
  (∀ l, preserves I (print l)) → preserves I (print_connections print conns keys).
Proof.
  intros H. induction keys as [|k keys IH]; simpl; [apply preserves_ret|].
  apply preserves_bind; [apply preserves_deref|]. intros ?. apply preserves_bind; [apply H|].
  intros ?. apply preserves_bind; [apply IH|]. intros ?. apply preserves_ret.
Qed.
Lemma reads_server_list : preserves I printServerList.
Proof.
  unfold printServerList. preserve. apply reads_print_each. intros k. unfold printServer, sorted_keys.
  preserve. apply reads_print_connections. intros l.
  unfold printServerConnection, print_ages, time_Now, printSnmp. preserve.
Qed.
Lemma reads_client_list : preserves I printClientList.
Proof.
  unfold printClientList. preserve. apply reads_print_each. intros k. unfold printClient, sorted_keys.
  preserve. apply reads_print_connections. intros l.
  unfold printClientConnection, print_ages, time_Now, printSnmp. preserve.
Qed.
Lemma reads_server_loads : preserves I printServerLoads.
Proof. unfold printServerLoads. preserve. apply reads_print_each. intros k. unfold print_members. preserve. Qed.
Lemma reads_client_loads : preserves I printClientLoads.
Proof. unfold printClientLoads. preserve. apply reads_print_each. intros k. unfold print_members. preserve. Qed.
End reading.
#[local] Hint Extern 1 (preserves _ printServerList) => apply reads_server_list; by intros ? : preserves.
#[local] Hint Extern 1 (preserves _ printClientList) => apply reads_client_list; by intros ? : preserves.
#[local] Hint Extern 1 (preserves _ printServerLoads) => apply reads_server_loads; by intros ? : preserves.
#[local] Hint Extern 1 (preserves _ printClientLoads) => apply reads_client_loads; by intros ? : preserves.

(** Nothing but the turn itself sleeps, and only pings greet. *)
Lemma sees_check_paths {B} (view : event → option B) bs :
  (∀ p a, view (EvCommand p a) = None) → preserves (sees view bs) (client_check_paths cfg).
Proof.
  intros Hv. assert (∀ p a, preserves (sees view bs) (runthing p a)) as Hr.
  { intros p a. unfold runthing. apply preserves_bind; [by apply sees_emit|intros ?]. preserve. }
  unfold client_check_paths, lock_server, unlock_server. preserve.
Qed.
Lemma awake_rat_Close bs s : preserves (sees sleeping bs) (rat_Close s).
Proof. unfold rat_Close. preserve. Qed.
Lemma awake_rat_Write bs s b : preserves (sees sleeping bs) (rat_Write s b).
Proof. unfold rat_Write. preserve. Qed.
Lemma awake_rat_SetWriteDeadline bs s t : preserves (sees sleeping bs) (rat_SetWriteDeadline s t).
Proof. unfold rat_SetWriteDeadline. preserve. Qed.
#[local] Hint Resolve awake_rat_Close awake_rat_Write awake_rat_SetWriteDeadline
  sees_round_robin : preserves.
Lemma awake_linkdown bs tid k : preserves (sees sleeping bs) (client_send_linkdown_message cfg tid k).
Proof. unfold client_send_linkdown_message, client_choose_kcp_conn. preserve. Qed.
Lemma awake_close bs tid l k : preserves (sees sleeping bs) (client_close_connection tid l k).
Proof. unfold client_close_connection. preserve. Qed.
#[local] Hint Resolve awake_linkdown awake_close : preserves.
Lemma awake_ping bs tid k : preserves (sees sleeping bs) (client_ping_connection cfg tid k).
Proof.
  unfold client_ping_connection, client_disconnect_session_by_convid, client_disconnect_where,
    lock_server, unlock_server, client_update_bandwidth, go. preserve.
Qed.
Lemma awake_server_ping bs tid k : preserves (sees sleeping bs) (server_ping_connection tid k).
Proof.
  unfold server_ping_connection, server_disconnect_session_by_convid, server_close_connection,
    lock_client, unlock_client, server_update_bandwidth, go. preserve.
Qed.
#[local] Hint Resolve awake_ping awake_server_ping : preserves.
#[local] Hint Extern 1 (preserves _ (client_check_paths _)) =>
  apply sees_check_paths; by intros ? : preserves.

(** A turn is one sleep of 10 ms. *)
Lemma wlp_sleeps (k : unit → W Z) w :
  (∀ bs, preserves (sees sleeping bs) (k tt)) →
  wlp (sleep_ms 10 ≫= k) (λ _ w', seen sleeping w' = seen sleeping w ++ [10]) w.
Proof.
  intros Hk. apply wlp_bind, wlp_modify.
  apply (wlp_preserves (sees sleeping (seen sleeping w ++ [10]))); [apply Hk|].
  by apply (seen_trace sleeping w _ [EvSleep 10]).
Qed.
Lemma client_turn_sleeps lc w :
  wlp (client_loop_turn cfg lc) (λ _ w', seen sleeping w' = seen sleeping w ++ [10]) w.
Proof. apply wlp_sleeps. intros bs. unfold client_send_server_pings, go. preserve. Qed.
Lemma server_turn_sleeps lc w :
  wlp (server_loop_turn lc) (λ _ w', seen sleeping w' = seen sleeping w ++ [10]) w.
Proof. apply wlp_sleeps. intros bs. unfold server_send_client_pings. preserve. Qed.

(** A turn of either end as sleep, pings when they are due, and the rest. *)
Lemma client_pinged_wrap w w1 w2 w3 :
  quiet w w1 → seen greeting w1 = seen greeting w → client_pinged w1 w2 →
  quiet w2 w3 → seen greeting w3 = seen greeting w2 → client_pinged w w3.
Proof.
  intros Hq Hs (ls & Hls & Hall) Hq2 Hs2. exists ls. rewrite Hs2, Hls, Hs. split; [done|].
  intros tid s k l Hlist Hk. destruct (quiet_server _ _ _ _ (quiet_sym _ _ Hq) Hlist) as (s1 & Hs1 & Hcore).
  apply server_core_conns in Hcore as [Hc _]. rewrite (quiet_links _ _ _ Hq2).
  apply (Hall tid s1 k l); [done|congruence].
Qed.
Lemma server_pinged_wrap w w1 w2 w3 :
  frame w w1 → seen greeting w1 = seen greeting w → server_pinged w1 w2 →
  frame w2 w3 → seen greeting w3 = seen greeting w2 → server_pinged w w3.
Proof.
  intros (Hf & _) Hs (ls & Hls & Hall) (Hf2 & Hh2 & _) Hs2. exists ls. rewrite Hs2, Hls, Hs.
  split; [done|]. intros tid s k l Hlist Hk. unfold peers. rewrite Hf2, Hh2.
  apply (Hall tid s k l); [by rewrite Hf|done].
Qed.

Lemma wlp_quiet_unheard {A} (m : W A) w :
  (∀ w0, preserves (quiet w0) m) → (∀ bs, preserves (sees greeting bs) m) →
  wlp m (λ _ w', quiet w w' ∧ seen greeting w' = seen greeting w) w.
Proof.
  intros H1 H2. apply wlp_and; [by apply (wlp_preserves (quiet w))|].
  by apply (wlp_preserves (sees greeting (seen greeting w))).
Qed.

(** The first part of the client's turn, up to the pings. *)
Lemma client_turn_start lc w :
  wlp (sleep_ms 10 ;; whenM (every 500 lc) (client_check_paths cfg))
    (λ _ w', quiet w w' ∧ seen greeting w' = seen greeting w) w.
Proof.
  apply wlp_and.
  - apply wlp_bind, wlp_modify. set (w1 := w <| w_trace ::= _ |>).
    assert (quiet w w1) as Hq by by (unfold quiet; split_and!).
    destruct (every 500 lc); [|by apply wlp_ret].
    eapply wlp_mono; [apply wlp_check_paths|]. intros [] w2 H2. by transitivity w1.
  - apply (wlp_preserves (sees greeting (seen greeting w))); [|done]. unfold sleep_ms. preserve.
Qed.

Lemma wlp_client_turn_pings lc w :
  client_ok w →
  wlp (client_loop_turn cfg lc) (λ _ w', client_ok w' ∧
    if every 200 (lc + 1) then client_pinged w w' else seen greeting w' = seen greeting w) w.
Proof.
  intros Hok. unfold client_loop_turn.
  assert (∀ A (k : unit → W A) Q, wlp ((sleep_ms 10 ;; whenM (every 500 (lc + 1)) (client_check_paths cfg)) ≫= k) Q w →
    wlp (sleep_ms 10 ;; whenM (every 500 (lc + 1)) (client_check_paths cfg) ≫= k) Q w) as Hassoc.
  { intros A k Q H a w' Hrun. apply H. by rewrite bind_assoc. }
  apply Hassoc, wlp_bind. eapply wlp_mono; [apply client_turn_start|]. intros [] w1 [Hq1 Hs1].
  assert (client_ok w1) as Hok1 by by eapply quiet_ok.
  apply wlp_bind. eapply (wlp_mono _ (λ _ w2, client_ok w2 ∧
    if every 200 (lc + 1) then client_pinged w1 w2 else w2 = w1)).
  { destruct (every 200 (lc + 1)); [by apply wlp_client_pings|by apply wlp_ret]. }
  intros [] w2 [Hok2 H2].
  eapply wlp_mono; [apply wlp_quiet_unheard; intros ?; unfold go; preserve|].
  intros lc' w3 [Hq3 Hs3]. split; [by eapply quiet_ok|].
  destruct (every 200 (lc + 1)); [by eapply client_pinged_wrap|]. subst. congruence.
Qed.

Lemma wlp_server_turn_pings lc w :
  server_ok w →
  wlp (server_loop_turn lc) (λ _ w', server_ok w' ∧
    if every 200 (lc + 1) then server_pinged w w' else seen greeting w' = seen greeting w) w.
Proof.
  intros Hok. unfold server_loop_turn. apply wlp_bind, wlp_modify.
  set (w1 := w <| w_trace ::= _ |>).
  assert (frame w w1) as Hf1 by done. assert (server_ok w1) as Hok1 by by apply (frame_sshrinks w w1).
  assert (seen greeting w1 = seen greeting w) as Hs1.
  { etrans; [by apply (seen_trace greeting w w1 [EvSleep 10])|]. simpl. by rewrite app_nil_r. }
  apply wlp_bind. eapply (wlp_mono _ (λ _ w2, server_ok w2 ∧
    if every 200 (lc + 1) then server_pinged w1 w2 else w2 = w1)).
  { destruct (every 200 (lc + 1)); [by apply wlp_server_pings|by apply wlp_ret]. }
  intros [] w2 [Hok2 H2].
  eapply wlp_mono; [apply wlp_quiet_unheard; intros ?; preserve|].
  intros lc' w3 [Hq3 Hs3]. assert (frame w2 w3) as Hf3 by by apply quiet_server_state.
  split; [by apply (frame_sshrinks w2 w3)|].
  destruct (every 200 (lc + 1)); [by eapply server_pinged_wrap|]. subst. congruence.
Qed.

(** *** The loops *)

(** After [i] turns from a state of [ok]: the count, the sleeps, and what the
    next turn does. *)
Definition keeps_alive (ok : world → Prop) (pinged : world → world → Prop) (turn : Z → W Z) : Prop :=
  ∀ i w lc wa, ok w → main_loop turn i 1 w = (Ret lc, wa) →
    seen sleeping wa = seen sleeping w ++ replicate i 10 ∧
    ∀ lc' wb, turn lc wa = (Ret lc', wb) →
      if pings_at (S i) then pinged wa wb else seen greeting wb = seen greeting wa.

Lemma loop_keeps_alive ok pinged turn :
  (∀ lc w, wlp (turn lc) (λ lc' _, lc' = next_count lc) w) →
  (∀ lc w, wlp (turn lc) (λ _ w', seen sleeping w' = seen sleeping w ++ [10]) w) →
  (∀ lc w, ok w → wlp (turn lc) (λ _ w', ok w' ∧
    if every 200 (lc + 1) then pinged w w' else seen greeting w' = seen greeting w) w) →
  keeps_alive ok pinged turn.
Proof.
  intros Hcount Hsleep Hping.
  assert (∀ i m w, ok w → wlp (main_loop turn i (count_after m)) (λ lc wa, lc = count_after (m + i) ∧
    ok wa ∧ seen sleeping wa = seen sleeping w ++ replicate i 10) w) as Hloop.
  { induction i as [|i IH]; intros m w Hok; simpl.
    - apply wlp_ret. by rewrite Nat.add_0_r, app_nil_r.
    - apply wlp_bind. eapply wlp_mono; [apply wlp_and; [apply Hcount|
        apply wlp_and; [apply Hsleep|by apply Hping]]|].
      intros lc w1 (-> & Hs & Hok1 & _). rewrite next_count_after.
      eapply wlp_mono; [by apply IH|]. intros lc w2 (-> & Hok2 & Hs2). split; [f_equal; lia|].
      split; [done|]. rewrite Hs2, Hs, <- app_assoc. done. }
  intros i w lc wa Hok Hrun. destruct (Hloop i 0%nat w Hok lc wa Hrun) as (-> & Hok' & Hs).
  split; [done|]. intros lc' wb Hturn. unfold pings_at.
  replace (S i - 1)%nat with i by lia. by apply (Hping _ _ Hok' lc' wb Hturn).
Qed.

(** C26: the keep-alive period of both ends.  Each turn of a loop sleeps once,
    for 10 ms.  On the turns [pings_at] every connection listed, of every tunnel,
    gets a hello started or is taken down, on all others none is started.  From
    any turn on a ping is due within 299 turns, so within 2.99 s of sleeping,
    below the 5 s after which the other end gives a silent connection up; and
    gaps of 299 turns do occur, not the 2 s the comments announce. *)
Theorem keepalive_period :
  keeps_alive client_ok client_pinged (client_loop_turn cfg) ∧
  keeps_alive server_ok server_pinged server_loop_turn ∧
  (∀ n, ∃ j, (1 <= j <= 299)%nat ∧ pings_at (n + j) = true) ∧
  (pings_at 1399 = true ∧ pings_at 1698 = true ∧
   ∀ i, (1399 < i < 1698)%nat → pings_at i = false) ∧
  299 * 10 < g_max_hello * 1000.
Proof.
  split_and!.
  - apply loop_keeps_alive; [apply wlp_client_turn|apply client_turn_sleeps|apply wlp_client_turn_pings].
  - apply loop_keeps_alive; [apply wlp_server_turn|apply server_turn_sleeps|apply wlp_server_turn_pings].
  - intros n. destruct (ping_within (Z.of_nat n mod 1499)) as (j & Hj & Hp);
      [apply Z.mod_pos_bound; lia|].
    exists (Z.to_nat j). split; [lia|]. rewrite pings_at_spec by lia. rewrite <- Hp.
    rewrite Nat2Z.inj_add, Z2Nat.id by lia. do 2 f_equal.
    rewrite <- Z.add_sub_assoc, (Z.add_mod (Z.of_nat n) (j - 1)) by lia.
    rewrite <- Z.add_sub_assoc. by rewrite (Z.add_mod (Z.of_nat n mod 1499) (j - 1)), Z.mod_mod by lia.
  - reflexivity.
  - reflexivity.
  - intros i Hi. rewrite pings_at_spec by lia. unfold every.
    apply bool_decide_eq_false_2. intros H.
    pose proof (Z.div_mod (Z.of_nat i - 1) 1499 ltac:(lia)).
    pose proof (Z.mod_pos_bound (Z.of_nat i - 1) 1499 ltac:(lia)).
    pose proof (Z.div_mod ((Z.of_nat i - 1) mod 1499 + 2) 200 ltac:(lia)).
    assert ((Z.of_nat i - 1) / 1499 = 0 ∨ (Z.of_nat i - 1) / 1499 = 1) as [Hq|Hq] by nia; nia.
  - reflexivity.
Qed.
End schedule.

(** A client of two links, 1.98 s after it started: the next turn greets both. *)
Definition demo_waited : world := (main_loop (client_loop_turn demo_cfg) 198 1 demo2).2.
Definition demo_pinged : world := (client_loop_turn demo_cfg 199 demo_waited).2.

Lemma keepalive_period_witness :
  main_loop (client_loop_turn demo_cfg) 198 1 demo2 = (Ret 199, demo_waited) ∧
  client_loop_turn demo_cfg 199 demo_waited = (Ret 200, demo_pinged) ∧
  client_pinged demo_waited demo_pinged ∧
  seen greeting demo_pinged = seen greeting demo_waited ++ [1; 0]%nat ∧
  ∃ j, (1 <= j <= 299)%nat ∧ pings_at (198 + j) = true.
Proof.
  assert (main_loop (client_loop_turn demo_cfg) 198 1 demo2 = (Ret 199, demo_waited)) as H1.
  { unfold demo_waited. apply (run_eq (main_loop (client_loop_turn demo_cfg) 198 1)).
    vm_compute. reflexivity. }
  assert (client_loop_turn demo_cfg 199 demo_waited = (Ret 200, demo_pinged)) as H2.
  { unfold demo_pinged. apply (run_eq (client_loop_turn demo_cfg 199)). vm_compute. reflexivity. }
  destruct (keepalive_period demo_cfg) as (Hc & _ & Hj & _).
  destruct (Hc 198%nat demo2 199 demo_waited demo2_ok H1) as [_ Hturn].
  split_and!; [exact H1|exact H2|exact (Hturn 200 demo_pinged H2)|vm_compute; reflexivity|apply Hj].
Defined.

(** A client without a server address or a tunnel id, and a server without a
    tunnel id, exit with code 1 before anything is opened. *)
Theorem run_requires_options {C : Consistent} {E : Env} {P : HeaderParser} {SE : StatusEnv} (cfg : config)
    (tun_name : string) (turns : nat) (w : world)
    (H : cfg.(g_connect_addr) = "" ∨ cfg.(g_tunnel_id) = 0) :
  run_client cfg tun_name turns w = (Exit 1, w) ∧
  (cfg.(g_tunnel_id) = 0 → run_server cfg turns w = (Exit 1, w)).
Proof.
  unfold run_client, run_server, exit. split.
  - destruct H as [-> | ->]; [by rewrite bool_decide_eq_true_2|].
    rewrite (bool_decide_eq_true_2 (0 = 0)) by done. by destruct (bool_decide _).
  - intros ->. by rewrite bool_decide_eq_true_2.
Qed.

Lemma run_requires_options_witness :
  run_client default_config "" 0 init_world = (Exit 1, init_world) ∧
  (default_config.(g_tunnel_id) = 0 → run_server default_config 0 init_world = (Exit 1, init_world)).
Proof. apply (run_requires_options default_config "" 0 init_world). by left. Defined.

(** ** A client without links *)

Section mux_zero.
Context {C : Consistent} {CL : ConsistentLaws C} {E : Env} {EL : EnvLaws E} {P : HeaderParser}.
Context {SE : StatusEnv} {SL : StatusLaws SE} (cfg : config).

(** Printing the rings of tunnels one of which has none. *)
Lemma print_each_loads_panic (servers : gmap Z serverType) keys w tid s :
  w.(g_server_list) = servers → (∀ k, k ∈ keys → is_Some (servers !! k)) →
  tid ∈ keys → servers !! tid = Some s → s.(sv_consistent) = None →
  (print_each (fun id => server ← get_server id; print_members id server.(sv_consistent)) keys w).1
    = Panic "nil *consistent.Consistent".
Proof.
  intros Hw Hkeys Hin Hs Hr. revert w Hw. induction keys as [|k keys IH]; intros w Hw; [set_solver|].
  destruct (Hkeys k) as [sk Hk]; [set_solver|]. simpl.
  assert ((get_server k ≫= λ server, print_members k (sv_consistent server)) w =
    print_members k sk.(sv_consistent) w) as Hget.
  { apply (bind_ret _ (λ server, print_members k (sv_consistent server)) w sk w).
    unfold get_server, getS, mbind, M_bind. by rewrite Hw, Hk. }
  unfold mbind at 1, M_bind at 1. rewrite Hget. unfold print_members.
  destruct (sv_consistent sk) as [r|] eqn:Hrk; [|done]. simpl.
  destruct (decide (tid = k)) as [->|Hne]; [congruence|].
  unfold mbind at 1, M_bind at 1.
  assert ((print_each (λ id, server ← get_server id; print_members id (sv_consistent server)) keys
    (w <| w_tick ::= S |>)).1 = Panic "nil *consistent.Consistent") as Hrest.
  { apply IH; [|set_solver|done]. intros k' Hk'. apply Hkeys. set_solver. }
  destruct (print_each _ _ _) as [o w'] in Hrest |- *. simpl in Hrest. by subst.
Qed.

Lemma loads_panic w tid s :
  w.(g_server_list) !! tid = Some s → s.(sv_consistent) = None →
  (printServerLoads w).1 = Panic "nil *consistent.Consistent".
Proof.
  intros Hs Hr. unfold printServerLoads, getS, range_keys. unfold mbind, M_bind. simpl.
  eapply print_each_loads_panic; [done| | |exact Hs|done].
  - intros k Hk. by apply range_keys_elem in Hk.
  - by apply range_keys_elem.
Qed.

(** C38: with [--mux=0] the client never connects and does not live long.  The
    first usable route creates the tunnel and is then given up, since no
    connection is allowed, which leaves a tunnel without map and ring; the next
    housekeeping of the main loop prints the rings of all tunnels and
    dereferences the nil one. *)
Theorem mux_zero_stops_client (src ifname gw reason : string) (w : world)
    (Hmux : cfg.(g_mux_max) <= 0) (Hok : client_ok w)
    (Hnew : w.(g_server_list) !! cfg.(g_tunnel_id) = None) :
  ∃ w1, client_connect_server cfg cfg.(g_tunnel_id) src ifname gw reason w = (Ret tt, w1) ∧
    links w1 cfg.(g_tunnel_id) = ∅ ∧
    (client_loop_turn cfg 1499 w1).1 = Panic "nil *consistent.Consistent".
Proof.
  set (tid := g_tunnel_id cfg) in *.
  assert (wp (client_connect_server cfg tid src ifname gw reason)
    (λ _ w1, w1.(g_server_list) = <[tid := new_serverType]> w.(g_server_list) ∧
       w1.(w_sconns) = w.(w_sconns) ∧ w1.(w_next) = w.(w_next) ∧
       w1.(g_client_list) = w.(g_client_list) ∧ w1.(w_cconns) = w.(w_cconns)) w)
    as ([] & w1 & Hrun & Hlist & Hheap & Hnext & Hcl & Hcc).
  { rewrite connect_split. wp_steps. rewrite Hnew. wp_steps. unfold connect_rest. wp_step.
    eapply wp_lock_server; [simpl; by simplify_map_eq|done|]. wp_steps.
    rewrite bool_decide_eq_true_2 by exact Hmux. wp_steps. simpl.
    by rewrite !insert_insert_eq. }
  set (w0 := w <| g_server_list ::= insert tid new_serverType |>).
  assert (quiet w0 w1) as Hq by (unfold quiet; rewrite Hlist, Hheap; done).
  destruct (new_tunnel_ok tid w Hok Hnew) as [Hok0 Hlinks0].
  exists w1. split; [done|]. split.
  { rewrite (quiet_links _ _ _ Hq). rewrite Hlinks0. unfold links. by rewrite Hnew. }
  set (w2 := w1 <| w_trace ::= (fun l => l ++ [EvSleep 10]) |>).
  assert (free_lock w2 tid) as Hfree.
  { unfold free_lock, w2. simpl. rewrite Hlist. intros s. rewrite lookup_insert_eq. by intros [= <-]. }
  destruct (wp_upgrade _ _ _ (wp_check_paths cfg w2 Hfree) (wlp_check_paths cfg w2))
    as ([] & w3 & Hpaths & Hq3).
  assert (quiet w0 w3) as Hq03 by (transitivity w1; [done|]; exact Hq3).
  assert (client_ok w3) as Hok3 by by eapply quiet_ok.
  destruct (harmless_server_list w3 Hok3 w3.(w_tick)) as (txt & w4 & Hprint & _ & t & ->).
  assert (w3 <| w_tick := w_tick w3 |> = w3) as Hid by by destruct w3.
  rewrite Hid in Hprint. set (w4 := w3 <| w_tick := t |>) in Hprint.
  destruct (quiet_server w3 w0 tid new_serverType (quiet_sym _ _ Hq03)) as (s3 & Hs3 & Hcore);
    [by apply lookup_insert_eq|].
  apply server_core_conns in Hcore as (_ & _ & Hring & _).
  unfold client_loop_turn. unfold mbind, M_bind. simpl.
  fold w2. change (every 500 1500) with true. change (every 200 1500) with false.
  change (every 1500 1500) with true. simpl. fold tid. rewrite Hpaths. simpl. rewrite Hprint.
  pose proof (loads_panic w4 tid s3 Hs3 (eq_sym Hring)) as Hpanic.
  destruct (printServerLoads _) as [o w5] in Hpanic |- *. simpl in Hpanic. by subst.
Qed.
End mux_zero.

Lemma mux_zero_stops_client_witness :
  let cfg := demo_cfg <| g_mux_max := 0 |> in
  ∃ w1, @client_connect_server set_ring demo_env cfg cfg.(g_tunnel_id)
      "192.168.1.20" "eth0" "192.168.1.1" "route" init_world = (Ret tt, w1) ∧
    links w1 cfg.(g_tunnel_id) = ∅ ∧
    (client_loop_turn cfg 1499 w1).1 = Panic "nil *consistent.Consistent".
Proof.
  apply (mux_zero_stops_client (demo_cfg <| g_mux_max := 0 |>)); [done|apply init_ok|done].
Defined.
