(* ===== verification/Aggregator.v ===== *)
(** * The aggregator client ([src/p_aggregator.go], [src/p_mqtt.go])

    In the mode [connectaggregator] the program asks a broker for a token and
    for the command line of its client, and then starts the client.  The state
    is the globals of the two files with the rest of the process; the operations
    are the callbacks of the MQTT library, the turns of [run_aggregator] and the
    start of the client's goroutine.  The MQTT library is a parameter; what is
    asked of it is recorded in order.  [parse_cli] starts the log anew. *)
From stdpp Require Import base gmap sets list strings relations.
From Stdlib Require Import ZArith Lia Ascii.
From S2P Require Import Prelude GoFloat GoNet Network Ring World Json Logging Cli Session Wire FlowKey Client.
From S2P Require Import ClientSpec Demo Status Loops.
#[local] Open Scope Z_scope.

(** ** State *)

(** Calls of the MQTT library, and the goroutine of the client. *)
Inductive mqtt_event :=
| MqDisconnect (client : handle) (quiesce : Z)
| MqConnect (client : handle)
| MqSubscribe (client : handle) (topic : string) (qos : Z)
| MqPublish (client : handle) (topic : string) (qos : Z) (retained : bool) (payload : string)
| MqRunClient (p : program).

Section state.
Context {C : Consistent}.

Record aggregator := mkAggregator {
  g_run_client : bool;
  g_run_aggregator : bool;
  g_mqtt_token : string;
  g_mqtt_token_secret : string;
  g_mqtt_argv : string;
  g_mac : string;
  g_things_broker : string;
  g_things_broker_port : Z;
  g_things_mqttclient : option handle;
  g_things_mqtt_connected : bool;
  (** [os.Args], the configuration with the flags, and the tunnels *)
  os_Args : list string;
  a_program : program;
  a_world : world;
  (** Goroutines of the client that have not run yet. *)
  a_spawned : nat;
  a_calls : list mqtt_event
}.

#[global] Instance aggregator_settable : Settable aggregator := fun a =>
  mkAggregator a.(g_run_client) a.(g_run_aggregator) a.(g_mqtt_token) a.(g_mqtt_token_secret)
    a.(g_mqtt_argv) a.(g_mac) a.(g_things_broker) a.(g_things_broker_port)
    a.(g_things_mqttclient) a.(g_things_mqtt_connected) a.(os_Args) a.(a_program) a.(a_world)
    a.(a_spawned) a.(a_calls).

(** The globals at the start of the process. *)
Definition init_aggregator (args : list string) : aggregator :=
  mkAggregator false true "" "testing" "" "" "" 1833 None false args
    (mkProgram default_config CLI_default) init_world 0 [].
End state.

(** The MQTT library: [NewClient] for a broker, user and password, and
    [Connect] with its error. *)
Class Mqtt := {
  mqtt_NewClient : nat → string → string → string → handle;
  mqtt_Connect : nat → handle → option string
}.

(** [Addr.String] of netip. *)
Definition addr_String (a : Addr) : string :=
  match a with
  | Addr4 ip => ip4_string ip
  | Addr6 ip zone =>
      (if bool_decide (take 12 ip = v4InV6Prefix) then "::ffff:" +:+ ip4_string (drop 12 ip)
       else ip6_string ip) +:+ (if bool_decide (zone = "") then "" else "%" +:+ zone)
  end.

Section aggregator.
Context {C : Consistent} {E : Env} {P : HeaderParser} {SE : StatusEnv} {K : Kong} {Q : Mqtt}.
Context {LR : Logrus} {SU : Startup}.

Abbreviation A := (M aggregator).

Definition in_world {X : Type} (m : W X) : A X := fun a =>
  let '(o, w) := m a.(a_world) in (o, a <| a_world := w |>).
Definition in_program {X : Type} (m : M program X) : A X := fun a =>
  let '(o, p) := m a.(a_program) in (o, a <| a_program := p |>).

Definition call (e : mqtt_event) : A unit := modify (setf a_calls (fun l => l ++ [e])).

(** [network_get_mac], with its global. *)
Definition get_mac : A string :=
  t ← in_world tick;
  a ← getS;
  '(g, mac) ← lift (network_get_mac (env_Interfaces t) a.(g_mac));
  modify (setf g_mac (fun _ => g)) ;;
  mret mac.

(** ** [src/p_mqtt.go] *)

Definition mqtt_send (topic payload : string) : A unit :=
  a ← getS;
  match a.(g_things_mqtt_connected), a.(g_things_mqttclient) with
  | true, Some client => call (MqPublish client topic 0 false payload)
  | _, _ => mret tt
  end.

Definition mqtt_sub (client : option handle) (topic : string) : A unit :=
  a ← getS;
  match a.(g_things_mqtt_connected), client with
  | true, Some client => call (MqSubscribe client topic 1)
  | _, _ => mret tt
  end.

Definition mqtt_connect_things : A bool :=
  a ← getS;
  match a.(g_things_mqttclient) with
  | Some client => call (MqDisconnect client 1000)
  | None => mret tt
  end ;;
  modify (setf g_things_mqttclient (fun _ => None)) ;;
  a ← getS;
  t ← in_world tick;
  let c := a.(a_program).(p_config) in
  let client := mqtt_NewClient t
    ("tcp://" +:+ a.(g_things_broker) +:+ ":" +:+ fmt_d a.(g_things_broker_port))
    c.(g_mqtt_username) c.(g_mqtt_password) in
  modify (setf g_things_mqttclient (fun _ => Some client)) ;;
  call (MqConnect client) ;;
  t ← in_world tick;
  match mqtt_Connect t client with
  | Some _ => in_world (sleep_ms 1000) ;; mret false
  | None => mret true
  end.

Definition mqtt_check_brokers : A unit :=
  a ← getS;
  if a.(g_things_mqtt_connected) then mret tt else mqtt_connect_things ;; mret tt.

(** ** [src/p_aggregator.go] *)

Definition do_mqtt_requests : A unit :=
  a ← getS;
  if bool_decide (a.(g_mqtt_token) = "") then
    mac ← get_mac;
    mqtt_send ("/ratbond/" +:+ mac +:+ "/need-token") a.(g_mqtt_token_secret)
  else if bool_decide (a.(g_mqtt_argv) = "") then
    mqtt_send ("/ratbond/" +:+ a.(g_mqtt_token) +:+ "/need-argv") "hello"
  else if negb a.(g_run_client) then
    match Unmarshal a.(g_mqtt_argv) with
    | None => mret tt
    | Some arr =>
        modify (setf os_Args (fun _ => arr)) ;;
        t ← in_world tick;
        in_program (parse_cli env_int_bits (syslog_New t) arr) ;;
        a ← getS;
        call (MqRunClient a.(a_program)) ;;
        modify (setf a_spawned S)
    end
  else mret tt.

(** The start of [run_client], up to [g_run_client = true]. *)
Definition client_starts : A unit :=
  modify (setf a_spawned Nat.pred) ;;
  a ← getS;
  let c := a.(a_program).(p_config) in
  if bool_decide (c.(g_connect_addr) = "") then exit 1
  else if bool_decide (c.(g_tunnel_id) = 0) then exit 1
  else
    let tun_name := a.(a_program).(p_CLI).(cli_TunName) in
    whenM (negb (bool_decide (tun_name = "")))
      (modify (setf a_program (setf p_config (setf g_tunnel_name (fun _ => tun_name))))) ;;
    in_world (go GoHttpServe) ;;
    modify (setf g_run_client (fun _ => true)).

(** The callbacks. *)
Definition things_connectHandler : A unit :=
  modify (setf g_things_mqtt_connected (fun _ => true)) ;;
  modify (setf g_mqtt_token (fun _ => "")) ;;
  a ← getS;
  mac ← get_mac;
  mqtt_sub a.(g_things_mqttclient) ("/ratbondserver/" +:+ mac +:+ "/token") ;;
  do_mqtt_requests.

Definition things_connectLostHandler : A unit :=
  a ← getS;
  client ← deref "nil mqtt.Client" a.(g_things_mqttclient);
  call (MqDisconnect client 1000) ;;
  modify (setf g_things_mqtt_connected (fun _ => false)) ;;
  modify (setf g_things_mqttclient (fun _ => None)) ;;
  modify (setf g_mqtt_token (fun _ => "")).

Definition things_messagePubHandler (topic payload : string) : A unit :=
  mac ← get_mac;
  if bool_decide (topic = "/ratbondserver/" +:+ mac +:+ "/token") then
    modify (setf g_mqtt_token (fun _ => payload)) ;;
    a ← getS;
    mqtt_sub a.(g_things_mqttclient) ("/ratbondserver/" +:+ a.(g_mqtt_token) +:+ "/+")
  else
    a ← getS;
    if bool_decide (topic = "/ratbondserver/" +:+ a.(g_mqtt_token) +:+ "/argv") then
      if negb (bool_decide (a.(g_mqtt_argv) = "")) && negb (bool_decide (a.(g_mqtt_argv) = payload))
      then exit 1
      else modify (setf g_mqtt_argv (fun _ => payload))
    else mret tt.

(** One turn of the loop of [run_aggregator]; the result is the next
    [loopcount]. *)
Definition aggregator_turn (loopcount : Z) : A Z :=
  in_world (sleep_ms 10) ;;
  let loopcount := loopcount + 1 in
  (if every 200 loopcount then
     a ← getS; if a.(g_things_mqtt_connected) then do_mqtt_requests else mret tt
   else mret tt) ;;
  if every 1500 loopcount then
    mqtt_check_brokers ;;
    a ← getS;
    (if a.(g_run_client) then
       stats ← in_world printServerList;
       a ← getS;
       if negb (bool_decide (a.(g_mqtt_token) = ""))
       then mqtt_send ("/ratbond/" +:+ a.(g_mqtt_token) +:+ "/hello") stats else mret tt
     else mret tt) ;;
    mret 1
  else mret loopcount.

Fixpoint aggregator_loop (turns : nat) (loopcount : Z) : A Z :=
  match turns with
  | O => mret loopcount
  | S turns' => lc ← aggregator_turn loopcount; aggregator_loop turns' lc
  end.

(** [run_aggregator] up to its loop. *)
Definition aggregator_setup : A unit :=
  modify (setf g_run_aggregator (fun _ => true)) ;;
  a ← getS;
  let addr := a.(a_program).(p_config).(g_mqtt_broker_addr) in
  if bool_decide (addr = "") then exit 1
  else match ParseAddrPort addr with
  | None => exit 1
  | Some (ip, port) =>
      modify (fun a => a <| g_things_broker := addr_String ip |> <| g_things_broker_port := port |>) ;;
      mqtt_check_brokers ;;
      in_world (sleep_ms 100) ;;
      a ← getS;
      (if a.(g_things_mqtt_connected) then do_mqtt_requests else mret tt) ;;
      mac ← get_mac;
      modify (setf g_mqtt_token_secret (fun _ => mac))
  end.

Definition run_aggregator (turns : nat) : A Z := aggregator_setup ;; aggregator_loop turns 1.
End aggregator.
