(* ===== verification/AggregatorProps.v ===== *)
(** * What the aggregator client promises

    Safety over every interleaving of the broker's callbacks, the turns of the
    main loop and the start of the client's goroutine, and the conversation with
    the broker from the connection to the running client. *)
From stdpp Require Import base gmap sets list strings relations.
From Stdlib Require Import ZArith Lia Ascii.
From S2P Require Import Prelude GoFloat GoNet Network Ring World Json IpHosts Logging Cli Session Wire FlowKey.
From S2P Require Import Client ClientSpec Demo Status Loops Aggregator.
#[local] Open Scope Z_scope.

Section aggregator.
Context {C : Consistent} {E : Env} {P : HeaderParser} {SE : StatusEnv} {K : Kong} {Q : Mqtt}.
Context {LR : Logrus} {SU : Startup}.

(** ** Steps of the process *)

(** The state with the [loopcount] of the main loop.  Each callback of the MQTT
    library, each turn of the loop and the start of a spawned client are one
    step. *)
Inductive aggregator_step : relation (aggregator * Z) :=
| step_turn a lc a' lc' : aggregator_turn lc a = (Ret lc', a') → aggregator_step (a, lc) (a', lc')
| step_connected a lc a' : things_connectHandler a = (Ret tt, a') → aggregator_step (a, lc) (a', lc)
| step_lost a lc a' : things_connectLostHandler a = (Ret tt, a') → aggregator_step (a, lc) (a', lc)
| step_message a lc topic payload a' :
    things_messagePubHandler topic payload a = (Ret tt, a') → aggregator_step (a, lc) (a', lc)
| step_start a lc a' :
    (0 < a.(a_spawned))%nat → client_starts a = (Ret tt, a') → aggregator_step (a, lc) (a', lc).

(** Everything that follows the set-up of a process. *)
Definition aggregator_reachable (a0 a : aggregator) : Prop :=
  ∃ a1 lc, aggregator_setup a0 = (Ret tt, a1) ∧ rtc aggregator_step (a1, 1) (a, lc).

(** ** The relation every step respects *)

(** The clients that were started. *)
Definition started (a : aggregator) (p : program) : Prop := MqRunClient p ∈ a.(a_calls).

(** [p] is what the command line [argv] makes of some earlier configuration. *)
Definition from_argv (argv : string) (p : program) : Prop :=
  ∃ args syslog p0 command, Unmarshal argv = Some args ∧
    parse_cli env_int_bits syslog args p0 = (Ret command, p).

Lemma from_argv_nonempty argv p : from_argv argv p → argv ≠ "".
Proof. by intros (args & syslog & p0 & cmd & Hu & _) ->. Qed.

Record progress (a a' : aggregator) : Prop := {
  keeps_argv : a.(g_mqtt_argv) ≠ "" → a'.(g_mqtt_argv) = a.(g_mqtt_argv);
  keeps_running : a.(g_run_client) = true →
    a'.(g_run_client) = true ∧ ∀ p, started a' p → started a p;
  keeps_started : ∀ p, started a p → started a' p;
  starts_from : ∀ p, started a' p → started a p ∨ from_argv a'.(g_mqtt_argv) p;
  spawns_started : (0 < a'.(a_spawned))%nat → (0 < a.(a_spawned))%nat ∨ ∃ p, started a' p;
  runs_spawned : a'.(g_run_client) = true →
    a.(g_run_client) = true ∨ (0 < a.(a_spawned))%nat ∨ ∃ p, started a' p
}.

#[global] Instance progress_preorder : PreOrder progress.
Proof.
  split; [intros a; split; auto|].
  intros a b c [H1 H2 H3 H4 H5 H6] [J1 J2 J3 J4 J5 J6]. split.
  - intros Ha. rewrite J1; [by apply H1|]. by rewrite H1.
  - intros Hr. destruct (H2 Hr) as [Hb Hs]. destruct (J2 Hb) as [Hc Hs']. auto.
  - auto.
  - intros p Hp. destruct (J4 p Hp) as [Hb|Hb]; [|by right].
    destruct (H4 p Hb) as [Ha|Ha]; [by left|]. right.
    rewrite J1; [done|]. by eapply from_argv_nonempty.
  - intros Hs. destruct (J5 Hs) as [Hb|[p Hp]]; [|by right; exists p].
    destruct (H5 Hb) as [|[p Hp]]; [by left|]. right. exists p. by apply J3.
  - intros Hr. destruct (J6 Hr) as [Hb|[Hb|Hc]]; [|destruct (H5 Hb) as [|[p Hp]]|]; [|auto|eauto|eauto].
    destruct (H6 Hb) as [|[|[p Hp]]]; eauto.
Qed.

(** Nothing of the above changes. *)
Lemma progress_same a a' :
  a'.(g_mqtt_argv) = a.(g_mqtt_argv) → a'.(g_run_client) = a.(g_run_client) →
  a'.(a_spawned) = a.(a_spawned) → (∀ p, started a' p ↔ started a p) → progress a a'.
Proof.
  intros H1 H2 H3 H4. split; rewrite ?H1, ?H2, ?H3; auto; try (intros p; rewrite H4; auto).
  intros Hr. split; [done|]. intros p. by rewrite H4.
Qed.

Lemma started_call a e p : (∀ p, e ≠ MqRunClient p) →
  started (a <| a_calls ::= (λ l, l ++ [e]) |>) p ↔ started a p.
Proof.
  intros He. unfold started. simpl. rewrite elem_of_app, list_elem_of_singleton.
  split; [|by left]. intros [H|H]; [done|]. by destruct (He p).
Qed.

Lemma respects_in_world {X} (m : W X) : respects progress (in_world m).
Proof.
  intros a x a' H. unfold in_world in H. destruct (m (a_world a)) as [o w]. injection H as -> <-.
  by apply progress_same.
Qed.
Lemma respects_in_program {X} (m : M program X) : respects progress (in_program m).
Proof.
  intros a x a' H. unfold in_program in H. destruct (m (a_program a)) as [o w]. injection H as -> <-.
  by apply progress_same.
Qed.
Lemma respects_call e : (∀ p, e ≠ MqRunClient p) → respects progress (call e).
Proof.
  intros He. apply respects_modify. intros a. apply progress_same; try done. intros p. by apply started_call.
Qed.
(** An assignment to a global outside the relation. *)
Lemma respects_assign (f : aggregator → aggregator) :
  (∀ a, (f a).(g_mqtt_argv) = a.(g_mqtt_argv) ∧ (f a).(g_run_client) = a.(g_run_client) ∧
    (f a).(a_spawned) = a.(a_spawned) ∧ (f a).(a_calls) = a.(a_calls)) →
  respects progress (modify f).
Proof.
  intros H. apply respects_modify. intros a. destruct (H a) as (?&?&?&Hc).
  apply progress_same; try done. intros p. unfold started. by rewrite Hc.
Qed.
End aggregator.

#[export] Hint Resolve respects_in_world respects_in_program : respects.
#[export] Hint Extern 1 (respects progress (call _)) => apply respects_call; intros ?; discriminate : respects.
#[export] Hint Extern 1 (respects progress (modify _)) => apply respects_assign; by intros [] : respects.

Section steps.
Context {C : Consistent} {E : Env} {P : HeaderParser} {SE : StatusEnv} {K : Kong} {Q : Mqtt}.
Context {LR : Logrus} {SU : Startup}.

Lemma respects_get_mac : respects progress get_mac.
Proof. unfold get_mac. respect. Qed.
Lemma respects_mqtt_send topic payload : respects progress (mqtt_send topic payload).
Proof. unfold mqtt_send. respect. Qed.
Lemma respects_mqtt_sub client topic : respects progress (mqtt_sub client topic).
Proof. unfold mqtt_sub. respect. Qed.
Lemma respects_check_brokers : respects progress mqtt_check_brokers.
Proof. unfold mqtt_check_brokers, mqtt_connect_things. respect. Qed.
#[local] Hint Resolve respects_get_mac respects_mqtt_send respects_mqtt_sub respects_check_brokers : respects.

Lemma wlp_in_program {X} (m : M program X) (R : X → aggregator → Prop) a :
  (∀ x p, m a.(a_program) = (Ret x, p) → R x (a <| a_program := p |>)) → wlp (in_program m) R a.
Proof.
  intros H x a' Hm. unfold in_program in Hm. destruct (m (a_program a)) as [o p] eqn:Hp.
  injection Hm as -> <-. by apply H.
Qed.

Lemma wlp_in_world {X} (m : W X) (R : X → aggregator → Prop) a :
  (∀ x w, m a.(a_world) = (Ret x, w) → R x (a <| a_world := w |>)) → wlp (in_world m) R a.
Proof.
  intros H x a' Hm. unfold in_world in Hm. destruct (m (a_world a)) as [o w] eqn:Hw.
  injection Hm as -> <-. by apply H.
Qed.

(** The requests: the one place where a client is started. *)
Lemma respects_requests : respects progress do_mqtt_requests.
Proof.
  intros a. unfold do_mqtt_requests. wlp_steps.
  case_bool_decide; [by apply (respects_bind progress); [apply respects_get_mac|intros mac; apply respects_mqtt_send]|].
  case_bool_decide as Hargv; [apply respects_mqtt_send|].
  destruct (g_run_client a) eqn:Hr; simpl; [by wlp_steps|].
  destruct (Unmarshal (g_mqtt_argv a)) as [args|] eqn:Hu; [|by wlp_steps]. wlp_steps.
  apply wlp_in_world. intros t w _. wlp_steps. apply wlp_in_program. intros cmd p Hp. simpl in Hp. wlp_steps. unfold call. wlp_steps.
  split; simpl; [done| |intros p'; unfold started; simpl; set_solver| | |].
  - intros Hr'. congruence.
  - intros p'. unfold started. simpl. rewrite elem_of_app, list_elem_of_singleton.
    intros [Hin|[= ->]]; [by left|]. right. by eexists args, _, a.(a_program), cmd.
  - intros _. right. exists p. unfold started. simpl. rewrite elem_of_app, list_elem_of_singleton. by right.
  - by left.
Qed.

Lemma respects_message topic payload : respects progress (things_messagePubHandler topic payload).
Proof.
  unfold things_messagePubHandler. apply (respects_bind progress); [apply respects_get_mac|intros mac].
  case_bool_decide; [respect|]. intros a. wlp_steps. case_bool_decide; [|by wlp_steps].
  destruct (bool_decide_reflect (g_mqtt_argv a = "")) as [Hempty|Hne]; simpl.
  - wlp_steps. by split; simpl; auto.
  - destruct (bool_decide_reflect (g_mqtt_argv a = payload)) as [<-|]; simpl; [|apply wlp_exit].
    wlp_steps. by apply progress_same.
Qed.
#[local] Hint Resolve respects_requests respects_message : respects.

Lemma respects_turn lc : respects progress (aggregator_turn lc).
Proof. unfold aggregator_turn. respect. Qed.

Lemma respects_connected : respects progress things_connectHandler.
Proof. unfold things_connectHandler. respect. Qed.
Lemma respects_lost : respects progress things_connectLostHandler.
Proof. unfold things_connectLostHandler. respect. Qed.

Lemma client_starts_progress a a' :
  (0 < a.(a_spawned))%nat → client_starts a = (Ret tt, a') → progress a a' ∧ a'.(g_run_client) = true.
Proof.
  intros Hs. revert a'. enough (wlp client_starts (λ _ a', progress a a' ∧ a'.(g_run_client) = true) a) as H
    by (intros a' Ha; by apply (H tt)).
  unfold client_starts. wlp_steps. case_bool_decide; [apply wlp_exit|]. case_bool_decide; [apply wlp_exit|].
  assert (∀ a1, a1.(g_mqtt_argv) = a.(g_mqtt_argv) → a1.(a_calls) = a.(a_calls) →
    wlp (in_world (go GoHttpServe) ;; modify (setf g_run_client (λ _, true)))
      (λ _ a', progress a a' ∧ a'.(g_run_client) = true) a1) as Hend.
  { intros a1 H1 H2 x a' [= _ <-]. split; [|done].
    assert (∀ p a', a_calls a' = a_calls a → started a' p ↔ started a p) as Hst.
    { intros p a' Ha. unfold started. by rewrite Ha. }
    split; simpl.
    - done.
    - intros _. split; [done|]. intros p Hp. by apply (Hst p _ H2).
    - intros p Hp. by apply (Hst p _ H2).
    - intros p Hp. left. by apply (Hst p _ H2).
    - by left.
    - auto. }
  apply wlp_bind. unfold whenM. destruct (negb _); [apply wlp_modify|apply wlp_ret]; by apply Hend.
Qed.

(** Every step makes progress. *)
Lemma step_progress s s' : aggregator_step s s' → progress s.1 s'.1.
Proof.
  destruct 1; simpl.
  - by eapply respects_turn.
  - by eapply respects_connected.
  - by eapply respects_lost.
  - by eapply respects_message.
  - by apply client_starts_progress.
Qed.

Lemma steps_progress s s' : rtc aggregator_step s s' → progress s.1 s'.1.
Proof.
  induction 1 as [|s1 s2 s3 H _ IH]; [reflexivity|]. transitivity s2.1; [by apply step_progress|done].
Qed.

Lemma respects_setup : respects progress aggregator_setup.
Proof. unfold aggregator_setup. respect. Qed.

Lemma reachable_progress a0 a : aggregator_reachable a0 a → progress a0 a.
Proof.
  intros (a1 & lc & Hs & Hr). transitivity a1; [by eapply respects_setup|].
  by apply (steps_progress (a1, 1) (a, lc)).
Qed.
End steps.

(** ** Safety *)

Section safety.
Context {C : Consistent} {E : Env} {P : HeaderParser} {SE : StatusEnv} {K : Kong} {Q : Mqtt}.
Context {LR : Logrus} {SU : Startup}.

(** C14: in every state the aggregator client reaches, whatever the broker sends
    and in whatever order callbacks, turns and goroutines run: a client was
    only ever started with the flags of a command line that the aggregator sent
    as its argv; the client runs only after it was started; an argv, once
    received, is never replaced; and while the client runs no second one is
    started. *)
Theorem client_from_argv (args : list string) (p : program) (a a' : aggregator) (lc lc' : Z)
    (Hreach : aggregator_reachable ((init_aggregator args) <| a_program := p |>) a)
    (Hsteps : rtc aggregator_step (a, lc) (a', lc')) :
  (∀ p, started a p → from_argv a.(g_mqtt_argv) p) ∧
  (a.(g_run_client) = true → ∃ p, started a p) ∧
  (a.(g_mqtt_argv) ≠ "" → a'.(g_mqtt_argv) = a.(g_mqtt_argv)) ∧
  (a.(g_run_client) = true →
    a'.(g_run_client) = true ∧ ∀ p, started a' p ↔ started a p).
Proof.
  destruct (reachable_progress _ _ Hreach) as [_ _ _ H4 H5 H6].
  destruct (steps_progress _ _ Hsteps) as [J1 J2 J3 _ _ _]. simpl in *.
  assert (∀ q, ¬ started ((init_aggregator args) <| a_program := p |>) q) as Hno.
  { intros q. unfold started. simpl. set_solver. }
  split_and!; [| |done|].
  - intros q Hq. by destruct (H4 q Hq) as [?%Hno|].
  - intros Hr. destruct (H6 Hr) as [|[Hs|]]; [done|lia|done].
  - intros Hr. destruct (J2 Hr) as [Hr' Hs]. split; [done|]. intros q. split; [apply Hs|apply J3].
Qed.
End safety.

(** ** The conversation with the broker *)

Section conversation.
Context {C : Consistent} {E : Env} {P : HeaderParser} {SE : StatusEnv} {K : Kong} {Q : Mqtt}.
Context {LR : Logrus} {LL : LogrusLaws LR} {SU : Startup}.
Context (mac : string) (Hmac : ∀ t g, ∃ g', network_get_mac (env_Interfaces t) g = Ret (g', mac)).

(** Connected through [h], with the given token, argv, calls and program; the
    client is neither running nor spawned. *)
Record talking (h : handle) (token argv secret : string) (calls : list mqtt_event) (p : program)
    (a : aggregator) : Prop := {
  t_connected : a.(g_things_mqtt_connected) = true;
  t_client : a.(g_things_mqttclient) = Some h;
  t_token : a.(g_mqtt_token) = token;
  t_argv : a.(g_mqtt_argv) = argv;
  t_secret : a.(g_mqtt_token_secret) = secret;
  t_calls : a.(a_calls) = calls;
  t_program : a.(a_program) = p;
  t_running : a.(g_run_client) = false;
  t_spawned : a.(a_spawned) = 0%nat
}.

(** The topics. *)
Definition token_topic : string := "/ratbondserver/" +:+ mac +:+ "/token".
Definition argv_topic (token : string) : string := "/ratbondserver/" +:+ token +:+ "/argv".

Lemma argv_not_token token : argv_topic token ≠ token_topic.
Proof.
  intros H. apply (f_equal (cut_last "/")) in H. unfold argv_topic, token_topic in H.
  change "/argv" with (String "/" "argv") in H. change "/token" with (String "/" "token") in H.
  rewrite <-!string_app_assoc, !cut_last_app in H by done. by injection H.
Qed.

Lemma wp_in_world {X} (m : W X) (R : X → aggregator → Prop) a :
  wp m (λ x w, R x (a <| a_world := w |>)) a.(a_world) → wp (in_world m) R a.
Proof.
  intros (x & w & Hm & HR). exists x, (a <| a_world := w |>). split; [|done].
  unfold in_world. by rewrite Hm.
Qed.

Lemma wp_get_mac (R : string → aggregator → Prop) a :
  (∀ w g, R mac (a <| a_world := w |> <| g_mac := g |>)) → wp get_mac R a.
Proof.
  intros HR. unfold get_mac. wp_step. apply wp_in_world. wp_steps.
  destruct (Hmac (w_tick (a_world a)) a.(g_mac)) as [g Hg]. eapply wp_lift; [exact Hg|]. cbv beta iota. wp_steps. apply HR.
Qed.

Lemma wp_send h topic payload token argv secret calls p (R : unit → aggregator → Prop) a :
  talking h token argv secret calls p a →
  (∀ a', talking h token argv secret (calls ++ [MqPublish h topic 0 false payload]) p a' → R tt a') →
  wp (mqtt_send topic payload) R a.
Proof.
  intros [H1 H2 H3 H4 H5 H6 H7 H8 H9] HR. unfold mqtt_send. wp_steps. rewrite H1, H2.
  apply wp_modify, HR. split; simpl; congruence.
Qed.

Lemma wp_sub h topic token argv secret calls p (R : unit → aggregator → Prop) a :
  talking h token argv secret calls p a →
  (∀ a', talking h token argv secret (calls ++ [MqSubscribe h topic 1]) p a' → R tt a') →
  wp (mqtt_sub (Some h) topic) R a.
Proof.
  intros [H1 H2 H3 H4 H5 H6 H7 H8 H9] HR. unfold mqtt_sub. wp_steps. rewrite H1.
  apply wp_modify, HR. split; simpl; congruence.
Qed.

(** The broker accepts the connection: a token is asked for. *)
Lemma wp_connected h a (R : unit → aggregator → Prop) :
  a.(g_things_mqttclient) = Some h → a.(g_mqtt_argv) = "" → a.(g_run_client) = false →
  a.(a_spawned) = 0%nat →
  (∀ a', talking h "" "" a.(g_mqtt_token_secret) (a.(a_calls) ++
    [MqSubscribe h token_topic 1] ++
    [MqPublish h ("/ratbond/" +:+ mac +:+ "/need-token") 0 false a.(g_mqtt_token_secret)])
    a.(a_program) a' → R tt a') →
  wp things_connectHandler R a.
Proof.
  intros Hc Ha Hr Hs HR. unfold things_connectHandler. wp_steps. apply wp_get_mac. intros w g. simpl.
  wp_step. rewrite Hc.
  apply (wp_sub h _ "" "" (g_mqtt_token_secret a) (a_calls a) (a_program a)); [by split|]. intros a1 H1. unfold do_mqtt_requests. wp_steps.
  rewrite (t_token _ _ _ _ _ _ _ H1), (t_secret _ _ _ _ _ _ _ H1), bool_decide_eq_true_2 by done.
  wp_step. apply wp_get_mac. intros w1 g1. eapply wp_send; [by destruct H1; split|].
  intros a2 H2. apply HR. by rewrite app_assoc.
Qed.

(** The token arrives. *)
Lemma wp_token h token secret calls p a (R : unit → aggregator → Prop) :
  talking h "" "" secret calls p a →
  (∀ a', talking h token "" secret (calls ++ [MqSubscribe h ("/ratbondserver/" +:+ token +:+ "/+") 1]) p a' →
    R tt a') →
  wp (things_messagePubHandler token_topic token) R a.
Proof.
  intros H HR. unfold things_messagePubHandler. wp_step. apply wp_get_mac. intros w g.
  rewrite bool_decide_eq_true_2 by done. wp_steps. simpl. rewrite (t_client _ _ _ _ _ _ _ H).
  eapply wp_sub; [by destruct H; split|]. exact HR.
Qed.

(** A due turn asks for the argv. *)
Definition due (loopcount : Z) : Prop :=
  every 200 (loopcount + 1) = true ∧ every 1500 (loopcount + 1) = false.

Lemma wp_due_turn lc (R : Z → aggregator → Prop) a :
  due lc → a.(g_things_mqtt_connected) = true →
  (∀ w, wp do_mqtt_requests (λ _, R (lc + 1)) (a <| a_world := w |>)) → wp (aggregator_turn lc) R a.
Proof.
  intros [H200 H1500] Hc HR. unfold aggregator_turn. wp_step. apply wp_in_world. wp_steps.
  rewrite H200, H1500. wp_steps. simpl. rewrite Hc. eapply wp_mono; [apply HR|].
  intros [] a' Ha'. by wp_steps.
Qed.

Lemma talking_world h token argv secret calls p a w :
  talking h token argv secret calls p a → talking h token argv secret calls p (a <| a_world := w |>).
Proof. by intros []. Qed.

Lemma wp_ask_argv h token secret calls p a (R : unit → aggregator → Prop) :
  talking h token "" secret calls p a → token ≠ "" →
  (∀ a', talking h token "" secret
    (calls ++ [MqPublish h ("/ratbond/" +:+ token +:+ "/need-argv") 0 false "hello"]) p a' → R tt a') →
  wp do_mqtt_requests R a.
Proof.
  intros H Ht HR. unfold do_mqtt_requests. wp_steps.
  rewrite (t_token _ _ _ _ _ _ _ H), (t_argv _ _ _ _ _ _ _ H), bool_decide_eq_false_2,
    bool_decide_eq_true_2 by done. by eapply wp_send.
Qed.

(** The argv arrives. *)
Lemma wp_argv h token argv secret calls p a (R : unit → aggregator → Prop) :
  talking h token "" secret calls p a →
  (∀ a', talking h token argv secret calls p a' → R tt a') →
  wp (things_messagePubHandler (argv_topic token) argv) R a.
Proof.
  intros H HR. unfold things_messagePubHandler. wp_step. apply wp_get_mac. intros w g.
  rewrite bool_decide_eq_false_2 by apply argv_not_token. wp_steps.
  change (g_mqtt_token (a <| a_world := w |> <| g_mac := g |>)) with (g_mqtt_token a).
  change (g_mqtt_argv (a <| a_world := w |> <| g_mac := g |>)) with (g_mqtt_argv a).
  rewrite (t_token _ _ _ _ _ _ _ H), bool_decide_eq_true_2, (t_argv _ _ _ _ _ _ _ H) by done.
  rewrite (bool_decide_eq_true_2 ("" = "")) by done. apply wp_modify, HR. by destruct H.
Qed.

(** ** From the argv to the running client *)

Section start.
Context (args : list string) (f : CLI_type) (command : string) (c : config).
Context (Hargs : Forall plain args) (Hkong : ∀ flags, kong_Parse args flags = Ret (f, command)).
Context (Hvalid : valid_flags f = true).
Let c' := apply_flags env_int_bits f c.
(** The first log entry can be written: no syslog is used, or its daemon answers. *)
Context (Hlog : ∀ t, logging_lost (syslog_New t) f c = false).
Context (Haddr : c'.(g_connect_addr) ≠ "") (Hid : c'.(g_tunnel_id) ≠ 0).

Lemma parse_cli_ok t p :
  p.(p_config) = c → parse_cli env_int_bits (syslog_New t) args p = (Ret command, mkProgram c' f).
Proof.
  intros Hp. unfold parse_cli. rewrite Hkong, Hp.
  destruct (parse_flags_ok env_int_bits (syslog_New t) f c (Hlog t)) as [H1 H2].
  rewrite Hvalid in H1. specialize (H2 Hvalid). destruct (parse_flags _ _ _) as [o c2]. simpl in *. by subst.
Qed.

(** A due turn with an argv starts the client with its flags. *)
Lemma wp_start h token secret calls p a (R : unit → aggregator → Prop) :
  talking h token (json_text args) secret calls p a → token ≠ "" → p.(p_config) = c →
  (∀ a', a'.(a_spawned) = 1%nat → a'.(os_Args) = args → a'.(a_program) = mkProgram c' f →
    a'.(a_calls) = calls ++ [MqRunClient (mkProgram c' f)] → R tt a') →
  wp do_mqtt_requests R a.
Proof.
  intros H Ht Hp HR. unfold do_mqtt_requests. wp_steps.
  rewrite (t_token _ _ _ _ _ _ _ H), (t_argv _ _ _ _ _ _ _ H), (t_running _ _ _ _ _ _ _ H).
  rewrite (bool_decide_eq_false_2 (token = "")), (bool_decide_eq_false_2 (json_text args = "")) by done.
  simpl negb. cbv iota. rewrite Unmarshal_text by done. wp_steps.
  apply wp_in_world. wp_steps.
  eexists command, _. split.
  { unfold in_program. simpl. rewrite parse_cli_ok; [done|]. by rewrite (t_program _ _ _ _ _ _ _ H). }
  unfold call. wp_steps. apply HR; simpl; try done.
  - by rewrite (t_spawned _ _ _ _ _ _ _ H).
  - by rewrite (t_calls _ _ _ _ _ _ _ H).
Qed.

Lemma wp_client_starts a (R : unit → aggregator → Prop) :
  a.(a_program) = mkProgram c' f →
  (∀ a', a'.(g_run_client) = true → a'.(os_Args) = a.(os_Args) → a'.(a_calls) = a.(a_calls) → R tt a') →
  wp client_starts R a.
Proof.
  intros Hp HR. unfold client_starts. wp_steps. simpl. rewrite Hp. simpl.
  rewrite !bool_decide_eq_false_2 by done. wp_step. unfold whenM.
  destruct (negb _); wp_steps; apply wp_in_world; wp_steps; by apply HR.
Qed.

(** C5: the aggregator mode does its work.  Where the log can be written and the
    broker accepts the connection, a non-empty token and the JSON of a command
    line with valid flags suffice: within two due turns of the main loop the client
    runs, with exactly those flags, after exactly this exchange on the topics of
    the MAC address and of the token. *)
Theorem aggregator_starts_client (a : aggregator) (h : handle) (token : string) (lc1 lc2 : Z)
    (Hc : a.(a_program).(p_config) = c) (Hclient : a.(g_things_mqttclient) = Some h)
    (Hargv : a.(g_mqtt_argv) = "") (Hrun : a.(g_run_client) = false) (Hspawn : a.(a_spawned) = 0%nat)
    (Htoken : token ≠ "") (Hdue1 : due lc1) (Hdue2 : due lc2) :
  ∃ a', (things_connectHandler ;;
         things_messagePubHandler token_topic token ;;
         aggregator_turn lc1 ;;
         things_messagePubHandler (argv_topic token) (json_text args) ;;
         aggregator_turn lc2 ;;
         client_starts) a = (Ret tt, a') ∧
    a'.(g_run_client) = true ∧ a'.(os_Args) = args ∧
    a'.(a_calls) = a.(a_calls) ++
      [MqSubscribe h token_topic 1;
       MqPublish h ("/ratbond/" +:+ mac +:+ "/need-token") 0 false a.(g_mqtt_token_secret);
       MqSubscribe h ("/ratbondserver/" +:+ token +:+ "/+") 1;
       MqPublish h ("/ratbond/" +:+ token +:+ "/need-argv") 0 false "hello";
       MqRunClient (mkProgram c' f)].
Proof.
  set (calls := _ ++ [_; _; _; _; _]).
  enough (wp (things_connectHandler ;; things_messagePubHandler token_topic token ;;
    aggregator_turn lc1 ;; things_messagePubHandler (argv_topic token) (json_text args) ;;
    aggregator_turn lc2 ;; client_starts)
    (λ _ a', a'.(g_run_client) = true ∧ a'.(os_Args) = args ∧ a'.(a_calls) = calls) a)
    as ([] & a' & H & Ha') by (exists a'; by split).
  wp_step. eapply wp_connected; [done..|]. intros a1 H1.
  wp_step. eapply wp_token; [done|]. intros a2 H2.
  wp_step. apply wp_due_turn; [done|apply (t_connected _ _ _ _ _ _ _ H2)|]. intros w.
  eapply wp_ask_argv; [by apply talking_world|done|]. intros a3 H3.
  wp_step. eapply wp_argv; [done|]. intros a4 H4.
  wp_step. apply wp_due_turn; [done|apply (t_connected _ _ _ _ _ _ _ H4)|]. intros w'.
  eapply wp_start; [by apply talking_world|done|done|]. intros a5 _ Hargs5 Hp5 Hcalls5.
  apply wp_client_starts; [done|]. intros a6 Hrun6 Hargs6 Hcalls6.
  split; [done|]. rewrite Hargs6, Hcalls6, Hcalls5. split; [done|].
  unfold calls. by rewrite <-!app_assoc.
Qed.
End start.
End conversation.

(** ** A concrete conversation *)

(** A parser for the command line of the example, and a broker that accepts. *)
Definition demo_args : list string := ["ratbond"; "--connect-addr=203.0.113.9:12345"; "--tunnel-id=7"].

Definition demo_client_flags : CLI_type :=
  CLI_default <| cli_ConnectAddr := "203.0.113.9:12345" |> <| cli_TunnelId := 7 |>.

#[export] Instance demo_kong : Kong := { kong_Parse _ _ := Ret (demo_client_flags, "client") }.

Lemma demo_kong_parse flags : kong_Parse demo_args flags = Ret (demo_client_flags, "client").
Proof. reflexivity. Qed.

#[export] Instance demo_mqtt : Mqtt := {
  mqtt_NewClient t _ _ _ := Z.of_nat t;
  mqtt_Connect _ _ := None
}.

(** The aggregator client after its set-up, waiting for the broker. *)
Definition demo_agg : aggregator :=
  (init_aggregator ["ratbond"; "connectaggregator"]) <| g_things_mqttclient := Some 3 |>
    <| g_mqtt_token_secret := "02:42:AC:11:00:02" |>.

Lemma demo_mac t g : ∃ g', network_get_mac (env_Interfaces t) g = Ret (g', "02:42:AC:11:00:02").
Proof. eexists. vm_compute. reflexivity. Qed.

Lemma demo_plain : Forall plain demo_args.
Proof. by repeat constructor. Qed.

Lemma aggregator_starts_client_witness :
  ∃ a', (things_connectHandler ;;
         things_messagePubHandler (token_topic "02:42:AC:11:00:02") "T0" ;;
         aggregator_turn 199 ;;
         things_messagePubHandler (argv_topic "T0") (json_text demo_args) ;;
         aggregator_turn 399 ;;
         client_starts) demo_agg = (Ret tt, a') ∧
    a'.(g_run_client) = true ∧ a'.(os_Args) = demo_args.
Proof.
  destruct (aggregator_starts_client "02:42:AC:11:00:02" demo_mac demo_args
    demo_client_flags "client" default_config demo_plain demo_kong_parse eq_refl
    ltac:(done) ltac:(done) ltac:(done)
    demo_agg 3 "T0" 199 399 eq_refl eq_refl eq_refl eq_refl eq_refl ltac:(done)
    ltac:(by split) ltac:(by split)) as (a' & H1 & H2 & H3 & _).
  exists a'. exact (conj H1 (conj H2 H3)).
Defined.


(** A process started with a broker address, after the broker has accepted, and
    after the token. *)
Definition demo_setup : program :=
  mkProgram (default_config <| g_mqtt_broker_addr := "203.0.113.9:1883" |>) CLI_default.
Definition demo_ready : aggregator :=
  (aggregator_setup ((init_aggregator []) <| a_program := demo_setup |>)).2.
Definition demo_connected : aggregator := (things_connectHandler demo_ready).2.
Definition demo_token : aggregator :=
  (things_messagePubHandler (token_topic "02:42:AC:11:00:02") "T0" demo_connected).2.

Lemma agg_run_eq {A} (m : M aggregator A) a x : (m a).1 = Ret x → m a = (Ret x, (m a).2).
Proof. intros <-. by destruct (m a). Qed.

Lemma demo_reachable :
  aggregator_reachable ((init_aggregator []) <| a_program := demo_setup |>) demo_connected.
Proof.
  exists demo_ready, 1. split; [|apply rtc_once, step_connected].
  - apply (agg_run_eq aggregator_setup). vm_compute. reflexivity.
  - apply (agg_run_eq things_connectHandler). vm_compute. reflexivity.
Qed.

Lemma client_from_argv_witness :
  g_mqtt_token demo_token = "T0" ∧
  (∀ p, started demo_connected p → from_argv demo_connected.(g_mqtt_argv) p) ∧
  (demo_connected.(g_run_client) = true → ∃ p, started demo_connected p).
Proof.
  split; [by vm_compute|].
  assert (rtc aggregator_step (demo_connected, 1) (demo_token, 1)) as Hsteps.
  { apply rtc_once. eapply (step_message _ _ (token_topic "02:42:AC:11:00:02") "T0").
    apply (agg_run_eq (things_messagePubHandler (token_topic "02:42:AC:11:00:02") "T0")).
    vm_compute. reflexivity. }
  destruct (client_from_argv [] demo_setup demo_connected demo_token 1 1 demo_reachable Hsteps)
    as (H1 & H2 & _).
  by split.
Defined.
