(* ===== verification/Main.v ===== *)
(** * The entry point ([main] of [src/main.go])

    The composition of the parts: command line, kernel settings, and one of the
    three modes.  The state is that of [Aggregator], which contains all others. *)
From stdpp Require Import base gmap sets list strings.
From Stdlib Require Import ZArith Lia.
From S2P Require Import Prelude GoFloat GoNet Network Ring World Json Logging Cli Session Wire FlowKey Client.
From S2P Require Import Demo Status Loops Aggregator AggregatorProps.
#[local] Open Scope Z_scope.

Section main.
Context {C : Consistent} {E : Env} {P : HeaderParser} {SE : StatusEnv} {K : Kong} {Q : Mqtt}.
Context {LR : Logrus} {SU : Startup}.

(** The arguments of the [sysctl] commands. *)
Definition sysctls : list string := [
  "net.core.rmem_max=26214400"; "net.core.rmem_default=26214400";
  "net.core.wmem_max=26214400"; "net.core.wmem_default=26214400";
  "net.core.netdev_max_backlog=2048"].

Definition network_sysctls : W unit :=
  for_each sysctls (fun s => runthing "sysctl" [s] ;; mret tt).

(** [http_serve]: the address that is listened on, if any. *)
Definition http_serve (cfg : config) : option string :=
  if bool_decide (cfg.(g_http_listen_addr) = "") then None else Some cfg.(g_http_listen_addr).

(** The mode of a command; the loops run for [turns] turns. *)
Definition dispatch (turns : nat) (command : string) : M aggregator unit :=
  a ← getS;
  let cfg := a.(a_program).(p_config) in
  if bool_decide (command = "client") then
    in_world (run_client cfg a.(a_program).(p_CLI).(cli_TunName) turns) ;; mret tt
  else if bool_decide (command = "server") then
    in_world (run_server cfg turns) ;; mret tt
  else if bool_decide (command = "connectaggregator") then run_aggregator turns ;; mret tt
  else exit 1.

Definition main (turns : nat) : M aggregator unit :=
  a ← getS;
  t ← in_world tick;
  command ← in_program (parse_cli env_int_bits (syslog_New t) a.(os_Args));
  in_world network_sysctls ;;
  dispatch turns command.

End main.

Section start.
Context {C : Consistent} {E : Env} {P : HeaderParser} {SE : StatusEnv} {K : Kong} {Q : Mqtt}.
Context {LR : Logrus} {LL : LogrusLaws LR} {SU : Startup}.

(** The commands that set the buffers, as they appear in the trace. *)
Definition buffers_raised : list event :=
  [EvCommand "sysctl" ["net.core.rmem_max=26214400"];
   EvCommand "sysctl" ["net.core.rmem_default=26214400"];
   EvCommand "sysctl" ["net.core.wmem_max=26214400"];
   EvCommand "sysctl" ["net.core.wmem_default=26214400"];
   EvCommand "sysctl" ["net.core.netdev_max_backlog=2048"]].

Lemma run_each_sysctl (l : list string) (w : world) :
  ∃ t, for_each l (fun s => runthing "sysctl" [s] ;; mret tt) w =
    (Ret tt, w <| w_trace := w.(w_trace) ++ ((λ s, EvCommand "sysctl" [s]) <$> l) |> <| w_tick := t |>).
Proof.
  revert w. induction l as [|s l IH]; intros w; simpl.
  - exists w.(w_tick). rewrite app_nil_r. by destruct w.
  - destruct (IH (w <| w_trace ::= (λ l, l ++ [EvCommand "sysctl" [s]]) |> <| w_tick ::= S |>)) as [t Ht].
    exists t. etransitivity; [exact Ht|]. f_equal. destruct w.
    unfold setf. simpl. by rewrite <-app_assoc.
Qed.

Lemma network_sysctls_run w :
  ∃ t, network_sysctls w = (Ret tt, w <| w_trace := w.(w_trace) ++ buffers_raised |> <| w_tick := t |>).
Proof. apply run_each_sysctl. Qed.

(** The process with its flags in the globals and the buffers raised. *)
Definition configured (args : list string) (f : CLI_type) (t : nat) : aggregator :=
  (init_aggregator args)
    <| a_program := mkProgram (apply_flags env_int_bits f default_config) f |>
    <| a_world := init_world <| w_trace := buffers_raised |> <| w_tick := t |> |>.

(** The first entry of the log is lost. *)
Abbreviation lost f := (logging_lost (syslog_New 0) f default_config).

Lemma main_refused turns args f command :
  kong_Parse args CLI_default = Ret (f, command) → lost f || negb (valid_flags f) = true →
  (main turns (init_aggregator args)).1 =
    (if lost f then Panic "nil *syslog.Writer" else Exit 1) ∧
  (main turns (init_aggregator args)).2.(a_world) = init_world <| w_tick ::= S |>.
Proof.
  intros Hkong Hbad. pose proof (parse_flags_spec env_int_bits (syslog_New 0) f default_config) as [H1 _].
  unfold main, in_program, parse_cli, mbind, M_bind. simpl. rewrite Hkong.
  destruct (parse_flags _ _ _ _) as [o c]. simpl in H1. subst o.
  destruct (lost f); [done|]. by destruct (valid_flags f).
Qed.

#[local] Opaque network_sysctls.

Lemma main_configured turns args f command :
  kong_Parse args CLI_default = Ret (f, command) → lost f = false → valid_flags f = true →
  ∃ t, main turns (init_aggregator args) = dispatch turns command (configured args f t).
Proof.
  intros Hkong Hl Hv. destruct (parse_flags_ok env_int_bits (syslog_New 0) f default_config Hl) as [H1 H2].
  rewrite Hv in H1. specialize (H2 Hv). destruct (network_sysctls_run (init_world <| w_tick ::= S |>)) as [t Ht].
  exists t. unfold main, in_program, parse_cli, mbind, M_bind. simpl. rewrite Hkong.
  destruct (parse_flags _ _ _ _) as [o c]. simpl in H1, H2. subst o c. simpl.
  unfold in_world. simpl. by rewrite Ht.
Qed.

(** The modes that refuse their configuration. *)
Lemma run_client_refuses cfg tun turns w :
  cfg.(g_connect_addr) = "" ∨ cfg.(g_tunnel_id) = 0 → run_client cfg tun turns w = (Exit 1, w).
Proof. unfold run_client. intros [->| ->]; [|case_bool_decide]; done. Qed.
Lemma run_server_refuses cfg turns w :
  cfg.(g_tunnel_id) = 0 → run_server cfg turns w = (Exit 1, w).
Proof. unfold run_server. by intros ->. Qed.
Lemma run_aggregator_refuses turns a :
  a.(a_program).(p_config).(g_mqtt_broker_addr) = "" →
  run_aggregator turns a = (Exit 1, a <| g_run_aggregator := true |>).
Proof. intros H. unfold run_aggregator, aggregator_setup, mbind, M_bind. simpl. by rewrite H. Qed.

(** C33: what the process does with its arguments.  When syslog is to be used
    and its daemon cannot be reached the process panics, and with invalid flags
    it exits with code 1, nothing outside having been touched.  Otherwise the five
    kernel settings are the first effects, and then, under the configuration the
    flags denote, command "client" runs the client, which exits with code 1
    without a server address or tunnel id; "server" runs the server, which
    exits without a tunnel id; "connectaggregator" runs the aggregator client,
    which exits without a broker; and any other command exits. *)
Theorem main_dispatches (turns : nat) (args : list string) (f : CLI_type) (command : string)
    (Hkong : kong_Parse args CLI_default = Ret (f, command)) :
  let run := main turns (init_aggregator args) in
  let cfg := apply_flags env_int_bits f default_config in
  (logging_lost (syslog_New 0) f default_config = true →
    run.1 = Panic "nil *syslog.Writer" ∧ run.2.(a_world).(w_trace) = []) ∧
  (logging_lost (syslog_New 0) f default_config = false → valid_flags f = false →
    run.1 = Exit 1 ∧ run.2.(a_world).(w_trace) = []) ∧
  (logging_lost (syslog_New 0) f default_config = false → valid_flags f = true →
    ∃ t, let a := configured args f t in
    (command = "client" →
      run = (in_world (run_client cfg f.(cli_TunName) turns) ;; mret tt) a ∧
      (cfg.(g_connect_addr) = "" ∨ cfg.(g_tunnel_id) = 0 → run = (Exit 1, a))) ∧
    (command = "server" →
      run = (in_world (run_server cfg turns) ;; mret tt) a ∧
      (cfg.(g_tunnel_id) = 0 → run = (Exit 1, a))) ∧
    (command = "connectaggregator" →
      run = (run_aggregator turns ;; mret tt) a ∧
      (cfg.(g_mqtt_broker_addr) = "" → run.1 = Exit 1 ∧ run.2.(a_world) = a.(a_world))) ∧
    (command ∉ ["client"; "server"; "connectaggregator"] → run = (Exit 1, a))).
Proof.
  intros run cfg. pose proof (main_refused turns args f command Hkong) as Hbad. fold run in Hbad.
  split_and!.
  - intros Hl. rewrite Hl in Hbad. destruct (Hbad eq_refl) as [-> ->]. done.
  - intros Hl Hv. rewrite Hl, Hv in Hbad. destruct (Hbad eq_refl) as [-> ->]. done.
  - intros Hl Hv. destruct (main_configured turns args f command Hkong Hl Hv) as [t Ht]. fold run in Ht.
    exists t. intros a. fold a in Ht. rewrite Ht. unfold dispatch, mbind, M_bind, getS.
    change (p_config (a_program a)) with cfg. split_and!.
    + intros ->. split; [done|]. intros Hno. simpl. unfold in_world. by rewrite run_client_refuses.
    + intros ->. split; [done|]. intros Hno. simpl. unfold in_world. by rewrite run_server_refuses.
    + intros ->. split; [done|]. intros Hno. simpl. by rewrite run_aggregator_refuses.
    + rewrite !not_elem_of_cons. intros (H1 & H2 & H3 & _). by rewrite !bool_decide_eq_false_2.
Qed.
End start.

(** The example of the aggregator's command line; and the client runs. *)
Lemma main_dispatches_witness :
  valid_flags demo_client_flags = true ∧
  ∃ t, main 0 (init_aggregator demo_args) =
    (in_world (run_client (apply_flags env_int_bits demo_client_flags default_config) "" 0) ;; mret tt)
      (configured demo_args demo_client_flags t).
Proof.
  split; [by vm_compute|].
  destruct (main_dispatches 0 demo_args demo_client_flags "client" (demo_kong_parse _))
    as (_ & _ & H).
  destruct (H ltac:(by vm_compute) ltac:(by vm_compute)) as (t & Hc & _).
  exists t. exact (proj1 (Hc eq_refl)).
Defined.
