(* ===== verification/Delivery.v ===== *)
(** * What the readers make of any reads

    A session is a byte stream ([SetStreamMode(true)]): what one write puts in
    may come out of the other end in pieces or together with other writes.  So
    nothing is assumed here of the reads: [deliver] gives the readers of the
    server an arbitrary list of reads, [receive_all] those of the client. *)
From stdpp Require Import base gmap sets list strings.
From Stdlib Require Import ZArith Lia.
From S2P Require Import Prelude GoFloat GoNet IpHosts Network Ring World Session Wire FlowKey Client.
From S2P Require Import ClientLoops ClientSpec Server ServerSpec ServerInv ServerProps.
#[local] Open Scope Z_scope.

(** The writes to tun devices. *)
Definition tunnelling (e : event) : option (handle * list Z) :=
  match e with EvTunWrite tun data => Some (tun, data) | _ => None end.

(** The id a read makes the server take down, and the packet it makes an end
    forward to its device. *)
Definition names_down (data : list Z) : option Z :=
  match server_classify data with Linkdown k => Some k | _ => None end.
Definition packet_of (m : message) : option (list Z) :=
  match m with Data p => Some p | _ => None end.
Definition server_packet (data : list Z) : option (list Z) := packet_of (server_classify data).
Definition client_packet (data : list Z) : option (list Z) := packet_of (client_classify data).

Lemma client_packet_eq data p : client_packet data = Some p → p = data.
Proof. unfold client_packet, client_classify. destruct (is_hello data); simpl; congruence. Qed.
Lemma server_packet_eq data p : server_packet data = Some p → p = data.
Proof.
  unfold server_packet, server_classify. destruct (is_hello data); [done|].
  destruct (_ && _); simpl; congruence.
Qed.

(** An IP packet crosses exactly as a read of its own. *)
Lemma packet_among (f : list Z → option (list Z)) p (reads : list (list Z)) :
  (∀ d q, f d = Some q → q = d) → f p = Some p → p ∈ omap f reads ↔ p ∈ reads.
Proof.
  intros Hf Hp. rewrite list_elem_of_omap. split; [intros (d & Hd & He); by rewrite (Hf _ _ He)|].
  intros H. by exists p.
Qed.

(** A report is the only read that names an id. *)
Lemma names_down_iff data k :
  bytes data → names_down data = Some k ↔ data = linkdown_message k ∧ 0 <= k < 2 ^ 16.
Proof.
  intros Hb. split.
  - unfold names_down, server_classify. destruct (is_hello data); [done|].
    destruct data as [|a [|b [|c [|? ?]]]]; simpl; rewrite ?andb_false_r, ?andb_false_l; try done.
    case_bool_decide as Ha; [|done]. intros [= <-]. subst a.
    apply Forall_cons in Hb as [_ [Hb [Hc _]%Forall_cons]%Forall_cons]. unfold Uint16.
    assert (0 <= b + 256 * c < 2 ^ 16) as Hr by lia. split; [|done].
    unfold linkdown_message, u16. rewrite Z.mod_small by done. unfold PutUint16. do 2 f_equal.
    + symmetry. rewrite Z.mul_comm, Z_mod_plus_full. by apply Z.mod_small.
    + f_equal. rewrite Z.mul_comm, Z.div_add, Z.div_small, Z.add_0_l by lia. symmetry. by apply Z.mod_small.
  - intros [-> Hk]. unfold names_down. rewrite server_classify_linkdown. unfold u16.
    by rewrite Z.mod_small.
Qed.

Section deliver.
Context {C : Consistent} {CL : ConsistentLaws C} {E : Env} {EL : EnvLaws E}.

(** *** The server *)

(** Reads of the server's readers, each with the id and the record of the
    connection whose reader it is. *)
Definition deliver (tid : Z) (ds : list (Z * loc * list Z)) : W unit :=
  for_each ds (λ d, server_receive tid d.1.1 d.1.2 d.2 ;; mret tt).

(** Every reader has its record. *)
Definition readers (ds : list (Z * loc * list Z)) (v : world) : Prop :=
  Forall (λ d, d.1.2 ∈ dom v.(w_cconns)) ds.

(** The tunnel is free, with the device [dev], which takes what it is given. *)
Definition receiving (tid : Z) (dev : option handle) (v : world) : Prop :=
  server_ok v ∧
  (∃ s, v.(g_client_list) !! tid = Some s ∧ s.(cl_locked) = false ∧ s.(cl_iface) = dev) ∧
  ∀ tun t data, dev = Some tun → env_tun_Write t tun data = None.

(** What the device is given. *)
Definition to_device (dev : option handle) (ps : list (list Z)) : list (handle * list Z) :=
  match dev with Some tun => pair tun <$> ps | None => [] end.

(** The effect of the reads [reads] on the state of the server. *)
Definition received (tid : Z) (dev : option handle) (reads : list (list Z)) (v v' : world) : Prop :=
  receiving tid dev v' ∧ dom v'.(w_cconns) = dom v.(w_cconns) ∧
  dom (peers v' tid) = dom (peers v tid) ∖ list_to_set (omap names_down reads) ∧
  (∀ t, t ≠ tid → peers v' t = peers v t) ∧
  seen tunnelling v' = seen tunnelling v ++ to_device dev (omap server_packet reads).

Lemma received_trans tid dev ds1 ds2 v1 v2 v3 :
  received tid dev ds1 v1 v2 → received tid dev ds2 v2 v3 → received tid dev (ds1 ++ ds2) v1 v3.
Proof.
  intros (_ & Hd1 & Hp1 & Ho1 & Ht1) (Hr & Hd2 & Hp2 & Ho2 & Ht2). split_and!; [done| | | |].
  - by rewrite Hd2.
  - rewrite Hp2, Hp1, omap_app, list_to_set_app_L. apply set_eq. set_solver.
  - intros t Ht. by rewrite Ho2, Ho1.
  - rewrite Ht2, Ht1, <- app_assoc. f_equal. rewrite omap_app. destruct dev; simpl; [|done].
    by rewrite fmap_app.
Qed.

(** Only a record has been updated. *)
Definition touched (v w : world) : Prop :=
  server_ok w ∧ w.(g_client_list) = v.(g_client_list) ∧ dom w.(w_cconns) = dom v.(w_cconns) ∧
  (∀ t, peers w t = peers v t) ∧ w.(w_trace) = v.(w_trace).

Lemma wp_touch l f v w (Q : unit → world → Prop) :
  (∀ c, (f c).(cc_convid) = c.(cc_convid) ∧ (f c).(cc_session) = c.(cc_session)) →
  touched v w → l ∈ dom v.(w_cconns) → (∀ w', touched v w' → Q tt w') → wp (upd_cconn l f) Q w.
Proof.
  intros Hf (H1 & H2 & H3 & H4 & H5) Hl HQ. rewrite <- H3 in Hl. apply elem_of_dom in Hl as [c Hc].
  destruct (Hf c) as [Hf1 Hf2]. eapply (wp_upd_cconn _ c); [exact Hc|]. apply HQ.
  destruct (upd_cconn_ok l c (f c) w H1 Hc Hf1 Hf2) as [H6 H7].
  split_and!; [done|done| | |done].
  - rewrite <- H3. simpl. apply dom_insert_lookup_L. by eexists.
  - intros t. by rewrite H7.
Qed.

Lemma touched_tick v w : touched v w → touched v (w <| w_tick ::= S |>).
Proof. intros ([H1 H1'] & H). split; [by split|done]. Qed.

Lemma touched_received tid dev reads v w :
  omap names_down reads = [] → omap server_packet reads = [] →
  receiving tid dev v → touched v w → received tid dev reads v w.
Proof.
  intros Hn Hp (_ & Hs & Hwr) (H1 & H2 & H3 & H4 & H5). unfold received, receiving, seen.
  rewrite Hn, Hp, H2, H5, H4. split_and!; try done.
  - simpl. set_solver.
  - destruct dev; by rewrite app_nil_r.
Qed.

Lemma disconnect_received tid dev s k data v w1 w2 :
  names_down data = Some k → server_packet data = None →
  receiving tid dev v → v.(g_client_list) !! tid = Some s → s.(cl_iface) = dev → touched v w1 →
  after_disconnect tid k false s w1 w2 → received tid dev [data] v w2.
Proof.
  intros Hn Hp (_ & _ & Hwr) Hs Hdev (H1 & H2 & H3 & H4 & H5) Hd.
  assert (w1.(g_client_list) !! tid = Some s) as Hs1 by by rewrite H2.
  destruct (after_disconnect_removed tid k s w1 w2 H1 Hs1 Hd) as (Hok & _ & Hpeers & Ho & (Hh & _) & Htr).
  assert (∃ s', w2.(g_client_list) !! tid = Some s' ∧ s'.(cl_locked) = false ∧ s'.(cl_iface) = dev) as Hs2.
  { destruct Hd as [_ Hd]. destruct (peers w1 tid !! k); destruct Hd as [-> _];
      rewrite lookup_insert_eq; by eexists. }
  unfold received. split_and!; [by split_and!| | | |].
  - by rewrite Hh, H3.
  - rewrite Hpeers, dom_delete_L, H4. simpl. rewrite Hn. simpl. set_solver.
  - intros t Ht. by rewrite Ho, H4.
  - rewrite (seen_trace tunnelling w1 w2 _ Htr). unfold seen. rewrite H5. simpl. rewrite Hp.
    f_equal. destruct (peers w1 tid !! k), dev; done.
Qed.

Lemma forwarded_received tid tun data v w t :
  names_down data = None → server_packet data = Some data →
  receiving tid (Some tun) v → touched v w →
  received tid (Some tun) [data] v
    (w <| w_trace ::= (λ l, l ++ [EvTunWrite tun data]) |> <| w_tick := t |>).
Proof.
  intros Hn Hp (_ & Hs & Hwr) ([H1 H1'] & H2 & H3 & H4 & H5). unfold received, receiving.
  rewrite <- H2 in Hs. split_and!; try done.
  - simpl. rewrite Hn. simpl. rewrite difference_empty_L. f_equal. exact (H4 tid).
  - intros t' _. exact (H4 t').
  - unfold seen. simpl. by rewrite omap_app, H5, Hp.
Qed.

(** One read. *)
Lemma wp_server_receive tid dev convid l data v :
  receiving tid dev v → l ∈ dom v.(w_cconns) →
  wp (server_receive tid convid l data) (λ r v', r = true ∧ received tid dev [data] v v') v.
Proof.
  intros Hrec Hl. pose proof Hrec as (Hok & (s & Hs & Hlock & Hdev) & Hwrite).
  unfold server_receive. wp_step. wp_step. wp_step.
  eapply (wp_touch l _ v); [by intros []|by apply touched_tick; split_and!|done|]. intros w1 H1.
  assert (names_down data = match server_classify data with Linkdown k => Some k | _ => None end) as Hn by done.
  assert (server_packet data = packet_of (server_classify data)) as Hp by done.
  destruct (server_classify data) as [|k|p]; simpl in Hp.
  - wp_steps. eapply (wp_touch l _ v); [by intros []|by apply touched_tick|done|]. intros w2 H2.
    wp_steps. split; [done|]. apply touched_received; simpl; by rewrite ?Hn, ?Hp.
  - wp_step. pose proof H1 as (Hok1 & Hc1 & _).
    eapply wp_mono; [apply (wp_server_disconnect tid k s); [done|by rewrite Hc1|done]|].
    intros [] w2 Hd. wp_steps. split; [done|]. by eapply disconnect_received.
  - pose proof (server_packet_eq _ _ Hp) as ->. pose proof H1 as (Hok1 & Hc1 & _).
    wp_step. eapply wp_get_client; [by rewrite Hc1|]. rewrite Hdev. destruct dev as [tun|].
    + wp_steps. rewrite (Hwrite tun) by done. wp_steps. split; [done|]. by eapply forwarded_received.
    + wp_steps. split; [done|]. destruct H1 as (H1 & H2 & H3 & H4 & H5).
      unfold received, receiving, seen. rewrite H2, H5, H4. split_and!; try done; [by exists s| |].
      * simpl. rewrite Hn. set_solver.
      * by rewrite app_nil_r.
Qed.

(** Any reads. *)
Lemma wp_deliver tid dev ds v :
  receiving tid dev v → readers ds v → wp (deliver tid ds) (λ _ v', received tid dev ds.*2 v v') v.
Proof.
  unfold deliver. revert v. induction ds as [|d ds IH]; intros v Hrec Hr; simpl.
  - wp_steps. apply touched_received; try done. split_and!; try done. by destruct Hrec.
  - apply Forall_cons in Hr as [Hd Hr]. wp_step. wp_step.
    eapply wp_mono; [by apply (wp_server_receive tid dev)|]. intros r v1 [-> Hv1]. wp_steps.
    pose proof Hv1 as (Hrec1 & Hdom1 & _).
    eapply wp_mono; [apply (IH v1); [done|unfold readers; by rewrite Hdom1]|].
    intros [] v2 Hv2. by apply (received_trans tid dev [d.2] ds.*2 v v1 v2).
Qed.

(** The report of [k] and a hello in one read: no peer goes, and the bytes of both
    are given to the device as if they were a packet. *)
Theorem merged_report_lost (tid : Z) (dev : option handle) (convid : Z) (l : loc) (k : Z) (v : world)
    (Hrec : receiving tid dev v) (Hl : l ∈ dom v.(w_cconns)) :
  ∃ v', server_receive tid convid l (linkdown_message k ++ g_hello) v = (Ret true, v') ∧
    dom (peers v' tid) = dom (peers v tid) ∧
    seen tunnelling v' = seen tunnelling v ++ to_device dev [linkdown_message k ++ g_hello].
Proof.
  destruct (wp_server_receive tid dev convid l (linkdown_message k ++ g_hello) v Hrec Hl)
    as (r & v' & Hrun & -> & _ & _ & Hdom & _ & Hseen).
  exists v'. split_and!; [done| |exact Hseen]. rewrite Hdom. simpl. by rewrite difference_empty_L.
Qed.

(** *** The client *)

(** Reads of the client's readers, each with the record of its connection. *)
Definition receive_all (tid : Z) (ds : list (loc * list Z)) : W unit :=
  for_each ds (λ d, client_receive tid d.1 d.2).

Lemma wp_client_receive tid dev l data w s c :
  w.(g_server_list) !! tid = Some s → s.(sv_iface) = dev → w.(w_sconns) !! l = Some c →
  wp (client_receive tid l data) (λ _ w', w'.(g_server_list) = w.(g_server_list) ∧
    dom w'.(w_sconns) = dom w.(w_sconns) ∧
    seen tunnelling w' = seen tunnelling w ++ to_device dev (omap client_packet [data])) w.
Proof.
  intros Hs Hdev Hc. assert (∀ c', dom (<[l:=c']> w.(w_sconns)) = dom w.(w_sconns)) as Hdom.
  { intros c'. apply dom_insert_lookup_L. by eexists. }
  assert (omap client_packet [data] = option_list (packet_of (client_classify data))) as Hp.
  { simpl. fold (client_packet data). by destruct (client_packet data). }
  unfold client_receive. wp_steps. unfold client_classify in *. rewrite Hp. destruct (is_hello data); wp_steps.
  - simpl. rewrite insert_insert_eq, Hdom. split_and!; [done..|]. destruct dev; by rewrite app_nil_r.
  - rewrite Hdev. destruct dev as [tun|]; wp_steps; simpl; rewrite Hdom; split_and!; try done.
    + unfold seen. simpl. by rewrite omap_app.
    + by rewrite app_nil_r.
Qed.

(** The reads go to the device, except the hellos. *)
Lemma wp_receive_all tid dev ds w :
  (∃ s, w.(g_server_list) !! tid = Some s ∧ s.(sv_iface) = dev) →
  Forall (λ d, d.1 ∈ dom w.(w_sconns)) ds →
  wp (receive_all tid ds) (λ _ w', w'.(g_server_list) = w.(g_server_list) ∧
    seen tunnelling w' = seen tunnelling w ++ to_device dev (omap client_packet ds.*2)) w.
Proof.
  unfold receive_all. intros (s & Hs & Hdev).
  enough (∀ w0, w0.(g_server_list) = w.(g_server_list) →
    Forall (λ d, d.1 ∈ dom w0.(w_sconns)) ds →
    wp (for_each ds (λ d, client_receive tid d.1 d.2)) (λ _ w', w'.(g_server_list) = w.(g_server_list) ∧
      seen tunnelling w' = seen tunnelling w0 ++ to_device dev (omap client_packet ds.*2)) w0) as H
    by by apply H.
  induction ds as [|d ds IH]; intros w0 Hw0 Hr; simpl.
  - wp_steps. split; [done|]. destruct dev; by rewrite app_nil_r.
  - apply Forall_cons in Hr as [[c Hc]%elem_of_dom Hr]. wp_step.
    eapply wp_mono; [apply (wp_client_receive tid dev _ _ w0 s c); [by rewrite Hw0|done|done]|].
    intros [] w1 (H1 & H2 & H3). eapply wp_mono; [apply IH; [congruence|by rewrite H2]|].
    intros [] w2 [H4 H5]. split; [done|]. rewrite H5, H3, <- app_assoc. f_equal.
    simpl. destruct dev; [|done]. simpl. by destruct (client_packet d.2).
Qed.
End deliver.
