(* ===== verification/System.v ===== *)
(** * The two ends together

    A tunnel joins a client and a server, two processes, each with its own state
    and its own outside.  [seen writing] is what an end has written to its
    sessions, [written] the messages alone.  Between the ends nothing is assumed:
    the theorems hold for all reads of the other end ([deliver], [receive_all]). *)
From stdpp Require Import base gmap sets list strings.
From Stdlib Require Import ZArith Lia.
From S2P Require Import Prelude GoFloat GoNet IpHosts Network Ring World Session Wire FlowKey Client.
From S2P Require Import ClientLoops ClientSpec ClientDisconnect ClientConnect ClientInv Demo ClientTraffic.
From S2P Require Import Server ServerSpec ServerInv DemoServer ServerProps ServerTraffic Delivery.
#[local] Open Scope Z_scope.

(** ** What an end writes *)

(** The writes to KCP sessions. *)
Definition writing (e : event) : option (handle * list Z) :=
  match e with EvKcpWrite kcp data => Some (kcp, data) | _ => None end.

Section reports.
Context {C : Consistent} {CL : ConsistentLaws C} {E : Env} {EL : EnvLaws E} {P : HeaderParser}.
Context (cfg : config).

(** The messages alone. *)
Definition written (w : world) : list (list Z) := (seen writing w).*2.

Lemma written_trace w w' evs :
  w'.(w_trace) = w.(w_trace) ++ evs → written w' = written w ++ (omap writing evs).*2.
Proof. intros H. unfold written. by rewrite (seen_trace writing w w' evs H), fmap_app. Qed.

(** Closing a connection writes nothing. *)
Lemma silent_close ws tid l k : preserves (sees writing ws) (client_close_connection tid l k).
Proof. unfold client_close_connection, rat_Close. preserve. Qed.

(** A link of [tid] that fails [test]. *)
Definition survivor (tid : Z) (test : Z → link → bool) (w : world) : Prop :=
  ∃ k lk, links w tid !! k = Some lk ∧ test k lk = false.

(** The reports [ks] a disconnect makes between [w0] and [w]: no link twice,
    only links that are gone, and all of them when a link survives. *)
Definition reported (tid : Z) (test : Z → link → bool) (w0 w : world) : Prop :=
  ∃ ks : list Z, written w = written w0 ++ (linkdown_message <$> ks) ∧ NoDup ks ∧
    (list_to_set ks : gset Z) ⊆ dom (links w0 tid) ∖ dom (links w tid) ∧
    (survivor tid test w0 → list_to_set ks = dom (links w0 tid) ∖ dom (links w tid)).

Lemma reported_close tid test k l s c w0 w w1 w2 :
  client_ok w → w.(g_server_list) !! tid = Some s → sv_conns s !! k = Some l →
  w.(w_sconns) !! l = Some c → dom (links w tid) ⊆ dom (links w0 tid) →
  closed tid k l s c w w1 → written w1 = written w → quiet w1 w2 →
  written w2 = written w1 ++ [linkdown_message k] ∨
    (written w2 = written w1 ∧ ¬ survivor tid test w0) →
  reported tid test w0 w → reported tid test w0 w2.
Proof.
  intros Hok Hs Hk Hc Hsub Hcl H1 Hq H2 (ks & Hw & Hnd & Hks & Hall).
  assert (k ∈ dom (links w tid)) as Hin.
  { apply elem_of_dom. eexists. by eapply listed_link. }
  assert (dom (links w2 tid) = dom (links w tid) ∖ {[k]}) as Hdom.
  { by rewrite (quiet_links w1 w2 tid Hq), (closed_links tid k l s c w w1), dom_delete_L by done. }
  unfold reported. rewrite Hdom. destruct H2 as [H2|[H2 Hno]].
  - exists (ks ++ [k]). rewrite list_to_set_app_L. split_and!.
    + by rewrite H2, H1, Hw, fmap_app, app_assoc.
    + apply NoDup_app. split_and!; [done| |apply NoDup_singleton].
      intros x Hx%(elem_of_list_to_set (C := gset Z)). set_solver.
    + set_solver.
    + intros Hsv. rewrite (Hall Hsv). apply set_eq. intros x. destruct (decide (x = k)) as [->|]; set_solver.
  - exists ks. split_and!; [by rewrite H2, H1|done|set_solver|done].
Qed.

(** A link-down message is written whenever a connection is left. *)
Lemma wp_linkdown_written tid k s w :
  client_ok w → w.(g_server_list) !! tid = Some s →
  wp (client_send_linkdown_message cfg tid k)
    (λ _ w', quiet w w' ∧ seen closing w' = seen closing w ∧
      (written w' = written w ++ [linkdown_message k] ∨
       written w' = written w ∧ sv_conns s = ∅)) w.
Proof.
  intros Hok Hs. destruct (wp_linkdown_closes_none cfg tid k s w Hok Hs) as ([] & w' & Hrun & Hq & Hcl).
  exists tt, w'. split_and!; [done..|].
  destruct (linkdown_sent cfg tid k s w Hok Hs) as (w2 & Hrun2 & Hnone & Hsent).
  assert (w2 = w') as -> by congruence.
  destruct (decide (sv_conns s = ∅)) as [He|Hne]; [right; by rewrite (Hnone He)|left].
  destruct (Hsent Hne) as (k' & l & kcp & t & _ & _ & Htr). by apply written_trace in Htr.
Qed.

(** The surviving link is there throughout. *)
Lemma survivor_conns tid s0 test w0 keys w s :
  disconnecting tid s0 test w0 keys w → w.(g_server_list) !! tid = Some s →
  survivor tid test w0 → sv_conns s ≠ ∅.
Proof.
  intros HJ Hs (k & lk & Hk & Ht) He.
  assert (links w tid !! k = Some lk) as Hlk.
  { rewrite (dis_links _ _ _ _ _ _ HJ). apply map_lookup_filter_Some. simpl. by split; [|left]. }
  rewrite (links_lookup w tid s) in Hlk by done. by rewrite He in Hlk.
Qed.

(** One connection that satisfies the test: closed, removed and reported. *)
Lemma wp_disconnect_reported tid s test w k keys w1 s1 l c :
  disconnecting tid s test w (k :: keys) w1 → reported tid test w w1 →
  w1.(g_server_list) !! tid = Some s1 → sv_conns s1 !! k = Some l →
  w1.(w_sconns) !! l = Some c → test k (link_of c) = true →
  wp (client_close_connection tid l k ;; client_send_linkdown_message cfg tid k)
    (λ _ w', disconnecting tid s test w keys w' ∧ reported tid test w w') w1.
Proof.
  intros HJ HR Hs1 Hk Hc Ht. pose proof (dis_ok _ _ _ _ _ _ HJ) as Hok1.
  wp_step. eapply wp_mono; [apply (wp_preserves (sees writing (seen writing w1)));
    [by apply wp_close|apply silent_close|done]|].
  intros [] w2 [Hcl Hw2]. simpl in Hcl.
  assert (disconnecting tid s test w keys w2) as HJ2 by by eapply disconnecting_close.
  pose proof (closed_server tid k l s1 c w1 w2 Hcl) as Hs2.
  eapply wp_mono; [eapply wp_linkdown_written; [exact (dis_ok _ _ _ _ _ _ HJ2)|done]|].
  intros [] w3 (Hq & Hseen & Hw3). split; [by eapply quiet_disconnecting|].
  eapply (reported_close tid test k l s1 c w w1 w2 w3); try done.
  - rewrite (dis_links _ _ _ _ _ _ HJ). apply subseteq_dom, map_filter_subseteq.
  - unfold written. by rewrite Hw2.
  - destruct Hw3 as [Hw3|[Hw3 Hempty]]; [by left|right]. split; [done|]. intros Hsv.
    by eapply survivor_conns.
Qed.

Lemma wp_disconnect_where' tid ctest test s w :
  (∀ c, ctest c = test c.(sc_convid) (link_of c)) →
  client_ok w → w.(g_server_list) !! tid = Some s →
  wp (client_disconnect_where cfg tid ctest)
    (λ _ w', disconnecting tid s test w [] w' ∧ reported tid test w w') w.
Proof.
  intros Htest Hok Hs. unfold client_disconnect_where. wp_steps.
  apply (wp_for_each _ _ (λ keys w', disconnecting tid s test w keys w' ∧ reported tid test w w')).
  - intros k keys w1 [HJ HR]. pose proof (dis_ok _ _ _ _ _ _ HJ) as Hok1.
    destruct (dis_server _ _ _ _ _ _ HJ) as [s1 Hs1]. wp_steps.
    destruct (sv_conns s1 !! k) as [l|] eqn:Hk.
    + destruct (listed_conn w1 tid s1 k l Hok1 Hs1 Hk) as (c & Hc & Hck & _).
      wp_steps. rewrite Htest, Hck. apply wp_whenM; intros Ht.
      * by eapply wp_disconnect_reported.
      * split; [|done]. eapply disconnecting_skip; [done|]. intros lk Hlk.
        rewrite (listed_link w1 tid s1 k l c) in Hlk by done. by simplify_eq.
    + wp_steps. split; [|done]. eapply disconnecting_skip; [done|].
      intros lk Hlk. by rewrite (unlisted_link w1 tid s1 k) in Hlk by done.
  - split; [by apply disconnecting_start|]. exists []. rewrite app_nil_r.
    rewrite difference_diag_L. split_and!; [done|apply NoDup_nil_2|done|done].
Qed.

Lemma wp_disconnect_reports tid ctest test w :
  (∀ c, ctest c = test c.(sc_convid) (link_of c)) →
  client_ok w → unlocked w tid →
  wp (lock_server tid ;; client_disconnect_where cfg tid ctest ;; unlock_server tid)
    (λ _ w', client_ok w' ∧ links w' tid = filter (λ x, test x.1 x.2 = false) (links w tid) ∧
      reported tid test w w') w.
Proof.
  intros Htest Hok (s & Hs & Hl). wp_step. eapply wp_lock_server; [done..|].
  destruct (relock tid s true w Hok Hs) as [Hok1 Hlk1].
  match goal with |- wp _ _ ?x => set (w1 := x) in * end.
  assert (w1.(g_server_list) !! tid = Some (s <| sv_locked := true |>)) as Hs1
    by (simpl; by rewrite lookup_insert_eq).
  wp_step. eapply wp_mono; [apply (wp_disconnect_where' tid ctest test _ w1 Htest Hok1 Hs1)|].
  intros [] w2 ([H1 _ _ [s2 Hs2] H4 _ _ _ _] & ks & Hw & Hnd & Hks & Hall).
  eapply wp_unlock_server; [done|].
  destruct (relock tid s2 false w2 H1 Hs2) as [Hok3 Hlk3].
  split; [done|]. rewrite Hlk3, H4, Hlk1. split.
  - apply map_filter_ext. intros k lk _. simpl. set_solver.
  - unfold reported, survivor in *. rewrite Hlk3. rewrite Hlk1 in Hks, Hall.
    exists ks. split_and!; [exact Hw|done..].
Qed.
End reports.

Section system.
Context {C : Consistent} {CL : ConsistentLaws C} (Ec Es : Env) {ELc : EnvLaws Ec} {ELs : EnvLaws Es}.
Context {P : HeaderParser} {PL : HeaderParserLaws P} (cfg : config).

(** Both ends list the same connections of the tunnel. *)
Definition in_step (tid : Z) (w v : world) : Prop := dom (links w tid) = dom (peers v tid).

Lemma links_range w tid : client_ok w → Forall (λ k, 0 <= k < 2 ^ 16) (elements (dom (links w tid))).
Proof.
  intros Hok. apply Forall_forall. intros k Hk. apply elem_of_elements, elem_of_dom in Hk as [lk Hk].
  unfold links in Hk. destruct (g_server_list w !! tid) as [s|] eqn:Hs; [|done].
  apply lookup_omap_Some in Hk as (l & _ & Hl).
  pose proof (ok_keys _ _ _ (ok_tunnels _ Hok _ _ Hs) k l Hl). simpl in *. lia.
Qed.

(** Which ids the reports in [reads] name, among those of the client. *)
Lemma named_down w tid reads k :
  client_ok w → Forall bytes reads → k ∈ dom (links w tid) →
  k ∈ (list_to_set (omap names_down reads) : gset Z) ↔ linkdown_message k ∈ reads.
Proof.
  intros Hok Hb Hk. rewrite elem_of_list_to_set, list_elem_of_omap.
  assert (0 <= k < 2 ^ 16) as Hr.
  { apply (proj1 (Forall_forall _ _) (links_range w tid Hok)). by apply elem_of_elements. }
  split.
  - intros (d & Hd & Hn). apply names_down_iff in Hn as [-> _]; [done|].
    by apply (proj1 (Forall_forall _ _) Hb).
  - intros Hd. exists (linkdown_message k). split; [done|].
    apply names_down_iff; [|done]. by apply (proj1 (Forall_forall _ _) Hb).
Qed.

Lemma agree_iff (X Y S : gset Z) : Y ⊆ X → Y = X ∖ S ↔ ∀ k, k ∈ X → (k ∈ S ↔ k ∉ Y).
Proof.
  intros Hsub. rewrite set_eq. split; intros H k.
  - intros Hk. rewrite (H k), elem_of_difference. destruct (decide (k ∈ S)); tauto.
  - rewrite elem_of_difference. specialize (H k). specialize (Hsub k).
    destruct (decide (k ∈ Y)), (decide (k ∈ S)); tauto.
Qed.

(** C4: how the two ends agree on the connections of a tunnel.  When an interface
    goes down the client takes exactly its links down, and writes a report for
    each at most once, for each of them if a link on another interface is left.
    Whatever the server's readers then read, in pieces, merged, lost or repeated,
    as long as its tun device takes what it is given, the server stays consistent,
    and the two ends list the same connections again exactly when the link-down
    reports among the reads, each as a read of its own, are those of the links that
    are gone. *)
Theorem ends_stay_in_step (tid : Z) (ifname : string) (dev : option handle) (w v : world)
    (Hw : client_ok w) (Hwl : unlocked w tid) (Hv : receiving (E := Es) tid dev v)
    (Hstep : in_step tid w v) :
  ∃ w' ks, client_disconnect_session_by_ifname (E := Ec) cfg tid ifname w = (Ret tt, w') ∧
    (∀ k lk, links w' tid !! k = Some lk ↔ links w tid !! k = Some lk ∧ lk.(l_ifname) ≠ ifname) ∧
    written w' = written w ++ (linkdown_message <$> ks) ∧ NoDup ks ∧
    (∀ k, k ∈ ks → k ∈ dom (links w tid) ∧ k ∉ dom (links w' tid)) ∧
    (links w' tid ≠ ∅ → ∀ k, k ∈ dom (links w tid) → k ∉ dom (links w' tid) → k ∈ ks) ∧
    ∀ ds, readers ds v → Forall bytes ds.*2 →
      ∃ v', deliver (E := Es) tid ds v = (Ret tt, v') ∧ server_ok v' ∧
        (in_step tid w' v' ↔ ∀ k, k ∈ dom (links w tid) →
          (linkdown_message k ∈ ds.*2 ↔ k ∉ dom (links w' tid))).
Proof.
  pose proof Hwl as (s & Hs & _).
  destruct (wp_disconnect_reports (E := Ec) cfg tid (λ c, bool_decide (c.(sc_ifname) = ifname))
    (λ _ lk, bool_decide (lk.(l_ifname) = ifname)) w (λ _, eq_refl) Hw Hwl)
    as ([] & w' & Hrun & Hw' & Hlinks & ks & Hmsgs & Hnd & Hks & Hall).
  assert (∀ k lk, links w' tid !! k = Some lk ↔
    links w tid !! k = Some lk ∧ lk.(l_ifname) ≠ ifname) as Hiff.
  { intros k lk. rewrite Hlinks, map_lookup_filter_Some. simpl.
    by rewrite <- not_true_iff_false, bool_decide_eq_true. }
  exists w', ks. split_and!; [|done..| | |].
  - unfold client_disconnect_session_by_ifname, getS, mbind, M_bind. by rewrite Hs.
  - intros k Hk%(elem_of_list_to_set (C := gset Z)). by apply Hks, elem_of_difference in Hk.
  - intros (k0 & lk0 & [Hk0 Hlk0]%Hiff)%map_choose k Hk Hk'.
    apply (elem_of_list_to_set (C := gset Z)). rewrite Hall; [by apply elem_of_difference|].
    exists k0, lk0. split; [done|]. by apply bool_decide_eq_false_2.
  - intros ds Hr Hb. destruct (wp_deliver (E := Es) tid dev ds v Hv Hr)
      as ([] & v' & Hdel & (Hv' & _) & _ & Hdom & _). exists v'. split_and!; [done|done|].
    assert (dom (links w' tid) ⊆ dom (links w tid)) as Hsub
      by (rewrite Hlinks; apply subseteq_dom, map_filter_subseteq).
    unfold in_step. rewrite Hdom, <- Hstep, agree_iff by done.
    by split; intros H k Hk; [rewrite <- (named_down w) by done|rewrite (named_down w) by done]; apply H.
Qed.

(** KCP accepts what it is given, on live sessions. *)
Definition kcp_up (E : Env) : Prop :=
  (∀ t kcp, env_kcp_GetState t kcp ≠ kcp_dead) ∧ ∀ t kcp data, env_kcp_Write t kcp data = None.

(** A tunnel with its tun device and connections, at the client. *)
Record client_up (tid : Z) (tun : handle) (w : world) : Prop := {
  up_ok : client_ok w;
  up_tunnel : ∃ s, w.(g_server_list) !! tid = Some s ∧ s.(sv_locked) = false ∧
    s.(sv_iface) = Some tun ∧ sv_conns s ≠ ∅
}.

(** The same at the server, where an id is an [int]. *)
Record server_up (tid : Z) (tun : handle) (v : world) : Prop := {
  sup_ok : server_ok v;
  sup_tunnel : ∃ s, v.(g_client_list) !! tid = Some s ∧ s.(cl_locked) = false ∧
    s.(cl_iface) = Some tun ∧ cl_conns s ≠ ∅ ∧ small_ids s
}.

(** [kcp] is the session of the connection [k] the client lists. *)
Definition session_at (w : world) (tid k : Z) (kcp : handle) : Prop :=
  ∃ s l, w.(g_server_list) !! tid = Some s ∧ sv_conns s !! k = Some l ∧ kcp_of w l kcp.

(** C6: the tunnel carries IP packets transparently, in both directions, while
    the sessions are alive and KCP and the devices take what they are given.  A
    packet that one end reads from its tun interface it writes once, unchanged, to
    the session of one of its connections, and nothing else.  Whatever the other
    end's readers read, in whichever connections, all reads but the control
    messages go to its own tun interface, unchanged and in order; so the packet
    comes out exactly when a read returns it. *)
Theorem packet_crosses_tunnel (tid ctun stun : Z) (buffer data : list Z) (w v : world)
    (Hcfg : cfg.(g_use_consistent_hashing) = true) (Hc : kcp_up Ec) (Hs : kcp_up Es)
    (Hw : client_up tid ctun w) (Hv : server_up tid stun v)
    (Hip : ip_packet data) (Hlen : Z.of_nat (length data) <= 65535) (Hbuf : packet_buffer buffer)
    (Htun : ∀ t p, env_tun_Write (Env := Es) t stun p = None) :
  (env_tun_Read (Env := Ec) w.(w_tick) ctun = inl data →
   ∃ w' k kcp, client_handle_tun_turn (E := Ec) cfg tid buffer w = (Ret (Some (read_into buffer data)), w') ∧
     session_at w tid k kcp ∧ seen writing w' = seen writing w ++ [(kcp, data)] ∧
     ∀ ds, readers ds v →
       ∃ v', deliver (E := Es) tid ds v = (Ret tt, v') ∧
         seen tunnelling v' = seen tunnelling v ++ (pair stun <$> omap server_packet ds.*2) ∧
         (data ∈ omap server_packet ds.*2 ↔ data ∈ ds.*2)) ∧
  (env_tun_Read (Env := Es) v.(w_tick) stun = inl data →
   ∃ v' k kcp, server_handle_tun_turn (E := Es) cfg tid buffer v = (Ret (read_into buffer data), v') ∧
     peers v tid !! k = Some kcp ∧ seen writing v' = seen writing v ++ [(kcp, data)] ∧
     ∀ ds, Forall (λ d, d.1 ∈ dom w.(w_sconns)) ds →
       ∃ w', receive_all (E := Ec) tid ds w = (Ret tt, w') ∧
         seen tunnelling w' = seen tunnelling w ++ (pair ctun <$> omap client_packet ds.*2) ∧
         (data ∈ omap client_packet ds.*2 ↔ data ∈ ds.*2)).
Proof.
  destruct Hw as [Hw (s & Hs1 & Hs2 & Hs3 & Hs4)], Hv as [Hv (c & Hc1 & Hc2 & Hc3 & Hc4 & Hc5)].
  destruct Hc as [Hca Hcw], Hs as [Hsa Hsw]. split; intros Hread.
  - destruct (tun_packet_forwarded (E := Ec) cfg tid buffer data s ctun w Hcfg Hw Hs1 Hs2 Hs3 Hs4
      Hbuf Hread Hlen Hca Hcw) as (w' & k & l & kcp & t & Hrun & _ & _ & Hk & Hkcp & Htr).
    exists w', k, kcp. split_and!; [exact Hrun|by exists s, l|by apply (seen_trace writing) in Htr|].
    intros ds Hr. destruct (wp_deliver (E := Es) tid (Some stun) ds v) as ([] & v' & Hdel & H).
    { split_and!; [done|by exists c|]. by intros ? ? ? [= <-]. }
    { done. }
    exists v'. split_and!; [done|apply H|]. apply packet_among; [exact server_packet_eq|].
    unfold server_packet. by rewrite (proj1 (packet_classified data Hip)).
  - assert (is_Some c.(cl_connections)) as Hsome.
    { unfold cl_conns in Hc4. destruct (cl_connections c); [by eexists|done]. }
    destruct (server_packet_forwarded (E := Es) cfg tid buffer data c stun v Hcfg Hv Hc1 Hc2 Hc3
      Hsome Hc5 Hbuf Hread Hlen Hsa Hsw) as (v' & Hrun & _ & _ & Htr).
    destruct (Htr Hc4) as (k & kcp & t & Hk & Htr'). exists v', k, kcp.
    split_and!; [exact Hrun|done|by apply (seen_trace writing) in Htr'|].
    intros ds Hr. destruct (wp_receive_all (E := Ec) tid (Some ctun) ds w) as ([] & w' & Hdel & _ & H).
    { by exists s. }
    { done. }
    exists w'. split_and!; [done|exact H|]. apply packet_among; [exact client_packet_eq|].
    unfold client_packet. by rewrite (proj2 (packet_classified data Hip)).
Qed.
End system.

(** ** Witnesses *)

Lemma demo_kcp_up : kcp_up demo_env.
Proof. by split. Qed.
Lemma demo_client_up : client_up 100 7 demo2.
Proof.
  split; [exact demo2_ok|]. exists demo_tunnel. split_and!.
  - exact demo_tunnel_lookup.
  - exact demo_tunnel_unlocked.
  - exact demo_tunnel_iface.
  - exact demo_conns_nonempty.
Qed.
Lemma demo_server_up : server_up 100 7 demo_srv.
Proof.
  split; [exact demo_srv_ok|]. exists demo_client. split_and!.
  - exact demo_client_lookup.
  - exact demo_client_unlocked.
  - exact demo_client_iface.
  - exact demo_client_nonempty.
  - unfold small_ids. intros k l Hl. rewrite demo_client_conns in Hl.
    apply lookup_insert_Some in Hl as [[<- _]|[_ Hl]]; [lia|].
    apply lookup_singleton_Some in Hl as [<- _]. lia.
Qed.
Lemma demo_server_unlocked : sunlocked demo_srv 100.
Proof. exists demo_client. split; [exact demo_client_lookup|exact demo_client_unlocked]. Qed.
Lemma demo_in_step : in_step 100 demo2 demo_srv.
Proof. unfold in_step. rewrite demo2_links, demo_srv_peers. vm_compute. reflexivity. Qed.

(** A server whose device takes what it is given. *)
Lemma demo_receiving : receiving 100 (Some 7) demo_srv.
Proof.
  split_and!; [exact demo_srv_ok| |done]. exists demo_client.
  split_and!; [exact demo_client_lookup|exact demo_client_unlocked|exact demo_client_iface].
Qed.

Lemma merged_report_lost_witness :
  ∃ v', server_receive 100 100 0 (linkdown_message 101 ++ g_hello) demo_srv = (Ret true, v') ∧
    dom (peers v' 100) = dom (peers demo_srv 100) ∧
    seen tunnelling v' = seen tunnelling demo_srv ++ to_device (Some 7) [linkdown_message 101 ++ g_hello].
Proof.
  apply (merged_report_lost 100 (Some 7) 100 0 101 demo_srv demo_receiving). vm_compute. reflexivity.
Defined.

(** Interface eth0 goes down; and the server reads one report and a hello. *)
Lemma ends_stay_in_step_witness :
  ∃ w' (ks : list Z), client_disconnect_session_by_ifname demo_cfg 100 "eth0" demo2 = (Ret tt, w') ∧
    (links w' 100 ≠ ∅ → ∀ k, k ∈ dom (links demo2 100) → k ∉ dom (links w' 100) → k ∈ ks) ∧
    ∃ v', deliver 100 [(100, 0%nat, linkdown_message 100); (100, 0%nat, g_hello)] demo_srv = (Ret tt, v') ∧
      server_ok v' ∧
      (in_step 100 w' v' ↔ ∀ k, k ∈ dom (links demo2 100) →
        (linkdown_message k ∈ [linkdown_message 100; g_hello] ↔ k ∉ dom (links w' 100))).
Proof.
  destruct (ends_stay_in_step demo_env demo_env demo_cfg 100 "eth0" (Some 7) demo2 demo_srv
    demo2_ok demo2_unlocked demo_receiving demo_in_step)
    as (w' & ks & H1 & _ & _ & _ & _ & H2 & H3).
  exists w', ks. split; [exact H1|]. split; [exact H2|].
  apply (H3 [(100, 0%nat, linkdown_message 100); (100, 0%nat, g_hello)]).
  - repeat constructor; vm_compute; reflexivity.
  - repeat constructor; vm_compute; (reflexivity || discriminate).
Defined.

Lemma packet_crosses_tunnel_witness :
  let data := 69 :: replicate 39 0 in
  (∃ w' k kcp, client_handle_tun_turn demo_cfg 100 demo_buffer demo2 =
       (Ret (Some (read_into demo_buffer data)), w') ∧
     session_at demo2 100 k kcp ∧ seen writing w' = seen writing demo2 ++ [(kcp, data)] ∧
     ∃ v', deliver 100 [(100, 0%nat, data)] demo_srv = (Ret tt, v') ∧
       seen tunnelling v' = seen tunnelling demo_srv ++ [(7, data)]) ∧
  (∃ v' k kcp, server_handle_tun_turn demo_cfg 100 demo_buffer demo_srv =
       (Ret (read_into demo_buffer data), v') ∧
     peers demo_srv 100 !! k = Some kcp ∧ seen writing v' = seen writing demo_srv ++ [(kcp, data)]).
Proof.
  destruct (packet_crosses_tunnel demo_env demo_env demo_cfg 100 7 7 demo_buffer
    (69 :: replicate 39 0) demo2 demo_srv eq_refl demo_kcp_up demo_kcp_up demo_client_up
    demo_server_up) as [H1 H2].
  - exists 69, (replicate 39 0). split; [reflexivity|left; reflexivity].
  - simpl. lia.
  - exact demo_buffer_ok.
  - done.
  - split.
    + destruct (H1 eq_refl) as (w' & k & kcp & Hrun & Hk & Hwr & Hds). exists w', k, kcp.
      split; [exact Hrun|]. split; [exact Hk|]. split; [exact Hwr|].
      destruct (Hds [(100, 0%nat, 69 :: replicate 39 0)]) as (v' & Hdel & Hdev & _).
      { repeat constructor; vm_compute; reflexivity. }
      exists v'. split; [exact Hdel|exact Hdev].
    + destruct (H2 eq_refl) as (v' & k & kcp & Hrun & Hk & Hwr & _). exists v', k, kcp.
      exact (conj Hrun (conj Hk Hwr)).
Defined.
