(* ===== verification/Chan.v ===== *)
(** * Buffered channels of Go

    [make(chan T, n)] as its capacity and the values in it, oldest first.  A send
    on a full channel and a receive on an empty one block: [None].  No channel of
    the program is ever closed.  *)
From stdpp Require Import base list option.
From S2P Require Import Prelude.

Section chan.
Context {T : Type}.

Record chan := mkChan { ch_cap : nat; ch_items : list T }.

Definition make_chan (n : nat) : chan := mkChan n [].

Definition ch_send (x : T) (c : chan) : option chan :=
  if bool_decide (length c.(ch_items) < c.(ch_cap))%nat
  then Some (mkChan c.(ch_cap) (c.(ch_items) ++ [x])) else None.

Definition ch_recv (c : chan) : option (T * chan) :=
  match c.(ch_items) with
  | [] => None
  | x :: items => Some (x, mkChan c.(ch_cap) items)
  end.

Definition chan_ok (c : chan) : Prop := (length c.(ch_items) ≤ c.(ch_cap))%nat.

Lemma make_chan_ok n : chan_ok (make_chan n).
Proof. unfold chan_ok. simpl. lia. Qed.

Lemma ch_send_Some x c c' :
  ch_send x c = Some c' →
  c'.(ch_cap) = c.(ch_cap) ∧ c'.(ch_items) = c.(ch_items) ++ [x] ∧ chan_ok c'.
Proof.
  unfold ch_send, chan_ok. case_bool_decide; [|done]. intros [= <-]. simpl.
  rewrite length_app. simpl. split_and!; [done|done|lia].
Qed.

Lemma ch_send_room x c :
  (length c.(ch_items) < c.(ch_cap))%nat →
  ch_send x c = Some (mkChan c.(ch_cap) (c.(ch_items) ++ [x])).
Proof. intros H. unfold ch_send. by rewrite bool_decide_eq_true_2. Qed.

Lemma ch_recv_Some x c c' :
  ch_recv c = Some (x, c') →
  c.(ch_items) = x :: c'.(ch_items) ∧ c'.(ch_cap) = c.(ch_cap).
Proof. unfold ch_recv. destruct (ch_items c) eqn:E; [done|]. intros [= <- <-]. done. Qed.

Lemma ch_recv_ok x c c' : chan_ok c → ch_recv c = Some (x, c') → chan_ok c'.
Proof.
  intros Hok [H1 H2]%ch_recv_Some. unfold chan_ok in *. rewrite H1 in Hok. simpl in Hok. lia.
Qed.
End chan.
#[global] Arguments chan T : clear implicits.
#[export] Hint Resolve make_chan_ok : core.
