(* ===== verification/Async.v ===== *)
(** * Asynchronous commands ([runthing_async] of [src/p_runthings.go])

    The command runs to its end, and output and error go to the channel of the
    caller before the function returns the output: a full channel blocks it.  No
    code of the program calls it.  [CombinedOutput] is the output and the error of
    a command, which os/exec reports together. *)
From stdpp Require Import base list strings.
From Stdlib Require Import ZArith Lia.
From S2P Require Import Prelude World Chan.
#[local] Open Scope Z_scope.

Record AsyncExecData := mkAsyncExecData { output : list Z; error : option string }.

(** The channel and the trace of commands. *)
Record aworld := mkAWorld { a_ch : chan AsyncExecData; a_trace : list event }.

#[export] Instance aworld_settable : Settable aworld := fun w => mkAWorld w.(a_ch) w.(a_trace).

Section async.
Context (CombinedOutput : string → list string → list Z * option string).

Definition runthing_async (thing : string) (arg : list string) : M aworld (list Z) :=
  modify (fun w => w <| a_trace ::= (fun l => l ++ [EvCommand thing arg]) |>) ;;
  let '(data, err) := CombinedOutput thing arg in
  w ← getS;
  match ch_send (mkAsyncExecData data err) w.(a_ch) with
  | Some ch => modify (fun w => w <| a_ch := ch |>) ;; mret data
  | None => deadlock
  end.

(** With room in the channel the result is queued last and returned, whether the
    command failed or not. *)
Lemma wp_runthing_async thing arg data err w :
  (length w.(a_ch).(ch_items) < w.(a_ch).(ch_cap))%nat → CombinedOutput thing arg = (data, err) →
  wp (runthing_async thing arg) (λ r w', r = data ∧
    w'.(a_ch).(ch_items) = w.(a_ch).(ch_items) ++ [mkAsyncExecData data err] ∧
    w'.(a_trace) = w.(a_trace) ++ [EvCommand thing arg]) w.
Proof.
  intros Hroom Hout. apply wp_bind, wp_modify. rewrite Hout. apply wp_bind, wp_getS.
  rewrite ch_send_room by done. by apply wp_bind, wp_modify, wp_ret.
Qed.

(** On a full channel the caller blocks, after the command has run. *)
Lemma runthing_async_full thing arg w :
  (w.(a_ch).(ch_cap) ≤ length w.(a_ch).(ch_items))%nat →
  (runthing_async thing arg w).1 = Deadlock ∧
  (runthing_async thing arg w).2.(a_trace) = w.(a_trace) ++ [EvCommand thing arg].
Proof.
  intros Hfull. unfold runthing_async, mbind, M_bind. simpl.
  destruct (CombinedOutput thing arg) as [data err]. unfold getS. simpl.
  unfold ch_send. rewrite bool_decide_eq_false_2 by lia. done.
Qed.
End async.
