(* ===== verification/ExpWorld.v ===== *)
(** * The channel experiment: data and effects ([src/t/main_withchannels.go])

    An earlier form of the program, kept under [src/t]: a connection owns a
    goroutine that writes what arrives on its channel, and the readers of the tun
    interface send packets on the channels.  It is modelled on its own, with its
    own state; what it shares with the program are the outside ([Env]) and the
    standard library.

    A packet is a struct with a slice: sending it on a channel copies the struct
    and not the bytes.  The buffers of slices are therefore a heap of their own
    ([x_bufs]), and a packet points into it. *)
From stdpp Require Import base gmap sets list strings.
From Stdlib Require Import ZArith Lia.
From S2P Require Import Prelude GoNet Network Ring World Chan.
#[local] Open Scope Z_scope.

(** ** Data *)

Record packetType := mkPacket { p_sequence : Z; p_len : Z; p_buff : loc }.

#[export] Instance packetType_settable : Settable packetType := fun p =>
  mkPacket p.(p_sequence) p.(p_len) p.(p_buff).

(** The zero [time.Time] of [last_hello] is [None]. *)
Record client_kcp := mkClientKcp {
  ck_convid : Z;
  ck_kcp : option handle;
  ck_writer_channel : option loc;
  ck_rxloss : Z;
  ck_txloss : Z;
  ck_txcounter : Z;
  ck_rxcounter : Z;
  ck_priority : Z;
  ck_bandwidth : Z;
  ck_last_hello : option Z;
  ck_alive : bool;
  ck_src_address : string
}.

#[export] Instance client_kcp_settable : Settable client_kcp := fun c =>
  mkClientKcp c.(ck_convid) c.(ck_kcp) c.(ck_writer_channel) c.(ck_rxloss) c.(ck_txloss)
    c.(ck_txcounter) c.(ck_rxcounter) c.(ck_priority) c.(ck_bandwidth) c.(ck_last_hello)
    c.(ck_alive) c.(ck_src_address).

Record clientType := mkClientType {
  xc_kcps : option (gmap Z loc);
  xc_iface : option handle;
  xc_base_convid : Z;
  xc_last_convid : Z;
  xc_ifname : string;
  xc_tun_ip : string
}.

#[export] Instance clientType_settable : Settable clientType := fun s =>
  mkClientType s.(xc_kcps) s.(xc_iface) s.(xc_base_convid) s.(xc_last_convid) s.(xc_ifname)
    s.(xc_tun_ip).

Record server_kcp := mkServerKcp {
  sk_convid : Z;
  sk_kcp : option handle;
  sk_udp_conn : option handle;
  sk_writer_channel : option loc;
  sk_ifname : string;
  sk_rxloss : Z;
  sk_txloss : Z;
  sk_txcounter : Z;
  sk_rxcounter : Z;
  sk_priority : Z;
  sk_bandwidth : Z;
  sk_last_hello : option Z;
  sk_alive : bool;
  sk_src_address : string
}.

#[export] Instance server_kcp_settable : Settable server_kcp := fun c =>
  mkServerKcp c.(sk_convid) c.(sk_kcp) c.(sk_udp_conn) c.(sk_writer_channel) c.(sk_ifname)
    c.(sk_rxloss) c.(sk_txloss) c.(sk_txcounter) c.(sk_rxcounter) c.(sk_priority)
    c.(sk_bandwidth) c.(sk_last_hello) c.(sk_alive) c.(sk_src_address).

Record serverType := mkServerType {
  xs_kcps : option (gmap Z loc);
  xs_iface : option handle;
  xs_base_convid : Z;
  xs_last_convid : Z;
  xs_ifname : string;
  xs_tun_ip : string
}.

#[export] Instance serverType_settable : Settable serverType := fun s =>
  mkServerType s.(xs_kcps) s.(xs_iface) s.(xs_base_convid) s.(xs_last_convid) s.(xs_ifname)
    s.(xs_tun_ip).

(** [new(clientType)], [new(client_kcp)] and so on: zero values. *)
Definition new_clientType : clientType := mkClientType None None 0 0 "" "".
Definition new_serverType : serverType := mkServerType None None 0 0 "" "".
Definition new_client_kcp : client_kcp := mkClientKcp 0 None None 0 0 0 0 0 0 None false "".
Definition new_server_kcp : server_kcp :=
  mkServerKcp 0 None None None "" 0 0 0 0 0 0 None false "".

(** Reading a map field: the nil map has no entry. *)
Definition xs_conns (s : serverType) : gmap Z loc := default ∅ s.(xs_kcps).
Definition xc_conns (s : clientType) : gmap Z loc := default ∅ s.(xc_kcps).

(** ** Globals *)

Definition g_server_addr : string := "154.0.6.97:12345".
Definition g_listen_addr : string := "0.0.0.0:12345".
Definition g_buffer_size : Z := 16777217.
Definition g_client_tunnelid : Z := 660.
Definition g_server_tun_ip : string := "10.10.10.2".
Definition g_client_tun_ip : string := "10.10.10.1".

(** The keep-alive of the experiment: two zero bytes. *)
Definition hello : list Z := [0; 0].

(** ** State *)

Inductive goroutine :=
| GoClientKcpWriter (tunnelid : Z) (conn : loc) (data : loc)
| GoClientHandleKcp (tunnelid : Z) (conn : loc)
| GoClientHandleTun (tunnelid : Z)
| GoClientPingServer (tunnelid : Z)
| GoServerKcpWriter (base_convid : Z) (conn : loc) (data : loc)
| GoServerHandleTun (base_convid : Z)
| GoServerHandleKcpConn (base_convid convid : Z) (conn : loc)
| GoServerAcceptConn (convid : Z) (conn : handle)
| GoServerPingClient (base_convid : Z)
| GoServerListener (listener : handle)
| GoNetlinkIfaces (tunnelid : Z)
| GoNetlinkRoutes (tunnelid : Z).

Inductive xevent :=
| Ev (e : event)
| Go (g : goroutine).

Record xworld := mkXWorld {
  x_tick : nat;
  x_next : loc;
  g_server_list : gmap Z serverType;
  x_skcps : gmap loc server_kcp;
  g_client_list : gmap Z clientType;
  x_ckcps : gmap loc client_kcp;
  x_chans : gmap loc (chan packetType);
  x_bufs : gmap loc (list Z);
  x_trace : list xevent
}.

#[export] Instance xworld_settable : Settable xworld := fun w =>
  mkXWorld w.(x_tick) w.(x_next) w.(g_server_list) w.(x_skcps) w.(g_client_list) w.(x_ckcps)
    w.(x_chans) w.(x_bufs) w.(x_trace).

Definition init_xworld : xworld := mkXWorld 0 0 ∅ ∅ ∅ ∅ ∅ ∅ [].

Abbreviation X := (M xworld).

(** ** Effects *)

Section effects.
Context {E : Env}.

Definition tick : X nat := fun w => (Ret w.(x_tick), w <| x_tick ::= S |>).
Definition record (e : xevent) : X unit := modify (fun w => w <| x_trace ::= (fun l => l ++ [e]) |>).
Definition emit (e : event) : X unit := record (Ev e).
Definition go (g : goroutine) : X unit := record (Go g).
Definition sleep_ms (ms : Z) : X unit := emit (EvSleep ms).
Definition time_Now : X Z := t ← tick; mret (env_now t).
Definition range_keys {A : Type} (m : gmap Z A) : X (list Z) :=
  t ← tick; mret (env_range t (map_to_list m).*1).
Definition runthing (thing : string) (arg : list string) : X string :=
  emit (EvCommand thing arg) ;;
  t ← tick;
  mret (match env_exec t thing arg with None => "error" | Some out => out end).

(** A tunnel record is only reached under its key, which is never deleted or
    rebound: the key stands for the pointer. *)
Definition get_server (tid : Z) : X serverType :=
  w ← getS; deref "nil *serverType" (w.(g_server_list) !! tid).
Definition upd_server (tid : Z) (f : serverType → serverType) : X unit :=
  s ← get_server tid; modify (fun w => w <| g_server_list ::= insert tid (f s) |>).
Definition get_client (tid : Z) : X clientType :=
  w ← getS; deref "nil *clientType" (w.(g_client_list) !! tid).
Definition upd_client (tid : Z) (f : clientType → clientType) : X unit :=
  s ← get_client tid; modify (fun w => w <| g_client_list ::= insert tid (f s) |>).
Definition get_skcp (l : loc) : X server_kcp :=
  w ← getS; deref "nil *server_kcp" (w.(x_skcps) !! l).
Definition upd_skcp (l : loc) (f : server_kcp → server_kcp) : X unit :=
  c ← get_skcp l; modify (fun w => w <| x_skcps ::= insert l (f c) |>).
Definition get_ckcp (l : loc) : X client_kcp :=
  w ← getS; deref "nil *client_kcp" (w.(x_ckcps) !! l).
Definition upd_ckcp (l : loc) (f : client_kcp → client_kcp) : X unit :=
  c ← get_ckcp l; modify (fun w => w <| x_ckcps ::= insert l (f c) |>).

(** Allocation: one counter for the four heaps. *)
Definition alloc : X loc := fun w => (Ret w.(x_next), w <| x_next ::= S |>).
Definition new_skcp : X loc :=
  l ← alloc; modify (fun w => w <| x_skcps ::= insert l new_server_kcp |>) ;; mret l.
Definition new_ckcp : X loc :=
  l ← alloc; modify (fun w => w <| x_ckcps ::= insert l new_client_kcp |>) ;; mret l.
Definition make_channel (n : nat) : X loc :=
  l ← alloc; modify (fun w => w <| x_chans ::= insert l (make_chan n) |>) ;; mret l.
Definition make_buffer (n : nat) : X loc :=
  l ← alloc; modify (fun w => w <| x_bufs ::= insert l (replicate n 0) |>) ;; mret l.

(** [ch <- pkt] and the receive of [range ch].  A nil channel blocks for ever, as
    does, until another goroutine acts, a full or an empty one. *)
Definition send (ch : option loc) (pkt : packetType) : X unit :=
  w ← getS;
  match ch ≫= (fun c => q ← w.(x_chans) !! c; q' ← ch_send pkt q; Some (c, q')) with
  | Some (c, q') => modify (fun w => w <| x_chans ::= insert c q' |>)
  | None => deadlock
  end.
Definition receive (ch : loc) : X packetType :=
  w ← getS;
  match w.(x_chans) !! ch ≫= ch_recv with
  | Some (pkt, q') => modify (fun w => w <| x_chans ::= insert ch q' |>) ;; mret pkt
  | None => deadlock
  end.

(** [read(buff)]: the bytes of a read, at the start of the buffer. *)
Definition fill (b : loc) (data : list Z) : X unit :=
  w ← getS;
  buf ← deref "nil slice" (w.(x_bufs) !! b);
  modify (fun w => w <| x_bufs ::= insert b (data ++ drop (length data) buf) |>).

(** [buff[:n]]: a panic when [n] is beyond the buffer. *)
Definition slice (b : loc) (n : Z) : X (list Z) :=
  w ← getS;
  buf ← deref "nil slice" (w.(x_bufs) !! b);
  if bool_decide (0 <= n <= Z.of_nat (length buf)) then mret (take (Z.to_nat n) buf)
  else panic "slice bounds out of range".
End effects.

(** ** Stepping through the primitives *)

Section steps.
Context {E : Env}.
Implicit Types (w : xworld).

Lemma xwp_tick (Q : nat → xworld → Prop) w :
  Q w.(x_tick) (w <| x_tick ::= S |>) → wp tick Q w.
Proof. intros H. by eexists _, _. Qed.
Lemma wp_record e (Q : unit → xworld → Prop) w :
  Q tt (w <| x_trace ::= (fun l => l ++ [e]) |>) → wp (record e) Q w.
Proof. apply wp_modify. Qed.
Lemma xwp_time_Now (Q : Z → xworld → Prop) w :
  Q (env_now w.(x_tick)) (w <| x_tick ::= S |>) → wp time_Now Q w.
Proof. intros H. by eexists _, _. Qed.
Lemma xwp_range_keys {A} (m : gmap Z A) (Q : list Z → xworld → Prop) w :
  Q (env_range w.(x_tick) (map_to_list m).*1) (w <| x_tick ::= S |>) → wp (range_keys m) Q w.
Proof. intros H. by eexists _, _. Qed.
Lemma xwp_runthing thing arg (Q : string → xworld → Prop) w :
  Q (match env_exec w.(x_tick) thing arg with None => "error" | Some out => out end)
    (w <| x_trace ::= (fun l => l ++ [Ev (EvCommand thing arg)]) |> <| x_tick ::= S |>) →
  wp (runthing thing arg) Q w.
Proof. intros HQ. by eexists _, _. Qed.

Lemma wp_get {A} (what : string) (sel : xworld → option A) a (Q : A → xworld → Prop) w :
  sel w = Some a → Q a w → wp (x ← getS; deref what (sel x)) Q w.
Proof. intros Ha HQ. exists a, w. unfold getS, mbind, M_bind. by rewrite Ha. Qed.
Lemma xwp_get_server tid s (Q : serverType → xworld → Prop) w :
  w.(g_server_list) !! tid = Some s → Q s w → wp (get_server tid) Q w.
Proof. apply (wp_get _ (λ w, w.(g_server_list) !! tid)). Qed.
Lemma xwp_get_client tid s (Q : clientType → xworld → Prop) w :
  w.(g_client_list) !! tid = Some s → Q s w → wp (get_client tid) Q w.
Proof. apply (wp_get _ (λ w, w.(g_client_list) !! tid)). Qed.
Lemma wp_get_skcp l c (Q : server_kcp → xworld → Prop) w :
  w.(x_skcps) !! l = Some c → Q c w → wp (get_skcp l) Q w.
Proof. apply (wp_get _ (λ w, w.(x_skcps) !! l)). Qed.
Lemma wp_get_ckcp l c (Q : client_kcp → xworld → Prop) w :
  w.(x_ckcps) !! l = Some c → Q c w → wp (get_ckcp l) Q w.
Proof. apply (wp_get _ (λ w, w.(x_ckcps) !! l)). Qed.
Lemma xwp_upd_server tid s f (Q : unit → xworld → Prop) w :
  w.(g_server_list) !! tid = Some s →
  Q tt (w <| g_server_list ::= insert tid (f s) |>) → wp (upd_server tid f) Q w.
Proof. intros Hs HQ. apply wp_bind. eapply xwp_get_server; [done|]. by apply wp_modify. Qed.
Lemma xwp_upd_client tid s f (Q : unit → xworld → Prop) w :
  w.(g_client_list) !! tid = Some s →
  Q tt (w <| g_client_list ::= insert tid (f s) |>) → wp (upd_client tid f) Q w.
Proof. intros Hs HQ. apply wp_bind. eapply xwp_get_client; [done|]. by apply wp_modify. Qed.
Lemma wp_upd_skcp l c f (Q : unit → xworld → Prop) w :
  w.(x_skcps) !! l = Some c →
  Q tt (w <| x_skcps ::= insert l (f c) |>) → wp (upd_skcp l f) Q w.
Proof. intros Hs HQ. apply wp_bind. eapply wp_get_skcp; [done|]. by apply wp_modify. Qed.
Lemma wp_upd_ckcp l c f (Q : unit → xworld → Prop) w :
  w.(x_ckcps) !! l = Some c →
  Q tt (w <| x_ckcps ::= insert l (f c) |>) → wp (upd_ckcp l f) Q w.
Proof. intros Hs HQ. apply wp_bind. eapply wp_get_ckcp; [done|]. by apply wp_modify. Qed.
Lemma wp_new_skcp (Q : loc → xworld → Prop) w :
  Q w.(x_next) (w <| x_next ::= S |> <| x_skcps ::= insert w.(x_next) new_server_kcp |>) →
  wp new_skcp Q w.
Proof. intros H. by eexists _, _. Qed.
Lemma wp_new_ckcp (Q : loc → xworld → Prop) w :
  Q w.(x_next) (w <| x_next ::= S |> <| x_ckcps ::= insert w.(x_next) new_client_kcp |>) →
  wp new_ckcp Q w.
Proof. intros H. by eexists _, _. Qed.
Lemma wp_make_channel n (Q : loc → xworld → Prop) w :
  Q w.(x_next) (w <| x_next ::= S |> <| x_chans ::= insert w.(x_next) (make_chan n) |>) →
  wp (make_channel n) Q w.
Proof. intros H. by eexists _, _. Qed.
Lemma xwp_send ch c q q' pkt (Q : unit → xworld → Prop) w :
  ch = Some c → w.(x_chans) !! c = Some q → ch_send pkt q = Some q' →
  Q tt (w <| x_chans ::= insert c q' |>) → wp (send ch pkt) Q w.
Proof.
  intros -> Hq Hs HQ. apply wp_bind, wp_getS. simpl. rewrite Hq. simpl. rewrite Hs. simpl.
  by apply wp_modify.
Qed.
Lemma wp_receive c q pkt q' (Q : packetType → xworld → Prop) w :
  w.(x_chans) !! c = Some q → ch_recv q = Some (pkt, q') →
  Q pkt (w <| x_chans ::= insert c q' |>) → wp (receive c) Q w.
Proof.
  intros Hq Hr HQ. apply wp_bind, wp_getS. rewrite Hq. simpl. rewrite Hr.
  apply wp_bind, wp_modify, wp_ret, HQ.
Qed.
Lemma wp_fill b buf data (Q : unit → xworld → Prop) w :
  w.(x_bufs) !! b = Some buf →
  Q tt (w <| x_bufs ::= insert b (data ++ drop (length data) buf) |>) → wp (fill b data) Q w.
Proof.
  intros Hb HQ. apply wp_bind, wp_getS, wp_bind. eapply wp_deref; [done|]. by apply wp_modify.
Qed.
Lemma wp_slice b buf n (Q : list Z → xworld → Prop) w :
  w.(x_bufs) !! b = Some buf → 0 <= n <= Z.of_nat (length buf) →
  Q (take (Z.to_nat n) buf) w → wp (slice b n) Q w.
Proof.
  intros Hb Hn HQ. apply wp_bind, wp_getS, wp_bind. eapply wp_deref; [done|].
  rewrite bool_decide_eq_true_2 by done. by apply wp_ret.
Qed.

(** The same without the assumption that the call returns. *)
Lemma xwlp_tick (Q : nat → xworld → Prop) w :
  Q w.(x_tick) (w <| x_tick ::= S |>) → wlp tick Q w.
Proof. intros H ? ? [=]. by subst. Qed.
Lemma wlp_get {A} (what : string) (sel : xworld → option A) (Q : A → xworld → Prop) w :
  (∀ a, sel w = Some a → Q a w) → wlp (x ← getS; deref what (sel x)) Q w.
Proof. intros H. apply wlp_bind, wlp_getS, wlp_deref, H. Qed.
Lemma xwlp_get_server tid (Q : serverType → xworld → Prop) w :
  (∀ s, w.(g_server_list) !! tid = Some s → Q s w) → wlp (get_server tid) Q w.
Proof. apply (wlp_get _ (λ w, w.(g_server_list) !! tid)). Qed.
Lemma xwlp_get_client tid (Q : clientType → xworld → Prop) w :
  (∀ s, w.(g_client_list) !! tid = Some s → Q s w) → wlp (get_client tid) Q w.
Proof. apply (wlp_get _ (λ w, w.(g_client_list) !! tid)). Qed.
Lemma wlp_get_skcp l (Q : server_kcp → xworld → Prop) w :
  (∀ c, w.(x_skcps) !! l = Some c → Q c w) → wlp (get_skcp l) Q w.
Proof. apply (wlp_get _ (λ w, w.(x_skcps) !! l)). Qed.
Lemma wlp_get_ckcp l (Q : client_kcp → xworld → Prop) w :
  (∀ c, w.(x_ckcps) !! l = Some c → Q c w) → wlp (get_ckcp l) Q w.
Proof. apply (wlp_get _ (λ w, w.(x_ckcps) !! l)). Qed.
Lemma xwlp_upd_server tid f (Q : unit → xworld → Prop) w :
  (∀ s, w.(g_server_list) !! tid = Some s →
    Q tt (w <| g_server_list ::= insert tid (f s) |>)) → wlp (upd_server tid f) Q w.
Proof. intros H. apply wlp_bind, xwlp_get_server. intros s Hs. by apply wlp_modify, H. Qed.
Lemma xwlp_upd_client tid f (Q : unit → xworld → Prop) w :
  (∀ s, w.(g_client_list) !! tid = Some s →
    Q tt (w <| g_client_list ::= insert tid (f s) |>)) → wlp (upd_client tid f) Q w.
Proof. intros H. apply wlp_bind, xwlp_get_client. intros s Hs. by apply wlp_modify, H. Qed.
Lemma wlp_upd_skcp l f (Q : unit → xworld → Prop) w :
  (∀ c, w.(x_skcps) !! l = Some c → Q tt (w <| x_skcps ::= insert l (f c) |>)) →
  wlp (upd_skcp l f) Q w.
Proof. intros H. apply wlp_bind, wlp_get_skcp. intros s Hs. by apply wlp_modify, H. Qed.
Lemma wlp_upd_ckcp l f (Q : unit → xworld → Prop) w :
  (∀ c, w.(x_ckcps) !! l = Some c → Q tt (w <| x_ckcps ::= insert l (f c) |>)) →
  wlp (upd_ckcp l f) Q w.
Proof. intros H. apply wlp_bind, wlp_get_ckcp. intros s Hs. by apply wlp_modify, H. Qed.
Lemma wlp_send ch pkt (Q : unit → xworld → Prop) w :
  (∀ c q q', ch = Some c → w.(x_chans) !! c = Some q → ch_send pkt q = Some q' →
    Q tt (w <| x_chans ::= insert c q' |>)) → wlp (send ch pkt) Q w.
Proof.
  intros H. apply wlp_bind, wlp_getS. destruct ch as [c|]; simpl; [|apply wlp_deadlock].
  destruct (x_chans w !! c) as [q|] eqn:Hq; simpl; [|apply wlp_deadlock].
  destruct (ch_send pkt q) as [q'|] eqn:Hs; simpl; [|apply wlp_deadlock].
  apply wlp_modify. by eapply H.
Qed.
Lemma wlp_receive c (Q : packetType → xworld → Prop) w :
  (∀ q pkt q', w.(x_chans) !! c = Some q → ch_recv q = Some (pkt, q') →
    Q pkt (w <| x_chans ::= insert c q' |>)) → wlp (receive c) Q w.
Proof.
  intros H. apply wlp_bind, wlp_getS.
  destruct (x_chans w !! c) as [q|] eqn:Hq; simpl; [|apply wlp_deadlock].
  destruct (ch_recv q) as [[pkt q']|] eqn:Hr; [|apply wlp_deadlock].
  apply wlp_bind, wlp_modify, wlp_ret. by eapply H.
Qed.
Lemma wlp_fill b data (Q : unit → xworld → Prop) w :
  (∀ buf, w.(x_bufs) !! b = Some buf →
    Q tt (w <| x_bufs ::= insert b (data ++ drop (length data) buf) |>)) → wlp (fill b data) Q w.
Proof. intros H. apply wlp_bind, wlp_getS, wlp_bind, wlp_deref. intros buf Hb. by apply wlp_modify, H. Qed.
Lemma wlp_slice b n (Q : list Z → xworld → Prop) w :
  (∀ buf, w.(x_bufs) !! b = Some buf → 0 <= n <= Z.of_nat (length buf) →
    Q (take (Z.to_nat n) buf) w) → wlp (slice b n) Q w.
Proof.
  intros H. apply wlp_bind, wlp_getS, wlp_bind, wlp_deref. intros buf Hb.
  case_bool_decide; [by apply wlp_ret, H|apply wlp_panic].
Qed.
Lemma wlp_new_skcp (Q : loc → xworld → Prop) w :
  Q w.(x_next) (w <| x_next ::= S |> <| x_skcps ::= insert w.(x_next) new_server_kcp |>) →
  wlp new_skcp Q w.
Proof. intros H ? ? [=]. by subst. Qed.
Lemma wlp_new_ckcp (Q : loc → xworld → Prop) w :
  Q w.(x_next) (w <| x_next ::= S |> <| x_ckcps ::= insert w.(x_next) new_client_kcp |>) →
  wlp new_ckcp Q w.
Proof. intros H ? ? [=]. by subst. Qed.
Lemma wlp_make_channel n (Q : loc → xworld → Prop) w :
  Q w.(x_next) (w <| x_next ::= S |> <| x_chans ::= insert w.(x_next) (make_chan n) |>) →
  wlp (make_channel n) Q w.
Proof. intros H ? ? [=]. by subst. Qed.
Lemma wlp_make_buffer n (Q : loc → xworld → Prop) w :
  Q w.(x_next) (w <| x_next ::= S |> <| x_bufs ::= insert w.(x_next) (replicate n 0) |>) →
  wlp (make_buffer n) Q w.
Proof. intros H ? ? [=]. by subst. Qed.
End steps.

Ltac xwp_step :=
  lazymatch goal with
  | |- wp (_ ≫= _) _ _ => apply wp_bind
  | |- wp (mret _) _ _ => apply wp_ret
  | |- wp getS _ _ => apply wp_getS
  | |- wp (modify _) _ _ => apply wp_modify
  | |- wp (deref _ (Some _)) _ _ => eapply wp_deref; [reflexivity|]
  | |- wp tick _ _ => apply xwp_tick
  | |- wp (record _) _ _ => apply wp_record
  | |- wp (emit _) _ _ => apply wp_record
  | |- wp (go _) _ _ => apply wp_record
  | |- wp (sleep_ms _) _ _ => apply wp_record
  | |- wp time_Now _ _ => apply xwp_time_Now
  | |- wp (range_keys _) _ _ => apply xwp_range_keys
  | |- wp (runthing _ _) _ _ => apply xwp_runthing
  | |- wp new_skcp _ _ => apply wp_new_skcp
  | |- wp new_ckcp _ _ => apply wp_new_ckcp
  | |- wp (make_channel _) _ _ => apply wp_make_channel
  | |- wp (get_server _) _ _ => eapply xwp_get_server; [simpl; by simplify_map_eq|]
  | |- wp (upd_server _ _) _ _ => eapply xwp_upd_server; [simpl; by simplify_map_eq|]
  | |- wp (get_client _) _ _ => eapply xwp_get_client; [simpl; by simplify_map_eq|]
  | |- wp (upd_client _ _) _ _ => eapply xwp_upd_client; [simpl; by simplify_map_eq|]
  | |- wp (get_skcp _) _ _ => eapply wp_get_skcp; [simpl; by simplify_map_eq|]
  | |- wp (upd_skcp _ _) _ _ => eapply wp_upd_skcp; [simpl; by simplify_map_eq|]
  | |- wp (get_ckcp _) _ _ => eapply wp_get_ckcp; [simpl; by simplify_map_eq|]
  | |- wp (upd_ckcp _ _) _ _ => eapply wp_upd_ckcp; [simpl; by simplify_map_eq|]
  end.
Ltac xwp_steps := repeat xwp_step.
