(* ===== verification/ExpClient.v ===== *)
(** * The channel experiment: the client ([src/t/main_withchannels.go])

    The functions [client_*] in the order of the source, with the session set-up
    they call.  The reader of the tun interface is split where it may block for
    other goroutines: up to the choice of a connection ([client_tun_select]), and
    the send on its channel. *)
From stdpp Require Import base gmap sets list strings.
From Stdlib Require Import ZArith Lia.
From S2P Require Import Prelude GoNet Network Ring World Wire Client Chan ExpWorld.
#[local] Open Scope Z_scope.

(** ** Sessions and devices of both ends *)

Section session.
Context {E : Env}.

Definition set_options (conn : option handle) (opts : list KcpOption) : X unit :=
  kcp ← deref "nil *kcp.UDPSession" conn;
  for_each opts (fun o => emit (EvKcpOption kcp o)).

Definition setClientConnOptions (conn : option handle) : X unit :=
  set_options conn [OptStreamMode true; OptWriteDelay false; OptNoDelay 1 10 2 1; OptMtu 1400;
    OptWindowSize 256 256; OptACKNoDelay false].

Definition setServerConnOptions (conn : option handle) : X unit :=
  set_options conn [OptStreamMode true; OptWriteDelay false; OptNoDelay 1 10 2 1; OptMtu 1400;
    OptWindowSize 256 256; OptACKNoDelay false].

Definition session_block : BlockCrypt :=
  NoneBlockCrypt (env_pbkdf2 "demo pass" "demo salt" 1024 32).

(** [create_udp_conn]: session, socket and error.  The local port has to resolve
    and is then replaced by 0; the error of [NewConn3] is dropped. *)
Definition create_udp_conn (convid : Z) (src : string)
    : X (option handle * option handle * option string) :=
  t ← tick;
  match ResolveUDPAddr (env_lookup t) g_server_addr with
  | None => mret (None, None, Some "ResolveUDPAddr")
  | Some l_udpaddr =>
      t ← tick;
      match ResolveUDPAddr (env_lookup t) (src +:+ ":" +:+ fmt_d convid) with
      | None => mret (None, None, Some "ResolveUDPAddr")
      | Some (l_localip, _) =>
          t ← tick;
          match env_ListenUDP t l_localip with
          | None => mret (None, None, Some "ListenUDP")
          | Some l_conn =>
              t ← tick;
              mret (env_kcp_NewConn t convid l_udpaddr session_block 0 0 l_conn, Some l_conn, None)
          end
      end
  end.

Definition createListener : X (option handle * option string) :=
  t ← tick;
  match env_kcp_Listen t g_listen_addr session_block 0 0 with
  | None => mret (None, Some "listen")
  | Some l => mret (Some l, None)
  end.

Definition createTun (ip : string) (convid : Z) : X (option handle * option string) :=
  t ← tick;
  match env_tun_New t ("tun" +:+ fmt_d convid) with
  | None => mret (None, Some "water.New")
  | Some iface =>
      n ← deref "nil *water.Interface" (env_tun_Name (Some iface));
      runthing "ip" ["addr"; "add"; ip +:+ "/30"; "dev"; n] ;;
      runthing "ip" ["link"; "set"; n; "mtu"; "1350"] ;;
      runthing "ip" ["link"; "set"; n; "up"] ;;
      mret (Some iface, None)
  end.
End session.

(** What a turn of a tun reader leads to: the goroutine returns, goes on to the
    next packet, or sends this one on the channel of a connection. *)
Inductive tun_turn :=
| TunReturn
| TunContinue (pkt : packetType)
| TunSend (conn : loc) (pkt : packetType).

Section client.
Context {E : Env}.

(** ** Connecting *)

Definition client_connection_by_src_exists (src : string) (conns : gmap Z loc)
    (heap : gmap loc server_kcp) : bool :=
  existsb (fun l => match heap !! l with
    | Some c => bool_decide (c.(sk_src_address) = src)
    | None => false
    end) (map_to_list conns).*2.

(** Interface and map of a tunnel; the result is [spawn_tun].  When the device
    does not open the interface stays nil. *)
Definition client_setup_server (tunnelid : Z) : X bool :=
  server ← get_server tunnelid;
  spawn_tun ←
    match server.(xs_iface) with
    | Some _ => mret false
    | None =>
        '(iface, _) ← createTun g_client_tun_ip tunnelid;
        upd_server tunnelid (fun s => s <| xs_iface := iface |> <| xs_tun_ip := g_client_tun_ip |>
          <| xs_ifname := "tun" +:+ fmt_d tunnelid |> <| xs_base_convid := tunnelid |>) ;;
        mret true
    end;
  server ← get_server tunnelid;
  match server.(xs_kcps) with
  | Some _ => mret tt
  | None => upd_server tunnelid (setf xs_kcps (fun _ => Some ∅))
  end ;;
  mret spawn_tun.

(** The fields set on the new connection. *)
Definition init_server_kcp (avail : Z) (kcp udp_conn : option handle) (src ifname : string)
    (c : server_kcp) : server_kcp :=
  c <| sk_bandwidth := 10 |> <| sk_rxloss := 0 |> <| sk_txloss := 0 |> <| sk_alive := true |>
    <| sk_txcounter := 1 |> <| sk_rxcounter := 1 |> <| sk_priority := 0 |> <| sk_kcp := kcp |>
    <| sk_udp_conn := udp_conn |> <| sk_convid := avail |> <| sk_src_address := src |>
    <| sk_ifname := ifname |>.

(** From the free id on: the session, the record with its channel, the hello and
    the goroutines. *)
Definition client_add_connection (tunnelid avail : Z) (src ifname : string) (spawn_tun : bool)
    : X unit :=
  upd_server tunnelid (setf xs_last_convid (fun _ => 0)) ;;
  '(kcp, udp_conn, err) ← create_udp_conn avail src;
  match err with
  | Some _ => panic "kcp conn create error"
  | None =>
      l ← new_skcp;
      upd_server tunnelid (setf xs_kcps (fmap (insert avail l))) ;;
      upd_skcp l (init_server_kcp avail kcp udp_conn src ifname) ;;
      ch ← make_channel 100;
      upd_skcp l (setf sk_writer_channel (fun _ => Some ch)) ;;
      go (GoClientKcpWriter tunnelid l ch) ;;
      h ← deref "nil *kcp.UDPSession" kcp;
      emit (EvKcpReadBuffer h g_buffer_size) ;;
      emit (EvKcpWriteBuffer h g_buffer_size) ;;
      setClientConnOptions kcp ;;
      t ← time_Now;
      emit (EvKcpWriteDeadline h (t + Millisecond * 10)) ;;
      emit (EvKcpWrite h hello) ;;
      tick ;;
      go (GoClientHandleKcp tunnelid l) ;;
      whenM spawn_tun (go (GoClientHandleTun tunnelid))
  end.

Definition client_connect_server (tunnelid : Z) (src ifname gw : string) : X unit :=
  w ← getS;
  match w.(g_server_list) !! tunnelid with
  | Some _ => mret tt
  | None => modify (fun w => w <| g_server_list ::= insert tunnelid new_serverType |>)
  end ;;
  spawn_tun ← client_setup_server tunnelid;
  w ← getS;
  server ← get_server tunnelid;
  if client_connection_by_src_exists src (xs_conns server) w.(x_skcps) then mret tt
  else
    match find_slot (slot_fuel (xs_conns server)) (xs_conns server) (u32 (tunnelid + 10)) tunnelid with
    | None => deadlock
    | Some avail =>
        if bool_decide (avail = u32 (tunnelid + 10)) then mret tt
        else client_add_connection tunnelid avail src ifname spawn_tun
    end.

(** ** Disconnecting *)

Definition client_close (l : loc) : X unit :=
  c ← get_skcp l;
  h ← deref "nil *kcp.UDPSession" c.(sk_kcp);
  emit (EvKcpClose h) ;;
  match c.(sk_udp_conn) with Some conn => emit (EvUdpClose conn) | None => mret tt end.

(** The loop of the three disconnect functions; [reset] restarts the round
    robin, which the third does not. *)
Definition client_disconnect_where (tunnelid : Z) (reset : bool) (test : server_kcp → bool) : X unit :=
  server ← get_server tunnelid;
  keys ← range_keys (xs_conns server);
  for_each keys (fun convid =>
    server ← get_server tunnelid;
    match xs_conns server !! convid with
    | None => mret tt
    | Some l =>
        c ← get_skcp l;
        whenM (test c)
          (client_close l ;;
           whenM reset (upd_server tunnelid (setf xs_last_convid (fun _ => 0))) ;;
           upd_server tunnelid (setf xs_kcps (fmap (delete convid))))
    end).

Definition client_disconnect_session_by_ifname (tunnelid : Z) (ifname : string) : X unit :=
  w ← getS;
  match w.(g_server_list) !! tunnelid with
  | None => mret tt
  | Some _ => client_disconnect_where tunnelid true (fun c => bool_decide (c.(sk_ifname) = ifname))
  end.

(** A tunnel that does not exist is reported and then dereferenced. *)
Definition client_disconnect_session_by_src (tunnelid : Z) (src ifname gw : string) : X unit :=
  client_disconnect_where tunnelid true (fun c => bool_decide (c.(sk_src_address) = src)).

Definition client_disconnect_session_by_convid (tunnelid disc_convid : Z) : X unit :=
  client_disconnect_where tunnelid false (fun c => bool_decide (c.(sk_convid) = disc_convid)).

(** ** The reader of a connection *)

(** One turn, with the session read at the start; [false]: the goroutine
    returns.  Everything read goes to the tun interface. *)
Definition client_handle_kcp_turn (tunnelid : Z) (l : loc) (conn : handle) : X bool :=
  t ← tick;
  if bool_decide (env_kcp_GetState t conn = kcp_dead) then
    server ← get_server tunnelid;
    client_disconnect_session_by_convid server.(xs_base_convid) (env_kcp_GetConv conn) ;; mret false
  else
    t ← tick;
    match env_kcp_Read t conn with
    | inr _ =>
        server ← get_server tunnelid;
        client_disconnect_session_by_convid server.(xs_base_convid) (env_kcp_GetConv conn) ;;
        mret false
    | inl data =>
        upd_skcp l (setf sk_rxcounter (fun n => u64 (n + 1))) ;;
        server ← get_server tunnelid;
        match server.(xs_iface) with
        | Some tun => emit (EvTunWrite tun data) ;; tick ;; mret true
        | None => mret true
        end
    end.

Fixpoint client_kcp_loop (turns : nat) (tunnelid : Z) (l : loc) (conn : handle) : X unit :=
  match turns with
  | O => mret tt
  | S turns' =>
      continue ← client_handle_kcp_turn tunnelid l conn;
      if (continue : bool) then client_kcp_loop turns' tunnelid l conn else mret tt
  end.

Definition client_handle_kcp (turns : nat) (tunnelid : Z) (l : loc) : X unit :=
  c ← get_skcp l;
  conn ← deref "nil *kcp.UDPSession" c.(sk_kcp);
  client_kcp_loop turns tunnelid l conn.

(** ** Keep-alive *)

Definition client_send_hello (l : loc) : X unit :=
  c ← get_skcp l;
  match c.(sk_kcp) with
  | Some kcp =>
      t ← time_Now;
      emit (EvKcpWriteDeadline kcp (t + Millisecond * 10)) ;;
      emit (EvKcpWrite kcp hello) ;;
      tick ;; mret tt
  | None => mret tt
  end.

Definition client_send_server_pings : X unit :=
  w ← getS;
  servers ← range_keys w.(g_server_list);
  for_each servers (fun base_convid =>
    go (GoClientPingServer base_convid) ;;
    server ← get_server base_convid;
    keys ← range_keys (xs_conns server);
    for_each keys (fun convid =>
      server ← get_server base_convid;
      match xs_conns server !! convid with
      | None => mret tt
      | Some l => client_send_hello l
      end)).

(** ** Choosing a connection *)

Fixpoint client_round_robin (tunnelid : Z) (keys : list Z) (some_convid : Z) : X Z :=
  match keys with
  | [] => upd_server tunnelid (setf xs_last_convid (fun _ => some_convid)) ;; mret some_convid
  | convid :: keys' =>
      server ← get_server tunnelid;
      l ← deref "nil *server_kcp" (xs_conns server !! convid);
      c ← get_skcp l;
      if negb (bool_decide (convid = server.(xs_last_convid))) && c.(sk_alive) then
        upd_server tunnelid (setf xs_last_convid (fun _ => convid)) ;; mret convid
      else client_round_robin tunnelid keys' convid
  end.

Definition client_choose_kcp_conn (tunnelid : Z) : X Z :=
  server ← get_server tunnelid;
  keys ← range_keys (xs_conns server);
  client_round_robin tunnelid keys 0.

(** ** The reader of the tun interface *)

(** From the label [tryagain]: the connection for a packet, dead ones being
    disconnected on the way; [None] is a [continue]. *)
Fixpoint client_pick (fuel : nat) (tunnelid : Z) : X (option loc) :=
  match fuel with
  | O => deadlock
  | S fuel' =>
      chose_convid ← client_choose_kcp_conn tunnelid;
      server ← get_server tunnelid;
      match xs_conns server !! chose_convid with
      | None => mret None
      | Some l =>
          c ← get_skcp l;
          match c.(sk_kcp) with
          | None => sleep_ms 100 ;; mret None
          | Some conn =>
              t ← tick;
              if bool_decide (env_kcp_GetState t conn = kcp_dead) then
                client_disconnect_session_by_convid server.(xs_base_convid) (env_kcp_GetConv conn) ;;
                client_pick fuel' tunnelid
              else mret (Some l)
          end
      end
  end.

(** A turn up to the send: the packet is read into the one buffer of the
    goroutine. *)
Definition client_tun_select (fuel : nat) (tunnelid : Z) (mypacket : packetType) : X tun_turn :=
  server ← get_server tunnelid;
  tun ← deref "nil *water.Interface" server.(xs_iface);
  t ← tick;
  match env_tun_Read t tun with
  | inr _ => mret TunReturn
  | inl data =>
      fill mypacket.(p_buff) data ;;
      let mypacket := mypacket <| p_len := Z.of_nat (length data) |> in
      r ← client_pick fuel tunnelid;
      match r with
      | None => mret (TunContinue mypacket)
      | Some l => mret (TunSend l mypacket)
      end
  end.

Definition client_tun_send (l : loc) (mypacket : packetType) : X unit :=
  c ← get_skcp l;
  send c.(sk_writer_channel) mypacket.

Fixpoint client_tun_loop (turns fuel : nat) (tunnelid : Z) (mypacket : packetType) : X unit :=
  match turns with
  | O => mret tt
  | S turns' =>
      r ← client_tun_select fuel tunnelid mypacket;
      match r with
      | TunReturn => mret tt
      | TunContinue mypacket => client_tun_loop turns' fuel tunnelid mypacket
      | TunSend l mypacket =>
          client_tun_send l mypacket ;; client_tun_loop turns' fuel tunnelid mypacket
      end
  end.

(** The start of the goroutine: its one packet with its one buffer. *)
Definition client_tun_start (tunnelid : Z) : X (option packetType) :=
  b ← make_buffer 1500;
  server ← get_server tunnelid;
  match server.(xs_iface) with
  | None => mret None
  | Some _ => mret (Some (mkPacket 0 0 b))
  end.

Definition client_handle_tun (turns fuel : nat) (tunnelid : Z) : X unit :=
  r ← client_tun_start tunnelid;
  match r with
  | None => mret tt
  | Some mypacket => client_tun_loop turns fuel tunnelid mypacket
  end.

(** ** The writer of a connection *)

Definition client_kcp_writer_turn (tunnelid : Z) (l : loc) (data : loc) : X bool :=
  pkt ← receive data;
  c ← get_skcp l;
  kcp ← deref "nil *kcp.UDPSession" c.(sk_kcp);
  t ← time_Now;
  emit (EvKcpWriteDeadline kcp (t + Millisecond * 10)) ;;
  b ← slice pkt.(p_buff) pkt.(p_len);
  emit (EvKcpWrite kcp b) ;;
  t ← tick;
  match env_kcp_Write t kcp b with
  | Some _ =>
      server ← get_server tunnelid;
      client_disconnect_session_by_convid server.(xs_base_convid) c.(sk_convid) ;; mret false
  | None => upd_skcp l (setf sk_txcounter (fun n => u64 (n + 1))) ;; mret true
  end.

Fixpoint client_kcp_writer (turns : nat) (tunnelid : Z) (l : loc) (data : loc) : X unit :=
  match turns with
  | O => mret tt
  | S turns' =>
      continue ← client_kcp_writer_turn tunnelid l data;
      if (continue : bool) then client_kcp_writer turns' tunnelid l data else mret tt
  end.

(** ** The main loop *)

(** [netlink_get_routes] is code of the program outside this file. *)
Definition client_loop_turn (netlink_get_routes : Z → X unit) (tunnelid loopcount : Z) : X Z :=
  sleep_ms 10 ;;
  let loopcount := loopcount + 1 in
  whenM (bool_decide (loopcount mod 500 = 0)) client_send_server_pings ;;
  if bool_decide (loopcount mod 500 = 0) then netlink_get_routes tunnelid ;; mret 1
  else mret loopcount.

Fixpoint main_loop (turn : Z → X Z) (turns : nat) (loopcount : Z) : X Z :=
  match turns with
  | O => mret loopcount
  | S turns' => lc ← turn loopcount; main_loop turn turns' lc
  end.

Definition run_client (netlink_get_routes : Z → X unit) (turns : nat) : X Z :=
  let tunnelid := g_client_tunnelid / 10 * 10 in
  runthing "ip" ["-br"; "address"] ;;
  go (GoNetlinkIfaces tunnelid) ;;
  go (GoNetlinkRoutes tunnelid) ;;
  main_loop (client_loop_turn netlink_get_routes tunnelid) turns 1.
End client.
