(* ===== verification/ExpServer.v ===== *)
(** * The channel experiment: the server ([src/t/main_withchannels.go])

    The functions [server_*] and [main].  A tunnel of the server belongs to the
    connections whose ids agree up to the last decimal digit.  The reader of the
    tun interface chooses the connection before it reads the packet. *)
From stdpp Require Import base gmap sets list strings.
From Stdlib Require Import ZArith Lia.
From S2P Require Import Prelude GoNet Network Ring World Wire Client Server Chan ExpWorld ExpClient.
#[local] Open Scope Z_scope.

Section server.
Context {E : Env}.

(** ** Disconnecting *)

(** A tunnel that does not exist is reported and then dereferenced. *)
Definition server_disconnect_session_by_convid (tunnelid disc_convid : Z) : X unit :=
  client ← get_client tunnelid;
  keys ← range_keys (xc_conns client);
  for_each keys (fun convid =>
    client ← get_client tunnelid;
    match xc_conns client !! convid with
    | None => mret tt
    | Some l =>
        c ← get_ckcp l;
        whenM (bool_decide (c.(ck_convid) = disc_convid))
          (upd_client tunnelid (setf xc_last_convid (fun _ => 0)) ;;
           h ← deref "nil *kcp.UDPSession" c.(ck_kcp);
           emit (EvKcpClose h) ;;
           upd_client tunnelid (setf xc_kcps (fmap (delete convid))))
    end).

(** ** Accepting a connection *)

Definition base_of (convid : Z) : Z := convid / 10 * 10.

Definition server_setup_client (base_convid : Z) : X bool :=
  client ← get_client base_convid;
  match client.(xc_iface) with
  | Some _ => mret false
  | None =>
      '(iface, _) ← createTun g_server_tun_ip base_convid;
      upd_client base_convid (fun s => s <| xc_iface := iface |> <| xc_tun_ip := g_client_tun_ip |>
        <| xc_ifname := "tun" +:+ fmt_d base_convid |> <| xc_base_convid := base_convid |>) ;;
      mret true
  end.

Definition init_client_kcp (convid : Z) (conn : handle) (c : client_kcp) : client_kcp :=
  c <| ck_bandwidth := 10 |> <| ck_rxloss := 0 |> <| ck_txloss := 0 |> <| ck_alive := true |>
    <| ck_txcounter := 0 |> <| ck_priority := 0 |> <| ck_kcp := Some conn |>
    <| ck_convid := convid |> <| ck_src_address := remote_string conn |>.

Definition server_accept_conn (convid : Z) (conn : handle) : X unit :=
  let base_convid := base_of convid in
  w ← getS;
  match w.(g_client_list) !! base_convid with
  | Some _ => mret tt
  | None => modify (fun w => w <| g_client_list ::= insert base_convid new_clientType |>)
  end ;;
  spawn_tun ← server_setup_client base_convid;
  upd_client base_convid (setf xc_last_convid (fun _ => 0)) ;;
  l ← new_ckcp;
  upd_ckcp l (init_client_kcp convid conn) ;;
  ch ← make_channel 100;
  upd_ckcp l (setf ck_writer_channel (fun _ => Some ch)) ;;
  go (GoServerKcpWriter base_convid l ch) ;;
  upd_client base_convid (fun s =>
    s <| xc_kcps := Some (<[env_kcp_GetConv conn := l]> (xc_conns s)) |>) ;;
  setServerConnOptions (Some conn) ;;
  whenM spawn_tun (go (GoServerHandleTun base_convid)) ;;
  go (GoServerHandleKcpConn base_convid convid l).

(** The accept loop; an error ends it. *)
Fixpoint server_handle_kcp_listener (turns : nat) (listener : handle) : X unit :=
  match turns with
  | O => mret tt
  | S turns' =>
      t ← tick;
      match env_kcp_Accept t listener with
      | None => mret tt
      | Some conn =>
          go (GoServerAcceptConn (env_kcp_GetConv conn) conn) ;;
          server_handle_kcp_listener turns' listener
      end
  end.

(** ** The reader of a connection *)

(** The test for a hello looks at the first two bytes of the buffer, whatever
    the length of the message. *)
Definition starts_hello (message : list Z) : bool :=
  bool_decide (nth 0 message 0 = 0) && bool_decide (nth 1 message 0 = 0).

(** One turn, with the buffer of the goroutine; [None]: it returns. *)
Definition server_conn_turn (base_convid convid : Z) (l : loc) (conn : handle) (message : list Z)
    : X (option (list Z)) :=
  t ← tick;
  if bool_decide (env_kcp_GetState t conn = kcp_dead) then
    client ← get_client base_convid;
    server_disconnect_session_by_convid client.(xc_base_convid) (env_kcp_GetConv conn) ;; mret None
  else
    t ← tick;
    match env_kcp_Read t conn with
    | inr _ => server_disconnect_session_by_convid base_convid convid ;; mret None
    | inl data =>
        let message := data ++ drop (length data) message in
        if starts_hello message then
          t ← time_Now;
          upd_ckcp l (setf ck_last_hello (fun _ => Some t)) ;; mret (Some message)
        else
          client ← get_client base_convid;
          match client.(xc_iface) with
          | None => mret (Some message)
          | Some tun =>
              emit (EvTunWrite tun data) ;;
              t ← tick;
              match env_tun_Write t tun data with
              | Some _ => server_disconnect_session_by_convid base_convid convid ;; mret None
              | None => mret (Some message)
              end
          end
    end.

Fixpoint server_conn_loop (turns : nat) (base_convid convid : Z) (l : loc) (conn : handle)
    (message : list Z) : X unit :=
  match turns with
  | O => mret tt
  | S turns' =>
      r ← server_conn_turn base_convid convid l conn message;
      match r with
      | Some message => server_conn_loop turns' base_convid convid l conn message
      | None => mret tt
      end
  end.

Definition server_handle_kcp_conn (turns : nat) (base_convid convid : Z) (l : loc) : X unit :=
  c ← get_ckcp l;
  conn ← deref "nil *kcp.UDPSession" c.(ck_kcp);
  server_conn_loop turns base_convid convid l conn (replicate 1500 0).

(** ** Keep-alive: one ping goroutine per tunnel *)

Definition server_send_client_pings : X unit :=
  w ← getS;
  clients ← range_keys w.(g_client_list);
  for_each clients (fun base_convid =>
    get_client base_convid ;; go (GoServerPingClient base_convid)).

(** ** Choosing a connection *)

Fixpoint server_round_robin (base_convid : Z) (keys : list Z) (some_convid : Z) : X Z :=
  match keys with
  | [] => upd_client base_convid (setf xc_last_convid (fun _ => some_convid)) ;; mret some_convid
  | convid :: keys' =>
      client ← get_client base_convid;
      l ← deref "nil *client_kcp" (xc_conns client !! convid);
      c ← get_ckcp l;
      if negb (bool_decide (convid = client.(xc_last_convid))) && c.(ck_alive) then
        upd_client base_convid (setf xc_last_convid (fun _ => convid)) ;; mret convid
      else server_round_robin base_convid keys' convid
  end.

Definition server_choose_kcp_conn (base_convid : Z) : X Z :=
  client ← get_client base_convid;
  keys ← range_keys (xc_conns client);
  server_round_robin base_convid keys 0.

(** ** The reader of the tun interface *)

Fixpoint server_pick (fuel : nat) (base_convid : Z) : X (option loc) :=
  match fuel with
  | O => deadlock
  | S fuel' =>
      chose_convid ← server_choose_kcp_conn base_convid;
      client ← get_client base_convid;
      match xc_conns client !! chose_convid with
      | None => sleep_ms 100 ;; mret None
      | Some l =>
          c ← get_ckcp l;
          match c.(ck_kcp) with
          | None => sleep_ms 100 ;; mret None
          | Some conn =>
              t ← tick;
              if bool_decide (env_kcp_GetState t conn = kcp_dead) then
                server_disconnect_session_by_convid client.(xc_base_convid) (env_kcp_GetConv conn) ;;
                server_pick fuel' base_convid
              else mret (Some l)
          end
      end
  end.

(** A turn up to the send; a read error is a panic. *)
Definition server_tun_select (fuel : nat) (base_convid : Z) (mypacket : packetType) : X tun_turn :=
  r ← server_pick fuel base_convid;
  match r with
  | None => mret (TunContinue mypacket)
  | Some l =>
      client ← get_client base_convid;
      tun ← deref "nil *water.Interface" client.(xc_iface);
      t ← tick;
      match env_tun_Read t tun with
      | inr _ => panic "tun iface read error"
      | inl data =>
          fill mypacket.(p_buff) data ;;
          mret (TunSend l (mypacket <| p_len := Z.of_nat (length data) |>))
      end
  end.

Definition server_tun_send (l : loc) (mypacket : packetType) : X unit :=
  c ← get_ckcp l;
  send c.(ck_writer_channel) mypacket.

Fixpoint server_tun_loop (turns fuel : nat) (base_convid : Z) (mypacket : packetType) : X unit :=
  match turns with
  | O => mret tt
  | S turns' =>
      r ← server_tun_select fuel base_convid mypacket;
      match r with
      | TunReturn => mret tt
      | TunContinue mypacket => server_tun_loop turns' fuel base_convid mypacket
      | TunSend l mypacket =>
          server_tun_send l mypacket ;; server_tun_loop turns' fuel base_convid mypacket
      end
  end.

(** The start of the goroutine: its one packet with its one buffer. *)
Definition server_tun_start (base_convid : Z) : X (option packetType) :=
  client ← get_client base_convid;
  match client.(xc_iface) with
  | None => mret None
  | Some iface =>
      deref "nil *water.Interface" (env_tun_Name (Some iface)) ;;
      b ← make_buffer 1500;
      mret (Some (mkPacket 0 0 b))
  end.

Definition server_handle_tun (turns fuel : nat) (base_convid : Z) : X unit :=
  r ← server_tun_start base_convid;
  match r with
  | None => mret tt
  | Some mypacket => server_tun_loop turns fuel base_convid mypacket
  end.

(** ** The writer of a connection *)

Definition server_kcp_writer_turn (base_convid : Z) (l : loc) (data : loc) : X bool :=
  pkt ← receive data;
  c ← get_ckcp l;
  kcp ← deref "nil *kcp.UDPSession" c.(ck_kcp);
  t ← time_Now;
  emit (EvKcpWriteDeadline kcp (t + Millisecond * 10)) ;;
  b ← slice pkt.(p_buff) pkt.(p_len);
  emit (EvKcpWrite kcp b) ;;
  t ← tick;
  match env_kcp_Write t kcp b with
  | Some _ =>
      client ← get_client base_convid;
      server_disconnect_session_by_convid client.(xc_base_convid) (env_kcp_GetConv kcp) ;; mret false
  | None => upd_ckcp l (setf ck_txcounter (fun n => u64 (n + 1))) ;; mret true
  end.

Fixpoint server_kcp_writer (turns : nat) (base_convid : Z) (l : loc) (data : loc) : X unit :=
  match turns with
  | O => mret tt
  | S turns' =>
      continue ← server_kcp_writer_turn base_convid l data;
      if (continue : bool) then server_kcp_writer turns' base_convid l data else mret tt
  end.

(** ** The main loop and the entry point *)

Definition server_loop_turn (loopcount : Z) : X Z :=
  sleep_ms 10 ;;
  let loopcount := loopcount + 1 in
  whenM (bool_decide (loopcount mod 500 = 0)) server_send_client_pings ;;
  mret (if bool_decide (loopcount mod 500 = 0) then 1 else loopcount).

(** A listener that does not open ends the function. *)
Definition run_server (turns : nat) : X (option Z) :=
  '(listener, err) ← createListener;
  match err with
  | Some _ => mret None
  | None =>
      h ← deref "nil *kcp.Listener" listener;
      emit (EvKcpReadBuffer h g_buffer_size) ;;
      emit (EvKcpWriteBuffer h g_buffer_size) ;;
      go (GoServerListener h) ;;
      runthing "ip" ["-br"; "address"] ;;
      lc ← main_loop server_loop_turn turns 1;
      mret (Some lc)
  end.

(** [kong_Parse]: debug and trace, which only concern the log, and the command. *)
Definition main (kong_Parse : outcome (bool * bool * string))
    (netlink_get_routes : Z → X unit) (turns : nat) : X unit :=
  '(_, _, command) ← lift kong_Parse;
  if bool_decide (command = "client") then run_client netlink_get_routes turns ;; mret tt
  else if bool_decide (command = "server") then run_server turns ;; mret tt
  else panic command.
End server.
