(* ===== verification/ExpSpec.v ===== *)
(** * The channel experiment: what the client promises

    The abstract state of a tunnel is the map of its links, id to interface and
    source address.  [client_ok] is the well-formedness of tunnels, connection
    records, channels and buffers; [kept] says that a step keeps it, adds no
    link, and leaves every packet in its buffer. *)
From stdpp Require Import base gmap sets list strings.
From Stdlib Require Import ZArith Lia.
From S2P Require Import Prelude GoNet Network Ring World Wire Client ClientConnect Chan ExpWorld ExpClient.
#[local] Open Scope Z_scope.

(** NewConn3 gives a session of the id it is asked for. *)
Class KcpLaws (E : Env) :=
  kcp_new_conv t convid addr b d p conn h :
    env_kcp_NewConn t convid addr b d p conn = Some h → env_kcp_GetConv h = convid.

Section spec.
Context {E : Env} {EL : EnvLaws E} {KL : KcpLaws E}.
Implicit Types (w : xworld).

(** A packet whose bytes are in its buffer. *)
Definition pkt_ok (bufs : gmap loc (list Z)) (p : packetType) : Prop :=
  ∃ buf, bufs !! p.(p_buff) = Some buf ∧ 0 <= p.(p_len) <= Z.of_nat (length buf).

Definition queue_ok (bufs : gmap loc (list Z)) (q : chan packetType) : Prop :=
  q.(ch_cap) = 100%nat ∧ chan_ok q ∧ Forall (pkt_ok bufs) q.(ch_items).

Definition conn_ok (heap : gmap loc server_kcp) (chans : gmap loc (chan packetType)) (k : Z) (l : loc)
    : Prop :=
  ∃ c kcp ch, heap !! l = Some c ∧ c.(sk_convid) = k ∧ c.(sk_kcp) = Some kcp ∧
    env_kcp_GetConv kcp = k ∧ c.(sk_writer_channel) = Some ch ∧ is_Some (chans !! ch).

Definition xlink : Type := string * string.
Definition xlink_of (c : server_kcp) : xlink := (c.(sk_ifname), c.(sk_src_address)).

Definition xlinks w (tid : Z) : gmap Z xlink :=
  match w.(g_server_list) !! tid with
  | Some s => omap (λ l, xlink_of <$> w.(x_skcps) !! l) (xs_conns s)
  | None => ∅
  end.

Record tunnel_ok (heap : gmap loc server_kcp) (chans : gmap loc (chan packetType)) (tid : Z)
    (s : serverType) : Prop := {
  ok_conn : map_Forall (conn_ok heap chans) (xs_conns s);
  ok_ids : map_Forall (λ k _, tid <= k < tid + 10) (xs_conns s);
  ok_base : is_Some s.(xs_kcps) ∨ is_Some s.(xs_iface) → s.(xs_base_convid) = tid
}.

Record client_ok w : Prop := {
  ok_tunnels : map_Forall (tunnel_ok w.(x_skcps) w.(x_chans)) w.(g_server_list);
  ok_sources : ∀ tid k1 k2 lk1 lk2, xlinks w tid !! k1 = Some lk1 → xlinks w tid !! k2 = Some lk2 →
    lk1.2 = lk2.2 → k1 = k2;
  ok_queues : map_Forall (λ _, queue_ok w.(x_bufs)) w.(x_chans);
  ok_fresh : (∀ l, is_Some (w.(x_skcps) !! l) → (l < w.(x_next))%nat) ∧
    (∀ l, is_Some (w.(x_chans) !! l) → (l < w.(x_next))%nat) ∧
    (∀ l, is_Some (w.(x_bufs) !! l) → (l < w.(x_next))%nat)
}.

Definition kept w w' : Prop :=
  client_ok w → client_ok w' ∧ (∀ tid, xlinks w' tid ⊆ xlinks w tid) ∧
    ∀ p, pkt_ok w.(x_bufs) p → pkt_ok w'.(x_bufs) p.

#[export] Instance kept_preorder : PreOrder kept.
Proof.
  split; [intros w Hw; split_and!; [done|by intros|by intros]|]. intros w1 w2 w3 H1 H2 Hw.
  destruct (H1 Hw) as (Hw2 & Hl2 & Hp2). destruct (H2 Hw2) as (Hw3 & Hl3 & Hp3).
  split_and!; [done| |by eauto]. intros tid. by transitivity (xlinks w2 tid).
Qed.

(** ** Steps that touch no data *)

Definition same w w' : Prop :=
  w'.(g_server_list) = w.(g_server_list) ∧ w'.(x_skcps) = w.(x_skcps) ∧
  w'.(x_chans) = w.(x_chans) ∧ w'.(x_bufs) = w.(x_bufs) ∧ w'.(x_next) = w.(x_next) ∧
  w'.(g_client_list) = w.(g_client_list) ∧ w'.(x_ckcps) = w.(x_ckcps).

Lemma same_refl w : same w w.
Proof. by unfold same. Qed.
Lemma same_links w w' tid : same w w' → xlinks w' tid = xlinks w tid.
Proof. intros (H1 & H2 & _). unfold xlinks. by rewrite H1, H2. Qed.
Lemma same_ok w w' : same w w' → client_ok w → client_ok w'.
Proof.
  intros Hs [H1 H2 H3 H4]. pose proof (same_links w w') as Hl.
  pose proof Hs as (E1 & E2 & E3 & E4 & E5 & _). split; rewrite ?E1, ?E2, ?E3, ?E4, ?E5; try done.
  intros tid. rewrite !Hl by done. apply H2.
Qed.
Lemma same_kept w w' : same w w' → kept w w'.
Proof.
  intros Hs Hok. split_and!; [by eapply same_ok| |].
  - intros tid. by rewrite (same_links w w').
  - intros p. destruct Hs as (_ & _ & _ & -> & _). done.
Qed.

Lemma same_tick w : preserves (same w) tick.
Proof. by intros w' Hw. Qed.
Lemma same_record w e : preserves (same w) (record e).
Proof. by intros w' Hw. Qed.
Lemma same_get_server w tid : preserves (same w) (get_server tid).
Proof. unfold get_server. preserve. Qed.
Lemma same_get_skcp w l : preserves (same w) (get_skcp l).
Proof. unfold get_skcp. preserve. Qed.
#[local] Hint Resolve same_tick same_record same_get_server same_get_skcp : preserves.
Lemma same_emit w e : preserves (same w) (emit e).
Proof. apply same_record. Qed.
Lemma same_go w g : preserves (same w) (go g).
Proof. apply same_record. Qed.
#[local] Hint Resolve same_emit same_go : preserves.
Lemma same_sleep w ms : preserves (same w) (sleep_ms ms).
Proof. apply same_emit. Qed.
Lemma same_time_Now w : preserves (same w) time_Now.
Proof. unfold time_Now. preserve. Qed.
Lemma same_range_keys {A} w (m : gmap Z A) : preserves (same w) (range_keys m).
Proof. unfold range_keys. preserve. Qed.
Lemma same_runthing w p args : preserves (same w) (runthing p args).
Proof. unfold runthing. preserve. Qed.
Lemma same_slice w b n : preserves (same w) (slice b n).
Proof. unfold slice. preserve. Qed.
#[local] Hint Resolve same_sleep same_time_Now @same_range_keys same_runthing same_slice : preserves.
Lemma same_set_options w conn opts : preserves (same w) (set_options conn opts).
Proof. unfold set_options. preserve. Qed.
Lemma same_create_udp_conn w convid src : preserves (same w) (create_udp_conn convid src).
Proof. unfold create_udp_conn. preserve. Qed.
Lemma same_createTun w ip convid : preserves (same w) (createTun ip convid).
Proof. unfold createTun. preserve. Qed.
Lemma same_client_close w l : preserves (same w) (client_close l).
Proof. unfold client_close. preserve. Qed.
Lemma same_send_hello w l : preserves (same w) (client_send_hello l).
Proof. unfold client_send_hello. preserve. Qed.
#[local] Hint Resolve same_set_options same_create_udp_conn same_createTun same_client_close
  same_send_hello : preserves.
Lemma same_pings w : preserves (same w) client_send_server_pings.
Proof. unfold client_send_server_pings. preserve. Qed.

Lemma kept_same {A} (m : X A) : (∀ w, preserves (same w) m) → respects kept m.
Proof. apply respects_preserves; [apply same_refl|apply same_kept]. Qed.
Lemma wlp_same {A} (m : X A) w : (∀ w, preserves (same w) m) → wlp m (λ _ w', same w w') w.
Proof. intros H. apply wlp_preserves; [apply H|apply same_refl]. Qed.
Lemma wp_same {A} (m : X A) Q w :
  wp m Q w → (∀ w, preserves (same w) m) → wp m (λ a w', Q a w' ∧ same w w') w.
Proof. intros Hm H. by apply wp_preserves; [|apply H|apply same_refl]. Qed.

(** ** Steps that change one part *)

Lemma xlinks_lookup w tid s k :
  w.(g_server_list) !! tid = Some s →
  xlinks w tid !! k = xs_conns s !! k ≫= λ l, xlink_of <$> w.(x_skcps) !! l.
Proof. intros Hs. unfold xlinks. by rewrite Hs, lookup_omap. Qed.

Lemma xlisted_conn w tid s k l :
  client_ok w → w.(g_server_list) !! tid = Some s → xs_conns s !! k = Some l →
  conn_ok w.(x_skcps) w.(x_chans) k l.
Proof. intros Hok Hs Hk. exact (ok_conn _ _ _ _ (ok_tunnels _ Hok _ _ Hs) _ _ Hk). Qed.

(** A tunnel with some of its connections, and the links they are. *)
Lemma set_server_kept tid s s' w (w' := w <| g_server_list ::= insert tid s' |>) :
  w.(g_server_list) !! tid = Some s → xs_conns s' ⊆ xs_conns s →
  (is_Some s'.(xs_kcps) ∨ is_Some s'.(xs_iface) → s'.(xs_base_convid) = tid) → kept w w'.
Proof.
  intros Hs Hsub Hbase Hok. assert (∀ t, xlinks w' t ⊆ xlinks w t) as Hl.
  { intros t. unfold xlinks. simpl. destruct (decide (t = tid)) as [->|Hne].
    - rewrite lookup_insert_eq, Hs. apply map_subseteq_spec. intros k lk.
      rewrite !lookup_omap_Some. intros (l & Hlk & Hk). exists l. split; [done|].
      by eapply lookup_weaken.
    - by rewrite lookup_insert_ne by done. }
  split; [|by split]. destruct Hok as [H1 H2 H3 H4]. split; [| |done..].
  - intros t st. simpl. rewrite lookup_insert_Some. intros [[<- <-]|[_ Hst]]; [|by apply H1].
    destruct (H1 tid s Hs) as [C1 C2 _]. split; [| |done].
    + intros k l Hk. apply C1. by eapply lookup_weaken.
    + intros k l Hk. apply (C2 k l). by eapply lookup_weaken.
  - intros t k1 k2 lk1 lk2 Hk1 Hk2. eapply H2; eapply lookup_weaken; [done|apply Hl|done|apply Hl].
Qed.

Lemma kept_upd_server tid f :
  (∀ s, xs_conns (f s) ⊆ xs_conns s ∧ (is_Some (f s).(xs_kcps) → is_Some s.(xs_kcps)) ∧
    (f s).(xs_iface) = s.(xs_iface) ∧ (f s).(xs_base_convid) = s.(xs_base_convid)) →
  respects kept (upd_server tid f).
Proof.
  intros Hf w. apply xwlp_upd_server. intros s Hs Hok. destruct (Hf s) as (H1 & H2 & H3 & H4).
  eapply set_server_kept; [done|done| |done]. rewrite H3, H4.
  pose proof (ok_base _ _ _ _ (ok_tunnels _ Hok _ _ Hs)). tauto.
Qed.

Lemma kept_last_convid tid k : respects kept (upd_server tid (setf xs_last_convid (fun _ => k))).
Proof. apply kept_upd_server. intros []. by split_and!. Qed.

Lemma kept_delete tid k : respects kept (upd_server tid (setf xs_kcps (fmap (delete k)))).
Proof.
  apply kept_upd_server. intros s. split_and!; [|simpl; by rewrite fmap_is_Some|done|done].
  unfold xs_conns. simpl. destruct (xs_kcps s); [apply delete_subseteq|done].
Qed.

(** The part of a connection record that never changes. *)
Definition core_eq (c c' : server_kcp) : Prop :=
  c'.(sk_convid) = c.(sk_convid) ∧ c'.(sk_kcp) = c.(sk_kcp) ∧
  c'.(sk_writer_channel) = c.(sk_writer_channel) ∧ xlink_of c' = xlink_of c.

Lemma kept_upd_skcp l f : (∀ c, core_eq c (f c)) → respects kept (upd_skcp l f).
Proof.
  intros Hf w. apply wlp_upd_skcp. intros c Hc Hok. destruct (Hf c) as (F1 & F2 & F3 & F4).
  set (w' := w <| x_skcps ::= insert l (f c) |>).
  assert (∀ t, xlinks w' t = xlinks w t) as Hl.
  { intros t. unfold xlinks. simpl. destruct (g_server_list w !! t) as [s|]; [|done].
    apply map_eq. intros k. rewrite !lookup_omap. destruct (xs_conns s !! k) as [l'|]; [|done].
    simpl. destruct (decide (l' = l)) as [->|]; [|by rewrite lookup_insert_ne].
    rewrite lookup_insert_eq, Hc. simpl. by rewrite F4. }
  split; [|split; [intros t; by rewrite Hl|done]]. destruct Hok as [H1 H2 H3 (H4 & H5 & H6)].
  split; [|intros t; rewrite !Hl; apply H2|done|].
  - intros t s Hs. destruct (H1 t s Hs) as [C1 C2 C3]. split; [|done|done].
    intros k l' Hk. destruct (C1 k l' Hk) as (c0 & kcp & ch & Hc0 & HH). simpl.
    destruct (decide (l' = l)) as [->|]; [|exists c0, kcp, ch; by rewrite lookup_insert_ne].
    assert (c0 = c) as -> by congruence. exists (f c), kcp, ch.
    by rewrite lookup_insert_eq, F1, F2, F3.
  - split; [|done]. intros l'. simpl. destruct (decide (l' = l)) as [->|]; [intros _; apply H4; eauto|].
    rewrite lookup_insert_ne by done. apply H4.
Qed.

(** Channels and buffers. *)
Lemma set_chan_kept c q q' w :
  w.(x_chans) !! c = Some q → queue_ok w.(x_bufs) q' → kept w (w <| x_chans ::= insert c q' |>).
Proof.
  intros Hq Hq' [H1 H2 H3 (H4 & H5 & H6)]. split; [|by split]. split; [|done| |].
  - intros t s Hs. destruct (H1 t s Hs) as [C1 C2 C3]. split; [|done|done].
    intros k l Hk. destruct (C1 k l Hk) as (c0 & kcp & ch & ? & ? & ? & ? & ? & Hch).
    exists c0, kcp, ch. split_and!; try done. simpl. by apply lookup_insert_is_Some'; right.
  - intros c'. simpl. intros q0. rewrite lookup_insert_Some. intros [[_ <-]|[_ ?]]; [done|by eapply H3].
  - split; [done|]. split; [|done]. intros l. simpl. rewrite lookup_insert_is_Some'.
    intros [<-|?]; [|by apply H5]. by apply H5; eexists.
Qed.

Lemma kept_receive ch : respects kept (receive ch).
Proof.
  intros w. apply wlp_receive. intros q pkt q' Hq Hr Hok.
  destruct (ok_queues _ Hok _ _ Hq) as (Hcap & Hlen & Hall).
  pose proof (ch_recv_ok _ _ _ Hlen Hr) as Hok'. apply ch_recv_Some in Hr as [Hi Hc].
  eapply set_chan_kept; [done| |done]. rewrite Hi in Hall. apply Forall_cons in Hall as [_ Hall].
  split_and!; [congruence|done|done].
Qed.

Lemma wlp_send_kept ch pkt w : pkt_ok w.(x_bufs) pkt → wlp (send ch pkt) (λ _ w', kept w w') w.
Proof.
  intros Hp. apply wlp_send. intros c q q' -> Hq Hs Hok.
  destruct (ok_queues _ Hok _ _ Hq) as (Hcap & Hlen & Hall).
  apply ch_send_Some in Hs as (Hc & Hi & Hok'). eapply set_chan_kept; [done| |done].
  split_and!; [congruence|done|]. rewrite Hi. apply Forall_app. split; [done|by constructor].
Qed.

Lemma fill_pkt_ok b buf data (bufs : gmap loc (list Z)) p :
  bufs !! b = Some buf → pkt_ok bufs p → pkt_ok (<[b := data ++ drop (length data) buf]> bufs) p.
Proof.
  intros Hb (buf0 & H0 & Hlen). destruct (decide (p.(p_buff) = b)) as [<-|Hne].
  - exists (data ++ drop (length data) buf). rewrite lookup_insert_eq. split; [done|].
    rewrite length_app, length_drop. assert (buf0 = buf) as -> by congruence. lia.
  - exists buf0. by rewrite lookup_insert_ne.
Qed.

Lemma make_buffer_kept n w :
  wlp (make_buffer n) (λ b w', kept w w' ∧ is_Some (w'.(x_bufs) !! b)) w.
Proof.
  apply wlp_make_buffer. simpl. rewrite lookup_insert_eq. split; [|by eexists].
  intros [H1 H2 H3 (H4 & H5 & H6)].
  assert (∀ p, pkt_ok w.(x_bufs) p → pkt_ok (<[w.(x_next) := replicate n 0]> w.(x_bufs)) p) as Hp.
  { intros p (buf & Hb & Hlen). exists buf. split; [|done]. rewrite lookup_insert_ne; [done|].
    intros Heq. assert (p_buff p < x_next w)%nat; [apply H6; by eexists|lia]. }
  split; [|by split]. split; [done|done| |].
  - intros c q Hq. destruct (H3 c q Hq) as (Hcap & Hlen & Hall). split_and!; [done|done|].
    by eapply Forall_impl.
  - split_and!; simpl; intros l Hl; [apply H4 in Hl; lia|apply H5 in Hl; lia|].
    rewrite lookup_insert_is_Some' in Hl. destruct Hl as [<-|Hl]; [lia|apply H6 in Hl; lia].
Qed.

Lemma set_buf_kept b buf data w :
  w.(x_bufs) !! b = Some buf → kept w (w <| x_bufs ::= insert b (data ++ drop (length data) buf) |>).
Proof.
  intros Hb [H1 H2 H3 (H4 & H5 & H6)].
  assert (∀ p, pkt_ok w.(x_bufs) p →
    pkt_ok (<[b := data ++ drop (length data) buf]> w.(x_bufs)) p) as Hp
    by by intros p; apply fill_pkt_ok.
  split; [|by split]. split; [done|done| |].
  - intros c q Hq. destruct (H3 c q Hq) as (Hcap & Hlen & Hall). split_and!; [done|done|].
    by eapply Forall_impl.
  - split; [done|]. split; [done|]. intros l. simpl. rewrite lookup_insert_is_Some'.
    intros [<-|?]; [|by apply H6]. by apply H6; eexists.
Qed.

Lemma kept_fill b data : respects kept (fill b data).
Proof. intros w. apply wlp_fill. intros buf Hb. by apply set_buf_kept. Qed.
End spec.

#[export] Hint Resolve same_tick same_record same_get_server same_get_skcp same_emit same_go
  same_sleep same_time_Now @same_range_keys same_runthing same_slice same_set_options
  same_create_udp_conn same_createTun same_client_close same_send_hello same_pings : preserves.
#[export] Hint Resolve kept_last_convid kept_delete kept_receive kept_fill : respects.
#[export] Hint Extern 2 (respects kept _) =>
  apply kept_same; intros ?; solve [eauto with preserves] : respects.
#[export] Hint Extern 1 (respects kept (upd_skcp _ _)) =>
  apply kept_upd_skcp; intros []; by unfold core_eq : respects.
