(* ===== verification/ExpConnect.v ===== *)
(** * The channel experiment: refinement of [client_connect_server]

    A connect adds one link on the first free id of ten, or nothing when the
    source address has a link or all ten ids are used. *)
From stdpp Require Import base gmap sets list strings.
From Stdlib Require Import ZArith Lia.
From S2P Require Import Prelude GoNet Network Ring World Wire Client ClientConnect Chan ExpWorld.
From S2P Require Import ExpClient ExpSpec.
#[local] Open Scope Z_scope.

Section connect.
Context {E : Env} {EL : EnvLaws E} {KL : KcpLaws E}.
Implicit Types (w : xworld).

Definition has_source (src : string) (m : gmap Z xlink) : Prop :=
  map_Exists (λ _ lk, lk.2 = src) m.

(** Packets stay in their buffers. *)
Definition same_bufs w w' : Prop := w'.(x_bufs) = w.(x_bufs).

Definition connected (tid : Z) (src ifname : string) w w' : Prop :=
  client_ok w' ∧ same_bufs w w' ∧ (∀ t, t ≠ tid → xlinks w' t = xlinks w t) ∧
  (if bool_decide (has_source src (xlinks w tid)) then xlinks w' tid = xlinks w tid
   else
     (∀ k, tid <= k < tid + 10 → is_Some (xlinks w tid !! k)) ∧ xlinks w' tid = xlinks w tid ∨
     ∃ avail, tid <= avail < tid + 10 ∧ (∀ k, tid <= k < avail → is_Some (xlinks w tid !! k)) ∧
       xlinks w tid !! avail = None ∧ xlinks w' tid = <[avail := (ifname, src)]> (xlinks w tid)).

Lemma source_exists_spec src w tid s :
  client_ok w → w.(g_server_list) !! tid = Some s →
  client_connection_by_src_exists src (xs_conns s) w.(x_skcps) = true ↔ has_source src (xlinks w tid).
Proof.
  intros Hok Hs. unfold client_connection_by_src_exists, has_source.
  rewrite existsb_exists. unfold map_Exists. split.
  - intros (l & Hl & Hb). apply list_elem_of_In, list_elem_of_fmap in Hl as ([k l'] & -> & Hk).
    apply elem_of_map_to_list in Hk. simpl in *. destruct (x_skcps w !! l') as [c|] eqn:Hc; [|done].
    exists k, (xlink_of c). rewrite (xlinks_lookup w tid s), Hk by done. simpl. rewrite Hc.
    split; [done|]. by apply bool_decide_eq_true in Hb.
  - intros (k & lk & Hk & Hsrc). rewrite (xlinks_lookup w tid s) in Hk by done.
    destruct (xs_conns s !! k) as [l|] eqn:Hl; [|done]. simpl in Hk.
    destruct (x_skcps w !! l) as [c|] eqn:Hc; [|done]. simpl in Hk. injection Hk as <-.
    exists l. rewrite Hc. split; [|by apply bool_decide_eq_true].
    apply list_elem_of_In, list_elem_of_fmap. exists (k, l). split; [done|]. by apply elem_of_map_to_list.
Qed.

Lemma xlinks_is_Some w tid s k :
  client_ok w → w.(g_server_list) !! tid = Some s →
  is_Some (xlinks w tid !! k) ↔ is_Some (xs_conns s !! k).
Proof.
  intros Hok Hs. rewrite (xlinks_lookup w tid s) by done.
  destruct (xs_conns s !! k) as [l|] eqn:Hk; [|by split; intros [? ?]].
  destruct (xlisted_conn w tid s k l Hok Hs Hk) as (c & kcp & ch & Hc & _). simpl. rewrite Hc. simpl.
  split; by eexists.
Qed.

(** Replacing a tunnel by one with the same connections, or a new one. *)
Lemma xset_server_ok tid s' w (w' := w <| g_server_list ::= insert tid s' |>) :
  client_ok w → xs_conns s' = default ∅ (xs_conns <$> w.(g_server_list) !! tid) →
  (is_Some s'.(xs_kcps) ∨ is_Some s'.(xs_iface) → s'.(xs_base_convid) = tid) →
  client_ok w' ∧ ∀ t, xlinks w' t = xlinks w t.
Proof.
  intros Hok Hc Hb. assert (∀ t, xlinks w' t = xlinks w t) as Hl.
  { intros t. unfold xlinks. simpl. destruct (decide (t = tid)) as [->|Hne].
    - rewrite lookup_insert_eq, Hc. destruct (g_server_list w !! tid); [done|]. apply omap_empty.
    - by rewrite lookup_insert_ne by done. }
  split; [|done]. destruct Hok as [H1 H2 H3 H4]. split; [| |done..].
  - intros t st. simpl. rewrite lookup_insert_Some. intros [[<- <-]|[_ ?]]; [|by apply H1].
    destruct (g_server_list w !! tid) as [s|] eqn:Hs; simpl in Hc.
    + destruct (H1 _ _ Hs) as [C1 C2 _]. by split; rewrite ?Hc.
    + by split; rewrite ?Hc.
  - intros t. rewrite Hl. apply H2.
Qed.

Lemma wlp_ensure_server tid w :
  client_ok w →
  wlp (match w.(g_server_list) !! tid with
       | Some _ => mret tt
       | None => modify (fun w => w <| g_server_list ::= insert tid new_serverType |>) end)
    (λ _ w', client_ok w' ∧ same_bufs w w' ∧ (∀ t, xlinks w' t = xlinks w t)) w.
Proof.
  intros Hok. destruct (g_server_list w !! tid) as [s|] eqn:Hs.
  - by apply wlp_ret.
  - apply wlp_modify.
    destruct (xset_server_ok tid new_serverType w Hok) as [Hok' Hl]; [by rewrite Hs|by intros [[? ?]|[? ?]]|].
    by split_and!.
Qed.

Lemma wlp_setup tid w :
  client_ok w →
  wlp (client_setup_server tid) (λ _ w', client_ok w' ∧ same_bufs w w' ∧
    (∀ t, xlinks w' t = xlinks w t) ∧
    ∃ s, w'.(g_server_list) !! tid = Some s ∧ is_Some s.(xs_kcps) ∧ s.(xs_base_convid) = tid) w.
Proof.
  intros Hok. unfold client_setup_server. apply wlp_bind, xwlp_get_server. intros s Hs.
  apply wlp_bind. apply (wlp_mono _ (λ _ w1, client_ok w1 ∧ same_bufs w w1 ∧
    (∀ t, xlinks w1 t = xlinks w t) ∧
    ∃ s, w1.(g_server_list) !! tid = Some s ∧ s.(xs_base_convid) = tid)).
  - destruct (xs_iface s) as [h|] eqn:Hi.
    + apply wlp_ret. split_and!; [done|done|done|]. exists s. split; [done|].
      apply (ok_base _ _ _ _ (ok_tunnels _ Hok _ _ Hs)). right. by rewrite Hi.
    + apply wlp_bind. eapply wlp_mono; [apply wlp_same; intros ?; apply same_createTun|].
      intros [iface err] w1 Hq. pose proof (same_ok _ _ Hq Hok) as Hok1.
      apply wlp_bind, xwlp_upd_server. intros s1 Hs1. apply wlp_ret.
      match goal with |- context [insert tid ?x] => set (s2 := x) end.
      destruct (xset_server_ok tid s2 w1 Hok1) as [Hok2 Hl2]; [by rewrite Hs1|done|].
      split_and!; [done| | |].
      * unfold same_bufs. simpl. apply Hq.
      * intros t. by rewrite Hl2, (same_links w w1).
      * exists s2. simpl. by rewrite lookup_insert_eq.
  - intros spawn w1 (Hok1 & Hb1 & Hl1 & s1 & Hs1 & Hbase).
    apply wlp_bind, xwlp_get_server. intros s1' Hs1'. assert (s1' = s1) as -> by congruence.
    apply wlp_bind. destruct (xs_kcps s1) as [m|] eqn:Hm.
    + apply wlp_ret, wlp_ret. split_and!; [done..|]. exists s1. by rewrite Hm.
    + apply xwlp_upd_server. intros s1' Hs1''. assert (s1' = s1) as -> by congruence. apply wlp_ret.
      match goal with |- context [insert tid ?x] => set (s2 := x) end.
      destruct (xset_server_ok tid s2 w1 Hok1) as [Hok2 Hl2]; [|by intros _|].
      { rewrite Hs1. simpl. unfold xs_conns. by rewrite Hm. }
      split_and!; [done|done| |].
      * intros t. by rewrite Hl2.
      * exists s2. simpl. rewrite lookup_insert_eq. by split_and!.
Qed.

Lemma wlp_create_udp_conn convid src w :
  wlp (create_udp_conn convid src) (λ r w', same w w' ∧
    (∀ h, r.1.1 = Some h → env_kcp_GetConv h = convid)) w.
Proof.
  apply wlp_and; [apply wlp_same; intros ?; apply same_create_udp_conn|].
  unfold create_udp_conn. apply wlp_bind, xwlp_tick.
  destruct (ResolveUDPAddr _ _); [|by apply wlp_ret].
  apply wlp_bind, xwlp_tick. destruct (ResolveUDPAddr _ _) as [[ip port]|]; [|by apply wlp_ret].
  apply wlp_bind, xwlp_tick. destruct (env_ListenUDP _ _); [|by apply wlp_ret].
  apply wlp_bind, xwlp_tick, wlp_ret. intros h Hh. simpl in Hh. by eapply kcp_new_conv.
Qed.

(** Connections of other records are not touched by a new record and channel. *)
Lemma conn_ok_grow heap chans l c ch q k l' :
  heap !! l = None → conn_ok heap chans k l' →
  conn_ok (<[l := c]> heap) (<[ch := q]> chans) k l' ∧ <[l := c]> heap !! l' = heap !! l'.
Proof.
  intros Hl (c0 & kcp & ch0 & C1 & C2 & C3 & C4 & C5 & C6).
  assert (l ≠ l') as Hne by congruence. rewrite lookup_insert_ne by done. split; [|done].
  exists c0, kcp, ch0. rewrite lookup_insert_ne by done. split_and!; try done.
  rewrite lookup_insert_is_Some'. by right.
Qed.

(** The state with the new connection. *)
Lemma xadded_ok tid avail src ifname s conns l ch c kcp w w' :
  client_ok w → w.(g_server_list) !! tid = Some s → s.(xs_kcps) = Some conns →
  s.(xs_base_convid) = tid → tid <= avail < tid + 10 → conns !! avail = None →
  ¬ has_source src (xlinks w tid) →
  c.(sk_convid) = avail → c.(sk_kcp) = Some kcp → env_kcp_GetConv kcp = avail →
  c.(sk_writer_channel) = Some ch → xlink_of c = (ifname, src) →
  l = w.(x_next) → ch = S w.(x_next) → w'.(x_next) = S (S w.(x_next)) →
  w'.(g_server_list) = <[tid := s <| xs_last_convid := 0 |> <| xs_kcps := Some (<[avail := l]> conns) |>]>
    w.(g_server_list) →
  w'.(x_skcps) = <[l := c]> w.(x_skcps) → w'.(x_chans) = <[ch := make_chan 100]> w.(x_chans) →
  w'.(x_bufs) = w.(x_bufs) →
  client_ok w' ∧ (∀ t, t ≠ tid → xlinks w' t = xlinks w t) ∧
  xlinks w' tid = <[avail := (ifname, src)]> (xlinks w tid).
Proof.
  intros Hok Hs Hconns Hbase Hav Hfree Hsrc F1 F2 F3 F4 F5 Hl Hch E1 E2 E3 E4 E5.
  pose proof Hok as [H1 H2 H3 (H4 & H5 & H6)].
  assert (w.(x_skcps) !! l = None) as Hfr.
  { apply eq_None_not_Some. intros Hi%H4. lia. }
  assert (∀ t st k l', w.(g_server_list) !! t = Some st → xs_conns st !! k = Some l' →
    conn_ok w'.(x_skcps) w'.(x_chans) k l' ∧ w'.(x_skcps) !! l' = w.(x_skcps) !! l') as Hkeep.
  { intros t st k l' Hst Hk. rewrite E3, E4. apply conn_ok_grow; [done|by eapply xlisted_conn]. }
  assert (∀ t, t ≠ tid → xlinks w' t = xlinks w t) as Hother.
  { intros t Ht. unfold xlinks. rewrite E2, lookup_insert_ne by done.
    destruct (g_server_list w !! t) as [st|] eqn:Hst; [|done]. apply map_eq. intros k.
    rewrite !lookup_omap. destruct (xs_conns st !! k) as [l'|] eqn:Hk; [|done]. simpl.
    destruct (Hkeep t st k l' Hst Hk) as [_ ->]. done. }
  assert (xs_conns s = conns) as Hcs by (unfold xs_conns; by rewrite Hconns).
  assert (xlinks w' tid = <[avail := (ifname, src)]> (xlinks w tid)) as Hnew.
  { unfold xlinks. rewrite E2, lookup_insert_eq, Hs. apply map_eq. intros k.
    unfold xs_conns at 1. simpl. rewrite lookup_omap. destruct (decide (k = avail)) as [->|Hne].
    - rewrite !lookup_insert_eq. simpl. rewrite E3, lookup_insert_eq. simpl. by rewrite F5.
    - rewrite !lookup_insert_ne, lookup_omap, Hcs by done.
      destruct (conns !! k) as [l'|] eqn:Hk; [|done]. simpl.
      rewrite <- Hcs in Hk. by destruct (Hkeep tid s k l' Hs Hk) as [_ ->]. }
  split; [|done]. split.
  - intros t st. rewrite E2, lookup_insert_Some. intros [[<- <-]|[Hne Hst]].
    + split; [| |by intros _].
      * intros k l'. unfold xs_conns. simpl. rewrite lookup_insert_Some. intros [[<- <-]|[_ Hk]].
        -- exists c, kcp, ch. rewrite E3, E4, !lookup_insert_eq. by split_and!.
        -- rewrite <- Hcs in Hk. by destruct (Hkeep tid s k l' Hs Hk).
      * intros k l'. unfold xs_conns. simpl. rewrite lookup_insert_Some. intros [[<- _]|[_ Hk]]; [lia|].
        rewrite <- Hcs in Hk. exact (ok_ids _ _ _ _ (H1 _ _ Hs) _ _ Hk).
    + destruct (H1 t st Hst) as [C1 C2 C3]. split; [|done|done].
      intros k l' Hk. by destruct (Hkeep t st k l' Hst Hk).
  - intros t k1 k2 lk1 lk2. destruct (decide (t = tid)) as [->|Ht]; [|rewrite Hother by done; apply H2].
    rewrite Hnew, !lookup_insert_Some. intros [[<- <-]|[_ L1]] [[<- <-]|[_ L2]]; simpl; intros Heq.
    + done.
    + destruct Hsrc. by exists k2, lk2.
    + destruct Hsrc. by exists k1, lk1.
    + by eapply H2.
  - intros ch' q. rewrite E4, E5, lookup_insert_Some. intros [[_ <-]|[_ ?]]; [|by eapply H3].
    split_and!; [done|apply make_chan_ok|by constructor].
  - rewrite E1, E3, E4, E5. split_and!; intros l'; rewrite ?lookup_insert_is_Some'.
    + intros [<-|?]; [lia|]. pose proof (H4 l'). naive_solver lia.
    + intros [<-|?]; [lia|]. pose proof (H5 l'). naive_solver lia.
    + intros ?. pose proof (H6 l'). naive_solver lia.
Qed.
Lemma wlp_add_connection tid avail src ifname spawn s w :
  client_ok w → w.(g_server_list) !! tid = Some s → is_Some s.(xs_kcps) →
  s.(xs_base_convid) = tid → tid <= avail < tid + 10 → xs_conns s !! avail = None →
  ¬ has_source src (xlinks w tid) →
  wlp (client_add_connection tid avail src ifname spawn) (λ _ w',
    client_ok w' ∧ same_bufs w w' ∧ (∀ t, t ≠ tid → xlinks w' t = xlinks w t) ∧
    xlinks w' tid = <[avail := (ifname, src)]> (xlinks w tid)) w.
Proof.
  intros Hok Hs [conns Hconns] Hbase Hav Hfree Hsrc.
  assert (xs_conns s = conns) as Hcs by (unfold xs_conns; by rewrite Hconns). rewrite Hcs in Hfree.
  unfold client_add_connection. apply wlp_bind, xwlp_upd_server. intros s0 Hs0.
  assert (s0 = s) as -> by congruence.
  apply wlp_bind. eapply wlp_mono; [apply wlp_create_udp_conn|].
  intros [[kcp conn] err] w2 [Hq Hconv]. simpl in Hconv.
  destruct err as [e|]; [apply wlp_panic|].
  destruct kcp as [kcp|].
  2: { do 6 (apply wlp_skip; intros ? ?). by apply wlp_bind, wlp_deref. }
  destruct Hq as (Q1 & Q2 & Q3 & Q4 & Q5 & _). simpl in Q1, Q2, Q3, Q4, Q5.
  assert (∀ (rest : X unit) (Q : unit → xworld → Prop) w0, (∀ w, preserves (same w) rest) →
    (∀ w', same w0 w' → Q tt w') → wlp rest Q w0) as Hrest.
  { intros rest Q w0 Hr HQ. eapply wlp_mono; [by apply wlp_same|]. intros [] w'. apply HQ. }
  apply wlp_bind, wlp_new_skcp.
  apply wlp_bind, xwlp_upd_server. intros s2 Hs2. simpl in Hs2. rewrite Q1, lookup_insert_eq in Hs2.
  injection Hs2 as <-. apply wlp_bind, wlp_upd_skcp. intros c0 Hc0. simpl in Hc0.
  rewrite lookup_insert_eq in Hc0. injection Hc0 as <-.
  apply wlp_bind, wlp_make_channel.
  apply wlp_bind, wlp_upd_skcp. intros c1 Hc1. simpl in Hc1. rewrite lookup_insert_eq in Hc1.
  injection Hc1 as <-.
  match goal with |- wlp _ _ ?x => set (w3 := x) end.
  apply Hrest.
  { intros w0. preserve. }
  intros w' Hq3. pose proof (λ t, same_links w3 w' t Hq3) as Hl.
  destruct (xadded_ok tid avail src ifname s conns w.(x_next) (S w.(x_next))
    (init_server_kcp avail (Some kcp) conn src ifname new_server_kcp <| sk_writer_channel := Some (S w.(x_next)) |>)
    kcp w w3) as (Hok3 & Ho3 & Hn3); try done; try (by apply Hconv).
  - simpl. by rewrite Q5.
  - simpl. rewrite Q1, Q5, insert_insert_eq. by destruct s; simpl in *; subst.
  - simpl. by rewrite Q5, Q2, !insert_insert_eq.
  - simpl. by rewrite Q5, Q3.
  - split_and!.
    + by eapply same_ok.
    + unfold same_bufs. destruct Hq3 as (_ & _ & _ & -> & _). exact Q4.
    + intros t Ht. rewrite Hl. by apply Ho3.
    + by rewrite Hl.
Qed.
Lemma xwlp_connect tid src ifname gw w :
  0 < tid → tid + 11 < 2 ^ 32 → client_ok w →
  wlp (client_connect_server tid src ifname gw) (λ _ w', connected tid src ifname w w') w.
Proof.
  intros Ht0 Ht Hok. unfold client_connect_server. apply wlp_bind, wlp_getS, wlp_bind.
  eapply wlp_mono; [by apply wlp_ensure_server|]. intros [] w1 (Hok1 & Hb1 & Hl1).
  apply wlp_bind. eapply wlp_mono; [by apply wlp_setup|].
  intros spawn w2 (Hok2 & Hb2 & Hl2 & s & Hs & Hm & Hbase).
  assert (∀ t, xlinks w2 t = xlinks w t) as Hl by (intros t; by rewrite Hl2).
  assert (same_bufs w w2) as Hb by (unfold same_bufs in *; congruence).
  apply wlp_bind, wlp_getS, wlp_bind, xwlp_get_server. intros s' Hs'.
  assert (s' = s) as -> by congruence. unfold connected. rewrite <- (Hl tid).
  destruct (client_connection_by_src_exists _ _ _) eqn:Hex.
  - apply (source_exists_spec src w2 tid s) in Hex; [|done..].
    apply wlp_ret. split_and!; [done|done|intros t _; apply Hl|].
    by rewrite bool_decide_eq_true_2.
  - assert (¬ has_source src (xlinks w2 tid)) as Hsrc.
    { intros H. apply (source_exists_spec src w2 tid s) in H; [congruence|done..]. }
    rewrite bool_decide_eq_false_2 by done. rewrite (u32_small (tid + 10)) by lia.
    destruct (find_slot_first (slot_fuel (xs_conns s)) (xs_conns s) (tid + 10) tid)
      as (avail & -> & Hav & Hused & Hfree); [lia|lia|unfold slot_fuel; lia|].
    pose proof (λ k, xlinks_is_Some w2 tid s k Hok2 Hs) as Hiff.
    case_bool_decide as Hten.
    + apply wlp_ret. split_and!; [done|done|intros t _; apply Hl|]. left. split; [|done].
      intros k Hk. apply Hiff, Hused. lia.
    + assert (avail < tid + 10) as Hlt.
      { destruct (decide (avail = tid + 11)) as [->|]; [|lia].
        destruct (Hused (tid + 10)) as [l Hl10]; [lia|].
        pose proof (ok_ids _ _ _ _ (ok_tunnels _ Hok2 _ _ Hs) _ _ Hl10). simpl in *. lia. }
      eapply wlp_mono; [apply (wlp_add_connection tid avail src ifname spawn s w2); try done; [lia|]|].
      { apply Hfree. lia. }
      intros [] w' (Hok' & Hb' & Ho' & Hn'). split_and!; [done| | |].
      * unfold same_bufs in *. congruence.
      * intros t Htt. by rewrite Ho'.
      * right. exists avail. split_and!; [lia|lia| | |by rewrite Hn'].
        -- intros k Hk. apply Hiff, Hused. lia.
        -- apply eq_None_not_Some. rewrite Hiff. rewrite Hfree by lia. by intros [? ?].
Qed.
(** ** A connect returns when sockets open *)

(** A device that opens has a name. *)
Definition tun_named : Prop :=
  ∀ t name h, env_tun_New t name = Some h → is_Some (env_tun_Name (Some h)).

Record x_up (src : string) : Prop := {
  up_tun : tun_named;
  up_server t : is_Some (ResolveUDPAddr (env_lookup t) g_server_addr);
  up_local t port : 0 <= port <= 65535 →
    is_Some (ResolveUDPAddr (env_lookup t) (src +:+ ":" +:+ fmt_d port));
  up_listen t ip : is_Some (env_ListenUDP t ip);
  up_kcp t convid addr conn : is_Some (env_kcp_NewConn t convid addr session_block 0 0 conn)
}.

Lemma xwp_createTun ip tid w : tun_named → wp (createTun ip tid) (λ r w', same w w') w.
Proof.
  intros Hname. assert (wp (createTun ip tid) (λ _ _, True) w) as H.
  { unfold createTun. xwp_steps. destruct (env_tun_New _ _) as [h|] eqn:Hn; [|by xwp_steps].
    destruct (Hname _ _ _ Hn) as [n Hname']. xwp_step. eapply wp_deref; [done|]. by xwp_steps. }
  eapply wp_mono; [apply wp_same; [exact H|intros ?; apply same_createTun]|]. by intros ? ? [_ ?].
Qed.

Lemma xwp_set_options kcp opts w : wp (set_options (Some kcp) opts) (λ _ w', same w w') w.
Proof.
  assert (wp (set_options (Some kcp) opts) (λ _ _, True) w) as H.
  { unfold set_options. xwp_steps. apply (wp_for_each _ _ (λ _ _, True)); [|done]. intros. by xwp_steps. }
  eapply wp_mono; [apply wp_same; [exact H|intros ?; apply same_set_options]|]. by intros ? ? [_ ?].
Qed.

Section returns.
Context (src : string) (Hup : x_up src).

Lemma wp_setup tid s w :
  w.(g_server_list) !! tid = Some s → wp (client_setup_server tid) (λ _ _, True) w.
Proof.
  intros Hs. unfold client_setup_server. xwp_steps.
  apply (wp_mono _ (λ _ w', is_Some (w'.(g_server_list) !! tid))).
  - destruct (xs_iface s); [xwp_steps; by eexists|]. xwp_step.
    eapply wp_mono; [apply xwp_createTun, (up_tun _ Hup)|]. intros [iface err] w1 (E1 & _). rewrite <- E1 in Hs.
    xwp_steps. simpl. rewrite lookup_insert_eq. by eexists.
  - intros spawn w1 [s1 Hs1]. xwp_steps. destruct (xs_kcps s1); by xwp_steps.
Qed.

Lemma wp_create_udp_conn convid w :
  0 <= convid <= 65535 →
  wp (create_udp_conn convid src) (λ r w', same w w' ∧ is_Some r.1.1 ∧ r.2 = None) w.
Proof.
  intros Hc. assert (wp (create_udp_conn convid src) (λ r _, is_Some r.1.1 ∧ r.2 = None) w) as H.
  { unfold create_udp_conn. xwp_steps. destruct (up_server _ Hup (x_tick w)) as [addr ->].
    xwp_steps. set (t1 := x_tick _). destruct (up_local _ Hup t1 convid Hc) as [[ip port] ->].
    xwp_steps. set (t2 := x_tick _). destruct (up_listen _ Hup t2 ip) as [conn ->].
    xwp_steps. set (t3 := x_tick _). destruct (up_kcp _ Hup t3 convid addr conn) as [kcp Hk].
    simpl. rewrite Hk. by split. }
  eapply wp_mono; [apply wp_same; [exact H|intros ?; apply same_create_udp_conn]|]. by intros ? ? [? ?].
Qed.

Lemma wp_add_connection tid avail ifname spawn s w :
  w.(g_server_list) !! tid = Some s → 0 <= avail <= 65535 →
  wp (client_add_connection tid avail src ifname spawn) (λ _ _, True) w.
Proof.
  intros Hs Hav. unfold client_add_connection. xwp_step. xwp_step. xwp_step.
  eapply wp_mono; [by apply wp_create_udp_conn|].
  intros [[kcp conn] err] w2 ((E1 & E2 & E3 & E4 & E5 & _) & [h Hh] & Herr).
  simpl in Hh, Herr, E1. subst kcp err.
  assert (w2.(g_server_list) !! tid = Some (s <| xs_last_convid := 0 |>)) as Hs2
    by by rewrite E1, lookup_insert_eq.
  xwp_steps. eapply wp_mono; [apply xwp_set_options|]. intros [] w3 _. xwp_steps.
  apply wp_whenM; intros _; by xwp_steps.
Qed.

Lemma xwp_connect tid ifname gw w :
  0 < tid → tid + 11 <= 65536 → client_ok w →
  wp (client_connect_server tid src ifname gw) (λ _ w', connected tid src ifname w w') w.
Proof.
  intros Ht0 Ht Hok. apply (wp_mono _ (λ a w', True ∧ connected tid src ifname w w')); [|by intros ? ? [_ ?]].
  apply wp_wlp; [|by apply xwlp_connect; [|lia|]].
  unfold client_connect_server. xwp_step. xwp_step. xwp_step.
  set (m := match w.(g_server_list) !! tid with Some _ => _ | None => _ end).
  assert (wp m (λ _ w', is_Some (w'.(g_server_list) !! tid)) w) as Hm.
  { unfold m. destruct (g_server_list w !! tid) eqn:Hs; xwp_steps; [by rewrite Hs|].
    simpl. rewrite lookup_insert_eq. by eexists. }
  eapply wp_mono; [apply wp_wlp; [exact Hm|by apply wlp_ensure_server]|].
  intros [] w1 ([s1 Hs1] & Hok1 & _). xwp_step.
  eapply wp_mono; [apply wp_wlp; [by eapply wp_setup|by apply wlp_setup]|].
  intros spawn w2 (_ & Hok2 & _ & _ & s & Hs & _). xwp_steps.
  destruct (client_connection_by_src_exists _ _ _); [by xwp_steps|].
  rewrite (u32_small (tid + 10)) by lia.
  destruct (find_slot_first (slot_fuel (xs_conns s)) (xs_conns s) (tid + 10) tid)
    as (avail & -> & Hav & Hused & Hfree); [lia|lia|unfold slot_fuel; lia|].
  case_bool_decide; [by xwp_steps|]. eapply wp_add_connection; [done|].
  destruct (decide (avail = tid + 11)) as [->|]; [|lia].
  destruct (Hused (tid + 10)) as [l Hl10]; [lia|].
  pose proof (ok_ids _ _ _ _ (ok_tunnels _ Hok2 _ _ Hs) _ _ Hl10). simpl in *. lia.
Qed.
End returns.
End connect.
