(* ===== verification/ExpServerSpec.v ===== *)
(** * The channel experiment: what the server promises

    The abstract state of a tunnel of the server is the map of its peers, id to
    KCP session.  Accepting a session sets its id in the tunnel of its block of
    ten; a disconnect deletes the id and closes the session. *)
From stdpp Require Import base gmap sets list strings.
From Stdlib Require Import ZArith Lia.
From S2P Require Import Prelude GoNet Network Ring World Wire Client Server Chan ExpWorld.
From S2P Require Import ExpClient ExpSpec ExpConnect ExpServer.
#[local] Open Scope Z_scope.

Section spec.
Context {E : Env} {EL : EnvLaws E}.
Implicit Types (w : xworld).

Definition xpeer_ok (heap : gmap loc client_kcp) (chans : gmap loc (chan packetType)) (k : Z) (l : loc)
    : Prop :=
  ∃ c kcp ch, heap !! l = Some c ∧ c.(ck_convid) = k ∧ c.(ck_kcp) = Some kcp ∧
    env_kcp_GetConv kcp = k ∧ c.(ck_writer_channel) = Some ch ∧ is_Some (chans !! ch).

(** The peers of the tunnel [tid]. *)
Definition xpeers w (tid : Z) : gmap Z handle :=
  match w.(g_client_list) !! tid with
  | Some s => omap (λ l, w.(x_ckcps) !! l ≫= ck_kcp) (xc_conns s)
  | None => ∅
  end.

Record xstunnel_ok (heap : gmap loc client_kcp) (chans : gmap loc (chan packetType)) (tid : Z)
    (s : clientType) : Prop := {
  xsok_conn : map_Forall (xpeer_ok heap chans) (xc_conns s);
  xsok_ids : map_Forall (λ k _, base_of k = tid) (xc_conns s);
  xsok_base : is_Some s.(xc_kcps) ∨ is_Some s.(xc_iface) → s.(xc_base_convid) = tid
}.

Record xserver_ok w : Prop := {
  xsok_tunnels : map_Forall (xstunnel_ok w.(x_ckcps) w.(x_chans)) w.(g_client_list);
  xsok_fresh : (∀ l, is_Some (w.(x_ckcps) !! l) → (l < w.(x_next))%nat) ∧
    (∀ l, is_Some (w.(x_chans) !! l) → (l < w.(x_next))%nat)
}.

(** The same server after the clock, the trace or the client changed. *)
Definition same_server w w' : Prop :=
  w'.(g_client_list) = w.(g_client_list) ∧ w'.(x_ckcps) = w.(x_ckcps) ∧
  w'.(x_chans) = w.(x_chans) ∧ w'.(x_next) = w.(x_next).

Lemma same_same_server w w' : same w w' → same_server w w'.
Proof. intros (_ & _ & ? & _ & ? & ? & ?). by split_and!. Qed.
Lemma same_server_ok w w' : same_server w w' → xserver_ok w → xserver_ok w'.
Proof. intros (E1 & E2 & E3 & E4) [H1 H2]. by split; rewrite ?E1, ?E2, ?E3, ?E4. Qed.
Lemma same_server_peers w w' t : same_server w w' → xpeers w' t = xpeers w t.
Proof. intros (E1 & E2 & _). unfold xpeers. by rewrite E1, E2. Qed.

Lemma xpeers_lookup w tid s k :
  w.(g_client_list) !! tid = Some s →
  xpeers w tid !! k = xc_conns s !! k ≫= λ l, w.(x_ckcps) !! l ≫= ck_kcp.
Proof. intros Hs. unfold xpeers. by rewrite Hs, lookup_omap. Qed.

Lemma xlisted_peer w tid s k l :
  xserver_ok w → w.(g_client_list) !! tid = Some s → xc_conns s !! k = Some l →
  xpeer_ok w.(x_ckcps) w.(x_chans) k l.
Proof. intros Hok Hs Hk. exact (xsok_conn _ _ _ _ (xsok_tunnels _ Hok _ _ Hs) _ _ Hk). Qed.

(** The tunnel of a list of clients, a new one when there is none. *)
Definition client_or_new w (tid : Z) : clientType := default new_clientType (w.(g_client_list) !! tid).

Lemma xpeers_or_new w tid :
  xpeers w tid = omap (λ l, w.(x_ckcps) !! l ≫= ck_kcp) (xc_conns (client_or_new w tid)).
Proof.
  unfold xpeers, client_or_new. destruct (g_client_list w !! tid); [done|]. symmetry. apply omap_empty.
Qed.

(** Replacing a tunnel by one with the same connections, or a new one. *)
Lemma xset_client_ok tid s' w (w' := w <| g_client_list ::= insert tid s' |>) :
  xserver_ok w → xc_conns s' = xc_conns (client_or_new w tid) →
  (is_Some s'.(xc_kcps) ∨ is_Some s'.(xc_iface) → s'.(xc_base_convid) = tid) →
  xserver_ok w' ∧ ∀ t, xpeers w' t = xpeers w t.
Proof.
  intros Hok Hc Hb. assert (∀ t, xpeers w' t = xpeers w t) as Hl.
  { intros t. rewrite !xpeers_or_new. unfold client_or_new in *. simpl.
    destruct (decide (t = tid)) as [->|Hne]; [|by rewrite lookup_insert_ne].
    rewrite lookup_insert_eq. simpl. by rewrite Hc. }
  split; [|done]. destruct Hok as [H1 H2]. split; [|done].
  intros t st. simpl. rewrite lookup_insert_Some. intros [[<- <-]|[_ ?]]; [|by apply H1].
  unfold client_or_new in Hc. destruct (g_client_list w !! tid) as [s|] eqn:Hs; simpl in Hc.
  - destruct (H1 _ _ Hs) as [C1 C2 _]. by split; rewrite ?Hc.
  - by split; rewrite ?Hc.
Qed.

(** ** Accepting *)

(** The goroutines started, in order. *)
Definition going (e : xevent) : option goroutine := match e with Go g => Some g | Ev _ => None end.
Definition started w : list goroutine := omap going w.(x_trace).
Definition starts (gs : list goroutine) w : Prop := started w = gs.

(** [w'] is [w] with the session [conn] of id [k]: its record has a channel, empty
    and of 100 places, and what was started is the writer that drains the channel,
    the reader of the device when the block has none yet, and the reader of the
    connection. *)
Definition peer_joined (k : Z) (conn : handle) w w' : Prop :=
  xserver_ok w' ∧ xpeers w' (base_of k) = <[k := conn]> (xpeers w (base_of k)) ∧
  (∀ t, t ≠ base_of k → xpeers w' t = xpeers w t) ∧
  ∃ s l c ch, w'.(g_client_list) !! base_of k = Some s ∧ xc_conns s !! k = Some l ∧
    w'.(x_ckcps) !! l = Some c ∧ c.(ck_writer_channel) = Some ch ∧
    w'.(x_chans) !! ch = Some (make_chan 100) ∧
    started w' = started w ++ [GoServerKcpWriter (base_of k) l ch] ++
      (if bool_decide ((client_or_new w (base_of k)).(xc_iface) = None)
       then [GoServerHandleTun (base_of k)] else []) ++
      [GoServerHandleKcpConn (base_of k) k l].

Lemma started_trace w w' es : w'.(x_trace) = w.(x_trace) ++ es → started w' = started w ++ omap going es.
Proof. intros H. unfold started. by rewrite H, omap_app. Qed.
Lemma starts_emit gs e : preserves (starts gs) (emit e).
Proof.
  apply preserves_modify. intros w <-. unfold starts. rewrite (started_trace w _ [Ev e]) by done.
  simpl. by rewrite app_nil_r.
Qed.
Lemma starts_tick gs : preserves (starts gs) tick.
Proof. by intros w <-. Qed.
#[local] Hint Resolve starts_emit starts_tick : preserves.
Lemma starts_runthing gs p a : preserves (starts gs) (runthing p a).
Proof. unfold runthing. preserve. Qed.
#[local] Hint Resolve starts_runthing : preserves.
Lemma starts_createTun gs ip tid : preserves (starts gs) (createTun ip tid).
Proof. unfold createTun. preserve. Qed.
Lemma starts_set_options gs conn opts : preserves (starts gs) (set_options conn opts).
Proof. unfold set_options. preserve. Qed.

(** The state with the new connection. *)
Lemma xpeer_added k conn s s' c w w' (tid := base_of k) (l := w.(x_next)) (ch := S w.(x_next)) :
  xserver_ok w → w.(g_client_list) !! tid = Some s → s.(xc_base_convid) = tid →
  xc_conns s' = <[k := l]> (xc_conns s) → s'.(xc_base_convid) = tid →
  c.(ck_convid) = k → c.(ck_kcp) = Some conn → env_kcp_GetConv conn = k →
  c.(ck_writer_channel) = Some ch → w'.(x_next) = S (S w.(x_next)) →
  w'.(g_client_list) = <[tid := s']> w.(g_client_list) →
  w'.(x_ckcps) = <[l := c]> w.(x_ckcps) → w'.(x_chans) = <[ch := make_chan 100]> w.(x_chans) →
  xserver_ok w' ∧ xpeers w' tid = <[k := conn]> (xpeers w tid) ∧
  ∀ t, t ≠ tid → xpeers w' t = xpeers w t.
Proof.
  intros Hok Hs Hbase Hc' Hb' F1 F2 F3 F4 E1 E2 E3 E4.
  pose proof Hok as [H1 (H4 & H5)].
  assert (∀ t st k' l', w.(g_client_list) !! t = Some st → xc_conns st !! k' = Some l' →
    xpeer_ok w'.(x_ckcps) w'.(x_chans) k' l' ∧ w'.(x_ckcps) !! l' = w.(x_ckcps) !! l') as Hkeep.
  { intros t st k' l' Hst Hk. destruct (xlisted_peer w t st k' l' Hok Hst Hk)
      as (c0 & kcp0 & ch0 & C1 & C2 & C3 & C4 & C5 & C6).
    assert (l' ≠ l) as Hne.
    { intros ->. assert (l < w.(x_next))%nat; [apply H4; by eexists|]. unfold l in *. lia. }
    rewrite E3, lookup_insert_ne by done. split; [|done].
    exists c0, kcp0, ch0. rewrite E4, lookup_insert_ne by done. split_and!; try done.
    rewrite lookup_insert_is_Some'. by right. }
  split_and!.
  - split.
    + intros t st. rewrite E2, lookup_insert_Some. intros [[<- <-]|[Hne Hst]].
      * split; [| |by intros _]; intros k' l'; rewrite Hc', lookup_insert_Some; intros [[<- <-]|[_ Hk]].
        -- exists c, conn, ch. rewrite E3, E4, !lookup_insert_eq. by split_and!.
        -- by destruct (Hkeep tid s k' l' Hs Hk).
        -- done.
        -- exact (xsok_ids _ _ _ _ (H1 _ _ Hs) _ _ Hk).
      * destruct (H1 t st Hst) as [C1 C2 C3]. split; [|done|done].
        intros k' l' Hk. by destruct (Hkeep t st k' l' Hst Hk).
    + rewrite E1, E3, E4. unfold l, ch. split; intros l'; rewrite ?lookup_insert_is_Some'.
      * intros [<-|?]; [lia|]. pose proof (H4 l'). naive_solver lia.
      * intros [<-|?]; [lia|]. pose proof (H5 l'). naive_solver lia.
  - unfold xpeers. rewrite E2, lookup_insert_eq, Hs. apply map_eq. intros k'. rewrite lookup_omap, Hc'.
    destruct (decide (k' = k)) as [->|Hne].
    + rewrite !lookup_insert_eq. simpl. by rewrite E3, lookup_insert_eq.
    + rewrite !lookup_insert_ne, lookup_omap by done.
      destruct (xc_conns s !! k') as [l'|] eqn:Hk; [|done]. simpl.
      by destruct (Hkeep tid s k' l' Hs Hk) as [_ ->].
  - intros t Ht. unfold xpeers. rewrite E2, lookup_insert_ne by done.
    destruct (g_client_list w !! t) as [st|] eqn:Hst; [|done]. apply map_eq. intros k'.
    rewrite !lookup_omap. destruct (xc_conns st !! k') as [l'|] eqn:Hk; [|done]. simpl.
    by destruct (Hkeep t st k' l' Hst Hk) as [_ ->].
Qed.
Lemma wp_ensure_client tid w :
  xserver_ok w →
  wp (match w.(g_client_list) !! tid with
      | Some _ => mret tt
      | None => modify (fun w => w <| g_client_list ::= insert tid new_clientType |>) end)
    (λ _ w', xserver_ok w' ∧ (∀ t, xpeers w' t = xpeers w t) ∧
      w'.(g_client_list) !! tid = Some (client_or_new w tid) ∧ started w' = started w) w.
Proof.
  intros Hok. unfold client_or_new. destruct (g_client_list w !! tid) as [s|] eqn:Hs.
  - by apply wp_ret.
  - apply wp_modify. destruct (xset_client_ok tid new_clientType w Hok) as [Hok' Hl].
    { unfold client_or_new. by rewrite Hs. }
    { by intros [[? ?]|[? ?]]. }
    split_and!; [done|done| |done]. simpl. by rewrite lookup_insert_eq.
Qed.

Lemma wp_setup_client tid s w :
  tun_named → xserver_ok w → w.(g_client_list) !! tid = Some s →
  wp (server_setup_client tid) (λ spawn w', xserver_ok w' ∧ (∀ t, xpeers w' t = xpeers w t) ∧
    spawn = bool_decide (s.(xc_iface) = None) ∧ started w' = started w ∧
    ∃ s', w'.(g_client_list) !! tid = Some s' ∧ s'.(xc_base_convid) = tid) w.
Proof.
  intros Hname Hok Hs. unfold server_setup_client. xwp_step. xwp_step.
  destruct (xc_iface s) as [h|] eqn:Hi.
  - xwp_steps. split_and!; [done|done|done|done|]. exists s. split; [done|].
    apply (xsok_base _ _ _ _ (xsok_tunnels _ Hok _ _ Hs)). right. by rewrite Hi.
  - xwp_step. eapply wp_mono; [apply (wp_preserves (starts (started w)));
      [by apply xwp_createTun|apply starts_createTun|done]|].
    intros [iface err] w1 [Hq%same_same_server Hst].
    pose proof (same_server_ok _ _ Hq Hok) as Hok1.
    pose proof Hq as (E1 & _). rewrite <- E1 in Hs. xwp_steps.
    match goal with |- context [insert tid ?x] => set (s2 := x) end.
    destruct (xset_client_ok tid s2 w1 Hok1) as [Hok2 Hl2].
    { unfold client_or_new. by rewrite Hs. }
    { done. }
    split_and!; [done| |done|exact Hst|].
    + intros t. by rewrite Hl2, (same_server_peers w w1).
    + exists s2. simpl. by rewrite lookup_insert_eq.
Qed.

Lemma wp_server_accept k conn w :
  tun_named → xserver_ok w → env_kcp_GetConv conn = k →
  wp (server_accept_conn k conn) (λ _ w', peer_joined k conn w w') w.
Proof.
  intros Hname Hok Hconv. unfold server_accept_conn. xwp_step. xwp_step. xwp_step.
  eapply wp_mono; [by apply wp_ensure_client|]. intros [] w1 (Hok1 & Hl1 & Hs1 & Hg1).
  set (tid := base_of k) in *. set (s := client_or_new w tid) in *.
  xwp_step. eapply wp_mono; [by apply (wp_setup_client tid s)|].
  intros spawn w2 (Hok2 & Hl2 & -> & Hg2 & s2 & Hs2 & Hb2). xwp_steps.
  match goal with |- wp _ _ ?x => set (w3 := x) end.
  set (l := w2.(x_next)) in *. set (ch := S l) in *.
  assert (started w3 = started w ++ [GoServerKcpWriter tid l ch]) as Hg3.
  { rewrite <- Hg1, <- Hg2. by apply (started_trace w2 w3 [Go (GoServerKcpWriter tid l ch)]). }
  assert (∃ s3 c, xc_conns s3 = <[k := l]> (xc_conns s2) ∧ s3.(xc_base_convid) = tid ∧
    w3.(g_client_list) = <[tid := s3]> w2.(g_client_list) ∧ w3.(x_ckcps) = <[l := c]> w2.(x_ckcps) ∧
    c.(ck_convid) = k ∧ c.(ck_kcp) = Some conn ∧ c.(ck_writer_channel) = Some ch ∧
    w3.(x_chans) = <[ch := make_chan 100]> w2.(x_chans)) as (s3 & c & C1 & C2 & C3 & C4 & C5 & C6 & C7 & C8).
  { eexists _, _. unfold w3. simpl. rewrite !insert_insert_eq, Hconv.
    split_and!. 3,4: reflexivity. all: done. }
  destruct (xpeer_added k conn s2 s3 c w2 w3) as (Hok3 & Hn3 & Ho3); try done.
  fold tid in Hn3, Ho3.
  eapply wp_mono; [apply (wp_preserves (starts (started w3)));
    [apply xwp_set_options|apply starts_set_options|done]|].
  intros [] w4 [Hq%same_same_server Hg4]. unfold starts in Hg4. rewrite Hg3 in Hg4.
  assert (∀ w' gs, same_server w4 w' → started w' = started w4 ++ gs ++ [GoServerHandleKcpConn tid k l] →
    gs = (if bool_decide (s.(xc_iface) = None) then [GoServerHandleTun tid] else []) →
    peer_joined k conn w w') as Hend.
  { intros w' gs Hq' Hgs ->. assert (same_server w3 w') as Hq3.
    { destruct Hq as (?&?&?&?), Hq' as (?&?&?&?). split_and!; congruence. }
    unfold peer_joined. fold tid s. split_and!.
    - by apply (same_server_ok w3).
    - by rewrite (same_server_peers w3 w'), Hn3, Hl2, Hl1.
    - intros t Ht. by rewrite (same_server_peers w3 w'), Ho3, Hl2, Hl1.
    - exists s3, l, c, ch. destruct Hq3 as (-> & -> & -> & _).
      rewrite C3, C1, C4, C8, !lookup_insert_eq, Hgs, Hg4, <- app_assoc. done. }
  xwp_step. apply wp_whenM; [intros Hi|intros Hi]; xwp_steps;
    (eapply Hend; [by unfold same_server| |by rewrite Hi]).
  - by apply (started_trace w4 _ [Go (GoServerHandleTun tid); Go (GoServerHandleKcpConn tid k l)]);
      simpl; rewrite <- app_assoc.
  - by apply (started_trace w4 _ [Go (GoServerHandleKcpConn tid k l)]).
Qed.
(** ** Disconnecting *)

(** The tunnel with some of its connections. *)
Lemma xshrink_client tid s s' w w' :
  xserver_ok w → w.(g_client_list) !! tid = Some s → xc_conns s' ⊆ xc_conns s →
  (is_Some s'.(xc_kcps) ∨ is_Some s'.(xc_iface) → s'.(xc_base_convid) = tid) →
  w'.(g_client_list) = <[tid := s']> w.(g_client_list) → w'.(x_ckcps) = w.(x_ckcps) →
  w'.(x_chans) = w.(x_chans) → w'.(x_next) = w.(x_next) → xserver_ok w'.
Proof.
  intros [H1 H2] Hs Hsub Hb E1 E2 E3 E4. split; rewrite ?E1, ?E2, ?E3, ?E4; [|done].
  intros t st. rewrite lookup_insert_Some. intros [[<- <-]|[_ ?]]; [|by apply H1].
  destruct (H1 tid s Hs) as [C1 C2 _].
  split; [..|done]; intros k l Hk; [apply C1|apply (C2 k l)]; by eapply lookup_weaken.
Qed.

(** The loop over the keys: [k] stays until its turn. *)
Record server_closing (tid k : Z) (s : clientType) w (keys : list Z) w1 : Prop := {
  scl_nodup : NoDup keys;
  scl_heap : w1.(x_ckcps) = w.(x_ckcps) ∧ w1.(x_chans) = w.(x_chans) ∧ w1.(x_next) = w.(x_next);
  scl_client : ∃ s1, w1.(g_client_list) = <[tid := s1]> w.(g_client_list) ∧
    s1.(xc_base_convid) = s.(xc_base_convid) ∧ s1.(xc_iface) = s.(xc_iface) ∧
    (is_Some s1.(xc_kcps) → is_Some s.(xc_kcps)) ∧
    xc_conns s1 = if bool_decide (k ∈ keys) then xc_conns s else delete k (xc_conns s);
  scl_closed : ∀ l c kcp, k ∉ keys → xc_conns s !! k = Some l → w.(x_ckcps) !! l = Some c →
    c.(ck_kcp) = Some kcp → Ev (EvKcpClose kcp) ∈ w1.(x_trace)
}.

Lemma server_closing_skip tid k s w k' keys w1 :
  (k' = k → xc_conns s !! k = None) →
  server_closing tid k s w (k' :: keys) w1 → server_closing tid k s w keys w1.
Proof.
  intros Hk [Hnd Hh (s1 & C1 & C2 & C3 & C4 & C5) Hcl]. apply NoDup_cons in Hnd as [Hni Hnd].
  split; [done|done| |].
  - exists s1. split_and!; try done. rewrite C5. destruct (decide (k' = k)) as [->|Hne].
    + rewrite bool_decide_eq_true_2 by set_solver. rewrite bool_decide_eq_false_2 by done.
      by rewrite delete_id by by apply Hk.
    + by rewrite (bool_decide_ext (k ∈ k' :: keys) (k ∈ keys)) by set_solver.
  - intros l c kcp Hn Hl. eapply Hcl; [|done]. intros [->|?]%elem_of_cons; [|done].
    rewrite Hk in Hl by done. done.
Qed.

Lemma wp_server_close tid k l c kcp s w keys w1 (reset : clientType → clientType)
    (del : clientType → clientType) :
  reset = setf xc_last_convid (fun _ => 0) → del = setf xc_kcps (fmap (delete k)) →
  server_closing tid k s w (k :: keys) w1 → xc_conns s !! k = Some l →
  w.(x_ckcps) !! l = Some c → c.(ck_kcp) = Some kcp →
  wp (upd_client tid reset ;; (h ← deref "nil *kcp.UDPSession" c.(ck_kcp);
      emit (EvKcpClose h) ;; upd_client tid del)) (λ _, server_closing tid k s w keys) w1.
Proof.
  intros -> -> [Hnd Hh (s1 & C1 & C2 & C3 & C4 & C5) Hcl] Hl Hc Hkcp.
  apply NoDup_cons in Hnd as [Hni Hnd]. rewrite Hkcp.
  assert (w1.(g_client_list) !! tid = Some s1) as Hs1 by by rewrite C1, lookup_insert_eq.
  xwp_steps. split; [done|done| |].
  - eexists. simpl. rewrite C1, !insert_insert_eq. split_and!; [done|done|done| |].
    + simpl. by rewrite fmap_is_Some.
    + rewrite bool_decide_eq_false_2 by done. rewrite bool_decide_eq_true_2 in C5 by set_solver.
      rewrite <- C5. unfold xc_conns. simpl. destruct (xc_kcps s1); simpl; [done|].
      by rewrite delete_empty.
  - intros l' c' kcp' _ Hl' Hc' Hkcp'. assert (l' = l) as -> by congruence.
    assert (kcp' = kcp) as -> by congruence. simpl. set_solver.
Qed.

Lemma wp_server_by_convid tid k s w :
  xserver_ok w → w.(g_client_list) !! tid = Some s →
  wp (server_disconnect_session_by_convid tid k) (λ _, server_closing tid k s w []) w.
Proof.
  intros Hok Hs. unfold server_disconnect_session_by_convid. xwp_steps.
  apply (wp_for_each _ _ (server_closing tid k s w)).
  2: { split; simpl; [apply World.range_keys_NoDup|done| |].
       - exists s. rewrite insert_id by done. split_and!; try done. case_bool_decide as Hin; [done|].
         rewrite delete_id; [done|]. apply eq_None_not_Some. by rewrite <- World.range_keys_elem.
       - intros l c kcp Hn Hl. destruct Hn. apply World.range_keys_elem. by eexists. }
  intros k' keys w1 HJ. pose proof HJ as [Hnd Hh (s1 & C1 & C2 & C3 & C4 & C5) Hcl].
  assert (w1.(g_client_list) !! tid = Some s1) as Hs1 by by rewrite C1, lookup_insert_eq.
  xwp_steps. assert (∀ l, xc_conns s1 !! k' = Some l → xc_conns s !! k' = Some l) as Hsub.
  { intros l. rewrite C5. case_bool_decide; [done|]. rewrite lookup_delete_Some. tauto. }
  destruct (xc_conns s1 !! k') as [l|] eqn:Hl.
  - destruct (xlisted_peer w tid s k' l Hok Hs (Hsub l eq_refl)) as (c & kcp & ch & Hc & Hk & Hkcp & _).
    xwp_step. eapply wp_get_ckcp; [by destruct Hh as (-> & _)|].
    apply wp_whenM; rewrite Hk; [intros <-%bool_decide_eq_true|intros Hne%bool_decide_eq_false].
    + eapply (wp_server_close tid k' l c kcp); try done. by apply Hsub.
    + by eapply server_closing_skip.
  - apply wp_ret. eapply server_closing_skip; [|done]. intros ->.
    rewrite C5 in Hl. by rewrite bool_decide_eq_true_2 in Hl by set_solver.
Qed.

(** [w'] is [w] without the peer [k] of the tunnel, whose session was closed. *)
Definition peer_left (tid k : Z) w w' : Prop :=
  xserver_ok w' ∧ xpeers w' tid = delete k (xpeers w tid) ∧
  (∀ t, t ≠ tid → xpeers w' t = xpeers w t) ∧
  ∀ kcp, xpeers w tid !! k = Some kcp → Ev (EvKcpClose kcp) ∈ w'.(x_trace).

Lemma xwp_server_disconnect tid k s w :
  xserver_ok w → w.(g_client_list) !! tid = Some s →
  wp (server_disconnect_session_by_convid tid k) (λ _, peer_left tid k w) w.
Proof.
  intros Hok Hs. eapply wp_mono; [by apply wp_server_by_convid|].
  intros [] w' [_ (Hh & Hch & Hn) (s1 & C1 & C2 & C3 & C4 & C5) Hcl]. simpl in C5. split_and!.
  - eapply (xshrink_client tid s s1); try done; [rewrite C5; apply delete_subseteq|].
    intros Hor. rewrite C2. apply (xsok_base _ _ _ _ (xsok_tunnels _ Hok _ _ Hs)). rewrite <- C3. tauto.
  - apply map_eq. intros k'. rewrite (xpeers_lookup w' tid s1) by by rewrite C1, lookup_insert_eq.
    rewrite C5, Hh. destruct (decide (k' = k)) as [->|Hne].
    + by rewrite !lookup_delete_eq.
    + by rewrite !lookup_delete_ne, (xpeers_lookup w tid s) by done.
  - intros t Ht. unfold xpeers. by rewrite C1, Hh, lookup_insert_ne.
  - intros kcp. rewrite (xpeers_lookup w tid s) by done. intros Hk.
    destruct (xc_conns s !! k) as [l|] eqn:Hl; [|done]. simpl in Hk.
    destruct (x_ckcps w !! l) as [c|] eqn:Hc; [|done]. eapply Hcl; try done. set_solver.
Qed.
(** ** Forwarding *)

(** What the reads of a session make the reader write to the device: each read
    that does not look like a hello, as one packet.  The test looks at the buffer,
    which keeps the end of earlier reads. *)
Fixpoint forwarded (message : list Z) (reads : list (list Z)) : list (list Z) :=
  match reads with
  | [] => []
  | data :: reads' =>
      let message := data ++ drop (length data) message in
      if starts_hello message then forwarded message reads' else data :: forwarded message reads'
  end.

Lemma forwarded_elem message reads data : data ∈ forwarded message reads → data ∈ reads.
Proof.
  revert message. induction reads as [|r reads IH]; intros message; simpl; [done|].
  destruct (starts_hello _); rewrite ?elem_of_cons; naive_solver.
Qed.
Lemma forwarded_packet message reads data :
  nth 0 data 0 ≠ 0 → data ∈ reads → data ∈ forwarded message reads.
Proof.
  intros Hne. revert message. induction reads as [|r reads IH]; intros message; simpl; [done|].
  intros [->|Hin]%elem_of_cons.
  - assert (starts_hello (r ++ drop (length r) message) = false) as ->; [|set_solver].
    destruct r as [|b r]; [done|]. unfold starts_hello. simpl in *. by rewrite bool_decide_eq_false_2.
  - destruct (starts_hello _); [by apply IH|]. apply elem_of_cons. right. by apply IH.
Qed.

(** One turn of the reader of a live session: three calls outside. *)
Lemma wp_server_conn_turn tid k l conn message data c s tun w :
  w.(g_client_list) !! tid = Some s → s.(xc_iface) = Some tun → w.(x_ckcps) !! l = Some c →
  env_kcp_GetState w.(x_tick) conn ≠ kcp_dead → env_kcp_Read (S w.(x_tick)) conn = inl data →
  env_tun_Write (S (S w.(x_tick))) tun data = None →
  wp (server_conn_turn tid k l conn message) (λ r w', r = Some (data ++ drop (length data) message) ∧
    w'.(x_tick) = (3 + w.(x_tick))%nat ∧ w'.(g_client_list) = w.(g_client_list) ∧
    is_Some (w'.(x_ckcps) !! l) ∧
    w'.(x_trace) = w.(x_trace) ++ ((λ d, Ev (EvTunWrite tun d)) <$> forwarded message [data])) w.
Proof.
  intros Hs Hi Hc Hst Hrd Hwr. unfold server_conn_turn. xwp_steps.
  rewrite bool_decide_eq_false_2 by done. xwp_steps. simpl. rewrite Hrd.
  destruct (starts_hello _).
  - xwp_steps. simpl. rewrite lookup_insert_eq, app_nil_r. by split_and!.
  - xwp_steps. rewrite Hi. xwp_steps. simpl. rewrite Hwr. xwp_steps. simpl.
    by split_and!.
Qed.

(** The session [conn] answers the reads of its goroutine, from the call [t] on,
    with [reads], and stays alive; the device takes what it is given. *)
Definition answers (conn tun : handle) (t : nat) (reads : list (list Z)) : Prop :=
  ∀ i data, reads !! i = Some data →
    env_kcp_GetState (3 * i + t) conn ≠ kcp_dead ∧ env_kcp_Read (3 * i + S t) conn = inl data ∧
    env_tun_Write (3 * i + S (S t)) tun data = None.

Lemma wp_server_forwards tid k l conn message reads s tun w :
  w.(g_client_list) !! tid = Some s → s.(xc_iface) = Some tun → is_Some (w.(x_ckcps) !! l) →
  answers conn tun w.(x_tick) reads →
  wp (server_conn_loop (length reads) tid k l conn message) (λ _ w',
    w'.(x_trace) = w.(x_trace) ++ ((λ d, Ev (EvTunWrite tun d)) <$> forwarded message reads)) w.
Proof.
  revert message w. induction reads as [|data reads IH]; intros message w Hs Hi [c Hc] Ha; simpl.
  { apply wp_ret. by rewrite app_nil_r. }
  destruct (Ha 0%nat data eq_refl) as (Hst & Hrd & Hwr). simpl in Hst, Hrd, Hwr.
  xwp_step. eapply wp_mono; [by eapply wp_server_conn_turn|].
  intros r w1 (-> & Ht1 & Hl1 & Hc1 & Htr1).
  eapply wp_mono; [apply IH; [by rewrite Hl1|done|done|]|].
  - intros i d Hd. rewrite Ht1.
    replace (3 * i + (3 + x_tick w))%nat with (3 * S i + x_tick w)%nat by lia.
    replace (3 * i + S (3 + x_tick w))%nat with (3 * S i + S (x_tick w))%nat by lia.
    replace (3 * i + S (S (3 + x_tick w)))%nat with (3 * S i + S (S (x_tick w)))%nat by lia.
    by apply Ha.
  - intros [] w2 ->. rewrite Htr1, <- app_assoc. f_equal. simpl. by destruct (starts_hello _).
Qed.
End spec.
