(* ===== verification/ExpInv.v ===== *)
(** * The channel experiment: the goroutines of the client interleaved

    [step] is the step relation of the client's goroutines over a configuration:
    the state of the process, the tun readers with the packet each goes round
    with, and the readers that have chosen a connection and are about to send on
    its channel.  A goroutine takes steps only when the trace shows it was
    started. *)
From stdpp Require Import base gmap sets list strings relations.
From Stdlib Require Import ZArith Lia.
From S2P Require Import Prelude GoNet Network Ring World Wire Client ClientConnect Chan ExpWorld.
From S2P Require Import ExpClient ExpSpec ExpConnect.
#[local] Open Scope Z_scope.

Section inv.
Context {E : Env} {EL : EnvLaws E} {KL : KcpLaws E}.

(** ** Operations that add no link *)

Lemma kept_disconnect_where tid reset test : respects kept (client_disconnect_where tid reset test).
Proof. unfold client_disconnect_where. respect. Qed.
#[local] Hint Resolve kept_disconnect_where : respects.
Lemma kept_by_convid tid k : respects kept (client_disconnect_session_by_convid tid k).
Proof. unfold client_disconnect_session_by_convid. respect. Qed.
Lemma kept_by_src tid src ifname gw : respects kept (client_disconnect_session_by_src tid src ifname gw).
Proof. unfold client_disconnect_session_by_src. respect. Qed.
Lemma kept_by_ifname tid ifname : respects kept (client_disconnect_session_by_ifname tid ifname).
Proof. unfold client_disconnect_session_by_ifname. respect. Qed.
#[local] Hint Resolve kept_by_convid : respects.
Lemma kept_kcp_turn tid l conn : respects kept (client_handle_kcp_turn tid l conn).
Proof. unfold client_handle_kcp_turn. respect. Qed.
Lemma kept_writer_turn tid l ch : respects kept (client_kcp_writer_turn tid l ch).
Proof. unfold client_kcp_writer_turn. respect. Qed.
Lemma kept_round_robin tid keys d : respects kept (client_round_robin tid keys d).
Proof. revert d. induction keys as [|k keys IH]; intros d; simpl; respect. Qed.
#[local] Hint Resolve kept_round_robin : respects.
Lemma kept_choose tid : respects kept (client_choose_kcp_conn tid).
Proof. unfold client_choose_kcp_conn. respect. Qed.
#[local] Hint Resolve kept_choose : respects.
Lemma kept_pick fuel tid : respects kept (client_pick fuel tid).
Proof. induction fuel as [|fuel IH]; simpl; respect. Qed.
#[local] Hint Resolve kept_pick : respects.
Lemma kept_pings : respects kept client_send_server_pings.
Proof. apply kept_same. apply same_pings. Qed.
Lemma kept_select fuel tid pkt : respects kept (client_tun_select fuel tid pkt).
Proof. unfold client_tun_select. respect. Qed.

(** A packet from the start of the goroutine on lies in its buffer. *)
Lemma wlp_start tid w :
  client_ok w →
  wlp (client_tun_start tid) (λ r w', kept w w' ∧ ∀ p, r = Some p → pkt_ok w'.(x_bufs) p) w.
Proof.
  intros Hok. unfold client_tun_start. apply wlp_bind. eapply wlp_mono; [apply make_buffer_kept|].
  intros b w1 [Hk [buf Hb]]. apply wlp_bind, xwlp_get_server. intros s _.
  destruct (xs_iface s); apply wlp_ret; (split; [done|]); intros p [= <-].
  exists buf. split; [done|]. simpl. lia.
Qed.

Definition turn_ok w (r : tun_turn) : Prop :=
  match r with TunReturn => True | TunContinue p | TunSend _ p => pkt_ok w.(x_bufs) p end.

Lemma wlp_select fuel tid pkt w :
  client_ok w → wlp (client_tun_select fuel tid pkt) (λ r w', kept w w' ∧ turn_ok w' r) w.
Proof.
  intros Hok. apply wlp_and; [apply kept_select|].
  unfold client_tun_select. apply wlp_bind, xwlp_get_server. intros s _.
  apply wlp_bind, wlp_deref. intros tun _. apply wlp_bind, xwlp_tick.
  destruct (env_tun_Read _ _) as [data|]; [|by apply wlp_ret].
  apply wlp_bind, wlp_fill. intros buf Hb.
  match goal with |- wlp _ _ ?x => set (w1 := x) end.
  assert (client_ok w1) as Hok1.
  { eapply set_buf_kept; [exact Hb|]. by apply (same_ok w); [unfold same|]. }
  set (pkt' := pkt <| p_len := Z.of_nat (length data) |>).
  assert (pkt_ok w1.(x_bufs) pkt') as Hp.
  { exists (data ++ drop (length data) buf). simpl. rewrite lookup_insert_eq, length_app. split; [done|lia]. }
  apply wlp_bind. eapply wlp_mono; [apply kept_pick|]. intros r w2 Hk.
  destruct (Hk Hok1) as (_ & _ & Hpk). by destruct r; apply wlp_ret; apply Hpk.
Qed.

Lemma wlp_send_turn l p w : pkt_ok w.(x_bufs) p → wlp (client_tun_send l p) (λ _ w', kept w w') w.
Proof. intros Hp. apply wlp_bind, wlp_get_skcp. intros c _. by apply wlp_send_kept. Qed.

(** ** Configurations and steps *)

Record conf := mkConf {
  c_world : xworld;
  (** tun readers between two packets *)
  c_readers : list (Z * packetType);
  (** tun readers that send on the channel of a connection *)
  c_senders : list (Z * loc * packetType)
}.

Definition init_conf : conf := mkConf init_xworld [] [].

(** The goroutine has been started. *)
Definition started (g : goroutine) (w : xworld) : Prop := Go g ∈ w.(x_trace).

(** The readers and senders after a turn. *)
Definition after_select (c : conf) (tid : Z) (rs : list (Z * packetType)) (r : tun_turn) (w : xworld)
    : conf :=
  match r with
  | TunReturn => mkConf w rs c.(c_senders)
  | TunContinue p => mkConf w ((tid, p) :: rs) c.(c_senders)
  | TunSend l p => mkConf w rs ((tid, l, p) :: c.(c_senders))
  end.

(** The operations of the other goroutines and of netlink: one call or turn. *)
Inductive call : relation xworld :=
| call_connect tid src ifname gw w w' :
    0 < tid → tid + 11 < 2 ^ 32 →
    client_connect_server tid src ifname gw w = (Ret tt, w') → call w w'
| call_down_ifname tid ifname w w' :
    client_disconnect_session_by_ifname tid ifname w = (Ret tt, w') → call w w'
| call_down_src tid src ifname gw w w' :
    client_disconnect_session_by_src tid src ifname gw w = (Ret tt, w') → call w w'
| call_pings w w' : client_send_server_pings w = (Ret tt, w') → call w w'
| call_kcp tid l c conn r w w' :
    started (GoClientHandleKcp tid l) w → w.(x_skcps) !! l = Some c → c.(sk_kcp) = Some conn →
    client_handle_kcp_turn tid l conn w = (Ret r, w') → call w w'
| call_writer tid l ch r w w' :
    started (GoClientKcpWriter tid l ch) w →
    client_kcp_writer_turn tid l ch w = (Ret r, w') → call w w'.

Inductive step : relation conf :=
| step_call c w' : call c.(c_world) w' → step c (mkConf w' c.(c_readers) c.(c_senders))
| step_start c tid p w' :
    started (GoClientHandleTun tid) c.(c_world) →
    client_tun_start tid c.(c_world) = (Ret (Some p), w') →
    step c (mkConf w' ((tid, p) :: c.(c_readers)) c.(c_senders))
| step_select c tid p rs fuel r w' :
    c.(c_readers) ≡ₚ (tid, p) :: rs →
    client_tun_select fuel tid p c.(c_world) = (Ret r, w') →
    step c (after_select c tid rs r w')
| step_send c tid l p ss w' :
    c.(c_senders) ≡ₚ (tid, l, p) :: ss →
    client_tun_send l p c.(c_world) = (Ret tt, w') →
    step c (mkConf w' ((tid, p) :: c.(c_readers)) ss).

Definition reachable (c : conf) : Prop := rtc step init_conf c.

Record conf_ok (c : conf) : Prop := {
  conf_client : client_ok c.(c_world);
  conf_readers : Forall (λ x, pkt_ok c.(c_world).(x_bufs) x.2) c.(c_readers);
  conf_senders : Forall (λ x, pkt_ok c.(c_world).(x_bufs) x.2) c.(c_senders)
}.

(** Every call keeps the client and its packets. *)
Lemma call_ok w w' :
  call w w' → client_ok w → client_ok w' ∧ ∀ p, pkt_ok w.(x_bufs) p → pkt_ok w'.(x_bufs) p.
Proof.
  intros Hc Hok. assert (kept w w' → client_ok w' ∧ ∀ p, pkt_ok w.(x_bufs) p → pkt_ok w'.(x_bufs) p)
    as Hkept by by intros Hk; destruct (Hk Hok) as (? & _ & ?).
  destruct Hc as [tid src ifname gw w w' H1 H2 Hr|tid ifname w w' Hr|tid src ifname gw w w' Hr
    |w w' Hr|tid l c conn r w w' _ _ _ Hr|tid l ch r w w' _ Hr].
  - destruct (xwlp_connect tid src ifname gw w H1 H2 Hok tt w' Hr) as (? & Hb & _).
    split; [done|]. intros p. by rewrite Hb.
  - apply Hkept. by eapply kept_by_ifname.
  - apply Hkept. by eapply kept_by_src.
  - apply Hkept. by eapply kept_pings.
  - apply Hkept. by eapply kept_kcp_turn.
  - apply Hkept. by eapply kept_writer_turn.
Qed.

Lemma packets_kept {A} (f : A → packetType) w w' (l : list A) :
  (∀ p, pkt_ok w.(x_bufs) p → pkt_ok w'.(x_bufs) p) →
  Forall (λ x, pkt_ok w.(x_bufs) (f x)) l → Forall (λ x, pkt_ok w'.(x_bufs) (f x)) l.
Proof. intros H Hl. eapply Forall_impl; [exact Hl|]. intros x. apply H. Qed.

Lemma step_ok c c' : step c c' → conf_ok c → conf_ok c'.
Proof.
  intros Hstep [Hok Hr Hs].
  assert (∀ w', kept c.(c_world) w' → client_ok w' ∧
    (∀ p, pkt_ok c.(c_world).(x_bufs) p → pkt_ok w'.(x_bufs) p)) as Hkept
    by by intros w' Hk; destruct (Hk Hok) as (? & _ & ?).
  destruct Hstep as [c w' Hc|c tid p w' _ Hrun|c tid p rs fuel r w' Hp Hrun|c tid l p ss w' Hp Hrun].
  - destruct (call_ok _ _ Hc Hok) as [Hok' Hk].
    split; simpl; [done|by eapply packets_kept..].
  - destruct (wlp_start tid _ Hok _ _ Hrun) as [[Hok' Hk]%Hkept Hnew].
    split; simpl; [done| |by eapply packets_kept]. constructor; [by apply Hnew|by eapply packets_kept].
  - destruct (wlp_select fuel tid p _ Hok _ _ Hrun) as [[Hok' Hk]%Hkept Ht].
    rewrite Hp in Hr. apply Forall_cons in Hr as [_ Hr].
    destruct r; simpl in *; split; simpl; try done; try (by eapply packets_kept);
      (constructor; [done|by eapply packets_kept]).
  - rewrite Hp in Hs. apply Forall_cons in Hs as [Hpk Hs]. simpl in Hpk.
    assert (kept c.(c_world) w') as [Hok' Hk]%Hkept.
    { eapply (wlp_send_turn l p); [exact Hpk|exact Hrun]. }
    split; simpl; [done| |by eapply packets_kept]. constructor; [by apply Hk|by eapply packets_kept].
Qed.

Lemma init_conf_ok : conf_ok init_conf.
Proof.
  split; [|by constructor..]. split; simpl; try by intros ? ?.
  split_and!; intros l; rewrite lookup_empty; by intros [? ?].
Qed.
End inv.
