(* ===== verification/ExpServerInv.v ===== *)
(** * The channel experiment: the goroutines of the server interleaved

    The step relation of the server's goroutines, as [ExpInv] for the client.  The
    part of [client_ok] that speaks of channels and buffers is the same for both
    ends, so [kept] also says that a step of the server keeps them. *)
From stdpp Require Import base gmap sets list strings relations.
From Stdlib Require Import ZArith Lia.
From S2P Require Import Prelude GoNet Network Ring World Wire Client Server Chan ExpWorld.
From S2P Require Import ExpClient ExpSpec ExpConnect ExpServer ExpServerSpec ExpInv.
#[local] Open Scope Z_scope.

Section inv.
Context {E : Env} {EL : EnvLaws E}.
Implicit Types (w : xworld).

(** A step that keeps packets and peers, and adds no peer. *)
Definition skept w w' : Prop :=
  kept w w' ∧ (xserver_ok w → xserver_ok w' ∧ ∀ t, xpeers w' t ⊆ xpeers w t).

#[export] Instance skept_preorder : PreOrder skept.
Proof.
  split; [intros w; by split|]. intros w1 w2 w3 [K1 S1] [K2 S2].
  split; [by transitivity w2|]. intros Hw. destruct (S1 Hw) as [Hw2 Hl2].
  destruct (S2 Hw2) as [Hw3 Hl3]. split; [done|]. intros t. by transitivity (xpeers w2 t).
Qed.

Lemma skept_same {A} (m : X A) : (∀ w, preserves (same w) m) → respects skept m.
Proof.
  apply respects_preserves; [apply same_refl|]. intros w w' Hs. split; [by apply same_kept|].
  apply same_same_server in Hs. intros Hw. split; [by eapply same_server_ok|].
  intros t. by rewrite (same_server_peers w w').
Qed.

Lemma same_get_client w t : preserves (same w) (get_client t).
Proof. unfold get_client. preserve. Qed.
Lemma same_get_ckcp w l : preserves (same w) (get_ckcp l).
Proof. unfold get_ckcp. preserve. Qed.
#[local] Hint Resolve same_get_client same_get_ckcp : preserves.
#[local] Hint Extern 2 (respects skept _) =>
  apply skept_same; intros ?; solve [eauto with preserves] : respects.

(** ** Steps on the records of the server *)

(** Nothing of the client, its channels and buffers changes. *)
Lemma client_side_kept w w' :
  w'.(g_server_list) = w.(g_server_list) → w'.(x_skcps) = w.(x_skcps) →
  w'.(x_chans) = w.(x_chans) → w'.(x_bufs) = w.(x_bufs) → (w.(x_next) <= w'.(x_next))%nat →
  kept w w'.
Proof.
  intros E1 E2 E3 E4 E5 Hok.
  assert (∀ t, xlinks w' t = xlinks w t) as Hl by (intros t; unfold xlinks; by rewrite E1, E2).
  split_and!; [|intros t; by rewrite Hl|by rewrite E4]. destruct Hok as [H1 H2 H3 H4].
  split; rewrite ?E1, ?E2, ?E3, ?E4; try done; [intros t; rewrite !Hl; apply H2|].
  destruct H4 as (F1 & F2 & F3). split_and!; intros l Hi; [apply F1 in Hi|apply F2 in Hi|apply F3 in Hi]; lia.
Qed.

Lemma kept_upd_client tid f : respects kept (upd_client tid f).
Proof. intros w. apply xwlp_upd_client. intros s _. by apply client_side_kept. Qed.
Lemma kept_upd_ckcp l f : respects kept (upd_ckcp l f).
Proof. intros w. apply wlp_upd_ckcp. intros s _. by apply client_side_kept. Qed.
Lemma kept_new_ckcp : respects kept new_ckcp.
Proof. intros w. apply wlp_new_ckcp, client_side_kept; try done. simpl. lia. Qed.
Lemma kept_set_client f : respects kept (modify (fun w => w <| g_client_list ::= f |>)).
Proof. intros w. by apply wlp_modify, client_side_kept. Qed.
Lemma kept_make_channel : respects kept (make_channel 100).
Proof.
  intros w. apply wlp_make_channel. simpl. intros [H1 H2 H3 (H4 & H5 & H6)].
  split; [|by split]. split; [|done| |].
  - intros t s Hs. destruct (H1 t s Hs) as [C1 C2 C3]. split; [|done|done].
    intros k l Hk. destruct (C1 k l Hk) as (c & kcp & ch & ? & ? & ? & ? & ? & Hch).
    exists c, kcp, ch. split_and!; try done. simpl. apply lookup_insert_is_Some'. by right.
  - intros c q. simpl. rewrite lookup_insert_Some. intros [[_ <-]|[_ ?]]; [|by eapply H3].
    split_and!; [done|apply make_chan_ok|by constructor].
  - simpl. split_and!; intros l; rewrite ?lookup_insert_is_Some'; [| |].
    + intros Hi%H4. lia.
    + intros [<-|Hi%H5]; lia.
    + intros Hi%H6. lia.
Qed.

Lemma skept_upd_client tid f :
  (∀ s, xc_conns (f s) ⊆ xc_conns s ∧ (is_Some (f s).(xc_kcps) → is_Some s.(xc_kcps)) ∧
    (f s).(xc_iface) = s.(xc_iface) ∧ (f s).(xc_base_convid) = s.(xc_base_convid)) →
  respects skept (upd_client tid f).
Proof.
  intros Hf w. apply xwlp_upd_client. intros s Hs. destruct (Hf s) as (F1 & F2 & F3 & F4).
  split; [by apply client_side_kept|]. intros Hok. split.
  - eapply (xshrink_client tid s (f s)); try done. rewrite F3, F4.
    pose proof (xsok_base _ _ _ _ (xsok_tunnels _ Hok _ _ Hs)). tauto.
  - intros t. unfold xpeers. simpl. destruct (decide (t = tid)) as [->|Hne].
    + rewrite lookup_insert_eq, Hs. apply map_subseteq_spec. intros k h.
      rewrite !lookup_omap_Some. intros (l & Hlk & Hk). exists l. split; [done|].
      by eapply lookup_weaken.
    + by rewrite lookup_insert_ne.
Qed.

Lemma skept_last_convid tid k : respects skept (upd_client tid (setf xc_last_convid (fun _ => k))).
Proof. apply skept_upd_client. intros []. by split_and!. Qed.
Lemma skept_delete tid k : respects skept (upd_client tid (setf xc_kcps (fmap (delete k)))).
Proof.
  apply skept_upd_client. intros s. split_and!; [|simpl; by rewrite fmap_is_Some|done|done].
  unfold xc_conns. simpl. destruct (xc_kcps s); [apply delete_subseteq|done].
Qed.

(** The part of a connection record that never changes. *)
Definition score_eq (c c' : client_kcp) : Prop :=
  c'.(ck_convid) = c.(ck_convid) ∧ c'.(ck_kcp) = c.(ck_kcp) ∧
  c'.(ck_writer_channel) = c.(ck_writer_channel).

Lemma skept_upd_ckcp l f : (∀ c, score_eq c (f c)) → respects skept (upd_ckcp l f).
Proof.
  intros Hf w. apply wlp_upd_ckcp. intros c Hc. destruct (Hf c) as (F1 & F2 & F3).
  split; [by apply client_side_kept|]. intros [H1 (H2 & H3)]. split.
  - split.
    + intros t s Hs. destruct (H1 t s Hs) as [C1 C2 C3]. split; [|done|done].
      intros k l' Hk. destruct (C1 k l' Hk) as (c0 & kcp & ch & Hc0 & HH). simpl.
      destruct (decide (l' = l)) as [->|]; [|exists c0, kcp, ch; by rewrite lookup_insert_ne].
      assert (c0 = c) as -> by congruence. exists (f c), kcp, ch.
      by rewrite lookup_insert_eq, F1, F2, F3.
    + split; [|done]. intros l'. simpl. rewrite lookup_insert_is_Some'.
      intros [<-|?]; [apply H2; by eexists|by apply H2].
  - intros t. unfold xpeers. simpl. destruct (g_client_list w !! t) as [s|]; [|done].
    apply reflexive_eq, map_eq. intros k. rewrite !lookup_omap.
    destruct (xc_conns s !! k) as [l'|]; [|done]. simpl.
    destruct (decide (l' = l)) as [->|]; [|by rewrite lookup_insert_ne].
    rewrite lookup_insert_eq, Hc. simpl. done.
Qed.

(** ** Steps on channels and buffers *)

(** The server after channels and buffers were added or changed. *)
Lemma grown_server w w' :
  kept w w' → w'.(g_client_list) = w.(g_client_list) → w'.(x_ckcps) = w.(x_ckcps) →
  (w.(x_next) <= w'.(x_next))%nat →
  (∀ ch, is_Some (w.(x_chans) !! ch) ↔ is_Some (w'.(x_chans) !! ch)) → skept w w'.
Proof.
  intros Hk E1 E2 E3 E4. split; [done|]. intros [H1 (H2 & H3)]. split.
  - split; rewrite ?E1, ?E2.
    + intros t s Hs. destruct (H1 t s Hs) as [C1 C2 C3]. split; [|done|done].
      intros k l Hl. destruct (C1 k l Hl) as (c & kcp & ch & ? & ? & ? & ? & ? & Hch).
      exists c, kcp, ch. split_and!; try done. by apply E4.
    + split; [intros l Hl; apply H2 in Hl; lia|]. intros l Hl. apply E4, H3 in Hl. lia.
  - intros t. unfold xpeers. by rewrite E1, E2.
Qed.

Lemma same_dom {A} (m : gmap loc A) c q q' ch :
  m !! c = Some q → is_Some (m !! ch) ↔ is_Some (<[c := q']> m !! ch).
Proof.
  intros Hq. rewrite lookup_insert_is_Some'. split; [by right|]. intros [<-|?]; [by eexists|done].
Qed.

Lemma skept_by {A} (m : X A) w :
  wlp m (λ _ w', kept w w') w → wlp m (λ _ w', kept w w' → skept w w') w →
  wlp m (λ _ w', skept w w') w.
Proof. intros H1 H2 a w' Hrun. by apply (H2 a w' Hrun), (H1 a w' Hrun). Qed.

Lemma skept_receive ch : respects skept (receive ch).
Proof.
  intros w. apply skept_by; [apply kept_receive|]. apply wlp_receive.
  intros q pkt q' Hq _ Hk. apply grown_server; try done. intros c. by eapply same_dom.
Qed.
Lemma wlp_send_skept ch pkt w :
  pkt_ok w.(x_bufs) pkt → wlp (send ch pkt) (λ _ w', skept w w') w.
Proof.
  intros Hp. apply skept_by; [by apply wlp_send_kept|]. apply wlp_send.
  intros c q q' _ Hq _ Hk. apply grown_server; try done. intros c'. by eapply same_dom.
Qed.
Lemma skept_fill b data : respects skept (fill b data).
Proof.
  intros w. apply skept_by; [apply kept_fill|]. apply wlp_fill.
  intros buf _ Hk. by apply grown_server.
Qed.
Lemma skept_make_buffer n : respects skept (make_buffer n).
Proof.
  intros w. apply skept_by.
  - eapply wlp_mono; [apply make_buffer_kept|]. by intros b w' [? _].
  - apply wlp_make_buffer. intros Hk. apply grown_server; try done. simpl. lia.
Qed.
#[local] Hint Resolve skept_last_convid skept_delete skept_receive skept_fill skept_make_buffer : respects.
#[local] Hint Extern 1 (respects skept (upd_ckcp _ _)) =>
  apply skept_upd_ckcp; intros []; by unfold score_eq : respects.

(** ** The operations of the server *)

Lemma skept_by_convid tid k : respects skept (server_disconnect_session_by_convid tid k).
Proof. unfold server_disconnect_session_by_convid. respect. Qed.
#[local] Hint Resolve skept_by_convid : respects.
Lemma skept_conn_turn tid k l conn message : respects skept (server_conn_turn tid k l conn message).
Proof. unfold server_conn_turn. respect. Qed.
Lemma skept_pings : respects skept server_send_client_pings.
Proof. unfold server_send_client_pings. respect. Qed.
Lemma skept_round_robin tid keys d : respects skept (server_round_robin tid keys d).
Proof. revert d. induction keys as [|k keys IH]; intros d; simpl; respect. Qed.
#[local] Hint Resolve skept_round_robin : respects.
Lemma skept_choose tid : respects skept (server_choose_kcp_conn tid).
Proof. unfold server_choose_kcp_conn. respect. Qed.
#[local] Hint Resolve skept_choose : respects.
Lemma skept_pick fuel tid : respects skept (server_pick fuel tid).
Proof. induction fuel as [|fuel IH]; simpl; respect. Qed.
#[local] Hint Resolve skept_pick : respects.
Lemma skept_select fuel tid pkt : respects skept (server_tun_select fuel tid pkt).
Proof. unfold server_tun_select. respect. Qed.
Lemma skept_writer_turn tid l ch : respects skept (server_kcp_writer_turn tid l ch).
Proof. unfold server_kcp_writer_turn. respect. Qed.

(** Accepting keeps channels and buffers. *)
#[local] Hint Resolve kept_upd_client kept_upd_ckcp kept_new_ckcp kept_set_client kept_make_channel
  : respects.
Lemma kept_accept k conn : respects kept (server_accept_conn k conn).
Proof. unfold server_accept_conn, server_setup_client. respect. Qed.

(** A packet from the start of the goroutine on lies in its buffer. *)
Lemma wlp_server_start tid w :
  wlp (server_tun_start tid)
    (λ r w', skept w w' ∧ ∀ p, r = Some p → pkt_ok w'.(x_bufs) p) w.
Proof.
  unfold server_tun_start. apply wlp_bind, xwlp_get_client. intros s _.
  destruct (xc_iface s); [|by apply wlp_ret; split].
  apply wlp_bind, wlp_deref. intros n _. apply wlp_bind.
  eapply wlp_mono; [apply wlp_and; [apply skept_make_buffer|apply make_buffer_kept]|].
  intros b w1 [Hsk [_ [buf Hb]]]. apply wlp_ret. split; [done|]. intros p [= <-].
  exists buf. split; [done|]. simpl. lia.
Qed.

Lemma wlp_server_select fuel tid pkt w :
  client_ok w → wlp (server_tun_select fuel tid pkt) (λ r w', skept w w' ∧
    (pkt_ok w.(x_bufs) pkt → turn_ok w' r)) w.
Proof.
  intros Hok. apply wlp_and; [apply skept_select|].
  unfold server_tun_select. apply wlp_bind. eapply wlp_mono; [apply skept_pick|].
  intros r w1 [Hk _]. destruct (Hk Hok) as (Hok1 & _ & Hp).
  destruct r as [l|]; [|by apply wlp_ret; intros ?; apply Hp].
  apply wlp_bind, xwlp_get_client. intros s _. apply wlp_bind, wlp_deref. intros tun _.
  apply wlp_bind, xwlp_tick. destruct (env_tun_Read _ _) as [data|]; [|by apply wlp_panic].
  apply wlp_bind, wlp_fill. intros buf Hb. apply wlp_ret. intros _.
  exists (data ++ drop (length data) buf). simpl. rewrite lookup_insert_eq, length_app. split; [done|lia].
Qed.

Lemma wlp_server_send l p w :
  pkt_ok w.(x_bufs) p → wlp (server_tun_send l p) (λ _ w', skept w w') w.
Proof. intros Hp. apply wlp_bind, wlp_get_ckcp. intros c _. by apply wlp_send_skept. Qed.

(** ** Steps *)

Inductive scall : relation xworld :=
| scall_listener n listener w w' :
    started (GoServerListener listener) w →
    server_handle_kcp_listener n listener w = (Ret tt, w') → scall w w'
| scall_accept conn w w' :
    started (GoServerAcceptConn (env_kcp_GetConv conn) conn) w →
    server_accept_conn (env_kcp_GetConv conn) conn w = (Ret tt, w') → scall w w'
| scall_conn tid k l c conn message r w w' :
    started (GoServerHandleKcpConn tid k l) w → w.(x_ckcps) !! l = Some c →
    c.(ck_kcp) = Some conn → server_conn_turn tid k l conn message w = (Ret r, w') → scall w w'
| scall_pings w w' : server_send_client_pings w = (Ret tt, w') → scall w w'
| scall_writer tid l ch r w w' :
    started (GoServerKcpWriter tid l ch) w →
    server_kcp_writer_turn tid l ch w = (Ret r, w') → scall w w'.

Inductive sstep : relation conf :=
| sstep_call c w' : scall c.(c_world) w' → sstep c (mkConf w' c.(c_readers) c.(c_senders))
| sstep_start c tid p w' :
    started (GoServerHandleTun tid) c.(c_world) →
    server_tun_start tid c.(c_world) = (Ret (Some p), w') →
    sstep c (mkConf w' ((tid, p) :: c.(c_readers)) c.(c_senders))
| sstep_select c tid p rs fuel r w' :
    c.(c_readers) ≡ₚ (tid, p) :: rs →
    server_tun_select fuel tid p c.(c_world) = (Ret r, w') →
    sstep c (after_select c tid rs r w')
| sstep_send c tid l p ss w' :
    c.(c_senders) ≡ₚ (tid, l, p) :: ss →
    server_tun_send l p c.(c_world) = (Ret tt, w') →
    sstep c (mkConf w' ((tid, p) :: c.(c_readers)) ss).

(** From the start of [run_server], before its loop, on. *)
Definition sreachable (c : conf) : Prop :=
  ∃ r w0, run_server 0 init_xworld = (Ret r, w0) ∧ rtc sstep (mkConf w0 [] []) c.

Record sconf_ok (c : conf) : Prop := {
  sconf_packets : conf_ok c;
  sconf_server : xserver_ok c.(c_world)
}.

Lemma same_listener w n listener : preserves (same w) (server_handle_kcp_listener n listener).
Proof. induction n as [|n IH]; simpl; preserve. Qed.

Lemma scall_ok w w' :
  tun_named → scall w w' → client_ok w → xserver_ok w →
  xserver_ok w' ∧ client_ok w' ∧ ∀ p, pkt_ok w.(x_bufs) p → pkt_ok w'.(x_bufs) p.
Proof.
  intros Hname Hc Hok Hs.
  assert (skept w w' → xserver_ok w' ∧ client_ok w' ∧ ∀ p, pkt_ok w.(x_bufs) p → pkt_ok w'.(x_bufs) p)
    as Hkept by by intros [Hk Hk']; destruct (Hk Hok) as (? & _ & ?), (Hk' Hs) as [? _].
  destruct Hc as [n h w w' _ Hr|conn w w' _ Hr|tid k l c conn message r w w' _ _ _ Hr|w w' Hr
    |tid l ch r w w' _ Hr].
  - apply Hkept. eapply (skept_same (server_handle_kcp_listener n h)); [|done].
    intros w0. apply same_listener.
  - destruct (kept_accept _ _ _ _ _ Hr Hok) as (? & _ & ?). split_and!; [|done..].
    destruct (wp_server_accept _ conn w Hname Hs eq_refl) as (a & w2 & Hr2 & Hok2 & _). congruence.
  - apply Hkept. by eapply skept_conn_turn.
  - apply Hkept. by eapply skept_pings.
  - apply Hkept. by eapply skept_writer_turn.
Qed.

Lemma sstep_ok c c' : tun_named → sstep c c' → sconf_ok c → sconf_ok c'.
Proof.
  intros Hname Hstep [[Hok Hr Hs] Hsv].
  assert (∀ w', skept c.(c_world) w' → client_ok w' ∧ xserver_ok w' ∧
    (∀ p, pkt_ok c.(c_world).(x_bufs) p → pkt_ok w'.(x_bufs) p)) as Hkept
    by by intros w' [Hk Hk']; destruct (Hk Hok) as (? & _ & ?), (Hk' Hsv) as [? _].
  destruct Hstep as [c w' Hc|c tid p w' _ Hrun|c tid p rs fuel r w' Hp Hrun|c tid l p ss w' Hp Hrun].
  - destruct (scall_ok _ _ Hname Hc Hok Hsv) as (Hsv' & Hok' & Hk).
    split; [split; simpl; [done|by eapply packets_kept..]|done].
  - destruct (wlp_server_start tid _ _ _ Hrun) as [(Hok' & Hsv' & Hk)%Hkept Hnew].
    split; [|done]. split; simpl; [done| |by eapply packets_kept].
    constructor; [by apply Hnew|by eapply packets_kept].
  - destruct (wlp_server_select fuel tid p _ Hok _ _ Hrun) as [(Hok' & Hsv' & Hk)%Hkept Ht].
    rewrite Hp in Hr. apply Forall_cons in Hr as [Hpk Hr]. specialize (Ht Hpk).
    destruct r; simpl in *; (split; [|done]); split; simpl; try done; try (by eapply packets_kept);
      (constructor; [done|by eapply packets_kept]).
  - rewrite Hp in Hs. apply Forall_cons in Hs as [Hpk Hs]. simpl in Hpk.
    destruct (Hkept w' (wlp_server_send l p _ Hpk _ _ Hrun)) as (Hok' & Hsv' & Hk).
    split; [|done]. split; simpl; [done| |by eapply packets_kept].
    constructor; [by apply Hk|by eapply packets_kept].
Qed.

Lemma xserver_init : xserver_ok init_xworld.
Proof. split; simpl; [done|]. split; intros l; rewrite lookup_empty; by intros [? ?]. Qed.

Lemma same_run_server w : preserves (same w) (run_server 0).
Proof. unfold run_server, createListener. simpl. preserve. Qed.

Lemma sreachable_ok c : tun_named → sreachable c → sconf_ok c.
Proof.
  intros Hname (r & w0 & Hrun & Hsteps).
  pose proof (same_run_server init_xworld init_xworld (same_refl _)) as Hs. rewrite Hrun in Hs.
  apply (rtc_ind_r (R := sstep) sconf_ok (mkConf w0 [] [])); [| |exact Hsteps].
  - split; [split; simpl; [|done..]|].
    + eapply same_ok; [exact Hs|apply init_conf_ok].
    + eapply same_server_ok; [by apply same_same_server|exact xserver_init].
  - intros c1 c2 _ Hstep. by apply sstep_ok.
Qed.
End inv.
