(* ===== verification/ExpSched.v ===== *)
(** * The channel experiment: disconnecting and choosing connections

    A disconnect filters the links of its tunnel; choosing a connection for a
    packet disconnects dead sessions until it finds a live one or none is left. *)
From stdpp Require Import base gmap sets list strings.
From Stdlib Require Import ZArith Lia.
From S2P Require Import Prelude GoNet Network Ring World Wire Client Chan ExpWorld.
From S2P Require Import ExpClient ExpSpec ExpConnect ExpInv.
#[local] Open Scope Z_scope.

Section sched.
Context {E : Env} {EL : EnvLaws E} {KL : KcpLaws E}.
Implicit Types (w : xworld).

(** The connection at [l] fails the test. *)
Definition passes (heap : gmap loc server_kcp) (test : server_kcp → bool) (l : loc) : bool :=
  match heap !! l with Some c => test c | None => false end.

Record disconnecting (tid : Z) (s0 : serverType) (test : server_kcp → bool) w0 (keys : list Z) w
    : Prop := {
  dis_ok : client_ok w;
  dis_nodup : NoDup keys;
  dis_heap : w.(x_skcps) = w0.(x_skcps);
  dis_bufs : w.(x_bufs) = w0.(x_bufs);
  dis_other : ∀ t, t ≠ tid → w.(g_server_list) !! t = w0.(g_server_list) !! t;
  dis_server : ∃ s, w.(g_server_list) !! tid = Some s ∧
    xs_conns s = filter (λ x, passes w0.(x_skcps) test x.2 = false ∨ x.1 ∈ keys) (xs_conns s0);
  dis_closed : ∀ k l c kcp, xs_conns s0 !! k = Some l → k ∉ keys → w0.(x_skcps) !! l = Some c →
    test c = true → c.(sk_kcp) = Some kcp → Ev (EvKcpClose kcp) ∈ w.(x_trace)
}.

Lemma xdisconnecting_skip tid s0 test w0 k keys w :
  disconnecting tid s0 test w0 (k :: keys) w →
  (∀ l, xs_conns s0 !! k = Some l → passes w0.(x_skcps) test l = false) →
  disconnecting tid s0 test w0 keys w.
Proof.
  intros [H1 H2 H3 H3' H4 (s & Hs & Hc) H6] Hk. apply NoDup_cons in H2 as [Hnk Hnd]. split; try done.
  - exists s. split; [done|]. rewrite Hc. apply map_filter_ext. intros k' l Hl. simpl.
    rewrite elem_of_cons. split; [|tauto]. intros [?|[->|?]]; [tauto| |tauto]. left. by apply Hk.
  - intros k' l c kcp Hl Hnot Hcl Ht Hkcp. eapply H6; try done.
    intros [->|?]%elem_of_cons; [|done]. specialize (Hk l Hl). unfold passes in Hk.
    rewrite Hcl in Hk. congruence.
Qed.

(** Closing one connection and deleting its id. *)
Record closed_one (tid k : Z) (s : serverType) (kcp : handle) w w' : Prop := {
  cl_kept : kept w w';
  cl_heap : w'.(x_skcps) = w.(x_skcps);
  cl_bufs : w'.(x_bufs) = w.(x_bufs);
  cl_other : ∀ t, t ≠ tid → w'.(g_server_list) !! t = w.(g_server_list) !! t;
  cl_server : ∃ s', w'.(g_server_list) !! tid = Some s' ∧ xs_conns s' = delete k (xs_conns s);
  cl_trace : ∃ evs, w'.(x_trace) = w.(x_trace) ++ Ev (EvKcpClose kcp) :: evs
}.

Lemma wp_close_one tid k l reset s c kcp w :
  w.(g_server_list) !! tid = Some s → w.(x_skcps) !! l = Some c → c.(sk_kcp) = Some kcp →
  wp (client_close l ;; whenM reset (upd_server tid (setf xs_last_convid (fun _ => 0))) ;;
      upd_server tid (setf xs_kcps (fmap (delete k)))) (λ _, closed_one tid k s kcp w) w.
Proof.
  intros Hs Hc Hkcp. set (m := client_close l ;; _).
  assert (respects kept m) as Hkept by (unfold m; respect).
  assert (∀ b, xs_conns (s <| xs_last_convid := b |> <| xs_kcps ::= fmap (delete k) |>) =
    delete k (xs_conns s)) as Hdel.
  { intros b. unfold xs_conns. simpl. destruct (xs_kcps s); simpl; [done|]. by rewrite delete_empty. }
  assert (wp m (λ _ w', w'.(x_skcps) = w.(x_skcps) ∧ w'.(x_bufs) = w.(x_bufs) ∧
    (∀ t, t ≠ tid → w'.(g_server_list) !! t = w.(g_server_list) !! t) ∧
    (∃ s', w'.(g_server_list) !! tid = Some s' ∧ xs_conns s' = delete k (xs_conns s)) ∧
    ∃ evs, w'.(x_trace) = w.(x_trace) ++ Ev (EvKcpClose kcp) :: evs) w) as Hwp.
  2: { eapply wp_mono; [apply (wp_wlp _ _ _ _ Hwp (Hkept w))|].
       intros [] w' ((? & ? & ? & ? & ?) & ?). by split. }
  unfold m, client_close. xwp_steps. rewrite Hkcp. xwp_steps.
  destruct (sk_udp_conn c); xwp_steps; destruct reset; simpl whenM; xwp_steps; simpl;
    (split_and!; [done|done|intros t Ht'; by rewrite ?lookup_insert_ne| |]);
    try (eexists; rewrite <- ?app_assoc; done);
    (eexists; rewrite lookup_insert_eq; split; [done|]);
    first [apply Hdel|apply (Hdel (xs_last_convid s))].
Qed.

Lemma xdisconnecting_close tid s0 test w0 k keys w w' s l c kcp :
  disconnecting tid s0 test w0 (k :: keys) w → w.(g_server_list) !! tid = Some s →
  xs_conns s !! k = Some l → w.(x_skcps) !! l = Some c → c.(sk_kcp) = Some kcp → test c = true →
  closed_one tid k s kcp w w' → disconnecting tid s0 test w0 keys w'.
Proof.
  intros [H1 H2 H3 H3' H4 (s1 & Hs1 & Hc1) H6] Hs Hk Hc Hkcp Ht
    [G0 G1 G1' G2 (s2 & Hs2 & Hcs2) [evs G3]].
  assert (s1 = s) as -> by congruence. rewrite Hc1 in Hk. apply map_lookup_filter_Some in Hk as [Hk _].
  rewrite H3 in Hc. apply NoDup_cons in H2 as [Hnk Hnd]. split.
  - by apply G0.
  - done.
  - by rewrite G1.
  - by rewrite G1'.
  - intros t Htt. by rewrite G2, H4.
  - exists s2. split; [done|]. rewrite Hcs2, Hc1. apply map_eq. intros k'. apply option_eq.
    intros l'. rewrite lookup_delete_Some, !map_lookup_filter_Some. simpl. rewrite elem_of_cons.
    split; [naive_solver|]. intros [Hl' Hor]. split; [|naive_solver]. intros <-.
    destruct Hor as [Hf|?]; [|done]. assert (l' = l) as -> by congruence.
    unfold passes in Hf. rewrite Hc in Hf. congruence.
  - intros k' l' c' kcp' Hl' Hnot Hc' Ht' Hkcp'. rewrite G3. apply elem_of_app.
    destruct (decide (k' = k)) as [->|Hne].
    + right. assert (kcp' = kcp) as -> by congruence. apply elem_of_cons. by left.
    + left. eapply H6; try done. intros [->|?]%elem_of_cons; done.
Qed.

Lemma xdisconnecting_start tid test s w :
  client_ok w → w.(g_server_list) !! tid = Some s →
  disconnecting tid s test w (env_range w.(x_tick) (map_to_list (xs_conns s)).*1) (w <| x_tick ::= S |>).
Proof.
  intros Hok Hs. split; simpl; try done.
  - by apply (same_ok w); [unfold same|].
  - apply World.range_keys_NoDup.
  - exists s. split; [done|]. symmetry. apply map_filter_id. intros k l Hl. right.
    apply World.range_keys_elem. by eexists.
  - intros k l c kcp Hl Hnot. destruct Hnot. apply World.range_keys_elem. by eexists.
Qed.

Lemma xwp_disconnect_where tid reset test s w :
  client_ok w → w.(g_server_list) !! tid = Some s →
  wp (client_disconnect_where tid reset test) (λ _, disconnecting tid s test w []) w.
Proof.
  intros Hok Hs. unfold client_disconnect_where. xwp_steps.
  apply (wp_for_each _ _ (disconnecting tid s test w)); [|by apply xdisconnecting_start].
  intros k keys w1 HJ. destruct (dis_server _ _ _ _ _ _ HJ) as (s1 & Hs1 & Hc1). xwp_steps.
  destruct (xs_conns s1 !! k) as [l|] eqn:Hk.
  - destruct (xlisted_conn w1 tid s1 k l (dis_ok _ _ _ _ _ _ HJ) Hs1 Hk) as (c & kcp & ch & Hc & _ & Hkcp & _).
    pose proof Hk as Hk0. rewrite Hc1 in Hk0. apply map_lookup_filter_Some in Hk0 as [Hk0 _].
    xwp_steps. apply wp_whenM; intros Ht.
    + eapply wp_mono; [by apply (wp_close_one tid k l reset s1 c kcp w1)|].
      intros [] w2 Hcl. by eapply xdisconnecting_close.
    + eapply xdisconnecting_skip; [done|]. intros l' Hl'. assert (l' = l) as -> by congruence.
      unfold passes. rewrite <- (dis_heap _ _ _ _ _ _ HJ). by rewrite Hc.
  - xwp_steps. eapply xdisconnecting_skip; [done|]. intros l Hl. rewrite Hc1 in Hk.
    apply map_lookup_filter_None in Hk as [Hk|Hk]; [congruence|].
    specialize (Hk l Hl). destruct Hk. right. simpl. set_solver.
Qed.

(** [w'] is [w] after the links of [tid] that satisfy [test] were taken down:
    their sessions are closed. *)
Definition taken_down (tid : Z) (test : Z → xlink → bool) w w' : Prop :=
  client_ok w' ∧ xlinks w' tid = filter (λ x, test x.1 x.2 = false) (xlinks w tid) ∧
  (∀ t, t ≠ tid → xlinks w' t = xlinks w t) ∧
  ∀ s k l c kcp, w.(g_server_list) !! tid = Some s → xs_conns s !! k = Some l →
    w.(x_skcps) !! l = Some c → test k (xlink_of c) = true → c.(sk_kcp) = Some kcp →
    Ev (EvKcpClose kcp) ∈ w'.(x_trace).

Lemma xwp_disconnect tid reset ctest test s w :
  (∀ c, ctest c = test c.(sk_convid) (xlink_of c)) →
  client_ok w → w.(g_server_list) !! tid = Some s →
  wp (client_disconnect_where tid reset ctest) (λ _, taken_down tid test w) w.
Proof.
  intros Htest Hok Hs. eapply wp_mono; [by apply xwp_disconnect_where|].
  intros [] w' [H1 _ H3 _ H4 (s' & Hs' & Hc') H6]. split_and!; [done| | |].
  - apply map_eq. intros k. apply option_eq. intros lk. rewrite map_lookup_filter_Some. simpl.
    rewrite (xlinks_lookup w' tid s'), (xlinks_lookup w tid s), Hc', H3 by done.
    destruct (xs_conns s !! k) as [l|] eqn:Hk.
    + destruct (xlisted_conn w tid s k l Hok Hs Hk) as (c & kcp & ch & Hc & Hck & _).
      simpl. rewrite Hc. simpl. destruct (test k (xlink_of c)) eqn:Ht.
      * rewrite (proj2 (map_lookup_filter_None _ _ _)); [simpl; naive_solver congruence|].
        right. intros l' Hl'. assert (l' = l) as -> by congruence. simpl. unfold passes. rewrite Hc, Htest, Hck, Ht. set_solver.
      * rewrite (proj2 (map_lookup_filter_Some _ _ _ l)); [simpl; rewrite Hc; naive_solver congruence|].
        split; [done|]. left. simpl. unfold passes. by rewrite Hc, Htest, Hck.
    + rewrite (proj2 (map_lookup_filter_None _ _ _)) by by left. simpl. naive_solver.
  - intros t Ht. unfold xlinks. by rewrite H4, H3 by done.
  - intros s0 k l c kcp Hs0 Hk Hc Ht Hkcp. assert (s0 = s) as -> by congruence.
    destruct (xlisted_conn w tid s k l Hok Hs Hk) as (c0 & ? & ? & Hc0 & Hck & _).
    assert (c0 = c) as -> by congruence.
    eapply (H6 k l c kcp); try done; [set_solver|]. by rewrite Htest, Hck.
Qed.
(** ** Choosing a connection *)

Lemma xwp_round_robin tid s keys d w :
  client_ok w → w.(g_server_list) !! tid = Some s → (∀ k, k ∈ keys → is_Some (xs_conns s !! k)) →
  wp (client_round_robin tid keys d) (λ p w', (p ∈ keys ∨ keys = [] ∧ p = d) ∧
    w' = w <| g_server_list ::= insert tid (s <| xs_last_convid := p |>) |>) w.
Proof.
  intros Hok Hs. revert d. induction keys as [|k keys IH]; intros d Hkeys; simpl.
  - xwp_steps. split; [by right|done].
  - destruct (Hkeys k) as [l Hl]; [set_solver|].
    destruct (xlisted_conn w tid s k l Hok Hs Hl) as (c & kcp & ch & Hc & _).
    xwp_steps. eapply wp_deref; [done|]. xwp_steps.
    destruct (negb _ && _); [xwp_steps; split; [left; set_solver|done]|].
    eapply wp_mono; [apply IH; set_solver|]. intros p w' [Hp ->]. split; [|done].
    left. destruct Hp as [?|[-> ->]]; set_solver.
Qed.

(** Some listed id, or 0 when there is none. *)
Lemma wp_choose tid s w :
  client_ok w → w.(g_server_list) !! tid = Some s →
  wp (client_choose_kcp_conn tid) (λ p w', (xs_conns s = ∅ ∨ is_Some (xs_conns s !! p)) ∧
    w' = w <| x_tick ::= S |> <| g_server_list ::= insert tid (s <| xs_last_convid := p |>) |>) w.
Proof.
  intros Hok Hs. unfold client_choose_kcp_conn. xwp_steps.
  eapply wp_mono; [apply (xwp_round_robin tid s); [by apply (same_ok w); [unfold same|]|done|]|].
  { intros k Hk. by apply World.range_keys_elem in Hk. }
  intros p w' [Hp ->]. split; [|done]. destruct Hp as [Hp|[Hnil _]].
  - right. by apply World.range_keys_elem in Hp.
  - left. apply map_eq. intros k. rewrite lookup_empty. apply eq_None_not_Some. intros Hk.
    apply (World.range_keys_elem (x_tick w)) in Hk. rewrite Hnil in Hk. set_solver.
Qed.

(** The connections of [s] that are not in [s'] had a dead session. *)
Definition only_dead (s s' : serverType) w : Prop :=
  ∀ k l, xs_conns s !! k = Some l → xs_conns s' !! k = None →
    ∃ c kcp t, w.(x_skcps) !! l = Some c ∧ c.(sk_kcp) = Some kcp ∧ env_kcp_GetState t kcp = kcp_dead.

Definition picked (tid : Z) (s : serverType) w (r : option loc) w' : Prop :=
  w'.(x_skcps) = w.(x_skcps) ∧ w'.(x_bufs) = w.(x_bufs) ∧
  ∃ s', w'.(g_server_list) !! tid = Some s' ∧ xs_conns s' ⊆ xs_conns s ∧ only_dead s s' w ∧
    match r with
    | None => xs_conns s' = ∅
    | Some l => ∃ k c kcp t, xs_conns s' !! k = Some l ∧ w.(x_skcps) !! l = Some c ∧
        c.(sk_kcp) = Some kcp ∧ env_kcp_GetState t kcp ≠ kcp_dead
    end.

Lemma xwp_by_convid tid k l s w :
  client_ok w → w.(g_server_list) !! tid = Some s → xs_conns s !! k = Some l →
  wp (client_disconnect_session_by_convid tid k) (λ _ w', client_ok w' ∧
    w'.(x_skcps) = w.(x_skcps) ∧ w'.(x_bufs) = w.(x_bufs) ∧
    ∃ s', w'.(g_server_list) !! tid = Some s' ∧ xs_conns s' = delete k (xs_conns s)) w.
Proof.
  intros Hok Hs Hl. eapply wp_mono; [by apply xwp_disconnect_where|].
  intros [] w' [H1 _ H3 H3' _ (s' & Hs' & Hc) _]. split_and!; [done|done|done|]. exists s'.
  split; [done|]. rewrite Hc. apply map_eq. intros k'. apply option_eq. intros l'.
  rewrite map_lookup_filter_Some, lookup_delete_Some. simpl.
  assert (xs_conns s !! k' = Some l' → passes (x_skcps w) (λ c, bool_decide (sk_convid c = k)) l' =
    bool_decide (k' = k)) as Hpass.
  { intros Hl'. destruct (xlisted_conn w tid s k' l' Hok Hs Hl') as (c & ? & ? & Hcl & Hck & _).
    unfold passes. by rewrite Hcl, Hck. }
  split.
  - intros [Hl' [Hf|?]]; [|set_solver]. rewrite Hpass in Hf by done.
    apply bool_decide_eq_false in Hf. by split.
  - intros [Hne Hl']. split; [done|]. left. rewrite Hpass by done. by apply bool_decide_eq_false_2.
Qed.

Lemma wp_pick fuel tid s w :
  client_ok w → w.(g_server_list) !! tid = Some s → (size (xs_conns s) < fuel)%nat →
  wp (client_pick fuel tid) (picked tid s w) w.
Proof.
  revert s w. induction fuel as [|fuel IH]; intros s w Hok Hs Hf; [lia|].
  cbn [client_pick]. xwp_step. eapply wp_mono; [by apply wp_choose|]. intros p w1 [Hp ->].
  match goal with |- wp _ _ ?x => set (w1 := x) end.
  set (s1 := s <| xs_last_convid := p |>).
  assert (client_ok w1) as Hok1.
  { assert (client_ok (w <| x_tick ::= S |>)) as H0 by by apply (same_ok w); [unfold same|].
    pose proof (kept_last_convid tid p (w <| x_tick ::= S |>) tt w1) as Hk.
    apply Hk; [|done]. unfold upd_server, get_server, getS, mbind, M_bind. simpl. by rewrite Hs. }
  assert (w1.(g_server_list) !! tid = Some s1) as Hs1 by (simpl; by rewrite lookup_insert_eq).
  xwp_step. eapply xwp_get_server; [exact Hs1|].
  change (xs_conns s1) with (xs_conns s).
  destruct (xs_conns s !! p) as [l|] eqn:Hl.
  2: { destruct Hp as [Hp|[? ?]]; [|done]. xwp_steps. split_and!; [done|done|]. exists s1.
       split_and!; [done|done| |done]. intros k l. change (xs_conns s1) with (xs_conns s). congruence. }
  destruct (xlisted_conn w1 tid s1 p l Hok1 Hs1 Hl) as (c & kcp & ch & Hc & _ & Hkcp & Hconv & _).
  xwp_steps. rewrite Hkcp. xwp_steps. case_bool_decide as Hdead.
  - assert (s1.(xs_base_convid) = tid) as ->.
    { apply (ok_base _ _ _ _ (ok_tunnels _ Hok1 _ _ Hs1)). left. unfold xs_conns in Hl. simpl.
      destruct (xs_kcps s); [by eexists|done]. }
    rewrite Hconv. xwp_step.
    eapply wp_mono; [apply (xwp_by_convid tid p l s1); [by apply (same_ok w1); [unfold same|]|done|done]|].
    intros [] w2 (Hok2 & Hh2 & Hb2 & s2 & Hs2 & Hc2).
    assert (size (xs_conns s2) < size (xs_conns s))%nat as Hsize.
    { rewrite Hc2. change (xs_conns s1) with (xs_conns s). rewrite map_size_delete_Some by by eexists.
      assert (size (xs_conns s) ≠ 0%nat); [|lia]. intros H0%map_size_empty_inv. by rewrite H0 in Hl. }
    eapply wp_mono; [apply (IH s2 w2 Hok2 Hs2); lia|].
    intros r w3 (Hh3 & Hb3 & s3 & Hs3 & Hsub & Hod & Hr). simpl in Hh2, Hb2.
    split_and!; [congruence|congruence|]. exists s3. split_and!; [done| | |].
    + rewrite Hsub, Hc2. apply delete_subseteq.
    + intros k l' Hl' Hn. destruct (decide (k = p)) as [->|Hne].
      * assert (l' = l) as -> by congruence. eexists c, kcp, _. done.
      * rewrite <- Hh2. apply (Hod k l'); [|done]. rewrite Hc2, lookup_delete_ne by done. done.
    + destruct r; [|done]. by rewrite <- Hh2.
  - xwp_steps. split_and!; [done|done|]. exists s1. split_and!; [done|done| |].
    + intros k l'. change (xs_conns s1) with (xs_conns s). congruence.
    + eexists p, c, kcp, _. done.
Qed.
End sched.
