(* ===== verification/ExpTraffic.v ===== *)
(** * The channel experiment: packets through buffer and channel

    A turn of the tun reader leaves the channels alone and overwrites its
    buffer; a turn of a writer writes the bytes that the buffer of its packet
    holds at that time. *)
From stdpp Require Import base gmap sets list strings.
From Stdlib Require Import ZArith Lia.
From S2P Require Import Prelude GoNet Network Ring World Wire Client Chan ExpWorld.
From S2P Require Import ExpClient ExpSpec ExpConnect ExpInv ExpSched.
#[local] Open Scope Z_scope.

Section traffic.
Context {E : Env} {EL : EnvLaws E} {KL : KcpLaws E}.
Implicit Types (w : xworld).

(** ** What choosing a connection leaves alone *)

(** The channels and the interfaces of the tunnels. *)
Definition plumbing w (tid : Z) : gmap loc (chan packetType) * option (option handle) :=
  (w.(x_chans), xs_iface <$> w.(g_server_list) !! tid).
Definition plumbed (tid : Z) w w' : Prop := plumbing w' tid = plumbing w tid.

#[export] Instance plumbed_preorder tid : PreOrder (plumbed tid).
Proof. unfold plumbed. split; [done|]. intros x y z H1 H2. congruence. Qed.

Lemma plumbed_same {A} tid (m : X A) : (∀ w, preserves (same w) m) → respects (plumbed tid) m.
Proof.
  apply respects_preserves; [apply same_refl|].
  intros w w' (E1 & _ & E3 & _). unfold plumbed, plumbing. by rewrite E1, E3.
Qed.
Lemma plumbed_upd_server tid t f :
  (∀ s, (f s).(xs_iface) = s.(xs_iface)) → respects (plumbed tid) (upd_server t f).
Proof.
  intros Hf w. apply xwlp_upd_server. intros s Hs. unfold plumbed, plumbing. simpl. f_equal.
  destruct (decide (t = tid)) as [->|]; [|by rewrite lookup_insert_ne].
  rewrite lookup_insert_eq, Hs. simpl. by rewrite Hf.
Qed.
#[local] Hint Extern 2 (respects (plumbed _) (upd_server _ _)) =>
  apply plumbed_upd_server; by intros [] : respects.
#[local] Hint Extern 3 (respects (plumbed _) _) =>
  apply plumbed_same; intros ?; solve [eauto with preserves] : respects.

Lemma plumbed_disconnect_where tid t reset test :
  respects (plumbed tid) (client_disconnect_where t reset test).
Proof. unfold client_disconnect_where. respect. Qed.
#[local] Hint Resolve plumbed_disconnect_where : respects.
Lemma plumbed_by_convid tid t k : respects (plumbed tid) (client_disconnect_session_by_convid t k).
Proof. unfold client_disconnect_session_by_convid. respect. Qed.
Lemma plumbed_round_robin tid t keys d : respects (plumbed tid) (client_round_robin t keys d).
Proof. revert d. induction keys as [|k keys IH]; intros d; simpl; respect. Qed.
#[local] Hint Resolve plumbed_by_convid plumbed_round_robin : respects.
Lemma plumbed_choose tid t : respects (plumbed tid) (client_choose_kcp_conn t).
Proof. unfold client_choose_kcp_conn. respect. Qed.
#[local] Hint Resolve plumbed_choose : respects.
Lemma plumbed_pick tid fuel t : respects (plumbed tid) (client_pick fuel t).
Proof. induction fuel as [|fuel IH]; simpl; respect. Qed.

(** ** What is written on the sessions *)

Definition sending (e : xevent) : option (handle * list Z) :=
  match e with Ev (EvKcpWrite kcp data) => Some (kcp, data) | _ => None end.
(** Everything written so far, each with its session, in order. *)
Definition xsent w : list (handle * list Z) := omap sending w.(x_trace).
Definition sents (ss : list (handle * list Z)) w : Prop := xsent w = ss.

Lemma xsent_trace w w' es : w'.(x_trace) = w.(x_trace) ++ es → xsent w' = xsent w ++ omap sending es.
Proof. intros H. unfold xsent. by rewrite H, omap_app. Qed.
Lemma xsent_traced kcp data w : (kcp, data) ∈ xsent w → Ev (EvKcpWrite kcp data) ∈ w.(x_trace).
Proof.
  intros (e & He & Hs)%list_elem_of_omap. by destruct e as [[]|]; simplify_eq/=.
Qed.

Lemma sents_record ss e : sending e = None → preserves (sents ss) (record e).
Proof.
  intros He. apply preserves_modify. intros w <-. unfold sents.
  rewrite (xsent_trace w _ [e]) by done. simpl. rewrite He. by rewrite app_nil_r.
Qed.
Lemma sents_tick ss : preserves (sents ss) tick.
Proof. by intros w <-. Qed.
Lemma sents_modify ss f : (∀ w, x_trace (f w) = w.(x_trace)) → preserves (sents ss) (modify f).
Proof. intros Hf w <-. unfold sents, xsent. simpl. by rewrite Hf. Qed.
#[local] Hint Resolve sents_tick : preserves.
#[local] Hint Extern 1 (preserves (sents _) (record _)) => by apply sents_record : preserves.
#[local] Hint Extern 1 (preserves (sents _) (emit _)) => by apply sents_record : preserves.
#[local] Hint Extern 2 (preserves (sents _) (modify _)) => by apply sents_modify : preserves.
Lemma sents_range_keys {A} ss (m : gmap Z A) : preserves (sents ss) (range_keys m).
Proof. unfold range_keys. preserve. Qed.
Lemma sents_get_server ss t : preserves (sents ss) (get_server t).
Proof. unfold get_server. preserve. Qed.
Lemma sents_get_skcp ss l : preserves (sents ss) (get_skcp l).
Proof. unfold get_skcp. preserve. Qed.
#[local] Hint Resolve sents_range_keys sents_get_server sents_get_skcp : preserves.
Lemma sents_upd_server ss t f : preserves (sents ss) (upd_server t f).
Proof. unfold upd_server. preserve. Qed.
Lemma sents_close ss l : preserves (sents ss) (client_close l).
Proof. unfold client_close. preserve. Qed.
#[local] Hint Resolve sents_upd_server sents_close : preserves.
Lemma sents_disconnect_where ss t reset test :
  preserves (sents ss) (client_disconnect_where t reset test).
Proof. unfold client_disconnect_where. preserve. Qed.
Lemma sents_round_robin ss t keys d : preserves (sents ss) (client_round_robin t keys d).
Proof. revert d. induction keys as [|k keys IH]; intros d; simpl; preserve. Qed.
#[local] Hint Resolve sents_disconnect_where sents_round_robin : preserves.
Lemma sents_choose ss t : preserves (sents ss) (client_choose_kcp_conn t).
Proof. unfold client_choose_kcp_conn. preserve. Qed.
#[local] Hint Resolve sents_choose : preserves.
Lemma sents_pick ss fuel t : preserves (sents ss) (client_pick fuel t).
Proof.
  induction fuel as [|fuel IH]; simpl; unfold client_disconnect_session_by_convid, sleep_ms; preserve.
Qed.
#[local] Hint Resolve sents_pick : preserves.
Lemma sents_select ss fuel t pkt : preserves (sents ss) (client_tun_select fuel t pkt).
Proof. unfold client_tun_select, fill. preserve. Qed.
Lemma sents_send ss l pkt : preserves (sents ss) (client_tun_send l pkt).
Proof. unfold client_tun_send, send. preserve. Qed.

(** ** A turn of the writer *)

(** The id of the tunnel that the writer of a listed connection finds in the
    record of the tunnel. *)
Lemma wp_writer_turn tid l ch s c kcp q pkt q' buf w :
  client_ok w → w.(g_server_list) !! tid = Some s → s.(xs_base_convid) = tid →
  w.(x_skcps) !! l = Some c → c.(sk_kcp) = Some kcp →
  w.(x_chans) !! ch = Some q → ch_recv q = Some (pkt, q') → w.(x_bufs) !! pkt.(p_buff) = Some buf →
  wp (client_kcp_writer_turn tid l ch)
    (λ _ w', xsent w' = xsent w ++ [(kcp, take (Z.to_nat pkt.(p_len)) buf)]) w.
Proof.
  intros Hok Hs Hb Hc Hkcp Hq Hr Hbuf. unfold client_kcp_writer_turn. xwp_step.
  eapply wp_receive; [done|done|].
  match goal with |- wp _ _ ?x => set (w1 := x) end.
  assert (client_ok w1) as Hok1.
  { destruct (wp_receive ch q pkt q' (λ p w', p = pkt ∧ w' = w1) w Hq Hr (conj eq_refl eq_refl))
      as (p & w' & Hrun & -> & ->). by apply (kept_receive ch w pkt w1 Hrun). }
  assert (0 <= pkt.(p_len) <= Z.of_nat (length buf)) as Hlen.
  { destruct (ok_queues _ Hok _ _ Hq) as (_ & _ & Hall). apply ch_recv_Some in Hr as [Hi _].
    rewrite Hi in Hall. apply Forall_cons in Hall as [(buf' & Hb' & Hl') _].
    by assert (buf' = buf) as -> by congruence. }
  xwp_step. eapply wp_get_skcp; [done|]. rewrite Hkcp. xwp_steps.
  eapply wp_slice; [done|done|]. xwp_steps.
  match goal with |- wp _ _ ?x => set (w2 := x) end.
  assert (xsent w2 = xsent w ++ [(kcp, take (Z.to_nat (p_len pkt)) buf)]) as Ht.
  { unfold w2, w1, xsent. simpl. rewrite !omap_app. simpl. by rewrite app_nil_r. }
  assert (client_ok w2) as Hok2 by by apply (same_ok w1); [unfold same|].
  destruct (env_kcp_Write _ _ _).
  - xwp_step. eapply xwp_get_server; [exact Hs|]. rewrite Hb. xwp_step.
    eapply wp_mono; [apply (wp_preserves (sents (xsent w2)))|].
    + eapply xwp_disconnect_where; [exact Hok2|exact Hs].
    + apply sents_disconnect_where.
    + done.
    + intros [] w3 [_ Ht3]. apply wp_ret. unfold sents in Ht3. congruence.
  - by xwp_steps.
Qed.

(** ** A turn of the tun reader up to the send *)

(** A listed connection whose session was not dead when it was looked at. *)
Definition live_conn (tid : Z) (l : loc) w : Prop :=
  ∃ s k c kcp t, w.(g_server_list) !! tid = Some s ∧ xs_conns s !! k = Some l ∧
    w.(x_skcps) !! l = Some c ∧ c.(sk_kcp) = Some kcp ∧ env_kcp_GetState t kcp ≠ kcp_dead.

(** The packet goes to a live connection, or nowhere when there is none. *)
Definition routed (tid : Z) (pkt : packetType) (r : tun_turn) w : Prop :=
  match r with
  | TunReturn => False
  | TunContinue p => p = pkt ∧ xlinks w tid = ∅
  | TunSend l p => p = pkt ∧ live_conn tid l w
  end.

(** The packet read is in the buffer, queues and records are as before. *)
Record packet_read (tid : Z) (pkt : packetType) (buf data : list Z) w (r : tun_turn) w' : Prop := {
  rd_kept : kept w w';
  rd_skcps : w'.(x_skcps) = w.(x_skcps);
  rd_chans : w'.(x_chans) = w.(x_chans);
  rd_server : xs_iface <$> w'.(g_server_list) !! tid = xs_iface <$> w.(g_server_list) !! tid;
  rd_buf : w'.(x_bufs) !! pkt.(p_buff) = Some (data ++ drop (length data) buf);
  rd_sent : xsent w' = xsent w;
  rd_turn : routed tid (pkt <| p_len := Z.of_nat (length data) |>) r w'
}.

Lemma wp_select fuel tid s tun pkt buf data w :
  client_ok w → w.(g_server_list) !! tid = Some s → s.(xs_iface) = Some tun →
  (size (xs_conns s) < fuel)%nat → w.(x_bufs) !! pkt.(p_buff) = Some buf →
  env_tun_Read w.(x_tick) tun = inl data →
  wp (client_tun_select fuel tid pkt) (packet_read tid pkt buf data w) w.
Proof.
  intros Hok Hs Hi Hf Hbuf Hrd.
  assert (wp (client_tun_select fuel tid pkt) (λ r w', w'.(x_skcps) = w.(x_skcps) ∧
    w'.(x_chans) = w.(x_chans) ∧
    xs_iface <$> w'.(g_server_list) !! tid = xs_iface <$> w.(g_server_list) !! tid ∧
    w'.(x_bufs) !! pkt.(p_buff) = Some (data ++ drop (length data) buf) ∧
    routed tid (pkt <| p_len := Z.of_nat (length data) |>) r w') w) as Hwp.
  2: { eapply wp_mono; [apply (wp_preserves (sents (xsent w)));
         [apply (wp_wlp _ _ _ _ Hwp (kept_select fuel tid pkt w))|apply sents_select|done]|].
       intros r w' (((? & ? & ? & ? & ?) & ?) & ?). by split. }
  unfold client_tun_select. xwp_step. eapply xwp_get_server; [done|]. rewrite Hi. xwp_steps.
  rewrite Hrd. xwp_step. eapply wp_fill; [done|].
  match goal with |- wp _ _ ?x => set (w1 := x) end.
  assert (client_ok w1) as Hok1.
  { eapply (set_buf_kept _ buf data); [exact Hbuf|]. by apply (same_ok w); [unfold same|]. }
  xwp_step. eapply wp_mono.
  { apply wp_wlp; [by apply (wp_pick fuel tid s w1)|apply (plumbed_pick tid)]. }
  intros r w2 ((Hh & Hb & s2 & Hs2 & _ & _ & Hr) & Hp). injection Hp as Hch Hif.
  assert (x_bufs w2 !! p_buff pkt = Some (data ++ drop (length data) buf)) as Hb2.
  { rewrite Hb. simpl. by rewrite lookup_insert_eq. }
  destruct r as [l|]; xwp_steps; split_and!; try done.
  - destruct Hr as (k & c & kcp & t & Hk & Hc & Hkcp & Ht). split; [done|].
    exists s2, k, c, kcp, t. by rewrite Hh.
  - split; [done|]. unfold xlinks. rewrite Hs2, Hr. apply omap_empty.
Qed.

(** The id a tunnel with connections or a device has. *)
Lemma iface_base tid s w :
  client_ok w → w.(g_server_list) !! tid = Some s → is_Some s.(xs_iface) → s.(xs_base_convid) = tid.
Proof. intros Hok Hs Hi. apply (ok_base _ _ _ _ (ok_tunnels _ Hok _ _ Hs)). by right. Qed.
(** The queued packet is the next the writer of the connection writes. *)
Lemma wp_send_write tid l pkt buf w :
  client_ok w → live_conn tid l w → w.(x_bufs) !! pkt.(p_buff) = Some buf →
  0 <= pkt.(p_len) <= Z.of_nat (length buf) → map_Forall (λ _ q, q.(ch_items) = []) w.(x_chans) →
  ∃ c kcp ch w1 b w2, w.(x_skcps) !! l = Some c ∧ c.(sk_kcp) = Some kcp ∧
    c.(sk_writer_channel) = Some ch ∧ client_tun_send l pkt w = (Ret tt, w1) ∧
    client_kcp_writer_turn tid l ch w1 = (Ret b, w2) ∧
    xsent w2 = xsent w ++ [(kcp, take (Z.to_nat pkt.(p_len)) buf)].
Proof.
  intros Hok (s & k & c & kcp & t & Hs & Hk & Hc & Hkcp & _) Hbuf Hlen Hempty.
  destruct (xlisted_conn w tid s k l Hok Hs Hk) as (c' & kcp' & ch & Hc' & _ & _ & _ & Hch & [q Hq]).
  assert (c' = c) as -> by congruence.
  destruct (ok_queues _ Hok _ _ Hq) as (Hcap & _). pose proof (Hempty _ _ Hq) as Hnil.
  set (q1 := mkChan 100 [pkt]).
  assert (ch_send pkt q = Some q1) as Hsend.
  { rewrite ch_send_room by (rewrite Hnil, Hcap; simpl; lia). by rewrite Hnil, Hcap. }
  set (w1 := w <| x_chans ::= insert ch q1 |>).
  assert (client_tun_send l pkt w = (Ret tt, w1)) as Hrun.
  { destruct (xwp_send (Some ch) ch q q1 pkt (λ _ w', w' = w1) w eq_refl Hq Hsend eq_refl)
      as ([] & w1' & Hrun & ->).
    unfold client_tun_send, get_skcp, mbind, M_bind, getS. rewrite Hc. simpl. by rewrite Hch. }
  assert (client_ok w1) as Hok1.
  { apply (wlp_send_turn l pkt w) with tt; [by exists buf|exact Hrun|exact Hok]. }
  assert (s.(xs_base_convid) = tid) as Hbase.
  { apply (ok_base _ _ _ _ (ok_tunnels _ Hok _ _ Hs)). left. unfold xs_conns in Hk.
    destruct (xs_kcps s); [by eexists|done]. }
  destruct (wp_writer_turn tid l ch s c kcp q1 pkt (mkChan 100 []) buf w1) as (b & w2 & Hrun2 & Ht);
    try done.
  { simpl. by rewrite lookup_insert_eq. }
  by exists c, kcp, ch, w1, b, w2.
Qed.
End traffic.
