(* ===== verification/ExpDemo.v ===== *)
(** * The channel experiment: a concrete run

    The environment that the witnesses of the experiment evaluate, and a run of
    its client: two links come up, the session of the second is dead, and the first
    packet is queued on the channel of the other. *)
From stdpp Require Import base gmap sets list strings.
From Stdlib Require Import ZArith Lia.
From S2P Require Import Prelude GoNet Network Ring World Wire Client Demo Chan ExpWorld.
From S2P Require Import ExpClient ExpSpec ExpConnect ExpServer ExpServerSpec ExpInv ExpServerInv.
#[local] Open Scope Z_scope.

(** A session is its id; session 661 is dead; the packet read by the call [t]
    consists of [40 + t] bytes [t]. *)
Definition exp_env : Env := {|
  env_int_bits := 64;
  env_now t := 1600000000000000000 + 1000000 * Z.of_nat t;
  env_range _ l := l;
  env_exec _ _ _ := Some "";
  env_tun_New _ _ := Some 7;
  env_tun_Name h := match h with Some _ => Some "tun660" | None => None end;
  env_tun_Write _ _ _ := None;
  env_tun_Read t _ := inl (replicate (40 + t) (Z.of_nat t));
  env_Interfaces _ := Some demo_ifaces;
  env_InterfaceByIndex _ _ := None;
  env_lookup _ _ := None;
  env_ResolveTCP _ _ := true;
  env_ListenUDP _ _ := Some 5;
  env_http_get _ _ := None;
  env_pbkdf2 pass _ _ _ := pass;
  env_kcp_NewConn _ convid _ _ _ _ _ := Some convid;
  env_kcp_Listen _ _ _ _ _ := Some 3;
  env_kcp_Accept _ _ := Some 660;
  env_kcp_GetConv h := h;
  env_kcp_RemoteAddr h := ([198;51;100;1], "", 100);
  env_kcp_GetState _ h := if bool_decide (h = 661) then kcp_dead else 0;
  env_kcp_Write _ _ _ := None;
  env_kcp_Read _ _ := inr "timeout" |}.

#[export] Existing Instance exp_env | 0.
#[export] Instance exp_laws : EnvLaws exp_env.
Proof. split; [done|by right]. Qed.
#[export] Instance exp_kcp_laws : KcpLaws exp_env.
Proof. intros t convid addr b d p conn h [= <-]. done. Qed.

Definition exp1 : xworld := (client_connect_server 660 "192.168.1.20" "eth0" "" init_xworld).2.
Definition exp2 : xworld := (client_connect_server 660 "100.64.0.7" "ppp0" "" exp1).2.
Definition exp3 : xworld := (client_tun_start 660 exp2).2.

(** The packet of the tun reader: its buffer is the one made at the start. *)
Definition exp_pkt (len : Z) : packetType := mkPacket 0 len exp2.(x_next).
Definition exp4 : xworld := (client_tun_select 5 660 (exp_pkt 0) exp3).2.
Definition exp_len : Z := 40 + Z.of_nat exp3.(x_tick).
(** The record of the connection 660 and its channel. *)
Definition exp_conn : loc := 0%nat.
Definition exp_chan : loc := 1%nat.
Definition exp5 : xworld := (client_tun_send exp_conn (exp_pkt exp_len) exp4).2.

Lemma exp_run {A} (m : X A) w a : (m w).1 = Ret a → m w = (Ret a, (m w).2).
Proof. intros <-. by destruct (m w). Qed.

Lemma exp1_run : client_connect_server 660 "192.168.1.20" "eth0" "" init_xworld = (Ret tt, exp1).
Proof. unfold exp1. apply (exp_run (client_connect_server 660 _ _ _)). vm_compute. reflexivity. Qed.
Lemma exp2_run : client_connect_server 660 "100.64.0.7" "ppp0" "" exp1 = (Ret tt, exp2).
Proof. unfold exp2. apply (exp_run (client_connect_server 660 _ _ _)). vm_compute. reflexivity. Qed.
Lemma exp3_run : client_tun_start 660 exp2 = (Ret (Some (exp_pkt 0)), exp3).
Proof. unfold exp3. apply (exp_run (client_tun_start 660)). vm_compute. reflexivity. Qed.
Lemma exp4_run :
  client_tun_select 5 660 (exp_pkt 0) exp3 = (Ret (TunSend exp_conn (exp_pkt exp_len)), exp4).
Proof. unfold exp4. apply (exp_run (client_tun_select 5 660 (exp_pkt 0))). vm_compute. reflexivity. Qed.
Lemma exp5_run : client_tun_send exp_conn (exp_pkt exp_len) exp4 = (Ret tt, exp5).
Proof. unfold exp5. apply (exp_run (client_tun_send exp_conn (exp_pkt exp_len))). vm_compute. reflexivity. Qed.

Lemma exp_up src a :
  ParseAddr src = Some a → src ≠ "" → all_bytes plain_host_char src = true → x_up src.
Proof.
  intros Ha Hne Hp. split.
  - intros t name h _. by eexists.
  - intros t. vm_compute. by eexists.
  - intros t port Hport. rewrite (ResolveUDPAddr_plain _ src port a) by done. by eexists.
  - intros t ip. by eexists.
  - intros. by eexists.
Qed.

Lemma exp_steps : rtc step init_conf (mkConf exp5 [(660, exp_pkt exp_len)] []).
Proof.
  eapply rtc_l; [by eapply step_call, call_connect, exp1_run|].
  eapply rtc_l; [by eapply step_call, call_connect, exp2_run|].
  eapply rtc_l; [eapply step_start; [|exact exp3_run]|].
  { apply (list_elem_of_lookup_2 _ 15). vm_compute. reflexivity. }
  eapply rtc_l.
  { apply (step_select (mkConf exp3 [(660, exp_pkt 0)] []) 660 (exp_pkt 0) [] 5 _ _ (reflexivity _)
      exp4_run). }
  eapply rtc_l.
  { apply (step_send (mkConf exp4 [] [(660, exp_conn, exp_pkt exp_len)]) 660 exp_conn
      (exp_pkt exp_len) [] _ (reflexivity _) exp5_run). }
  apply rtc_refl.
Qed.

(** The server accepts the session 660 and queues the first packet of its device. *)
Definition srv0 : xworld := (run_server 0 init_xworld).2.
Definition srv1 : xworld := (server_handle_kcp_listener 1 3 srv0).2.
Definition srv2 : xworld := (server_accept_conn (env_kcp_GetConv 660) 660 srv1).2.
Definition srv3 : xworld := (server_tun_start 660 srv2).2.
Definition srv_pkt (len : Z) : packetType := mkPacket 0 len srv2.(x_next).
Definition srv4 : xworld := (server_tun_select 5 660 (srv_pkt 0) srv3).2.
Definition srv_len : Z := 40 + Z.of_nat (S srv3.(x_tick) + 1).
Definition srv5 : xworld := (server_tun_send 0 (srv_pkt srv_len) srv4).2.

Lemma srv0_run : run_server 0 init_xworld = (Ret (Some 1), srv0).
Proof. unfold srv0. apply (exp_run (run_server 0)). vm_compute. reflexivity. Qed.
Lemma srv1_run : server_handle_kcp_listener 1 3 srv0 = (Ret tt, srv1).
Proof. unfold srv1. apply (exp_run (server_handle_kcp_listener 1 3)). vm_compute. reflexivity. Qed.
Lemma srv2_run : server_accept_conn (env_kcp_GetConv 660) 660 srv1 = (Ret tt, srv2).
Proof. unfold srv2. apply (exp_run (server_accept_conn _ _)). vm_compute. reflexivity. Qed.
Lemma srv3_run : server_tun_start 660 srv2 = (Ret (Some (srv_pkt 0)), srv3).
Proof. unfold srv3. apply (exp_run (server_tun_start 660)). vm_compute. reflexivity. Qed.
Lemma srv4_run :
  server_tun_select 5 660 (srv_pkt 0) srv3 = (Ret (TunSend 0 (srv_pkt srv_len)), srv4).
Proof. unfold srv4. apply (exp_run (server_tun_select 5 660 _)). vm_compute. reflexivity. Qed.
Lemma srv5_run : server_tun_send 0 (srv_pkt srv_len) srv4 = (Ret tt, srv5).
Proof. unfold srv5. apply (exp_run (server_tun_send 0 _)). vm_compute. reflexivity. Qed.

Lemma srv_steps : sreachable (mkConf srv5 [(660, srv_pkt srv_len)] []).
Proof.
  exists (Some 1), srv0. split; [exact srv0_run|].
  eapply rtc_l; [eapply sstep_call, scall_listener; [|exact srv1_run]|].
  { apply (list_elem_of_lookup_2 _ 2). vm_compute. reflexivity. }
  eapply rtc_l; [eapply sstep_call, scall_accept; [|exact srv2_run]|].
  { apply (list_elem_of_lookup_2 _ 4). vm_compute. reflexivity. }
  eapply rtc_l; [eapply sstep_start; [|exact srv3_run]|].
  { apply (list_elem_of_lookup_2 _ 15). vm_compute. reflexivity. }
  eapply rtc_l.
  { apply (sstep_select (mkConf srv3 [(660, srv_pkt 0)] []) 660 (srv_pkt 0) [] 5 _ _ (reflexivity _)
      srv4_run). }
  eapply rtc_l.
  { apply (sstep_send (mkConf srv4 [] [(660, 0%nat, srv_pkt srv_len)]) 660 0%nat
      (srv_pkt srv_len) [] _ (reflexivity _) srv5_run). }
  apply rtc_refl.
Qed.
