(* ===== verification/ExpProps.v ===== *)
(** * The channel experiment: theorems

    The client in every state its goroutines reach, connecting, the choice of a
    connection, the packets in the channels, the peers of the server, and the
    two ends together. *)
From stdpp Require Import base gmap sets list strings relations.
From Stdlib Require Import ZArith Lia.
From S2P Require Import Prelude GoNet Network Ring World Wire Client Demo Chan ExpWorld.
From S2P Require Import ExpClient ExpServer ExpSpec ExpConnect ExpInv ExpSched ExpTraffic.
From S2P Require Import ExpServerSpec ExpServerInv ExpDemo.
#[local] Open Scope Z_scope.

Section theorems.
Context {E : Env} {EL : EnvLaws E} {KL : KcpLaws E}.

(** C8: in the channel experiment, however its goroutines and the connects and
    disconnects of netlink interleave, the tunnels of the client stay well-formed
    (ids of the ten of their tunnel, one link per source address, every record
    with its session and channel), no channel exceeds its hundred packets, and
    every packet in a channel, or held by a reader, lies within its buffer: no
    write of a packet is out of bounds. *)
Theorem goroutines_invariant (c : conf) (H : reachable c) : conf_ok c.
Proof.
  apply (rtc_ind_r (R := step) conf_ok init_conf); [apply init_conf_ok| |exact H].
  intros c1 c2 _ Hstep Hc1. by eapply step_ok.
Qed.

(** C9: in every state that the goroutines of the server of the channel experiment
    reach from its start, the peers of a tunnel are the sessions of the ids of its
    block of ten, every record has its session and channel, and channels and
    packets are within their bounds as for the client. *)
Theorem server_goroutines_invariant (c : conf) (Hname : tun_named) (H : sreachable c) : sconf_ok c.
Proof. by apply sreachable_ok. Qed.

(** C19: a connect of the channel experiment returns when sockets open, whether the
    device of the tunnel does or not, and adds one link on the first free id of the ten of its tunnel, or none when
    the source address has a link already or all ten are used. *)
Theorem connect_adds_link (tid : Z) (src ifname gw : string) (w : xworld)
    (Hup : x_up src) (Hpos : 0 < tid) (Hmax : tid + 11 <= 65536) (Hok : client_ok w) :
  ∃ w', client_connect_server tid src ifname gw w = (Ret tt, w') ∧ connected tid src ifname w w'.
Proof.
  destruct (xwp_connect src Hup tid ifname gw w Hpos Hmax Hok) as ([] & w' & Hrun & Hc). by exists w'.
Qed.

(** C27: the choice of a connection for a packet ends: dead sessions are
    disconnected until a live one is found or the tunnel has none, and only dead
    ones are. *)
Theorem pick_finds_live_connection (fuel : nat) (tid : Z) (s : serverType) (w : xworld)
    (Hok : client_ok w) (Hs : w.(g_server_list) !! tid = Some s)
    (Hfuel : (size (xs_conns s) < fuel)%nat) :
  ∃ r w', client_pick fuel tid w = (Ret r, w') ∧ picked tid s w r w'.
Proof. by apply wp_pick. Qed.

(** The packet that a turn of the tun reader goes on with. *)
Definition turn_packet (r : tun_turn) : option packetType :=
  match r with TunReturn => None | TunContinue p | TunSend _ p => Some p end.

(** C22: an IP packet read from the tun interface of the client in the channel
    experiment, the channels being empty, is written once and unchanged, by the
    writer of a live connection; it is dropped only when the tunnel has no
    connection.  The sessions are streams, so nothing is assumed of how the other
    end reads: its reader writes each read to the device as one packet, unless it
    looks like a hello, in the order of the reads.  So the packet arrives if and
    only if one of the reads is the packet. *)
Theorem packet_crosses_channels (fuel : nat) (tid : Z) (s : serverType) (tun : handle)
    (pkt : packetType) (buf data : list Z) (w : xworld)
    (Hok : client_ok w) (Hs : w.(g_server_list) !! tid = Some s) (Htun : s.(xs_iface) = Some tun)
    (Hfuel : (size (xs_conns s) < fuel)%nat) (Hbuf : w.(x_bufs) !! pkt.(p_buff) = Some buf)
    (Hread : env_tun_Read w.(x_tick) tun = inl data) (Hip : nth 0 data 0 ≠ 0)
    (Hempty : map_Forall (λ _ q, q.(ch_items) = []) w.(x_chans)) :
  ∃ r w1, client_tun_select fuel tid pkt w = (Ret r, w1) ∧
  match r with
  | TunReturn => False
  | TunContinue _ => xlinks w1 tid = ∅ ∧ xsent w1 = xsent w
  | TunSend l p =>
      ∃ c kcp ch w2 b w3, live_conn tid l w1 ∧ w1.(x_skcps) !! l = Some c ∧
        c.(sk_kcp) = Some kcp ∧ c.(sk_writer_channel) = Some ch ∧
        client_tun_send l p w1 = (Ret tt, w2) ∧
        client_kcp_writer_turn tid l ch w2 = (Ret b, w3) ∧
        xsent w3 = xsent w ++ [(kcp, data)] ∧
        ∀ (Es : Env) ws base k ls conn message cs stun reads, ws.(g_client_list) !! base = Some cs →
          cs.(xc_iface) = Some stun → is_Some (ws.(x_ckcps) !! ls) →
          answers (E := Es) conn stun ws.(x_tick) reads →
          ∃ ws', server_conn_loop (E := Es) (length reads) base k ls conn message ws = (Ret tt, ws') ∧
            ws'.(x_trace) = ws.(x_trace) ++
              ((λ d, Ev (EvTunWrite stun d)) <$> forwarded message reads) ∧
            (data ∈ forwarded message reads ↔ data ∈ reads)
  end.
Proof.
  destruct (wp_select fuel tid s tun pkt buf data w Hok Hs Htun Hfuel Hbuf Hread)
    as (r & w1 & Hrun & [Hk Hh Hch Hif Hb Hsent Hr]).
  exists r, w1. split; [done|]. destruct r as [|p|l p]; [done|by destruct Hr|].
  destruct Hr as [-> Hlive]. destruct (Hk Hok) as (Hok1 & _).
  destruct (wp_send_write tid l (pkt <| p_len := Z.of_nat (length data) |>)
    (data ++ drop (length data) buf) w1) as (c & kcp & ch & w2 & b & w3 & Hc & Hkcp & Hwc & R1 & R2 & Ht).
  - done.
  - done.
  - done.
  - simpl. rewrite length_app. lia.
  - by rewrite Hch.
  - change (p_len (pkt <| p_len := Z.of_nat (length data) |>)) with (Z.of_nat (length data)) in Ht.
    rewrite Nat2Z.id, take_app_length, Hsent in Ht.
    exists c, kcp, ch, w2, b, w3. split_and!; try done.
    intros Es ws base k ls conn message cs stun reads Hcs Hstun Hls Ha.
    destruct (wp_server_forwards (E := Es) base k ls conn message reads cs stun ws Hcs Hstun Hls Ha)
      as ([] & ws' & Hrun' & Htr). exists ws'. split_and!; [done|done|].
    split; [apply forwarded_elem|by apply forwarded_packet].
Qed.

(** The stream may run messages together: a packet read with the hello before it is
    taken for a hello and lost, two packets read together are written as one. *)
Theorem stream_loses_packets (message data data' : list Z)
    (Hip : nth 0 data 0 ≠ 0) :
  forwarded message [hello; data] = [data] ∧ forwarded message [hello ++ data] = [] ∧
  forwarded message [data ++ data'] = [data ++ data'].
Proof.
  assert (∀ m, starts_hello (data ++ m) = false) as Hd.
  { destruct data as [|b data]; [done|]. intros m. unfold starts_hello. simpl in *.
    by rewrite bool_decide_eq_false_2. }
  simpl forwarded. by rewrite <- !app_assoc, !Hd.
Qed.

(** C36: the tun reader of the channel experiment has one buffer for all packets,
    and a channel carries the struct and not the bytes: once the reader has read
    the next packet, a packet it queued before goes out with the bytes of the
    later one. *)
Theorem queued_packet_overwritten (fuel : nat) (tid : Z) (s : serverType) (tun : handle) (l ch : loc)
    (c : server_kcp) (kcp : handle) (q : chan packetType) (queued pkt : packetType)
    (qs : list packetType) (buf data : list Z) (w : xworld)
    (Hok : client_ok w) (Hs : w.(g_server_list) !! tid = Some s) (Htun : s.(xs_iface) = Some tun)
    (Hfuel : (size (xs_conns s) < fuel)%nat) (Hc : w.(x_skcps) !! l = Some c)
    (Hkcp : c.(sk_kcp) = Some kcp) (Hq : w.(x_chans) !! ch = Some q)
    (Hqs : q.(ch_items) = queued :: qs) (Hshared : queued.(p_buff) = pkt.(p_buff))
    (Hbuf : w.(x_bufs) !! pkt.(p_buff) = Some buf) (Hread : env_tun_Read w.(x_tick) tun = inl data) :
  ∃ r w1 b w2, client_tun_select fuel tid pkt w = (Ret r, w1) ∧
    p_buff <$> turn_packet r = Some pkt.(p_buff) ∧
    client_kcp_writer_turn tid l ch w1 = (Ret b, w2) ∧
    Ev (EvKcpWrite kcp (take (Z.to_nat queued.(p_len)) (data ++ drop (length data) buf)))
      ∈ w2.(x_trace).
Proof.
  destruct (wp_select fuel tid s tun pkt buf data w Hok Hs Htun Hfuel Hbuf Hread)
    as (r & w1 & Hrun & [Hk Hh Hch Hif Hb _ Hr]).
  destruct (Hk Hok) as (Hok1 & _). rewrite Hs in Hif. simpl in Hif. rewrite Htun in Hif.
  destruct (g_server_list w1 !! tid) as [s1|] eqn:Hs1; [|done]. injection Hif as Hif.
  destruct (wp_writer_turn tid l ch s1 c kcp q queued (mkChan q.(ch_cap) qs)
    (data ++ drop (length data) buf) w1) as (b & w2 & Hrun2 & Ht); try done.
  - eapply iface_base; [done|done|by eexists].
  - by rewrite Hh.
  - by rewrite Hch.
  - unfold ch_recv. by rewrite Hqs.
  - by rewrite Hshared.
  - exists r, w1, b, w2. split_and!; [done| |done|apply xsent_traced; rewrite Ht; set_solver]. by destruct r as [|p|l' p]; [done|destruct Hr as [-> _]..].
Qed.

(** C21: the server of the channel experiment keeps the map of the peers of each
    block of ten ids: accepting a session sets its id in its block, gives its
    record an empty channel and starts exactly the writer of that channel, the
    reader of the session and, for the first of the block, the reader of the
    device; a disconnect takes exactly its id out and closes the session. *)
Theorem server_keeps_peers (k tid : Z) (conn : handle) (s : clientType) (w : xworld)
    (Htun : tun_named) (Hok : xserver_ok w) (Hs : w.(g_client_list) !! tid = Some s)
    (Hconv : env_kcp_GetConv conn = k) :
  (∃ w', server_accept_conn k conn w = (Ret tt, w') ∧ peer_joined k conn w w') ∧
  (∃ w', server_disconnect_session_by_convid tid k w = (Ret tt, w') ∧ peer_left tid k w w').
Proof.
  destruct (wp_server_accept k conn w Htun Hok Hconv) as ([] & w1 & H1 & P1).
  destruct (xwp_server_disconnect tid k s w Hok Hs) as ([] & w2 & H2 & P2).
  split; [by exists w1|by exists w2].
Qed.

(** C20: the ends of the channel experiment agree on the links of a tunnel whose id
    is a multiple of ten: after a connect on the client and the accept of the
    session it opened, if it opened one, both list the same ids under the tunnel
    of the client. *)
Theorem ends_gain_link (tid : Z) (src ifname gw : string) (wc ws : xworld)
    (Hup : x_up src) (Hpos : 0 < tid) (Hmax : tid + 11 <= 65536) (Hten : tid mod 10 = 0)
    (Hc : client_ok wc) (Hs : xserver_ok ws) (Hin : dom (xlinks wc tid) = dom (xpeers ws tid)) :
  ∃ wc', client_connect_server tid src ifname gw wc = (Ret tt, wc') ∧ client_ok wc' ∧
    (dom (xlinks wc' tid) = dom (xpeers ws tid) ∨
     ∃ k, (k ∉ dom (xlinks wc tid)) ∧ ∀ conn, env_kcp_GetConv conn = k →
       ∃ ws', server_accept_conn k conn ws = (Ret tt, ws') ∧ xserver_ok ws' ∧
         dom (xlinks wc' tid) = dom (xpeers ws' tid)).
Proof.
  destruct (xwp_connect src Hup tid ifname gw wc Hpos Hmax Hc)
    as ([] & wc' & Hrun & Hok & _ & _ & Hl).
  exists wc'. split; [done|]. split; [done|].
  case_bool_decide; [left; by rewrite Hl|].
  destruct Hl as [[_ Hl]|(avail & Hav & _ & Hfree & Hl)]; [left; by rewrite Hl|].
  right. exists avail. split; [by apply not_elem_of_dom|]. intros conn Hconv.
  destruct (wp_server_accept avail conn ws (up_tun _ Hup) Hs Hconv)
    as ([] & ws' & Hrun' & Hok' & Hp & _).
  assert (base_of avail = tid) as Hbase.
  { unfold base_of. pose proof (Z.div_mod tid 10).
    assert (avail / 10 = tid / 10) as ->; [|lia].
    symmetry. apply (Z.div_unique_pos avail 10 (tid / 10) (avail - tid)); lia. }
  rewrite Hbase in Hp. exists ws'. split_and!; [done|done|].
  by rewrite Hl, Hp, !dom_insert_L, Hin.
Qed.

(** A link down event takes the links of the interface down. *)
Lemma exp_disconnect_by_ifname (tid : Z) (ifname : string) (s : serverType) (w : xworld) :
  client_ok w → w.(g_server_list) !! tid = Some s →
  wp (client_disconnect_session_by_ifname tid ifname)
    (λ _, taken_down tid (λ _ lk, bool_decide (lk.1 = ifname)) w) w.
Proof.
  intros Hok Hs. unfold client_disconnect_session_by_ifname. xwp_steps. rewrite Hs.
  by eapply xwp_disconnect.
Qed.

(** An unknown tunnel is reported and then dereferenced by the other two, and by
    the server. *)
Lemma exp_disconnect_missing (tid k : Z) (src ifname gw : string) (w : xworld) :
  (w.(g_server_list) !! tid = None →
    (client_disconnect_session_by_src tid src ifname gw w).1 = Panic "nil *serverType" ∧
    (client_disconnect_session_by_convid tid k w).1 = Panic "nil *serverType") ∧
  (w.(g_client_list) !! tid = None →
    (server_disconnect_session_by_convid tid k w).1 = Panic "nil *clientType").
Proof.
  split; intros Hs.
  - unfold client_disconnect_session_by_src, client_disconnect_session_by_convid,
      client_disconnect_where, get_server, mbind, M_bind, getS. by rewrite Hs.
  - unfold server_disconnect_session_by_convid, get_client, mbind, M_bind, getS. by rewrite Hs.
Qed.
End theorems.

(** ** Witnesses *)

Lemma goroutines_invariant_witness : conf_ok (mkConf exp5 [(660, exp_pkt exp_len)] []).
Proof. apply goroutines_invariant. exact exp_steps. Defined.

Lemma exp_ok : conf_ok (mkConf exp5 [(660, exp_pkt exp_len)] []).
Proof.
  apply (rtc_ind_r (R := step) conf_ok init_conf); [apply init_conf_ok| |exact exp_steps].
  intros c1 c2 _ Hstep Hc1. by eapply step_ok.
Qed.
Lemma exp5_ok : client_ok exp5.
Proof. apply exp_ok. Qed.
Lemma exp_init_ok : client_ok init_xworld.
Proof. apply init_conf_ok. Qed.
Lemma exp_up_eth0 : x_up "192.168.1.20".
Proof. by apply (exp_up _ (Addr4 [192;168;1;20])). Qed.

Lemma connect_adds_link_witness :
  ∃ w', client_connect_server 660 "192.168.1.20" "eth0" "" init_xworld = (Ret tt, w') ∧
    connected 660 "192.168.1.20" "eth0" init_xworld w'.
Proof. apply (connect_adds_link 660 _ _ _ _ exp_up_eth0); [lia|lia|exact exp_init_ok]. Defined.

Lemma exp1_ok : client_ok exp1.
Proof. by apply (xwlp_connect 660 "192.168.1.20" "eth0" "" init_xworld) with tt;
  [lia|lia|apply exp_init_ok|apply exp1_run]. Qed.
Lemma exp2_ok : client_ok exp2.
Proof. by apply (xwlp_connect 660 "100.64.0.7" "ppp0" "" exp1) with tt;
  [lia|lia|apply exp1_ok|apply exp2_run]. Qed.

(** One of two sessions is dead: it is disconnected, the other chosen. *)
Definition exp_tunnel (w : xworld) : serverType := default new_serverType (w.(g_server_list) !! 660).
Lemma exp2_tunnel : exp2.(g_server_list) !! 660 = Some (exp_tunnel exp2).
Proof. apply default_lookup. vm_compute. reflexivity. Qed.
Lemma exp5_tunnel : exp5.(g_server_list) !! 660 = Some (exp_tunnel exp5).
Proof. apply default_lookup. vm_compute. reflexivity. Qed.
Lemma exp_tunnel_conns : xs_conns (exp_tunnel exp2) = {[660 := 0%nat; 661 := 2%nat]}.
Proof. vm_compute. reflexivity. Qed.
Lemma exp_tunnel_conns5 : xs_conns (exp_tunnel exp5) = {[660 := 0%nat]}.
Proof. vm_compute. reflexivity. Qed.

Lemma pick_finds_live_connection_witness :
  ∃ r w', client_pick 5 660 exp2 = (Ret r, w') ∧ picked 660 (exp_tunnel exp2) exp2 r w'.
Proof.
  apply (pick_finds_live_connection 5 660 (exp_tunnel exp2) exp2 exp2_ok exp2_tunnel).
  rewrite exp_tunnel_conns. vm_compute. lia.
Defined.

(** The packet that waits in the channel of 660 goes out with
    the bytes of the next one. *)
Definition exp_record_of : server_kcp := default new_server_kcp (exp5.(x_skcps) !! exp_conn).
Definition exp_buffer_of : list Z := default [] (exp5.(x_bufs) !! p_buff (exp_pkt exp_len)).
Lemma exp_record : exp5.(x_skcps) !! exp_conn = Some exp_record_of.
Proof. apply default_lookup. vm_compute. reflexivity. Qed.
Lemma exp_queue : exp5.(x_chans) !! exp_chan = Some (mkChan 100 [exp_pkt exp_len]).
Proof. vm_compute. reflexivity. Qed.
Lemma exp_buffer : exp5.(x_bufs) !! p_buff (exp_pkt exp_len) = Some exp_buffer_of.
Proof. apply default_lookup. vm_compute. reflexivity. Qed.
Definition exp_next : list Z := replicate (40 + exp5.(x_tick)) (Z.of_nat exp5.(x_tick)).
Lemma exp_bytes :
  take (Z.to_nat exp_len) (exp_next ++ drop (length exp_next) exp_buffer_of) =
  replicate (Z.to_nat exp_len) (Z.of_nat exp5.(x_tick)).
Proof. vm_compute. reflexivity. Qed.

Lemma queued_packet_overwritten_witness :
  ∃ r w1 b w2, client_tun_select 5 660 (exp_pkt exp_len) exp5 = (Ret r, w1) ∧
    p_buff <$> turn_packet r = Some (p_buff (exp_pkt exp_len)) ∧
    client_kcp_writer_turn 660 exp_conn exp_chan w1 = (Ret b, w2) ∧
    Ev (EvKcpWrite 660 (replicate (Z.to_nat exp_len) (Z.of_nat exp5.(x_tick)))) ∈ w2.(x_trace).
Proof.
  rewrite <- exp_bytes.
  apply (queued_packet_overwritten 5 660 (exp_tunnel exp5) 7 exp_conn exp_chan exp_record_of
    660 (mkChan 100 [exp_pkt exp_len]) (exp_pkt exp_len) (exp_pkt exp_len) [] exp_buffer_of exp_next
    exp5 exp5_ok exp5_tunnel); [| |exact exp_record| |exact exp_queue|..|exact exp_buffer|];
    try reflexivity.
  - rewrite exp_tunnel_conns5. vm_compute. lia.
Defined.

(** The first packet, before it is queued. *)
Lemma exp3_ok : client_ok exp3.
Proof.
  destruct (wlp_start 660 exp2 exp2_ok (Some (exp_pkt 0)) exp3 exp3_run) as [Hk _]. by apply Hk, exp2_ok.
Qed.
Lemma exp3_tunnel : exp3.(g_server_list) !! 660 = Some (exp_tunnel exp3).
Proof. apply default_lookup. vm_compute. reflexivity. Qed.
Lemma exp3_conns : xs_conns (exp_tunnel exp3) = {[660 := 0%nat; 661 := 2%nat]}.
Proof. vm_compute. reflexivity. Qed.
Lemma exp3_chans : exp3.(x_chans) = {[1%nat := make_chan 100; 3%nat := make_chan 100]}.
Proof. vm_compute. reflexivity. Qed.
Definition exp_first : list Z := replicate (40 + exp3.(x_tick)) (Z.of_nat exp3.(x_tick)).

(** A server with two sessions of the block 660. *)
Definition exp_srv : xworld :=
  (server_accept_conn 661 661 (server_accept_conn 660 660 init_xworld).2).2.
Definition exp_client : clientType := default new_clientType (exp_srv.(g_client_list) !! 660).
Lemma exp_srv_client : exp_srv.(g_client_list) !! 660 = Some exp_client.
Proof. apply default_lookup. vm_compute. reflexivity. Qed.

(** The outside of the server whose session answers with a hello and then with
    packets of the client. *)
Definition exp_reader : Env := {|
  env_int_bits := 64; env_now := env_now; env_range := env_range; env_exec := env_exec;
  env_tun_New := env_tun_New; env_tun_Name := env_tun_Name; env_tun_Write := env_tun_Write;
  env_tun_Read := env_tun_Read; env_Interfaces := env_Interfaces;
  env_InterfaceByIndex := env_InterfaceByIndex; env_lookup := env_lookup;
  env_ResolveTCP := env_ResolveTCP; env_ListenUDP := env_ListenUDP; env_http_get := env_http_get;
  env_pbkdf2 := env_pbkdf2; env_kcp_NewConn := env_kcp_NewConn; env_kcp_Listen := env_kcp_Listen;
  env_kcp_Accept := env_kcp_Accept; env_kcp_GetConv := env_kcp_GetConv;
  env_kcp_RemoteAddr := env_kcp_RemoteAddr; env_kcp_GetState := env_kcp_GetState;
  env_kcp_Write := env_kcp_Write;
  env_kcp_Read t _ := inl (if bool_decide (t = S exp_srv.(x_tick)) then hello else exp_first) |}.

Lemma packet_crosses_channels_witness :
  (xc_iface exp_client = Some 7 ∧ is_Some (exp_srv.(x_ckcps) !! 0%nat) ∧
   answers (E := exp_reader) 660 7 exp_srv.(x_tick) [hello; exp_first]) ∧
  ∃ r w1, client_tun_select 5 660 (exp_pkt 0) exp3 = (Ret r, w1) ∧
  match r with
  | TunReturn => False
  | TunContinue _ => xlinks w1 660 = ∅ ∧ xsent w1 = xsent exp3
  | TunSend l p =>
      ∃ c kcp ch w2 b w3, live_conn 660 l w1 ∧ w1.(x_skcps) !! l = Some c ∧
        c.(sk_kcp) = Some kcp ∧ c.(sk_writer_channel) = Some ch ∧
        client_tun_send l p w1 = (Ret tt, w2) ∧
        client_kcp_writer_turn 660 l ch w2 = (Ret b, w3) ∧
        xsent w3 = xsent exp3 ++ [(kcp, exp_first)] ∧
        ∀ (Es : Env) ws base k ls conn message cs stun reads, ws.(g_client_list) !! base = Some cs →
          cs.(xc_iface) = Some stun → is_Some (ws.(x_ckcps) !! ls) →
          answers (E := Es) conn stun ws.(x_tick) reads →
          ∃ ws', server_conn_loop (E := Es) (length reads) base k ls conn message ws = (Ret tt, ws') ∧
            ws'.(x_trace) = ws.(x_trace) ++
              ((λ d, Ev (EvTunWrite stun d)) <$> forwarded message reads) ∧
            (exp_first ∈ forwarded message reads ↔ exp_first ∈ reads)
  end.
Proof.
  split.
  { split; [vm_compute; reflexivity|]. split; [vm_compute; by eexists|].
    intros [|[|i]] data Hd; [..|done]; injection Hd as <-; (split; [done|split; [|done]]); simpl;
      [by rewrite bool_decide_eq_true_2|by rewrite bool_decide_eq_false_2 by lia]. }
  apply (packet_crosses_channels 5 660 (exp_tunnel exp3) 7 (exp_pkt 0) (replicate 1500 0) exp_first
    exp3 exp3_ok exp3_tunnel); try reflexivity.
  - rewrite exp3_conns. vm_compute. lia.
  - vm_compute. discriminate.
  - rewrite exp3_chans. by intros c q [[_ <-]|[_ [_ <-]%lookup_singleton_Some]]%lookup_insert_Some.
Defined.

Lemma stream_loses_packets_witness :
  forwarded [] [hello; [69; 1]] = [[69; 1]] ∧ forwarded [] [hello ++ [69; 1]] = [] ∧
  forwarded [] [[69; 1] ++ [70]] = [[69; 1] ++ [70]].
Proof. by apply (stream_loses_packets [] [69; 1] [70]). Defined.

Lemma exp_tun_named : tun_named.
Proof. exact (up_tun _ exp_up_eth0). Qed.
Lemma server_goroutines_invariant_witness : sconf_ok (mkConf srv5 [(660, srv_pkt srv_len)] []).
Proof. apply (server_goroutines_invariant _ exp_tun_named srv_steps). Defined.
Lemma exp_srv_ok : xserver_ok exp_srv.
Proof.
  assert (∀ k w, xserver_ok w → xserver_ok (server_accept_conn k k w).2) as H.
  { intros k w Hw. destruct (wp_server_accept k k w exp_tun_named Hw eq_refl) as (r & w' & Hrun & Hp & _).
    by rewrite Hrun. }
  by apply H, H, xserver_init.
Qed.
Lemma exp_srv_peers : xpeers exp_srv 660 = {[660 := 660; 661 := 661]}.
Proof. vm_compute. reflexivity. Qed.

Lemma server_keeps_peers_witness :
  (∃ w', server_accept_conn 661 661 exp_srv = (Ret tt, w') ∧ peer_joined 661 661 exp_srv w') ∧
  (∃ w', server_disconnect_session_by_convid 660 661 exp_srv = (Ret tt, w') ∧
    peer_left 660 661 exp_srv w').
Proof.
  exact (server_keeps_peers 661 660 661 exp_client exp_srv exp_tun_named exp_srv_ok exp_srv_client eq_refl).
Defined.

Lemma exp_ends : dom (xlinks exp2 660) = dom (xpeers exp_srv 660).
Proof. vm_compute. reflexivity. Qed.
Lemma ends_gain_link_witness :
  ∃ wc', client_connect_server 660 "192.168.1.21" "eth1" "" exp2 = (Ret tt, wc') ∧ client_ok wc' ∧
    (dom (xlinks wc' 660) = dom (xpeers exp_srv 660) ∨
     ∃ k, (k ∉ dom (xlinks exp2 660)) ∧ ∀ conn, env_kcp_GetConv conn = k →
       ∃ ws', server_accept_conn k conn exp_srv = (Ret tt, ws') ∧ xserver_ok ws' ∧
         dom (xlinks wc' 660) = dom (xpeers ws' 660)).
Proof.
  apply (ends_gain_link 660 "192.168.1.21" "eth1" "" exp2 exp_srv); [|lia|lia|reflexivity|..].
  - by apply (exp_up _ (Addr4 [192;168;1;21])).
  - exact exp2_ok.
  - exact exp_srv_ok.
  - exact exp_ends.
Defined.
